(* ===== verification/_CoqProject ===== *)
-Q . S2P
Prelude.v
Heap.v
MetaTypes.v
ResourceShapes.v
GoStrings.v
GoNet.v
GoCrypto.v
GoPath.v
GoJson.v
GoJsonDecode.v
Utils.v
UtilsSpec.v
Process.v
FlowEnums.v
FlowApi.v
AnyModel.v
FlowItems.v
FlowItemsSpec.v
Sriov.v
FlowTyping.v
FlowTypes.v
FlowCopies.v
FlowSets.v
Webhook.v
WebhookSpec.v
Dcf.v
NodeFlowConfig.v
NodeFlowConfigSpec.v
NodeFlowConfigDevice.v
NodeFlowConfigRuns.v
DcfSpec.v
FlowTranslation.v
ClusterFlowConfig.v
ClusterFlowConfigSpec.v
ClusterRuns.v
FlowSystem.v
RuleMemory.v
EthernetTypes.v
EthernetCopies.v
CopiesSpec.v
FwDdpManager.v
FwDdpManagerSpec.v
DrainHelper.v
Inventory.v
Updaters.v
Daemon.v
DaemonTrace.v
DaemonProtocol.v
DaemonSpec.v
AgentDeployment.v
AgentDeploymentSpec.v
Labeler.v
LabelerSpec.v
Assets.v
AssetsSpec.v
Startup.v
StartupSpec.v
