(* ===== verification/Prelude.v ===== *)
(** * A verification of the Intel Ethernet Operator

    The operator configures Intel Ethernet E810 devices in a Kubernetes cluster. It has two
    halves that share no state: flow configuration (rules of the network flow engine of a
    card, given to a DPDK process, the DCF daemon, over gRPC) and firmware and DDP
    management (update of the firmware and of the device personalisation package of a card).
    This library translates the Go code of both into executable definitions and proves what
    makes them correct, and where they are not, what goes wrong.

    ** The program

    Flow configuration. A user writes a ClusterFlowConfig; the webhook checks it
    (apis/flowconfig/v1); the cluster controller (controllers/flowconfig/
    clusterflowconfig_controller.go) turns it into rules for the nodes of the selected pods,
    written to the NodeFlowConfig of each node, which a webhook checks too; on the node, the
    node controller (nodeflowconfig_controller.go) packs the rules into protobuf messages
    (pkg/flowconfig/utils, pkg/flowconfig/rpc/v1/flow) and creates and destroys flows
    through the flow service, keeping the set of those it created (pkg/flowconfig/flowsets).

    Firmware and DDP. A user writes an EthernetClusterConfig (apis/ethernet/v1); the manager
    (pkg/fwddp-manager) chooses one for each device of each node and writes the
    EthernetNodeConfig of the node; the daemon of the node (pkg/fwddp-daemon) downloads and
    unpacks the packages (pkg/utils), drains the node (pkg/drainhelper), updates the
    devices, reboots, and reports in the status, with the inventory of its devices.

    Around them. The operator's main program (main.go) finds out the type of the cluster,
    sets up the controllers and webhooks, and has the assets manager (pkg/utils/assets)
    deploy the manifests of the labeler and of the firmware daemon; the labeler
    (pkg/labeler) labels the nodes that have a supported device. The daemons of the nodes
    have main programs of their own (cmd).

    ** The files

    Go's semantics and standard library, each function modelled as documented and
    executable:
    - [Prelude] (this file): outcomes of a call (value, error, panic), a state monad that
      keeps what was written before an error, loops, map iteration in any order
      ([MapOrder]), invariants on every exit ([preserves], [ensures]), tactics and the hint
      database [preserves];
    - [GoStrings], [GoNet], [GoPath], [GoCrypto]: packages strings, strconv, unicode/utf8;
      net and encoding/binary; path/filepath; crypto/sha256, crypto/sha1;
    - [GoJson], [GoJsonDecode]: encoding/json, parsing and the decoding into structs with
      [DisallowUnknownFields];
    - [Process]: the environment of a process and the settings read from it (pkg/utils,
      NewDrainHelper), and the retry loop [ExponentialBackoff] with its laws;
    - [Heap]: memory with shared cells, pointers, slices and maps into it, the class of types
      with a deep copy and its law; [MetaTypes]: the types of k8s.io/apimachinery that the
      resources contain, as a parameter with that law; [ResourceShapes]: the structs of
      resources and of lists of them.

    Flow configuration:
    - [FlowEnums], [FlowApi]: the enumerations and messages of flow.pb.go, each message as
      the table of its JSON fields, the ones the code reads by field also as records, and the
      interface [AnyCodec] of protobuf Any with the law that what is packed unpacks;
    - [AnyModel]: an implementation of [AnyCodec], for concrete runs;
    - [FlowItems] (eth.go, ipv4.go, userTypes.go, helper.go, pkg/flowconfig/utils/utils.go),
      [Sriov] (pkg/flowconfig/sriovutils, on a sysfs), [FlowTypes] (the custom resources), [FlowSets] (flowsets.go), [Webhook] (validate.go,
      webhook_common.go and the two webhooks), [Dcf] (dcf_client.go, its
      methods, connections and readiness check, and the client interface of flow_grpc.pb.go), [NodeFlowConfig] and [ClusterFlowConfig] (the two controllers),
      [AgentDeployment] (the controller of the flow daemon's pods);
    - [FlowCopies] (apis/flowconfig/v1/zz_generated.deepcopy.go), [RuleMemory] (the rules the
      cluster controller makes, with their pointers), on the heap;
    - [FlowItemsSpec], [FlowTyping], [WebhookSpec], [NodeFlowConfigSpec],
      [NodeFlowConfigDevice], [NodeFlowConfigRuns], [DcfSpec], [FlowTranslation],
      [ClusterFlowConfigSpec], [ClusterRuns], [FlowSystem], [AgentDeploymentSpec]: the
      theorems ([Sriov] and
      [RuleMemory] are proved in their files).

    Firmware and DDP:
    - [EthernetTypes] (apis/ethernet/v1), [FwDdpManager] (ethernetclusterconfig_controller.go
      and the decision to skip the drain of pkg/utils), [Utils] (files, downloads and
      archives of pkg/utils/utils.go), [DrainHelper], [Inventory], [Updaters] (fwupdater.go,
      ddpupdater.go, deviceupdate.go), [Daemon] (daemon.go), [EthernetCopies]
      (apis/ethernet/v1/zz_generated.deepcopy.go, on the heap);
    - [FwDdpManagerSpec], [UtilsSpec], [DaemonTrace], [DaemonProtocol], [DaemonSpec]: the
      theorems ([DrainHelper] and [Inventory] are proved in their file and in [DaemonSpec]);
      [CopiesSpec]: the deep copies of both packages.

    Labeler, assets and entry points:
    - [Labeler] (labeler.go, the device maps of pkg/utils and daemon.go), [Assets] (asset.go,
      manager.go), [Startup] (main.go, the programs under cmd, the construction of the
      daemon's reconciler);
    - [LabelerSpec], [AssetsSpec], [StartupSpec]: the theorems.

    Definitions keep the Go names; a loop or a closure of a function that is a definition of
    its own has a name of its own. A type with fields is a record; a field name that two
    types share carries a prefix in one of them.

    ** What is proved

    Flow rules, from the user to the device. [WebhookSpec] says exactly which rules the
    webhooks accept (patterns, actions, attributes, IPv4 items, VF actions) and where they
    panic. [FlowTranslation.accepted_rule_translates]: an accepted rule is translated by the
    node controller without error; [ClusterFlowConfigSpec.generated_rule_accepted]: every
    rule the cluster controller generates is accepted. [FlowItemsSpec]: packing of items and
    actions, addresses. [FlowTyping.packed_messages_typed]: a packed item or action is a
    well-typed message of the Go type that belongs to its name.
    [Sriov.vf_address_selects_vf]: an action by PCI address is packed with the index under
    which the sysfs lists that virtual function.

    The set of created flows. [NodeFlowConfigSpec.getToAddAndDelete_spec] and [syncRules_spec]
    say what a synchronisation creates and destroys, on every exit; it terminates
    ([syncRules_returns]) and is idempotent ([second_synchronisation_is_idle]);
    [NodeFlowConfigDevice.Reconcile_tracks_installed] is the simulation between the cache and
    a model of the device, [NodeFlowConfigRuns.runs_track_installed] the invariant of the
    controller as a state machine, from its start through any run, and what the device holds
    after a synchronisation; [deleteRule_ignores_refusal] is the case that breaks it and
    [restarts_orphan_flows] what a restart costs. [DcfSpec]: no exit of any method of the
    client leaves a connection open, and when the readiness check succeeds.

    The rules of a node. [ClusterFlowConfigSpec]: regeneration and cleaning of a
    NodeFlowConfig, the event mapping, and two ways in which pods of one node lose rules.
    [ClusterRuns], against a server that keeps what is written: a whole reconciliation leaves
    exactly the rules of a reference without loops and without state
    ([Reconcile_writes_rules]), and applying and deleting a resource is as if it had never
    been there, but for the rules it had in common with others ([apply_then_delete]).

    The two controllers together. [FlowSystem] has the cluster controller and the daemon of
    a node around one API server: an accepted resource reaches the device
    ([rules_reach_device]), a deleted one leaves it ([deleted_rules_leave_device]), and a
    rule without action stops the synchronisation of its node
    ([rule_without_action_blocks_node]).

    Memory. [CopiesSpec.deep_copies_isolated]: every deep copy of a resource, of a list or of
    a part of one reads as the original, from cells of its own, so that no write to one
    changes the other. [RuleMemory.newRule_in_memory]: the cluster controller's making of a
    rule, which copies the pattern and shares the attributes and configurations, does what
    the model on values says.

    The pods of the flow daemon. [AgentDeploymentSpec]: what a pod asks for, when it is
    replaced, and what a change of the pool leaves in the shared template.

    Choice of configurations. [FwDdpManagerSpec]: priority, age and order decide; a
    reconciliation converges and is idempotent; a withdrawn configuration stays.

    Files. [UtilsSpec], against a file system with hard and symbolic links: unpacking never
    leaves its destination; a download that succeeds has its checksum.

    Updates of a node. [DaemonProtocol.Reconcile_protocol]: every reconciliation follows a
    protocol automaton (cordon, drain, update, announce, reboot), proved for an environment
    whose answers are arbitrary functions of the history ([DaemonTrace]);
    [DrainHelper.Run_cordons]; exit codes and the inventory in [DaemonSpec], with two
    failures of the announcement of a reboot; the settings in [Process.NewDrainHelper_lease].

    Start and deployment. [AssetsSpec]: a deployment brings every object of the assets to
    what is wanted, touches no other, and is idempotent ([Deploy_converges]); the template
    variables, the splitting of manifests, and what waiting for a DaemonSet establishes.
    [LabelerSpec]: which nodes get the label, and which device maps are read. [StartupSpec]:
    a manager that is started has all its controllers and, in a pod, its assets
    ([operator_starts_complete]); the type of the cluster decides which assets; the settings
    of the webhook server.

    ** How the code is modelled

    - Strings and byte slices are strings of bytes; an unsigned integer is a [Z] with its
      bound or wrap-around written out; a pointer that may be nil is an option, and a
      dereference of nil is the outcome [Panic]. Elements of lists of the custom resources
      are taken not to be nil (the schema of the resource refuses null).
    - An error keeps the constant text of the call that builds it, not its arguments. A gRPC
      call that fails returns a nil response.
    - The API server, the flow service, the operating system, the hardware and other modules
      are type classes over the state, with a second class of laws where a theorem needs
      more than their type; each law is documented behaviour and has an instance in the
      library. Protobuf's reflection, label selectors, [DeepDerivative], the retry loops of
      client-go and the leader election are such parameters.
    - Logging, the timing of retries, mutexes (every reconciler runs with one worker), and
      closing files are not modelled. The lease of the drain helper is taken to be kept
      until the worker is done. Connections of the flow client are counted.
    - A variable that a closure assigns is passed to it and returned; an object that is
      shared through a pointer is shared in the model where that is visible (the
      NodeFlowConfig objects of [syncClusterConfigForNodes], the EthernetNodeConfig that
      every status update of the daemon reads again, the template of the daemon's pods).
      Where aliasing is the point, deep copies and the rules made of a cluster rule, the
      cells are explicit: a cell of [Heap] holds the encoding of a value, a reference its
      address, and what a value stands for is read through the references.
    - Fuel: JSON parsing takes fuel from the length of its input ([json_fuel], with the
      lemma that values nest less deep); printing a number takes the number of its binary
      digits; the groups of a digest, their number. All other recursion is structural.

    ** What is not modelled

    Generated code other than the flow messages and the deep copies: mocks, protobuf
    descriptors, accessors and client stubs. The registration of types and the
    builders of controller-runtime in SetupWithManager, of which the event filters and
    mappings are modelled. Loggers, the log writer, metrics and the parsing of command line
    flags. The helpers that only tests use (sriovutils/testing.go). *)

From Stdlib Require Export Ascii.
From stdpp Require Export base tactics option list strings gmap sets.
From Stdlib Require Export ZArith Lia.

(** Errors are identified by the place that builds them: [Errorf] and [Wrapf] carry
    the constant format string of the [fmt.Errorf] / [errors.New] call (and the wrapped
    error), [ApiError] is an error of the Kubernetes API server with its reason and
    text, [ExtError] an error of other code outside the repository. *)
Inductive api_reason : Set :=
  | NotFound
  | Conflict
  | OtherReason.

#[export] Instance api_reason_eq_dec : EqDecision api_reason.
Proof. solve_decision. Defined.

Inductive error : Set :=
  | Errorf (fmt : string)
  | Wrapf (fmt : string) (cause : error)
  | ApiError (reason : api_reason) (text : string)
  | ExtError (text : string).

#[export] Instance error_eq_dec : EqDecision error.
Proof. solve_decision. Defined.

(** [errors.IsNotFound] of k8s.io/apimachinery. *)
Definition IsNotFound (e : error) : bool :=
  match e with ApiError NotFound _ => true | _ => false end.

(** [err.Error()]; the arguments of a format are not kept. *)
Fixpoint error_text (e : error) : string :=
  match e with
  | Errorf fmt => fmt
  | Wrapf fmt cause => fmt +:+ error_text cause
  | ApiError _ text => text
  | ExtError text => text
  end.

(** The outcome of a Go call: a value, a returned error, or a run-time panic. *)
Inductive outcome (A : Type) : Type :=
  | Ok (a : A)
  | Err (e : error)
  | Panic.
Arguments Ok {A} a.
Arguments Err {A} e.
Arguments Panic {A}.

#[export] Instance outcome_eq_dec {A} `{EqDecision A} : EqDecision (outcome A).
Proof. solve_decision. Defined.

#[export] Instance outcome_ret : MRet outcome := @Ok.
#[export] Instance outcome_bind : MBind outcome := λ A B f m,
  match m with Ok a => f a | Err e => Err e | Panic => Panic end.
#[export] Instance outcome_fmap : FMap outcome := λ A B f m,
  match m with Ok a => Ok (f a) | Err e => Err e | Panic => Panic end.

Declare Scope go_scope.
Delimit Scope go_scope with go.

(** [if c { return e }] of a function that returns only an error. *)
Notation "'reject' e 'when' c" := (if c then Err e else Ok tt)
  (at level 65, e at level 60, c at level 60) : go_scope.

(** ** Stateful code: a state of type [W] is threaded through, and what was written
    before an error or a panic stays written, as in Go. *)
Definition M (W A : Type) : Type := W → outcome A * W.

#[export] Instance M_ret {W} : MRet (M W) := λ A a w, (Ok a, w).
#[export] Instance M_bind {W} : MBind (M W) := λ A B f m w,
  match m w with
  | (Ok a, w') => f a w'
  | (Err e, w') => (Err e, w')
  | (Panic, w') => (Panic, w')
  end.

Section state_operations.
Context {W : Type}.

Definition throw {A} (e : error) : M W A := λ w, (Err e, w).
Definition panic {A} : M W A := λ w, (Panic, w).
Definition lift {A} (o : outcome A) : M W A := λ w, (o, w).
Definition gets {A} (f : W → A) : M W A := λ w, (Ok (f w), w).
Definition modify (f : W → W) : M W unit := λ w, (Ok tt, f w).

(** [x, err := m()] where the caller looks at [err] itself; panics go through. *)
Definition attempt {A} (m : M W A) : M W (error + A) := λ w,
  match m w with
  | (Ok a, w') => (Ok (inr a), w')
  | (Err e, w') => (Ok (inl e), w')
  | (Panic, w') => (Panic, w')
  end.

(** [for _, x := range l { body }] with early return on error. *)
Fixpoint forM {A} (l : list A) (body : A → M W unit) : M W unit :=
  match l with
  | [] => mret tt
  | x :: l => body x;; forM l body
  end.
End state_operations.

(** [x, err := m()] that gives up with [fmt.Errorf(fmt, ..., err)]. *)
Definition wrap {A} (fmt : string) (o : outcome A) : outcome A :=
  match o with Err e => Err (Wrapf fmt e) | _ => o end.

Definition wrapM {W A} (fmt : string) (m : M W A) : M W A := λ w,
  let (o, w') := m w in (wrap fmt o, w').

(** [for _, x := range l { y, err := body(x); ...; ys = append(ys, y) }] *)
Fixpoint collectM {W A B} (body : A → M W B) (l : list A) : M W (list B) :=
  match l with
  | [] => mret []
  | x :: l => y ← body x; ys ← collectM body l; mret (y :: ys)
  end.

Fixpoint collect {A B} (body : A → outcome B) (l : list A) : outcome (list B) :=
  match l with
  | [] => Ok []
  | x :: l => y ← body x; ys ← collect body l; Ok (y :: ys)
  end.

(** [for k, v := range m] visits the entries of a map once each, in an order that is not
    specified: any permutation. *)
Class MapOrder : Type := {
  range_map {K} `{Countable K} {A} : gmap K A → list (K * A);
  range_map_perm {K} `{Countable K} {A} (m : gmap K A) : range_map m ≡ₚ map_to_list m;
}.

(** The order the library's maps list their entries in. *)
Definition listed_order : MapOrder :=
  {| range_map K _ _ A m := map_to_list m; range_map_perm K _ _ A m := Permutation_refl _ |}.

(** [for i, x := range l] in code that only returns errors. *)
Fixpoint range_check {A} (i : nat) (l : list A) (body : nat → A → outcome unit) : outcome unit :=
  match l with
  | [] => Ok tt
  | x :: l => body i x;; range_check (S i) l body
  end.

(** ** Invariants of stateful code, kept on every exit *)
Definition preserves {W A} (P : W → Prop) (m : M W A) : Prop :=
  ∀ w, P w → P (m w).2.

Section preserves_rules.
Context {W : Type} (P : W → Prop).

Lemma preserves_ret {A} (a : A) : preserves P (mret a).
Proof. by intros w. Qed.
Lemma preserves_throw {A} e : preserves P (throw (A:=A) e).
Proof. by intros w. Qed.
Lemma preserves_panic {A} : preserves P (panic (A:=A)).
Proof. by intros w. Qed.
Lemma preserves_lift {A} (o : outcome A) : preserves P (lift o).
Proof. by intros w. Qed.
Lemma preserves_gets {A} (f : W → A) : preserves P (gets f).
Proof. by intros w. Qed.
Lemma preserves_modify f : (∀ w, P w → P (f w)) → preserves P (modify f).
Proof. by intros Hf w; apply Hf. Qed.
Lemma preserves_bind {A B} (m : M W A) (f : A → M W B) :
  preserves P m → (∀ a, preserves P (f a)) → preserves P (m ≫= f).
Proof.
  intros Hm Hf w Hw. specialize (Hm w Hw).
  unfold mbind, M_bind. destruct (m w) as [[a|e|] w']; simpl in *; try done.
  by apply Hf.
Qed.
Lemma preserves_attempt {A} (m : M W A) : preserves P m → preserves P (attempt m).
Proof.
  intros Hm w Hw. specialize (Hm w Hw). unfold attempt.
  by destruct (m w) as [[a|e|] w'].
Qed.
Lemma preserves_wrapM {A} fmt (m : M W A) : preserves P m → preserves P (wrapM fmt m).
Proof. intros Hm w Hw. specialize (Hm w Hw). unfold wrapM. by destruct (m w). Qed.
Lemma preserves_collectM {A B} (l : list A) (body : A → M W B) :
  (∀ x, x ∈ l → preserves P (body x)) → preserves P (collectM body l).
Proof.
  induction l as [|x l IH]; intros Hb; simpl; [apply preserves_ret|].
  apply preserves_bind; [apply Hb; set_solver|]. intros y.
  apply preserves_bind; [|intros ys; apply preserves_ret].
  apply IH. intros z Hz. apply Hb. set_solver.
Qed.
Lemma preserves_forM {A} (l : list A) body :
  (∀ x, x ∈ l → preserves P (body x)) → preserves P (forM l body).
Proof.
  induction l as [|x l IH]; intros Hb; simpl; [apply preserves_ret|].
  apply preserves_bind; [apply Hb; set_solver|]. intros _. apply IH.
  intros y Hy. apply Hb. set_solver.
Qed.
End preserves_rules.

(** Reading the state only matters through what the invariant says of it. *)
Lemma preserves_gets_bind {W A B} (P : W → Prop) (f : W → A) (k : A → M W B) :
  (∀ w, P w → preserves P (k (f w))) → preserves P (gets f ≫= k).
Proof. intros Hk w Hw. by apply (Hk w Hw). Qed.

(** What a computation guarantees of the state after it: [Q] when it returns, [R] when it
    gives up. *)
Definition ensures {W A} (m : M W A) (w : W) (Q : A → W → Prop) (R : W → Prop) : Prop :=
  match m w with
  | (Ok a, w') => Q a w'
  | (_, w') => R w'
  end.

Lemma ensures_bind {W A B} (m : M W A) (k : A → M W B) w Q R :
  ensures m w (λ a w', ensures (k a) w' Q R) R → ensures (m ≫= k) w Q R.
Proof. unfold ensures, mbind, M_bind. by destruct (m w) as [[a|e|] w']. Qed.

Lemma ensures_attempt {W A} (m : M W A) w (Q : error + A → W → Prop) (R : W → Prop) :
  ensures m w (λ a w', Q (inr a) w') R →
  (∀ e w', m w = (Err e, w') → Q (inl e) w') →
  ensures (attempt m) w Q R.
Proof. unfold ensures, attempt. destruct (m w) as [[a|e|] w']; naive_solver. Qed.

Lemma ensures_mono {W A} (m : M W A) w (Q Q' : A → W → Prop) (R R' : W → Prop) :
  ensures m w Q R → (∀ a w', Q a w' → Q' a w') → (∀ w', R w' → R' w') → ensures m w Q' R'.
Proof. unfold ensures. destruct (m w) as [[a|e|] w']; naive_solver. Qed.

Lemma ensures_and {W A} (m : M W A) w (Q Q' : A → W → Prop) (R R' : W → Prop) :
  ensures m w Q R → ensures m w Q' R' → ensures m w (λ a w', Q a w' ∧ Q' a w') (λ w', R w' ∧ R' w').
Proof. unfold ensures. destruct (m w) as [[a|e|] w']; naive_solver. Qed.

(** The two ways to say that an invariant holds on every exit. *)
Lemma ensures_preserved {W A} (m : M W A) w (P : W → Prop) :
  ensures m w (λ _ w', P w') P ↔ P (m w).2.
Proof. unfold ensures. by destruct (m w) as [[a|e|] w']. Qed.

Lemma ensures_of_preserves {W A} (P : W → Prop) (m : M W A) w :
  preserves P m → P w → ensures m w (λ _, P) P.
Proof. intros Hm Hw. by apply ensures_preserved, Hm. Qed.

(** A loop that keeps [P] of the elements still to come. *)
Lemma ensures_forM {W A} (l : list A) (body : A → M W unit) (P : list A → W → Prop) (R : W → Prop) w :
  P l w →
  (∀ x rest w, (∃ pre, l = pre ++ x :: rest) → P (x :: rest) w →
     ensures (body x) w (λ _ w', P rest w') R) →
  ensures (forM l body) w (λ _ w', P [] w') R.
Proof.
  revert w. induction l as [|x l IH]; intros w HP Hbody; simpl; [done|].
  apply ensures_bind. eapply ensures_mono; [apply Hbody; [by exists []|done]| |done].
  intros [] w' HP'. apply IH; [done|].
  intros y rest w'' [pre ->] HP''. apply Hbody; [by exists (x :: pre)|done].
Qed.

Create HintDb preserves.
#[export] Hint Constants Opaque : preserves.
#[export] Hint Resolve preserves_ret preserves_throw preserves_panic preserves_lift
  preserves_gets preserves_attempt preserves_bind preserves_forM
  preserves_wrapM preserves_collectM : preserves.

(** ** Tactics of the development *)

(** Splits on what the next call of a chain of outcomes returned. *)
Ltac step_outcome H :=
  match type of H with
  | context [mbind _ ?m] =>
      let E := fresh "E" in destruct m eqn:E; simpl in H; try discriminate H
  end.

(** Unfolds the outcome monad in a goal or hypothesis. *)
Ltac unfold_outcome :=
  unfold mbind, outcome_bind, mret, outcome_ret, fmap, outcome_fmap in *; simpl in *.

Ltac unfold_state :=
  unfold mbind, M_bind, mret, M_ret, throw, panic, lift, gets, modify, attempt in *;
  simpl in *.

(** Splits every [if] and [match] on a boolean test of the goal, then [lia]. *)
Ltac split_ifs :=
  repeat match goal with
  | |- context [if ?c then _ else _] => destruct c eqn:?
  | H : context [if ?c then _ else _] |- _ => destruct c eqn:?
  end.

(** Boolean order tests on [Z] to propositions. *)
Ltac bool_to_prop :=
  repeat match goal with
  | H : andb _ _ = true |- _ => apply andb_prop in H; destruct H
  | H : orb _ _ = false |- _ => apply orb_false_iff in H; destruct H
  | H : negb _ = true |- _ => apply negb_true_iff in H
  | H : negb _ = false |- _ => apply negb_false_iff in H
  | H : (_ <? _)%Z = true |- _ => apply Z.ltb_lt in H
  | H : (_ <? _)%Z = false |- _ => apply Z.ltb_ge in H
  | H : (_ <=? _)%Z = true |- _ => apply Z.leb_le in H
  | H : (_ <=? _)%Z = false |- _ => apply Z.leb_gt in H
  | H : (_ =? _)%Z = true |- _ => apply Z.eqb_eq in H
  | H : (_ =? _)%Z = false |- _ => apply Z.eqb_neq in H
  | H : bool_decide _ = true |- _ => apply bool_decide_eq_true in H
  | H : bool_decide _ = false |- _ => apply bool_decide_eq_false in H
  end.

(** ** Shared lemmas *)

Lemma outcome_bind_Ok {A B} (m : outcome A) (f : A → outcome B) b :
  m ≫= f = Ok b ↔ ∃ a, m = Ok a ∧ f a = Ok b.
Proof. destruct m; unfold_outcome; naive_solver. Qed.

Lemma outcome_bind_unit_Ok (m : outcome unit) (k : outcome unit) :
  (m;; k) = Ok tt ↔ m = Ok tt ∧ k = Ok tt.
Proof. destruct m as [[]| |]; unfold_outcome; naive_solver. Qed.

Lemma collect_length {A B} (body : A → outcome B) l ys :
  collect body l = Ok ys → length ys = length l.
Proof.
  revert ys. induction l as [|x l IH]; intros ys; cbn; [naive_solver|].
  intros H. apply outcome_bind_Ok in H as (y & _ & H). apply outcome_bind_Ok in H as (zs & Hz & [= <-]).
  cbn. f_equal. by apply IH.
Qed.

Lemma collect_lookup {A B} (body : A → outcome B) l ys i x :
  collect body l = Ok ys → l !! i = Some x → ∃ y, body x = Ok y ∧ ys !! i = Some y.
Proof.
  revert ys i. induction l as [|z l IH]; intros ys [|i]; cbn; try done.
  - intros H [= ->]. apply outcome_bind_Ok in H as (y & Hy & H). apply outcome_bind_Ok in H as (zs & _ & [= <-]). eauto.
  - intros H Hi. apply outcome_bind_Ok in H as (y & _ & H). apply outcome_bind_Ok in H as (zs & Hz & [= <-]).
    by apply (IH zs).
Qed.

Lemma reject_Ok (c : bool) e : (if c then Err e else Ok tt) = Ok tt ↔ c = false.
Proof. by destruct c. Qed.

Lemma wrap_panic {A} fmt (o : outcome A) : wrap fmt o = Panic ↔ o = Panic.
Proof. by destruct o. Qed.

Lemma wrap_Ok {A} fmt (o : outcome A) a : wrap fmt o = Ok a ↔ o = Ok a.
Proof. by destruct o. Qed.

Lemma bind_panic {A B} (m : outcome A) (f : A → outcome B) :
  m ≫= f = Panic ↔ m = Panic ∨ ∃ a, m = Ok a ∧ f a = Panic.
Proof. destruct m; unfold_outcome; naive_solver. Qed.

Lemma fmap_panic {A B} (m : outcome A) (f : A → B) : f <$> m = Panic ↔ m = Panic.
Proof. by destruct m. Qed.

Lemma fmap_Ok {A B} (f : A → B) (m : outcome A) b : f <$> m = Ok b ↔ ∃ a, m = Ok a ∧ b = f a.
Proof. destruct m; unfold_outcome; naive_solver. Qed.

(** A chain of checks that cannot panic does not. *)
Lemma checks_no_panic (m k : outcome unit) : m ≠ Panic → k ≠ Panic → (m;; k) ≠ Panic.
Proof. intros Hm Hk. rewrite bind_panic. naive_solver. Qed.

Lemma reject_no_panic e (c : bool) : (if c then Err e else Ok tt) ≠ Panic.
Proof. by destruct c. Qed.

Lemma some_forall {A} (x : A) (P : A → Prop) : (∀ y, Some x = Some y → P y) ↔ P x.
Proof. naive_solver. Qed.

Lemma range_map_elem `{MapOrder} `{Countable K} {A} (m : gmap K A) k x :
  (k, x) ∈ range_map m ↔ m !! k = Some x.
Proof. by rewrite range_map_perm, elem_of_map_to_list. Qed.

Lemma range_map_keys `{MapOrder} `{Countable K} {A} (m : gmap K A) : NoDup (range_map m).*1.
Proof. rewrite range_map_perm. apply NoDup_fst_map_to_list. Qed.

Lemma range_map_empty `{MapOrder} `{Countable K} {A} : range_map (∅ : gmap K A) = [].
Proof. apply Permutation_nil_r. by rewrite range_map_perm, map_to_list_empty. Qed.

(** Insertions one after the other: the last one of a key counts. *)
Lemma foldl_insert {K V} `{Countable K} (l : list (K * V)) (m : gmap K V) :
  foldl (λ out e, <[e.1 := e.2]> out) m l = list_to_map (rev l) ∪ m.
Proof.
  revert m. induction l as [|e l IH]; intros m; cbn; [by rewrite map_empty_union|].
  rewrite IH, list_to_map_app, <- map_union_assoc. f_equal. cbn.
  by rewrite insert_empty, insert_union_singleton_l.
Qed.

Lemma range_check_Ok {A} (l : list A) body i :
  range_check i l body = Ok tt ↔ ∀ j x, l !! j = Some x → body (i + j) x = Ok tt.
Proof.
  revert i; induction l as [|x l IH]; intros i; simpl; [naive_solver|].
  rewrite outcome_bind_unit_Ok, IH. split.
  - intros [Hx Hl] [|j] y; simpl; [intros [= <-]; by rewrite Nat.add_0_r|].
    intros Hy. rewrite Nat.add_succ_r. by apply Hl.
  - intros H. split.
    + specialize (H 0 x eq_refl). by rewrite Nat.add_0_r in H.
    + intros j y Hy. specialize (H (S j) y Hy). by rewrite Nat.add_succ_r in H.
Qed.
