(* ===== verification/Heap.v ===== *)
(** * Memory that is shared, and copies of what it holds

    Pointers, slices and maps of Go as references into a heap, reading what a reference
    stands for, and the class of types that have a deep copy. The law of the class: the copy
    reads as the original, no cell that existed is changed, and the copy needs none of
    them. The copies of pointers, slices and maps have the law if those of what they hold
    do; the tactic [solve_copies] derives it for a struct from its fields. *)

From S2P Require Import Prelude.

(** ** The heap

    A cell holds a value of any type that can be encoded; Go's types say which. *)
Notation loc := positive.
Notation heap := (gmap loc positive).

Definition get `{Countable T} (h : heap) (l : loc) : option T := h !! l ≫= decode.

(** [p := new(T); *p = v], or a literal or [make] whose content is [v]. *)
Definition new `{Countable T} (v : T) : M heap loc := λ h,
  let l := fresh (dom h) in (Ok l, <[l := encode v]> h).

(** What is at a reference; without anything there the code would crash. *)
Definition load `{Countable T} (l : loc) : M heap T := λ h,
  match get h l with Some v => (Ok v, h) | None => (Panic, h) end.

(** A pointer, [None] for nil. *)
Record ptr (T : Type) : Set := Ptr { addr : option loc }.
Arguments Ptr {T} addr.
Arguments addr {T} p.

(** A slice: nil, or the array, the offset in it and the length. *)
Record slice (T : Type) : Set := Slice { backing : option (loc * nat * nat) }.
Arguments Slice {T} backing.
Arguments backing {T} s.

(** A map, [None] for nil. *)
Record mapref (K V : Type) : Set := MapRef { table : option loc }.
Arguments MapRef {K V} table.
Arguments table {K V} m.

#[export] Instance ptr_eq_dec {T} : EqDecision (ptr T).
Proof. solve_decision. Defined.
#[export] Instance slice_eq_dec {T} : EqDecision (slice T).
Proof. solve_decision. Defined.
#[export] Instance mapref_eq_dec {K V} : EqDecision (mapref K V).
Proof. solve_decision. Defined.
#[export] Instance ptr_countable {T} : Countable (ptr T) := inj_countable' addr Ptr ltac:(by intros []).
#[export] Instance slice_countable {T} : Countable (slice T) := inj_countable' backing Slice ltac:(by intros []).
#[export] Instance mapref_countable {K V} : Countable (mapref K V) :=
  inj_countable' table MapRef ltac:(by intros []).

(** ** Deep copies

    [DeepCopyInto v] returns what the method of that name, called on a variable that holds
    [v], writes to its argument; the two variables never overlap. [view] reads everything
    a value stands for. *)
Class DeepCopy (T X : Type) : Type := {
  view : heap → T → option X;
  DeepCopyInto : T → M heap T;
}.

(** [m] returns, changes no cell of [h], and what it returns reads as [x] from cells that
    are not in [h0]. *)
Definition copied_from {T X} (h0 : heap) (vw : heap → T → option X) (m : M heap T) (h : heap) (x : X) : Prop :=
  ∃ v h', m h = (Ok v, h') ∧ h ⊆ h' ∧ vw (h' ∖ h0) v = Some x.

Class Copies (T X : Type) `{!DeepCopy T X} : Prop := {
  view_mono h h' (v : T) x : h ⊆ h' → view h v = Some x → view h' v = Some x;
  DeepCopyInto_copies h (v : T) x : view h v = Some x → copied_from h view (DeepCopyInto v) h x;
}.

(** *** Pointers: [if in != nil { *out = new(T); in.DeepCopyInto( *out) }] *)

Definition view_ptr {T X} `{!EqDecision T, !Countable T, !DeepCopy T X} (h : heap) (p : ptr T) : option (option X) :=
  match addr p with
  | None => Some None
  | Some l => v ← get h l; x ← view h v; Some (Some x)
  end.

Definition copy_ptr {T X} `{!EqDecision T, !Countable T, !DeepCopy T X} (p : ptr T) : M heap (ptr T) :=
  match addr p with
  | None => mret (Ptr None)
  | Some l => v ← load l; out ← DeepCopyInto v; l' ← new out; mret (Ptr (Some l'))
  end.

(** *** Slices: [if in != nil { *out = make([]T, len( *in)); ... }] with a copy of each element

    The array is written once its elements are known. *)

Definition elements `{Countable T} (h : heap) (s : loc * nat * nat) : option (list T) :=
  let '(l, offset, len) := s in
  a ← get h l; if (offset + len <=? length a)%nat then Some (take len (drop offset a)) else None.

Definition view_slice {T X} `{!EqDecision T, !Countable T, !DeepCopy T X} (h : heap) (s : slice T) : option (option (list X)) :=
  match backing s with
  | None => Some None
  | Some s => vs ← elements h s; xs ← mapM (view h) vs; Some (Some xs)
  end.

Definition copy_slice {T X} `{!EqDecision T, !Countable T, !DeepCopy T X} (s : slice T) : M heap (slice T) :=
  match backing s with
  | None => mret (Slice None)
  | Some s =>
      vs ← (λ h, match elements h s with Some vs => (Ok vs, h) | None => (Panic, h) end);
      out ← collectM DeepCopyInto vs;
      l ← new out;
      mret (Slice (Some (l, 0, length vs)))
  end.

(** *** Maps without references: [for key, val := range *in { ( *out)[key] = val }] *)

Definition view_map {K V} `{Countable K, Countable V} (h : heap) (m : mapref K V) : option (option (gmap K V)) :=
  match table m with
  | None => Some None
  | Some l => t ← get h l; Some (Some t)
  end.

Definition copy_map {K V} `{Countable K, Countable V, !MapOrder} (m : mapref K V) : M heap (mapref K V) :=
  match table m with
  | None => mret (MapRef None)
  | Some l =>
      t ← load l;
      l' ← new (foldl (λ out e, <[e.1 := e.2]> out) (∅ : gmap K V) (range_map (t : gmap K V)));
      mret (MapRef (Some l'))
  end.

#[export] Instance ptr_copy {T X} `{!EqDecision T, !Countable T, !DeepCopy T X} : DeepCopy (ptr T) (option X) :=
  {| view := view_ptr; DeepCopyInto := copy_ptr |}.
#[export] Instance slice_copy {T X} `{!EqDecision T, !Countable T, !DeepCopy T X} : DeepCopy (slice T) (option (list X)) :=
  {| view := view_slice; DeepCopyInto := copy_slice |}.
#[export] Instance map_copy {K V} `{Countable K, Countable V, !MapOrder} : DeepCopy (mapref K V) (option (gmap K V)) :=
  {| view := view_map; DeepCopyInto := copy_map |}.

(** ** Lemmas on the heap *)

Lemma get_mono `{Countable T} h h' l (v : T) : h ⊆ h' → get h l = Some v → get h' l = Some v.
Proof.
  unfold get. intros Hsub (c & Hc & Hv)%bind_Some.
  apply bind_Some. exists c. split; [by eapply lookup_weaken|done].
Qed.

Lemma difference_mono (h0 h h' : heap) : h ⊆ h' → h ∖ h0 ⊆ h' ∖ h0.
Proof.
  intros Hsub. apply map_subseteq_spec. intros l c. rewrite !lookup_difference_Some.
  intros [Hl Hn]. split; [by eapply lookup_weaken|done].
Qed.

Lemma difference_anti (h0 h h' : heap) : h0 ⊆ h → h' ∖ h ⊆ h' ∖ h0.
Proof.
  intros Hsub. apply map_subseteq_spec. intros l c. rewrite !lookup_difference_Some.
  intros [Hl Hn]. split; [done|]. by eapply lookup_weaken_None.
Qed.

Lemma new_fresh `{Countable T} (v : T) (h0 h : heap) :
  h0 ⊆ h → ∃ l, new v h = (Ok l, <[l := encode v]> h) ∧ h ⊆ <[l := encode v]> h
                ∧ get (<[l := encode v]> h ∖ h0) l = Some v.
Proof.
  intros Hsub. exists (fresh (dom h)). split; [done|].
  assert (Hn : h !! (fresh (dom h)) = None) by apply not_elem_of_dom, is_fresh.
  split; [by apply insert_subseteq|]. unfold get.
  rewrite (proj2 (lookup_difference_Some _ _ _ (encode v))); [apply decode_encode|].
  split; [by rewrite lookup_insert_eq|]. by eapply lookup_weaken_None.
Qed.

(** ** The laws *)

Lemma range_map_rebuilds {K V} `{Countable K, !MapOrder} (t : gmap K V) :
  foldl (λ out e, <[e.1 := e.2]> out) ∅ (range_map t) = t.
Proof.
  rewrite foldl_insert, map_union_empty.
  assert (Hp : rev (range_map t) ≡ₚ map_to_list t) by by rewrite <- Permutation_rev, range_map_perm.
  rewrite (list_to_map_proper _ (map_to_list t)); [apply list_to_map_to_list| |done].
  rewrite Hp. apply NoDup_fst_map_to_list.
Qed.

(** One field after the other: what was copied stays readable while the rest is copied. *)
Lemma copied_field {T X} `{Copies T X} {U Y} (h0 h : heap) (v : T) x (k : T → M heap U) vw (y : Y) :
  view h0 v = Some x → h0 ⊆ h →
  (∀ v' h', h ⊆ h' → (∀ h'', h' ⊆ h'' → view (h'' ∖ h0) v' = Some x) → copied_from h0 vw (k v') h' y) →
  copied_from h0 vw (DeepCopyInto v ≫= k) h y.
Proof.
  intros Hv Hsub Hk. destruct (DeepCopyInto_copies h v x) as (v' & h' & E & Hsub' & Hv').
  { by eapply view_mono. }
  destruct (Hk v' h') as (u & h'' & E' & Hsub'' & Hu); [done| |].
  { intros h'' Hs. eapply view_mono; [|exact Hv']. etrans; [by apply difference_mono|].
    by apply difference_anti. }
  exists u, h''. split_and!; [|by etrans|done]. unfold mbind, M_bind. by rewrite E.
Qed.

Lemma copied_ret {U Y} (h0 h : heap) vw (u : U) (y : Y) :
  vw (h ∖ h0) u = Some y → copied_from h0 vw (mret u) h y.
Proof. intros Hu. by exists u, h. Qed.

Lemma copied_new `{Countable T} {U Y} (h0 h : heap) (v : T) (k : loc → M heap U) vw (y : Y) :
  h0 ⊆ h →
  (∀ l h', h ⊆ h' → (∀ h'', h' ⊆ h'' → get (h'' ∖ h0) l = Some v) → copied_from h0 vw (k l) h' y) →
  copied_from h0 vw (new v ≫= k) h y.
Proof.
  intros Hsub Hk. destruct (new_fresh v h0 h Hsub) as (l & E & Hsub' & Hl).
  destruct (Hk l (<[l := encode v]> h)) as (u & h'' & E' & Hsub'' & Hu); [done| |].
  { intros h'' Hs. eapply get_mono; [|exact Hl]. by apply difference_mono. }
  exists u, h''. split_and!; [|by etrans|done]. unfold mbind, M_bind. by rewrite E.
Qed.

Lemma copied_load `{Countable T} {U Y} (h0 h : heap) l (v : T) (k : T → M heap U) vw (y : Y) :
  get h l = Some v → copied_from h0 vw (k v) h y → copied_from h0 vw (load l ≫= k) h y.
Proof.
  intros Hl (u & h' & E & Hs & Hu). exists u, h'. split; [|done].
  unfold mbind, M_bind, load. by rewrite Hl.
Qed.

Lemma view_ptr_Some {T X} `{!EqDecision T, !Countable T} `{!DeepCopy T X} (h : heap) l (v : T) (x : X) :
  get h l = Some v → view h v = Some x → view h (Ptr (Some l) : ptr T) = Some (Some x).
Proof. intros Hl Hv. cbn. unfold view_ptr. cbn. rewrite Hl. cbn. by rewrite Hv. Qed.

(** What a pointer that can be read points to. *)
Lemma view_ptr_inv {T X} `{!EqDecision T, !Countable T} `{!DeepCopy T X} (h : heap) (p : ptr T) (x : X) :
  view h p = Some (Some x) → ∃ l v, p = Ptr (Some l) ∧ get h l = Some v ∧ view h v = Some x.
Proof.
  destruct p as [[l|]]; [|done]. cbn. intros (v & Hl & (y & Hy & [= ->])%bind_Some)%bind_Some. eauto.
Qed.

Lemma view_slice_inv {T X} `{!EqDecision T, !Countable T} `{!DeepCopy T X} (h : heap) (s : slice T) (xs : list X) :
  view h s = Some (Some xs) → ∃ a vs, s = Slice (Some a) ∧ elements h a = Some vs ∧ mapM (view h) vs = Some xs.
Proof.
  destruct s as [[a|]]; [|done]. intros (vs & Hvs & (y & Hy & [= ->])%bind_Some)%bind_Some. eauto.
Qed.

(** A slice of a new array. *)
Lemma new_slice_view {T X} `{!EqDecision T, !Countable T} `{!DeepCopy T X} (h : heap) l (vs : list T) (xs : list X) :
  get h l = Some vs → mapM (view h) vs = Some xs →
  view h (Slice (Some (l, 0, length vs)) : slice T) = Some (Some xs).
Proof.
  intros Hl Hvs. cbn -[elements]. unfold elements. rewrite Hl. cbn. rewrite Nat.leb_refl. cbn.
  rewrite drop_0, firstn_all. by rewrite Hvs.
Qed.

(** Outside of copies, what is new need not be told apart. *)
Lemma new_get `{Countable T} (v : T) (h : heap) :
  ∃ l h', new v h = (Ok l, h') ∧ h ⊆ h' ∧ get h' l = Some v.
Proof.
  destruct (new_fresh v ∅ h) as (l & E & Hs & Hl); [apply map_empty_subseteq|].
  rewrite map_difference_empty in Hl. eauto.
Qed.

Section copies.
Context {T X : Type} `{!EqDecision T, !Countable T} `{HT : Copies T X}.

Lemma collect_copies (h0 h : heap) vs xs :
  h0 ⊆ h → mapM (view h0) vs = Some xs →
  ∃ vs' h', collectM DeepCopyInto vs h = (Ok vs', h') ∧ h ⊆ h' ∧ length vs' = length vs
            ∧ ∀ h'', h' ⊆ h'' → mapM (view (h'' ∖ h0)) vs' = Some xs.
Proof.
  intros Hsub Hvs. revert h xs Hsub Hvs. induction vs as [|v vs IH]; intros h xs Hsub Hvs.
  { exists [], h. by injection Hvs as <-. }
  apply bind_Some in Hvs as (x & Hx & Hvs). apply bind_Some in Hvs as (xs' & Hxs & [= <-]).
  destruct (DeepCopyInto_copies h v x) as (v' & h1 & E1 & Hs1 & Hv1); [by eapply view_mono|].
  destruct (IH h1 xs') as (vs' & h2 & E2 & Hs2 & Hlen & Hv2); [by etrans|done|].
  exists (v' :: vs'), h2. split_and!; [|by etrans|cbn; lia|].
  - cbn. unfold mbind, M_bind. by rewrite E1, E2.
  - intros h'' Hs. apply bind_Some. exists x. split.
    + eapply view_mono; [|exact Hv1]. etrans; [by apply difference_mono; etrans|].
      by apply difference_anti.
    + apply bind_Some. exists xs'. split; [by apply Hv2|done].
Qed.

Lemma elements_mono (h h' : heap) s (vs : list T) :
  h ⊆ h' → elements h s = Some vs → elements h' s = Some vs.
Proof.
  destruct s as [[l o] n]. unfold elements. intros Hsub (a & Ha & Hvs)%bind_Some.
  apply bind_Some. exists a. split; [by eapply get_mono|done].
Qed.

Lemma mapM_view_mono (h h' : heap) (vs : list T) xs :
  h ⊆ h' → mapM (view h) vs = Some xs → mapM (view h') vs = Some xs.
Proof.
  intros Hsub. rewrite !mapM_Some. intros H. eapply Forall2_impl; [exact H|].
  intros v x. by apply view_mono.
Qed.

#[export] Instance ptr_copies : Copies (ptr T) (option X).
Proof.
  split.
  - intros h h' [[l|]] x Hsub; [|done]. cbn. intros (v & Hv & Hx)%bind_Some.
    apply bind_Some. exists v. split; [by eapply get_mono|].
    apply bind_Some in Hx as (y & Hy & E). apply bind_Some. exists y. split; [by eapply view_mono|done].
  - intros h [[l|]] x; [|intros [= <-]; by exists (Ptr None), h]. cbn. unfold copy_ptr. cbn.
    intros (v & Hv & (y & Hy & [= <-])%bind_Some)%bind_Some.
    eapply copied_load; [done|]. eapply copied_field; [done..|]. intros v' h1 Hs1 Hv'.
    apply copied_new; [done|]. intros l' h2 Hs2 Hl'. apply copied_ret. cbn.
    rewrite Hl' by done. cbn. by rewrite Hv' by (by etrans).
Qed.

#[export] Instance slice_copies : Copies (slice T) (option (list X)).
Proof.
  split.
  - intros h h' [[s|]] x Hsub; [|done]. cbn. intros (vs & Hvs & Hx)%bind_Some.
    apply bind_Some. exists vs. split; [by eapply elements_mono|].
    apply bind_Some in Hx as (y & Hy & E). apply bind_Some. exists y. split; [by eapply mapM_view_mono|done].
  - intros h [[s|]] x; [|intros [= <-]; by exists (Slice None), h]. cbn. unfold view_slice, copy_slice. cbn.
    intros (vs & Hvs & (xs & Hxs & [= <-])%bind_Some)%bind_Some.
    destruct (collect_copies h h vs xs) as (vs' & h1 & E1 & Hs1 & Hlen & Hv1); [done..|].
    destruct (new_fresh vs' h h1 Hs1) as (l & E2 & Hs2 & Hl).
    exists (Slice (Some (l, 0, length vs))), (<[l := encode vs']> h1). split_and!; [|by etrans|].
    + unfold mbind, M_bind. by rewrite Hvs, E1, E2.
    + rewrite <- Hlen. apply new_slice_view; [done|by apply Hv1].
Qed.
End copies.

#[export] Instance map_copies {K V} `{Countable K, Countable V, !MapOrder} :
  Copies (mapref K V) (option (gmap K V)).
Proof.
  split.
  - intros h h' [[l|]] x Hsub; [|done]. cbn. intros (t & Ht & E)%bind_Some.
    apply bind_Some. exists t. split; [by eapply get_mono|done].
  - intros h [[l|]] x; [|intros [= <-]; by exists (MapRef None), h]. cbn. unfold view_map, copy_map. cbn.
    intros (t & Ht & [= <-])%bind_Some. eapply copied_load; [done|]. rewrite range_map_rebuilds.
    apply copied_new; [done|]. intros l' h' Hs Hl. apply copied_ret. cbn. by rewrite Hl.
Qed.

(** ** Structs *)

#[global] Arguments view : simpl never.
#[global] Arguments DeepCopyInto : simpl never.

Lemma struct_copies {T X} (vw : heap → T → option X) (into : T → M heap T) :
  (∀ h h' v x, h ⊆ h' → vw h v = Some x → vw h' v = Some x) →
  (∀ h v x, vw h v = Some x → copied_from h vw (into v) h x) →
  @Copies T X {| view := vw; DeepCopyInto := into |}.
Proof. intros Hmono Hcopies. by split. Qed.

(** The law of a struct whose fields are read and copied one after the other. *)
Ltac solve_subseteq :=
  first [assumption | reflexivity | match goal with H : ?h ⊆ ?h' |- _ ⊆ ?h' => transitivity h; [|exact H]; solve_subseteq end].

Tactic Notation "solve_copies" reference(vw) reference(into) :=
  apply struct_copies; unfold vw, into;
  [ intros h h' v x Hsub Hv;
    repeat (let Hx := fresh in apply bind_Some in Hv as (? & Hx & Hv));
    repeat (apply bind_Some; eexists; split; [eapply view_mono; eassumption|]); exact Hv
  | intros h v x Hv;
    repeat (let Hx := fresh in apply bind_Some in Hv as (? & Hx & Hv)); injection Hv as <-;
    repeat (eapply copied_field; [eassumption|solve_subseteq|intros ? ? ? ?]);
    apply copied_ret; cbn;
    repeat (apply bind_Some; eexists; split;
      [match goal with H : ∀ h'', _ ⊆ h'' → view _ ?v = _ |- view _ ?v = _ => apply H; solve_subseteq end|]);
    reflexivity ].

(** A value without references is its own copy. *)
Lemma flat_copies {T} (into : T → M heap T) :
  (∀ v, into v = mret v) → @Copies T T {| view := λ _ v, Some v; DeepCopyInto := into |}.
Proof.
  intros E. split; [by intros|]. intros h v x [= <-]. cbn. rewrite E. by apply copied_ret.
Qed.

(** ** Copies by pointer

    The methods [DeepCopy]: whatever happens later to the cells there were, the copy reads
    the same, and whatever happens to others, the original does. *)
Definition isolated {T X} `{!EqDecision T, !Countable T, !DeepCopy T X} (copy : ptr T → M heap (ptr T)) : Prop :=
  ∀ h p x, view h p = Some x →
    ∃ q h', copy p h = (Ok q, h')
      ∧ (∀ later, h' ∖ h ⊆ later → view later q = Some x)
      ∧ (∀ later, h ⊆ later → view later p = Some x)
      ∧ h ⊆ h'.

Lemma copy_ptr_isolated {T X} `{!EqDecision T, !Countable T} `{Copies T X} : isolated (copy_ptr (T:=T)).
Proof.
  intros h p x Hp. destruct (DeepCopyInto_copies h p x Hp) as (q & h' & E & Hs & Hq).
  exists q, h'. split_and!; [done| |intros later Hl; by eapply view_mono|done].
  intros later Hl. by eapply view_mono.
Qed.

(** [runtime.Object]: nil, or a type and a pointer to a variable of it. *)
Inductive Object : Set :=
  | NilObject
  | AnObject (type : string) (at_ : loc).

(** [if c := in.DeepCopy(); c != nil { return c }; return nil] *)
Definition as_object {T} (type : string) (copy : M heap (ptr T)) : M heap Object :=
  c ← copy;
  mret (match addr c with Some l => AnObject type l | None => NilObject end).
