(* ===== verification/MetaTypes.v ===== *)
(** * Types of k8s.io/apimachinery with deep copies

    The parts of the custom resources that are declared outside the repository, each with
    its [DeepCopyInto] and the law of deep copies, and an instance for examples. *)

From S2P Require Import Prelude Heap.

(** [metav1.TypeMeta] has no references. *)
Record TypeMeta : Set := { Kind : string; APIVersion : string }.

#[export] Instance TypeMeta_eq_dec : EqDecision TypeMeta.
Proof. solve_decision. Defined.
#[export] Instance TypeMeta_countable : Countable TypeMeta :=
  inj_countable' (λ t, (Kind t, APIVersion t)) (λ p, {| Kind := p.1; APIVersion := p.2 |}) ltac:(by intros []).

(** A type of variables that may hold references, and what they stand for. *)
Class MetaTypes : Type := {
  (** [runtime.RawExtension]: the JSON text *)
  RawExtension_mem : Type;
  RawExtension_eq_dec :: EqDecision RawExtension_mem;
  RawExtension_countable :: Countable RawExtension_mem;
  RawExtension_copy :: DeepCopy RawExtension_mem string;
  (** the literal [runtime.RawExtension{Raw: rawBytes}] *)
  RawExtension_of : string → M heap RawExtension_mem;
  (** of [metav1] *)
  ObjectMeta_mem : Type;
  ObjectMeta_val : Type;
  ObjectMeta_eq_dec :: EqDecision ObjectMeta_mem;
  ObjectMeta_countable :: Countable ObjectMeta_mem;
  ObjectMeta_copy :: DeepCopy ObjectMeta_mem ObjectMeta_val;
  ListMeta_mem : Type;
  ListMeta_val : Type;
  ListMeta_eq_dec :: EqDecision ListMeta_mem;
  ListMeta_countable :: Countable ListMeta_mem;
  ListMeta_copy :: DeepCopy ListMeta_mem ListMeta_val;
  LabelSelector_mem : Type;
  LabelSelector_val : Type;
  LabelSelector_eq_dec :: EqDecision LabelSelector_mem;
  LabelSelector_countable :: Countable LabelSelector_mem;
  LabelSelector_copy :: DeepCopy LabelSelector_mem LabelSelector_val;
  Condition_mem : Type;
  Condition_val : Type;
  Condition_eq_dec :: EqDecision Condition_mem;
  Condition_countable :: Countable Condition_mem;
  Condition_copy :: DeepCopy Condition_mem Condition_val;
}.

(** What the package promises. *)
Class MetaTypesLaws `{!MetaTypes} : Prop := {
  RawExtension_copies :: Copies RawExtension_mem string;
  RawExtension_of_view rawBytes h :
    ∃ r h', RawExtension_of rawBytes h = (Ok r, h') ∧ h ⊆ h' ∧ view h' r = Some rawBytes;
  ObjectMeta_copies :: Copies ObjectMeta_mem ObjectMeta_val;
  ListMeta_copies :: Copies ListMeta_mem ListMeta_val;
  LabelSelector_copies :: Copies LabelSelector_mem LabelSelector_val;
  Condition_copies :: Copies Condition_mem Condition_val;
}.

(** ** An instance *)

(** Raw JSON as a slice of bytes; nil and no bytes are the same text. *)
#[export] Instance ascii_copy : DeepCopy Ascii.ascii Ascii.ascii :=
  {| view := λ _ c, Some c; DeepCopyInto := mret |}.
#[export] Instance ascii_copies : Copies Ascii.ascii Ascii.ascii.
Proof. by apply flat_copies. Qed.
#[export] Instance string_copy : DeepCopy string string := {| view := λ _ s, Some s; DeepCopyInto := mret |}.
#[export] Instance string_copies : Copies string string.
Proof. by apply flat_copies. Qed.

Definition text_of (l : option (list Ascii.ascii)) : string := String.string_of_list_ascii (default [] l).

Definition bytes_view (h : heap) (s : slice Ascii.ascii) : option string := l ← view h s; Some (text_of l).

Definition bytes_into (s : slice Ascii.ascii) : M heap (slice Ascii.ascii) := out ← DeepCopyInto s; mret out.

Definition bytes_of (text : string) : M heap (slice Ascii.ascii) :=
  l ← new (String.list_ascii_of_string text);
  mret (Slice (Some (l, 0, String.length text))).

(** Raw JSON as a slice of bytes, metadata as a name and labels. *)
Definition metadata_view `{!MapOrder} (h : heap) (m : string * mapref string string) : option (string * option (gmap string string)) :=
  l ← view h m.2; Some (m.1, l).

Definition metadata_into `{!MapOrder} (m : string * mapref string string) : M heap (string * mapref string string) :=
  l ← DeepCopyInto m.2; mret (m.1, l).

Definition plain_meta : MetaTypes :=
  let _ := listed_order in {|
  RawExtension_mem := slice Ascii.ascii;
  RawExtension_copy := {| view := bytes_view; DeepCopyInto := bytes_into |};
  RawExtension_of := bytes_of;
  ObjectMeta_mem := string * mapref string string;
  ObjectMeta_val := string * option (gmap string string);
  ObjectMeta_copy := {| view := metadata_view; DeepCopyInto := metadata_into |};
  ListMeta_mem := string; ListMeta_val := string;
  LabelSelector_mem := mapref string string; LabelSelector_val := option (gmap string string);
  Condition_mem := string; Condition_val := string;
|}.

Lemma view_bytes (h : heap) (l : list Ascii.ascii) : mapM (view h) l = Some l.
Proof. induction l as [|c l IH]; [done|]. cbn. by rewrite IH. Qed.

Lemma bytes_of_view text h :
  ∃ r h', bytes_of text h = (Ok r, h') ∧ h ⊆ h' ∧ bytes_view h' r = Some text.
Proof.
  unfold bytes_of, bytes_view, mbind, M_bind.
  destruct (new_fresh (String.list_ascii_of_string text) ∅ h) as (l & E & Hs & Hl); [apply map_empty_subseteq|].
  rewrite E. eexists _, _. split_and!; [reflexivity|done|]. unfold view, slice_copy, view_slice, elements. cbn.
  rewrite map_difference_empty in Hl. rewrite Hl. cbn.
  assert (Hlen : String.length text = length (String.list_ascii_of_string text)).
  { clear. induction text as [|c text IH]; cbn; [done|by rewrite IH]. }
  rewrite Hlen, Nat.leb_refl. cbn. rewrite drop_0, firstn_all.
  rewrite view_bytes.
  cbn. unfold text_of. cbn. by rewrite String.string_of_list_ascii_of_string.
Qed.

Lemma plain_laws : @MetaTypesLaws plain_meta.
Proof.
  split; [|exact bytes_of_view| |exact string_copies|exact (@map_copies _ _ _ _ _ _ listed_order)|exact string_copies].
  - solve_copies bytes_view bytes_into.
  - solve_copies metadata_view metadata_into.
Qed.
