(* ===== verification/ResourceShapes.v ===== *)
(** * The shape of custom resources in memory

    All the resources of the two API packages are structs of the same four fields, and all
    their lists of the same three; the fields that hold references are parameters, so that
    one record serves for a variable in memory and for the value it stands for. *)

From S2P Require Import Prelude Heap MetaTypes.

(** ** The shape of a resource and of a list of resources *)

Record Resource_struct (meta spec status : Type) : Type := {
  ob_TypeMeta : TypeMeta;
  ob_ObjectMeta : meta;
  ob_Spec : spec;
  ob_Status : status
}.
Arguments ob_TypeMeta {_ _ _}.
Arguments ob_ObjectMeta {_ _ _}.
Arguments ob_Spec {_ _ _}.
Arguments ob_Status {_ _ _}.

#[export] Instance Resource_eq_dec {meta spec status} `{!EqDecision meta, !EqDecision spec, !EqDecision status} : EqDecision (Resource_struct meta spec status).
Proof. solve_decision. Defined.
#[export] Instance Resource_countable {meta spec status} `{Countable meta, Countable spec, Countable status} : Countable (Resource_struct meta spec status).
Proof.
  refine (inj_countable' (λ v, (ob_TypeMeta v, ob_ObjectMeta v, ob_Spec v, ob_Status v))
    (λ '(x0, x1, x2, x3), {| ob_TypeMeta := x0; ob_ObjectMeta := x1; ob_Spec := x2; ob_Status := x3 |}) _). by intros [].
Defined.

Record List_struct (meta items : Type) : Type := {
  li_TypeMeta : TypeMeta;
  li_ListMeta : meta;
  li_Items : items
}.
Arguments li_TypeMeta {_ _}.
Arguments li_ListMeta {_ _}.
Arguments li_Items {_ _}.

#[export] Instance List_eq_dec {meta items} `{!EqDecision meta, !EqDecision items} : EqDecision (List_struct meta items).
Proof. solve_decision. Defined.
#[export] Instance List_countable {meta items} `{Countable meta, Countable items} : Countable (List_struct meta items).
Proof.
  refine (inj_countable' (λ v, (li_TypeMeta v, li_ListMeta v, li_Items v))
    (λ '(x0, x1, x2), {| li_TypeMeta := x0; li_ListMeta := x1; li_Items := x2 |}) _). by intros [].
Defined.
