(* ===== verification/GoStrings.v ===== *)
(** * Go strings, number parsing and formatting

    What the repository uses of Go's [strings], [strconv], [encoding/hex] and
    [unicode/utf8]. A Go string (and a [[]byte]) is a [string]: a sequence of bytes. *)

From S2P Require Import Prelude.

Local Open Scope string_scope.

Definition byte_val (c : ascii) : Z := Z.of_N (Ascii.N_of_ascii c).
Definition byte_of (n : Z) : ascii := Ascii.ascii_of_N (Z.to_N n).

Definition byte_in (lo hi : Z) (c : ascii) : bool :=
  (lo <=? byte_val c)%Z && (byte_val c <=? hi)%Z.

Lemma byte_val_range c : (0 ≤ byte_val c < 256)%Z.
Proof.
  unfold byte_val. pose proof (Ascii.N_ascii_bounded c). lia.
Qed.

Lemma byte_of_val c : byte_of (byte_val c) = c.
Proof. unfold byte_of, byte_val. by rewrite N2Z.id, Ascii.ascii_N_embedding. Qed.

Lemma byte_val_of n : (0 ≤ n < 256)%Z → byte_val (byte_of n) = n.
Proof.
  intros Hn. unfold byte_of, byte_val. rewrite Ascii.N_ascii_embedding by lia. lia.
Qed.

(** ** Package strings *)

Definition HasPrefix (s p : string) : bool := String.prefix p s.

Fixpoint drop (n : nat) (s : string) : string :=
  match n, s with
  | S n, String _ s => drop n s
  | _, _ => s
  end.

Fixpoint take (n : nat) (s : string) : string :=
  match n, s with
  | S n, String c s => String c (take n s)
  | _, _ => ""
  end.

Definition HasSuffix (s x : string) : bool :=
  (String.length x <=? String.length s)%nat
  && String.eqb (drop (String.length s - String.length x) s) x.

Definition TrimSuffix (s x : string) : string :=
  if HasSuffix s x then take (String.length s - String.length x) s else s.

Fixpoint Contains (s x : string) : bool :=
  String.prefix x s
  || match s with "" => false | String _ s => Contains s x end.

(** [strings.Split(s, sep)] for a one-byte separator. *)
Fixpoint Split (s : string) (sep : ascii) : list string :=
  match s with
  | "" => [""]
  | String c s =>
      if Ascii.eqb c sep then "" :: Split s sep
      else match Split s sep with
           | [] => [String c ""]
           | x :: l => String c x :: l
           end
  end.

Fixpoint Join (l : list string) (sep : string) : string :=
  match l with
  | [] => ""
  | [x] => x
  | x :: l => x +:+ sep +:+ Join l sep
  end.

(** [strings.ReplaceAll(s, c, "")] for a one-byte [c]. *)
Fixpoint RemoveAll (s : string) (c : ascii) : string :=
  match s with
  | "" => ""
  | String x s => if Ascii.eqb x c then RemoveAll s c else String x (RemoveAll s c)
  end.

Definition lower (c : ascii) : ascii :=
  if byte_in 65 90 c then byte_of (byte_val c + 32) else c.

(** [strings.ToLower] on ASCII text (letters outside ASCII are left alone). *)
Fixpoint ToLower (s : string) : string :=
  match s with "" => "" | String c s => String (lower c) (ToLower s) end.

(** [s] without its first byte, if that byte is [c]. *)
Definition expect (c : ascii) (s : string) : option string :=
  match s with
  | String x r => if Ascii.eqb x c then Some r else None
  | "" => None
  end.

Definition is_digit (c : ascii) : bool := byte_in 48 57 c.

Fixpoint all_decimal (s : string) : bool :=
  match s with "" => true | String c s => is_digit c && all_decimal s end.

(** ** Package strconv *)

Definition digit_val (c : ascii) : option Z :=
  if byte_in 48 57 c then Some (byte_val c - 48)%Z
  else if byte_in 97 122 c then Some (byte_val c - 87)%Z
  else if byte_in 65 90 c then Some (byte_val c - 55)%Z
  else None.

Fixpoint parse_digits (base : Z) (s : string) (acc : Z) : option Z :=
  match s with
  | "" => Some acc
  | String c s =>
      match digit_val c with
      | Some d => if (d <? base)%Z then parse_digits base s (acc * base + d)%Z else None
      | None => None
      end
  end.

Definition ErrSyntax : error := Errorf "invalid syntax".
Definition ErrRange : error := Errorf "value out of range".

Definition ParseUint (s : string) (base bits : Z) : outcome Z :=
  if String.eqb s "" then Err ErrSyntax
  else match parse_digits base s 0 with
       | None => Err ErrSyntax
       | Some v => if (v <? 2 ^ bits)%Z then Ok v else Err ErrRange
       end.

Definition ParseInt (s : string) (base bits : Z) : outcome Z :=
  match expect "-" s with
  | Some r =>
      v ← ParseUint r base 64;
      if (v <=? 2 ^ (bits - 1))%Z then Ok (- v)%Z else Err ErrRange
  | None =>
      let r := match expect "+" s with Some r => r | None => s end in
      v ← ParseUint r base 64;
      if (v <? 2 ^ (bits - 1))%Z then Ok v else Err ErrRange
  end.

Definition digit_char (d : Z) : ascii :=
  if (d <? 10)%Z then byte_of (48 + d) else byte_of (87 + d).

Fixpoint format_digits (fuel : nat) (base n : Z) (acc : string) : string :=
  match fuel with
  | O => acc
  | S fuel =>
      if (n <? base)%Z then String (digit_char n) acc
      else format_digits fuel base (n / base) (String (digit_char (n mod base)) acc)
  end.

(** [strconv.FormatUint(n, 10)]; the fuel is the number of binary digits of [n]. *)
Definition FormatUint (n : Z) : string :=
  format_digits (S (Z.to_nat (Z.log2 n))) 10 n "".

(** [%d] of a signed integer. *)
Definition FormatInt (n : Z) : string :=
  if (n <? 0)%Z then "-" +:+ FormatUint (- n) else FormatUint n.

(** [%0<w>d]: at least [w] digits, zero padded. *)
Definition pad0 (w : nat) (s : string) : string :=
  String.string_of_list_ascii (replicate (w - String.length s) "0"%char) +:+ s.

(** [encoding/hex.EncodeToString], and [%x] of a byte slice. *)
Definition hex_byte (c : ascii) (rest : string) : string :=
  String (digit_char (byte_val c / 16)) (String (digit_char (byte_val c mod 16)) rest).

Fixpoint hex_encode (s : string) : string :=
  match s with "" => "" | String c s => hex_byte c (hex_encode s) end.

(** ** Package unicode/utf8 *)

Definition is_cont (c : ascii) : bool := byte_in 128 191 c.

(** Whether the string starts with a valid encoding of a code point, and its width;
    an invalid first byte has width 1. *)
Definition rune_width (s : string) : bool * nat :=
  match s with
  | "" => (false, 0)
  | String c r =>
      if (byte_val c <? 128)%Z then (true, 1)
      else
        let lo2 := if (byte_val c =? 224)%Z then 160%Z
                   else if (byte_val c =? 240)%Z then 144%Z else 128%Z in
        let hi2 := if (byte_val c =? 237)%Z then 159%Z
                   else if (byte_val c =? 244)%Z then 143%Z else 191%Z in
        match r with
        | String c2 r2 =>
            if byte_in 194 223 c && is_cont c2 then (true, 2)
            else match r2 with
                 | String c3 r3 =>
                     if byte_in 224 239 c && byte_in lo2 hi2 c2 && is_cont c3 then (true, 3)
                     else match r3 with
                          | String c4 _ =>
                              if byte_in 240 244 c && byte_in lo2 hi2 c2
                                 && is_cont c3 && is_cont c4
                              then (true, 4) else (false, 1)
                          | "" => (false, 1)
                          end
                 | "" => (false, 1)
                 end
        | "" => (false, 1)
        end
  end.

(** [utf8.EncodeRune]; surrogates and values above 0x10FFFF become U+FFFD. *)
Definition encode_rune (r : Z) (rest : string) : string :=
  let r := if ((55296 <=? r) && (r <=? 57343) || (1114111 <? r) || (r <? 0))%Z
           then 65533%Z else r in
  if (r <? 128)%Z then String (byte_of r) rest
  else if (r <? 2048)%Z then
    String (byte_of (192 + r / 64)) (String (byte_of (128 + r mod 64)) rest)
  else if (r <? 65536)%Z then
    String (byte_of (224 + r / 4096))
      (String (byte_of (128 + r / 64 mod 64)) (String (byte_of (128 + r mod 64)) rest))
  else
    String (byte_of (240 + r / 262144))
      (String (byte_of (128 + r / 4096 mod 64))
        (String (byte_of (128 + r / 64 mod 64)) (String (byte_of (128 + r mod 64)) rest))).

(** ** Lemmas *)

Lemma digit_val_char d : (0 ≤ d < 36)%Z → digit_val (digit_char d) = Some d.
Proof.
  intros Hd. unfold digit_val, digit_char, byte_in.
  destruct (Z.ltb_spec d 10); rewrite byte_val_of by lia; split_ifs; bool_to_prop; f_equal; lia.
Qed.

Lemma parse_format_digits base fuel n acc :
  (2 ≤ base ≤ 36)%Z → (0 ≤ n < 2 ^ Z.of_nat fuel)%Z →
  parse_digits base (format_digits fuel base n acc) 0 = parse_digits base acc n.
Proof.
  intros Hb. revert n acc. induction fuel as [|fuel IH]; intros n acc Hn.
  - simpl in *. replace n with 0%Z by lia. done.
  - cbn [format_digits]. destruct (Z.ltb_spec n base).
    + cbn [parse_digits]. rewrite digit_val_char by lia.
      rewrite (proj2 (Z.ltb_lt n base)) by lia. done.
    + pose proof (Z.mod_pos_bound n base). pose proof (Z.div_mod n base).
      rewrite Nat2Z.inj_succ, Z.pow_succ_r in Hn by lia.
      assert (n / base < 2 ^ Z.of_nat fuel)%Z by (apply Z.div_lt_upper_bound; nia).
      assert (0 ≤ n / base)%Z by (apply Z.div_pos; lia).
      rewrite IH by lia. cbn [parse_digits]. rewrite digit_val_char by lia.
      rewrite (proj2 (Z.ltb_lt (n mod base) base)) by lia.
      f_equal. lia.
Qed.

Lemma format_digits_nonempty base fuel n acc :
  format_digits (S fuel) base n acc ≠ "".
Proof.
  revert n acc. induction fuel as [|fuel IH]; intros n acc.
  - simpl. by destruct (n <? base)%Z.
  - cbn [format_digits]. destruct (n <? base)%Z; [done|]. apply IH.
Qed.

(** Printing an unsigned number and reading it back. *)
Lemma parse_format_uint n bits :
  (0 ≤ n < 2 ^ bits)%Z → ParseUint (FormatUint n) 10 bits = Ok n.
Proof.
  intros Hn. unfold ParseUint, FormatUint.
  destruct (String.eqb_spec (format_digits (S (Z.to_nat (Z.log2 n))) 10 n "") "") as [E|_].
  { by apply format_digits_nonempty in E. }
  rewrite parse_format_digits; [|lia|].
  - simpl. by rewrite (proj2 (Z.ltb_lt _ _)) by lia.
  - destruct (decide (n = 0)%Z) as [->|]; [simpl; lia|].
    pose proof (Z.log2_spec n). pose proof (Z.log2_nonneg n).
    rewrite Nat2Z.inj_succ, Z2Nat.id by lia. lia.
Qed.

Lemma expect_Some c s r : expect c s = Some r → s = String c r.
Proof.
  destruct s as [|x s]; simpl; [done|].
  destruct (Ascii.eqb_spec x c) as [->|]; [|done]. congruence.
Qed.

Lemma length_drop n s : (String.length (drop n s) ≤ String.length s)%nat.
Proof.
  revert s; induction n as [|n IH]; intros [|c s]; simpl; try lia. specialize (IH s). lia.
Qed.

Lemma str_app_String c (s t : string) : String c s +:+ t = String c (s +:+ t).
Proof. done. Qed.

Lemma str_app_assoc (a b c : string) : (a +:+ b) +:+ c = a +:+ (b +:+ c).
Proof. induction a as [|x a IH]; [done|]. rewrite !str_app_String. by f_equal. Qed.

Lemma str_app_nil_r (a : string) : a +:+ "" = a.
Proof. induction a as [|x a IH]; [done|]. rewrite !str_app_String. by f_equal. Qed.

Lemma str_length_app (a b : string) :
  String.length (a +:+ b) = (String.length a + String.length b)%nat.
Proof. induction a as [|x a IH]; [done|]. rewrite str_app_String. simpl. by rewrite IH. Qed.

Lemma take_app a b : take (String.length a) (a +:+ b) = a.
Proof. induction a as [|x a IH]; [by destruct b|]. rewrite str_app_String. simpl. by f_equal. Qed.

Lemma drop_app a b : drop (String.length a) (a +:+ b) = b.
Proof. induction a as [|x a IH]; [by destruct b|]. rewrite str_app_String. done. Qed.

(** *** What [FormatUint] prints: digits, without a leading zero *)

Lemma is_digit_char d : (0 ≤ d < 10)%Z → is_digit (digit_char d) = true.
Proof.
  intros Hd. unfold is_digit, digit_char, byte_in.
  rewrite (proj2 (Z.ltb_lt d 10)), byte_val_of by lia. apply andb_true_iff; split; lia.
Qed.

Lemma format_digits_decimal fuel n acc :
  (0 ≤ n)%Z → all_decimal acc = true → all_decimal (format_digits fuel 10 n acc) = true.
Proof.
  revert n acc. induction fuel as [|fuel IH]; intros n acc Hn Hacc; [done|].
  cbn [format_digits]. destruct (Z.ltb_spec n 10).
  - cbn [all_decimal]. by rewrite is_digit_char.
  - pose proof (Z.mod_pos_bound n 10). apply IH; [apply Z.div_pos; lia|].
    cbn [all_decimal]. by rewrite is_digit_char by lia.
Qed.

Lemma format_digits_head fuel n acc :
  (0 < n < 2 ^ Z.of_nat fuel)%Z →
  ∃ d t, (0 < d < 10)%Z ∧ format_digits fuel 10 n acc = String (digit_char d) t.
Proof.
  revert n acc. induction fuel as [|fuel IH]; intros n acc Hn; [simpl in Hn; lia|].
  cbn [format_digits]. destruct (Z.ltb_spec n 10); [exists n, acc; split; [lia|done]|].
  rewrite Nat2Z.inj_succ, Z.pow_succ_r in Hn by lia. pose proof (Z.div_mod n 10).
  pose proof (Z.mod_pos_bound n 10).
  apply IH. split; [apply Z.div_str_pos; lia|apply Z.div_lt_upper_bound; lia].
Qed.

Lemma FormatUint_fuel n : (0 < n)%Z → (n < 2 ^ Z.of_nat (S (Z.to_nat (Z.log2 n))))%Z.
Proof.
  intros Hn. pose proof (Z.log2_spec n Hn). pose proof (Z.log2_nonneg n).
  rewrite Nat2Z.inj_succ, Z2Nat.id by lia. lia.
Qed.

Lemma FormatUint_decimal n : (0 ≤ n)%Z → all_decimal (FormatUint n) = true.
Proof. intros Hn. by apply format_digits_decimal. Qed.

Lemma FormatUint_shape n : (0 ≤ n)%Z →
  FormatUint n = "0" ∨ ∃ d t, (0 < d < 10)%Z ∧ FormatUint n = String (digit_char d) t.
Proof.
  intros Hn. destruct (decide (n = 0)%Z) as [->|]; [by left|right].
  apply format_digits_head. split; [lia|]. apply FormatUint_fuel; lia.
Qed.

Lemma ParseUint_no_panic s base bits : ParseUint s base bits ≠ Panic.
Proof. unfold ParseUint. by repeat case_match. Qed.

Lemma ParseInt_no_panic s base bits : ParseInt s base bits ≠ Panic.
Proof.
  unfold ParseInt.
  destruct (expect "-" s); rewrite bind_panic; intros [H|(v & _ & H)];
    try (by apply ParseUint_no_panic in H); by case_match.
Qed.

(** *** Splitting at a byte *)

Fixpoint has_byte (c : ascii) (s : string) : bool :=
  match s with "" => false | String x s => Ascii.eqb x c || has_byte c s end.

Lemma Split_not_nil s sep : Split s sep ≠ [].
Proof. destruct s as [|c s]; simpl; [done|]. destruct (Ascii.eqb c sep); [done|]. by destruct (Split s sep). Qed.

Lemma Split_at a b sep : Split (a +:+ String sep b) sep = (Split a sep ++ Split b sep)%list.
Proof.
  induction a as [|c a IH].
  - change ("" +:+ String sep b) with (String sep b). simpl. by rewrite Ascii.eqb_refl.
  - rewrite str_app_String. simpl. rewrite IH. destruct (Ascii.eqb c sep); [done|].
    pose proof (Split_not_nil a sep). by destruct (Split a sep).
Qed.

Lemma Split_no_byte s sep : has_byte sep s = false → Split s sep = [s].
Proof.
  induction s as [|c s IH]; simpl; [done|]. intros [Hc Hs]%orb_false_iff. by rewrite Hc, IH.
Qed.

Lemma Split_has_byte s sep : has_byte sep s = true → (2 ≤ length (Split s sep))%nat.
Proof.
  induction s as [|c s IH]; simpl; [done|].
  destruct (Ascii.eqb c sep); simpl.
  - intros _. pose proof (Split_not_nil s sep). destruct (Split s sep); [done|simpl; lia].
  - intros Hs%IH. destruct (Split s sep); simpl in *; lia.
Qed.

Lemma HasPrefix_self_app a b : HasPrefix (a +:+ b) a = true.
Proof.
  unfold HasPrefix. induction a as [|c a IH]; [by destruct b|].
  rewrite str_app_String. simpl. by destruct (ascii_dec c c).
Qed.
