(* ===== verification/GoNet.v ===== *)
(** * Go's net.ParseMAC, net.ParseIP, encoding/binary, and the PCI address pattern

    What [eth.go], [ipv4.go] and [utils.go] use of the standard library, on byte
    sequences. A [net.IP] or [net.HardwareAddr] is the list of its bytes. *)

From S2P Require Import Prelude GoStrings.

Local Open Scope Z_scope.

Definition hex_val (c : ascii) : option Z :=
  match digit_val c with
  | Some d => if d <? 16 then Some d else None
  | None => None
  end.

(** [xtoi2]: the byte written by two hexadecimal digits. *)
Definition hex_pair (a b : ascii) : option Z :=
  h ← hex_val a; l ← hex_val b; Some (16 * h + l).

(** ** net.ParseMAC *)

(** Groups of two digits separated by [sep]. *)
Fixpoint mac_pairs (sep : ascii) (s : string) : option (list Z) :=
  match s with
  | String a (String b "") => x ← hex_pair a b; Some [x]
  | String a (String b (String c r)) =>
      x ← hex_pair a b;
      if Ascii.eqb c sep then l ← mac_pairs sep r; Some (x :: l) else None
  | _ => None
  end.

(** Groups of four digits separated by dots. *)
Fixpoint mac_quads (s : string) : option (list Z) :=
  match s with
  | String a (String b (String c (String d ""))) =>
      x ← hex_pair a b; y ← hex_pair c d; Some [x; y]
  | String a (String b (String c (String d (String e r)))) =>
      x ← hex_pair a b; y ← hex_pair c d;
      if Ascii.eqb e "."%char then l ← mac_quads r; Some (x :: y :: l) else None
  | _ => None
  end.

Definition mac_length_ok (hw : list Z) : bool :=
  (length hw =? 6)%nat || (length hw =? 8)%nat || (length hw =? 20)%nat.

Definition ParseMAC (s : string) : option (list Z) :=
  let hw := match s with
            | String _ (String _ (String c _)) =>
                if Ascii.eqb c ":"%char || Ascii.eqb c "-"%char then mac_pairs c s
                else mac_quads s
            | _ => None
            end in
  hw ← hw; if mac_length_ok hw then Some hw else None.

(** ** net.ParseIP *)

(** One component of a dotted address: at most 255, no leading zero. *)
Definition dotted_byte (s : string) : option Z :=
  if (String.eqb s "" || negb (all_decimal s)
      || (HasPrefix s "0" && (1 <? String.length s)%nat))%bool then None
  else n ← parse_digits 10 s 0; if n <=? 255 then Some n else None.

(** The four bytes of a dotted-decimal address. *)
Definition parse_dotted (s : string) : option (list Z) :=
  match Split s "."%char with
  | [a; b; c; d] =>
      a ← dotted_byte a; b ← dotted_byte b; c ← dotted_byte c; d ← dotted_byte d;
      Some [a; b; c; d]
  | _ => None
  end.

(** [net.IPv4]: the 16-byte form of a dotted address. *)
Definition v4_in_v6 (b : list Z) : list Z := replicate 10 0 ++ [255; 255] ++ b.

Definition parseIPv4 (s : string) : option (list Z) := v4_in_v6 <$> parse_dotted s.

(** The leading hexadecimal digits of a string, and the rest. *)
Fixpoint span_hex (s : string) : string * string :=
  match s with
  | String c r =>
      match hex_val c with
      | Some _ => let (h, t) := span_hex r in (String c h, t)
      | None => ("", s)
      end
  | "" => ("", "")
  end%string.

(** The loop of [parseIPv6]: [room] groups of two bytes may still be read, [acc] are the
    bytes read so far and [ell] the position of the "::" if one was seen. *)
Fixpoint v6_groups (room : nat) (s : string) (acc : list Z) (ell : option nat) :
    option (list Z * option nat) :=
  match room with
  | O => if String.eqb s "" then Some (acc, ell) else None
  | S room =>
      let (h, rest) := span_hex s in
      if String.eqb h "" then None
      else
        n ← parse_digits 16 h 0;
        if 65535 <? n then None
        else if HasPrefix rest "." then
          if (bool_decide (ell = None) && negb (length acc =? 12)%nat)%bool then None
          else if (16 <? length acc + 4)%nat then None
          else b ← parse_dotted s; Some (acc ++ b, ell)
        else
          let acc := acc ++ [n / 256; n mod 256] in
          match rest with
          | ""%string => Some (acc, ell)
          | String c rest =>
              if (negb (Ascii.eqb c ":"%char) || String.eqb rest "")%bool then None
              else match expect ":" rest with
                   | Some rest' =>
                       match ell with
                       | Some _ => None
                       | None =>
                           if String.eqb rest' "" then Some (acc, Some (length acc))
                           else v6_groups room rest' acc (Some (length acc))
                       end
                   | None => v6_groups room rest acc ell
                   end
          end
  end.

Definition parseIPv6 (s : string) : option (list Z) :=
  let '(s, ell) := if HasPrefix s "::" then (drop 2 s, Some 0%nat) else (s, None) in
  if (bool_decide (ell = Some 0%nat) && String.eqb s "")%bool then Some (replicate 16 0)
  else
    '(acc, ell) ← v6_groups 8 s [] ell;
    if (length acc <? 16)%nat then
      match ell with
      | None => None
      | Some e => Some (firstn e acc ++ replicate (16 - length acc) 0 ++ skipn e acc)
      end
    else match ell with Some _ => None | None => Some acc end.

Fixpoint ParseIP_scan (orig s : string) : option (list Z) :=
  match s with
  | ""%string => None
  | String c s =>
      if Ascii.eqb c "."%char then parseIPv4 orig
      else if Ascii.eqb c ":"%char then parseIPv6 orig
      else ParseIP_scan orig s
  end.

Definition ParseIP (s : string) : option (list Z) := ParseIP_scan s s.

(** ** encoding/binary *)

(** [binary.BigEndian.Uint32]; a slice shorter than four bytes panics. *)
Definition BigEndian_Uint32 (b : list Z) : outcome Z :=
  match b with
  | b0 :: b1 :: b2 :: b3 :: _ =>
      Ok (Z.lor b3 (Z.lor (Z.shiftl b2 8) (Z.lor (Z.shiftl b1 16) (Z.shiftl b0 24))))
  | _ => Panic
  end.

(** [binary.BigEndian.PutUint32] into four bytes. *)
Definition BigEndian_PutUint32 (v : Z) : list Z :=
  [Z.land (Z.shiftr v 24) 255; Z.land (Z.shiftr v 16) 255;
   Z.land (Z.shiftr v 8) 255; Z.land v 255].

(** ** The pattern \b([0-9a-fA-F]{4}:[0-9a-fA-F]{2}:[0-9a-fA-F]{2}.\d{1}) *)

Definition is_hex (c : ascii) : bool := bool_decide (is_Some (hex_val c)).
Definition is_word (c : ascii) : bool :=
  byte_in 48 57 c || byte_in 65 90 c || byte_in 97 122 c || Ascii.eqb c "_"%char.

(** One item of a pattern: a byte class, or [.] (any code point but a newline). *)
Inductive pattern_item : Type :=
  | PClass (p : ascii → bool)
  | PDot.

Fixpoint match_here (p : list pattern_item) (s : string) : bool :=
  match p with
  | [] => true
  | PClass f :: p => match s with String c r => f c && match_here p r | _ => false end
  | PDot :: p =>
      match s with
      | String c _ => negb (Ascii.eqb c "010"%char) && match_here p (drop (rune_width s).2 s)
      | _ => false
      end
  end.

(** [MatchString] of a pattern that starts with [\b] and a word character: a match may
    begin where the previous character is not a word character. *)
Fixpoint match_from (p : list pattern_item) (prev_word : bool) (s : string) : bool :=
  (negb prev_word && match_here p s)
  || match s with String c r => match_from p (is_word c) r | ""%string => false end.

Definition pci_pattern : list pattern_item :=
  replicate 4 (PClass is_hex) ++ [PClass (Ascii.eqb ":")]
  ++ replicate 2 (PClass is_hex) ++ [PClass (Ascii.eqb ":")]
  ++ replicate 2 (PClass is_hex) ++ [PDot; PClass (byte_in 48 57)].

Definition pci_MatchString (s : string) : bool := match_from pci_pattern false s.

(** ** Lemmas *)

Lemma hex_val_range c d : hex_val c = Some d → 0 ≤ d < 16.
Proof.
  unfold hex_val, digit_val, byte_in. intros H. split_ifs; bool_to_prop; simplify_eq; lia.
Qed.

Lemma hex_pair_range a b x : hex_pair a b = Some x → 0 ≤ x < 256.
Proof.
  unfold hex_pair. destruct (hex_val a) as [h|] eqn:Ha, (hex_val b) as [l|] eqn:Hb;
    intros H; simplify_eq/=. apply hex_val_range in Ha, Hb. lia.
Qed.

Lemma mac_pairs_bytes sep s hw : mac_pairs sep s = Some hw → Forall (λ b, 0 ≤ b < 256) hw.
Proof.
  remember (String.length s) as n eqn:Hn. revert s hw Hn.
  induction n as [n IH] using lt_wf_ind; intros s hw Hn H.
  destruct s as [|a [|b [|c r]]]; simpl in *; try done;
    destruct (hex_pair a b) as [x|] eqn:Hx; simplify_eq/=.
  - apply hex_pair_range in Hx. auto using Forall_cons_2, Forall_nil_2.
  - destruct (Ascii.eqb c sep); [|done].
    destruct (mac_pairs sep r) as [l|] eqn:Hl; simplify_eq/=.
    apply hex_pair_range in Hx. apply Forall_cons_2; [done|]. eapply IH; [|done|done]. lia.
Qed.

Lemma mac_quads_bytes s hw : mac_quads s = Some hw → Forall (λ b, 0 ≤ b < 256) hw.
Proof.
  remember (String.length s) as n eqn:Hn. revert s hw Hn.
  induction n as [n IH] using lt_wf_ind; intros s hw Hn H.
  destruct s as [|a [|b [|c [|d [|e r]]]]]; simpl in *; try done;
    destruct (hex_pair a b) as [x|] eqn:Hx; simplify_eq/=;
    destruct (hex_pair c d) as [y|] eqn:Hy; simplify_eq/=;
    apply hex_pair_range in Hx, Hy.
  - auto using Forall_cons_2, Forall_nil_2.
  - destruct (Ascii.eqb e "."); [|done].
    destruct (mac_quads r) as [l|] eqn:Hl; simplify_eq/=.
    do 2 (apply Forall_cons_2; [done|]). eapply IH; [|done|done]. lia.
Qed.

(** A parsed MAC address has 6, 8 or 20 bytes. *)
Lemma ParseMAC_wf s hw :
  ParseMAC s = Some hw →
  Forall (λ b, 0 ≤ b < 256) hw ∧ (length hw = 6 ∨ length hw = 8 ∨ length hw = 20)%nat.
Proof.
  unfold ParseMAC, mac_length_ok. intros H.
  destruct s as [|a [|b [|c r]]]; try done.
  revert H. generalize (String a (String b (String c r))). intros s.
  destruct (Ascii.eqb c ":" || Ascii.eqb c "-"); simpl;
    [destruct (mac_pairs c s) as [l|] eqn:Hl|destruct (mac_quads s) as [l|] eqn:Hl];
    simpl; try done; intros H;
    destruct ((length l =? 6) || (length l =? 8) || (length l =? 20))%nat%bool eqn:Hlen;
    simplify_eq; rewrite !orb_true_iff, !Nat.eqb_eq in Hlen;
    (split; [eauto using mac_pairs_bytes, mac_quads_bytes|tauto]).
Qed.
