(* ===== verification/GoCrypto.v ===== *)
(** * SHA-256 and SHA-1

    The two digests the repository computes with Go's [crypto/sha256] (keys of flow
    rules) and [crypto/sha1] (checksums of downloaded files), following FIPS 180-4, on
    byte sequences and with 32-bit words kept reduced modulo 2^32. *)

From S2P Require Import Prelude GoStrings.

Local Open Scope Z_scope.

Definition w32 (x : Z) : Z := x mod 4294967296.
Definition rotr (n x : Z) : Z := Z.lor (Z.shiftr x n) (w32 (Z.shiftl x (32 - n))).
Definition rotl (n x : Z) : Z := rotr (32 - n) x.
Definition lnot32 (x : Z) : Z := 4294967295 - x.

Fixpoint bytes_of (s : string) : list Z :=
  match s with ""%string => [] | String c s => byte_val c :: bytes_of s end.

Fixpoint string_of (l : list Z) : string :=
  match l with [] => ""%string | b :: l => String (byte_of b) (string_of l) end.

(** Big-endian bytes of a word of [n] bytes. *)
Fixpoint be_bytes (n : nat) (v : Z) : list Z :=
  match n with O => [] | S n => v / 2 ^ (8 * Z.of_nat n) mod 256 :: be_bytes n v end.

Fixpoint words_of (l : list Z) : list Z :=
  match l with
  | a :: b :: c :: d :: l => (((a * 256 + b) * 256 + c) * 256 + d) :: words_of l
  | _ => []
  end.

(** The message, a 1 bit, zeros, and the bit length in 64 bits: whole 64-byte blocks. *)
Definition sha_pad (msg : list Z) : list Z :=
  let n := Z.of_nat (length msg) in
  msg ++ [128] ++ replicate (Z.to_nat ((55 - n) mod 64)) 0 ++ be_bytes 8 (8 * n).

(** Successive groups of [k] elements; [fuel] bounds their number. *)
Fixpoint chunks {A} (fuel k : nat) (l : list A) : list (list A) :=
  match fuel, l with
  | S fuel, _ :: _ => firstn k l :: chunks fuel k (skipn k l)
  | _, _ => []
  end.

(** ** SHA-256 *)

Definition sha256_k : list Z :=
  [1116352408; 1899447441; 3049323471; 3921009573; 961987163; 1508970993; 2453635748;
   2870763221; 3624381080; 310598401; 607225278; 1426881987; 1925078388; 2162078206;
   2614888103; 3248222580; 3835390401; 4022224774; 264347078; 604807628; 770255983;
   1249150122; 1555081692; 1996064986; 2554220882; 2821834349; 2952996808; 3210313671;
   3336571891; 3584528711; 113926993; 338241895; 666307205; 773529912; 1294757372;
   1396182291; 1695183700; 1986661051; 2177026350; 2456956037; 2730485921; 2820302411;
   3259730800; 3345764771; 3516065817; 3600352804; 4094571909; 275423344; 430227734;
   506948616; 659060556; 883997877; 958139571; 1322822218; 1537002063; 1747873779;
   1955562222; 2024104815; 2227730452; 2361852424; 2428436474; 2756734187; 3204031479;
   3329325298].

Definition sha256_init : list Z :=
  [1779033703; 3144134277; 1013904242; 2773480762; 1359893119; 2600822924; 528734635;
   1541459225].

(** The message schedule, most recent word first. *)
Fixpoint sha256_extend (n : nat) (w : list Z) : list Z :=
  match n with
  | O => w
  | S n =>
      let w2 := nth 1 w 0 in let w7 := nth 6 w 0 in
      let w15 := nth 14 w 0 in let w16 := nth 15 w 0 in
      let s0 := Z.lxor (Z.lxor (rotr 7 w15) (rotr 18 w15)) (Z.shiftr w15 3) in
      let s1 := Z.lxor (Z.lxor (rotr 17 w2) (rotr 19 w2)) (Z.shiftr w2 10) in
      sha256_extend n (w32 (w16 + s0 + w7 + s1) :: w)
  end.

Definition sha256_round (st : list Z) (kw : Z * Z) : list Z :=
  match st with
  | [a; b; c; d; e; f; g; h] =>
      let S1 := Z.lxor (Z.lxor (rotr 6 e) (rotr 11 e)) (rotr 25 e) in
      let ch := Z.lxor (Z.land e f) (Z.land (lnot32 e) g) in
      let t1 := h + S1 + ch + kw.1 + kw.2 in
      let S0 := Z.lxor (Z.lxor (rotr 2 a) (rotr 13 a)) (rotr 22 a) in
      let maj := Z.lxor (Z.lxor (Z.land a b) (Z.land a c)) (Z.land b c) in
      [w32 (t1 + S0 + maj); a; b; c; w32 (d + t1); e; f; g]
  | _ => st
  end.

Definition sha256_block (st block : list Z) : list Z :=
  let w := rev (sha256_extend 48 (rev (words_of block))) in
  zip_with (λ x y, w32 (x + y)) st (foldl sha256_round st (zip sha256_k w)).

Definition sha256 (msg : string) : string :=
  let p := sha_pad (bytes_of msg) in
  string_of (mjoin (be_bytes 4 <$> foldl sha256_block sha256_init (chunks (length p) 64 p))).

(** ** SHA-1 *)

Fixpoint sha1_extend (n : nat) (w : list Z) : list Z :=
  match n with
  | O => w
  | S n =>
      let x := Z.lxor (Z.lxor (nth 2 w 0) (nth 7 w 0)) (Z.lxor (nth 13 w 0) (nth 15 w 0)) in
      sha1_extend n (rotl 1 x :: w)
  end.

Definition sha1_round (st : list Z) (tw : nat * Z) : list Z :=
  match st with
  | [a; b; c; d; e] =>
      let '(f, k) :=
        if (tw.1 <? 20)%nat then (Z.lor (Z.land b c) (Z.land (lnot32 b) d), 1518500249)
        else if (tw.1 <? 40)%nat then (Z.lxor (Z.lxor b c) d, 1859775393)
        else if (tw.1 <? 60)%nat
             then (Z.lor (Z.lor (Z.land b c) (Z.land b d)) (Z.land c d), 2400959708)
        else (Z.lxor (Z.lxor b c) d, 3395469782) in
      [w32 (rotl 5 a + f + e + k + tw.2); a; rotl 30 b; c; d]
  | _ => st
  end.

Definition sha1_block (st block : list Z) : list Z :=
  let w := rev (sha1_extend 64 (rev (words_of block))) in
  zip_with (λ x y, w32 (x + y)) st (foldl sha1_round st (zip (seq 0 80) w)).

Definition sha1_init : list Z :=
  [1732584193; 4023233417; 2562383102; 271733878; 3285377520].

Definition sha1 (msg : string) : string :=
  let p := sha_pad (bytes_of msg) in
  string_of (mjoin (be_bytes 4 <$> foldl sha1_block sha1_init (chunks (length p) 64 p))).

(** Test vectors of FIPS 180-4. *)
Example sha256_abc :
  hex_encode (sha256 "abc")
  = "ba7816bf8f01cfea414140de5dae2223b00361a396177a9cb410ff61f20015ad"%string.
Proof. vm_compute. reflexivity. Qed.

Example sha256_two_blocks :
  hex_encode (sha256 "abcdbcdecdefdefgefghfghighijhijkijkljklmklmnlmnomnopnopq")
  = "248d6a61d20638b8e5c026930c3e6039a33ce45964ff2167f6ecedd419db06c1"%string.
Proof. vm_compute. reflexivity. Qed.

Example sha1_abc :
  hex_encode (sha1 "abc") = "a9993e364706816aba3e25717850c26c9cd0d89d"%string.
Proof. vm_compute. reflexivity. Qed.

(** ** The length of a digest *)

Lemma string_of_length l : String.length (string_of l) = length l.
Proof. induction l; simpl; auto. Qed.

Lemma sha256_round_length st kw : length st = 8%nat → length (sha256_round st kw) = 8%nat.
Proof. by destruct st as [|a [|b [|c [|d [|e [|f [|g [|h [|]]]]]]]]]. Qed.

Lemma foldl_length8 {B} (f : list Z → B → list Z) l st :
  (∀ st b, length st = 8%nat → length (f st b) = 8%nat) →
  length st = 8%nat → length (foldl f st l) = 8%nat.
Proof. intros Hf. revert st. induction l; simpl; auto. Qed.

Lemma sha256_block_length st block : length st = 8%nat → length (sha256_block st block) = 8%nat.
Proof.
  intros Hst. unfold sha256_block. rewrite length_zip_with, Hst, foldl_length8;
    auto using sha256_round_length.
Qed.

Lemma be_bytes_length n v : length (be_bytes n v) = n.
Proof. induction n; simpl; auto. Qed.

Lemma mjoin_length n (l : list (list Z)) :
  Forall (λ x, length x = n) l → length (mjoin l) = (n * length l)%nat.
Proof. induction 1 as [|x l Hx _ IH]; simpl; [lia|]. rewrite length_app. lia. Qed.

Lemma sha256_length msg : String.length (sha256 msg) = 32%nat.
Proof.
  unfold sha256. rewrite string_of_length, (mjoin_length 4).
  - rewrite length_fmap, foldl_length8; [done|apply sha256_block_length|done].
  - apply Forall_fmap, Forall_true. intros x. apply be_bytes_length.
Qed.

Lemma hex_encode_length s : String.length (hex_encode s) = (2 * String.length s)%nat.
Proof. induction s as [|c s IH]; [done|]. cbn [hex_encode hex_byte String.length]. unfold hex_byte. simpl. lia. Qed.
