(* ===== verification/GoPath.v ===== *)
(** * Go's [path/filepath], on Unix

    [Clean], [Join] and [Base], and the shape of a cleaned rooted path: a slash and
    components none of which is empty, a dot or a double dot. *)

From S2P Require Import Prelude GoStrings.

Definition slash : ascii := "/"%char.

(** Components kept so far, the last one first. A double dot takes back the component
    before it, is dropped at the root, and stays at the start of a relative path. *)
Fixpoint clean_parts (rooted : bool) (stack parts : list string) : list string :=
  match parts with
  | [] => stack
  | p :: parts =>
      clean_parts rooted
        (if String.eqb p "" || String.eqb p "." then stack
         else if String.eqb p ".." then
           match stack with
           | q :: stack' => if String.eqb q ".." then p :: stack else stack'
           | [] => if rooted then [] else [p]
           end
         else p :: stack) parts
  end.

Definition Clean (path : string) : string :=
  if String.eqb path "" then "."
  else
    let rooted := HasPrefix path "/" in
    let out := Join (rev (clean_parts rooted [] (Split path slash))) "/" in
    if rooted then "/" +:+ out else if String.eqb out "" then "." else out.

(** Empty elements at the start are skipped. *)
Fixpoint filepath_Join (elems : list string) : string :=
  match elems with
  | [] => ""
  | e :: elems' => if String.eqb e "" then filepath_Join elems' else Clean (Join elems "/")
  end.

Fixpoint last_of (l : list string) (d : string) : string :=
  match l with [] => d | [x] => x | _ :: l => last_of l d end.

(** [Base]: the last component that is not empty. *)
Definition Base (path : string) : string :=
  if String.eqb path "" then "."
  else
    let base := last_of (List.filter (λ p, negb (String.eqb p "")) (Split path slash)) "" in
    if String.eqb base "" then "/" else base.

Example Clean_dots : Clean "/tmp//a/./b/../c/" = "/tmp/a/c"%string.
Proof. reflexivity. Qed.
Example Clean_root : Clean "/../../etc" = "/etc"%string.
Proof. reflexivity. Qed.
Example Clean_relative : Clean "a/../../b" = "../b"%string.
Proof. reflexivity. Qed.
Example Clean_nothing : Clean "a/.." = "."%string.
Proof. reflexivity. Qed.
Example Base_trailing : Base "/tmp/a.zip//" = "a.zip"%string.
Proof. reflexivity. Qed.

(** ** Components *)

Fixpoint no_slash (s : string) : bool :=
  match s with "" => true | String c s => negb (Ascii.eqb c slash) && no_slash s end%string.

Definition normal (p : string) : Prop := no_slash p = true ∧ p ≠ ""%string ∧ p ≠ "."%string ∧ p ≠ ".."%string.

Lemma Split_nonempty s sep : Split s sep ≠ [].
Proof. destruct s as [|c s]; simpl; [done|]. destruct (Ascii.eqb c sep); [done|]. by destruct (Split s sep). Qed.

Lemma Split_no_slash s : Forall (λ p, no_slash p = true) (Split s slash).
Proof.
  induction s as [|c s IH]; simpl; [by repeat constructor|].
  destruct (Ascii.eqb c slash) eqn:E; [by constructor|].
  destruct (Split s slash) as [|p l]; inversion IH; subst; constructor; simpl; rewrite ?E; auto.
Qed.

Lemma Split_app a b : Split (a +:+ String slash b) slash = Split a slash ++ Split b slash.
Proof.
  induction a as [|c a IH]; simpl; [done|].
  rewrite IH. destruct (Ascii.eqb c slash); [done|].
  pose proof (Split_nonempty a slash). by destruct (Split a slash).
Qed.

Lemma Split_Join l :
  l ≠ [] → Forall (λ p, no_slash p = true) l → Split (Join l "/") slash = l.
Proof.
  assert (∀ p, no_slash p = true → Split p slash = [p]) as Hone.
  { induction p as [|c p IH]; simpl; [done|]. destruct (Ascii.eqb c slash); [done|].
    simpl. intros Hp. by rewrite IH. }
  induction l as [|p l IH]; intros Hne Hl; [done|].
  inversion Hl as [|? ? Hp Hl']; subst. destruct l as [|q l]; [by apply Hone|].
  change (Join (p :: q :: l) "/") with (p +:+ String slash (Join (q :: l) "/")).
  by rewrite Split_app, IH, Hone.
Qed.

Lemma Join_Split s : Join (Split s slash) "/" = s.
Proof.
  induction s as [|c s IH]; [done|]. simpl.
  destruct (Ascii.eqb_spec c slash) as [->|].
  - pose proof (Split_nonempty s slash). destruct (Split s slash) eqn:E; [done|].
    rewrite <- E in *. change (Join ("" :: Split s slash) "/") with (Join ("" :: Split s slash) "/").
    rewrite E in *. simpl in *. by rewrite IH.
  - pose proof (Split_nonempty s slash). destruct (Split s slash) as [|p l]; [done|].
    destruct l; simpl in *; by rewrite <- IH.
Qed.

Lemma clean_parts_normal stack parts :
  Forall normal stack → Forall (λ p, no_slash p = true) parts → Forall normal (clean_parts true stack parts).
Proof.
  intros Hs Hp. revert stack Hs. induction Hp as [|p parts Hp _ IH]; intros stack Hs; simpl; [done|].
  apply IH. destruct (String.eqb_spec p ""), (String.eqb_spec p "."), (String.eqb_spec p ".."); simpl; try done.
  - destruct Hs as [|q stack Hq Hs]; [done|].
    destruct (String.eqb_spec q ".."); [|done]. by destruct Hq as (_ & _ & _ & ?).
  - by constructor.
Qed.

(** A cleaned rooted path is its components behind slashes. *)
Lemma Clean_rooted path :
  HasPrefix path "/" = true → ∃ l, Clean path = "/" +:+ Join l "/" ∧ Forall normal l.
Proof.
  intros Hr. unfold Clean. rewrite Hr. destruct (String.eqb_spec path ""); [by subst|].
  eexists. split; [done|]. apply Forall_rev, clean_parts_normal; [constructor|apply Split_no_slash].
Qed.

Lemma HasPrefix_app s p : HasPrefix s p = true ↔ ∃ r, s = p +:+ r.
Proof.
  unfold HasPrefix. revert s. induction p as [|c p IH]; intros s; simpl.
  - split; [by exists s|]. by destruct s.
  - destruct s as [|d s]; [split; [done|by intros [r Hr]]|].
    cbn [String.prefix]. destruct (ascii_dec c d) as [<-|Hne]; [|split; [done|intros [r Hr]; rewrite str_app_String in Hr; congruence]].
    rewrite IH. split; intros [r Hr]; exists r; [by rewrite Hr, str_app_String|rewrite str_app_String in Hr; by injection Hr].
Qed.

(** A path strictly below a directory. *)
Definition below (dir path : string) : Prop :=
  ∃ rest, rest ≠ [] ∧ Forall normal rest ∧ path = dir +:+ "/" +:+ Join rest "/".

(** A cleaned rooted path that starts with a cleaned rooted directory and a slash is
    below the directory: no component leads out of it. *)
Lemma Clean_prefix_below dir path :
  HasPrefix dir "/" = true → HasPrefix path "/" = true →
  HasPrefix (Clean path) (Clean dir +:+ "/") = true → below (Clean dir) (Clean path).
Proof.
  intros Hd Hp Hpre.
  apply Clean_rooted in Hd as (ds & Hd & Hds). apply Clean_rooted in Hp as (cs & Hp & Hcs).
  apply HasPrefix_app in Hpre as [r Hr]. rewrite str_app_assoc in Hr.
  assert (Split (Clean path) slash = Split (Clean dir) slash ++ Split r slash) as Hsplit.
  { rewrite Hr. apply (Split_app (Clean dir) r). }
  assert (∀ l, Split ("/" +:+ Join l "/") slash = ""%string :: Split (Join l "/") slash) as Hcons by done.
  assert (Forall normal (Split r slash)) as Hrest.
  { rewrite Hd, Hp, !Hcons in Hsplit. simpl in Hsplit. injection Hsplit as Hsplit.
    destruct (decide (cs = [])) as [->|Hne].
    - destruct (Split (Join ds "/") slash) eqn:E; [by apply Split_nonempty in E|].
      simpl in Hsplit. injection Hsplit as _ Hsplit. symmetry in Hsplit. apply app_nil in Hsplit as [_ Hsplit].
      by apply Split_nonempty in Hsplit.
    - rewrite Split_Join in Hsplit; [|done|eapply Forall_impl; [done|by intros ? []]].
      rewrite Hsplit in Hcs. by apply Forall_app in Hcs as [_ ?]. }
  exists (Split r slash). rewrite Join_Split. split_and!; [apply Split_nonempty|done|done].
Qed.
