(* ===== verification/GoJson.v ===== *)
(** * Go's encoding/json

    What the repository uses of [encoding/json]: reading one value ([Decoder.Decode]) or
    a whole text ([Unmarshal]), decoding into Go structs by their field tags, with and
    without [DisallowUnknownFields], and the string encoding and compaction of [Marshal].

    Number literals stay text until the type of their destination is known, as in Go.
    The nesting limit (10000) and the replacement of invalid UTF-8 by U+FFFD are
    modelled. One corner is left out: an array given twice for the same key decodes into
    fresh elements (Go reuses the elements of the first array). *)

From S2P Require Import Prelude GoStrings.

Local Open Scope Z_scope.

(** ** Syntax trees *)

Inductive json : Set :=
  | JNull
  | JBool (b : bool)
  | JNum (lit : string)
  | JStr (s : string)
  | JArr (l : list json)
  | JObj (l : list (string * json)).

(** The result of reading a prefix of a text. *)
Inductive read (A : Type) : Type :=
  | Read (a : A) (rest : string)
  | Malformed
  | OutOfFuel.
Arguments Read {A} a rest.
Arguments Malformed {A}.
Arguments OutOfFuel {A}.

Definition is_space (c : ascii) : bool :=
  Ascii.eqb c " " || Ascii.eqb c "009" || Ascii.eqb c "010" || Ascii.eqb c "013".

Fixpoint skip_ws (s : string) : string :=
  match s with
  | String c r => if is_space c then skip_ws r else s
  | ""%string => s
  end.

Definition hex4 (a b c d : ascii) : option Z :=
  let h x := match digit_val x with Some n => if n <? 16 then Some n else None | None => None end in
  a ← h a; b ← h b; c ← h c; d ← h d; Some (((a * 16 + b) * 16 + c) * 16 + d).

(** Texts are written with single quotes for double quotes. *)
Definition QUOTE : ascii := "034"%char.

Fixpoint json_text (s : string) : string :=
  match s with
  | String c r => String (if Ascii.eqb c "'" then QUOTE else c) (json_text r)
  | ""%string => ""
  end.

Definition unescape (c : ascii) : option ascii :=
  if Ascii.eqb c QUOTE then Some QUOTE
  else if Ascii.eqb c "\" then Some "\"%char
  else if Ascii.eqb c "/" then Some "/"%char
  else if Ascii.eqb c "b" then Some "008"%char
  else if Ascii.eqb c "f" then Some "012"%char
  else if Ascii.eqb c "n" then Some "010"%char
  else if Ascii.eqb c "r" then Some "013"%char
  else if Ascii.eqb c "t" then Some "009"%char
  else None.

(** UTF-16 surrogate pairs in escapes. *)
Definition is_surrogate_pair (n : Z) (m : option Z) : bool :=
  match m with
  | Some m => (55296 <=? n) && (n <? 56320) && (56320 <=? m) && (m <? 57344)
  | None => false
  end.

Definition pair_rune (n : Z) (m : option Z) : Z :=
  match m with Some m => 65536 + (n - 55296) * 1024 + (m - 56320) | None => 65533 end.

(** The body of a string literal after its opening quote: its value and the rest.
    [copy] bytes belong to a code point already checked. *)
Fixpoint read_string (copy : nat) (s : string) : option (string * string) :=
  match s with
  | ""%string => None
  | String c r =>
      match copy with
      | S copy => '(v, t) ← read_string copy r; Some (String c v, t)
      | O =>
          if Ascii.eqb c QUOTE then Some (""%string, r)
          else if Ascii.eqb c "\" then
            match r with
            | String e r =>
                if Ascii.eqb e "u" then
                  match r with
                  | String h1 (String h2 (String h3 (String h4 r))) =>
                      n ← hex4 h1 h2 h3 h4;
                      match r with
                      | String b (String u (String g1 (String g2 (String g3 (String g4 r2))))) =>
                          if (Ascii.eqb b "\" && Ascii.eqb u "u" && is_surrogate_pair n (hex4 g1 g2 g3 g4))%bool
                          then '(v, t) ← read_string 0 r2;
                               Some (encode_rune (pair_rune n (hex4 g1 g2 g3 g4)) v, t)
                          else '(v, t) ← read_string 0 r; Some (encode_rune n v, t)
                      | _ => '(v, t) ← read_string 0 r; Some (encode_rune n v, t)
                      end
                  | _ => None
                  end
                else c ← unescape e; '(v, t) ← read_string 0 r; Some (String c v, t)
            | ""%string => None
            end
          else if byte_val c <? 32 then None
          else if byte_val c <? 128 then
            '(v, t) ← read_string 0 r; Some (String c v, t)
          else
            let '(ok, w) := rune_width s in
            if ok then '(v, t) ← read_string (w - 1) r; Some (String c v, t)
            else '(v, t) ← read_string 0 r; Some (encode_rune 65533 v, t)
      end
  end.

Fixpoint skip_digits (s : string) : string :=
  match s with
  | String c r => if is_digit c then skip_digits r else s
  | ""%string => s
  end.

Definition starts_digit (s : string) : bool :=
  match s with String c _ => is_digit c | ""%string => false end.

(** Reads digits, at least one. *)
Definition digits1 (s : string) : option string :=
  if starts_digit s then Some (skip_digits s) else None.

(** The number grammar of JSON: what follows the literal, if there is one. *)
Definition skip_number (s : string) : option string :=
  let s := match expect "-" s with Some r => r | None => s end in
  s ← match expect "0" s with Some r => Some r | None => digits1 s end;
  s ← match expect "." s with Some r => digits1 r | None => Some s end;
  match s with
  | String e r =>
      if (Ascii.eqb e "e" || Ascii.eqb e "E")%bool then
        match expect "+" r, expect "-" r with
        | Some r, _ => digits1 r
        | _, Some r => digits1 r
        | _, _ => digits1 r
        end
      else Some s
  | ""%string => Some s
  end.

Definition read_number (s : string) : read json :=
  match skip_number s with
  | Some rest => Read (JNum (take (String.length s - String.length rest) s)) rest
  | None => Malformed
  end.

Definition read_word (w : string) (j : json) (s : string) : read json :=
  if HasPrefix s w then Read j (drop (String.length w) s) else Malformed.

Definition MAX_DEPTH : Z := 10000.

(** One value, after white space. [fuel] bounds the number of characters, [depth] counts
    the arrays and objects around it. *)
Fixpoint read_value (fuel : nat) (depth : Z) (s : string) : read json :=
  match fuel with
  | O => OutOfFuel
  | S fuel =>
      match skip_ws s with
      | ""%string => Malformed
      | String c r as s =>
          if Ascii.eqb c "{" then
            if MAX_DEPTH <=? depth then Malformed
            else match expect "}" (skip_ws r) with
                 | Some r => Read (JObj []) r
                 | None => match read_members fuel (depth + 1) r with
                        | Read l t => Read (JObj l) t
                        | Malformed => Malformed | OutOfFuel => OutOfFuel
                        end
                 end
          else if Ascii.eqb c "[" then
            if MAX_DEPTH <=? depth then Malformed
            else match expect "]" (skip_ws r) with
                 | Some r => Read (JArr []) r
                 | None => match read_elements fuel (depth + 1) r with
                        | Read l t => Read (JArr l) t
                        | Malformed => Malformed | OutOfFuel => OutOfFuel
                        end
                 end
          else if Ascii.eqb c QUOTE then
            match read_string 0 r with
            | Some (v, t) => Read (JStr v) t
            | None => Malformed
            end
          else if Ascii.eqb c "n" then read_word "null" JNull s
          else if Ascii.eqb c "t" then read_word "true" (JBool true) s
          else if Ascii.eqb c "f" then read_word "false" (JBool false) s
          else read_number s
      end
  end
(** The members of an object after "{" or ",", up to the closing brace. *)
with read_members (fuel : nat) (depth : Z) (s : string) : read (list (string * json)) :=
  match fuel with
  | O => OutOfFuel
  | S fuel =>
      match expect QUOTE (skip_ws s) with
      | None => Malformed
      | Some r =>
          match read_string 0 r with
          | None => Malformed
          | Some (k, t) =>
              match expect ":" (skip_ws t) with
              | None => Malformed
              | Some t =>
                  match read_value fuel depth t with
                  | Malformed => Malformed
                  | OutOfFuel => OutOfFuel
                  | Read v t =>
                      match expect "}" (skip_ws t), expect "," (skip_ws t) with
                      | Some t, _ => Read [(k, v)] t
                      | None, Some t =>
                          match read_members fuel depth t with
                          | Read l t => Read ((k, v) :: l) t
                          | Malformed => Malformed
                          | OutOfFuel => OutOfFuel
                          end
                      | None, None => Malformed
                      end
                  end
              end
          end
      end
  end
with read_elements (fuel : nat) (depth : Z) (s : string) : read (list json) :=
  match fuel with
  | O => OutOfFuel
  | S fuel =>
      match read_value fuel depth s with
      | Malformed => Malformed
      | OutOfFuel => OutOfFuel
      | Read v t =>
          match expect "]" (skip_ws t), expect "," (skip_ws t) with
          | Some t, _ => Read [v] t
          | None, Some t =>
              match read_elements fuel depth t with
              | Read l t => Read (v :: l) t
              | Malformed => Malformed
              | OutOfFuel => OutOfFuel
              end
          | None, None => Malformed
          end
      end
  end.

(** Enough fuel for any text: two calls for each character. *)
Definition json_fuel (s : string) : nat := S (S (2 * String.length s)).

Definition ErrJson : error := Errorf "invalid JSON".

(** [Decoder.Decode] reads the first value of its input; what follows stays unread. *)
Definition read_first (s : string) : outcome json :=
  match read_value (json_fuel s) 0 s with Read j _ => Ok j | _ => Err ErrJson end.

(** [Unmarshal] and [Valid] want one value and white space. *)
Definition read_all (s : string) : outcome json :=
  match read_value (json_fuel s) 0 s with
  | Read j rest => if String.eqb (skip_ws rest) "" then Ok j else Err ErrJson
  | _ => Err ErrJson
  end.

(** ** Reading always ends with an answer *)

(** Induction that reaches the values inside arrays and objects. *)
Lemma json_nested_ind (P : json → Prop) :
  P JNull → (∀ b, P (JBool b)) → (∀ lit, P (JNum lit)) → (∀ s, P (JStr s)) →
  (∀ l, Forall P l → P (JArr l)) → (∀ l, Forall (λ m, P m.2) l → P (JObj l)) →
  ∀ j, P j.
Proof.
  intros Hnull Hbool Hnum Hstr Harr Hobj. fix IH 1. intros [|b|lit|s|l|l].
  - exact Hnull.
  - apply Hbool.
  - apply Hnum.
  - apply Hstr.
  - apply Harr. induction l as [|j l IHl]; constructor; [apply IH|apply IHl].
  - apply Hobj. induction l as [|[k j] l IHl]; constructor; [apply IH|apply IHl].
Qed.

Lemma length_skip_ws s : (String.length (skip_ws s) ≤ String.length s)%nat.
Proof. induction s as [|c s IH]; simpl; [lia|]. destruct (is_space c); simpl; lia. Qed.

Lemma length_skip_digits s : (String.length (skip_digits s) ≤ String.length s)%nat.
Proof. induction s as [|c s IH]; simpl; [lia|]. destruct (is_digit c); simpl; lia. Qed.

Lemma length_expect c s t : expect c s = Some t → (String.length t < String.length s)%nat.
Proof. intros ->%expect_Some. simpl. lia. Qed.

Lemma length_digits1 s t : digits1 s = Some t → (String.length t < String.length s)%nat.
Proof.
  unfold digits1. destruct s as [|c s]; simpl; [done|]. destruct (is_digit c) eqn:Hc; [|done].
  intros [= <-]. rewrite ?Hc. pose proof (length_skip_digits s). lia.
Qed.

Lemma length_read_string k s v t :
  read_string k s = Some (v, t) → (String.length t < String.length s)%nat.
Proof.
  remember (String.length s) as n eqn:Hn. revert k s v t Hn.
  induction n as [n IH] using lt_wf_ind; intros k s v t ->.
  assert (Hrec : ∀ k s' (f : string → string), (String.length s' < String.length s)%nat →
            ('(v, t) ← read_string k s'; Some (f v, t)) = Some (v, t) →
            (String.length t < String.length s)%nat).
  { intros k' s' f Hs' H. destruct (read_string k' s') as [[v' t']|] eqn:E; simplify_eq/=.
    eapply IH in E; [|exact Hs'|done]. lia. }
  destruct s as [|c r]; [done|]. cbn [read_string String.length].
  repeat match goal with
  | |- None = Some _ → _ => done
  | |- Some _ = Some _ → _ => intros [= <- <-]; lia
  | |- mbind _ (read_string _ _) = _ → _ => intros H; refine (Hrec _ _ _ _ H); simpl; lia
  | |- mbind _ ?o = _ → _ => destruct o; cbn [mbind option_bind]
  | |- (match ?x with _ => _ end) = _ → _ => destruct x
  end.
Qed.

Lemma length_skip_number s t : skip_number s = Some t → (String.length t < String.length s)%nat.
Proof.
  unfold skip_number.
  set (s1 := match expect "-" s with Some r => r | None => s end).
  assert (H1 : (String.length s1 ≤ String.length s)%nat).
  { unfold s1. destruct (expect "-" s) eqn:E; [apply length_expect in E; lia|done]. }
  destruct (match expect "0" s1 with Some r => Some r | None => digits1 s1 end)
    as [s2|] eqn:E2; [|done]. cbn [mbind option_bind].
  assert (H2 : (String.length s2 < String.length s1)%nat).
  { destruct (expect "0" s1) eqn:E; [simplify_eq; by eapply length_expect|by apply length_digits1]. }
  destruct (match expect "." s2 with Some r => digits1 r | None => Some s2 end)
    as [s3|] eqn:E3; [|done]. cbn [mbind option_bind].
  assert (H3 : (String.length s3 ≤ String.length s2)%nat).
  { destruct (expect "." s2) eqn:E; [|by simplify_eq].
    apply length_expect in E. apply length_digits1 in E3. lia. }
  destruct s3 as [|e r]; [intros [= <-]; lia|]. simpl in H3.
  destruct (_ || _)%bool; [|intros [= <-]; simpl; lia].
  destruct (expect "+" r) eqn:Ep; [|destruct (expect "-" r) eqn:Em];
    intros E%length_digits1; rewrite ?(length_expect _ _ _ Ep), ?(length_expect _ _ _ Em) in *;
    try (apply length_expect in Ep); try (apply length_expect in Em); lia.
Qed.

Lemma length_read_number s j t :
  read_number s = Read j t → (String.length t < String.length s)%nat.
Proof.
  unfold read_number. destruct (skip_number s) eqn:E; [|done]. intros [= <- <-].
  by apply length_skip_number.
Qed.

Lemma length_read_word w j' s j t : w ≠ ""%string →
  read_word w j' s = Read j t → (String.length t < String.length s)%nat.
Proof.
  unfold read_word, HasPrefix. intros Hw. destruct (String.prefix w s) eqn:E; [|done].
  intros [= <- <-]. destruct w as [|c w]; [done|]. destruct s as [|c' s]; [done|].
  simpl. pose proof (length_drop (String.length w) s). lia.
Qed.

(** A reader leaves less than it was given, and does not run out of [n] units of fuel
    on a text whose length [l] satisfies [2 * l + k <= n]. *)
Definition reads_within {A} (n k : nat) (s : string) (r : read A) : Prop :=
  ((2 * String.length s + k ≤ n)%nat → r ≠ OutOfFuel)
  ∧ ∀ a t, r = Read a t → (String.length t < String.length s)%nat.

Ltac use_length :=
  repeat match goal with
  | H : expect _ _ = Some _ |- _ => apply length_expect in H
  | H : read_string _ _ = Some _ |- _ => apply length_read_string in H
  end.

Ltac ws_length := 
  repeat match goal with
  | H : context [String.length (skip_ws ?s)] |- _ =>
      lazymatch goal with
      | _ : (String.length (skip_ws s) ≤ String.length s)%nat |- _ => fail
      | _ => pose proof (length_skip_ws s)
      end
  end.

Lemma read_value_within n :
  (∀ d s, reads_within n 1 s (read_members n d s)) → (∀ d s, reads_within n 2 s (read_elements n d s)) →
  ∀ d s, reads_within (S n) 1 s (read_value (S n) d s).
Proof.
  intros IHm IHe d s; unfold reads_within.
  cbn [read_value]. destruct (skip_ws s) as [|c r] eqn:Hs; [done|].
  pose proof (length_skip_ws s) as Hl. rewrite Hs in Hl. simpl in Hl.
  assert (Hlt : ∀ r t : string, (String.length t < String.length r)%nat →
            (String.length r ≤ String.length s)%nat → (String.length t < String.length s)%nat)
    by (intros; lia).
  destruct (Ascii.eqb c "{"); [|destruct (Ascii.eqb c "[")].
  - destruct (MAX_DEPTH <=? d); [done|]. destruct (expect "}" (skip_ws r)) eqn:E.
    { use_length. ws_length. split; [done|]. intros ? ? [= <- <-]. lia. }
    destruct (IHm (d + 1) r) as [Hf Hr].
    destruct (read_members n (d + 1) r) as [l t| |];
      [|split; naive_solver|split; [intros ? _; by apply Hf; [lia|]|naive_solver]].
    split; [done|]. intros ? ? [= <- <-]. specialize (Hr _ _ eq_refl). lia.
  - destruct (MAX_DEPTH <=? d); [done|]. destruct (expect "]" (skip_ws r)) eqn:E.
    { use_length. ws_length. split; [done|]. intros ? ? [= <- <-]. lia. }
    destruct (IHe (d + 1) r) as [Hf Hr].
    destruct (read_elements n (d + 1) r) as [l t| |];
      [|split; naive_solver|split; [intros ? _; by apply Hf; [lia|]|naive_solver]].
    split; [done|]. intros ? ? [= <- <-]. specialize (Hr _ _ eq_refl). lia.
  - assert (Hlen : (String.length (String c r) ≤ String.length s)%nat) by (simpl; lia).
    destruct (Ascii.eqb c QUOTE).
    { destruct (read_string 0 r) as [[v t]|] eqn:E; [|done]. use_length.
      split; [done|]. intros ? ? [= <- <-]. lia. }
    destruct (Ascii.eqb c "n"); [|destruct (Ascii.eqb c "t"); [|destruct (Ascii.eqb c "f")]];
      (split; [|intros a t E;
                first [eapply length_read_word in E; [|done]
                      |eapply length_read_number in E]; eauto]).
    all: unfold read_word, read_number; repeat case_match; done.
Qed.

Lemma read_members_within n :
  (∀ d s, reads_within n 1 s (read_value n d s)) → (∀ d s, reads_within n 1 s (read_members n d s)) →
  ∀ d s, reads_within (S n) 1 s (read_members (S n) d s).
Proof.
  intros IHv IHm d s; unfold reads_within.
  cbn [read_members]. destruct (expect QUOTE (skip_ws s)) as [r|] eqn:E1; [|done].
  destruct (read_string 0 r) as [[k t]|] eqn:E2; [|done].
  destruct (expect ":" (skip_ws t)) as [t1|] eqn:E3; [|done].
  use_length. ws_length. destruct (IHv d t1) as [Hf Hr].
  destruct (read_value n d t1) as [v t2| |];
    [|split; naive_solver|split; [intros ? _; by apply Hf; [lia|]|naive_solver]].
  specialize (Hr _ _ eq_refl).
  destruct (expect "}" (skip_ws t2)) as [t3|] eqn:E4.
  { use_length. ws_length. split; [done|]. intros ? ? [= <- <-]. lia. }
  destruct (expect "," (skip_ws t2)) as [t3|] eqn:E5; [|done]. use_length. ws_length.
  destruct (IHm d t3) as [Hf' Hr'].
  destruct (read_members n d t3) as [l t4| |];
    [|split; naive_solver|split; [intros ? _; by apply Hf'; [lia|]|naive_solver]].
  split; [done|]. intros ? ? [= <- <-]. specialize (Hr' _ _ eq_refl). lia.
Qed.

Lemma read_elements_within n :
  (∀ d s, reads_within n 1 s (read_value n d s)) → (∀ d s, reads_within n 2 s (read_elements n d s)) →
  ∀ d s, reads_within (S n) 2 s (read_elements (S n) d s).
Proof.
  intros IHv IHe d s; unfold reads_within.
  cbn [read_elements]. destruct (IHv d s) as [Hf Hr].
  destruct (read_value n d s) as [v t2| |];
    [|split; naive_solver|split; [intros ? _; by apply Hf; [lia|]|naive_solver]].
  specialize (Hr _ _ eq_refl).
  destruct (expect "]" (skip_ws t2)) as [t3|] eqn:E4.
  { use_length. ws_length. split; [done|]. intros ? ? [= <- <-]. lia. }
  destruct (expect "," (skip_ws t2)) as [t3|] eqn:E5; [|done]. use_length. ws_length.
  destruct (IHe d t3) as [Hf' Hr'].
  destruct (read_elements n d t3) as [l t4| |];
    [|split; naive_solver|split; [intros ? _; by apply Hf'; [lia|]|naive_solver]].
  split; [done|]. intros ? ? [= <- <-]. specialize (Hr' _ _ eq_refl). lia.
Qed.

Lemma reads_enough n :
  (∀ d s, reads_within n 1 s (read_value n d s))
  ∧ (∀ d s, reads_within n 1 s (read_members n d s))
  ∧ (∀ d s, reads_within n 2 s (read_elements n d s)).
Proof.
  induction n as [|n (IHv & IHm & IHe)].
  { repeat split; intros; simpl in *; try done; lia. }
  repeat apply conj; auto using read_value_within, read_members_within, read_elements_within.
Qed.

(** The fuel of [read_first] and [read_all] is enough for every text. *)
Lemma json_fuel_enough s : read_value (json_fuel s) 0 s ≠ OutOfFuel.
Proof.
  destruct (reads_enough (json_fuel s)) as [Hv _]. apply (Hv 0 s). unfold json_fuel. lia.
Qed.
