(* ===== verification/GoJsonDecode.v ===== *)
(** * Decoding JSON into Go structs, and encoding

    [encoding/json] works from the field tags of a struct type; here a struct type is a
    list of JSON field names with the Go type of each field ([schema]), and a struct
    value the list of its fields in that order. Zero values are written out, so two Go
    structs are equal exactly when their models are. *)

From S2P Require Import Prelude GoStrings GoJson.

Local Open Scope Z_scope.

(** ** Struct types and values *)

Inductive ftype : Set :=
  | TUint32
  | TInt32
  | TUint64
  | TString
  | TBytes
  | TPtr (struct : string)  (** a pointer to a struct *)
  | TSlice (elem : ftype).

Inductive gval : Set :=
  | GNum (n : Z)
  | GStr (s : string)
  | GBytes (s : string)
  | GNil
  | GMsg (fields : list (string * gval))
  | GSlice (l : list gval).

Definition struct_type : Type := list (string * ftype).
Definition struct_val : Type := list (string * gval).

Definition zero_val (t : ftype) : gval :=
  match t with
  | TUint32 | TInt32 | TUint64 => GNum 0
  | TString => GStr ""
  | TBytes => GBytes ""
  | TPtr _ => GNil
  | TSlice _ => GSlice []
  end.

Definition zero_struct (fs : struct_type) : struct_val := prod_map id zero_val <$> fs.

Fixpoint get_field (f : string) (v : struct_val) : gval :=
  match v with
  | [] => GNil
  | (g, x) :: v => if String.eqb f g then x else get_field f v
  end.

Fixpoint set_field (f : string) (x : gval) (v : struct_val) : struct_val :=
  match v with
  | [] => []
  | (g, y) :: v => if String.eqb f g then (g, x) :: v else (g, y) :: set_field f x v
  end.

(** Typed views of a field; a missing or nil field reads as the zero value. *)
Definition num_field (f : string) (v : struct_val) : Z :=
  match get_field f v with GNum n => n | _ => 0 end.
Definition str_field (f : string) (v : struct_val) : string :=
  match get_field f v with GStr s => s | _ => "" end.
Definition bytes_field (f : string) (v : struct_val) : string :=
  match get_field f v with GBytes s => s | _ => "" end.
Definition ptr_field (f : string) (v : struct_val) : option struct_val :=
  match get_field f v with GMsg m => Some m | _ => None end.

(** ** Field names: an exact match first, then up to case ([foldName]) *)

(** Lower-cases ASCII letters, the Kelvin sign to "k" and the long s to "s". *)
Fixpoint fold_name (s : string) : string :=
  match s with
  | "" => ""
  | String c r =>
      let other := String (lower c) (fold_name r) in
      if byte_val c =? 226 then
        match r with
        | String d (String e r) =>
            if (byte_val d =? 132) && (byte_val e =? 170) then String "k" (fold_name r) else other
        | _ => other
        end
      else if byte_val c =? 197 then
        match r with
        | String d r => if byte_val d =? 191 then String "s" (fold_name r) else other
        | _ => other
        end
      else other
  end.

Definition find_name (p : string → bool) (fs : struct_type) : option (string * ftype) :=
  List.find (λ ft, p ft.1) fs.

Definition find_field (fs : struct_type) (key : string) : option (string * ftype) :=
  match find_name (String.eqb key) fs with
  | Some f => Some f
  | None => find_name (λ f, String.eqb (fold_name key) (fold_name f)) fs
  end.

(** ** encoding/base64 (StdEncoding) *)

Definition b64_val (c : ascii) : option Z :=
  if byte_in 65 90 c then Some (byte_val c - 65)
  else if byte_in 97 122 c then Some (byte_val c - 71)
  else if byte_in 48 57 c then Some (byte_val c + 4)
  else if Ascii.eqb c "+" then Some 62
  else if Ascii.eqb c "/" then Some 63
  else None.

Definition b64_char (n : Z) : ascii :=
  if n <? 26 then byte_of (n + 65)
  else if n <? 52 then byte_of (n + 71)
  else if n <? 62 then byte_of (n - 4)
  else if n =? 62 then "+"%char else "/"%char.

Fixpoint b64_groups (s : string) : option string :=
  match s with
  | "" => Some ""%string
  | String a (String b (String c (String d r))) =>
      x ← b64_val a; y ← b64_val b;
      let b0 := byte_of (x * 4 + y / 16) in
      if Ascii.eqb d "=" then
        if negb (String.eqb r "") then None
        else if Ascii.eqb c "=" then Some (String b0 "")
        else z ← b64_val c; Some (String b0 (String (byte_of (y mod 16 * 16 + z / 4)) ""))
      else
        z ← b64_val c; w ← b64_val d; t ← b64_groups r;
        Some (String b0 (String (byte_of (y mod 16 * 16 + z / 4))
                           (String (byte_of (z mod 4 * 64 + w)) t)))
  | _ => None
  end.

Definition b64_decode (s : string) : option string :=
  b64_groups (RemoveAll (RemoveAll s "010") "013").

Fixpoint b64_encode (s : string) : string :=
  match s with
  | "" => ""
  | String a "" =>
      String (b64_char (byte_val a / 4)) (String (b64_char (byte_val a mod 4 * 16)) "==")
  | String a (String b "") =>
      String (b64_char (byte_val a / 4))
        (String (b64_char (byte_val a mod 4 * 16 + byte_val b / 16))
          (String (b64_char (byte_val b mod 16 * 4)) "="))
  | String a (String b (String c r)) =>
      String (b64_char (byte_val a / 4))
        (String (b64_char (byte_val a mod 4 * 16 + byte_val b / 16))
          (String (b64_char (byte_val b mod 16 * 4 + byte_val c / 64))
            (String (b64_char (byte_val c mod 64)) (b64_encode r))))
  end.

(** ** Decoding *)

Definition ErrType : error := Errorf "json: cannot unmarshal value into Go struct field".
Definition ErrUnknownField : error := Errorf "json: unknown field".

Section decode.
(** The struct types, by name, and whether unknown fields are refused. *)
Variable schema : string → struct_type.
Variable strict : bool.

Definition fields_or_new (name : string) (cur : gval) : struct_val :=
  match cur with GMsg fs => fs | _ => zero_struct (schema name) end.

(** Decodes [j] into a location of type [t] that holds [cur]. *)
Fixpoint decode (t : ftype) (j : json) (cur : gval) : outcome gval :=
  match j with
  | JNull =>
      Ok match t with
         | TPtr _ => GNil
         | TBytes => GBytes ""
         | TSlice _ => GSlice []
         | _ => cur
         end
  | JBool _ => Err ErrType
  | JNum lit =>
      match t with
      | TUint32 => GNum <$> ParseUint lit 10 32
      | TUint64 => GNum <$> ParseUint lit 10 64
      | TInt32 => GNum <$> ParseInt lit 10 32
      | _ => Err ErrType
      end
  | JStr s =>
      match t with
      | TString => Ok (GStr s)
      | TBytes => match b64_decode s with Some b => Ok (GBytes b) | None => Err ErrType end
      | _ => Err ErrType
      end
  | JArr l =>
      match t with
      | TSlice e =>
          GSlice <$> (fix elems l := match l with
                                     | [] => Ok []
                                     | j :: l => x ← decode e j (zero_val e);
                                                 xs ← elems l; Ok (x :: xs)
                                     end) l
      | TBytes =>
          GBytes <$> (fix bytes l := match l with
                                     | [] => Ok ""%string
                                     | JNum lit :: l => x ← ParseUint lit 10 8;
                                                        xs ← bytes l; Ok (String (byte_of x) xs)
                                     | JNull :: l => xs ← bytes l; Ok (String (byte_of 0) xs)
                                     | _ => Err ErrType
                                     end) l
      | _ => Err ErrType
      end
  | JObj l =>
      match t with
      | TPtr name =>
          GMsg <$> (fix members l fs :=
                      match l with
                      | [] => Ok fs
                      | (k, j) :: l =>
                          match find_field (schema name) k with
                          | Some (f, ft) => x ← decode ft j (get_field f fs);
                                            members l (set_field f x fs)
                          | None => if strict then Err ErrUnknownField else members l fs
                          end
                      end) l (fields_or_new name cur)
      | _ => Err ErrType
      end
  end.

(** Decoding into a (non-nil) struct of type [name]: [null] changes nothing. *)
Definition decode_struct (name : string) (j : json) : outcome struct_val :=
  match j with
  | JNull => Ok (zero_struct (schema name))
  | _ => fields_or_new name <$> decode (TPtr name) j GNil
  end.
End decode.

(** [json.Unmarshal(b, &v)] for a struct [v] of type [name]. *)
Definition Unmarshal (schema : string → struct_type) (name b : string) : outcome struct_val :=
  j ← read_all b; decode_struct schema false name j.

(** [json.NewDecoder(b)] with [DisallowUnknownFields], then [Decode(&p)] where [p] points
    to a fresh struct of type [name]: [null] makes [p] nil ([None]). *)
Definition DecodeStrict (schema : string → struct_type) (name b : string) :
    outcome (option struct_val) :=
  j ← read_first b;
  match j with
  | JNull => Ok None
  | _ => Some <$> decode_struct schema true name j
  end.

(** ** Encoding *)

(** [encodeState.string] with HTML escaping. Bytes outside ASCII are copied; the
    repository encodes them only inside valid UTF-8 text. The escapes of U+2028 and
    U+2029 are left out, here and in [compact]. *)
Definition escape_char (c : ascii) (rest : string) : string :=
  if Ascii.eqb c QUOTE || Ascii.eqb c "\" then String "\" (String c rest)
  else if Ascii.eqb c "010" then String "\" (String "n" rest)
  else if Ascii.eqb c "013" then String "\" (String "r" rest)
  else if Ascii.eqb c "009" then String "\" (String "t" rest)
  else if (byte_val c <? 32) || Ascii.eqb c "<" || Ascii.eqb c ">" || Ascii.eqb c "&"
  then ("\u00" +:+ hex_byte c rest)%string
  else String c rest.

Fixpoint escape (s : string) : string :=
  match s with "" => "" | String c s => escape_char c (escape s) end.

Definition encode_string (s : string) : string :=
  String QUOTE (escape s +:+ String QUOTE "").

(** [compact]: white space outside strings is dropped, and "<", ">", "&" are escaped. *)
Fixpoint compact (in_string escaped : bool) (s : string) : string :=
  match s with
  | "" => ""
  | String c r =>
      if (Ascii.eqb c "<" || Ascii.eqb c ">" || Ascii.eqb c "&")%bool
      then ("\u00" +:+ hex_byte c (compact in_string false r))%string
      else if in_string then
        if escaped then String c (compact true false r)
        else if Ascii.eqb c "\" then String c (compact true true r)
        else String c (compact (negb (Ascii.eqb c QUOTE)) false r)
      else if is_space c then compact false false r
      else String c (compact (Ascii.eqb c QUOTE) false r)
  end.

(** An object from its members' texts. *)
Definition encode_object (members : list (string * string)) : string :=
  ("{" +:+ Join ((λ m, encode_string m.1 +:+ ":" +:+ m.2) <$> members) "," +:+ "}")%string.

Definition encode_array (l : list string) : string := ("[" +:+ Join l "," +:+ "]")%string.

(** A member that [omitempty] drops when [empty]. *)
Definition omitempty (empty : bool) (name text : string) : list (string * string) :=
  if empty then [] else [(name, text)].

Definition num_member (name : string) (n : Z) : list (string * string) :=
  omitempty (n =? 0) name (FormatInt n).
Definition str_member (name s : string) : list (string * string) :=
  omitempty (String.eqb s "") name (encode_string s).

(** ** Reading back what was encoded *)

Fixpoint is_ascii (s : string) : bool :=
  match s with ""%string => true | String c s => (byte_val c <? 128) && is_ascii s end.

Lemma hex4_hex_byte c :
  hex4 "0" "0" (digit_char (byte_val c / 16)) (digit_char (byte_val c mod 16)) = Some (byte_val c).
Proof. destruct c as [[] [] [] [] [] [] [] []]; vm_compute; reflexivity. Qed.

Lemma encode_rune_ascii c v : byte_val c < 128 → encode_rune (byte_val c) v = String c v.
Proof.
  intros Hc. pose proof (byte_val_range c). unfold encode_rune.
  replace ((55296 <=? byte_val c) && (byte_val c <=? 57343) || (1114111 <? byte_val c)
           || (byte_val c <? 0))%bool with false.
  - rewrite (proj2 (Z.ltb_lt _ _)) by lia. by rewrite byte_of_val.
  - symmetry. apply orb_false_iff; split; [apply orb_false_iff; split|];
      [apply andb_false_iff; left; apply Z.leb_gt|apply Z.ltb_ge|apply Z.ltb_ge]; lia.
Qed.

Lemma read_unicode_escape c t v rest :
  byte_val c < 128 → read_string 0 t = Some (v, rest) →
  read_string 0 ("\u00" +:+ hex_byte c t)%string = Some (String c v, rest).
Proof.
  intros Hc Ht. unfold hex_byte.
  change ("\u00" +:+ ?x)%string with (String "\" (String "u" (String "0" (String "0" x)))).
  cbn [read_string]. change (Ascii.eqb "\" QUOTE) with false.
  change (Ascii.eqb "\" "\") with true. change (Ascii.eqb "u" "u") with true. cbn iota.
  rewrite hex4_hex_byte. cbn [mbind option_bind].
  assert (Hs : ∀ m, is_surrogate_pair (byte_val c) m = false).
  { intros [m|]; [|done]. unfold is_surrogate_pair.
    by rewrite (proj2 (Z.leb_gt 55296 (byte_val c))) by lia. }
  repeat match goal with
  | |- (match ?x with _ => _ end) = _ => destruct x eqn:?; subst
  end; try (rewrite Ht; cbn; by rewrite encode_rune_ascii).
  all: rewrite Hs, andb_false_r in *; try done.
Qed.

Lemma read_escape_char c t v rest :
  byte_val c < 128 → read_string 0 t = Some (v, rest) →
  read_string 0 (escape_char c t) = Some (String c v, rest).
Proof.
  intros Hc Ht. unfold escape_char.
  destruct (_ || _)%bool eqn:E1.
  { apply orb_true_iff in E1 as [->%Ascii.eqb_eq| ->%Ascii.eqb_eq]; simpl; by rewrite Ht. }
  apply orb_false_iff in E1 as [Hq Hb].
  destruct (Ascii.eqb_spec c "010") as [->|]; [simpl; by rewrite Ht|].
  destruct (Ascii.eqb_spec c "013") as [->|]; [simpl; by rewrite Ht|].
  destruct (Ascii.eqb_spec c "009") as [->|]; [simpl; by rewrite Ht|].
  destruct (_ || _)%bool eqn:E2; [by apply read_unicode_escape|].
  rewrite !orb_false_iff in E2. destruct E2 as [[[E2 _] _] _].
  cbn [read_string]. rewrite Hq, Hb, E2, (proj2 (Z.ltb_lt _ _) Hc), Ht. done.
Qed.

Lemma read_escape s rest :
  is_ascii s = true → read_string 0 (escape s +:+ String QUOTE rest)%string = Some (s, rest).
Proof.
  induction s as [|c s IH]; simpl; [done|]. intros [Hc%Z.ltb_lt Hs]%andb_prop.
  assert (Happ : ∀ x, (escape_char c x +:+ String QUOTE rest)%string
                      = escape_char c (x +:+ String QUOTE rest)).
  { intros x. unfold escape_char, hex_byte. repeat case_match; done. }
  rewrite Happ. apply read_escape_char; [done|]. by apply IH.
Qed.

(** A text that starts a value with an ASCII string literal. *)
Lemma read_value_string n d s rest : is_ascii s = true →
  read_value (S n) d (encode_string s +:+ rest)%string = Read (JStr s) rest.
Proof.
  intros Hs. unfold encode_string. cbn [read_value].
  change (skip_ws (String QUOTE ?x +:+ rest)%string) with (String QUOTE (x +:+ rest)%string).
  change (Ascii.eqb QUOTE "{") with false. change (Ascii.eqb QUOTE "[") with false.
  change (Ascii.eqb QUOTE QUOTE) with true. cbn iota.
  replace ((escape s +:+ String QUOTE "") +:+ rest)%string
    with (escape s +:+ String QUOTE rest)%string.
  - by rewrite read_escape.
  - induction (escape s) as [|c x IH]; [done|]. rewrite !str_app_String. by f_equal.
Qed.

(** The text of an object with one member reads back as that object, whatever its value
    text [v] is, if [v] followed by the closing brace reads as [j]. *)
Lemma read_object1 k v j :
  is_ascii k = true →
  (∀ n, read_value (S n) 1 (v +:+ "}")%string = Read j "}"%string) →
  read_all (encode_object [(k, v)]) = Ok (JObj [(k, j)]).
Proof.
  intros Hk Hv. unfold encode_object. cbn [fmap list_fmap Join fst snd].
  set (txt := ((encode_string k +:+ ":" +:+ v) +:+ "}")%string).
  assert (Hfuel : ∃ m, json_fuel ("{" +:+ txt)%string = S (S (S m))).
  { unfold json_fuel. exists (2 * String.length txt + 1)%nat. simpl. lia. }
  unfold read_all. destruct Hfuel as [m ->].
  change ("{" +:+ txt)%string with (String "{" txt).
  assert (Hmem : read_members (S (S m)) 1 txt = Read [(k, j)] ""%string).
  { unfold txt, encode_string. cbn [read_members].
    change (skip_ws ((String QUOTE ?x +:+ ?y) +:+ "}")%string)
      with (String QUOTE ((x +:+ y) +:+ "}")%string).
    cbn [expect]. change (Ascii.eqb QUOTE QUOTE) with true. cbn iota.
    rewrite !str_app_assoc, str_app_String, read_escape by done.
    change ("" +:+ ":" +:+ v +:+ "}")%string with (String ":" (v +:+ "}")).
    change (skip_ws (String ":" ?x)) with (String ":" x). cbn [expect].
    change (Ascii.eqb ":" ":") with true. cbn iota. by rewrite Hv. }
  cbn [read_value]. change (skip_ws (String "{" txt)) with (String "{" txt).
  change (Ascii.eqb "{" "{") with true. cbn iota.
  change (MAX_DEPTH <=? 0) with false. cbn iota.
  assert (Hne : expect "}" (skip_ws txt) = None) by done. rewrite Hne.
  change (0 + 1) with 1. rewrite Hmem. done.
Qed.

(** *** Numbers *)

Lemma digit_dispatch c : is_digit c = true →
  is_space c = false ∧ Ascii.eqb c "{" = false ∧ Ascii.eqb c "[" = false
  ∧ Ascii.eqb c QUOTE = false ∧ Ascii.eqb c "n" = false ∧ Ascii.eqb c "t" = false
  ∧ Ascii.eqb c "f" = false ∧ Ascii.eqb c "-" = false.
Proof.
  destruct c as [[] [] [] [] [] [] [] []]; vm_compute; intros H; try discriminate H;
    repeat split.
Qed.

Lemma skip_digits_app ds c rest : all_decimal ds = true → is_digit c = false →
  skip_digits (ds +:+ String c rest)%string = String c rest.
Proof.
  intros Hds Hc. induction ds as [|x ds IH]; simpl in *; [by rewrite Hc|].
  apply andb_prop in Hds as [-> Hds]. by apply IH.
Qed.

Lemma skip_number_uint n : 0 ≤ n → skip_number (FormatUint n +:+ "}")%string = Some "}"%string.
Proof.
  intros Hn. pose proof (FormatUint_decimal n Hn) as Hdec.
  destruct (FormatUint_shape n Hn) as [->|(d & t & Hd & E)]; [done|].
  rewrite E in *. cbn [all_decimal] in Hdec. apply andb_prop in Hdec as [Hc Ht].
  rewrite str_app_String. unfold skip_number. cbn [expect].
  destruct (digit_dispatch _ Hc) as (_ & _ & _ & _ & _ & _ & _ & ->). cbn [expect].
  destruct (Ascii.eqb_spec (digit_char d) "0") as [E0|_].
  { pose proof (digit_val_char d) as Hv. rewrite E0 in Hv. simpl in Hv.
    assert (Some 0 = Some d) by (apply Hv; lia). simplify_eq. lia. }
  unfold digits1. cbn [starts_digit skip_digits]. rewrite Hc.
  by rewrite skip_digits_app.
Qed.

(** A text that starts a value with the digits of a number. *)
Lemma read_value_uint n k d : 0 ≤ n →
  read_value (S k) d (FormatUint n +:+ "}")%string = Read (JNum (FormatUint n)) "}"%string.
Proof.
  intros Hn. pose proof (skip_number_uint n Hn) as Hskip.
  pose proof (FormatUint_decimal n Hn) as Hdec.
  destruct (FormatUint n) as [|c t] eqn:E; [by apply format_digits_nonempty in E|].
  cbn [all_decimal] in Hdec. apply andb_prop in Hdec as [Hc _].
  destruct (digit_dispatch _ Hc) as (Hsp & H1 & H2 & H3 & H4 & H5 & H6 & _).
  rewrite str_app_String in *. cbn [read_value skip_ws].
  rewrite Hsp, H1, H2, H3, H4, H5, H6. unfold read_number. rewrite Hskip.
  rewrite <- str_app_String.
  replace (String.length (String c t +:+ "}") - String.length "}")%nat
    with (String.length (String c t)) by (rewrite str_length_app; simpl; lia).
  by rewrite take_app.
Qed.
