(* ===== verification/Utils.v ===== *)
(** * Files, archives and downloads

    pkg/utils/utils.go. The operating system, the archive readers and the HTTP client are
    the parameter [Os]. Closing files is not modelled: nothing is read after it. *)

From S2P Require Import Prelude GoStrings GoCrypto GoPath.

Local Open Scope Z_scope.

(** ** Code outside the repository *)

(** What [io.Copy] reads from a source: the bytes it gets, and the error that ends it. *)
Definition source : Type := string * option error.

(** A header and the data after it. *)
Record tar_entry : Type := {
  tar_Name : string;
  tar_Typeflag : ascii;
  tar_Mode : Z;
  (** [fh.FileInfo().Mode()] *)
  tar_FileMode : Z;
  tar_Data : source
}.

(** What successive calls of [tr.Next()] return before [io.EOF]. *)
Inductive tar_next : Type :=
  | TarEntry (fh : tar_entry)
  | TarNil
  | TarError (e : error).

Record zip_entry : Type := {
  zip_Name : string;
  (** [zipFile.FileInfo().Mode()] *)
  zip_Mode : Z;
  zip_Open : outcome source
}.

Record http_response : Type := { StatusCode : Z; Body : source }.

Class Os (W : Type) : Type := {
  File : Type;
  OpenFile : string → Z → Z → M W File;
  (** [syscall.Stat]: the number of links *)
  Stat_Nlink : string → M W Z;
  Stat : string → M W unit;
  IsNotExist : error → bool;
  Size : File → M W Z;
  ReadAll : File → M W string;
  (** [file.Read] with a buffer of that length. *)
  ReadUpTo : File → Z → M W string;
  (** Writes at the start of the file. *)
  Write : File → string → M W unit;
  MkdirAll : string → Z → M W unit;
  Glob : string → M W (list string);
  gzip_tar : File → M W (list tar_next);
  zip_NewReader : File → Z → M W (list zip_entry);
  (** [errors.Is(err, zip.ErrFormat)] *)
  IsErrFormat : error → bool;
  http_Get : string → M W http_response;
}.

Definition O_RDONLY : Z := 0.
Definition O_RDWR : Z := 2.
Definition O_CREATE : Z := 64.
Definition O_TRUNC : Z := 512.
Definition O_NOFOLLOW : Z := 131072.

(** Bits of [os.FileMode]. *)
Definition ModeDir : Z := Z.shiftl 1 31.
Definition ModeSymlink : Z := Z.shiftl 1 27.
Definition ModeType : Z :=
  Z.lor ModeDir (Z.lor ModeSymlink (Z.lor (Z.shiftl 1 25) (Z.lor (Z.shiftl 1 24)
    (Z.lor (Z.shiftl 1 26) (Z.lor (Z.shiftl 1 21) (Z.shiftl 1 19)))))).

Definition IsRegular (mode : Z) : bool := Z.land mode ModeType =? 0.
Definition IsDir (mode : Z) : bool := negb (Z.land mode ModeDir =? 0).

(** [archive/tar]: TypeReg, TypeLink, TypeSymlink and TypeDir. *)
Definition TypeReg : ascii := "0".
Definition TypeLink : ascii := "1".
Definition TypeSymlink : ascii := "2".
Definition TypeDir : ascii := "5".

Definition IeoPrefix : string := "ETHERNET_".

(** The test of [IsK8sDeployment] on the value of the variable. *)
Definition is_true_text (value : string) : bool := String.eqb (ToLower value) "true".

(** [GetFwSearchPath] on what reading the parameter of the kernel module gives: the path,
    and the error that is returned beside it. *)
Definition fw_path_of (fwPathBytes : option string) : string * option error :=
  let defaultFwPath := "/lib/firmware"%string in
  match fwPathBytes with
  | None => (defaultFwPath, Some (Errorf "cannot read file %s"))
  | Some bytes =>
      let fwPath := RemoveAll bytes "010"%char in
      (if String.eqb fwPath "" then defaultFwPath else fwPath, None)
  end.

Definition CreateFullDdpPaths (fwPath : string) : string * string :=
  let ddpPath := "intel/ice/ddp"%string in
  let updatesDdpPath := "updates/intel/ice/ddp"%string in
  if HasSuffix fwPath "/" then (fwPath +:+ ddpPath, fwPath +:+ updatesDdpPath)
  else (fwPath +:+ "/" +:+ ddpPath, fwPath +:+ "/" +:+ updatesDdpPath).

Section utils.
Context {W : Type} `{!Os W}.

(** ** Opening files *)

Definition isHardLink (path : string) : M W bool :=
  nlink ← Stat_Nlink path;
  mret (1 <? nlink).

Definition OpenFileNoLinks (path : string) (flag perm : Z) : M W File :=
  file ← OpenFile path (Z.lor flag O_NOFOLLOW) perm;
  hardLink ← isHardLink path;
  if (hardLink : bool) then throw (Errorf "%v is a hardlink") else mret file.

Definition OpenNoLinks (path : string) : M W File := OpenFileNoLinks path O_RDONLY 0.

Definition CreateNoLinks (path : string) : M W File :=
  OpenFileNoLinks path (Z.lor O_RDWR (Z.lor O_CREATE O_TRUNC)) 438.

Definition io_Copy (file : File) (src : source) : M W unit :=
  Write file src.1;;
  match src.2 with Some e => throw e | None => mret tt end.

(** ** Downloads *)

Definition verifyChecksum (path expected : string) : M W bool :=
  if String.eqb expected "" then mret false
  else
    f ← attempt (OpenNoLinks path);
    match f with
    | inl _ => throw (Errorf "failed to open file to calculate sha-1")
    | inr f =>
        data ← attempt (ReadAll f);
        match data with
        | inl _ => throw (Errorf "failed to copy file to calculate sha-1")
        | inr data => mret (String.eqb (hex_encode (sha1 data)) (ToLower expected))
        end
    end.

Definition DownloadFile (path url checksum : string) : M W unit :=
  f ← CreateNoLinks path;
  r ← wrapM "unable to download image from: %s err: %s" (http_Get url);
  if negb (StatusCode r =? 200) then throw (Errorf "unable to download image from: %s err: %s")
  else
    io_Copy f (Body r);;
    if negb (String.eqb checksum "") then
      ok ← verifyChecksum path checksum;
      if negb ok then throw (Errorf "Checksum mismatch in downloaded file: %s") else mret tt
    else mret tt.

Definition CreateFolder (path : string) : M W unit :=
  r ← attempt (Stat path);
  match r with
  | inr _ => mret tt
  | inl err => if negb (IsNotExist err) then throw err else MkdirAll path 511
  end.

(** ** Archives *)

(** The check that both unpackers make of the destination of an entry. *)
Definition in_destination (nfDst dstPath : string) : bool := HasPrefix nfDst (Clean dstPath +:+ "/").

Definition untar_entry (dstPath : string) (next : tar_next) : M W unit :=
  match next with
  | TarError e => throw e
  | TarNil => panic
  | TarEntry fh =>
      let nfDst := filepath_Join [dstPath; tar_Name fh] in
      if negb (in_destination nfDst dstPath) then throw (Errorf "illegal file path: %s")
      else if Ascii.eqb (tar_Typeflag fh) TypeReg then
        nf ← OpenFileNoLinks nfDst (Z.lor O_CREATE O_RDWR) (tar_Mode fh);
        io_Copy nf (tar_Data fh)
      else if Ascii.eqb (tar_Typeflag fh) TypeDir then MkdirAll nfDst (tar_FileMode fh)
      else if Ascii.eqb (tar_Typeflag fh) TypeSymlink || Ascii.eqb (tar_Typeflag fh) TypeLink then mret tt
      else throw (Errorf "unable to untar type: %c in file %s")
  end.

Definition Untar (srcPath dstPath : string) : M W unit :=
  f ← OpenNoLinks srcPath;
  tr ← gzip_tar f;
  forM tr (untar_entry dstPath).

Definition unzipFile (zipFile : zip_entry) (path : string) (mode : Z) : M W unit :=
  file ← OpenFileNoLinks path (Z.lor O_CREATE O_RDWR) mode;
  reader ← lift (zip_Open zipFile);
  io_Copy file reader.

Definition unzip_entry (dstPath : string) (zipFile : zip_entry) : M W unit :=
  let mode := zip_Mode zipFile in
  let nfDst := filepath_Join [dstPath; zip_Name zipFile] in
  if negb (in_destination nfDst dstPath) then throw (Errorf "illegal file path: %s")
  else if IsRegular mode then unzipFile zipFile nfDst mode
  else if IsDir mode then MkdirAll nfDst mode
  else if Z.land mode ModeSymlink =? ModeSymlink then mret tt
  else throw (Errorf "unable to unzip file %v").

Definition Unzip (srcPath dstPath : string) : M W unit :=
  f ← OpenNoLinks srcPath;
  size ← Size f;
  files ← zip_NewReader f size;
  forM files (unzip_entry dstPath).

Definition UnpackDDPArchive (srcPath dstPath : string) : M W unit :=
  r ← attempt (Unzip srcPath dstPath);
  match r with
  | inr _ =>
      found ← Glob (filepath_Join [dstPath; "ice_*.zip"%string]);
      match found with
      | [archive] => Unzip archive dstPath
      | _ => throw (Errorf "unexpected number of DDP archives")
      end
  | inl err => if IsErrFormat err then Untar srcPath dstPath else throw err
  end.
End utils.
