(* ===== verification/UtilsSpec.v ===== *)
(** * What unpacking and downloading guarantee

    Against a file system kept in a map: paths name regular files (by inode, so that hard
    links are two names of one), symbolic links and directories. Directories on the way to
    a path are not looked at; the unpackers create no links. *)

From S2P Require Import Prelude GoStrings GoCrypto GoPath Utils.

Local Open Scope Z_scope.

(** ** A file system *)

Inductive dirent : Set :=
  | Reg (inode : Z)
  | Link (target : string)
  | Dir.

#[export] Instance dirent_eq_dec : EqDecision dirent.
Proof. solve_decision. Defined.

Record fs : Type := { entries : gmap string dirent; inodes : gmap Z string }.

Definition links (st : fs) (i : Z) : list (string * dirent) :=
  filter (λ e, e.2 = Reg i) (map_to_list (entries st)).

Definition set_inode (st : fs) (i : Z) (data : string) : fs :=
  {| entries := entries st; inodes := <[i := data]> (inodes st) |}.

Definition add_entry (st : fs) (path : string) (e : dirent) : fs :=
  {| entries := <[path := e]> (entries st); inodes := inodes st |}.

Definition new_inode (st : fs) : Z := fresh (dom (inodes st) : gset Z).

Definition has_flag (flag bit : Z) : bool := negb (Z.land flag bit =? 0).

Definition os_error {A} (text : string) : M fs A := throw (ExtError text).

(** The bytes of the file at a path. *)
Definition read_file (st : fs) (path : string) : option string :=
  match entries st !! path with Some (Reg i) => inodes st !! i | _ => None end.

Section file_system.
Variable tar_of : string → outcome (list tar_next).
Variable zip_of : string → outcome (list zip_entry).
Variable is_format : error → bool.
Variable pattern_matches : string → string → bool.
Variable net : string → outcome http_response.

Definition mem_open (path : string) (flag perm : Z) : M fs Z := λ st,
  match entries st !! path with
  | Some (Reg i) => (Ok i, if has_flag flag O_TRUNC then set_inode st i "" else st)
  | Some (Link _) => os_error "too many levels of symbolic links" st
  | Some Dir => os_error "is a directory" st
  | None =>
      if has_flag flag O_CREATE
      then (Ok (new_inode st), set_inode (add_entry st path (Reg (new_inode st))) (new_inode st) "")
      else os_error "no such file or directory" st
  end.

Definition mem_nlink (path : string) : M fs Z := λ st,
  match entries st !! path with
  | Some (Reg i) => (Ok (Z.of_nat (length (links st i))), st)
  | Some Dir => (Ok 2, st)
  | _ => os_error "no such file or directory" st
  end.

Definition contents (i : Z) : M fs string := gets (λ st, default ""%string (inodes st !! i)).

#[local] Instance mem_os : Os fs := {|
  File := Z;
  OpenFile := mem_open;
  Stat_Nlink := mem_nlink;
  Stat path := λ st, match entries st !! path with Some _ => (Ok tt, st) | None => os_error "ENOENT" st end;
  IsNotExist e := match e with ExtError "ENOENT" => true | _ => false end;
  Size i := data ← contents i; mret (Z.of_nat (String.length data));
  ReadAll := contents;
  ReadUpTo i n := data ← contents i; mret (take (Z.to_nat n) data);
  Write i data := modify (λ st,
    set_inode st i (data +:+ drop (String.length data) (default ""%string (inodes st !! i))));
  MkdirAll path mode := λ st,
    match entries st !! path with
    | None => (Ok tt, add_entry st path Dir)
    | Some Dir => (Ok tt, st)
    | Some _ => os_error "not a directory" st
    end;
  Glob pattern := gets (λ st, List.filter (pattern_matches pattern) (map_to_list (entries st)).*1);
  gzip_tar i := data ← contents i; lift (tar_of data);
  zip_NewReader i size := data ← contents i; lift (zip_of data);
  IsErrFormat := is_format;
  http_Get url := lift (net url);
|}.

(** The inodes that names refer to exist. *)
Definition well_formed (st : fs) : Prop :=
  ∀ path i, entries st !! path = Some (Reg i) → is_Some (inodes st !! i).

(** The path is the only name of the inode. *)
Definition sole_name (st : fs) (path : string) (i : Z) : Prop :=
  entries st !! path = Some (Reg i) ∧ ∀ q, entries st !! q = Some (Reg i) → q = path.

Lemma elem_of_links st i q e : (q, e) ∈ links st i ↔ entries st !! q = Some (Reg i) ∧ e = Reg i.
Proof. unfold links. rewrite list_elem_of_filter, elem_of_map_to_list. naive_solver. Qed.

Lemma links_NoDup st i : NoDup (links st i).
Proof. apply NoDup_filter, NoDup_map_to_list. Qed.

(** One name means a link count of one. *)
Lemma links_sole st path i :
  entries st !! path = Some (Reg i) → (length (links st i) ≤ 1)%nat ↔ sole_name st path i.
Proof.
  intros Hp. pose proof (links_NoDup st i) as Hnd.
  assert ((path, Reg i) ∈ links st i) as Hin by (apply elem_of_links; done).
  split.
  - intros Hlen. split; [done|]. intros q Hq.
    assert ((q, Reg i) ∈ links st i) as Hin' by (apply elem_of_links; done).
    destruct (links st i) as [|x [|y l]]; simpl in Hlen; [set_solver| |lia].
    apply list_elem_of_singleton in Hin, Hin'. congruence.
  - intros [_ Hsole]. destruct (links st i) as [|[q e] [|[q' e'] l]] eqn:E; simpl; try lia.
    assert (∀ k f, (k, f) ∈ links st i → (k, f) = (path, Reg i)) as Hall.
    { intros k f [Hk ->]%elem_of_links. by rewrite (Hsole k Hk). }
    rewrite E in Hall. pose proof (Hall q e ltac:(set_solver)) as H1.
    pose proof (Hall q' e' ltac:(set_solver)) as H2. rewrite H1, H2 in Hnd.
    apply NoDup_cons in Hnd as [Hnd _]. set_solver.
Qed.

Lemma new_inode_fresh st : inodes st !! new_inode st = None.
Proof. apply not_elem_of_dom. unfold new_inode. apply (is_fresh (dom (inodes st) : gset Z)). Qed.

(** What opening without links answers. *)
Lemma OpenFileNoLinks_run path flag perm st :
  well_formed st → has_flag (Z.lor flag O_NOFOLLOW) O_CREATE = has_flag flag O_CREATE →
  has_flag (Z.lor flag O_NOFOLLOW) O_TRUNC = has_flag flag O_TRUNC →
  OpenFileNoLinks path flag perm st =
  match entries st !! path with
  | Some (Reg i) =>
      let st' := if has_flag flag O_TRUNC then set_inode st i "" else st in
      if decide (length (links st i) ≤ 1)%nat then (Ok i, st') else (Err (Errorf "%v is a hardlink"), st')
  | Some (Link _) => (Err (ExtError "too many levels of symbolic links"), st)
  | Some Dir => (Err (ExtError "is a directory"), st)
  | None =>
      if has_flag flag O_CREATE
      then (Ok (new_inode st), set_inode (add_entry st path (Reg (new_inode st))) (new_inode st) "")
      else (Err (ExtError "no such file or directory"), st)
  end.
Proof.
  intros Hwf HC HT. unfold OpenFileNoLinks, isHardLink. cbn [OpenFile Stat_Nlink mem_os].
  unfold mem_open, mem_nlink, mbind, M_bind. rewrite HC, HT.
  destruct (entries st !! path) as [[i|t|]|] eqn:E; try done.
  - set (st' := if has_flag flag O_TRUNC then _ else st).
    assert (entries st' = entries st) as He by (unfold st'; by case_match).
    assert (links st' i = links st i) as Hl by (unfold links; by rewrite He).
    rewrite He, E, Hl. unfold mret, M_ret.
    case_decide; [rewrite (proj2 (Z.ltb_ge _ _)) by lia|rewrite (proj2 (Z.ltb_lt _ _)) by lia]; done.
  - destruct (has_flag flag O_CREATE); [|done]. simpl. rewrite lookup_insert_eq.
    set (st' := set_inode (add_entry st path _) _ _).
    assert (sole_name st' path (new_inode st)) as Hs.
    { split; simpl; [apply lookup_insert_eq|]. intros q. destruct (decide (path = q)) as [|Hne]; [done|].
      rewrite lookup_insert_ne by done. intros [x Hx]%Hwf. by rewrite new_inode_fresh in Hx. }
    pose proof (proj2 (links_sole st' path (new_inode st) (proj1 Hs)) Hs).
    unfold mret, M_ret. rewrite (proj2 (Z.ltb_ge _ _)) by lia. done.
Qed.

(** ** Unpacking *)

Section confined.
Variable dir : string.
Variable st0 : fs.

(** Paths that are not below the directory name what they named, with the same bytes. *)
Definition kept_outside (st : fs) : Prop :=
  well_formed st
  ∧ ∀ path, ¬ below dir path →
      entries st !! path = entries st0 !! path
      ∧ ∀ i, entries st0 !! path = Some (Reg i) → inodes st !! i = inodes st0 !! i.

Lemma kept_add_entry st path e :
  kept_outside st → below dir path → (∀ i, e = Reg i → is_Some (inodes st !! i)) →
  kept_outside (add_entry st path e).
Proof.
  intros [Hwf Hkept] Hbelow He. split.
  - intros q i; simpl. rewrite lookup_insert_Some. intros [[<- ->]|[_ Hq]]; [by apply He|by apply (Hwf q)].
  - intros q Hq. simpl. rewrite lookup_insert_ne by (by intros <-). by apply Hkept.
Qed.

Lemma kept_set_inode st i data :
  kept_outside st → (∀ q, entries st !! q = Some (Reg i) → below dir q) →
  kept_outside (set_inode st i data).
Proof.
  intros [Hwf Hkept] Hi. split.
  - intros q j Hq; simpl. rewrite lookup_insert_is_Some'. right. by apply (Hwf q).
  - intros q Hq. destruct (Hkept q Hq) as [He Hdata]. split; [done|].
    intros j Hj. simpl. rewrite lookup_insert_ne; [by apply Hdata|].
    intros <-. apply Hq, Hi. by rewrite He.
Qed.

Lemma kept_new_file st path :
  kept_outside st → below dir path →
  kept_outside (set_inode (add_entry st path (Reg (new_inode st))) (new_inode st) "").
Proof.
  intros Hst Hbelow.
  assert (∀ q, entries st !! q ≠ Some (Reg (new_inode st))) as Hnew.
  { intros q [x Hx]%(proj1 Hst). by rewrite new_inode_fresh in Hx. }
  apply (kept_add_entry (set_inode st (new_inode st) "")); [|done|].
  - apply kept_set_inode; [done|]. intros q Hq. by destruct (Hnew q).
  - intros i [= <-]. simpl. rewrite lookup_insert_eq. done.
Qed.

(** The file opened has no name but the one it was opened by. *)
Lemma preserves_open_create path perm (k : Z → M fs unit) :
  below dir path →
  (∀ i st, kept_outside st → sole_name st path i → kept_outside (k i st).2) →
  preserves kept_outside (OpenFileNoLinks path (Z.lor O_CREATE O_RDWR) perm ≫= k).
Proof.
  intros Hbelow Hk st Hst. unfold mbind, M_bind. rewrite OpenFileNoLinks_run by (done || apply Hst).
  change (has_flag _ O_TRUNC) with false. change (has_flag _ O_CREATE) with true. cbn iota.
  destruct (entries st !! path) as [[i|t|]|] eqn:E; try done.
  - case_decide as Hl; [|done]. apply Hk; [done|]. by apply links_sole.
  - apply Hk; [by apply kept_new_file|]. split; simpl; [apply lookup_insert_eq|].
    intros q. destruct (decide (path = q)) as [|Hne]; [done|]. rewrite lookup_insert_ne by done.
    intros [x Hx]%(proj1 Hst). by rewrite new_inode_fresh in Hx.
Qed.

Lemma kept_io_Copy path i src st :
  below dir path → kept_outside st → sole_name st path i → kept_outside (io_Copy i src st).2.
Proof.
  intros Hbelow Hst [_ Hsole]. unfold io_Copy. unfold_state.
  destruct src as [data [e|]]; simpl; (apply kept_set_inode; [done|]); intros q Hq; by rewrite (Hsole q Hq).
Qed.

Lemma preserves_mkdir path mode : below dir path → preserves kept_outside (MkdirAll path mode).
Proof.
  intros Hbelow st Hst. simpl. destruct (entries st !! path) as [[| |]|]; try done.
  by apply kept_add_entry.
Qed.

Lemma preserves_open_read path : preserves kept_outside (OpenNoLinks path).
Proof.
  intros st Hst. unfold OpenNoLinks. rewrite OpenFileNoLinks_run by (done || apply Hst).
  change (has_flag _ O_TRUNC) with false. change (has_flag _ O_CREATE) with false. cbn iota.
  destruct (entries st !! path) as [[i|t|]|]; try done. by case_decide.
Qed.
End confined.

Lemma in_destination_below dst name :
  HasPrefix dst "/" = true → in_destination (filepath_Join [dst; name]) dst = true →
  below (Clean dst) (filepath_Join [dst; name]).
Proof.
  intros Hd Hin. unfold in_destination in Hin. cbn [filepath_Join] in *.
  destruct (String.eqb_spec dst ""); [by subst|].
  apply Clean_prefix_below; [done| |done].
  apply HasPrefix_app in Hd as [r ->]. by apply HasPrefix_app; eexists.
Qed.

Lemma preserves_contents P i : preserves P (contents i).
Proof. apply preserves_gets. Qed.

Lemma preserves_untar_entry dst st0 next :
  HasPrefix dst "/" = true → preserves (kept_outside (Clean dst) st0) (untar_entry dst next).
Proof.
  intros Hd. destruct next as [fh| |e]; cbn [untar_entry]; [|eauto with preserves..].
  destruct (in_destination _ _) eqn:Hin; cbn [negb]; [|eauto with preserves].
  apply in_destination_below in Hin; [|done].
  destruct (Ascii.eqb _ _).
  { apply preserves_open_create; [done|]. intros i st Hst Hsole. by eapply kept_io_Copy. }
  destruct (Ascii.eqb _ TypeDir); [by apply preserves_mkdir|].
  destruct (_ || _); eauto with preserves.
Qed.

Lemma preserves_unzip_entry dst st0 file :
  HasPrefix dst "/" = true → preserves (kept_outside (Clean dst) st0) (unzip_entry dst file).
Proof.
  intros Hd. unfold unzip_entry.
  destruct (in_destination _ _) eqn:Hin; cbn [negb]; [|eauto with preserves].
  apply in_destination_below in Hin; [|done].
  destruct (IsRegular _).
  { apply preserves_open_create; [done|]. intros i st Hst Hsole. unfold mbind, M_bind, lift.
    destruct (zip_Open file); [|done..]. by eapply kept_io_Copy. }
  destruct (IsDir _); [by apply preserves_mkdir|].
  destruct (_ =? _); eauto with preserves.
Qed.

Lemma preserves_unpackers dst st0 src :
  HasPrefix dst "/" = true →
  preserves (kept_outside (Clean dst) st0) (Untar src dst) ∧ preserves (kept_outside (Clean dst) st0) (Unzip src dst).
Proof.
  intros Hd. split.
  - apply preserves_bind; [apply preserves_open_read|]. intros f.
    apply preserves_bind; [simpl; eauto using preserves_contents with preserves|]. intros tr.
    apply preserves_forM. intros x _. by apply preserves_untar_entry.
  - apply preserves_bind; [apply preserves_open_read|]. intros f.
    apply preserves_bind; [simpl; eauto using preserves_contents with preserves|]. intros size.
    apply preserves_bind; [simpl; eauto using preserves_contents with preserves|]. intros files.
    apply preserves_forM. intros x _. by apply preserves_unzip_entry.
Qed.

(** ** Downloads *)

Definition free (st : fs) (path : string) : Prop :=
  entries st !! path = None ∨ ∃ i, sole_name st path i.

Lemma CreateNoLinks_run path st :
  well_formed st → free st path →
  ∃ i st', CreateNoLinks path st = (Ok i, st') ∧ well_formed st' ∧ sole_name st' path i
    ∧ read_file st' path = Some ""%string
    ∧ (∀ q, q ≠ path → entries st' !! q = entries st !! q ∧ read_file st' q = read_file st q).
Proof.
  intros Hwf Hfree. unfold CreateNoLinks. rewrite OpenFileNoLinks_run by done.
  change (has_flag _ O_TRUNC) with true. change (has_flag _ O_CREATE) with true. cbn iota zeta.
  destruct Hfree as [Hnone|[i Hsole]].
  - rewrite Hnone.
    assert (∀ q, entries st !! q ≠ Some (Reg (new_inode st))) as Hnew.
    { intros q [x Hx]%Hwf. by rewrite new_inode_fresh in Hx. }
    eexists _, _. split; [done|]. unfold read_file, sole_name. simpl. rewrite !lookup_insert_eq.
    split_and!; [|done| |done|].
    + intros q j; simpl. rewrite lookup_insert_Some, lookup_insert_is_Some'. intros [[<- [= <-]]|[_ Hq]]; [by left|right; by eapply Hwf].
    + intros q. destruct (decide (path = q)) as [|Hne]; [done|]. rewrite lookup_insert_ne by done. intros Hq. by apply Hnew in Hq.
    + intros q Hq. rewrite lookup_insert_ne by done. split; [done|].
      destruct (entries st !! q) as [[j| |]|] eqn:E; try done. rewrite lookup_insert_ne; [done|].
      intros <-. by apply Hnew in E.
  - destruct Hsole as [Hi Hsole]. rewrite Hi, decide_True by (by apply (links_sole _ path)).
    eexists _, _. split; [done|]. unfold read_file, sole_name. simpl. rewrite Hi, lookup_insert_eq.
    split_and!; [|done|done|done|].
    + intros q j Hq; simpl. rewrite lookup_insert_is_Some'. right. by eapply Hwf.
    + intros q Hq. split; [done|]. destruct (entries st !! q) as [[j| |]|] eqn:E; try done.
      rewrite lookup_insert_ne; [done|]. intros ->. by apply Hq, Hsole.
Qed.

(** What a download that got a body leaves behind. *)
Definition downloaded (st st' : fs) (path data : string) : Prop :=
  read_file st' path = Some data
  ∧ ∀ q, q ≠ path → entries st' !! q = entries st !! q ∧ read_file st' q = read_file st q.

Lemma io_Copy_run path i src st :
  sole_name st path i → read_file st path = Some ""%string →
  io_Copy i src st =
    (match src.2 with None => Ok tt | Some e => Err e end, set_inode st i src.1).
Proof.
  intros [Hi _] Hempty. unfold read_file in Hempty. rewrite Hi in Hempty.
  unfold io_Copy. unfold_state. unfold modify. rewrite Hempty. simpl.
  replace (drop (String.length src.1) "") with ""%string by (by destruct (String.length src.1)).
  rewrite str_app_nil_r. by destruct src as [? [|]].
Qed.

Lemma verifyChecksum_run path expected i data st :
  well_formed st → sole_name st path i → read_file st path = Some data →
  verifyChecksum path expected st =
  (Ok (negb (String.eqb expected "") && String.eqb (hex_encode (sha1 data)) (ToLower expected)), st).
Proof.
  intros Hwf [Hi Hsole] Hdata. unfold verifyChecksum. destruct (String.eqb expected ""); [done|].
  unfold read_file in Hdata. rewrite Hi in Hdata.
  unfold OpenNoLinks. unfold mbind, M_bind, attempt. rewrite OpenFileNoLinks_run by done.
  rewrite Hi, decide_True by (by apply (links_sole _ path)).
  change (has_flag _ O_TRUNC) with false. cbn. rewrite Hdata. done.
Qed.

(** C20 A download to a path that is free, or the only name of a file, succeeds exactly when
    the server answers 200 with a complete body and the body has the SHA-1 checksum asked
    for, in any case of its letters (no checksum asks for nothing); the file then holds the
    body and no other file has changed. *)
Theorem DownloadFile_spec (path url checksum : string) (st : fs)
    (Hst : well_formed st) (Hfree : free st path) :
  let '(result, st') := DownloadFile path url checksum st in
  (result = Ok tt ↔
     ∃ data, net url = Ok {| StatusCode := 200; Body := (data, None) |}
       ∧ (checksum = ""%string ∨ hex_encode (sha1 data) = ToLower checksum))
  ∧ (result = Ok tt → ∃ data, net url = Ok {| StatusCode := 200; Body := (data, None) |} ∧ downloaded st st' path data).
Proof.
  destruct (CreateNoLinks_run path st Hst Hfree) as (i & st1 & Hcreate & Hwf1 & Hsole1 & Hempty & Hothers).
  unfold DownloadFile. unfold mbind at 1, M_bind at 1. rewrite Hcreate.
  unfold mbind at 1, M_bind at 1. unfold wrapM. cbn [http_Get mem_os]. unfold lift.
  destruct (net url) as [[code [data eof]]|e|] eqn:Hnet; cbn [wrap]; [|split; naive_solver..].
  cbn [StatusCode Body]. destruct (Z.eqb_spec code 200) as [->|Hcode]; cbn [negb]; [|split; naive_solver].
  unfold mbind at 1, M_bind at 1. rewrite (io_Copy_run path) by done. cbn [fst snd].
  destruct eof as [e|]; [split; naive_solver|].
  set (st2 := set_inode st1 i data).
  assert (sole_name st2 path i) as Hsole2 by done.
  assert (read_file st2 path = Some data) as Hdata.
  { unfold read_file. simpl. destruct Hsole1 as [-> _]. apply lookup_insert_eq. }
  assert (well_formed st2) as Hwf2.
  { intros q j Hq; simpl. rewrite lookup_insert_is_Some'. right. by eapply Hwf1. }
  assert (downloaded st st2 path data) as Hdown.
  { split; [done|]. intros q Hq. destruct (Hothers q Hq) as [He Hr]. split; [done|].
    rewrite <- Hr. unfold read_file. simpl. destruct (entries st1 !! q) as [[j| |]|] eqn:E; try done.
    rewrite lookup_insert_ne; [done|]. intros ->. by apply Hq, Hsole1. }
  destruct (String.eqb_spec checksum ""); cbn [negb]; [split; naive_solver|].
  unfold mbind, M_bind. rewrite (verifyChecksum_run path checksum i data) by done.
  destruct (String.eqb_spec checksum ""); [done|]. cbn [negb andb].
  destruct (String.eqb_spec (hex_encode (sha1 data)) (ToLower checksum)); cbn [negb]; split; naive_solver.
Qed.

(** A download to a path that is a hard link is refused, but only after the file the
    link shares has been emptied. *)
Theorem DownloadFile_empties_hard_link (path other url checksum : string) (i : Z) (st : fs)
    (Hst : well_formed st) (Hne : path ≠ other)
    (Hpath : entries st !! path = Some (Reg i)) (Hother : entries st !! other = Some (Reg i)) :
  ∃ st', DownloadFile path url checksum st = (Err (Errorf "%v is a hardlink"), st')
    ∧ read_file st' other = Some ""%string.
Proof.
  unfold DownloadFile, CreateNoLinks. unfold mbind, M_bind. rewrite OpenFileNoLinks_run by done.
  rewrite Hpath. change (has_flag _ O_TRUNC) with true. cbn iota zeta.
  rewrite decide_False; [|intros [_ Hsole]%(links_sole st path i Hpath); by apply Hne, eq_sym, Hsole].
  eexists. split; [done|]. unfold read_file. simpl. rewrite Hother. apply lookup_insert_eq.
Qed.
End file_system.

(** ** A concrete file system *)

Definition example_fs : fs := {|
  entries := <["/etc/passwd" := Reg 1]> (<["/tmp/x/ddp.tgz" := Reg 2]> (<["/tmp/x/link" := Reg 1]> ∅))%string;
  inodes := <[1 := "root"%string]> (<[2 := "archive"%string]> ∅)
|}.

Lemma example_fs_well_formed : well_formed example_fs.
Proof.
  intros path i. unfold example_fs. cbn [entries inodes].
  rewrite !lookup_insert_Some, lookup_empty. intros Hpath.
  assert (i = 1 ∨ i = 2) as [->| ->] by naive_solver; eexists; reflexivity.
Qed.

Definition example_entry (name : string) : tar_next :=
  TarEntry {| tar_Name := name; tar_Typeflag := TypeReg; tar_Mode := 420; tar_FileMode := 420; tar_Data := ("evil"%string, None) |}.

(** A tarball with a good entry and one that would leave the destination. *)
Definition example_tar (data : string) : outcome (list tar_next) :=
  Ok [example_entry "ice.pkg"; example_entry "../../etc/passwd"].

Definition example_zip (data : string) : outcome (list zip_entry) := Err (ExtError "zip: not a valid zip file").
Definition example_is_format (e : error) : bool := bool_decide (e = ExtError "zip: not a valid zip file").
Definition no_pattern (pattern path : string) : bool := false.
Definition example_net (url : string) : outcome http_response := Ok {| StatusCode := 200; Body := ("abc"%string, None) |}.

Definition example_os : Os fs := mem_os example_tar example_zip example_is_format no_pattern example_net.


Lemma DownloadFile_spec_witness :
  (@DownloadFile fs example_os "/tmp/x/ddp.tgz" "http://server/ddp.tgz" "A9993E364706816ABA3E25717850C26C9CD0D89D" example_fs).1 = Ok tt
  ∧ let '(result, st') := @DownloadFile fs example_os "/tmp/x/ddp.tgz" "http://server/ddp.tgz" "A9993E364706816ABA3E25717850C26C9CD0D89D" example_fs in
    (result = Ok tt ↔
       ∃ data, example_net "http://server/ddp.tgz" = Ok {| StatusCode := 200; Body := (data, None) |}
         ∧ ("A9993E364706816ABA3E25717850C26C9CD0D89D" = ""%string
            ∨ hex_encode (sha1 data) = ToLower "A9993E364706816ABA3E25717850C26C9CD0D89D"))
    ∧ (result = Ok tt → ∃ data, example_net "http://server/ddp.tgz" = Ok {| StatusCode := 200; Body := (data, None) |}
         ∧ downloaded example_fs st' "/tmp/x/ddp.tgz" data).
Proof.
  split; [vm_compute; reflexivity|].
  apply (DownloadFile_spec example_tar example_zip example_is_format no_pattern example_net
           "/tmp/x/ddp.tgz" "http://server/ddp.tgz" "A9993E364706816ABA3E25717850C26C9CD0D89D" example_fs).
  - apply example_fs_well_formed.
  - right. exists 2. split; [reflexivity|]. intros q. unfold example_fs. cbn [entries].
    rewrite !lookup_insert_Some, lookup_empty. naive_solver.
Defined.

Lemma DownloadFile_empties_hard_link_witness :
  read_file example_fs "/etc/passwd" = Some "root"%string
  ∧ ∃ st', @DownloadFile fs example_os "/tmp/x/link" "http://server/ddp.tgz" "" example_fs = (Err (Errorf "%v is a hardlink"), st')
    ∧ read_file st' "/etc/passwd" = Some ""%string.
Proof.
  split; [reflexivity|].
  apply (DownloadFile_empties_hard_link example_tar example_zip example_is_format no_pattern example_net
           "/tmp/x/link" "/etc/passwd" "http://server/ddp.tgz" "" 1 example_fs).
  - apply example_fs_well_formed.
  - discriminate.
  - reflexivity.
  - reflexivity.
Defined.
