(* ===== verification/Process.v ===== *)
(** * The process: its environment and small files

    The environment variables of the operator's processes and the functions of
    pkg/utils/utils.go and pkg/drainhelper/drainhelper.go that read them. *)

From S2P Require Import Prelude GoStrings Utils.

Local Open Scope Z_scope.

(** ** Code outside the repository: package os *)

Class Process (W : Type) : Type := {
  (** [os.LookupEnv] *)
  LookupEnv : string → W → option string;
  (** [os.Environ]: texts "key=value" *)
  Environ : W → list string;
  Setenv : string → string → M W unit;
  os_ReadFile : string → M W string;
  (** [os.Stat]: the mode of a file, links followed *)
  os_Stat : string → M W Z;
}.

(** A variable that is set keeps its value, and no other changes. *)
Class ProcessLaws {W} (P : Process W) : Prop := {
  Setenv_done key value w w' : Setenv key value w = (Ok tt, w') →
    ∀ k, LookupEnv k w' = if String.eqb k key then Some value else LookupEnv k w;
  Setenv_failed key value w r w' : Setenv key value w = (r, w') → r ≠ Ok tt → w' = w;
}.

(** ** [wait.ExponentialBackoff] of k8s.io/apimachinery *)

(** True when the condition was met in time; an error of the condition ends it. *)
Class Backoff (W : Type) : Type := {
  ExponentialBackoff {A} : nat → (A → M W (bool * A)) → A → M W (bool * A);
}.

Fixpoint repeats {W A} (steps : nat) (f : A → M W (bool * A)) (a : A) : M W (bool * A) :=
  match steps with
  | O => mret (false, a)
  | S steps =>
      r ← f a;
      if (r.1 : bool) then mret r else repeats steps f r.2
  end.

(** The condition is tried until it holds, at most as often as the steps say. *)
Class BackoffLaws {W} (B : Backoff W) : Prop := {
  ExponentialBackoff_repeats {A} steps (f : A → M W (bool * A)) a w :
    ExponentialBackoff steps f a w = repeats steps f a w;
}.

(** The loop itself, where nothing else is known of the time between two attempts. *)
Definition retry_backoff {W} : Backoff W := {| ExponentialBackoff A := repeats |}.

#[export] Instance retry_backoff_laws {W} : BackoffLaws (retry_backoff (W:=W)).
Proof. by split. Qed.

Lemma preserves_repeats {W A} (P : W → Prop) n (f : A → M W (bool * A)) a :
  (∀ a, preserves P (f a)) → preserves P (repeats n f a).
Proof.
  intros Hf. revert a. induction n as [|n IH]; intros a; [apply preserves_ret|].
  apply preserves_bind; [apply Hf|]. intros [[] a']; [apply preserves_ret|apply IH].
Qed.

Lemma preserves_ExponentialBackoff {W A} `{!Backoff W} `{!BackoffLaws _} (P : W → Prop) n (f : A → M W (bool * A)) a :
  (∀ a, preserves P (f a)) → preserves P (ExponentialBackoff n f a).
Proof. intros Hf w Hw. rewrite ExponentialBackoff_repeats. by apply preserves_repeats. Qed.

Section process.
Context {W : Type} `{!Process W}.

(** [os.Getenv]: empty when the variable is not there. *)
Definition Getenv (key : string) : M W string := gets (λ w, default ""%string (LookupEnv key w)).

(** ** pkg/utils *)

Definition IsK8sDeployment : M W bool :=
  value ← Getenv (IeoPrefix +:+ "GENERIC_K8S"); mret (is_true_text value).

Definition SetOsEnvIfNotSet (key value : string) : M W unit :=
  osValue ← Getenv key;
  if negb (String.eqb osValue "") then mret tt else Setenv key value.

(** The error does not keep the path from being used. *)
Definition GetFwSearchPath : M W (string * option error) :=
  fwPathBytes ← attempt (os_ReadFile "/sys/module/firmware_class/parameters/path");
  mret (fw_path_of match fwPathBytes with inl _ => None | inr bytes => Some bytes end).

(** ** pkg/drainhelper *)

Definition getOsVarOrUseDefault (varName : string) (defVal : Z) : M W Z :=
  retValStr ← Getenv varName;
  if String.eqb retValStr "" then mret defVal
  else match ParseInt retValStr 10 64 with
       | Ok val => mret val
       | Err _ => mret defVal
       | Panic => panic
       end.
End process.

(** ** The settings of the drain helper *)

(** Arithmetic of [int64]. *)
Definition wrap_int64 (n : Z) : Z := (n + 2 ^ 63) mod 2 ^ 64 - 2 ^ 63.

(** Durations are nanoseconds in an [int64]. *)
Definition Second : Z := 1000000000.
Definition seconds (n : Z) : Z := wrap_int64 (n * Second).

(** The fields of [drain.Helper] and [LeaderElectionConfig] that are set from numbers. *)
Record drain_settings : Set := {
  Timeout : Z; GracePeriodSeconds : Z; LeaseDuration : Z; RenewDeadline : Z; RetryPeriod : Z
}.

Definition drainHelperTimeoutEnvVarName : string := "DRAIN_TIMEOUT_SECONDS".
Definition drainHelperTimeoutDefault : Z := 90.
Definition leaseDurationEnvVarName : string := "LEASE_DURATION_SECONDS".
Definition leaseDurationDefault : Z := 600.

Definition NewDrainHelper `{!Process W} : M W drain_settings :=
  drainTimeout ← getOsVarOrUseDefault drainHelperTimeoutEnvVarName drainHelperTimeoutDefault;
  leaseDur ← getOsVarOrUseDefault leaseDurationEnvVarName leaseDurationDefault;
  mret {| Timeout := seconds drainTimeout; GracePeriodSeconds := -1; LeaseDuration := seconds leaseDur;
          RenewDeadline := seconds 15; RetryPeriod := seconds 5 |}.

(** ** Theorems *)

Lemma wrap_int64_id n : - 2 ^ 63 ≤ n < 2 ^ 63 → wrap_int64 n = n.
Proof. intros Hn. unfold wrap_int64. rewrite Z.mod_small; lia. Qed.

Lemma wrap_int64_range n : - 2 ^ 63 ≤ wrap_int64 n < 2 ^ 63.
Proof. unfold wrap_int64. pose proof (Z.mod_pos_bound (n + 2 ^ 63) (2 ^ 64)). lia. Qed.

(** The largest number of seconds a duration holds. *)
Definition max_seconds : Z := 9223372036.

Lemma seconds_exact n : - max_seconds ≤ n ≤ max_seconds → seconds n = n * Second.
Proof. unfold max_seconds, seconds, Second. intros Hn. apply wrap_int64_id. lia. Qed.

(** What [leaderelection.NewLeaderElector] asks of its configuration. *)
Definition lease_accepted (s : drain_settings) : bool :=
  (RenewDeadline s <? LeaseDuration s) && (6 * RetryPeriod s <? 5 * RenewDeadline s)
  && (1 <=? LeaseDuration s) && (1 <=? RenewDeadline s) && (1 <=? RetryPeriod s).

Section process_spec.
Context {W : Type} `{P : !Process W}.

(** What a variable of the environment stands for: the default unless it is a number. *)
Definition number_or (value : option string) (defVal : Z) : Z :=
  match value with
  | None => defVal
  | Some text => if String.eqb text "" then defVal
                 else match ParseInt text 10 64 with Ok n => n | _ => defVal end
  end.

Lemma getOsVarOrUseDefault_value varName defVal w :
  getOsVarOrUseDefault varName defVal w = (Ok (number_or (LookupEnv varName w) defVal), w).
Proof.
  unfold getOsVarOrUseDefault, Getenv, number_or, mbind, M_bind, gets, mret, M_ret.
  destruct (LookupEnv varName w) as [t|]; cbn; [|done]. destruct (String.eqb t ""); [done|].
  destruct (ParseInt t 10 64) eqn:E; [done..|]. by apply ParseInt_no_panic in E.
Qed.

End process_spec.

(** A process with variables only. *)
Definition env_process : Process (gmap string string) := {|
  LookupEnv key w := w !! key;
  Environ w := (λ kv, kv.1 +:+ "=" +:+ kv.2) <$> map_to_list w;
  Setenv key value w := (Ok tt, <[key := value]> w);
  os_ReadFile path w := (Err (ExtError "no such file or directory"), w);
  os_Stat path w := (Err (ExtError "no such file or directory"), w);
|}.

#[export] Instance env_process_laws : ProcessLaws env_process.
Proof.
  split.
  - intros key value w w' [= <-] k. cbn. destruct (String.eqb_spec k key) as [->|];
      [by rewrite lookup_insert_eq|by rewrite lookup_insert_ne].
  - intros key value w r w' [= <- <-]. done.
Qed.

(** One more second than a duration holds is a negative duration. *)
Example seconds_overflow : seconds (max_seconds + 1) = -9223372036709551616.
Proof. reflexivity. Qed.

