(* ===== verification/FlowEnums.v ===== *)
(** * The enumerations of the flow API

    [RteFlowItemType], [RteFlowActionType] and [RteFlowErrorType] of
    pkg/flowconfig/rpc/v1/flow/flow.pb.go with their numbers and the two maps between
    numbers and names that protoc-gen-go writes. *)

From S2P Require Import Prelude.

Local Open Scope Z_scope.

(** Kinds of pattern items. *)
Inductive RteFlowItemType : Set :=
  | RTE_FLOW_ITEM_TYPE_END
  | RTE_FLOW_ITEM_TYPE_VOID
  | RTE_FLOW_ITEM_TYPE_INVERT
  | RTE_FLOW_ITEM_TYPE_ANY
  | RTE_FLOW_ITEM_TYPE_PF
  | RTE_FLOW_ITEM_TYPE_VF
  | RTE_FLOW_ITEM_TYPE_PHY_PORT
  | RTE_FLOW_ITEM_TYPE_PORT_ID
  | RTE_FLOW_ITEM_TYPE_RAW
  | RTE_FLOW_ITEM_TYPE_ETH
  | RTE_FLOW_ITEM_TYPE_VLAN
  | RTE_FLOW_ITEM_TYPE_IPV4
  | RTE_FLOW_ITEM_TYPE_IPV6
  | RTE_FLOW_ITEM_TYPE_ICMP
  | RTE_FLOW_ITEM_TYPE_UDP
  | RTE_FLOW_ITEM_TYPE_TCP
  | RTE_FLOW_ITEM_TYPE_SCTP
  | RTE_FLOW_ITEM_TYPE_VXLAN
  | RTE_FLOW_ITEM_TYPE_E_TAG
  | RTE_FLOW_ITEM_TYPE_NVGRE
  | RTE_FLOW_ITEM_TYPE_MPLS
  | RTE_FLOW_ITEM_TYPE_GRE
  | RTE_FLOW_ITEM_TYPE_FUZZY
  | RTE_FLOW_ITEM_TYPE_GTP
  | RTE_FLOW_ITEM_TYPE_GTPC
  | RTE_FLOW_ITEM_TYPE_GTPU
  | RTE_FLOW_ITEM_TYPE_ESP
  | RTE_FLOW_ITEM_TYPE_GENEVE
  | RTE_FLOW_ITEM_TYPE_VXLAN_GPE
  | RTE_FLOW_ITEM_TYPE_ARP_ETH_IPV4
  | RTE_FLOW_ITEM_TYPE_IPV6_EXT
  | RTE_FLOW_ITEM_TYPE_ICMP6
  | RTE_FLOW_ITEM_TYPE_ICMP6_ND_NS
  | RTE_FLOW_ITEM_TYPE_ICMP6_ND_NA
  | RTE_FLOW_ITEM_TYPE_ICMP6_ND_OPT
  | RTE_FLOW_ITEM_TYPE_ICMP6_ND_OPT_SLA_ETH
  | RTE_FLOW_ITEM_TYPE_ICMP6_ND_OPT_TLA_ETH
  | RTE_FLOW_ITEM_TYPE_MARK
  | RTE_FLOW_ITEM_TYPE_META
  | RTE_FLOW_ITEM_TYPE_GRE_KEY
  | RTE_FLOW_ITEM_TYPE_GTP_PSC
  | RTE_FLOW_ITEM_TYPE_PPPOES
  | RTE_FLOW_ITEM_TYPE_PPPOED
  | RTE_FLOW_ITEM_TYPE_PPPOE_PROTO_ID
  | RTE_FLOW_ITEM_TYPE_NSH
  | RTE_FLOW_ITEM_TYPE_IGMP
  | RTE_FLOW_ITEM_TYPE_AH
  | RTE_FLOW_ITEM_TYPE_HIGIG2
  | RTE_FLOW_ITEM_TYPE_TAG.

(** The enum values. *)
Definition RteFlowItemType_number (x : RteFlowItemType) : Z :=
  match x with
  | RTE_FLOW_ITEM_TYPE_END => 0
  | RTE_FLOW_ITEM_TYPE_VOID => 1
  | RTE_FLOW_ITEM_TYPE_INVERT => 2
  | RTE_FLOW_ITEM_TYPE_ANY => 3
  | RTE_FLOW_ITEM_TYPE_PF => 4
  | RTE_FLOW_ITEM_TYPE_VF => 5
  | RTE_FLOW_ITEM_TYPE_PHY_PORT => 6
  | RTE_FLOW_ITEM_TYPE_PORT_ID => 7
  | RTE_FLOW_ITEM_TYPE_RAW => 8
  | RTE_FLOW_ITEM_TYPE_ETH => 9
  | RTE_FLOW_ITEM_TYPE_VLAN => 10
  | RTE_FLOW_ITEM_TYPE_IPV4 => 11
  | RTE_FLOW_ITEM_TYPE_IPV6 => 12
  | RTE_FLOW_ITEM_TYPE_ICMP => 13
  | RTE_FLOW_ITEM_TYPE_UDP => 14
  | RTE_FLOW_ITEM_TYPE_TCP => 15
  | RTE_FLOW_ITEM_TYPE_SCTP => 16
  | RTE_FLOW_ITEM_TYPE_VXLAN => 17
  | RTE_FLOW_ITEM_TYPE_E_TAG => 18
  | RTE_FLOW_ITEM_TYPE_NVGRE => 19
  | RTE_FLOW_ITEM_TYPE_MPLS => 20
  | RTE_FLOW_ITEM_TYPE_GRE => 21
  | RTE_FLOW_ITEM_TYPE_FUZZY => 22
  | RTE_FLOW_ITEM_TYPE_GTP => 23
  | RTE_FLOW_ITEM_TYPE_GTPC => 24
  | RTE_FLOW_ITEM_TYPE_GTPU => 25
  | RTE_FLOW_ITEM_TYPE_ESP => 26
  | RTE_FLOW_ITEM_TYPE_GENEVE => 27
  | RTE_FLOW_ITEM_TYPE_VXLAN_GPE => 28
  | RTE_FLOW_ITEM_TYPE_ARP_ETH_IPV4 => 29
  | RTE_FLOW_ITEM_TYPE_IPV6_EXT => 30
  | RTE_FLOW_ITEM_TYPE_ICMP6 => 31
  | RTE_FLOW_ITEM_TYPE_ICMP6_ND_NS => 32
  | RTE_FLOW_ITEM_TYPE_ICMP6_ND_NA => 33
  | RTE_FLOW_ITEM_TYPE_ICMP6_ND_OPT => 34
  | RTE_FLOW_ITEM_TYPE_ICMP6_ND_OPT_SLA_ETH => 35
  | RTE_FLOW_ITEM_TYPE_ICMP6_ND_OPT_TLA_ETH => 36
  | RTE_FLOW_ITEM_TYPE_MARK => 37
  | RTE_FLOW_ITEM_TYPE_META => 38
  | RTE_FLOW_ITEM_TYPE_GRE_KEY => 39
  | RTE_FLOW_ITEM_TYPE_GTP_PSC => 40
  | RTE_FLOW_ITEM_TYPE_PPPOES => 41
  | RTE_FLOW_ITEM_TYPE_PPPOED => 42
  | RTE_FLOW_ITEM_TYPE_PPPOE_PROTO_ID => 43
  | RTE_FLOW_ITEM_TYPE_NSH => 44
  | RTE_FLOW_ITEM_TYPE_IGMP => 45
  | RTE_FLOW_ITEM_TYPE_AH => 46
  | RTE_FLOW_ITEM_TYPE_HIGIG2 => 47
  | RTE_FLOW_ITEM_TYPE_TAG => 48
  end.

Definition RteFlowItemType_name : list (Z * string) :=
  [(0, "RTE_FLOW_ITEM_TYPE_END");
   (1, "RTE_FLOW_ITEM_TYPE_VOID");
   (2, "RTE_FLOW_ITEM_TYPE_INVERT");
   (3, "RTE_FLOW_ITEM_TYPE_ANY");
   (4, "RTE_FLOW_ITEM_TYPE_PF");
   (5, "RTE_FLOW_ITEM_TYPE_VF");
   (6, "RTE_FLOW_ITEM_TYPE_PHY_PORT");
   (7, "RTE_FLOW_ITEM_TYPE_PORT_ID");
   (8, "RTE_FLOW_ITEM_TYPE_RAW");
   (9, "RTE_FLOW_ITEM_TYPE_ETH");
   (10, "RTE_FLOW_ITEM_TYPE_VLAN");
   (11, "RTE_FLOW_ITEM_TYPE_IPV4");
   (12, "RTE_FLOW_ITEM_TYPE_IPV6");
   (13, "RTE_FLOW_ITEM_TYPE_ICMP");
   (14, "RTE_FLOW_ITEM_TYPE_UDP");
   (15, "RTE_FLOW_ITEM_TYPE_TCP");
   (16, "RTE_FLOW_ITEM_TYPE_SCTP");
   (17, "RTE_FLOW_ITEM_TYPE_VXLAN");
   (18, "RTE_FLOW_ITEM_TYPE_E_TAG");
   (19, "RTE_FLOW_ITEM_TYPE_NVGRE");
   (20, "RTE_FLOW_ITEM_TYPE_MPLS");
   (21, "RTE_FLOW_ITEM_TYPE_GRE");
   (22, "RTE_FLOW_ITEM_TYPE_FUZZY");
   (23, "RTE_FLOW_ITEM_TYPE_GTP");
   (24, "RTE_FLOW_ITEM_TYPE_GTPC");
   (25, "RTE_FLOW_ITEM_TYPE_GTPU");
   (26, "RTE_FLOW_ITEM_TYPE_ESP");
   (27, "RTE_FLOW_ITEM_TYPE_GENEVE");
   (28, "RTE_FLOW_ITEM_TYPE_VXLAN_GPE");
   (29, "RTE_FLOW_ITEM_TYPE_ARP_ETH_IPV4");
   (30, "RTE_FLOW_ITEM_TYPE_IPV6_EXT");
   (31, "RTE_FLOW_ITEM_TYPE_ICMP6");
   (32, "RTE_FLOW_ITEM_TYPE_ICMP6_ND_NS");
   (33, "RTE_FLOW_ITEM_TYPE_ICMP6_ND_NA");
   (34, "RTE_FLOW_ITEM_TYPE_ICMP6_ND_OPT");
   (35, "RTE_FLOW_ITEM_TYPE_ICMP6_ND_OPT_SLA_ETH");
   (36, "RTE_FLOW_ITEM_TYPE_ICMP6_ND_OPT_TLA_ETH");
   (37, "RTE_FLOW_ITEM_TYPE_MARK");
   (38, "RTE_FLOW_ITEM_TYPE_META");
   (39, "RTE_FLOW_ITEM_TYPE_GRE_KEY");
   (40, "RTE_FLOW_ITEM_TYPE_GTP_PSC");
   (41, "RTE_FLOW_ITEM_TYPE_PPPOES");
   (42, "RTE_FLOW_ITEM_TYPE_PPPOED");
   (43, "RTE_FLOW_ITEM_TYPE_PPPOE_PROTO_ID");
   (44, "RTE_FLOW_ITEM_TYPE_NSH");
   (45, "RTE_FLOW_ITEM_TYPE_IGMP");
   (46, "RTE_FLOW_ITEM_TYPE_AH");
   (47, "RTE_FLOW_ITEM_TYPE_HIGIG2");
   (48, "RTE_FLOW_ITEM_TYPE_TAG")]%string.

Definition RteFlowItemType_value_map : list (string * RteFlowItemType) :=
  [("RTE_FLOW_ITEM_TYPE_END", RTE_FLOW_ITEM_TYPE_END);
   ("RTE_FLOW_ITEM_TYPE_VOID", RTE_FLOW_ITEM_TYPE_VOID);
   ("RTE_FLOW_ITEM_TYPE_INVERT", RTE_FLOW_ITEM_TYPE_INVERT);
   ("RTE_FLOW_ITEM_TYPE_ANY", RTE_FLOW_ITEM_TYPE_ANY);
   ("RTE_FLOW_ITEM_TYPE_PF", RTE_FLOW_ITEM_TYPE_PF);
   ("RTE_FLOW_ITEM_TYPE_VF", RTE_FLOW_ITEM_TYPE_VF);
   ("RTE_FLOW_ITEM_TYPE_PHY_PORT", RTE_FLOW_ITEM_TYPE_PHY_PORT);
   ("RTE_FLOW_ITEM_TYPE_PORT_ID", RTE_FLOW_ITEM_TYPE_PORT_ID);
   ("RTE_FLOW_ITEM_TYPE_RAW", RTE_FLOW_ITEM_TYPE_RAW);
   ("RTE_FLOW_ITEM_TYPE_ETH", RTE_FLOW_ITEM_TYPE_ETH);
   ("RTE_FLOW_ITEM_TYPE_VLAN", RTE_FLOW_ITEM_TYPE_VLAN);
   ("RTE_FLOW_ITEM_TYPE_IPV4", RTE_FLOW_ITEM_TYPE_IPV4);
   ("RTE_FLOW_ITEM_TYPE_IPV6", RTE_FLOW_ITEM_TYPE_IPV6);
   ("RTE_FLOW_ITEM_TYPE_ICMP", RTE_FLOW_ITEM_TYPE_ICMP);
   ("RTE_FLOW_ITEM_TYPE_UDP", RTE_FLOW_ITEM_TYPE_UDP);
   ("RTE_FLOW_ITEM_TYPE_TCP", RTE_FLOW_ITEM_TYPE_TCP);
   ("RTE_FLOW_ITEM_TYPE_SCTP", RTE_FLOW_ITEM_TYPE_SCTP);
   ("RTE_FLOW_ITEM_TYPE_VXLAN", RTE_FLOW_ITEM_TYPE_VXLAN);
   ("RTE_FLOW_ITEM_TYPE_E_TAG", RTE_FLOW_ITEM_TYPE_E_TAG);
   ("RTE_FLOW_ITEM_TYPE_NVGRE", RTE_FLOW_ITEM_TYPE_NVGRE);
   ("RTE_FLOW_ITEM_TYPE_MPLS", RTE_FLOW_ITEM_TYPE_MPLS);
   ("RTE_FLOW_ITEM_TYPE_GRE", RTE_FLOW_ITEM_TYPE_GRE);
   ("RTE_FLOW_ITEM_TYPE_FUZZY", RTE_FLOW_ITEM_TYPE_FUZZY);
   ("RTE_FLOW_ITEM_TYPE_GTP", RTE_FLOW_ITEM_TYPE_GTP);
   ("RTE_FLOW_ITEM_TYPE_GTPC", RTE_FLOW_ITEM_TYPE_GTPC);
   ("RTE_FLOW_ITEM_TYPE_GTPU", RTE_FLOW_ITEM_TYPE_GTPU);
   ("RTE_FLOW_ITEM_TYPE_ESP", RTE_FLOW_ITEM_TYPE_ESP);
   ("RTE_FLOW_ITEM_TYPE_GENEVE", RTE_FLOW_ITEM_TYPE_GENEVE);
   ("RTE_FLOW_ITEM_TYPE_VXLAN_GPE", RTE_FLOW_ITEM_TYPE_VXLAN_GPE);
   ("RTE_FLOW_ITEM_TYPE_ARP_ETH_IPV4", RTE_FLOW_ITEM_TYPE_ARP_ETH_IPV4);
   ("RTE_FLOW_ITEM_TYPE_IPV6_EXT", RTE_FLOW_ITEM_TYPE_IPV6_EXT);
   ("RTE_FLOW_ITEM_TYPE_ICMP6", RTE_FLOW_ITEM_TYPE_ICMP6);
   ("RTE_FLOW_ITEM_TYPE_ICMP6_ND_NS", RTE_FLOW_ITEM_TYPE_ICMP6_ND_NS);
   ("RTE_FLOW_ITEM_TYPE_ICMP6_ND_NA", RTE_FLOW_ITEM_TYPE_ICMP6_ND_NA);
   ("RTE_FLOW_ITEM_TYPE_ICMP6_ND_OPT", RTE_FLOW_ITEM_TYPE_ICMP6_ND_OPT);
   ("RTE_FLOW_ITEM_TYPE_ICMP6_ND_OPT_SLA_ETH", RTE_FLOW_ITEM_TYPE_ICMP6_ND_OPT_SLA_ETH);
   ("RTE_FLOW_ITEM_TYPE_ICMP6_ND_OPT_TLA_ETH", RTE_FLOW_ITEM_TYPE_ICMP6_ND_OPT_TLA_ETH);
   ("RTE_FLOW_ITEM_TYPE_MARK", RTE_FLOW_ITEM_TYPE_MARK);
   ("RTE_FLOW_ITEM_TYPE_META", RTE_FLOW_ITEM_TYPE_META);
   ("RTE_FLOW_ITEM_TYPE_GRE_KEY", RTE_FLOW_ITEM_TYPE_GRE_KEY);
   ("RTE_FLOW_ITEM_TYPE_GTP_PSC", RTE_FLOW_ITEM_TYPE_GTP_PSC);
   ("RTE_FLOW_ITEM_TYPE_PPPOES", RTE_FLOW_ITEM_TYPE_PPPOES);
   ("RTE_FLOW_ITEM_TYPE_PPPOED", RTE_FLOW_ITEM_TYPE_PPPOED);
   ("RTE_FLOW_ITEM_TYPE_PPPOE_PROTO_ID", RTE_FLOW_ITEM_TYPE_PPPOE_PROTO_ID);
   ("RTE_FLOW_ITEM_TYPE_NSH", RTE_FLOW_ITEM_TYPE_NSH);
   ("RTE_FLOW_ITEM_TYPE_IGMP", RTE_FLOW_ITEM_TYPE_IGMP);
   ("RTE_FLOW_ITEM_TYPE_AH", RTE_FLOW_ITEM_TYPE_AH);
   ("RTE_FLOW_ITEM_TYPE_HIGIG2", RTE_FLOW_ITEM_TYPE_HIGIG2);
   ("RTE_FLOW_ITEM_TYPE_TAG", RTE_FLOW_ITEM_TYPE_TAG)]%string.

(** Kinds of actions. *)
Inductive RteFlowActionType : Set :=
  | RTE_FLOW_ACTION_TYPE_END
  | RTE_FLOW_ACTION_TYPE_VOID
  | RTE_FLOW_ACTION_TYPE_PASSTHRU
  | RTE_FLOW_ACTION_TYPE_JUMP
  | RTE_FLOW_ACTION_TYPE_MARK
  | RTE_FLOW_ACTION_TYPE_FLAG
  | RTE_FLOW_ACTION_TYPE_QUEUE
  | RTE_FLOW_ACTION_TYPE_DROP
  | RTE_FLOW_ACTION_TYPE_COUNT
  | RTE_FLOW_ACTION_TYPE_RSS
  | RTE_FLOW_ACTION_TYPE_PF
  | RTE_FLOW_ACTION_TYPE_VF
  | RTE_FLOW_ACTION_TYPE_PHY_PORT
  | RTE_FLOW_ACTION_TYPE_PORT_ID
  | RTE_FLOW_ACTION_TYPE_METER
  | RTE_FLOW_ACTION_TYPE_SECURITY
  | RTE_FLOW_ACTION_TYPE_OF_SET_MPLS_TTL
  | RTE_FLOW_ACTION_TYPE_OF_DEC_MPLS_TTL
  | RTE_FLOW_ACTION_TYPE_OF_SET_NW_TTL
  | RTE_FLOW_ACTION_TYPE_OF_DEC_NW_TTL
  | RTE_FLOW_ACTION_TYPE_OF_COPY_TTL_OUT
  | RTE_FLOW_ACTION_TYPE_OF_COPY_TTL_IN
  | RTE_FLOW_ACTION_TYPE_OF_POP_VLAN
  | RTE_FLOW_ACTION_TYPE_OF_PUSH_VLAN
  | RTE_FLOW_ACTION_TYPE_OF_SET_VLAN_VID
  | RTE_FLOW_ACTION_TYPE_OF_SET_VLAN_PCP
  | RTE_FLOW_ACTION_TYPE_OF_POP_MPLS
  | RTE_FLOW_ACTION_TYPE_OF_PUSH_MPLS
  | RTE_FLOW_ACTION_TYPE_VXLAN_ENCAP
  | RTE_FLOW_ACTION_TYPE_VXLAN_DECAP
  | RTE_FLOW_ACTION_TYPE_NVGRE_ENCAP
  | RTE_FLOW_ACTION_TYPE_NVGRE_DECAP
  | RTE_FLOW_ACTION_TYPE_RAW_ENCAP
  | RTE_FLOW_ACTION_TYPE_RAW_DECAP
  | RTE_FLOW_ACTION_TYPE_SET_IPV4_SRC
  | RTE_FLOW_ACTION_TYPE_SET_IPV4_DST
  | RTE_FLOW_ACTION_TYPE_SET_IPV6_SRC
  | RTE_FLOW_ACTION_TYPE_SET_IPV6_DST
  | RTE_FLOW_ACTION_TYPE_SET_TP_SRC
  | RTE_FLOW_ACTION_TYPE_SET_TP_DST
  | RTE_FLOW_ACTION_TYPE_MAC_SWAP
  | RTE_FLOW_ACTION_TYPE_DEC_TTL
  | RTE_FLOW_ACTION_TYPE_SET_TTL
  | RTE_FLOW_ACTION_TYPE_SET_MAC_SRC
  | RTE_FLOW_ACTION_TYPE_SET_MAC_DST
  | RTE_FLOW_ACTION_TYPE_INC_TCP_SEQ
  | RTE_FLOW_ACTION_TYPE_DEC_TCP_SEQ
  | RTE_FLOW_ACTION_TYPE_INC_TCP_ACK
  | RTE_FLOW_ACTION_TYPE_DEC_TCP_ACK
  | RTE_FLOW_ACTION_TYPE_SET_TAG
  | RTE_FLOW_ACTION_TYPE_SET_META.

(** The enum values. *)
Definition RteFlowActionType_number (x : RteFlowActionType) : Z :=
  match x with
  | RTE_FLOW_ACTION_TYPE_END => 0
  | RTE_FLOW_ACTION_TYPE_VOID => 1
  | RTE_FLOW_ACTION_TYPE_PASSTHRU => 2
  | RTE_FLOW_ACTION_TYPE_JUMP => 3
  | RTE_FLOW_ACTION_TYPE_MARK => 4
  | RTE_FLOW_ACTION_TYPE_FLAG => 5
  | RTE_FLOW_ACTION_TYPE_QUEUE => 6
  | RTE_FLOW_ACTION_TYPE_DROP => 7
  | RTE_FLOW_ACTION_TYPE_COUNT => 8
  | RTE_FLOW_ACTION_TYPE_RSS => 9
  | RTE_FLOW_ACTION_TYPE_PF => 10
  | RTE_FLOW_ACTION_TYPE_VF => 11
  | RTE_FLOW_ACTION_TYPE_PHY_PORT => 12
  | RTE_FLOW_ACTION_TYPE_PORT_ID => 13
  | RTE_FLOW_ACTION_TYPE_METER => 14
  | RTE_FLOW_ACTION_TYPE_SECURITY => 15
  | RTE_FLOW_ACTION_TYPE_OF_SET_MPLS_TTL => 16
  | RTE_FLOW_ACTION_TYPE_OF_DEC_MPLS_TTL => 17
  | RTE_FLOW_ACTION_TYPE_OF_SET_NW_TTL => 18
  | RTE_FLOW_ACTION_TYPE_OF_DEC_NW_TTL => 19
  | RTE_FLOW_ACTION_TYPE_OF_COPY_TTL_OUT => 20
  | RTE_FLOW_ACTION_TYPE_OF_COPY_TTL_IN => 21
  | RTE_FLOW_ACTION_TYPE_OF_POP_VLAN => 22
  | RTE_FLOW_ACTION_TYPE_OF_PUSH_VLAN => 23
  | RTE_FLOW_ACTION_TYPE_OF_SET_VLAN_VID => 24
  | RTE_FLOW_ACTION_TYPE_OF_SET_VLAN_PCP => 25
  | RTE_FLOW_ACTION_TYPE_OF_POP_MPLS => 26
  | RTE_FLOW_ACTION_TYPE_OF_PUSH_MPLS => 27
  | RTE_FLOW_ACTION_TYPE_VXLAN_ENCAP => 28
  | RTE_FLOW_ACTION_TYPE_VXLAN_DECAP => 29
  | RTE_FLOW_ACTION_TYPE_NVGRE_ENCAP => 30
  | RTE_FLOW_ACTION_TYPE_NVGRE_DECAP => 31
  | RTE_FLOW_ACTION_TYPE_RAW_ENCAP => 32
  | RTE_FLOW_ACTION_TYPE_RAW_DECAP => 33
  | RTE_FLOW_ACTION_TYPE_SET_IPV4_SRC => 34
  | RTE_FLOW_ACTION_TYPE_SET_IPV4_DST => 35
  | RTE_FLOW_ACTION_TYPE_SET_IPV6_SRC => 36
  | RTE_FLOW_ACTION_TYPE_SET_IPV6_DST => 37
  | RTE_FLOW_ACTION_TYPE_SET_TP_SRC => 38
  | RTE_FLOW_ACTION_TYPE_SET_TP_DST => 39
  | RTE_FLOW_ACTION_TYPE_MAC_SWAP => 40
  | RTE_FLOW_ACTION_TYPE_DEC_TTL => 41
  | RTE_FLOW_ACTION_TYPE_SET_TTL => 42
  | RTE_FLOW_ACTION_TYPE_SET_MAC_SRC => 43
  | RTE_FLOW_ACTION_TYPE_SET_MAC_DST => 44
  | RTE_FLOW_ACTION_TYPE_INC_TCP_SEQ => 45
  | RTE_FLOW_ACTION_TYPE_DEC_TCP_SEQ => 46
  | RTE_FLOW_ACTION_TYPE_INC_TCP_ACK => 47
  | RTE_FLOW_ACTION_TYPE_DEC_TCP_ACK => 48
  | RTE_FLOW_ACTION_TYPE_SET_TAG => 49
  | RTE_FLOW_ACTION_TYPE_SET_META => 50
  end.

Definition RteFlowActionType_name : list (Z * string) :=
  [(0, "RTE_FLOW_ACTION_TYPE_END");
   (1, "RTE_FLOW_ACTION_TYPE_VOID");
   (2, "RTE_FLOW_ACTION_TYPE_PASSTHRU");
   (3, "RTE_FLOW_ACTION_TYPE_JUMP");
   (4, "RTE_FLOW_ACTION_TYPE_MARK");
   (5, "RTE_FLOW_ACTION_TYPE_FLAG");
   (6, "RTE_FLOW_ACTION_TYPE_QUEUE");
   (7, "RTE_FLOW_ACTION_TYPE_DROP");
   (8, "RTE_FLOW_ACTION_TYPE_COUNT");
   (9, "RTE_FLOW_ACTION_TYPE_RSS");
   (10, "RTE_FLOW_ACTION_TYPE_PF");
   (11, "RTE_FLOW_ACTION_TYPE_VF");
   (12, "RTE_FLOW_ACTION_TYPE_PHY_PORT");
   (13, "RTE_FLOW_ACTION_TYPE_PORT_ID");
   (14, "RTE_FLOW_ACTION_TYPE_METER");
   (15, "RTE_FLOW_ACTION_TYPE_SECURITY");
   (16, "RTE_FLOW_ACTION_TYPE_OF_SET_MPLS_TTL");
   (17, "RTE_FLOW_ACTION_TYPE_OF_DEC_MPLS_TTL");
   (18, "RTE_FLOW_ACTION_TYPE_OF_SET_NW_TTL");
   (19, "RTE_FLOW_ACTION_TYPE_OF_DEC_NW_TTL");
   (20, "RTE_FLOW_ACTION_TYPE_OF_COPY_TTL_OUT");
   (21, "RTE_FLOW_ACTION_TYPE_OF_COPY_TTL_IN");
   (22, "RTE_FLOW_ACTION_TYPE_OF_POP_VLAN");
   (23, "RTE_FLOW_ACTION_TYPE_OF_PUSH_VLAN");
   (24, "RTE_FLOW_ACTION_TYPE_OF_SET_VLAN_VID");
   (25, "RTE_FLOW_ACTION_TYPE_OF_SET_VLAN_PCP");
   (26, "RTE_FLOW_ACTION_TYPE_OF_POP_MPLS");
   (27, "RTE_FLOW_ACTION_TYPE_OF_PUSH_MPLS");
   (28, "RTE_FLOW_ACTION_TYPE_VXLAN_ENCAP");
   (29, "RTE_FLOW_ACTION_TYPE_VXLAN_DECAP");
   (30, "RTE_FLOW_ACTION_TYPE_NVGRE_ENCAP");
   (31, "RTE_FLOW_ACTION_TYPE_NVGRE_DECAP");
   (32, "RTE_FLOW_ACTION_TYPE_RAW_ENCAP");
   (33, "RTE_FLOW_ACTION_TYPE_RAW_DECAP");
   (34, "RTE_FLOW_ACTION_TYPE_SET_IPV4_SRC");
   (35, "RTE_FLOW_ACTION_TYPE_SET_IPV4_DST");
   (36, "RTE_FLOW_ACTION_TYPE_SET_IPV6_SRC");
   (37, "RTE_FLOW_ACTION_TYPE_SET_IPV6_DST");
   (38, "RTE_FLOW_ACTION_TYPE_SET_TP_SRC");
   (39, "RTE_FLOW_ACTION_TYPE_SET_TP_DST");
   (40, "RTE_FLOW_ACTION_TYPE_MAC_SWAP");
   (41, "RTE_FLOW_ACTION_TYPE_DEC_TTL");
   (42, "RTE_FLOW_ACTION_TYPE_SET_TTL");
   (43, "RTE_FLOW_ACTION_TYPE_SET_MAC_SRC");
   (44, "RTE_FLOW_ACTION_TYPE_SET_MAC_DST");
   (45, "RTE_FLOW_ACTION_TYPE_INC_TCP_SEQ");
   (46, "RTE_FLOW_ACTION_TYPE_DEC_TCP_SEQ");
   (47, "RTE_FLOW_ACTION_TYPE_INC_TCP_ACK");
   (48, "RTE_FLOW_ACTION_TYPE_DEC_TCP_ACK");
   (49, "RTE_FLOW_ACTION_TYPE_SET_TAG");
   (50, "RTE_FLOW_ACTION_TYPE_SET_META")]%string.

Definition RteFlowActionType_value_map : list (string * RteFlowActionType) :=
  [("RTE_FLOW_ACTION_TYPE_END", RTE_FLOW_ACTION_TYPE_END);
   ("RTE_FLOW_ACTION_TYPE_VOID", RTE_FLOW_ACTION_TYPE_VOID);
   ("RTE_FLOW_ACTION_TYPE_PASSTHRU", RTE_FLOW_ACTION_TYPE_PASSTHRU);
   ("RTE_FLOW_ACTION_TYPE_JUMP", RTE_FLOW_ACTION_TYPE_JUMP);
   ("RTE_FLOW_ACTION_TYPE_MARK", RTE_FLOW_ACTION_TYPE_MARK);
   ("RTE_FLOW_ACTION_TYPE_FLAG", RTE_FLOW_ACTION_TYPE_FLAG);
   ("RTE_FLOW_ACTION_TYPE_QUEUE", RTE_FLOW_ACTION_TYPE_QUEUE);
   ("RTE_FLOW_ACTION_TYPE_DROP", RTE_FLOW_ACTION_TYPE_DROP);
   ("RTE_FLOW_ACTION_TYPE_COUNT", RTE_FLOW_ACTION_TYPE_COUNT);
   ("RTE_FLOW_ACTION_TYPE_RSS", RTE_FLOW_ACTION_TYPE_RSS);
   ("RTE_FLOW_ACTION_TYPE_PF", RTE_FLOW_ACTION_TYPE_PF);
   ("RTE_FLOW_ACTION_TYPE_VF", RTE_FLOW_ACTION_TYPE_VF);
   ("RTE_FLOW_ACTION_TYPE_PHY_PORT", RTE_FLOW_ACTION_TYPE_PHY_PORT);
   ("RTE_FLOW_ACTION_TYPE_PORT_ID", RTE_FLOW_ACTION_TYPE_PORT_ID);
   ("RTE_FLOW_ACTION_TYPE_METER", RTE_FLOW_ACTION_TYPE_METER);
   ("RTE_FLOW_ACTION_TYPE_SECURITY", RTE_FLOW_ACTION_TYPE_SECURITY);
   ("RTE_FLOW_ACTION_TYPE_OF_SET_MPLS_TTL", RTE_FLOW_ACTION_TYPE_OF_SET_MPLS_TTL);
   ("RTE_FLOW_ACTION_TYPE_OF_DEC_MPLS_TTL", RTE_FLOW_ACTION_TYPE_OF_DEC_MPLS_TTL);
   ("RTE_FLOW_ACTION_TYPE_OF_SET_NW_TTL", RTE_FLOW_ACTION_TYPE_OF_SET_NW_TTL);
   ("RTE_FLOW_ACTION_TYPE_OF_DEC_NW_TTL", RTE_FLOW_ACTION_TYPE_OF_DEC_NW_TTL);
   ("RTE_FLOW_ACTION_TYPE_OF_COPY_TTL_OUT", RTE_FLOW_ACTION_TYPE_OF_COPY_TTL_OUT);
   ("RTE_FLOW_ACTION_TYPE_OF_COPY_TTL_IN", RTE_FLOW_ACTION_TYPE_OF_COPY_TTL_IN);
   ("RTE_FLOW_ACTION_TYPE_OF_POP_VLAN", RTE_FLOW_ACTION_TYPE_OF_POP_VLAN);
   ("RTE_FLOW_ACTION_TYPE_OF_PUSH_VLAN", RTE_FLOW_ACTION_TYPE_OF_PUSH_VLAN);
   ("RTE_FLOW_ACTION_TYPE_OF_SET_VLAN_VID", RTE_FLOW_ACTION_TYPE_OF_SET_VLAN_VID);
   ("RTE_FLOW_ACTION_TYPE_OF_SET_VLAN_PCP", RTE_FLOW_ACTION_TYPE_OF_SET_VLAN_PCP);
   ("RTE_FLOW_ACTION_TYPE_OF_POP_MPLS", RTE_FLOW_ACTION_TYPE_OF_POP_MPLS);
   ("RTE_FLOW_ACTION_TYPE_OF_PUSH_MPLS", RTE_FLOW_ACTION_TYPE_OF_PUSH_MPLS);
   ("RTE_FLOW_ACTION_TYPE_VXLAN_ENCAP", RTE_FLOW_ACTION_TYPE_VXLAN_ENCAP);
   ("RTE_FLOW_ACTION_TYPE_VXLAN_DECAP", RTE_FLOW_ACTION_TYPE_VXLAN_DECAP);
   ("RTE_FLOW_ACTION_TYPE_NVGRE_ENCAP", RTE_FLOW_ACTION_TYPE_NVGRE_ENCAP);
   ("RTE_FLOW_ACTION_TYPE_NVGRE_DECAP", RTE_FLOW_ACTION_TYPE_NVGRE_DECAP);
   ("RTE_FLOW_ACTION_TYPE_RAW_ENCAP", RTE_FLOW_ACTION_TYPE_RAW_ENCAP);
   ("RTE_FLOW_ACTION_TYPE_RAW_DECAP", RTE_FLOW_ACTION_TYPE_RAW_DECAP);
   ("RTE_FLOW_ACTION_TYPE_SET_IPV4_SRC", RTE_FLOW_ACTION_TYPE_SET_IPV4_SRC);
   ("RTE_FLOW_ACTION_TYPE_SET_IPV4_DST", RTE_FLOW_ACTION_TYPE_SET_IPV4_DST);
   ("RTE_FLOW_ACTION_TYPE_SET_IPV6_SRC", RTE_FLOW_ACTION_TYPE_SET_IPV6_SRC);
   ("RTE_FLOW_ACTION_TYPE_SET_IPV6_DST", RTE_FLOW_ACTION_TYPE_SET_IPV6_DST);
   ("RTE_FLOW_ACTION_TYPE_SET_TP_SRC", RTE_FLOW_ACTION_TYPE_SET_TP_SRC);
   ("RTE_FLOW_ACTION_TYPE_SET_TP_DST", RTE_FLOW_ACTION_TYPE_SET_TP_DST);
   ("RTE_FLOW_ACTION_TYPE_MAC_SWAP", RTE_FLOW_ACTION_TYPE_MAC_SWAP);
   ("RTE_FLOW_ACTION_TYPE_DEC_TTL", RTE_FLOW_ACTION_TYPE_DEC_TTL);
   ("RTE_FLOW_ACTION_TYPE_SET_TTL", RTE_FLOW_ACTION_TYPE_SET_TTL);
   ("RTE_FLOW_ACTION_TYPE_SET_MAC_SRC", RTE_FLOW_ACTION_TYPE_SET_MAC_SRC);
   ("RTE_FLOW_ACTION_TYPE_SET_MAC_DST", RTE_FLOW_ACTION_TYPE_SET_MAC_DST);
   ("RTE_FLOW_ACTION_TYPE_INC_TCP_SEQ", RTE_FLOW_ACTION_TYPE_INC_TCP_SEQ);
   ("RTE_FLOW_ACTION_TYPE_DEC_TCP_SEQ", RTE_FLOW_ACTION_TYPE_DEC_TCP_SEQ);
   ("RTE_FLOW_ACTION_TYPE_INC_TCP_ACK", RTE_FLOW_ACTION_TYPE_INC_TCP_ACK);
   ("RTE_FLOW_ACTION_TYPE_DEC_TCP_ACK", RTE_FLOW_ACTION_TYPE_DEC_TCP_ACK);
   ("RTE_FLOW_ACTION_TYPE_SET_TAG", RTE_FLOW_ACTION_TYPE_SET_TAG);
   ("RTE_FLOW_ACTION_TYPE_SET_META", RTE_FLOW_ACTION_TYPE_SET_META)]%string.

(** Kinds of errors the flow service reports. *)
Inductive RteFlowErrorType : Set :=
  | RTE_FLOW_ERROR_TYPE_NONE
  | RTE_FLOW_ERROR_TYPE_UNSPECIFIED
  | RTE_FLOW_ERROR_TYPE_HANDLE
  | RTE_FLOW_ERROR_TYPE_ATTR_GROUP
  | RTE_FLOW_ERROR_TYPE_ATTR_PRIORITY
  | RTE_FLOW_ERROR_TYPE_ATTR_INGRESS
  | RTE_FLOW_ERROR_TYPE_ATTR_EGRESS
  | RTE_FLOW_ERROR_TYPE_ATTR_TRANSFER
  | RTE_FLOW_ERROR_TYPE_ATTR
  | RTE_FLOW_ERROR_TYPE_ITEM_NUM
  | RTE_FLOW_ERROR_TYPE_ITEM_SPEC
  | RTE_FLOW_ERROR_TYPE_ITEM_LAST
  | RTE_FLOW_ERROR_TYPE_ITEM_MASK
  | RTE_FLOW_ERROR_TYPE_ITEM
  | RTE_FLOW_ERROR_TYPE_ACTION_NUM
  | RTE_FLOW_ERROR_TYPE_ACTION_CONF
  | RTE_FLOW_ERROR_TYPE_ACTION.

(** The enum values. *)
Definition RteFlowErrorType_number (x : RteFlowErrorType) : Z :=
  match x with
  | RTE_FLOW_ERROR_TYPE_NONE => 0
  | RTE_FLOW_ERROR_TYPE_UNSPECIFIED => 1
  | RTE_FLOW_ERROR_TYPE_HANDLE => 2
  | RTE_FLOW_ERROR_TYPE_ATTR_GROUP => 3
  | RTE_FLOW_ERROR_TYPE_ATTR_PRIORITY => 4
  | RTE_FLOW_ERROR_TYPE_ATTR_INGRESS => 5
  | RTE_FLOW_ERROR_TYPE_ATTR_EGRESS => 6
  | RTE_FLOW_ERROR_TYPE_ATTR_TRANSFER => 7
  | RTE_FLOW_ERROR_TYPE_ATTR => 8
  | RTE_FLOW_ERROR_TYPE_ITEM_NUM => 9
  | RTE_FLOW_ERROR_TYPE_ITEM_SPEC => 10
  | RTE_FLOW_ERROR_TYPE_ITEM_LAST => 11
  | RTE_FLOW_ERROR_TYPE_ITEM_MASK => 12
  | RTE_FLOW_ERROR_TYPE_ITEM => 13
  | RTE_FLOW_ERROR_TYPE_ACTION_NUM => 14
  | RTE_FLOW_ERROR_TYPE_ACTION_CONF => 15
  | RTE_FLOW_ERROR_TYPE_ACTION => 16
  end.

Definition RteFlowErrorType_name : list (Z * string) :=
  [(0, "RTE_FLOW_ERROR_TYPE_NONE");
   (1, "RTE_FLOW_ERROR_TYPE_UNSPECIFIED");
   (2, "RTE_FLOW_ERROR_TYPE_HANDLE");
   (3, "RTE_FLOW_ERROR_TYPE_ATTR_GROUP");
   (4, "RTE_FLOW_ERROR_TYPE_ATTR_PRIORITY");
   (5, "RTE_FLOW_ERROR_TYPE_ATTR_INGRESS");
   (6, "RTE_FLOW_ERROR_TYPE_ATTR_EGRESS");
   (7, "RTE_FLOW_ERROR_TYPE_ATTR_TRANSFER");
   (8, "RTE_FLOW_ERROR_TYPE_ATTR");
   (9, "RTE_FLOW_ERROR_TYPE_ITEM_NUM");
   (10, "RTE_FLOW_ERROR_TYPE_ITEM_SPEC");
   (11, "RTE_FLOW_ERROR_TYPE_ITEM_LAST");
   (12, "RTE_FLOW_ERROR_TYPE_ITEM_MASK");
   (13, "RTE_FLOW_ERROR_TYPE_ITEM");
   (14, "RTE_FLOW_ERROR_TYPE_ACTION_NUM");
   (15, "RTE_FLOW_ERROR_TYPE_ACTION_CONF");
   (16, "RTE_FLOW_ERROR_TYPE_ACTION")]%string.

Definition RteFlowErrorType_value_map : list (string * RteFlowErrorType) :=
  [("RTE_FLOW_ERROR_TYPE_NONE", RTE_FLOW_ERROR_TYPE_NONE);
   ("RTE_FLOW_ERROR_TYPE_UNSPECIFIED", RTE_FLOW_ERROR_TYPE_UNSPECIFIED);
   ("RTE_FLOW_ERROR_TYPE_HANDLE", RTE_FLOW_ERROR_TYPE_HANDLE);
   ("RTE_FLOW_ERROR_TYPE_ATTR_GROUP", RTE_FLOW_ERROR_TYPE_ATTR_GROUP);
   ("RTE_FLOW_ERROR_TYPE_ATTR_PRIORITY", RTE_FLOW_ERROR_TYPE_ATTR_PRIORITY);
   ("RTE_FLOW_ERROR_TYPE_ATTR_INGRESS", RTE_FLOW_ERROR_TYPE_ATTR_INGRESS);
   ("RTE_FLOW_ERROR_TYPE_ATTR_EGRESS", RTE_FLOW_ERROR_TYPE_ATTR_EGRESS);
   ("RTE_FLOW_ERROR_TYPE_ATTR_TRANSFER", RTE_FLOW_ERROR_TYPE_ATTR_TRANSFER);
   ("RTE_FLOW_ERROR_TYPE_ATTR", RTE_FLOW_ERROR_TYPE_ATTR);
   ("RTE_FLOW_ERROR_TYPE_ITEM_NUM", RTE_FLOW_ERROR_TYPE_ITEM_NUM);
   ("RTE_FLOW_ERROR_TYPE_ITEM_SPEC", RTE_FLOW_ERROR_TYPE_ITEM_SPEC);
   ("RTE_FLOW_ERROR_TYPE_ITEM_LAST", RTE_FLOW_ERROR_TYPE_ITEM_LAST);
   ("RTE_FLOW_ERROR_TYPE_ITEM_MASK", RTE_FLOW_ERROR_TYPE_ITEM_MASK);
   ("RTE_FLOW_ERROR_TYPE_ITEM", RTE_FLOW_ERROR_TYPE_ITEM);
   ("RTE_FLOW_ERROR_TYPE_ACTION_NUM", RTE_FLOW_ERROR_TYPE_ACTION_NUM);
   ("RTE_FLOW_ERROR_TYPE_ACTION_CONF", RTE_FLOW_ERROR_TYPE_ACTION_CONF);
   ("RTE_FLOW_ERROR_TYPE_ACTION", RTE_FLOW_ERROR_TYPE_ACTION)]%string.

(** Go map lookups: by name with the [ok] result, by number with the zero value. *)
Definition find_value {A} (m : list (string * A)) (s : string) : option A :=
  snd <$> List.find (λ p, String.eqb s p.1) m.

Definition find_name (m : list (Z * string)) (n : Z) : string :=
  default ""%string (snd <$> List.find (λ p, n =? p.1) m).

Definition RteFlowItemType_value (s : string) : option RteFlowItemType :=
  find_value RteFlowItemType_value_map s.
Definition RteFlowActionType_value (s : string) : option RteFlowActionType :=
  find_value RteFlowActionType_value_map s.

(** [String()] of an enum value. *)
Definition RteFlowItemType_String (x : RteFlowItemType) : string :=
  find_name RteFlowItemType_name (RteFlowItemType_number x).
Definition RteFlowActionType_String (x : RteFlowActionType) : string :=
  find_name RteFlowActionType_name (RteFlowActionType_number x).

(** ** Decidable equality, through the numbers *)

Lemma RteFlowItemType_value_String x :
  RteFlowItemType_value (RteFlowItemType_String x) = Some x.
Proof. destruct x; vm_compute; reflexivity. Qed.

Lemma RteFlowActionType_value_String x :
  RteFlowActionType_value (RteFlowActionType_String x) = Some x.
Proof. destruct x; vm_compute; reflexivity. Qed.

#[export] Instance RteFlowItemType_number_inj : Inj (=) (=) RteFlowItemType_number.
Proof.
  intros x y H. apply (f_equal (find_name RteFlowItemType_name)) in H.
  apply (inj Some). rewrite <- !RteFlowItemType_value_String. unfold RteFlowItemType_String.
  by rewrite H.
Qed.

#[export] Instance RteFlowActionType_number_inj : Inj (=) (=) RteFlowActionType_number.
Proof.
  intros x y H. apply (f_equal (find_name RteFlowActionType_name)) in H.
  apply (inj Some). rewrite <- !RteFlowActionType_value_String.
  unfold RteFlowActionType_String. by rewrite H.
Qed.

Definition decide_by_number {A} (number : A → Z) `{!Inj (=) (=) number} : EqDecision A :=
  λ x y, match decide (number x = number y) with
         | left H => left (inj number x y H)
         | right H => right (λ E, H (f_equal number E))
         end.

#[export] Instance RteFlowItemType_eq_dec : EqDecision RteFlowItemType :=
  decide_by_number RteFlowItemType_number.
#[export] Instance RteFlowActionType_eq_dec : EqDecision RteFlowActionType :=
  decide_by_number RteFlowActionType_number.
#[export] Instance RteFlowErrorType_eq_dec : EqDecision RteFlowErrorType.
Proof. solve_decision. Defined.

(** Only names of the map are known types, and the map is the inverse of [String]. *)
Lemma find_value_inv {A} (m : list (string * A)) (name : A → string) s x :
  forallb (λ p, String.eqb p.1 (name p.2)) m = true →
  find_value m s = Some x → s = name x.
Proof.
  unfold find_value. intros Hm. rewrite forallb_forall in Hm.
  destruct (List.find _ m) as [[s' x']|] eqn:E; simpl; [|done]. intros [= ->].
  apply List.find_some in E as [Hin Hs]. apply String.eqb_eq in Hs as ->.
  apply Hm in Hin. by apply String.eqb_eq in Hin.
Qed.

Lemma RteFlowItemType_value_inv s x :
  RteFlowItemType_value s = Some x → s = RteFlowItemType_String x.
Proof. apply find_value_inv. vm_compute. reflexivity. Qed.

Lemma RteFlowActionType_value_inv s x :
  RteFlowActionType_value s = Some x → s = RteFlowActionType_String x.
Proof. apply find_value_inv. vm_compute. reflexivity. Qed.
