(* ===== verification/FlowApi.v ===== *)
(** * The messages of the flow API

    The structs of pkg/flowconfig/rpc/v1/flow/flow.pb.go. [X_fields] is the struct type
    of the Go struct [X] as encoding/json sees it (the names of its json tags); the
    structs the operator reads by field also have a record, with its reading [X_of] of a
    decoded struct and, where the operator builds one, its [X_to]. The messages of the
    gRPC calls are records. [AnyCodec] is the interface to google.golang.org/protobuf's
    [anypb]. *)

From S2P Require Import Prelude GoStrings GoJson GoJsonDecode FlowEnums.

Local Open Scope Z_scope.

(** google.protobuf.Any has two exported fields. *)
Definition Any_fields : struct_type :=
  [("type_url", TString); ("value", TBytes)]%string.

Definition RteFlowItemAny_fields : struct_type :=
  [("num", TUint32)]%string.

Definition RteFlowItemVf_fields : struct_type :=
  [("id", TUint32)]%string.

Definition RteFlowItemPhyPort_fields : struct_type :=
  [("index", TUint32)]%string.

Definition RteFlowItemPortId_fields : struct_type :=
  [("id", TUint32)]%string.

Definition RteFlowItemRaw_fields : struct_type :=
  [("relative", TUint32); ("search", TUint32); ("reserved", TUint32); ("offset", TInt32);
   ("limit", TUint32); ("length", TUint32); ("pattern", TUint32)]%string.

Definition RteEtherAddr_fields : struct_type :=
  [("addr_bytes", TBytes)]%string.

Definition RteFlowItemEth_fields : struct_type :=
  [("dst", TPtr "RteEtherAddr"); ("src", TPtr "RteEtherAddr"); ("type", TUint32)]%string.

Definition RteFlowItemVlan_fields : struct_type :=
  [("tci", TUint32); ("inner_type", TUint32)]%string.

Definition RteIpv4Hdr_fields : struct_type :=
  [("version_ihl", TUint32); ("type_of_service", TUint32); ("total_length", TUint32);
   ("packet_id", TUint32); ("fragment_offset", TUint32); ("time_to_live", TUint32);
   ("next_proto_id", TUint32); ("hdr_checksum", TUint32); ("src_addr", TUint32);
   ("dst_addr", TUint32)]%string.

Definition RteFlowItemIpv4_fields : struct_type :=
  [("hdr", TPtr "RteIpv4Hdr")]%string.

Definition RteIpv6Hdr_fields : struct_type :=
  [("vtc_flow", TUint32); ("payload_len", TUint32); ("proto", TUint32); ("hop_limits",
   TUint32); ("src_addr", TBytes); ("dst_addr", TBytes)]%string.

Definition RteFlowItemIpv6_fields : struct_type :=
  [("hdr", TPtr "RteIpv6Hdr")]%string.

Definition RteIcmpHdr_fields : struct_type :=
  [("icmp_type", TUint32); ("icmp_code", TUint32); ("icmp_cksum", TUint32); ("icmp_ident",
   TUint32); ("icmp_seq_nb", TUint32)]%string.

Definition RteFlowItemIcmp_fields : struct_type :=
  [("hdr", TPtr "RteIcmpHdr")]%string.

Definition RteUdpHdr_fields : struct_type :=
  [("src_port", TUint32); ("dst_port", TUint32); ("dgram_len", TUint32); ("dgram_cksum",
   TUint32)]%string.

Definition RteFlowItemUdp_fields : struct_type :=
  [("hdr", TPtr "RteUdpHdr")]%string.

Definition RteTcpHdr_fields : struct_type :=
  [("src_port", TUint32); ("dst_port", TUint32); ("sent_seq", TUint32); ("recv_ack",
   TUint32); ("data_off", TUint32); ("tcp_flags", TUint32); ("rx_win", TUint32); ("cksum",
   TUint32); ("tcp_urp", TUint32)]%string.

Definition RteFlowItemTcp_fields : struct_type :=
  [("hdr", TPtr "RteTcpHdr")]%string.

Definition RteSctpHdr_fields : struct_type :=
  [("src_port", TUint32); ("dst_port", TUint32); ("tag", TUint32); ("cksum",
   TUint32)]%string.

Definition RteFlowItemSctp_fields : struct_type :=
  [("hdr", TPtr "RteSctpHdr")]%string.

Definition RteFlowItemVxlan_fields : struct_type :=
  [("flags", TUint32); ("rsvd0", TBytes); ("vni", TBytes); ("rsvd1", TUint32)]%string.

Definition RteFlowItemETag_fields : struct_type :=
  [("epcp_edei_in_ecid_b", TUint32); ("rsvd_grp_ecid_b", TUint32); ("in_ecid_e", TUint32);
   ("ecid_e", TUint32); ("inner_type", TUint32)]%string.

Definition RteFlowItemNvgre_fields : struct_type :=
  [("c_k_s_rsvd0_ver", TUint32); ("protocol", TUint32); ("tni", TBytes); ("flow_id",
   TUint32)]%string.

Definition RteFlowItemMpls_fields : struct_type :=
  [("label_tc_s", TBytes); ("ttl", TUint32)]%string.

Definition RteFlowItemGre_fields : struct_type :=
  [("c_rsvd0_ver", TUint32); ("protocol", TUint32)]%string.

Definition RteFlowItemFuzzy_fields : struct_type :=
  [("thresh", TUint32)]%string.

Definition RteFlowItemGtp_fields : struct_type :=
  [("v_pt_rsv_flags", TUint32); ("msg_type", TUint32); ("msg_len", TUint32); ("teid",
   TUint32)]%string.

Definition RteEspHdr_fields : struct_type :=
  [("spi", TUint32); ("seq", TUint32)]%string.

Definition RteFlowItemEsp_fields : struct_type :=
  [("hdr", TPtr "RteEspHdr")]%string.

Definition RteFlowItemGeneve_fields : struct_type :=
  [("ver_opt_len_o_c_rsvd0", TUint32); ("protocol", TUint32); ("vni", TBytes); ("rsvd1",
   TUint32)]%string.

Definition RteFlowItemVxlanGpe_fields : struct_type :=
  [("flags", TUint32); ("rsvd0", TBytes); ("protocol", TUint32); ("vni", TBytes);
   ("rsvd1", TUint32)]%string.

Definition RteFlowItemArpEthIpv4_fields : struct_type :=
  [("hrd", TUint32); ("pro", TUint32); ("hln", TUint32); ("pln", TUint32); ("op",
   TUint32); ("sha", TPtr "RteEtherAddr"); ("spa", TUint32); ("tha", TPtr "RteEtherAddr");
   ("tpa", TUint32)]%string.

Definition RteFlowItemIpv6Ext_fields : struct_type :=
  [("next_hdr", TUint32)]%string.

Definition RteFlowItemIcmp6_fields : struct_type :=
  [("type", TUint32); ("code", TUint32); ("checksum", TUint32)]%string.

Definition RteFlowItemIcmp6NdNs_fields : struct_type :=
  [("type", TUint32); ("code", TUint32); ("checksum", TUint32); ("reserved", TUint32);
   ("target_addr", TBytes)]%string.

Definition RteFlowItemIcmp6NdNa_fields : struct_type :=
  [("type", TUint32); ("code", TUint32); ("checksum", TUint32); ("rso_reserved", TUint32);
   ("target_addr", TBytes)]%string.

Definition RteFlowItemIcmp6NdOpt_fields : struct_type :=
  [("type", TUint32); ("length", TUint32)]%string.

Definition RteFlowItemIcmp6NdOptSlaEth_fields : struct_type :=
  [("type", TUint32); ("length", TUint32); ("sla", TPtr "RteEtherAddr")]%string.

Definition RteFlowItemIcmp6NdOptStaEth_fields : struct_type :=
  [("type", TUint32); ("length", TUint32); ("tla", TPtr "RteEtherAddr")]%string.

Definition RteFlowItemMark_fields : struct_type :=
  [("id", TUint32)]%string.

Definition RteFlowItemMeta_fields : struct_type :=
  [("data", TUint32)]%string.

Definition RteFlowItemGtpPsc_fields : struct_type :=
  [("pdu_type", TUint32); ("qfi", TUint32)]%string.

Definition RteFlowItemPppoe_fields : struct_type :=
  [("version_type", TUint32); ("code", TUint32); ("session_id", TUint32); ("length",
   TUint32)]%string.

Definition RteFlowItemPppoeProtoId_fields : struct_type :=
  [("proto_id", TUint32)]%string.

Definition RteFlowItemNsh_fields : struct_type :=
  [("version", TUint32); ("oam_pkt", TUint32); ("reserved", TUint32); ("ttl", TUint32);
   ("length", TUint32); ("reserved1", TUint32); ("mdtype", TUint32); ("next_proto",
   TUint32); ("spi", TUint32); ("sindex", TUint32)]%string.

Definition RteFlowItemIgmp_fields : struct_type :=
  [("type", TUint32); ("max_resp_time", TUint32); ("checksum", TUint32); ("group_addr",
   TUint32)]%string.

Definition RteFlowItemAh_fields : struct_type :=
  [("next_hdr", TUint32); ("payload_len", TUint32); ("reserved", TUint32); ("spi",
   TUint32); ("seq_num", TUint32)]%string.

Definition RteHigig2Frc_fields : struct_type :=
  [("ksop", TUint32); ("tc", TUint32); ("mcst", TUint32); ("resv", TUint32); ("dst_modid",
   TUint32); ("dst_pid", TUint32); ("src_modid", TUint32); ("src_pid", TUint32); ("lbid",
   TUint32); ("ppd_type", TUint32); ("resv1", TUint32); ("dp", TUint32)]%string.

Definition RteHigig2PptType0_fields : struct_type :=
  [("mirror", TUint32); ("mirror_done", TUint32); ("mirror_only", TUint32);
   ("ingress_tagged", TUint32); ("dst_tgid", TUint32); ("dst_t", TUint32); ("vc_label2",
   TUint32); ("label_present", TUint32); ("l3", TUint32); ("res", TUint32); ("vc_label1",
   TUint32); ("vc_label0", TUint32); ("vid_high", TUint32); ("vid_low", TUint32); ("opc",
   TUint32); ("res1", TUint32); ("srce_t", TUint32); ("pf", TUint32); ("res2", TUint32);
   ("hdr_ext_length", TUint32)]%string.

Definition RteHigig2PptType1_fields : struct_type :=
  [("classification", TUint32); ("resv", TUint32); ("vid", TUint32); ("opcode", TUint32);
   ("resv1", TUint32); ("src_t", TUint32); ("pfm", TUint32); ("resv2", TUint32);
   ("hdr_ext_len", TUint32)]%string.

Definition RteHigig2Hdr_fields : struct_type :=
  [("fcr", TPtr "RteHigig2Frc"); ("ppt0", TPtr "RteHigig2PptType0"); ("ppt1", TPtr
   "RteHigig2PptType1")]%string.

Definition RteFlowItemHigig2Hdr_fields : struct_type :=
  [("hdr", TPtr "RteHigig2Hdr")]%string.

Definition RteFlowItemTag_fields : struct_type :=
  [("data", TUint32); ("index", TUint32)]%string.

Definition RteFlowItemL2Tpv3Oip_fields : struct_type :=
  [("session_id", TUint32)]%string.

Definition RteFlowItem_fields : struct_type :=
  [("type", TInt32); ("spec", TPtr "Any"); ("last", TPtr "Any"); ("mask", TPtr
   "Any")]%string.

Definition RteFlowActionMark_fields : struct_type :=
  [("id", TUint32)]%string.

Definition RteFlowActionJump_fields : struct_type :=
  [("group", TUint32)]%string.

Definition RteFlowActionQueue_fields : struct_type :=
  [("index", TUint32)]%string.

Definition RteFlowActionCount_fields : struct_type :=
  [("shared", TUint32); ("reserved", TUint32); ("id", TUint32)]%string.

Definition RteFlowActionRss_fields : struct_type :=
  [("func", TInt32); ("level", TUint32); ("types", TUint64); ("key_len", TUint32);
   ("queue_num", TUint32); ("key", TUint32); ("queue", TUint32)]%string.

Definition RteFlowActionVf_fields : struct_type :=
  [("reserved", TUint32); ("original", TUint32); ("id", TUint32)]%string.

Definition RteFlowActionPhyPort_fields : struct_type :=
  [("original", TUint32); ("reserved", TUint32); ("index", TUint32)]%string.

Definition RteFlowActionPortId_fields : struct_type :=
  [("original", TUint32); ("reserved", TUint32); ("id", TUint32)]%string.

Definition RteFlowActionMeter_fields : struct_type :=
  [("mtr_id", TUint32)]%string.

Definition RteFlowActionSecurity_fields : struct_type :=
  [("security_session", TPtr "Any")]%string.

Definition RteFlowActionOfSetMplsTtl_fields : struct_type :=
  [("mpls_ttl", TUint32)]%string.

Definition RteFlowActionOfSetNwTtl_fields : struct_type :=
  [("nw_ttl", TUint32)]%string.

Definition RteFlowActionOfPushVlan_fields : struct_type :=
  [("ethertype", TUint32)]%string.

Definition RteFlowActionOfSetVlanVid_fields : struct_type :=
  [("vlan_vid", TUint32)]%string.

Definition RteFlowActionOfSetVlanPcp_fields : struct_type :=
  [("vlan_pcp", TUint32)]%string.

Definition RteFlowActionOfPopMpls_fields : struct_type :=
  [("ethertype", TUint32)]%string.

Definition RteFlowActionOfPushMpls_fields : struct_type :=
  [("ethertype", TUint32)]%string.

Definition RteFlowActionVxlanEncap_fields : struct_type :=
  [("definition", TPtr "RteFlowItem")]%string.

Definition RteFlowActionNvgreEncap_fields : struct_type :=
  [("definition", TPtr "RteFlowItem")]%string.

Definition RteFlowActionRawEncap_fields : struct_type :=
  [("data", TUint32); ("preserve", TUint32); ("size", TUint32)]%string.

Definition RteFlowActionRawDecap_fields : struct_type :=
  [("data", TUint32); ("size", TUint32)]%string.

Definition RteFlowActionSetIpv4_fields : struct_type :=
  [("ipv4_addr", TUint32)]%string.

Definition RteFlowActionSetIpv6_fields : struct_type :=
  [("ipv6_addr", TSlice TUint32)]%string.

Definition RteFlowActionSetTp_fields : struct_type :=
  [("port", TUint32)]%string.

Definition RteFlowActionSetTtl_fields : struct_type :=
  [("ttl_value", TUint32)]%string.

Definition RteFlowActionSetMac_fields : struct_type :=
  [("mac_addrf", TSlice TUint32)]%string.

Definition RteFlowActionSetTag_fields : struct_type :=
  [("data", TUint32); ("mask", TUint32); ("index", TUint32)]%string.

Definition RteFlowActionSetMeta_fields : struct_type :=
  [("data", TUint32); ("mask", TUint32)]%string.

Definition RteFlowActionSetDscp_fields : struct_type :=
  [("dscp", TUint32)]%string.

Definition RteFlowAction_fields : struct_type :=
  [("type", TInt32); ("conf", TPtr "Any")]%string.
(** The struct types the JSON decoder may meet, by Go name. *)
Definition flow_structs : list (string * struct_type) :=
  [("RteFlowItemAny", RteFlowItemAny_fields);
   ("RteFlowItemVf", RteFlowItemVf_fields);
   ("RteFlowItemPhyPort", RteFlowItemPhyPort_fields);
   ("RteFlowItemPortId", RteFlowItemPortId_fields);
   ("RteFlowItemRaw", RteFlowItemRaw_fields);
   ("RteEtherAddr", RteEtherAddr_fields);
   ("RteFlowItemEth", RteFlowItemEth_fields);
   ("RteFlowItemVlan", RteFlowItemVlan_fields);
   ("RteIpv4Hdr", RteIpv4Hdr_fields);
   ("RteFlowItemIpv4", RteFlowItemIpv4_fields);
   ("RteIpv6Hdr", RteIpv6Hdr_fields);
   ("RteFlowItemIpv6", RteFlowItemIpv6_fields);
   ("RteIcmpHdr", RteIcmpHdr_fields);
   ("RteFlowItemIcmp", RteFlowItemIcmp_fields);
   ("RteUdpHdr", RteUdpHdr_fields);
   ("RteFlowItemUdp", RteFlowItemUdp_fields);
   ("RteTcpHdr", RteTcpHdr_fields);
   ("RteFlowItemTcp", RteFlowItemTcp_fields);
   ("RteSctpHdr", RteSctpHdr_fields);
   ("RteFlowItemSctp", RteFlowItemSctp_fields);
   ("RteFlowItemVxlan", RteFlowItemVxlan_fields);
   ("RteFlowItemETag", RteFlowItemETag_fields);
   ("RteFlowItemNvgre", RteFlowItemNvgre_fields);
   ("RteFlowItemMpls", RteFlowItemMpls_fields);
   ("RteFlowItemGre", RteFlowItemGre_fields);
   ("RteFlowItemFuzzy", RteFlowItemFuzzy_fields);
   ("RteFlowItemGtp", RteFlowItemGtp_fields);
   ("RteEspHdr", RteEspHdr_fields);
   ("RteFlowItemEsp", RteFlowItemEsp_fields);
   ("RteFlowItemGeneve", RteFlowItemGeneve_fields);
   ("RteFlowItemVxlanGpe", RteFlowItemVxlanGpe_fields);
   ("RteFlowItemArpEthIpv4", RteFlowItemArpEthIpv4_fields);
   ("RteFlowItemIpv6Ext", RteFlowItemIpv6Ext_fields);
   ("RteFlowItemIcmp6", RteFlowItemIcmp6_fields);
   ("RteFlowItemIcmp6NdNs", RteFlowItemIcmp6NdNs_fields);
   ("RteFlowItemIcmp6NdNa", RteFlowItemIcmp6NdNa_fields);
   ("RteFlowItemIcmp6NdOpt", RteFlowItemIcmp6NdOpt_fields);
   ("RteFlowItemIcmp6NdOptSlaEth", RteFlowItemIcmp6NdOptSlaEth_fields);
   ("RteFlowItemIcmp6NdOptStaEth", RteFlowItemIcmp6NdOptStaEth_fields);
   ("RteFlowItemMark", RteFlowItemMark_fields);
   ("RteFlowItemMeta", RteFlowItemMeta_fields);
   ("RteFlowItemGtpPsc", RteFlowItemGtpPsc_fields);
   ("RteFlowItemPppoe", RteFlowItemPppoe_fields);
   ("RteFlowItemPppoeProtoId", RteFlowItemPppoeProtoId_fields);
   ("RteFlowItemNsh", RteFlowItemNsh_fields);
   ("RteFlowItemIgmp", RteFlowItemIgmp_fields);
   ("RteFlowItemAh", RteFlowItemAh_fields);
   ("RteHigig2Frc", RteHigig2Frc_fields);
   ("RteHigig2PptType0", RteHigig2PptType0_fields);
   ("RteHigig2PptType1", RteHigig2PptType1_fields);
   ("RteHigig2Hdr", RteHigig2Hdr_fields);
   ("RteFlowItemHigig2Hdr", RteFlowItemHigig2Hdr_fields);
   ("RteFlowItemTag", RteFlowItemTag_fields);
   ("RteFlowItemL2Tpv3Oip", RteFlowItemL2Tpv3Oip_fields);
   ("RteFlowItem", RteFlowItem_fields);
   ("RteFlowActionMark", RteFlowActionMark_fields);
   ("RteFlowActionJump", RteFlowActionJump_fields);
   ("RteFlowActionQueue", RteFlowActionQueue_fields);
   ("RteFlowActionCount", RteFlowActionCount_fields);
   ("RteFlowActionRss", RteFlowActionRss_fields);
   ("RteFlowActionVf", RteFlowActionVf_fields);
   ("RteFlowActionPhyPort", RteFlowActionPhyPort_fields);
   ("RteFlowActionPortId", RteFlowActionPortId_fields);
   ("RteFlowActionMeter", RteFlowActionMeter_fields);
   ("RteFlowActionSecurity", RteFlowActionSecurity_fields);
   ("RteFlowActionOfSetMplsTtl", RteFlowActionOfSetMplsTtl_fields);
   ("RteFlowActionOfSetNwTtl", RteFlowActionOfSetNwTtl_fields);
   ("RteFlowActionOfPushVlan", RteFlowActionOfPushVlan_fields);
   ("RteFlowActionOfSetVlanVid", RteFlowActionOfSetVlanVid_fields);
   ("RteFlowActionOfSetVlanPcp", RteFlowActionOfSetVlanPcp_fields);
   ("RteFlowActionOfPopMpls", RteFlowActionOfPopMpls_fields);
   ("RteFlowActionOfPushMpls", RteFlowActionOfPushMpls_fields);
   ("RteFlowActionVxlanEncap", RteFlowActionVxlanEncap_fields);
   ("RteFlowActionNvgreEncap", RteFlowActionNvgreEncap_fields);
   ("RteFlowActionRawEncap", RteFlowActionRawEncap_fields);
   ("RteFlowActionRawDecap", RteFlowActionRawDecap_fields);
   ("RteFlowActionSetIpv4", RteFlowActionSetIpv4_fields);
   ("RteFlowActionSetIpv6", RteFlowActionSetIpv6_fields);
   ("RteFlowActionSetTp", RteFlowActionSetTp_fields);
   ("RteFlowActionSetTtl", RteFlowActionSetTtl_fields);
   ("RteFlowActionSetMac", RteFlowActionSetMac_fields);
   ("RteFlowActionSetTag", RteFlowActionSetTag_fields);
   ("RteFlowActionSetMeta", RteFlowActionSetMeta_fields);
   ("RteFlowActionSetDscp", RteFlowActionSetDscp_fields);
   ("RteFlowAction", RteFlowAction_fields);
   ("Any", Any_fields)]%string.
(** The type of a struct; structs without exported fields (emptypb.Empty) have none. *)
Definition flow_schema (name : string) : struct_type := default [] (find_value flow_structs name).

(** ** Any *)

Record Any : Set := { TypeUrl : string; Value : string }.

#[export] Instance Any_eq_dec : EqDecision Any.
Proof. solve_decision. Defined.

(** [any.New(m)] of a message of the named type, and [a.UnmarshalTo(m)] into a fresh
    message of the named type; a nil [*Any] is [None]. *)
Class AnyCodec : Type := {
  any_New : string → struct_val → outcome Any;
  any_UnmarshalTo : option Any → string → outcome struct_val;
}.

(** What anypb documents: a packed message unpacks to itself, [UnmarshalTo] fails for
    another message type and for a nil source, and neither function panics. *)
Class AnyCodecLaws (C : AnyCodec) : Prop := {
  any_roundtrip name m a : any_New name m = Ok a → any_UnmarshalTo (Some a) name = Ok m;
  any_mismatch name name' m a : any_New name m = Ok a → name' ≠ name →
    ∃ e, any_UnmarshalTo (Some a) name' = Err e;
  any_nil name : ∃ e, any_UnmarshalTo None name = Err e;
  any_New_total name m : any_New name m ≠ Panic;
  any_UnmarshalTo_total a name : any_UnmarshalTo a name ≠ Panic;
}.

(** ** Pattern items the webhook looks into *)

Record RteEtherAddr : Set := { AddrBytes : string }.

Definition RteEtherAddr_of (v : struct_val) : RteEtherAddr :=
  {| AddrBytes := bytes_field "addr_bytes" v |}.
Definition RteEtherAddr_to (a : RteEtherAddr) : struct_val :=
  [("addr_bytes"%string, GBytes (AddrBytes a))].

Record RteFlowItemEth : Set := {
  eth_Dst : option RteEtherAddr;
  eth_Src : option RteEtherAddr;
  eth_Type : Z
}.

Definition ptr_val {A} (to : A → struct_val) (o : option A) : gval :=
  match o with Some a => GMsg (to a) | None => GNil end.

Definition RteFlowItemEth_of (v : struct_val) : RteFlowItemEth :=
  {| eth_Dst := RteEtherAddr_of <$> ptr_field "dst" v;
     eth_Src := RteEtherAddr_of <$> ptr_field "src" v;
     eth_Type := num_field "type" v |}.
Definition RteFlowItemEth_to (m : RteFlowItemEth) : struct_val :=
  [("dst", ptr_val RteEtherAddr_to (eth_Dst m)); ("src", ptr_val RteEtherAddr_to (eth_Src m));
   ("type", GNum (eth_Type m))]%string.

Record RteFlowItemVlan : Set := { Tci : Z; InnerType : Z }.

Definition RteFlowItemVlan_of (v : struct_val) : RteFlowItemVlan :=
  {| Tci := num_field "tci" v; InnerType := num_field "inner_type" v |}.

Record RteIpv4Hdr : Set := {
  VersionIhl : Z; TypeOfService : Z; TotalLength : Z; PacketId : Z; FragmentOffset : Z;
  TimeToLive : Z; NextProtoId : Z; HdrChecksum : Z; SrcAddr : Z; DstAddr : Z
}.

Definition RteIpv4Hdr_of (v : struct_val) : RteIpv4Hdr :=
  {| VersionIhl := num_field "version_ihl" v; TypeOfService := num_field "type_of_service" v;
     TotalLength := num_field "total_length" v; PacketId := num_field "packet_id" v;
     FragmentOffset := num_field "fragment_offset" v;
     TimeToLive := num_field "time_to_live" v; NextProtoId := num_field "next_proto_id" v;
     HdrChecksum := num_field "hdr_checksum" v; SrcAddr := num_field "src_addr" v;
     DstAddr := num_field "dst_addr" v |}.
Definition RteIpv4Hdr_to (h : RteIpv4Hdr) : struct_val :=
  [("version_ihl", GNum (VersionIhl h)); ("type_of_service", GNum (TypeOfService h));
   ("total_length", GNum (TotalLength h)); ("packet_id", GNum (PacketId h));
   ("fragment_offset", GNum (FragmentOffset h)); ("time_to_live", GNum (TimeToLive h));
   ("next_proto_id", GNum (NextProtoId h)); ("hdr_checksum", GNum (HdrChecksum h));
   ("src_addr", GNum (SrcAddr h)); ("dst_addr", GNum (DstAddr h))]%string.

Record RteFlowItemIpv4 : Set := { ipv4_Hdr : option RteIpv4Hdr }.

Definition RteFlowItemIpv4_of (v : struct_val) : RteFlowItemIpv4 :=
  {| ipv4_Hdr := RteIpv4Hdr_of <$> ptr_field "hdr" v |}.
Definition RteFlowItemIpv4_to (m : RteFlowItemIpv4) : struct_val :=
  [("hdr"%string, ptr_val RteIpv4Hdr_to (ipv4_Hdr m))].

Record RteUdpHdr : Set := { SrcPort : Z; DstPort : Z; DgramLen : Z; DgramCksum : Z }.

Definition RteUdpHdr_of (v : struct_val) : RteUdpHdr :=
  {| SrcPort := num_field "src_port" v; DstPort := num_field "dst_port" v;
     DgramLen := num_field "dgram_len" v; DgramCksum := num_field "dgram_cksum" v |}.

Record RteFlowItemUdp : Set := { udp_Hdr : option RteUdpHdr }.

Definition RteFlowItemUdp_of (v : struct_val) : RteFlowItemUdp :=
  {| udp_Hdr := RteUdpHdr_of <$> ptr_field "hdr" v |}.

Record RteFlowItemPppoe : Set := {
  VersionType : Z; Code : Z; SessionId : Z; Length : Z
}.

Definition RteFlowItemPppoe_of (v : struct_val) : RteFlowItemPppoe :=
  {| VersionType := num_field "version_type" v; Code := num_field "code" v;
     SessionId := num_field "session_id" v; Length := num_field "length" v |}.

Record RteFlowItemPppoeProtoId : Set := { ProtoId : Z }.

Definition RteFlowItemPppoeProtoId_of (v : struct_val) : RteFlowItemPppoeProtoId :=
  {| ProtoId := num_field "proto_id" v |}.

(** ** The VF action *)

Record RteFlowActionVf : Set := { vf_Reserved : Z; vf_Original : Z; vf_Id : Z }.

Definition RteFlowActionVf_of (v : struct_val) : RteFlowActionVf :=
  {| vf_Reserved := num_field "reserved" v; vf_Original := num_field "original" v;
     vf_Id := num_field "id" v |}.

(** ** Messages of the gRPC calls *)

Record RteFlowAttr : Set := {
  Group : Z; Priority : Z; Ingress : Z; Egress : Z; Transfer : Z; Reserved : Z
}.

Record RteFlowItem : Set := {
  item_Type : RteFlowItemType;
  item_Spec : option Any;
  item_Last : option Any;
  item_Mask : option Any
}.

Record RteFlowAction : Set := { action_Type : RteFlowActionType; action_Conf : option Any }.

Record RequestFlowCreate : Set := {
  req_PortId : Z;
  req_Attr : option RteFlowAttr;
  req_Pattern : list RteFlowItem;
  req_Action : list RteFlowAction
}.

Record RequestFlowofPort : Set := { del_PortId : Z; del_FlowId : Z }.

(** [Type] is an open enumeration: any int32 may come from the service. *)
Record RteFlowError : Set := { err_Type : Z; err_Cause : option Any; err_Mesg : string }.

Record ResponseFlow : Set := { flow_ErrorInfo : option RteFlowError }.

Record ResponseFlowCreate : Set := { create_FlowId : Z; create_ErrorInfo : option RteFlowError }.

Record PortsInformation : Set := { PortId : Z; PortPci : string; PortMode : string }.

Record ResponsePortList : Set := { Ports : list PortsInformation }.

#[export] Instance RteFlowAttr_eq_dec : EqDecision RteFlowAttr.
Proof. solve_decision. Defined.
#[export] Instance RteFlowItem_eq_dec : EqDecision RteFlowItem.
Proof. solve_decision. Defined.
#[export] Instance RteFlowAction_eq_dec : EqDecision RteFlowAction.
Proof. solve_decision. Defined.
#[export] Instance RequestFlowCreate_eq_dec : EqDecision RequestFlowCreate.
Proof. solve_decision. Defined.
#[export] Instance RequestFlowofPort_eq_dec : EqDecision RequestFlowofPort.
Proof. solve_decision. Defined.
#[export] Instance PortsInformation_eq_dec : EqDecision PortsInformation.
Proof. solve_decision. Defined.

(** ** The typed views are faithful to what is packed *)

Lemma RteFlowItemEth_of_to m : RteFlowItemEth_of (RteFlowItemEth_to m) = m.
Proof. destruct m as [[[d]|] [[s]|] t]; reflexivity. Qed.

Lemma RteFlowItemIpv4_of_to m : RteFlowItemIpv4_of (RteFlowItemIpv4_to m) = m.
Proof. destruct m as [[[]|]]; reflexivity. Qed.
