(* ===== verification/AnyModel.v ===== *)
(** * A concrete [AnyCodec]

    An injective serialization of struct values, used to instantiate the interface
    [AnyCodec] (protobuf's anypb) where a theorem is applied to concrete input. *)

From stdpp Require Import countable.
From S2P Require Import Prelude GoStrings GoJsonDecode FlowApi.

(** ** Struct values as countable trees *)

Notation leaf_label := (Z + (string + string))%type.

Fixpoint tree_of (v : gval) : gen_tree leaf_label :=
  match v with
  | GNum n => GenLeaf (inl n)
  | GStr s => GenLeaf (inr (inl s))
  | GBytes s => GenLeaf (inr (inr s))
  | GNil => GenNode 0 []
  | GMsg fs => GenNode 1 (map (λ fx, match fx with
                                     | (f, x) => GenNode 3 [GenLeaf (inr (inl f)); tree_of x]
                                     end) fs)
  | GSlice l => GenNode 2 (map tree_of l)
  end.

Fixpoint of_tree (t : gen_tree leaf_label) : gval :=
  match t with
  | GenLeaf (inl n) => GNum n
  | GenLeaf (inr (inl s)) => GStr s
  | GenLeaf (inr (inr s)) => GBytes s
  | GenNode 1 l =>
      GMsg (map (λ t, match t with
                      | GenNode _ [GenLeaf (inr (inl f)); x] => (f, of_tree x)
                      | _ => (""%string, GNil)
                      end) l)
  | GenNode 2 l => GSlice (map of_tree l)
  | _ => GNil
  end.

(** Positive numbers as strings of binary digits. *)
Fixpoint string_of_pos (p : positive) : string :=
  match p with
  | xH => ""
  | xO p => String "0" (string_of_pos p)
  | xI p => String "1" (string_of_pos p)
  end.

Fixpoint pos_of_string (s : string) : positive :=
  match s with
  | ""%string => xH
  | String c s => if Ascii.eqb c "0" then xO (pos_of_string s) else xI (pos_of_string s)
  end.

Lemma pos_of_string_of p : pos_of_string (string_of_pos p) = p.
Proof. induction p as [p IH|p IH|]; simpl; [..|done]; by f_equal. Qed.

Lemma of_tree_of v : of_tree (tree_of v) = v.
Proof.
  revert v. fix IH 1. intros [n|s|s| |fs|l]; try reflexivity; simpl; f_equal.
  - induction fs as [|[f x] fs IHfs]; [reflexivity|]. simpl. by rewrite IH, IHfs.
  - induction l as [|x l IHl]; [reflexivity|]. simpl. by rewrite IH, IHl.
Qed.

(** ** The codec *)

#[export] Instance AnyModel : AnyCodec := {|
  any_New name m :=
    Ok {| TypeUrl := name; Value := string_of_pos (countable.encode (tree_of (GMsg m))) |};
  any_UnmarshalTo a name :=
    match a with
    | None => Err (ExtError "proto: invalid nil source message")
    | Some a =>
        if String.eqb (TypeUrl a) name then
          match of_tree <$> countable.decode (pos_of_string (Value a)) with
          | Some (GMsg m) => Ok m
          | _ => Err (ExtError "proto: cannot parse invalid wire-format data")
          end
        else Err (ExtError "mismatched message type")
    end;
|}.

#[export] Instance AnyModel_laws : AnyCodecLaws AnyModel.
Proof.
  split.
  - intros name m a [= <-]. cbn. rewrite String.eqb_refl, pos_of_string_of, decode_encode.
    pose proof (of_tree_of (GMsg m)) as E. cbn [tree_of] in E. cbn [fmap option_fmap option_map].
    by rewrite E.
  - intros name name' m a [= <-] Hne. cbn.
    destruct (String.eqb_spec name name'); [congruence|eauto].
  - eauto.
  - done.
  - intros [a|] name; cbn; [|done]. by repeat case_match.
Qed.
