(* ===== verification/FlowItems.v ===== *)
(** * From JSON configuration to protobuf Any objects

    pkg/flowconfig/rpc/v1/flow/{eth,ipv4,userTypes,helper}.go and
    pkg/flowconfig/utils/utils.go: the JSON text of a pattern item or of an action's
    configuration becomes a packed protobuf message. *)

From S2P Require Import Prelude GoStrings GoNet GoCrypto GoJson GoJsonDecode FlowEnums FlowApi.

Local Open Scope Z_scope.

(** ** eth.go *)

(** The intermediary struct with MAC addresses as text. *)
Record Eth : Set := { Eth_Dst : string; Eth_Src : string; Eth_Type : Z }.

Definition Eth_fields : struct_type :=
  [("dst", TString); ("src", TString); ("type", TUint32)]%string.

Definition Eth_of (v : struct_val) : Eth :=
  {| Eth_Dst := str_field "dst" v; Eth_Src := str_field "src" v;
     Eth_Type := num_field "type" v |}.

(** One address: absent when the text is empty. *)
Definition parse_mac_field (s : string) : outcome (option RteEtherAddr) :=
  if String.eqb s "" then Ok None
  else match ParseMAC s with
       | Some hw => Ok (Some {| AddrBytes := string_of hw |})
       | None => Err (Errorf "could not parse MAC address (%s)")
       end.

Definition ToRteFlowItemEth (eth : Eth) : outcome RteFlowItemEth :=
  dst ← parse_mac_field (Eth_Dst eth);
  src ← parse_mac_field (Eth_Src eth);
  Ok {| eth_Dst := dst; eth_Src := src; eth_Type := Eth_Type eth |}.

(** ** ipv4.go *)

(** The intermediary structs with dotted addresses as text. *)
Record Ipv4Hdr : Set := {
  Hdr_VersionIhl : Z; Hdr_TypeOfService : Z; Hdr_TotalLength : Z; Hdr_PacketId : Z;
  Hdr_FragmentOffset : Z; Hdr_TimeToLive : Z; Hdr_NextProtoId : Z; Hdr_HdrChecksum : Z;
  Hdr_SrcAddr : string; Hdr_DstAddr : string
}.

Record Ipv4 : Set := { Ipv4_Hdr : option Ipv4Hdr }.

Definition Ipv4Hdr_fields : struct_type :=
  [("version_ihl", TUint32); ("type_of_service", TUint32); ("total_length", TUint32);
   ("packet_id", TUint32); ("fragment_offset", TUint32); ("time_to_live", TUint32);
   ("next_proto_id", TUint32); ("hdr_checksum", TUint32); ("src_addr", TString);
   ("dst_addr", TString)]%string.

Definition Ipv4_fields : struct_type := [("hdr", TPtr "Ipv4Hdr")]%string.

Definition Ipv4Hdr_of (v : struct_val) : Ipv4Hdr :=
  {| Hdr_VersionIhl := num_field "version_ihl" v;
     Hdr_TypeOfService := num_field "type_of_service" v;
     Hdr_TotalLength := num_field "total_length" v;
     Hdr_PacketId := num_field "packet_id" v;
     Hdr_FragmentOffset := num_field "fragment_offset" v;
     Hdr_TimeToLive := num_field "time_to_live" v;
     Hdr_NextProtoId := num_field "next_proto_id" v;
     Hdr_HdrChecksum := num_field "hdr_checksum" v;
     Hdr_SrcAddr := str_field "src_addr" v;
     Hdr_DstAddr := str_field "dst_addr" v |}.

Definition Ipv4_of (v : struct_val) : Ipv4 := {| Ipv4_Hdr := Ipv4Hdr_of <$> ptr_field "hdr" v |}.

(** A [net.IP] is a list of bytes; the guard is the code's. *)
Definition ipToUint32 (ip : list Z) : outcome Z :=
  if (length ip =? 16)%nat then BigEndian_Uint32 (firstn 4 (skipn 12 ip))
  else if (length ip <? 3)%nat then Ok 0
  else BigEndian_Uint32 ip.

Definition Uint32ToIP (val : Z) : list Z := BigEndian_PutUint32 val.

(** An address field: zero when the text is empty. *)
Definition parse_ip_field (s : string) : outcome Z :=
  if String.eqb s "" then Ok 0
  else match ParseIP s with
       | None => Err (Errorf "could not parse IP address")
       | Some ip => ipToUint32 ip
       end.

Definition ToRteFlowItemIpv4 (ipv4 : Ipv4) : outcome RteFlowItemIpv4 :=
  match Ipv4_Hdr ipv4 with
  | None => Ok {| ipv4_Hdr := None |}
  | Some h =>
      src ← parse_ip_field (Hdr_SrcAddr h);
      dst ← parse_ip_field (Hdr_DstAddr h);
      Ok {| ipv4_Hdr := Some
              {| VersionIhl := Hdr_VersionIhl h; TypeOfService := Hdr_TypeOfService h;
                 TotalLength := Hdr_TotalLength h; PacketId := Hdr_PacketId h;
                 FragmentOffset := Hdr_FragmentOffset h; TimeToLive := Hdr_TimeToLive h;
                 NextProtoId := Hdr_NextProtoId h; HdrChecksum := Hdr_HdrChecksum h;
                 SrcAddr := src; DstAddr := dst |} |}
  end.

(** ** userTypes.go *)

Definition RTE_FLOW_ACTION_TYPE_VFPCIADDR : string := "RTE_FLOW_ACTION_TYPE_VFPCIADDR".

Definition RteFlowActionVfPciAddr_fields : struct_type := [("addr", TString)]%string.

(** The action type of a name; the user-defined name is the VF type. *)
Definition GetFlowActionType (actionType : string) : option RteFlowActionType :=
  match RteFlowActionType_value actionType with
  | Some val => Some val
  | None =>
      if String.eqb actionType RTE_FLOW_ACTION_TYPE_VFPCIADDR
      then RteFlowActionType_value (RteFlowActionType_String RTE_FLOW_ACTION_TYPE_VF)
      else None
  end.

(** ** helper.go: the message of an item or action type, by the name of its struct.
    No type of the enumerations falls through to the [default] of the switches. *)

Definition GetFlowItemObj (itemType : RteFlowItemType) : option string :=
  match itemType with
  | RTE_FLOW_ITEM_TYPE_END | RTE_FLOW_ITEM_TYPE_VOID | RTE_FLOW_ITEM_TYPE_INVERT |
  RTE_FLOW_ITEM_TYPE_PF
      => Some "Empty"%string
  | RTE_FLOW_ITEM_TYPE_ANY => Some "RteFlowItemAny"%string
  | RTE_FLOW_ITEM_TYPE_VF => Some "RteFlowItemVf"%string
  | RTE_FLOW_ITEM_TYPE_PHY_PORT => Some "RteFlowItemPhyPort"%string
  | RTE_FLOW_ITEM_TYPE_PORT_ID => Some "RteFlowItemPortId"%string
  | RTE_FLOW_ITEM_TYPE_RAW => Some "RteFlowItemRaw"%string
  | RTE_FLOW_ITEM_TYPE_ETH => Some "RteFlowItemEth"%string
  | RTE_FLOW_ITEM_TYPE_VLAN => Some "RteFlowItemVlan"%string
  | RTE_FLOW_ITEM_TYPE_IPV4 => Some "RteFlowItemIpv4"%string
  | RTE_FLOW_ITEM_TYPE_IPV6 => Some "RteFlowItemIpv6"%string
  | RTE_FLOW_ITEM_TYPE_ICMP => Some "RteFlowItemIcmp"%string
  | RTE_FLOW_ITEM_TYPE_UDP => Some "RteFlowItemUdp"%string
  | RTE_FLOW_ITEM_TYPE_TCP => Some "RteFlowItemTcp"%string
  | RTE_FLOW_ITEM_TYPE_SCTP => Some "RteFlowItemSctp"%string
  | RTE_FLOW_ITEM_TYPE_VXLAN => Some "RteFlowItemVxlan"%string
  | RTE_FLOW_ITEM_TYPE_E_TAG => Some "RteFlowItemETag"%string
  | RTE_FLOW_ITEM_TYPE_NVGRE => Some "RteFlowItemNvgre"%string
  | RTE_FLOW_ITEM_TYPE_MPLS => Some "RteFlowItemMpls"%string
  | RTE_FLOW_ITEM_TYPE_GRE => Some "RteFlowItemGre"%string
  | RTE_FLOW_ITEM_TYPE_FUZZY => Some "RteFlowItemFuzzy"%string
  | RTE_FLOW_ITEM_TYPE_GTP | RTE_FLOW_ITEM_TYPE_GTPC | RTE_FLOW_ITEM_TYPE_GTPU
      => Some "RteFlowItemGtp"%string
  | RTE_FLOW_ITEM_TYPE_ESP => Some "RteFlowItemEsp"%string
  | RTE_FLOW_ITEM_TYPE_GENEVE => Some "RteFlowItemGeneve"%string
  | RTE_FLOW_ITEM_TYPE_VXLAN_GPE => Some "RteFlowItemVxlanGpe"%string
  | RTE_FLOW_ITEM_TYPE_ARP_ETH_IPV4 => Some "RteFlowItemArpEthIpv4"%string
  | RTE_FLOW_ITEM_TYPE_IPV6_EXT => Some "RteFlowItemIpv6Ext"%string
  | RTE_FLOW_ITEM_TYPE_ICMP6 => Some "RteFlowItemIcmp6"%string
  | RTE_FLOW_ITEM_TYPE_ICMP6_ND_NS => Some "RteFlowItemIcmp6NdNs"%string
  | RTE_FLOW_ITEM_TYPE_ICMP6_ND_NA => Some "RteFlowItemIcmp6NdNa"%string
  | RTE_FLOW_ITEM_TYPE_ICMP6_ND_OPT => Some "RteFlowItemIcmp6NdOpt"%string
  | RTE_FLOW_ITEM_TYPE_ICMP6_ND_OPT_SLA_ETH => Some "RteFlowItemIcmp6NdOptSlaEth"%string
  | RTE_FLOW_ITEM_TYPE_ICMP6_ND_OPT_TLA_ETH => Some "RteFlowItemIcmp6NdOptStaEth"%string
  | RTE_FLOW_ITEM_TYPE_MARK => Some "RteFlowItemMark"%string
  | RTE_FLOW_ITEM_TYPE_META => Some "RteFlowItemMeta"%string
  | RTE_FLOW_ITEM_TYPE_GRE_KEY => Some "RteFlowItemGre"%string
  | RTE_FLOW_ITEM_TYPE_GTP_PSC => Some "RteFlowItemGtpPsc"%string
  | RTE_FLOW_ITEM_TYPE_PPPOES | RTE_FLOW_ITEM_TYPE_PPPOED
      => Some "RteFlowItemPppoe"%string
  | RTE_FLOW_ITEM_TYPE_PPPOE_PROTO_ID => Some "RteFlowItemPppoeProtoId"%string
  | RTE_FLOW_ITEM_TYPE_NSH => Some "RteFlowItemNsh"%string
  | RTE_FLOW_ITEM_TYPE_IGMP => Some "RteFlowItemIgmp"%string
  | RTE_FLOW_ITEM_TYPE_AH => Some "RteFlowItemAh"%string
  | RTE_FLOW_ITEM_TYPE_HIGIG2 => Some "RteFlowItemHigig2Hdr"%string
  | RTE_FLOW_ITEM_TYPE_TAG => Some "RteFlowItemTag"%string
  end.

Definition GetFlowActionObj (actionType : RteFlowActionType) : option string :=
  match actionType with
  | RTE_FLOW_ACTION_TYPE_END | RTE_FLOW_ACTION_TYPE_VOID | RTE_FLOW_ACTION_TYPE_PASSTHRU
  | RTE_FLOW_ACTION_TYPE_FLAG | RTE_FLOW_ACTION_TYPE_DROP | RTE_FLOW_ACTION_TYPE_PF |
  RTE_FLOW_ACTION_TYPE_OF_DEC_MPLS_TTL | RTE_FLOW_ACTION_TYPE_OF_DEC_NW_TTL |
  RTE_FLOW_ACTION_TYPE_OF_COPY_TTL_OUT | RTE_FLOW_ACTION_TYPE_OF_COPY_TTL_IN |
  RTE_FLOW_ACTION_TYPE_OF_POP_VLAN | RTE_FLOW_ACTION_TYPE_VXLAN_DECAP |
  RTE_FLOW_ACTION_TYPE_NVGRE_DECAP | RTE_FLOW_ACTION_TYPE_MAC_SWAP |
  RTE_FLOW_ACTION_TYPE_DEC_TTL | RTE_FLOW_ACTION_TYPE_INC_TCP_SEQ |
  RTE_FLOW_ACTION_TYPE_DEC_TCP_SEQ | RTE_FLOW_ACTION_TYPE_INC_TCP_ACK |
  RTE_FLOW_ACTION_TYPE_DEC_TCP_ACK
      => Some "Empty"%string
  | RTE_FLOW_ACTION_TYPE_JUMP => Some "RteFlowActionJump"%string
  | RTE_FLOW_ACTION_TYPE_MARK => Some "RteFlowActionMark"%string
  | RTE_FLOW_ACTION_TYPE_QUEUE => Some "RteFlowActionQueue"%string
  | RTE_FLOW_ACTION_TYPE_COUNT => Some "RteFlowActionCount"%string
  | RTE_FLOW_ACTION_TYPE_RSS => Some "RteFlowActionRss"%string
  | RTE_FLOW_ACTION_TYPE_VF => Some "RteFlowActionVf"%string
  | RTE_FLOW_ACTION_TYPE_PHY_PORT => Some "RteFlowActionPhyPort"%string
  | RTE_FLOW_ACTION_TYPE_PORT_ID => Some "RteFlowActionPortId"%string
  | RTE_FLOW_ACTION_TYPE_METER => Some "RteFlowActionMeter"%string
  | RTE_FLOW_ACTION_TYPE_SECURITY => Some "RteFlowActionSecurity"%string
  | RTE_FLOW_ACTION_TYPE_OF_SET_MPLS_TTL => Some "RteFlowActionOfSetMplsTtl"%string
  | RTE_FLOW_ACTION_TYPE_OF_SET_NW_TTL => Some "RteFlowActionOfSetNwTtl"%string
  | RTE_FLOW_ACTION_TYPE_OF_PUSH_VLAN => Some "RteFlowActionOfPushVlan"%string
  | RTE_FLOW_ACTION_TYPE_OF_SET_VLAN_VID => Some "RteFlowActionOfSetVlanVid"%string
  | RTE_FLOW_ACTION_TYPE_OF_SET_VLAN_PCP => Some "RteFlowActionOfSetVlanPcp"%string
  | RTE_FLOW_ACTION_TYPE_OF_POP_MPLS => Some "RteFlowActionOfPopMpls"%string
  | RTE_FLOW_ACTION_TYPE_OF_PUSH_MPLS => Some "RteFlowActionOfPushMpls"%string
  | RTE_FLOW_ACTION_TYPE_VXLAN_ENCAP => Some "RteFlowActionVxlanEncap"%string
  | RTE_FLOW_ACTION_TYPE_NVGRE_ENCAP => Some "RteFlowActionNvgreEncap"%string
  | RTE_FLOW_ACTION_TYPE_RAW_ENCAP => Some "RteFlowActionRawEncap"%string
  | RTE_FLOW_ACTION_TYPE_RAW_DECAP => Some "RteFlowActionRawDecap"%string
  | RTE_FLOW_ACTION_TYPE_SET_IPV4_SRC => Some "RteFlowActionSetIpv4"%string
  | RTE_FLOW_ACTION_TYPE_SET_IPV4_DST => Some "RteFlowActionSetIpv4"%string
  | RTE_FLOW_ACTION_TYPE_SET_IPV6_SRC => Some "RteFlowActionSetIpv6"%string
  | RTE_FLOW_ACTION_TYPE_SET_IPV6_DST => Some "RteFlowActionSetIpv6"%string
  | RTE_FLOW_ACTION_TYPE_SET_TP_SRC => Some "RteFlowActionSetTp"%string
  | RTE_FLOW_ACTION_TYPE_SET_TP_DST => Some "RteFlowActionSetTp"%string
  | RTE_FLOW_ACTION_TYPE_SET_TTL => Some "RteFlowActionSetTtl"%string
  | RTE_FLOW_ACTION_TYPE_SET_MAC_SRC => Some "RteFlowActionSetMac"%string
  | RTE_FLOW_ACTION_TYPE_SET_MAC_DST => Some "RteFlowActionSetMac"%string
  | RTE_FLOW_ACTION_TYPE_SET_TAG => Some "RteFlowActionSetTag"%string
  | RTE_FLOW_ACTION_TYPE_SET_META => Some "RteFlowActionSetMeta"%string
  end.

(** The struct types of this package: the generated ones and the intermediary ones. *)
Definition flow_user_structs : list (string * struct_type) :=
  [("Eth", Eth_fields); ("Ipv4", Ipv4_fields); ("Ipv4Hdr", Ipv4Hdr_fields);
   ("RteFlowActionVfPciAddr", RteFlowActionVfPciAddr_fields)]%string.

Definition schema (name : string) : struct_type :=
  match find_value flow_user_structs name with
  | Some fs => fs
  | None => flow_schema name
  end.

(** ** pkg/flowconfig/sriovutils: the interface the conversion asks for addresses *)
Class SriovUtils : Type := {
  GetPfName : string → outcome string;
  GetVFID : string → outcome Z;
}.

(** ** utils.go *)

Section utils.
Context `{!AnyCodec} `{!SriovUtils}.

(** [dec.Decode(&ipv4)] with JSON [null] leaves a nil pointer, which the method call
    dereferences. *)
Definition GetIPv4AnyObj (b : string) : outcome Any :=
  ipv4 ← wrap "could not decode bytes %s to ptypes.Any %v" (DecodeStrict schema "Ipv4" b);
  match ipv4 with
  | None => Panic
  | Some v =>
      rteFlowItemIpv4 ← wrap "error unmarshalling to ptypes.Any: %v" (ToRteFlowItemIpv4 (Ipv4_of v));
      wrap "error marshalling to ptypes.Any: %v"
        (any_New "RteFlowItemIpv4" (RteFlowItemIpv4_to rteFlowItemIpv4))
  end.

Definition GetEthAnyObj (b : string) : outcome Any :=
  eth ← wrap "could not decode bytes %s to ptypes.Any %v" (DecodeStrict schema "Eth" b);
  match eth with
  | None => Panic
  | Some v =>
      rteFlowItemEth ← wrap "error unmarshiling to ptypes.Any: %v" (ToRteFlowItemEth (Eth_of v));
      wrap "error marshalling to ptypes.Any: %v"
        (any_New "RteFlowItemEth" (RteFlowItemEth_to rteFlowItemEth))
  end.

(** JSON [null] makes the interface value nil, and the type assertion fails. *)
Definition GetFlowItemAny (flowType b : string) : outcome Any :=
  match RteFlowItemType_value flowType with
  | None => Err (Errorf "invalid  flow type %s")
  | Some RTE_FLOW_ITEM_TYPE_ETH => GetEthAnyObj b
  | Some RTE_FLOW_ITEM_TYPE_IPV4 => GetIPv4AnyObj b
  | Some flowTypeVal =>
      match GetFlowItemObj flowTypeVal with
      | None => Err (Errorf "nil object received for item type %s")
      | Some flowObj =>
          m ← wrap "could not decode bytes %s to ptypes.Any %v" (DecodeStrict schema flowObj b);
          match m with
          | None => Panic
          | Some v => wrap "error marshalling into ptypes.Any: %v" (any_New flowObj v)
          end
      end
  end.

(** The part of [GetFlowActionAny] and [GetFlowActionAnyForWebhook] after the look-up. *)
Definition known_action_any (actionTypeVal : RteFlowActionType) (b : string) : outcome Any :=
  match GetFlowActionObj actionTypeVal with
  | None => Err (Errorf "nil object received for action type %s")
  | Some actionObj =>
      v ← wrap "error unmarshalling bytes %s to ptypes.Any: %v" (Unmarshal schema actionObj b);
      wrap "error marshalling into ptypes.Any: %v" (any_New actionObj v)
  end.

(** [fmt.Sprintf] of the configuration of a VF action. *)
Definition vf_id_text (vfID : Z) : string := json_text "{'id':" +:+ FormatInt vfID +:+ "}".

(** The Go function and [GetFlowActionAny] call each other; the inner call is for a type
    of the protocol, where [GetFlowActionAny] is [known_action_any]. *)
Definition handleActionVfPciAddr (b : string) (isCalledByWebhook : bool) : outcome Any :=
  v ← wrap "error unmarshalling bytes %s to ptypes.Any: %v"
        (Unmarshal schema "RteFlowActionVfPciAddr" b);
  let addr := str_field "addr" v in
  if negb isCalledByWebhook then
    match GetVFID addr with
    | Ok vfID =>
        if vfID =? -1 then Err (Errorf "error unable to get VF ID for PCI: %s, Err: %v")
        else known_action_any RTE_FLOW_ACTION_TYPE_VF (vf_id_text vfID)
    | Err _ => Err (Errorf "error unable to get VF ID for PCI: %s, Err: %v")
    | Panic => Panic
    end
  else if pci_MatchString addr then known_action_any RTE_FLOW_ACTION_TYPE_VF (vf_id_text 0)
  else Err (Errorf "error unable to handle VF PCI address - please verify its correctness").

Definition GetFlowActionAnyForWebhook (actionType b : string) : outcome Any :=
  match RteFlowActionType_value actionType with
  | None =>
      if String.eqb actionType RTE_FLOW_ACTION_TYPE_VFPCIADDR
      then handleActionVfPciAddr b true
      else Err (Errorf "invalid action type %s")
  | Some actionTypeVal => known_action_any actionTypeVal b
  end.

Definition GetFlowActionAny (actionType b : string) : outcome Any :=
  match RteFlowActionType_value actionType with
  | None =>
      if String.eqb actionType RTE_FLOW_ACTION_TYPE_VFPCIADDR
      then handleActionVfPciAddr b false
      else Err (Errorf "invalid action type %s")
  | Some actionTypeVal => known_action_any actionTypeVal b
  end.
End utils.
