(* ===== verification/FlowItemsSpec.v ===== *)
(** * Correctness of the conversions of [FlowItems]

    Address conversions and their inverses, the exact inputs on which packing a pattern
    item panics, and what an action given by a PCI address becomes. *)

From S2P Require Import Prelude GoStrings GoNet GoCrypto GoJson GoJsonDecode FlowEnums FlowApi AnyModel FlowItems.

Local Open Scope Z_scope.

(** ** No panic below the conversions *)

Lemma read_first_no_panic s : read_first s ≠ Panic.
Proof. unfold read_first. by case_match. Qed.

Lemma decode_no_panic sch strict j : ∀ t cur, decode sch strict t j cur ≠ Panic.
Proof.
  induction j as [|b|lit|s|l IH|l IH] using json_nested_ind; intros t cur; simpl; try done.
  - destruct t; simpl; try done; rewrite fmap_panic;
      auto using ParseUint_no_panic, ParseInt_no_panic.
  - destruct t; simpl; try done. by case_match.
  - destruct t as [| | | | |n|e]; simpl; try done; rewrite fmap_panic.
    + clear IH. induction l as [|[| |lit| | |] l IHl]; try done; rewrite bind_panic;
        [naive_solver|].
      intros [H|(x & _ & H)]; [by eapply ParseUint_no_panic|].
      rewrite bind_panic in H. naive_solver.
    + induction IH as [|j l Hj Hl IHl]; [done|]. rewrite bind_panic.
      intros [H|(x & _ & H)]; [by eapply Hj|]. rewrite bind_panic in H. naive_solver.
  - destruct t as [| | | | |n|e]; simpl; try done. rewrite fmap_panic.
    generalize (fields_or_new sch n cur).
    induction IH as [|[k j] l Hj Hl IHl]; intros fs; [done|].
    destruct (find_field (sch n) k) as [[f ft]|].
    + rewrite bind_panic. intros [H|(x & _ & H)]; [by eapply Hj|]. by eapply IHl.
    + destruct strict; [done|]. apply IHl.
Qed.

Lemma decode_struct_no_panic sch strict n j : decode_struct sch strict n j ≠ Panic.
Proof. unfold decode_struct. destruct j; try done; rewrite fmap_panic; apply decode_no_panic. Qed.

Lemma Unmarshal_no_panic sch n b : Unmarshal sch n b ≠ Panic.
Proof.
  unfold Unmarshal. rewrite bind_panic. intros [H|(j & _ & H)].
  - revert H. unfold read_all. by repeat case_match.
  - by apply decode_struct_no_panic in H.
Qed.

(** Decoding through a pointer: no panic, and a nil pointer exactly for [null]. *)
Lemma DecodeStrict_no_panic sch n b : DecodeStrict sch n b ≠ Panic.
Proof.
  unfold DecodeStrict. rewrite bind_panic. intros [H|(j & _ & H)].
  - by apply read_first_no_panic in H.
  - destruct j; try done; rewrite fmap_panic in H; by apply decode_struct_no_panic in H.
Qed.

Lemma DecodeStrict_nil sch n b : DecodeStrict sch n b = Ok None ↔ read_first b = Ok JNull.
Proof.
  unfold DecodeStrict. rewrite outcome_bind_Ok. split; [|naive_solver].
  intros (j & Hj & H). destruct j; try done;
    by destruct (decode_struct sch true n _).
Qed.

(** ** Addresses *)

Lemma parse_dotted_length s l : parse_dotted s = Some l → length l = 4%nat.
Proof.
  unfold parse_dotted. destruct (Split s ".") as [|a [|b [|c [|d [|]]]]]; try done.
  intros H. repeat (apply bind_Some in H as (? & _ & H)). by simplify_eq.
Qed.

Lemma v6_groups_length room : ∀ s acc ell acc' ell',
  v6_groups room s acc ell = Some (acc', ell') →
  (length acc + 2 * room ≤ 16)%nat → (length acc' ≤ 16)%nat.
Proof.
  induction room as [|room IH]; intros s acc ell acc' ell'; simpl.
  { case_match; naive_solver lia. }
  destruct (span_hex s) as [h rest]. destruct (String.eqb h ""); [done|].
  intros (n & _ & Hn)%bind_Some. destruct (65535 <? n); [done|].
  destruct (HasPrefix rest ".").
  { destruct (_ && _)%bool; [done|].
    destruct (Nat.ltb_spec 16 (length acc + 4)); [done|].
    apply bind_Some in Hn as (b & Hb & Hn). apply parse_dotted_length in Hb. simplify_eq.
    rewrite length_app. lia. }
  destruct rest as [|c rest]; [simplify_eq; rewrite length_app; simpl; lia|].
  repeat case_match; try done; simplify_eq; intros ?;
    first [rewrite length_app; simpl; lia
          |eapply IH; [eassumption|]; rewrite length_app; simpl; lia].
Qed.

Lemma parseIPv6_length s ip : parseIPv6 s = Some ip → length ip = 16%nat.
Proof.
  unfold parseIPv6. destruct (if HasPrefix s "::" then _ else _) as [s' ell].
  case_match; [intros; by simplify_eq|].
  intros ([acc ell'] & Hg & Hr)%bind_Some. apply v6_groups_length in Hg; [|done].
  destruct (Nat.ltb_spec (length acc) 16); destruct ell' as [e|]; simplify_eq; try lia.
  rewrite !length_app, length_replicate, List.length_firstn, List.length_skipn. lia.
Qed.

(** [net.ParseIP] gives the 16-byte form. *)
Lemma ParseIP_length s ip : ParseIP s = Some ip → length ip = 16%nat.
Proof.
  unfold ParseIP. generalize s at 1. induction s as [|c s IH]; intros orig; simpl; [done|].
  case_match; [|case_match; [apply parseIPv6_length|apply IH]].
  unfold parseIPv4, v4_in_v6. intros (b & Hb & ->)%fmap_Some.
  apply parse_dotted_length in Hb. simpl. lia.
Qed.

Lemma BigEndian_Uint32_panic b : BigEndian_Uint32 b = Panic ↔ (length b < 4)%nat.
Proof. destruct b as [|b0 [|b1 [|b2 [|b3 b]]]]; simpl; split; intros; try done; lia. Qed.

Lemma ipToUint32_16 ip : length ip = 16%nat → ipToUint32 ip ≠ Panic.
Proof.
  intros Hl. unfold ipToUint32. rewrite Hl. cbn [Nat.eqb].
  rewrite BigEndian_Uint32_panic, List.length_firstn, List.length_skipn. lia.
Qed.

Lemma parse_ip_field_no_panic s : parse_ip_field s ≠ Panic.
Proof.
  unfold parse_ip_field. case_match; [done|]. destruct (ParseIP s) as [ip|] eqn:E; [|done].
  by apply ipToUint32_16, (ParseIP_length s).
Qed.

Lemma ToRteFlowItemIpv4_no_panic i : ToRteFlowItemIpv4 i ≠ Panic.
Proof.
  unfold ToRteFlowItemIpv4. destruct (Ipv4_Hdr i); [|done]. rewrite bind_panic.
  intros [H|(x & _ & H)]; [by apply parse_ip_field_no_panic in H|].
  rewrite bind_panic in H. destruct H as [H|(y & _ & H)]; [|done].
  by apply parse_ip_field_no_panic in H.
Qed.

Lemma ToRteFlowItemEth_no_panic e : ToRteFlowItemEth e ≠ Panic.
Proof.
  unfold ToRteFlowItemEth, parse_mac_field. repeat case_match; unfold_outcome; done.
Qed.

(** ** Round trips of addresses *)

Lemma Uint32ToIP_length v : length (Uint32ToIP v) = 4%nat.
Proof. done. Qed.

Lemma byte_split v : 0 ≤ v < 2 ^ 32 →
  v = v mod 256 + 256 * (v / 2 ^ 8 mod 256) + 2 ^ 16 * (v / 2 ^ 16 mod 256)
      + 2 ^ 24 * (v / 2 ^ 24 mod 256).
Proof.
  intros Hv.
  rewrite (Z.mod_small (v / 2 ^ 24)) by (split; [apply Z.div_pos; lia|apply Z.div_lt_upper_bound; lia]).
  change (2 ^ 24) with (2 ^ 16 * 256). change (2 ^ 16) with (2 ^ 8 * 256). change (2 ^ 8) with 256.
  rewrite <- !Z.div_div by lia.
  pose proof (Z.div_mod v 256). pose proof (Z.div_mod (v / 256) 256).
  pose proof (Z.div_mod (v / 256 / 256) 256). lia.
Qed.

(** Disjoint bits: [lor] of a byte and a shifted value is their sum. *)
Lemma lor_shiftl a b n : 0 ≤ a < 2 ^ n → 0 ≤ n → Z.lor a (Z.shiftl b n) = a + 2 ^ n * b.
Proof.
  intros Ha Hn. pose proof (Z.add_lor_land a (Z.shiftl b n)) as Hsum.
  assert (Z.land a (Z.shiftl b n) = 0) as Hland.
  { apply Z.bits_inj'. intros i Hi. rewrite Z.land_spec, Z.bits_0, Z.shiftl_spec by lia.
    destruct (Z.lt_ge_cases i n) as [Hin|Hin].
    - rewrite (Z.testbit_neg_r b) by lia. apply andb_false_r.
    - rewrite <- (Z.mod_small a (2 ^ n)), Z.mod_pow2_bits_high by lia. done. }
  rewrite Hland in Hsum. rewrite Z.shiftl_mul_pow2 in * by lia. rewrite (Z.mul_comm (2 ^ n)). lia.
Qed.

Lemma BigEndian_Uint32_bytes b0 b1 b2 b3 l :
  0 ≤ b0 < 256 → 0 ≤ b1 < 256 → 0 ≤ b2 < 256 → 0 ≤ b3 < 256 →
  BigEndian_Uint32 (b0 :: b1 :: b2 :: b3 :: l)
  = Ok (b0 * 2 ^ 24 + b1 * 2 ^ 16 + b2 * 2 ^ 8 + b3).
Proof.
  intros H0 H1 H2 H3. cbn [BigEndian_Uint32]. f_equal.
  rewrite (Z.lor_assoc b3), (lor_shiftl b3 b2 8), Z.lor_assoc, (lor_shiftl (b3 + _) b1 16),
    lor_shiftl by lia. lia.
Qed.

Lemma land_255 v : Z.land v 255 = v mod 256.
Proof. change 255 with (Z.ones 8). by rewrite Z.land_ones by lia. Qed.

Lemma BigEndian_PutUint32_bytes v :
  BigEndian_PutUint32 v
  = [v / 2 ^ 24 mod 256; v / 2 ^ 16 mod 256; v / 2 ^ 8 mod 256; v mod 256].
Proof. unfold BigEndian_PutUint32. by rewrite !land_255, !Z.shiftr_div_pow2 by lia. Qed.

Lemma ipToUint32_roundtrip v : 0 ≤ v < 2 ^ 32 → ipToUint32 (Uint32ToIP v) = Ok v.
Proof.
  intros Hv. unfold Uint32ToIP, ipToUint32. rewrite BigEndian_PutUint32_bytes.
  cbn [length Nat.eqb Nat.ltb Nat.leb].
  rewrite BigEndian_Uint32_bytes by (apply Z.mod_pos_bound; lia).
  f_equal. pose proof (byte_split v Hv). lia.
Qed.

(** Bytes read from the most significant end. *)
Lemma Uint32ToIP_roundtrip b0 b1 b2 b3 :
  0 ≤ b0 < 256 → 0 ≤ b1 < 256 → 0 ≤ b2 < 256 → 0 ≤ b3 < 256 →
  Uint32ToIP (b0 * 2 ^ 24 + b1 * 2 ^ 16 + b2 * 2 ^ 8 + b3) = [b0; b1; b2; b3].
Proof.
  intros H0 H1 H2 H3. unfold Uint32ToIP. rewrite BigEndian_PutUint32_bytes.
  assert (Hb : ∀ v q b r n, 0 ≤ n → 0 ≤ r < 2 ^ n → 0 ≤ b < 256 →
    v = (q * 256 + b) * 2 ^ n + r → v / 2 ^ n mod 256 = b).
  { intros v q b r n Hn Hr Hb ->.
    rewrite Z.div_add_l, (Z.div_small r), Z.add_0_r by lia.
    rewrite Z.add_comm, Z.mod_add by lia. by apply Z.mod_small. }
  set (v := b0 * 2 ^ 24 + b1 * 2 ^ 16 + b2 * 2 ^ 8 + b3).
  rewrite (Hb v 0 b0 (b1 * 2 ^ 16 + b2 * 2 ^ 8 + b3) 24) by lia.
  rewrite (Hb v b0 b1 (b2 * 2 ^ 8 + b3) 16) by lia.
  rewrite (Hb v (b0 * 256 + b1) b2 b3 8) by lia.
  pose proof (Hb v ((b0 * 256 + b1) * 256 + b2) b3 0 0) as H.
  rewrite Z.div_1_r in H. by rewrite H by lia.
Qed.

Lemma ipToUint32_panic ip : ipToUint32 ip = Panic ↔ length ip = 3%nat.
Proof.
  unfold ipToUint32. destruct (Nat.eqb_spec (length ip) 16) as [E|E].
  - rewrite BigEndian_Uint32_panic, List.length_firstn, List.length_skipn. lia.
  - destruct (Nat.ltb_spec (length ip) 3); [split; [done|lia]|].
    rewrite BigEndian_Uint32_panic. lia.
Qed.

(** ** Dotted-decimal text *)

Definition dotted_text (a b c d : Z) : string :=
  FormatUint a +:+ "." +:+ FormatUint b +:+ "." +:+ FormatUint c +:+ "." +:+ FormatUint d.

Lemma digit_not_dot c : is_digit c = true →
  Ascii.eqb c "." = false ∧ Ascii.eqb c ":" = false.
Proof. destruct c as [[] [] [] [] [] [] [] []]; vm_compute; intros H; try discriminate H; done. Qed.

Lemma Split_decimal s r : all_decimal s = true →
  Split (s +:+ "." +:+ r) "." = s :: Split r ".".
Proof.
  induction s as [|c s IH]; [done|]. cbn [all_decimal]. intros [Hc Hs]%andb_prop.
  rewrite str_app_String. cbn [Split]. rewrite (proj1 (digit_not_dot c Hc)), IH by done. done.
Qed.

Lemma Split_decimal_last s : all_decimal s = true → Split s "." = [s].
Proof.
  induction s as [|c s IH]; [done|]. cbn [all_decimal]. intros [Hc Hs]%andb_prop.
  cbn [Split]. by rewrite (proj1 (digit_not_dot c Hc)), IH.
Qed.

Lemma ParseIP_scan_decimal orig s r : all_decimal s = true →
  ParseIP_scan orig (s +:+ "." +:+ r) = parseIPv4 orig.
Proof.
  induction s as [|c s IH]; [done|]. cbn [all_decimal]. intros [Hc Hs]%andb_prop.
  rewrite str_app_String. cbn [ParseIP_scan]. destruct (digit_not_dot c Hc) as [-> ->].
  by apply IH.
Qed.

Lemma dotted_byte_format n : 0 ≤ n < 256 → dotted_byte (FormatUint n) = Some n.
Proof.
  intros Hn.
  assert (H : forallb (λ k, match dotted_byte (FormatUint (Z.of_nat k)) with
                            | Some m => m =? Z.of_nat k
                            | None => false
                            end) (seq 0 256) = true) by (vm_compute; reflexivity).
  rewrite forallb_forall in H. specialize (H (Z.to_nat n)).
  rewrite in_seq, Z2Nat.id in H by lia. specialize (H ltac:(lia)).
  destruct (dotted_byte (FormatUint n)) as [m|]; [|discriminate H].
  f_equal. by apply Z.eqb_eq.
Qed.

Lemma parse_ip_field_dotted a b c d :
  0 ≤ a < 256 → 0 ≤ b < 256 → 0 ≤ c < 256 → 0 ≤ d < 256 →
  parse_ip_field (dotted_text a b c d) = Ok (a * 2 ^ 24 + b * 2 ^ 16 + c * 2 ^ 8 + d).
Proof.
  intros Ha Hb Hc Hd. unfold parse_ip_field, dotted_text.
  pose proof (λ n (H : 0 ≤ n < 256), FormatUint_decimal n (proj1 H)) as Hdec.
  destruct (String.eqb_spec (FormatUint a +:+ "." +:+ FormatUint b +:+ "." +:+ FormatUint c
    +:+ "." +:+ FormatUint d) "") as [E|_].
  { exfalso. apply (f_equal String.length) in E. rewrite str_length_app in E. simpl in E. lia. }
  unfold ParseIP. rewrite ParseIP_scan_decimal by auto.
  unfold parseIPv4, parse_dotted. rewrite !Split_decimal, Split_decimal_last by auto.
  rewrite !dotted_byte_format by done. by apply (BigEndian_Uint32_bytes a b c d []).
Qed.

Lemma parse_mac_field_length s addr :
  parse_mac_field s = Ok (Some addr) →
  (String.length (AddrBytes addr) = 6 ∨ String.length (AddrBytes addr) = 8
   ∨ String.length (AddrBytes addr) = 20)%nat.
Proof.
  unfold parse_mac_field. destruct (String.eqb s ""); [done|]. destruct (ParseMAC s) as [hw|] eqn:E; [|done].
  intros [= <-]. simpl. rewrite string_of_length. apply (ParseMAC_wf s hw E).
Qed.

(** What packing does after decoding: only a nil pointer can make it panic. *)
Lemma decode_then_panic name fmt b (k : struct_val → outcome Any) :
  (∀ v, k v ≠ Panic) →
  (v ← wrap fmt (DecodeStrict schema name b); match v with None => Panic | Some v => k v end) = Panic
  ↔ read_first b = Ok JNull.
Proof.
  intros Hk. rewrite bind_panic, wrap_panic, <- (DecodeStrict_nil schema name).
  setoid_rewrite wrap_Ok. split; [|naive_solver].
  intros [H|([v|] & Hv & H)]; [|by apply Hk in H|done]. by apply DecodeStrict_no_panic in H.
Qed.

Lemma GetFlowItemObj_total ty : is_Some (GetFlowItemObj ty).
Proof. destruct ty; eauto. Qed.

Lemma GetFlowActionObj_total ty : is_Some (GetFlowActionObj ty).
Proof. destruct ty; eauto. Qed.

(** ** Properties *)

(** [Uint32ToIP] and [ipToUint32] are inverse to each other on 32-bit numbers and on
    four-byte addresses, so an IPv4 address survives being packed and printed. *)
Theorem address_roundtrip v : 0 ≤ v < 2 ^ 32 →
  ipToUint32 (Uint32ToIP v) = Ok v
  ∧ ∃ b0 b1 b2 b3, Uint32ToIP v = [b0; b1; b2; b3]
    ∧ Forall (λ b, 0 ≤ b < 256) [b0; b1; b2; b3]
    ∧ parse_ip_field (dotted_text b0 b1 b2 b3) = Ok v.
Proof.
  intros Hv. split; [by apply ipToUint32_roundtrip|].
  unfold Uint32ToIP. rewrite BigEndian_PutUint32_bytes.
  assert (Hb : ∀ x, 0 ≤ x mod 256 < 256) by (intros x; apply Z.mod_pos_bound; lia).
  do 4 eexists. split; [reflexivity|]. split; [by repeat constructor; apply Hb|].
  rewrite parse_ip_field_dotted by apply Hb. f_equal. pose proof (byte_split v Hv). lia.
Qed.

Lemma address_roundtrip_witness :
  ipToUint32 (Uint32ToIP 3232235777) = Ok 3232235777
  ∧ ∃ b0 b1 b2 b3, Uint32ToIP 3232235777 = [b0; b1; b2; b3]
    ∧ Forall (λ b, 0 ≤ b < 256) [b0; b1; b2; b3]
    ∧ parse_ip_field (dotted_text b0 b1 b2 b3) = Ok 3232235777.
Proof. apply address_roundtrip. lia. Defined.

(** The length guard of [ipToUint32] is off by one: it panics exactly on three-byte
    slices, answers 0 for shorter ones, and the 16-byte and four-byte forms of an address
    give the same number. *)
Theorem ipToUint32_cases ip :
  (ipToUint32 ip = Panic ↔ length ip = 3%nat)
  ∧ ((length ip < 3)%nat → ipToUint32 ip = Ok 0)
  ∧ (length ip = 4%nat → ipToUint32 (v4_in_v6 ip) = ipToUint32 ip).
Proof.
  split; [apply ipToUint32_panic|]. unfold ipToUint32. split.
  - intros H. destruct (Nat.eqb_spec (length ip) 16); [lia|].
    by destruct (Nat.ltb_spec (length ip) 3); [|lia].
  - intros H. destruct ip as [|b0 [|b1 [|b2 [|b3 [|]]]]]; try done.
Qed.

Lemma ipToUint32_cases_witness :
  ipToUint32 [192; 168; 1] = Panic ∧ ipToUint32 [192; 168] = Ok 0
  ∧ ipToUint32 (v4_in_v6 [192; 168; 1; 1]) = ipToUint32 [192; 168; 1; 1].
Proof.
  split; [by apply (ipToUint32_cases [192; 168; 1])|].
  split; [apply (proj1 (proj2 (ipToUint32_cases [192; 168]))); simpl; lia|].
  by apply (proj2 (proj2 (ipToUint32_cases [192; 168; 1; 1]))).
Defined.

(** Packing a pattern item never panics, with one exception: JSON [null] as the text
    of an item of a known type, whatever the type. *)
Theorem GetFlowItemAny_panic `{!AnyCodec} `{!AnyCodecLaws _} flowType b :
  GetFlowItemAny flowType b = Panic
  ↔ is_Some (RteFlowItemType_value flowType) ∧ read_first b = Ok JNull.
Proof.
  unfold GetFlowItemAny. destruct (RteFlowItemType_value flowType) as [ty|];
    [|by split; [|intros [[] _]]].
  assert (Hpk : ∀ fmt name m, wrap fmt (any_New name m) ≠ Panic).
  { intros fmt name m. rewrite wrap_panic. apply any_New_total. }
  trans (read_first b = Ok JNull); [|naive_solver].
  destruct (GetFlowItemObj_total ty) as [name Hname].
  destruct ty; cbn in Hname; try (simplify_eq; by apply decode_then_panic).
  - apply decode_then_panic. intros v. rewrite bind_panic, wrap_panic.
    intros [Hp|(m & _ & Hp)]; [by apply ToRteFlowItemEth_no_panic in Hp|by apply Hpk in Hp].
  - apply decode_then_panic. intros v. rewrite bind_panic, wrap_panic.
    intros [Hp|(m & _ & Hp)]; [by apply ToRteFlowItemIpv4_no_panic in Hp|by apply Hpk in Hp].
Qed.

Lemma GetFlowItemAny_panic_witness :
  GetFlowItemAny "RTE_FLOW_ITEM_TYPE_VLAN" "null" = Panic
  ∧ GetFlowItemAny "RTE_FLOW_ITEM_TYPE_VLAN" "{}" ≠ Panic.
Proof.
  split; [apply GetFlowItemAny_panic; split; [by eexists|reflexivity]|].
  rewrite GetFlowItemAny_panic. intros [_ H]. vm_compute in H. discriminate H.
Defined.

(** An Ethernet item is packed as a message in which each address is absent or has the
    6, 8 or 20 bytes of a parsed hardware address. *)
Theorem GetEthAnyObj_addresses `{!AnyCodec} `{!AnyCodecLaws _} b a :
  GetEthAnyObj b = Ok a →
  ∃ m, any_UnmarshalTo (Some a) "RteFlowItemEth" = Ok (RteFlowItemEth_to m)
    ∧ ∀ addr, eth_Dst m = Some addr ∨ eth_Src m = Some addr →
        (String.length (AddrBytes addr) = 6 ∨ String.length (AddrBytes addr) = 8
         ∨ String.length (AddrBytes addr) = 20)%nat.
Proof.
  unfold GetEthAnyObj. rewrite outcome_bind_Ok. intros ([v|] & _ & Hv); [|done].
  apply outcome_bind_Ok in Hv as (m & Hm%wrap_Ok & Ha%wrap_Ok).
  exists m. split; [by eapply any_roundtrip|].
  apply outcome_bind_Ok in Hm as (dst & Hd & Hm). apply outcome_bind_Ok in Hm as (src & Hs & [= <-]).
  cbn [eth_Dst eth_Src]. intros addr [->| ->]; eauto using parse_mac_field_length.
Qed.

Definition eth_example : string := json_text "{'src':'00:00:5e:00:53:01','type':2048}".

Lemma GetEthAnyObj_addresses_witness :
  ∃ m, any_UnmarshalTo
         (match GetEthAnyObj eth_example with Ok a => Some a | _ => None end) "RteFlowItemEth"
       = Ok (RteFlowItemEth_to m)
    ∧ ∀ addr, eth_Dst m = Some addr ∨ eth_Src m = Some addr →
        (String.length (AddrBytes addr) = 6 ∨ String.length (AddrBytes addr) = 8
         ∨ String.length (AddrBytes addr) = 20)%nat.
Proof.
  destruct (GetEthAnyObj eth_example) as [a| |] eqn:E; [|vm_compute in E; discriminate E..].
  apply (GetEthAnyObj_addresses eth_example a E).
Defined.

(** *** An action that names a VF by its PCI address *)

(** The configuration text that names a PCI address. *)
Definition vf_addr_text (addr : string) : string :=
  encode_object [("addr", encode_string addr)]%string.

Lemma Unmarshal_vf_addr addr : is_ascii addr = true →
  Unmarshal schema "RteFlowActionVfPciAddr" (vf_addr_text addr)
  = Ok [("addr"%string, GStr addr)].
Proof.
  intros Ha. unfold Unmarshal, vf_addr_text.
  rewrite (read_object1 _ _ (JStr addr)); [reflexivity|done|].
  intros n. by apply read_value_string.
Qed.

(** The fields of a VF action that only sets its identifier. *)
Definition vf_with_id (id : Z) : struct_val :=
  [("reserved", GNum 0); ("original", GNum 0); ("id", GNum id)]%string.

Lemma Unmarshal_vf_id id : 0 ≤ id < 2 ^ 32 →
  Unmarshal schema "RteFlowActionVf" (vf_id_text id) = Ok (vf_with_id id).
Proof.
  intros Hid. unfold Unmarshal, vf_id_text, FormatInt. rewrite (proj2 (Z.ltb_ge id 0)) by lia.
  change (json_text "{'id':" +:+ FormatUint id +:+ "}")
    with (encode_object [("id"%string, FormatUint id)]).
  rewrite (read_object1 _ _ (JNum (FormatUint id))); [|done|intros; apply read_value_uint; lia].
  unfold decode_struct. cbn -[ParseUint FormatUint]. by rewrite parse_format_uint.
Qed.

Lemma GetFlowActionAny_vf `{!AnyCodec} `{!SriovUtils} addr vfID :
  is_ascii addr = true → GetVFID addr = Ok vfID → 0 ≤ vfID < 2 ^ 32 →
  GetFlowActionAny RTE_FLOW_ACTION_TYPE_VFPCIADDR (vf_addr_text addr)
  = wrap "error marshalling into ptypes.Any: %v" (any_New "RteFlowActionVf" (vf_with_id vfID)).
Proof.
  intros Ha Hvf Hid.
  change (GetFlowActionAny RTE_FLOW_ACTION_TYPE_VFPCIADDR (vf_addr_text addr))
    with (handleActionVfPciAddr (vf_addr_text addr) false).
  unfold handleActionVfPciAddr. rewrite Unmarshal_vf_addr by done. cbn [wrap mbind outcome_bind negb].
  change (str_field "addr" [("addr"%string, GStr addr)]) with addr.
  rewrite Hvf, (proj2 (Z.eqb_neq vfID (-1))) by lia.
  unfold known_action_any. cbn [GetFlowActionObj]. by rewrite Unmarshal_vf_id.
Qed.

(** The webhook packs index 0 for every address of the right form. *)
Lemma GetFlowActionAnyForWebhook_vf `{!AnyCodec} `{!SriovUtils} addr :
  is_ascii addr = true → pci_MatchString addr = true →
  GetFlowActionAnyForWebhook RTE_FLOW_ACTION_TYPE_VFPCIADDR (vf_addr_text addr)
  = wrap "error marshalling into ptypes.Any: %v" (any_New "RteFlowActionVf" (vf_with_id 0)).
Proof.
  intros Ha Hm.
  change (GetFlowActionAnyForWebhook RTE_FLOW_ACTION_TYPE_VFPCIADDR (vf_addr_text addr))
    with (handleActionVfPciAddr (vf_addr_text addr) true).
  unfold handleActionVfPciAddr. rewrite Unmarshal_vf_addr by done. cbn [wrap mbind outcome_bind negb].
  change (str_field "addr" [("addr"%string, GStr addr)]) with addr.
  rewrite Hm. unfold known_action_any. cbn [GetFlowActionObj]. by rewrite Unmarshal_vf_id by lia.
Qed.

(** An address whose VF is not found is refused. *)
Lemma GetFlowActionAny_vf_missing `{!AnyCodec} `{!SriovUtils} addr :
  is_ascii addr = true → GetVFID addr = Ok (-1) →
  ∃ e, GetFlowActionAny RTE_FLOW_ACTION_TYPE_VFPCIADDR (vf_addr_text addr) = Err e.
Proof.
  intros Ha Hvf.
  change (GetFlowActionAny RTE_FLOW_ACTION_TYPE_VFPCIADDR (vf_addr_text addr))
    with (handleActionVfPciAddr (vf_addr_text addr) false).
  unfold handleActionVfPciAddr. rewrite Unmarshal_vf_addr by done. cbn [wrap mbind outcome_bind negb].
  change (str_field "addr" [("addr"%string, GStr addr)]) with addr. rewrite Hvf. by eexists.
Qed.

(** An action given by the PCI address of a VF is refused exactly when the look-up of
    the VF fails or finds nothing, and otherwise is the VF action with the VF's index. *)
Theorem GetFlowActionAny_vf_address `{!AnyCodec} `{!SriovUtils} addr :
  is_ascii addr = true →
  match GetVFID addr with
  | Ok vfID =>
      (vfID = -1 → ∃ e, GetFlowActionAny RTE_FLOW_ACTION_TYPE_VFPCIADDR (vf_addr_text addr) = Err e)
      ∧ (0 ≤ vfID < 2 ^ 32 →
           GetFlowActionAny RTE_FLOW_ACTION_TYPE_VFPCIADDR (vf_addr_text addr)
           = wrap "error marshalling into ptypes.Any: %v" (any_New "RteFlowActionVf" (vf_with_id vfID)))
  | Err _ => ∃ e, GetFlowActionAny RTE_FLOW_ACTION_TYPE_VFPCIADDR (vf_addr_text addr) = Err e
  | Panic => GetFlowActionAny RTE_FLOW_ACTION_TYPE_VFPCIADDR (vf_addr_text addr) = Panic
  end.
Proof.
  intros Ha. destruct (GetVFID addr) as [vfID|e|] eqn:Hvf; [split; [|by apply GetFlowActionAny_vf]|..].
  all: change (GetFlowActionAny RTE_FLOW_ACTION_TYPE_VFPCIADDR (vf_addr_text addr))
    with (handleActionVfPciAddr (vf_addr_text addr) false).
  all: unfold handleActionVfPciAddr; rewrite Unmarshal_vf_addr by done; cbn [wrap mbind outcome_bind negb].
  all: change (str_field "addr" [("addr"%string, GStr addr)]) with addr; rewrite Hvf.
  - intros ->. by eexists.
  - by eexists.
  - done.
Qed.

(** One VF at the address used below, with index 7. *)
Definition one_vf : SriovUtils := {|
  GetPfName pci := Err (Errorf "the PF name is not found for device %s");
  GetVFID pci := if String.eqb pci "0000:18:01.7" then Ok 7 else Ok (-1);
|}.

Lemma GetFlowActionAny_vf_address_witness :
  @GetFlowActionAny AnyModel one_vf RTE_FLOW_ACTION_TYPE_VFPCIADDR (vf_addr_text "0000:18:01.7")
  = any_New "RteFlowActionVf" (vf_with_id 7).
Proof.
  apply (proj2 (@GetFlowActionAny_vf_address AnyModel one_vf "0000:18:01.7" eq_refl)).
  split; [done|reflexivity].
Defined.

(** The Go text of the mutual recursion: [handleActionVfPciAddr] ends in a call of
    [GetFlowActionAny] for the VF type. *)
Lemma handleActionVfPciAddr_recursion `{!AnyCodec} `{!SriovUtils} b :
  handleActionVfPciAddr b true
  = (v ← wrap "error unmarshalling bytes %s to ptypes.Any: %v"
           (Unmarshal schema "RteFlowActionVfPciAddr" b);
     if pci_MatchString (str_field "addr" v)
     then GetFlowActionAny "RTE_FLOW_ACTION_TYPE_VF" (vf_id_text 0)
     else Err (Errorf "error unable to handle VF PCI address - please verify its correctness")).
Proof. reflexivity. Qed.

(** Packing an action never panics by itself: only the look-up of the VF could. *)
Lemma GetFlowActionAny_no_panic `{!AnyCodec} `{!AnyCodecLaws _} `{!SriovUtils} actionType b :
  (∀ pci, GetVFID pci ≠ Panic) → GetFlowActionAny actionType b ≠ Panic.
Proof.
  intros Hvf.
  assert (Hknown : ∀ ty b, known_action_any ty b ≠ Panic).
  { intros ty b'. unfold known_action_any. destruct (GetFlowActionObj ty); [|done].
    rewrite bind_panic, wrap_panic. intros [Hp|(v & _ & Hp%wrap_panic)];
      [by apply Unmarshal_no_panic in Hp|by apply any_New_total in Hp]. }
  unfold GetFlowActionAny, handleActionVfPciAddr.
  destruct (RteFlowActionType_value actionType); [apply Hknown|].
  destruct (String.eqb _ _); [|done]. rewrite bind_panic, wrap_panic.
  intros [Hp|(v & _ & Hp)]; [by apply Unmarshal_no_panic in Hp|]. cbn [negb] in Hp.
  destruct (GetVFID (str_field "addr" v)) eqn:E; try done; [|by apply Hvf in E].
  destruct (_ =? _); [done|]. by apply Hknown in Hp.
Qed.
