(* ===== verification/Sriov.v ===== *)
(** * SR-IOV look-ups

    pkg/flowconfig/sriovutils/sriovutils.go: the name of the physical function of a virtual
    function, and the index of a virtual function, both read from sysfs. The theorems say
    what the look-ups answer on the directory the kernel shows for a physical function, and
    compose them with the actions that name a virtual function by its PCI address. *)

From S2P Require Import Prelude GoStrings GoPath GoJsonDecode Utils FlowApi AnyModel FlowItems FlowItemsSpec.

Local Open Scope Z_scope.

(** ** Code outside the repository: packages os and path/filepath on sysfs *)

Class Sysfs : Type := {
  (** the names of the entries of a directory, sorted *)
  os_ReadDir : string → outcome (list string);
  (** the mode of a file, links not followed *)
  os_Lstat : string → outcome Z;
  os_IsNotExist : error → bool;
  filepath_Glob : string → outcome (list string);
  filepath_EvalSymlinks : string → outcome string;
}.

Definition sysBusPci : string := "/bus/pci/devices".

Section sriovutils.
Context `{!Sysfs}.
Variable SysFs : string.

Definition sysfs_GetPfName (pciAddr : string) : outcome string :=
  let path := filepath_Join [SysFs; sysBusPci; pciAddr; "physfn"; "net"]%string in
  files ← wrap "error getting PF name for device %s: %v" (os_ReadDir path);
  match files with
  | file :: _ => Ok file
  | [] => Err (Errorf "the PF name is not found for device %s")
  end.

(** The loop over the VF directories; only their number matters. *)
Fixpoint find_vf (pfDir pciAddr : string) (vfID : Z) (vfDirs : list string) : outcome Z :=
  match vfDirs with
  | [] => Ok (-1)
  | _ :: vfDirs =>
      let dirN := pfDir +:+ "/virtfn" +:+ FormatInt vfID in
      match os_Lstat dirN with
      | Ok mode =>
          if negb (Z.land mode ModeSymlink =? 0) then
            match filepath_EvalSymlinks dirN with
            | Ok linkName =>
                if Contains linkName pciAddr then Ok vfID else find_vf pfDir pciAddr (vfID + 1) vfDirs
            | Err _ => find_vf pfDir pciAddr (vfID + 1) vfDirs
            | Panic => Panic
            end
          else find_vf pfDir pciAddr (vfID + 1) vfDirs
      | Err _ => find_vf pfDir pciAddr (vfID + 1) vfDirs
      | Panic => Panic
      end
  end.

Definition sysfs_GetVFID (pciAddr : string) : outcome Z :=
  let pfDir := filepath_Join [SysFs; sysBusPci; pciAddr; "physfn"]%string in
  match os_Lstat pfDir with
  | Panic => Panic
  | Err err =>
      if os_IsNotExist err then Ok (-1)
      else Err (Wrapf "could not get PF directory information for VF device: %s, Err: %v" err)
  | Ok _ =>
      vfDirs ← wrap "error reading VF directories %v" (filepath_Glob (filepath_Join [pfDir; "virtfn*"]%string));
      find_vf pfDir pciAddr 0 vfDirs
  end.

(** [GetSriovUtils(sysFs)] *)
Definition GetSriovUtils : SriovUtils := {| GetPfName := sysfs_GetPfName; GetVFID := sysfs_GetVFID |}.
End sriovutils.

(** ** Substrings of paths *)

Lemma prefix_slash x s b :
  no_slash x = true → String.prefix x (s +:+ String slash b) = String.prefix x s.
Proof.
  revert s. induction x as [|c x IH]; intros s Hx; [by destruct s|].
  simpl in Hx. apply andb_prop in Hx as [Hc Hx]. destruct s as [|d s].
  - change ("" +:+ String slash b) with (String slash b). cbn.
    destruct (ascii_dec c slash) as [->|]; [by rewrite Ascii.eqb_refl in Hc|done].
  - rewrite str_app_String. cbn. destruct (ascii_dec c d); [by apply IH|done].
Qed.

Lemma Contains_slash a b x :
  no_slash x = true → x ≠ ""%string →
  Contains (a +:+ String slash b) x = Contains a x || Contains b x.
Proof.
  intros Hx Hne. assert (Hnil : String.prefix x "" = false) by (destruct x; done).
  induction a as [|c a IH].
  - cbn [Contains]. rewrite Hnil. change ("" +:+ String slash b) with (String slash b). cbn [Contains].
    pose proof (prefix_slash x "" b Hx) as Hp. change ("" +:+ String slash b) with (String slash b) in Hp.
    by rewrite Hp, Hnil.
  - rewrite str_app_String. cbn [Contains]. rewrite IH, orb_assoc. do 2 f_equal.
    rewrite <- str_app_String. by apply prefix_slash.
Qed.

Lemma prefix_length x s : String.prefix x s = true → (String.length x ≤ String.length s)%nat.
Proof.
  revert s. induction x as [|c x IH]; intros [|d s]; cbn; try lia; try done.
  destruct (ascii_dec c d); [|done]. intros H. specialize (IH _ H). lia.
Qed.

Lemma Contains_length s x : Contains s x = true → (String.length x ≤ String.length s)%nat.
Proof.
  induction s as [|c s IH]; cbn [Contains].
  - rewrite orb_false_r. apply prefix_length.
  - intros [H|H]%orb_true_iff; [by apply prefix_length|]. specialize (IH H). cbn. lia.
Qed.

Lemma prefix_same_length x s :
  String.length x = String.length s → String.prefix x s = true → x = s.
Proof.
  revert s. induction x as [|c x IH]; intros [|d s]; cbn; try done.
  intros [= Hl]. destruct (ascii_dec c d) as [->|]; [|done]. intros H. f_equal. by apply IH.
Qed.

Lemma Contains_same_length s x :
  String.length x = String.length s → Contains s x = true ↔ s = x.
Proof.
  intros Hl. split.
  - destruct s as [|c s]; cbn [Contains]; intros [H|H]%orb_true_iff; try done.
    + by apply prefix_same_length in H.
    + by apply prefix_same_length in H.
    + apply Contains_length in H. cbn in Hl. lia.
  - intros <-. assert (String.prefix s s = true) as Hp.
    { clear. induction s as [|c s IH]; cbn; [done|]. by destruct (ascii_dec c c). }
    destruct s; cbn [Contains]; by rewrite Hp.
Qed.

(** ** The directory of a physical function *)

Definition physfn (SysFs pciAddr : string) : string := filepath_Join [SysFs; sysBusPci; pciAddr; "physfn"]%string.
Definition virtfn (SysFs pciAddr : string) (i : nat) : string :=
  physfn SysFs pciAddr +:+ "/virtfn" +:+ FormatInt (Z.of_nat i).

(** A device whose physical function lies in directory [base] and has the virtual functions
    [vfs]: the kernel numbers them from 0, and [virtfn<i>] links to the directory of the
    device with the address of VF [i]. *)
Record physfn_shown `{!Sysfs} (SysFs pciAddr base : string) (vfs : list string) : Prop := {
  physfn_present : ∃ mode, os_Lstat (physfn SysFs pciAddr) = Ok mode;
  virtfn_listed : ∃ dirs, filepath_Glob (filepath_Join [physfn SysFs pciAddr; "virtfn*"]%string) = Ok dirs
                          ∧ length dirs = length vfs;
  virtfn_links i a : vfs !! i = Some a →
    ∃ mode, os_Lstat (virtfn SysFs pciAddr i) = Ok mode ∧ Z.land mode ModeSymlink ≠ 0
            ∧ filepath_EvalSymlinks (virtfn SysFs pciAddr i) = Ok (base +:+ String slash a);
}.

(** Addresses in full, with domain, bus, device and function: 0000:18:01.7. *)
Definition full_address (a : string) : Prop := no_slash a = true ∧ String.length a = 12%nat.

(** The position of the first occurrence, or [-1]. *)
Definition index_of (a : string) (l : list string) : Z :=
  match list_find (a =.) l with Some (i, _) => Z.of_nat i | None => -1 end.

Section directory.
Context `{!Sysfs} (SysFs pciAddr base : string) (vfs : list string).
Hypothesis shown : physfn_shown SysFs pciAddr base vfs.
Hypothesis full : Forall full_address vfs.
Hypothesis full_pci : full_address pciAddr.
Hypothesis base_other : Contains base pciAddr = false.

(** The link of a VF contains the address exactly when it is the VF's own. *)
Lemma link_contains a : a ∈ vfs → Contains (base +:+ String slash a) pciAddr = bool_decide (pciAddr = a).
Proof.
  intros Ha. destruct full_pci as [Hs Hl]. rewrite Forall_forall in full. destruct (full a Ha) as [_ Hla].
  rewrite Contains_slash, base_other; [|done|by intros ->]. cbn [orb].
  apply eq_bool_prop_intro. rewrite !Is_true_true, bool_decide_eq_true.
  rewrite Contains_same_length by congruence. done.
Qed.

Lemma find_vf_index dirs k rest :
  vfs = firstn k vfs ++ rest → (k ≤ length vfs)%nat → length dirs = length rest →
  find_vf (physfn SysFs pciAddr) pciAddr (Z.of_nat k) dirs
  = Ok (match list_find (pciAddr =.) rest with Some (i, _) => Z.of_nat (k + i) | None => -1 end).
Proof.
  revert k rest. induction dirs as [|d dirs IH]; intros k [|a rest] Hvfs Hk Hlen; try done.
  assert (Hi : vfs !! k = Some a).
  { rewrite Hvfs, lookup_app_r; rewrite length_take; [|lia]. by replace (k - _)%nat with 0%nat by lia. }
  destruct (virtfn_links _ _ _ _ shown k a Hi) as (mode & Hm & Hlink & Heval).
  cbn [find_vf list_find]. unfold virtfn in *. rewrite Hm, (proj2 (Z.eqb_neq _ 0) Hlink), Heval. cbn [negb].
  rewrite link_contains by (by eapply list_elem_of_lookup_2).
  case_bool_decide as Ha; [rewrite decide_True by done; by rewrite Nat.add_0_r|rewrite decide_False by done].
  replace (Z.of_nat k + 1) with (Z.of_nat (S k)) by lia.
  assert (Hk' : (k < length vfs)%nat) by (by apply lookup_lt_is_Some; eexists).
  rewrite (IH (S k) rest); [|by rewrite (take_S_r _ _ _ Hi), <- app_assoc|lia|by injection Hlen].
  destruct (list_find (pciAddr =.) rest) as [[i y]|]; cbn; [|done]. do 2 f_equal. lia.
Qed.

Lemma GetVFID_index : sysfs_GetVFID SysFs pciAddr = Ok (index_of pciAddr vfs).
Proof.
  destruct (physfn_present _ _ _ _ shown) as [mode Hmode].
  destruct (virtfn_listed _ _ _ _ shown) as (dirs & Hglob & Hlen).
  unfold sysfs_GetVFID. fold (physfn SysFs pciAddr). rewrite Hmode, Hglob. cbn [wrap mbind outcome_bind].
  apply (find_vf_index dirs 0 vfs); [done|lia|done].
Qed.
End directory.

Lemma index_of_Some a l i :
  l !! i = Some a → (∀ j, (j < i)%nat → l !! j ≠ Some a) → index_of a l = Z.of_nat i.
Proof.
  intros Hi Hfirst. unfold index_of.
  rewrite (proj2 (list_find_Some (a =.) l i a)); [done|]. split_and!; [done..|].
  intros j y Hj Hlt <-. by apply (Hfirst j).
Qed.

Lemma index_of_None a l : a ∉ l → index_of a l = -1.
Proof.
  intros Ha. unfold index_of. rewrite (proj2 (list_find_None (a =.) l)); [done|].
  apply Forall_forall. intros x Hx <-. done.
Qed.

(** The index of a virtual function: [-1] when the device has no physical function, and
    otherwise, in the directory of its physical function, the position of its address among
    the virtual functions, [-1] when it is not one of them. The test by substring makes no
    mistake there, as long as the address is complete and is not part of the path of the
    physical function. *)
Theorem GetVFID_spec `{!Sysfs} SysFs pciAddr :
  (∀ err, os_Lstat (physfn SysFs pciAddr) = Err err → os_IsNotExist err = true →
     sysfs_GetVFID SysFs pciAddr = Ok (-1))
  ∧ ∀ base vfs,
     physfn_shown SysFs pciAddr base vfs → Forall full_address vfs → full_address pciAddr →
     Contains base pciAddr = false → sysfs_GetVFID SysFs pciAddr = Ok (index_of pciAddr vfs).
Proof.
  split; [|by apply GetVFID_index]. intros err Hl He.
  unfold sysfs_GetVFID. fold (physfn SysFs pciAddr). by rewrite Hl, He.
Qed.

(** C24 A VF action by PCI address, from its text to the message for the device, with the
    look-up as implemented: on a node whose sysfs shows the physical function, the action
    selects the VF at that address, by its number, and an address that is not the address
    of one of its VFs is refused. *)
Theorem vf_address_selects_vf `{!AnyCodec} `{!Sysfs} SysFs addr base vfs :
  physfn_shown SysFs addr base vfs → Forall full_address vfs → full_address addr →
  Contains base addr = false → is_ascii addr = true → Z.of_nat (length vfs) ≤ 2 ^ 32 →
  let action := @GetFlowActionAny _ (GetSriovUtils SysFs) RTE_FLOW_ACTION_TYPE_VFPCIADDR (vf_addr_text addr) in
  (∀ i, vfs !! i = Some addr → (∀ j, (j < i)%nat → vfs !! j ≠ Some addr) →
     action = wrap "error marshalling into ptypes.Any: %v" (any_New "RteFlowActionVf" (vf_with_id (Z.of_nat i))))
  ∧ (addr ∉ vfs → ∃ e, action = Err e).
Proof.
  intros Hshown Hfull Haddr Hbase Hascii Hlen action.
  assert (Hvf : @GetVFID (GetSriovUtils SysFs) addr = Ok (index_of addr vfs)) by (by eapply GetVFID_index).
  split.
  - intros i Hi Hfirst. rewrite (index_of_Some addr vfs i) in Hvf by done.
    apply lookup_lt_Some in Hi. apply GetFlowActionAny_vf; [done..|lia].
  - intros Hnot. rewrite index_of_None in Hvf by done. by apply GetFlowActionAny_vf_missing.
Qed.

(** A node with one physical function that has three VFs. *)
Definition node_vfs : list string := ["0000:18:01.0"; "0000:18:01.1"; "0000:18:01.2"]%string.
Definition node_base : string := "/sys/devices/pci0000:17/0000:17:02.0".

(** Which of the paths below /sys/bus/pci/devices/<addr>/physfn is meant. *)
Definition node_link (path : string) : option string :=
  snd <$> head (List.filter (λ '(p, _), String.eqb path p)
    (addr ← node_vfs;
     (physfn "/sys" addr, "/sys/devices/pci0000:17/0000:17:02.0/0000:18:00.0"%string)
     :: imap (λ i vf, (virtfn "/sys" addr i, node_base +:+ String slash vf)) node_vfs)).

Definition node_sysfs : Sysfs := {|
  os_ReadDir path := Ok (if HasSuffix path "/physfn/net" then ["ens801f0"%string] else []);
  os_Lstat path := if node_link path then Ok (Z.lor ModeSymlink 511) else Err (ExtError "no such file or directory");
  os_IsNotExist err := bool_decide (err = ExtError "no such file or directory");
  filepath_Glob pattern := Ok node_vfs;
  filepath_EvalSymlinks path :=
    match node_link path with Some target => Ok target | None => Err (ExtError "no such file or directory") end;
|}.

Lemma node_shown addr : addr ∈ node_vfs → @physfn_shown node_sysfs "/sys" addr node_base node_vfs.
Proof.
  intros Haddr. apply list_elem_of_In in Haddr. split.
  - exists (Z.lor ModeSymlink 511). repeat destruct Haddr as [<-|Haddr]; try reflexivity. done.
  - by exists node_vfs.
  - intros i vf Hi. exists (Z.lor ModeSymlink 511).
    repeat destruct Haddr as [<-|Haddr]; try done.
    all: destruct i as [|[|[|i]]]; [..|done]; injection Hi as <-; by split_and!.
Qed.

Lemma node_full : Forall full_address node_vfs.
Proof. by repeat constructor. Qed.

Example node_pf_name : @sysfs_GetPfName node_sysfs "/sys" "0000:18:01.2" = Ok "ens801f0"%string.
Proof. reflexivity. Qed.

(** The node does not know the address in capital letters that the webhook accepts. *)
Example node_other_device : @sysfs_GetVFID node_sysfs "/sys" "0000:AB:01.2" = Ok (-1).
Proof. vm_compute. reflexivity. Qed.

Lemma GetVFID_spec_witness : @sysfs_GetVFID node_sysfs "/sys" "0000:18:01.2" = Ok 2.
Proof.
  apply (proj2 (@GetVFID_spec node_sysfs "/sys" "0000:18:01.2") node_base node_vfs);
    [apply node_shown; by repeat constructor|apply node_full|done|reflexivity].
Defined.

Lemma vf_address_selects_vf_witness :
  @GetFlowActionAny AnyModel (@GetSriovUtils node_sysfs "/sys") RTE_FLOW_ACTION_TYPE_VFPCIADDR
    (vf_addr_text "0000:18:01.1") = any_New "RteFlowActionVf" (vf_with_id 1).
Proof.
  apply (proj1 (@vf_address_selects_vf AnyModel node_sysfs "/sys" "0000:18:01.1" node_base node_vfs
    ltac:(apply node_shown; by repeat constructor) node_full ltac:(done) eq_refl eq_refl ltac:(done)) 1%nat).
  - done.
  - intros [|j] Hj; [done|lia].
Defined.
