(* ===== verification/FlowTyping.v ===== *)
(** * Types of the packed messages

    What decoding stores in a field is a value of the field's Go type: a number within its
    width, a text, the bytes, a pointer to such a struct or nil. So every message packed for
    an item or an action is a value of the message's type. *)

From S2P Require Import Prelude GoStrings GoNet GoJson GoJsonDecode FlowEnums FlowApi AnyModel FlowItems FlowItemsSpec.

Local Open Scope Z_scope.

Section typing.
Variable sch : string → struct_type.

(** A value of a Go type; a struct has the fields of its type, in their order. *)
Inductive has_type : gval → ftype → Prop :=
  | ty_uint32 n : 0 ≤ n < 2 ^ 32 → has_type (GNum n) TUint32
  | ty_int32 n : - 2 ^ 31 ≤ n < 2 ^ 31 → has_type (GNum n) TInt32
  | ty_uint64 n : 0 ≤ n < 2 ^ 64 → has_type (GNum n) TUint64
  | ty_string s : has_type (GStr s) TString
  | ty_bytes s : has_type (GBytes s) TBytes
  | ty_nil name : has_type GNil (TPtr name)
  | ty_struct name v :
      Forall2 (λ (x : string * gval) (f : string * ftype), x.1 = f.1 ∧ has_type x.2 f.2) v (sch name) →
      has_type (GMsg v) (TPtr name)
  | ty_slice l e : Forall (λ x, has_type x e) l → has_type (GSlice l) (TSlice e).

(** A struct of a named type. *)
Definition struct_typed (v : struct_val) (fs : struct_type) : Prop :=
  Forall2 (λ (x : string * gval) (f : string * ftype), x.1 = f.1 ∧ has_type x.2 f.2) v fs.

Lemma has_type_GMsg name v : has_type (GMsg v) (TPtr name) ↔ struct_typed v (sch name).
Proof. split; [by inversion 1|apply ty_struct]. Qed.

(** ** Zero values and fields *)

Lemma zero_typed t : has_type (zero_val t) t.
Proof. destruct t; constructor; try lia; constructor. Qed.

Lemma zero_struct_typed fs : struct_typed (zero_struct fs) fs.
Proof.
  unfold zero_struct. induction fs as [|[f t] fs IH]; constructor; [|done]. split; [done|apply zero_typed].
Qed.

(** The type of the first field of a name. *)
Definition field_type (f : string) (fs : struct_type) : option ftype := snd <$> GoJsonDecode.find_name (String.eqb f) fs.

Lemma get_field_typed f t v fs : struct_typed v fs → field_type f fs = Some t → has_type (get_field f v) t.
Proof.
  unfold field_type, GoJsonDecode.find_name. induction 1 as [|[g x] [g' t'] v fs [Hg Hx] Hv IH]; [done|]. cbn in *. subst g'.
  destruct (String.eqb f g); cbn; [by intros [= <-]|exact IH].
Qed.

Lemma set_field_typed f t x v fs :
  struct_typed v fs → field_type f fs = Some t → has_type x t → struct_typed (set_field f x v) fs.
Proof.
  intros Hv Hf Hx. revert Hf. unfold field_type, GoJsonDecode.find_name.
  induction Hv as [|[g y] [g' t'] v fs [Hg Hy] Hv IH]; [done|]. cbn in *. subst g'.
  destruct (String.eqb_spec f g) as [->|]; cbn; [by intros [= ->]; constructor|].
  intros Hf. constructor; [done|by apply IH].
Qed.

(** A key that is found belongs to the first field of the name. *)
Lemma find_field_type fs key f t : find_field fs key = Some (f, t) → field_type f fs = Some t.
Proof.
  unfold find_field, field_type, GoJsonDecode.find_name.
  destruct (List.find _ fs) as [[f0 t0]|] eqn:He.
  - intros [= -> ->]. assert (key = f) as ->.
    { apply List.find_some in He as [_ He]. by apply String.eqb_eq in He. }
    by rewrite He.
  - clear He. induction fs as [|[g u] fs IH]; [done|]. cbn.
    destruct (String.eqb_spec (fold_name key) (fold_name g)) as [Hfold|Hfold].
    + intros [= -> ->]. by rewrite String.eqb_refl.
    + intros Hf. destruct (String.eqb_spec f g) as [->|]; [|by apply IH].
      apply List.find_some in Hf as [_ Hf]. apply String.eqb_eq in Hf. done.
Qed.

(** ** Numbers *)

Lemma digit_val_nonneg c d : digit_val c = Some d → 0 ≤ d.
Proof.
  unfold digit_val, byte_in. repeat case_match; intros [= <-]; bool_to_prop; lia.
Qed.

Lemma parse_digits_nonneg base s acc v : 0 ≤ base → 0 ≤ acc → parse_digits base s acc = Some v → 0 ≤ v.
Proof.
  intros Hb. revert acc. induction s as [|c s IH]; intros acc Ha; cbn; [by intros [= <-]|].
  destruct (digit_val c) as [d|] eqn:Hd; [|done]. apply digit_val_nonneg in Hd.
  destruct (d <? base); [|done]. apply IH. nia.
Qed.

Lemma ParseUint_range s base bits n : 0 ≤ base → ParseUint s base bits = Ok n → 0 ≤ n < 2 ^ bits.
Proof.
  intros Hb. unfold ParseUint. destruct (String.eqb s ""); [done|].
  destruct (parse_digits base s 0) as [v|] eqn:Hp; [|done]. apply parse_digits_nonneg in Hp; [|lia..].
  destruct (Z.ltb_spec v (2 ^ bits)); [|done]. by intros [= <-].
Qed.

Lemma ParseInt_range s base bits n :
  0 ≤ base → 0 < bits → ParseInt s base bits = Ok n → - 2 ^ (bits - 1) ≤ n < 2 ^ (bits - 1).
Proof.
  intros Hb Hbits. pose proof (Z.pow_pos_nonneg 2 (bits - 1)). unfold ParseInt. destruct (expect "-" s) as [r|].
  - intros (v & Hv%ParseUint_range & Hn)%outcome_bind_Ok; [|done].
    destruct (Z.leb_spec v (2 ^ (bits - 1))); [|done]. injection Hn as <-. lia.
  - intros (v & Hv%ParseUint_range & Hn)%outcome_bind_Ok; [|done].
    destruct (Z.ltb_spec v (2 ^ (bits - 1))); [|done]. injection Hn as <-. lia.
Qed.

(** ** Decoding *)

Lemma fields_or_new_typed name cur : has_type cur (TPtr name) → struct_typed (fields_or_new sch name cur) (sch name).
Proof. inversion 1; subst; [apply zero_struct_typed|done]. Qed.

(** Whatever is decoded into a location of a type is of that type. *)
Lemma decode_typed strict j : ∀ t cur v,
  has_type cur t → decode sch strict t j cur = Ok v → has_type v t.
Proof.
  induction j as [|b|lit|s|l IH|l IH] using json_nested_ind; intros t cur v Hcur; cbn [decode]; try done.
  - intros [= <-]. destruct t; try done; constructor; constructor.
  - destruct t; try done; intros (n & Hn & ->)%fmap_Ok; constructor;
      [by eapply ParseUint_range in Hn|by eapply ParseInt_range in Hn|by eapply ParseUint_range in Hn].
  - destruct t; try done; [intros [= <-]; constructor|]. case_match; [|done]. intros [= <-]. constructor.
  - destruct t as [| | | | |n|e]; try done.
    + intros (s & _ & ->)%fmap_Ok. constructor.
    + intros (xs & Hxs & ->)%fmap_Ok. constructor. revert xs Hxs.
      induction IH as [|j l Hj Hl IHl]; intros xs; [intros [= <-]; constructor|].
      intros (x & Hx & Hxs)%outcome_bind_Ok. apply outcome_bind_Ok in Hxs as (ys & Hys & [= <-]).
      constructor; [|by apply IHl]. eapply Hj; [apply zero_typed|exact Hx].
  - destruct t as [| | | | |n|e]; try done. intros (fs & Hfs & ->)%fmap_Ok. constructor.
    apply fields_or_new_typed in Hcur. revert Hcur Hfs. generalize (fields_or_new sch n cur).
    induction IH as [|[k j] l Hj Hl IHl]; intros w Hw; [by intros [= <-]|].
    destruct (find_field (sch n) k) as [[f ft]|] eqn:Hf.
    + apply find_field_type in Hf. intros (x & Hx & Hfs)%outcome_bind_Ok. eapply IHl; [|exact Hfs].
      eapply set_field_typed; [done..|]. eapply Hj; [|exact Hx]. by eapply get_field_typed.
    + destruct strict; [done|]. by apply IHl.
Qed.

Lemma decode_struct_typed strict name j v : decode_struct sch strict name j = Ok v → struct_typed v (sch name).
Proof.
  assert (Hdec : fields_or_new sch name <$> decode sch strict (TPtr name) j GNil = Ok v → struct_typed v (sch name)).
  { intros (x & Hx & ->)%fmap_Ok. apply fields_or_new_typed. eapply decode_typed; [|exact Hx]. constructor. }
  unfold decode_struct. by destruct j.
Qed.

Lemma Unmarshal_typed name b v : Unmarshal sch name b = Ok v → struct_typed v (sch name).
Proof. intros (j & _ & Hj)%outcome_bind_Ok. by eapply decode_struct_typed. Qed.

Lemma DecodeStrict_typed name b v : DecodeStrict sch name b = Ok (Some v) → struct_typed v (sch name).
Proof.
  intros (j & _ & Hj)%outcome_bind_Ok.
  destruct j; try done; apply fmap_Ok in Hj as (x & Hx & [= ->]); by eapply decode_struct_typed.
Qed.
End typing.

(** ** Addresses *)

Notation bytes := (Forall (λ b : Z, 0 ≤ b < 256)).

Lemma dotted_byte_range s n : dotted_byte s = Some n → 0 ≤ n < 256.
Proof.
  unfold dotted_byte. destruct (_ || _); [done|]. intros (v & Hv & Hn)%bind_Some.
  apply parse_digits_nonneg in Hv; [|lia..]. destruct (Z.leb_spec v 255); [|done]. injection Hn as <-. lia.
Qed.

Lemma parse_dotted_bytes s l : parse_dotted s = Some l → bytes l.
Proof.
  unfold parse_dotted. destruct (Split s ".") as [|a [|b [|c [|d [|]]]]]; try done.
  intros H. repeat (apply bind_Some in H as (? & ?%dotted_byte_range & H)). simplify_eq.
  by rewrite !Forall_cons, Forall_nil.
Qed.

Lemma v6_groups_bytes room : ∀ s acc ell acc' ell',
  v6_groups room s acc ell = Some (acc', ell') → bytes acc → bytes acc'.
Proof.
  induction room as [|room IH]; intros s acc ell acc' ell'; cbn [v6_groups]; [case_match; naive_solver|].
  destruct (span_hex s) as [h rest]. destruct (String.eqb h ""); [done|].
  intros (n & Hn & Hrun)%bind_Some. apply parse_digits_nonneg in Hn; [|lia..].
  destruct (Z.ltb_spec 65535 n); [done|]. intros Hacc.
  assert (Hgroup : bytes (acc ++ [n / 256; n mod 256])).
  { apply Forall_app. split; [done|]. pose proof (Z.mod_pos_bound n 256).
    assert (n / 256 < 256) by (apply Z.div_lt_upper_bound; lia).
    assert (0 ≤ n / 256) by (apply Z.div_pos; lia). rewrite !Forall_cons, Forall_nil. lia. }
  destruct (HasPrefix rest ".").
  { destruct (_ && _)%bool; [done|]. destruct (_ <? _)%nat; [done|].
    apply bind_Some in Hrun as (b & Hb%parse_dotted_bytes & [= <- <-]). by apply Forall_app. }
  destruct rest as [|c rest]; [by simplify_eq|].
  repeat case_match; try done; simplify_eq; try done; by eapply IH.
Qed.

Lemma parseIPv6_bytes s ip : parseIPv6 s = Some ip → bytes ip.
Proof.
  unfold parseIPv6. destruct (if HasPrefix s "::" then _ else _) as [s' ell].
  destruct (_ && _)%bool; [intros [= <-]; by apply (Forall_replicate _ 16%nat 0)|].
  intros ([acc ell'] & Hg & Hr)%bind_Some. apply v6_groups_bytes in Hg; [|constructor].
  destruct (_ <? _)%nat; destruct ell' as [e|]; simplify_eq; try done.
  repeat (apply Forall_app; split); [by apply Forall_take|by apply Forall_replicate|by apply Forall_drop].
Qed.

Lemma ParseIP_bytes s ip : ParseIP s = Some ip → bytes ip.
Proof.
  unfold ParseIP. generalize s at 1. induction s as [|c s IH]; intros orig; simpl; [done|].
  case_match; [|case_match; [apply parseIPv6_bytes|apply IH]].
  unfold parseIPv4, v4_in_v6. intros (b & Hb%parse_dotted_bytes & ->)%fmap_Some.
  by repeat (apply Forall_cons; split; [lia|]).
Qed.

Lemma BigEndian_Uint32_range b n : bytes b → BigEndian_Uint32 b = Ok n → 0 ≤ n < 2 ^ 32.
Proof.
  destruct b as [|b0 [|b1 [|b2 [|b3 l]]]]; try done. rewrite !Forall_cons.
  intros (H0 & H1 & H2 & H3 & _). rewrite BigEndian_Uint32_bytes by done. intros [= <-]. lia.
Qed.

Lemma parse_ip_field_range s n : parse_ip_field s = Ok n → 0 ≤ n < 2 ^ 32.
Proof.
  unfold parse_ip_field. destruct (String.eqb s ""); [intros [= <-]; lia|].
  destruct (ParseIP s) as [ip|] eqn:Hip; [|done]. apply ParseIP_bytes in Hip. unfold ipToUint32.
  destruct (_ =? _)%nat; [by apply BigEndian_Uint32_range, Forall_take, Forall_drop|].
  destruct (_ <? _)%nat; [intros [= <-]; lia|]. by apply BigEndian_Uint32_range.
Qed.

(** ** The two items with their own JSON form *)

Notation typed v name := (struct_typed schema v (schema name)).

Lemma num_field_typed f v fs : struct_typed schema v fs → field_type f fs = Some TUint32 → 0 ≤ num_field f v < 2 ^ 32.
Proof. intros Hv Hf. pose proof (get_field_typed _ _ _ _ _ Hv Hf) as Ht. unfold num_field. by inversion Ht. Qed.

Lemma ptr_val_typed {A} (to : A → struct_val) o name :
  (∀ a, o = Some a → typed (to a) name) → has_type schema (ptr_val to o) (TPtr name).
Proof. intros Hto. destruct o as [a|]; constructor. by apply Hto. Qed.

Lemma ToRteFlowItemEth_typed v m :
  typed v "Eth" → ToRteFlowItemEth (Eth_of v) = Ok m → typed (RteFlowItemEth_to m) "RteFlowItemEth".
Proof.
  intros Hv (dst & _ & (src & _ & [= <-])%outcome_bind_Ok)%outcome_bind_Ok.
  assert (Haddr : ∀ a, typed (RteEtherAddr_to a) "RteEtherAddr") by (intros a; repeat constructor).
  repeat constructor; try (by apply ptr_val_typed); cbn [eth_Type Eth_of Eth_Type]; by apply (num_field_typed _ _ _ Hv).
Qed.

Lemma ToRteFlowItemIpv4_typed v m :
  typed v "Ipv4" → ToRteFlowItemIpv4 (Ipv4_of v) = Ok m → typed (RteFlowItemIpv4_to m) "RteFlowItemIpv4".
Proof.
  intros Hv Hm. repeat constructor. apply ptr_val_typed. intros h Hh.
  assert (Hhdr : has_type schema (get_field "hdr" v) (TPtr "Ipv4Hdr")) by (by eapply get_field_typed).
  unfold ToRteFlowItemIpv4, Ipv4_of, ptr_field in Hm. cbn [Ipv4_Hdr] in Hm.
  destruct (get_field "hdr" v) as [| | | |hv|] eqn:Hf; cbn in Hm; try (injection Hm as <-; done).
  apply has_type_GMsg in Hhdr. apply outcome_bind_Ok in Hm as (src & Hsrc%parse_ip_field_range & Hm).
  apply outcome_bind_Ok in Hm as (dst & Hdst%parse_ip_field_range & [= <-]). injection Hh as <-.
  repeat constructor; cbn; try lia; by apply (num_field_typed _ _ _ Hhdr).
Qed.

(** ** What is packed *)

Section packed.
Context `{HC : !AnyCodec} `{HV : !SriovUtils}.

(** A message of a Go struct, every field of which holds a value of its type. *)
Definition packs (a : Any) (name : string) : Prop := ∃ v, any_New name v = Ok a ∧ typed v name.

Lemma known_action_packs ty b a :
  known_action_any ty b = Ok a → ∃ name, GetFlowActionObj ty = Some name ∧ packs a name.
Proof.
  unfold known_action_any. destruct (GetFlowActionObj ty) as [name|]; [|done].
  intros (v & Hv%wrap_Ok & Ha%wrap_Ok)%outcome_bind_Ok. exists name. split; [done|]. exists v.
  split; [done|]. by eapply Unmarshal_typed.
Qed.

(** C15 Every item and every action that is packed is a message of the Go struct of its type
    all of whose fields hold values of their Go types: numbers within their width,
    addresses converted, nested messages of their own types. An action given by the address
    of a VF is a message of the VF type. *)
Theorem packed_messages_typed :
  (∀ flowType b a, GetFlowItemAny flowType b = Ok a →
     ∃ ty name, RteFlowItemType_value flowType = Some ty ∧ GetFlowItemObj ty = Some name ∧ packs a name)
  ∧ (∀ actionType b a, GetFlowActionAny actionType b = Ok a →
     ∃ ty name, (RteFlowActionType_value actionType = Some ty
                 ∨ actionType = RTE_FLOW_ACTION_TYPE_VFPCIADDR ∧ ty = RTE_FLOW_ACTION_TYPE_VF)
       ∧ GetFlowActionObj ty = Some name ∧ packs a name).
Proof.
  split.
  - intros flowType b a. unfold GetFlowItemAny. destruct (RteFlowItemType_value flowType) as [ty|]; [|done].
    assert (Hplain : ∀ fmt fmt' name, (m ← wrap fmt (DecodeStrict schema name b);
              match m with None => Panic | Some v => wrap fmt' (any_New name v) end) = Ok a → packs a name).
    { intros fmt fmt' name ([v|] & Hv%wrap_Ok & Ha)%outcome_bind_Ok; [|done]. apply wrap_Ok in Ha.
      exists v. split; [done|]. by eapply DecodeStrict_typed. }
    intros Hrun. exists ty. destruct (GetFlowItemObj_total ty) as [name Hname]. exists name. split_and!; [done..|].
    rewrite Hname in Hrun. destruct ty; try (by eapply Hplain); injection Hname as <-.
    + apply outcome_bind_Ok in Hrun as ([v|] & Hv%wrap_Ok & Hrun); [|done]. apply DecodeStrict_typed in Hv.
      apply outcome_bind_Ok in Hrun as (m & Hm%wrap_Ok & Ha%wrap_Ok). exists (RteFlowItemEth_to m).
      split; [done|]. by eapply ToRteFlowItemEth_typed.
    + apply outcome_bind_Ok in Hrun as ([v|] & Hv%wrap_Ok & Hrun); [|done]. apply DecodeStrict_typed in Hv.
      apply outcome_bind_Ok in Hrun as (m & Hm%wrap_Ok & Ha%wrap_Ok). exists (RteFlowItemIpv4_to m).
      split; [done|]. by eapply ToRteFlowItemIpv4_typed.
  - intros actionType b a. unfold GetFlowActionAny.
    destruct (RteFlowActionType_value actionType) as [ty|].
    { intros (name & Hname & Ha)%known_action_packs. exists ty, name. split; [by left|done]. }
    destruct (String.eqb_spec actionType RTE_FLOW_ACTION_TYPE_VFPCIADDR) as [->|]; [|done].
    unfold handleActionVfPciAddr. intros (v & _ & Hrun)%outcome_bind_Ok. cbn [negb] in Hrun.
    destruct (GetVFID _) as [vfID|e|]; [|done..]. destruct (vfID =? -1); [done|].
    apply known_action_packs in Hrun as (name & Hname & Ha). eexists _, name. split; [by right|done].
Qed.
End packed.

(** A number that does not fit its field is refused; the largest that fits is packed. *)
Lemma packed_messages_typed_witness :
  @GetFlowItemAny AnyModel "RTE_FLOW_ITEM_TYPE_VLAN" (json_text "{'tci': 4294967296}")
    = Err (Wrapf "could not decode bytes %s to ptypes.Any %v" ErrRange)
  ∧ ∃ a, @GetFlowItemAny AnyModel "RTE_FLOW_ITEM_TYPE_VLAN" (json_text "{'tci': 4294967295}") = Ok a
    ∧ @packs AnyModel a "RteFlowItemVlan".
Proof.
  split; [vm_compute; reflexivity|].
  destruct (@GetFlowItemAny AnyModel "RTE_FLOW_ITEM_TYPE_VLAN" (json_text "{'tci': 4294967295}")) as [a| |] eqn:Ha;
    [|vm_compute in Ha; discriminate..].
  exists a. split; [done|].
  destruct (proj1 (@packed_messages_typed AnyModel one_vf) _ _ _ Ha) as (ty & name & [= <-] & [= <-] & Hpacks). exact Hpacks.
Defined.
