(* ===== verification/FlowTypes.v ===== *)
(** * The custom resources of the flow configuration

    apis/flowconfig/v1/*_types.go: the rules a user writes, as values. Pointers to structs
    and to raw JSON are options; the elements of the lists of rules, items and actions are
    values, because the resource schemas admit no null element. *)

From S2P Require Import Prelude GoStrings GoJson GoJsonDecode.

Local Open Scope Z_scope.

(** ** nodeflowconfig_types.go *)

(** [runtime.RawExtension]: the JSON text, uninterpreted. *)
Definition RawExtension : Set := string.

Record FlowAttr : Set := {
  attr_Group : Z; attr_Priority : Z; attr_Ingress : Z; attr_Egress : Z;
  attr_Transfer : Z; attr_Reserved : Z
}.

Record FlowItem : Set := {
  fi_Type : string;
  fi_Spec : option RawExtension;
  fi_Last : option RawExtension;
  fi_Mask : option RawExtension
}.

Record FlowAction : Set := { fa_Type : string; fa_Conf : option RawExtension }.

Record FlowRules : Set := {
  rule_PortId : Z;
  rule_Attr : option FlowAttr;
  rule_Pattern : list FlowItem;
  rule_Action : list FlowAction
}.

(** [PortsInformation] of the resource's status. *)
Record CrPortsInformation : Set := { pi_PortId : Z; pi_PortPci : string; pi_PortMode : string }.

Inductive SyncStatusType : Set :=
  | SyncUnset
  | SyncError
  | SyncSuccess
  | SyncProgress.

Record NodeFlowConfigSpec : Set := { nfc_Rules : list FlowRules }.

(** [PortInfo] may be a nil slice ([None]). *)
Record NodeFlowConfigStatus : Set := {
  PortInfo : option (list CrPortsInformation);
  LastRules : list FlowRules;
  SyncStatus : SyncStatusType;
  SyncMsg : string
}.

Record NodeFlowConfig : Set := {
  nfc_Name : string;
  nfc_Namespace : string;
  nfc_Spec : NodeFlowConfigSpec;
  nfc_Status : NodeFlowConfigStatus
}.

#[export] Instance FlowAttr_eq_dec : EqDecision FlowAttr.
Proof. solve_decision. Defined.
#[export] Instance FlowItem_eq_dec : EqDecision FlowItem.
Proof. solve_decision. Defined.
#[export] Instance FlowAction_eq_dec : EqDecision FlowAction.
Proof. solve_decision. Defined.
#[export] Instance FlowRules_eq_dec : EqDecision FlowRules.
Proof. solve_decision. Defined.
#[export] Instance CrPortsInformation_eq_dec : EqDecision CrPortsInformation.
Proof. solve_decision. Defined.
#[export] Instance SyncStatusType_eq_dec : EqDecision SyncStatusType.
Proof. solve_decision. Defined.

(** ** clusterflowaction_types.go *)

(** [type ClusterFlowActionType int] *)
Definition ClusterFlowActionType : Set := Z.

Definition ToPodInterface : ClusterFlowActionType := 20000.

Definition clusterFlowActionTypeName : list (ClusterFlowActionType * string) :=
  [(ToPodInterface, "to-pod-interface"%string)].

Definition clusterFlowActionTypeValue : list (string * ClusterFlowActionType) :=
  [("to-pod-interface"%string, ToPodInterface)].

Definition type_name (ct : ClusterFlowActionType) : option string :=
  snd <$> List.find (λ e, e.1 =? ct) clusterFlowActionTypeName.

Definition type_value (s : string) : option ClusterFlowActionType :=
  snd <$> List.find (λ e, String.eqb e.1 s) clusterFlowActionTypeValue.

(** [String()], and [ClusterFlowActionToString]: the empty string for an unknown type. *)
Definition ClusterFlowActionType_String (ct : ClusterFlowActionType) : string :=
  default ""%string (type_name ct).

Definition ClusterFlowActionToString (actionType : ClusterFlowActionType) : string :=
  match type_name actionType with Some s => s | None => "" end.

Definition ClusterFlowActionType_MarshalJSON (s : ClusterFlowActionType) : string :=
  String QUOTE (default ""%string (type_name s) +:+ String QUOTE "").

(** [json.Unmarshal(b, &j)] for a string [j]. *)
Definition Unmarshal_string (b : string) : outcome string :=
  j ← read_all b;
  match j with
  | JStr s => Ok s
  | JNull => Ok ""%string
  | _ => Err ErrType
  end.

Definition ClusterFlowActionType_UnmarshalJSON (b : string) : outcome ClusterFlowActionType :=
  j ← Unmarshal_string b;
  if String.eqb j "" then Err (Errorf "json unmarshalling produced an empty string")
  else match type_value j with
       | None => Err (Errorf "unsupported type string %s")
       | Some v => Ok v
       end.

Record ClusterFlowAction : Set := {
  cfa_Type : ClusterFlowActionType;
  cfa_Conf : option RawExtension
}.

(** [ToPodInterfaceConf]: one field. *)
Record ToPodInterfaceConf : Set := { NetInterfaceName : string }.

Definition ToPodInterfaceConf_fields : struct_type := [("podInterface", TString)]%string.

Definition crd_schema (name : string) : struct_type :=
  if String.eqb name "ToPodInterfaceConf" then ToPodInterfaceConf_fields else [].

(** [json.Unmarshal(raw, &ToPodInterfaceConf{})]. *)
Definition Unmarshal_ToPodInterfaceConf (raw : string) : outcome ToPodInterfaceConf :=
  v ← Unmarshal crd_schema "ToPodInterfaceConf" raw;
  Ok {| NetInterfaceName := str_field "podInterface" v |}.

(** ** clusterflowconfig_types.go *)

Record ClusterFlowRule : Set := {
  cr_Attr : option FlowAttr;
  cr_Pattern : list FlowItem;
  cr_Action : list ClusterFlowAction
}.

(** [metav1.LabelSelector]. *)
Record LabelSelectorRequirement : Set := {
  Key : string;
  Operator : string;
  Values : list string
}.

Record LabelSelector : Set := {
  MatchLabels : gmap string string;
  MatchExpressions : list LabelSelectorRequirement
}.

Record ClusterFlowConfigSpec : Set := {
  PodSelector : option LabelSelector;
  cfc_Rules : list ClusterFlowRule
}.

Record ClusterFlowConfig : Set := {
  cfc_Name : string;
  cfc_Namespace : string;
  cfc_Spec : ClusterFlowConfigSpec
}.

(** ** Properties *)

(** The JSON form of a cluster action type reads back as the type for the one type that
    exists, and is refused for every other number. *)
Theorem ClusterFlowActionType_json ct :
  ClusterFlowActionType_UnmarshalJSON (ClusterFlowActionType_MarshalJSON ct)
  = if decide (ct = ToPodInterface) then Ok ct
    else Err (Errorf "json unmarshalling produced an empty string").
Proof.
  unfold ClusterFlowActionType_MarshalJSON, type_name, clusterFlowActionTypeName.
  cbn -[Z.eqb ClusterFlowActionType_UnmarshalJSON decide].
  case_decide as Hct; [by subst|].
  by rewrite (proj2 (Z.eqb_neq ToPodInterface ct)) by congruence.
Qed.
