(* ===== verification/FlowCopies.v ===== *)
(** * Deep copies of the flow configuration resources

    apis/flowconfig/v1/zz_generated.deepcopy.go: for each type the variable in memory
    ([_mem]), the value it stands for ([_val]), and the methods DeepCopyInto, DeepCopy and
    DeepCopyObject. A field that is assigned once more after [*out = *in] is written once. *)

From S2P Require Import Prelude GoStrings FlowTypes Heap MetaTypes ResourceShapes.

Local Open Scope Z_scope.

(** ** Types without references *)

#[export] Instance FlowAttr_countable : Countable FlowAttr :=
  inj_countable' (λ v, (attr_Group v, attr_Priority v, attr_Ingress v, attr_Egress v, attr_Transfer v, attr_Reserved v))
    (λ '(x0, x1, x2, x3, x4, x5), {| attr_Group := x0; attr_Priority := x1; attr_Ingress := x2; attr_Egress := x3; attr_Transfer := x4; attr_Reserved := x5 |}) ltac:(by intros []).
#[export] Instance CrPortsInformation_countable : Countable CrPortsInformation :=
  inj_countable' (λ v, (pi_PortId v, pi_PortPci v, pi_PortMode v))
    (λ '(x0, x1, x2), {| pi_PortId := x0; pi_PortPci := x1; pi_PortMode := x2 |}) ltac:(by intros []).
#[export] Instance SyncStatusType_countable : Countable SyncStatusType :=
  inj_countable' (λ s, match s with SyncUnset => 0%nat | SyncError => 1%nat | SyncSuccess => 2%nat | SyncProgress => 3%nat end)
    (λ n, match n with 0%nat => SyncUnset | 1%nat => SyncError | 2%nat => SyncSuccess | _ => SyncProgress end)
    ltac:(by intros []).
#[export] Instance ToPodInterfaceConf_eq_dec : EqDecision ToPodInterfaceConf.
Proof. solve_decision. Defined.
#[export] Instance ToPodInterfaceConf_countable : Countable ToPodInterfaceConf :=
  inj_countable' NetInterfaceName (λ x, {| NetInterfaceName := x |}) ltac:(by intros []).

Variant ClusterFlowConfigStatus : Set := ClusterFlowConfigStatus_empty.
#[export] Instance ClusterFlowConfigStatus_eq_dec : EqDecision ClusterFlowConfigStatus.
Proof. solve_decision. Defined.
#[export] Instance ClusterFlowConfigStatus_countable : Countable ClusterFlowConfigStatus :=
  inj_countable' (λ _, ()) (λ _, ClusterFlowConfigStatus_empty) ltac:(by intros []).
Variant FlowConfigNodeAgentDeploymentStatus : Set := FlowConfigNodeAgentDeploymentStatus_empty.
#[export] Instance FlowConfigNodeAgentDeploymentStatus_eq_dec : EqDecision FlowConfigNodeAgentDeploymentStatus.
Proof. solve_decision. Defined.
#[export] Instance FlowConfigNodeAgentDeploymentStatus_countable : Countable FlowConfigNodeAgentDeploymentStatus :=
  inj_countable' (λ _, ()) (λ _, FlowConfigNodeAgentDeploymentStatus_empty) ltac:(by intros []).

#[export] Instance ClusterFlowActionType_eq_dec : EqDecision ClusterFlowActionType := Z.eq_dec.
Record FlowConfigNodeAgentDeploymentSpec : Set := { NADAnnotation : string; DCFVfPoolName : string }.
#[export] Instance FlowConfigNodeAgentDeploymentSpec_eq_dec : EqDecision FlowConfigNodeAgentDeploymentSpec.
Proof. solve_decision. Defined.
#[export] Instance FlowConfigNodeAgentDeploymentSpec_countable : Countable FlowConfigNodeAgentDeploymentSpec :=
  inj_countable' (λ v, (NADAnnotation v, DCFVfPoolName v))
    (λ '(x0, x1), {| NADAnnotation := x0; DCFVfPoolName := x1 |}) ltac:(by intros []).

Definition ClusterFlowConfigStatus_DeepCopyInto (in_ : ClusterFlowConfigStatus) : M heap ClusterFlowConfigStatus := mret in_.

#[export] Instance ClusterFlowConfigStatus_copy : DeepCopy ClusterFlowConfigStatus ClusterFlowConfigStatus :=
  {| view := λ _ v, Some v; DeepCopyInto := ClusterFlowConfigStatus_DeepCopyInto |}.
#[export] Instance ClusterFlowConfigStatus_copies : Copies ClusterFlowConfigStatus ClusterFlowConfigStatus.
Proof. by apply flat_copies. Qed.

Definition ClusterFlowConfigStatus_DeepCopy (in_ : ptr ClusterFlowConfigStatus) : M heap (ptr ClusterFlowConfigStatus) := copy_ptr in_.

Definition FlowAttr_DeepCopyInto (in_ : FlowAttr) : M heap FlowAttr := mret in_.

#[export] Instance FlowAttr_copy : DeepCopy FlowAttr FlowAttr :=
  {| view := λ _ v, Some v; DeepCopyInto := FlowAttr_DeepCopyInto |}.
#[export] Instance FlowAttr_copies : Copies FlowAttr FlowAttr.
Proof. by apply flat_copies. Qed.

Definition FlowAttr_DeepCopy (in_ : ptr FlowAttr) : M heap (ptr FlowAttr) := copy_ptr in_.

Definition FlowConfigNodeAgentDeploymentSpec_DeepCopyInto (in_ : FlowConfigNodeAgentDeploymentSpec) : M heap FlowConfigNodeAgentDeploymentSpec := mret in_.

#[export] Instance FlowConfigNodeAgentDeploymentSpec_copy : DeepCopy FlowConfigNodeAgentDeploymentSpec FlowConfigNodeAgentDeploymentSpec :=
  {| view := λ _ v, Some v; DeepCopyInto := FlowConfigNodeAgentDeploymentSpec_DeepCopyInto |}.
#[export] Instance FlowConfigNodeAgentDeploymentSpec_copies : Copies FlowConfigNodeAgentDeploymentSpec FlowConfigNodeAgentDeploymentSpec.
Proof. by apply flat_copies. Qed.

Definition FlowConfigNodeAgentDeploymentSpec_DeepCopy (in_ : ptr FlowConfigNodeAgentDeploymentSpec) : M heap (ptr FlowConfigNodeAgentDeploymentSpec) := copy_ptr in_.

Definition FlowConfigNodeAgentDeploymentStatus_DeepCopyInto (in_ : FlowConfigNodeAgentDeploymentStatus) : M heap FlowConfigNodeAgentDeploymentStatus := mret in_.

#[export] Instance FlowConfigNodeAgentDeploymentStatus_copy : DeepCopy FlowConfigNodeAgentDeploymentStatus FlowConfigNodeAgentDeploymentStatus :=
  {| view := λ _ v, Some v; DeepCopyInto := FlowConfigNodeAgentDeploymentStatus_DeepCopyInto |}.
#[export] Instance FlowConfigNodeAgentDeploymentStatus_copies : Copies FlowConfigNodeAgentDeploymentStatus FlowConfigNodeAgentDeploymentStatus.
Proof. by apply flat_copies. Qed.

Definition FlowConfigNodeAgentDeploymentStatus_DeepCopy (in_ : ptr FlowConfigNodeAgentDeploymentStatus) : M heap (ptr FlowConfigNodeAgentDeploymentStatus) := copy_ptr in_.

Definition PortsInformation_DeepCopyInto (in_ : CrPortsInformation) : M heap CrPortsInformation := mret in_.

#[export] Instance PortsInformation_copy : DeepCopy CrPortsInformation CrPortsInformation :=
  {| view := λ _ v, Some v; DeepCopyInto := PortsInformation_DeepCopyInto |}.
#[export] Instance PortsInformation_copies : Copies CrPortsInformation CrPortsInformation.
Proof. by apply flat_copies. Qed.

Definition PortsInformation_DeepCopy (in_ : ptr CrPortsInformation) : M heap (ptr CrPortsInformation) := copy_ptr in_.

Definition ToPodInterfaceConf_DeepCopyInto (in_ : ToPodInterfaceConf) : M heap ToPodInterfaceConf := mret in_.

#[export] Instance ToPodInterfaceConf_copy : DeepCopy ToPodInterfaceConf ToPodInterfaceConf :=
  {| view := λ _ v, Some v; DeepCopyInto := ToPodInterfaceConf_DeepCopyInto |}.
#[export] Instance ToPodInterfaceConf_copies : Copies ToPodInterfaceConf ToPodInterfaceConf.
Proof. by apply flat_copies. Qed.

Definition ToPodInterfaceConf_DeepCopy (in_ : ptr ToPodInterfaceConf) : M heap (ptr ToPodInterfaceConf) := copy_ptr in_.

(** ** Structs with references *)

Record ClusterFlowAction_struct (conf : Type) : Type := {
  mca_Type : ClusterFlowActionType;
  mca_Conf : conf
}.
Arguments mca_Type {_}.
Arguments mca_Conf {_}.

#[export] Instance ClusterFlowAction_eq_dec {conf} `{!EqDecision conf} : EqDecision (ClusterFlowAction_struct conf).
Proof. solve_decision. Defined.
#[export] Instance ClusterFlowAction_countable {conf} `{Countable conf} : Countable (ClusterFlowAction_struct conf).
Proof.
  refine (inj_countable' (λ v, (mca_Type v, mca_Conf v))
    (λ '(x0, x1), {| mca_Type := x0; mca_Conf := x1 |}) _). by intros [].
Defined.

Record FlowAction_struct (conf : Type) : Type := {
  mfa_Type : string;
  mfa_Conf : conf
}.
Arguments mfa_Type {_}.
Arguments mfa_Conf {_}.

#[export] Instance FlowAction_eq_dec {conf} `{!EqDecision conf} : EqDecision (FlowAction_struct conf).
Proof. solve_decision. Defined.
#[export] Instance FlowAction_countable {conf} `{Countable conf} : Countable (FlowAction_struct conf).
Proof.
  refine (inj_countable' (λ v, (mfa_Type v, mfa_Conf v))
    (λ '(x0, x1), {| mfa_Type := x0; mfa_Conf := x1 |}) _). by intros [].
Defined.

Record FlowItem_struct (spec last mask : Type) : Type := {
  mfi_Type : string;
  mfi_Spec : spec;
  mfi_Last : last;
  mfi_Mask : mask
}.
Arguments mfi_Type {_ _ _}.
Arguments mfi_Spec {_ _ _}.
Arguments mfi_Last {_ _ _}.
Arguments mfi_Mask {_ _ _}.

#[export] Instance FlowItem_eq_dec {spec last mask} `{!EqDecision spec, !EqDecision last, !EqDecision mask} : EqDecision (FlowItem_struct spec last mask).
Proof. solve_decision. Defined.
#[export] Instance FlowItem_countable {spec last mask} `{Countable spec, Countable last, Countable mask} : Countable (FlowItem_struct spec last mask).
Proof.
  refine (inj_countable' (λ v, (mfi_Type v, mfi_Spec v, mfi_Last v, mfi_Mask v))
    (λ '(x0, x1, x2, x3), {| mfi_Type := x0; mfi_Spec := x1; mfi_Last := x2; mfi_Mask := x3 |}) _). by intros [].
Defined.

Record FlowRules_struct (attr pattern action : Type) : Type := {
  mfr_PortId : Z;
  mfr_Attr : attr;
  mfr_Pattern : pattern;
  mfr_Action : action
}.
Arguments mfr_PortId {_ _ _}.
Arguments mfr_Attr {_ _ _}.
Arguments mfr_Pattern {_ _ _}.
Arguments mfr_Action {_ _ _}.

#[export] Instance FlowRules_eq_dec {attr pattern action} `{!EqDecision attr, !EqDecision pattern, !EqDecision action} : EqDecision (FlowRules_struct attr pattern action).
Proof. solve_decision. Defined.
#[export] Instance FlowRules_countable {attr pattern action} `{Countable attr, Countable pattern, Countable action} : Countable (FlowRules_struct attr pattern action).
Proof.
  refine (inj_countable' (λ v, (mfr_PortId v, mfr_Attr v, mfr_Pattern v, mfr_Action v))
    (λ '(x0, x1, x2, x3), {| mfr_PortId := x0; mfr_Attr := x1; mfr_Pattern := x2; mfr_Action := x3 |}) _). by intros [].
Defined.

Record ClusterFlowRule_struct (attr pattern action : Type) : Type := {
  mcr_Attr : attr;
  mcr_Pattern : pattern;
  mcr_Action : action
}.
Arguments mcr_Attr {_ _ _}.
Arguments mcr_Pattern {_ _ _}.
Arguments mcr_Action {_ _ _}.

#[export] Instance ClusterFlowRule_eq_dec {attr pattern action} `{!EqDecision attr, !EqDecision pattern, !EqDecision action} : EqDecision (ClusterFlowRule_struct attr pattern action).
Proof. solve_decision. Defined.
#[export] Instance ClusterFlowRule_countable {attr pattern action} `{Countable attr, Countable pattern, Countable action} : Countable (ClusterFlowRule_struct attr pattern action).
Proof.
  refine (inj_countable' (λ v, (mcr_Attr v, mcr_Pattern v, mcr_Action v))
    (λ '(x0, x1, x2), {| mcr_Attr := x0; mcr_Pattern := x1; mcr_Action := x2 |}) _). by intros [].
Defined.

Record ClusterFlowConfigSpec_struct (selector rules : Type) : Type := {
  mcs_PodSelector : selector;
  mcs_Rules : rules
}.
Arguments mcs_PodSelector {_ _}.
Arguments mcs_Rules {_ _}.

#[export] Instance ClusterFlowConfigSpec_eq_dec {selector rules} `{!EqDecision selector, !EqDecision rules} : EqDecision (ClusterFlowConfigSpec_struct selector rules).
Proof. solve_decision. Defined.
#[export] Instance ClusterFlowConfigSpec_countable {selector rules} `{Countable selector, Countable rules} : Countable (ClusterFlowConfigSpec_struct selector rules).
Proof.
  refine (inj_countable' (λ v, (mcs_PodSelector v, mcs_Rules v))
    (λ '(x0, x1), {| mcs_PodSelector := x0; mcs_Rules := x1 |}) _). by intros [].
Defined.

Record NodeFlowConfigSpec_struct (rules : Type) : Type := {
  mns_Rules : rules
}.
Arguments mns_Rules {_}.

#[export] Instance NodeFlowConfigSpec_eq_dec {rules} `{!EqDecision rules} : EqDecision (NodeFlowConfigSpec_struct rules).
Proof. solve_decision. Defined.
#[export] Instance NodeFlowConfigSpec_countable {rules} `{Countable rules} : Countable (NodeFlowConfigSpec_struct rules).
Proof.
  refine (inj_countable' (λ v, (mns_Rules v))
    (λ '(x0), {| mns_Rules := x0 |}) _). by intros [].
Defined.

Record NodeFlowConfigStatus_struct (ports rules : Type) : Type := {
  mst_PortInfo : ports;
  mst_Rules : rules;
  mst_SyncStatus : SyncStatusType;
  mst_SyncMsg : string
}.
Arguments mst_PortInfo {_ _}.
Arguments mst_Rules {_ _}.
Arguments mst_SyncStatus {_ _}.
Arguments mst_SyncMsg {_ _}.

#[export] Instance NodeFlowConfigStatus_eq_dec {ports rules} `{!EqDecision ports, !EqDecision rules} : EqDecision (NodeFlowConfigStatus_struct ports rules).
Proof. solve_decision. Defined.
#[export] Instance NodeFlowConfigStatus_countable {ports rules} `{Countable ports, Countable rules} : Countable (NodeFlowConfigStatus_struct ports rules).
Proof.
  refine (inj_countable' (λ v, (mst_PortInfo v, mst_Rules v, mst_SyncStatus v, mst_SyncMsg v))
    (λ '(x0, x1, x2, x3), {| mst_PortInfo := x0; mst_Rules := x1; mst_SyncStatus := x2; mst_SyncMsg := x3 |}) _). by intros [].
Defined.

(** *** In memory, and the values *)

Notation ClusterFlowAction_mem := (ClusterFlowAction_struct (ptr RawExtension_mem)).
Notation ClusterFlowAction_val := (ClusterFlowAction_struct (option string)).
Notation FlowAction_mem := (FlowAction_struct (ptr RawExtension_mem)).
Notation FlowAction_val := (FlowAction_struct (option string)).
Notation FlowItem_mem := (FlowItem_struct (ptr RawExtension_mem) (ptr RawExtension_mem) (ptr RawExtension_mem)).
Notation FlowItem_val := (FlowItem_struct (option string) (option string) (option string)).
Notation FlowRules_mem := (FlowRules_struct (ptr FlowAttr) (slice (ptr FlowItem_mem)) (slice (ptr FlowAction_mem))).
Notation FlowRules_val := (FlowRules_struct (option FlowAttr) (option (list (option FlowItem_val))) (option (list (option FlowAction_val)))).
Notation ClusterFlowRule_mem := (ClusterFlowRule_struct (ptr FlowAttr) (slice (ptr FlowItem_mem)) (slice (ptr ClusterFlowAction_mem))).
Notation ClusterFlowRule_val := (ClusterFlowRule_struct (option FlowAttr) (option (list (option FlowItem_val))) (option (list (option ClusterFlowAction_val)))).
Notation ClusterFlowConfigSpec_mem := (ClusterFlowConfigSpec_struct (ptr LabelSelector_mem) (slice (ptr ClusterFlowRule_mem))).
Notation ClusterFlowConfigSpec_val := (ClusterFlowConfigSpec_struct (option LabelSelector_val) (option (list (option ClusterFlowRule_val)))).
Notation NodeFlowConfigSpec_mem := (NodeFlowConfigSpec_struct (slice (ptr FlowRules_mem))).
Notation NodeFlowConfigSpec_val := (NodeFlowConfigSpec_struct (option (list (option FlowRules_val)))).
Notation NodeFlowConfigStatus_mem := (NodeFlowConfigStatus_struct (slice CrPortsInformation) (slice (ptr FlowRules_mem))).
Notation NodeFlowConfigStatus_val := (NodeFlowConfigStatus_struct (option (list CrPortsInformation)) (option (list (option FlowRules_val)))).
Notation ClusterFlowConfig_mem := (Resource_struct ObjectMeta_mem ClusterFlowConfigSpec_mem ClusterFlowConfigStatus).
Notation ClusterFlowConfig_val := (Resource_struct ObjectMeta_val ClusterFlowConfigSpec_val ClusterFlowConfigStatus).
Notation FlowConfigNodeAgentDeployment_mem := (Resource_struct ObjectMeta_mem FlowConfigNodeAgentDeploymentSpec FlowConfigNodeAgentDeploymentStatus).
Notation FlowConfigNodeAgentDeployment_val := (Resource_struct ObjectMeta_val FlowConfigNodeAgentDeploymentSpec FlowConfigNodeAgentDeploymentStatus).
Notation NodeFlowConfig_mem := (Resource_struct ObjectMeta_mem NodeFlowConfigSpec_mem NodeFlowConfigStatus_mem).
Notation NodeFlowConfig_val := (Resource_struct ObjectMeta_val NodeFlowConfigSpec_val NodeFlowConfigStatus_val).
Notation ClusterFlowConfigList_mem := (List_struct ListMeta_mem (slice ClusterFlowConfig_mem)).
Notation ClusterFlowConfigList_val := (List_struct ListMeta_val (option (list ClusterFlowConfig_val))).
Notation FlowConfigNodeAgentDeploymentList_mem := (List_struct ListMeta_mem (slice FlowConfigNodeAgentDeployment_mem)).
Notation FlowConfigNodeAgentDeploymentList_val := (List_struct ListMeta_val (option (list FlowConfigNodeAgentDeployment_val))).
Notation NodeFlowConfigList_mem := (List_struct ListMeta_mem (slice NodeFlowConfig_mem)).
Notation NodeFlowConfigList_val := (List_struct ListMeta_val (option (list NodeFlowConfig_val))).

Section methods.
Context `{!MetaTypes}.

Definition ClusterFlowAction_view (h : heap) (in_ : ClusterFlowAction_mem) : option ClusterFlowAction_val :=
  f0 ← view h (mca_Conf in_);
  Some {| mca_Type := mca_Type in_; mca_Conf := f0 |}.

Definition ClusterFlowAction_DeepCopyInto (in_ : ClusterFlowAction_mem) : M heap ClusterFlowAction_mem :=
  f0 ← DeepCopyInto (mca_Conf in_);
  mret {| mca_Type := mca_Type in_; mca_Conf := f0 |}.

#[export] Instance ClusterFlowAction_copy : DeepCopy ClusterFlowAction_mem ClusterFlowAction_val :=
  {| view := ClusterFlowAction_view; DeepCopyInto := ClusterFlowAction_DeepCopyInto |}.
#[export] Instance ClusterFlowAction_copies `{!MetaTypesLaws} : Copies ClusterFlowAction_mem ClusterFlowAction_val.
Proof. solve_copies ClusterFlowAction_view ClusterFlowAction_DeepCopyInto. Qed.

Definition ClusterFlowAction_DeepCopy (in_ : ptr ClusterFlowAction_mem) : M heap (ptr ClusterFlowAction_mem) := copy_ptr in_.

Definition FlowAction_view (h : heap) (in_ : FlowAction_mem) : option FlowAction_val :=
  f0 ← view h (mfa_Conf in_);
  Some {| mfa_Type := mfa_Type in_; mfa_Conf := f0 |}.

Definition FlowAction_DeepCopyInto (in_ : FlowAction_mem) : M heap FlowAction_mem :=
  f0 ← DeepCopyInto (mfa_Conf in_);
  mret {| mfa_Type := mfa_Type in_; mfa_Conf := f0 |}.

#[export] Instance FlowAction_copy : DeepCopy FlowAction_mem FlowAction_val :=
  {| view := FlowAction_view; DeepCopyInto := FlowAction_DeepCopyInto |}.
#[export] Instance FlowAction_copies `{!MetaTypesLaws} : Copies FlowAction_mem FlowAction_val.
Proof. solve_copies FlowAction_view FlowAction_DeepCopyInto. Qed.

Definition FlowAction_DeepCopy (in_ : ptr FlowAction_mem) : M heap (ptr FlowAction_mem) := copy_ptr in_.

Definition FlowItem_view (h : heap) (in_ : FlowItem_mem) : option FlowItem_val :=
  f0 ← view h (mfi_Spec in_);
  f1 ← view h (mfi_Last in_);
  f2 ← view h (mfi_Mask in_);
  Some {| mfi_Type := mfi_Type in_; mfi_Spec := f0; mfi_Last := f1; mfi_Mask := f2 |}.

Definition FlowItem_DeepCopyInto (in_ : FlowItem_mem) : M heap FlowItem_mem :=
  f0 ← DeepCopyInto (mfi_Spec in_);
  f1 ← DeepCopyInto (mfi_Last in_);
  f2 ← DeepCopyInto (mfi_Mask in_);
  mret {| mfi_Type := mfi_Type in_; mfi_Spec := f0; mfi_Last := f1; mfi_Mask := f2 |}.

#[export] Instance FlowItem_copy : DeepCopy FlowItem_mem FlowItem_val :=
  {| view := FlowItem_view; DeepCopyInto := FlowItem_DeepCopyInto |}.
#[export] Instance FlowItem_copies `{!MetaTypesLaws} : Copies FlowItem_mem FlowItem_val.
Proof. solve_copies FlowItem_view FlowItem_DeepCopyInto. Qed.

Definition FlowItem_DeepCopy (in_ : ptr FlowItem_mem) : M heap (ptr FlowItem_mem) := copy_ptr in_.

Definition FlowRules_view (h : heap) (in_ : FlowRules_mem) : option FlowRules_val :=
  f0 ← view h (mfr_Attr in_);
  f1 ← view h (mfr_Pattern in_);
  f2 ← view h (mfr_Action in_);
  Some {| mfr_PortId := mfr_PortId in_; mfr_Attr := f0; mfr_Pattern := f1; mfr_Action := f2 |}.

Definition FlowRules_DeepCopyInto (in_ : FlowRules_mem) : M heap FlowRules_mem :=
  f0 ← DeepCopyInto (mfr_Attr in_);
  f1 ← DeepCopyInto (mfr_Pattern in_);
  f2 ← DeepCopyInto (mfr_Action in_);
  mret {| mfr_PortId := mfr_PortId in_; mfr_Attr := f0; mfr_Pattern := f1; mfr_Action := f2 |}.

#[export] Instance FlowRules_copy : DeepCopy FlowRules_mem FlowRules_val :=
  {| view := FlowRules_view; DeepCopyInto := FlowRules_DeepCopyInto |}.
#[export] Instance FlowRules_copies `{!MetaTypesLaws} : Copies FlowRules_mem FlowRules_val.
Proof. solve_copies FlowRules_view FlowRules_DeepCopyInto. Qed.

Definition FlowRules_DeepCopy (in_ : ptr FlowRules_mem) : M heap (ptr FlowRules_mem) := copy_ptr in_.

Definition ClusterFlowRule_view (h : heap) (in_ : ClusterFlowRule_mem) : option ClusterFlowRule_val :=
  f0 ← view h (mcr_Attr in_);
  f1 ← view h (mcr_Pattern in_);
  f2 ← view h (mcr_Action in_);
  Some {| mcr_Attr := f0; mcr_Pattern := f1; mcr_Action := f2 |}.

Definition ClusterFlowRule_DeepCopyInto (in_ : ClusterFlowRule_mem) : M heap ClusterFlowRule_mem :=
  f0 ← DeepCopyInto (mcr_Attr in_);
  f1 ← DeepCopyInto (mcr_Pattern in_);
  f2 ← DeepCopyInto (mcr_Action in_);
  mret {| mcr_Attr := f0; mcr_Pattern := f1; mcr_Action := f2 |}.

#[export] Instance ClusterFlowRule_copy : DeepCopy ClusterFlowRule_mem ClusterFlowRule_val :=
  {| view := ClusterFlowRule_view; DeepCopyInto := ClusterFlowRule_DeepCopyInto |}.
#[export] Instance ClusterFlowRule_copies `{!MetaTypesLaws} : Copies ClusterFlowRule_mem ClusterFlowRule_val.
Proof. solve_copies ClusterFlowRule_view ClusterFlowRule_DeepCopyInto. Qed.

Definition ClusterFlowRule_DeepCopy (in_ : ptr ClusterFlowRule_mem) : M heap (ptr ClusterFlowRule_mem) := copy_ptr in_.

Definition ClusterFlowConfigSpec_view (h : heap) (in_ : ClusterFlowConfigSpec_mem) : option ClusterFlowConfigSpec_val :=
  f0 ← view h (mcs_PodSelector in_);
  f1 ← view h (mcs_Rules in_);
  Some {| mcs_PodSelector := f0; mcs_Rules := f1 |}.

Definition ClusterFlowConfigSpec_DeepCopyInto (in_ : ClusterFlowConfigSpec_mem) : M heap ClusterFlowConfigSpec_mem :=
  f0 ← DeepCopyInto (mcs_PodSelector in_);
  f1 ← DeepCopyInto (mcs_Rules in_);
  mret {| mcs_PodSelector := f0; mcs_Rules := f1 |}.

#[export] Instance ClusterFlowConfigSpec_copy : DeepCopy ClusterFlowConfigSpec_mem ClusterFlowConfigSpec_val :=
  {| view := ClusterFlowConfigSpec_view; DeepCopyInto := ClusterFlowConfigSpec_DeepCopyInto |}.
#[export] Instance ClusterFlowConfigSpec_copies `{!MetaTypesLaws} : Copies ClusterFlowConfigSpec_mem ClusterFlowConfigSpec_val.
Proof. solve_copies ClusterFlowConfigSpec_view ClusterFlowConfigSpec_DeepCopyInto. Qed.

Definition ClusterFlowConfigSpec_DeepCopy (in_ : ptr ClusterFlowConfigSpec_mem) : M heap (ptr ClusterFlowConfigSpec_mem) := copy_ptr in_.

Definition NodeFlowConfigSpec_view (h : heap) (in_ : NodeFlowConfigSpec_mem) : option NodeFlowConfigSpec_val :=
  f0 ← view h (mns_Rules in_);
  Some {| mns_Rules := f0 |}.

Definition NodeFlowConfigSpec_DeepCopyInto (in_ : NodeFlowConfigSpec_mem) : M heap NodeFlowConfigSpec_mem :=
  f0 ← DeepCopyInto (mns_Rules in_);
  mret {| mns_Rules := f0 |}.

#[export] Instance NodeFlowConfigSpec_copy : DeepCopy NodeFlowConfigSpec_mem NodeFlowConfigSpec_val :=
  {| view := NodeFlowConfigSpec_view; DeepCopyInto := NodeFlowConfigSpec_DeepCopyInto |}.
#[export] Instance NodeFlowConfigSpec_copies `{!MetaTypesLaws} : Copies NodeFlowConfigSpec_mem NodeFlowConfigSpec_val.
Proof. solve_copies NodeFlowConfigSpec_view NodeFlowConfigSpec_DeepCopyInto. Qed.

Definition NodeFlowConfigSpec_DeepCopy (in_ : ptr NodeFlowConfigSpec_mem) : M heap (ptr NodeFlowConfigSpec_mem) := copy_ptr in_.

Definition NodeFlowConfigStatus_view (h : heap) (in_ : NodeFlowConfigStatus_mem) : option NodeFlowConfigStatus_val :=
  f0 ← view h (mst_PortInfo in_);
  f1 ← view h (mst_Rules in_);
  Some {| mst_PortInfo := f0; mst_Rules := f1; mst_SyncStatus := mst_SyncStatus in_; mst_SyncMsg := mst_SyncMsg in_ |}.

Definition NodeFlowConfigStatus_DeepCopyInto (in_ : NodeFlowConfigStatus_mem) : M heap NodeFlowConfigStatus_mem :=
  f0 ← DeepCopyInto (mst_PortInfo in_);
  f1 ← DeepCopyInto (mst_Rules in_);
  mret {| mst_PortInfo := f0; mst_Rules := f1; mst_SyncStatus := mst_SyncStatus in_; mst_SyncMsg := mst_SyncMsg in_ |}.

#[export] Instance NodeFlowConfigStatus_copy : DeepCopy NodeFlowConfigStatus_mem NodeFlowConfigStatus_val :=
  {| view := NodeFlowConfigStatus_view; DeepCopyInto := NodeFlowConfigStatus_DeepCopyInto |}.
#[export] Instance NodeFlowConfigStatus_copies `{!MetaTypesLaws} : Copies NodeFlowConfigStatus_mem NodeFlowConfigStatus_val.
Proof. solve_copies NodeFlowConfigStatus_view NodeFlowConfigStatus_DeepCopyInto. Qed.

Definition NodeFlowConfigStatus_DeepCopy (in_ : ptr NodeFlowConfigStatus_mem) : M heap (ptr NodeFlowConfigStatus_mem) := copy_ptr in_.

Definition ClusterFlowConfig_view (h : heap) (in_ : ClusterFlowConfig_mem) : option ClusterFlowConfig_val :=
  f0 ← view h (ob_ObjectMeta in_);
  f1 ← view h (ob_Spec in_);
  Some {| ob_TypeMeta := ob_TypeMeta in_; ob_ObjectMeta := f0; ob_Spec := f1; ob_Status := ob_Status in_ |}.

Definition ClusterFlowConfig_DeepCopyInto (in_ : ClusterFlowConfig_mem) : M heap ClusterFlowConfig_mem :=
  f0 ← DeepCopyInto (ob_ObjectMeta in_);
  f1 ← DeepCopyInto (ob_Spec in_);
  mret {| ob_TypeMeta := ob_TypeMeta in_; ob_ObjectMeta := f0; ob_Spec := f1; ob_Status := ob_Status in_ |}.

#[export] Instance ClusterFlowConfig_copy : DeepCopy ClusterFlowConfig_mem ClusterFlowConfig_val :=
  {| view := ClusterFlowConfig_view; DeepCopyInto := ClusterFlowConfig_DeepCopyInto |}.
#[export] Instance ClusterFlowConfig_copies `{!MetaTypesLaws} : Copies ClusterFlowConfig_mem ClusterFlowConfig_val.
Proof. solve_copies ClusterFlowConfig_view ClusterFlowConfig_DeepCopyInto. Qed.

Definition ClusterFlowConfig_DeepCopy (in_ : ptr ClusterFlowConfig_mem) : M heap (ptr ClusterFlowConfig_mem) := copy_ptr in_.
Definition ClusterFlowConfig_DeepCopyObject (in_ : ptr ClusterFlowConfig_mem) : M heap Object := as_object "ClusterFlowConfig" (ClusterFlowConfig_DeepCopy in_).

Definition FlowConfigNodeAgentDeployment_view (h : heap) (in_ : FlowConfigNodeAgentDeployment_mem) : option FlowConfigNodeAgentDeployment_val :=
  f0 ← view h (ob_ObjectMeta in_);
  Some {| ob_TypeMeta := ob_TypeMeta in_; ob_ObjectMeta := f0; ob_Spec := ob_Spec in_; ob_Status := ob_Status in_ |}.

Definition FlowConfigNodeAgentDeployment_DeepCopyInto (in_ : FlowConfigNodeAgentDeployment_mem) : M heap FlowConfigNodeAgentDeployment_mem :=
  f0 ← DeepCopyInto (ob_ObjectMeta in_);
  mret {| ob_TypeMeta := ob_TypeMeta in_; ob_ObjectMeta := f0; ob_Spec := ob_Spec in_; ob_Status := ob_Status in_ |}.

#[export] Instance FlowConfigNodeAgentDeployment_copy : DeepCopy FlowConfigNodeAgentDeployment_mem FlowConfigNodeAgentDeployment_val :=
  {| view := FlowConfigNodeAgentDeployment_view; DeepCopyInto := FlowConfigNodeAgentDeployment_DeepCopyInto |}.
#[export] Instance FlowConfigNodeAgentDeployment_copies `{!MetaTypesLaws} : Copies FlowConfigNodeAgentDeployment_mem FlowConfigNodeAgentDeployment_val.
Proof. solve_copies FlowConfigNodeAgentDeployment_view FlowConfigNodeAgentDeployment_DeepCopyInto. Qed.

Definition FlowConfigNodeAgentDeployment_DeepCopy (in_ : ptr FlowConfigNodeAgentDeployment_mem) : M heap (ptr FlowConfigNodeAgentDeployment_mem) := copy_ptr in_.
Definition FlowConfigNodeAgentDeployment_DeepCopyObject (in_ : ptr FlowConfigNodeAgentDeployment_mem) : M heap Object := as_object "FlowConfigNodeAgentDeployment" (FlowConfigNodeAgentDeployment_DeepCopy in_).

Definition NodeFlowConfig_view (h : heap) (in_ : NodeFlowConfig_mem) : option NodeFlowConfig_val :=
  f0 ← view h (ob_ObjectMeta in_);
  f1 ← view h (ob_Spec in_);
  f2 ← view h (ob_Status in_);
  Some {| ob_TypeMeta := ob_TypeMeta in_; ob_ObjectMeta := f0; ob_Spec := f1; ob_Status := f2 |}.

Definition NodeFlowConfig_DeepCopyInto (in_ : NodeFlowConfig_mem) : M heap NodeFlowConfig_mem :=
  f0 ← DeepCopyInto (ob_ObjectMeta in_);
  f1 ← DeepCopyInto (ob_Spec in_);
  f2 ← DeepCopyInto (ob_Status in_);
  mret {| ob_TypeMeta := ob_TypeMeta in_; ob_ObjectMeta := f0; ob_Spec := f1; ob_Status := f2 |}.

#[export] Instance NodeFlowConfig_copy : DeepCopy NodeFlowConfig_mem NodeFlowConfig_val :=
  {| view := NodeFlowConfig_view; DeepCopyInto := NodeFlowConfig_DeepCopyInto |}.
#[export] Instance NodeFlowConfig_copies `{!MetaTypesLaws} : Copies NodeFlowConfig_mem NodeFlowConfig_val.
Proof. solve_copies NodeFlowConfig_view NodeFlowConfig_DeepCopyInto. Qed.

Definition NodeFlowConfig_DeepCopy (in_ : ptr NodeFlowConfig_mem) : M heap (ptr NodeFlowConfig_mem) := copy_ptr in_.
Definition NodeFlowConfig_DeepCopyObject (in_ : ptr NodeFlowConfig_mem) : M heap Object := as_object "NodeFlowConfig" (NodeFlowConfig_DeepCopy in_).

Definition ClusterFlowConfigList_view (h : heap) (in_ : ClusterFlowConfigList_mem) : option ClusterFlowConfigList_val :=
  f0 ← view h (li_ListMeta in_);
  f1 ← view h (li_Items in_);
  Some {| li_TypeMeta := li_TypeMeta in_; li_ListMeta := f0; li_Items := f1 |}.

Definition ClusterFlowConfigList_DeepCopyInto (in_ : ClusterFlowConfigList_mem) : M heap ClusterFlowConfigList_mem :=
  f0 ← DeepCopyInto (li_ListMeta in_);
  f1 ← DeepCopyInto (li_Items in_);
  mret {| li_TypeMeta := li_TypeMeta in_; li_ListMeta := f0; li_Items := f1 |}.

#[export] Instance ClusterFlowConfigList_copy : DeepCopy ClusterFlowConfigList_mem ClusterFlowConfigList_val :=
  {| view := ClusterFlowConfigList_view; DeepCopyInto := ClusterFlowConfigList_DeepCopyInto |}.
#[export] Instance ClusterFlowConfigList_copies `{!MetaTypesLaws} : Copies ClusterFlowConfigList_mem ClusterFlowConfigList_val.
Proof. solve_copies ClusterFlowConfigList_view ClusterFlowConfigList_DeepCopyInto. Qed.

Definition ClusterFlowConfigList_DeepCopy (in_ : ptr ClusterFlowConfigList_mem) : M heap (ptr ClusterFlowConfigList_mem) := copy_ptr in_.
Definition ClusterFlowConfigList_DeepCopyObject (in_ : ptr ClusterFlowConfigList_mem) : M heap Object := as_object "ClusterFlowConfigList" (ClusterFlowConfigList_DeepCopy in_).

Definition FlowConfigNodeAgentDeploymentList_view (h : heap) (in_ : FlowConfigNodeAgentDeploymentList_mem) : option FlowConfigNodeAgentDeploymentList_val :=
  f0 ← view h (li_ListMeta in_);
  f1 ← view h (li_Items in_);
  Some {| li_TypeMeta := li_TypeMeta in_; li_ListMeta := f0; li_Items := f1 |}.

Definition FlowConfigNodeAgentDeploymentList_DeepCopyInto (in_ : FlowConfigNodeAgentDeploymentList_mem) : M heap FlowConfigNodeAgentDeploymentList_mem :=
  f0 ← DeepCopyInto (li_ListMeta in_);
  f1 ← DeepCopyInto (li_Items in_);
  mret {| li_TypeMeta := li_TypeMeta in_; li_ListMeta := f0; li_Items := f1 |}.

#[export] Instance FlowConfigNodeAgentDeploymentList_copy : DeepCopy FlowConfigNodeAgentDeploymentList_mem FlowConfigNodeAgentDeploymentList_val :=
  {| view := FlowConfigNodeAgentDeploymentList_view; DeepCopyInto := FlowConfigNodeAgentDeploymentList_DeepCopyInto |}.
#[export] Instance FlowConfigNodeAgentDeploymentList_copies `{!MetaTypesLaws} : Copies FlowConfigNodeAgentDeploymentList_mem FlowConfigNodeAgentDeploymentList_val.
Proof. solve_copies FlowConfigNodeAgentDeploymentList_view FlowConfigNodeAgentDeploymentList_DeepCopyInto. Qed.

Definition FlowConfigNodeAgentDeploymentList_DeepCopy (in_ : ptr FlowConfigNodeAgentDeploymentList_mem) : M heap (ptr FlowConfigNodeAgentDeploymentList_mem) := copy_ptr in_.
Definition FlowConfigNodeAgentDeploymentList_DeepCopyObject (in_ : ptr FlowConfigNodeAgentDeploymentList_mem) : M heap Object := as_object "FlowConfigNodeAgentDeploymentList" (FlowConfigNodeAgentDeploymentList_DeepCopy in_).

Definition NodeFlowConfigList_view (h : heap) (in_ : NodeFlowConfigList_mem) : option NodeFlowConfigList_val :=
  f0 ← view h (li_ListMeta in_);
  f1 ← view h (li_Items in_);
  Some {| li_TypeMeta := li_TypeMeta in_; li_ListMeta := f0; li_Items := f1 |}.

Definition NodeFlowConfigList_DeepCopyInto (in_ : NodeFlowConfigList_mem) : M heap NodeFlowConfigList_mem :=
  f0 ← DeepCopyInto (li_ListMeta in_);
  f1 ← DeepCopyInto (li_Items in_);
  mret {| li_TypeMeta := li_TypeMeta in_; li_ListMeta := f0; li_Items := f1 |}.

#[export] Instance NodeFlowConfigList_copy : DeepCopy NodeFlowConfigList_mem NodeFlowConfigList_val :=
  {| view := NodeFlowConfigList_view; DeepCopyInto := NodeFlowConfigList_DeepCopyInto |}.
#[export] Instance NodeFlowConfigList_copies `{!MetaTypesLaws} : Copies NodeFlowConfigList_mem NodeFlowConfigList_val.
Proof. solve_copies NodeFlowConfigList_view NodeFlowConfigList_DeepCopyInto. Qed.

Definition NodeFlowConfigList_DeepCopy (in_ : ptr NodeFlowConfigList_mem) : M heap (ptr NodeFlowConfigList_mem) := copy_ptr in_.
Definition NodeFlowConfigList_DeepCopyObject (in_ : ptr NodeFlowConfigList_mem) : M heap Object := as_object "NodeFlowConfigList" (NodeFlowConfigList_DeepCopy in_).

End methods.
