(* ===== verification/FlowSets.v ===== *)
(** * The cache of created flow rules (pkg/flowconfig/flowsets/flowsets.go)

    Operations on the cache, its abstract value [entries] (a finite map), and the
    interface [FlowCache] that the node controller's theorems use. *)

From S2P Require Import Prelude FlowApi.

Record FlowCreateRecord : Set := { FlowID : Z; FlowRule : RequestFlowCreate }.

Definition newFlowCreateRecord (id : Z) (rule : RequestFlowCreate) : FlowCreateRecord :=
  {| FlowID := id; FlowRule := rule |}.

#[export] Instance FlowCreateRecord_eq_dec : EqDecision FlowCreateRecord.
Proof. solve_decision. Defined.

(** A Go map may be nil ([None]). *)
Record FlowSets : Type := { data : option (gmap string FlowCreateRecord) }.

(** What reading the map sees: a nil map is empty. *)
Definition entries (s : FlowSets) : gmap string FlowCreateRecord := default ∅ (data s).

Definition Add (s : FlowSets) (key : string) (id : Z) (rule : RequestFlowCreate) : FlowSets :=
  let s := match data s with None => {| data := Some ∅ |} | Some _ => s end in
  match entries s !! key with
  | Some _ => s
  | None => {| data := Some (<[key := newFlowCreateRecord id rule]> (entries s)) |}
  end.

Definition Delete (s : FlowSets) (key : string) : FlowSets :=
  {| data := base.delete key <$> data s |}.

Definition Has (s : FlowSets) (key : string) : bool :=
  match entries s !! key with Some _ => true | None => false end.

Definition Size (s : FlowSets) : nat := size (entries s).

(** The inner loop over [keys]. *)
Fixpoint found (setKey : string) (keys : list string) : bool :=
  match keys with
  | [] => false
  | k :: keys => if String.eqb setKey k then true else found setKey keys
  end.

(** The records whose keys are not among [keys]. *)
Definition GetCompliments (s : FlowSets) (keys : list string) : gmap string FlowCreateRecord :=
  filter (λ e, found e.1 keys = false) (entries s).

Definition NewFlowSets : FlowSets := {| data := Some ∅ |}.

(** ** The abstract map *)

Lemma entries_New : entries NewFlowSets = ∅.
Proof. done. Qed.

Lemma entries_Add s key id rule :
  entries (Add s key id rule)
  = match entries s !! key with
    | Some _ => entries s
    | None => <[key := {| FlowID := id; FlowRule := rule |}]> (entries s)
    end.
Proof.
  unfold Add. destruct s as [[m|]]; cbn; [|by rewrite lookup_empty].
  destruct (m !! key) eqn:E; cbn; by rewrite ?E.
Qed.

Lemma entries_Delete s key : entries (Delete s key) = base.delete key (entries s).
Proof. destruct s as [[m|]]; cbn; [done|by rewrite delete_empty]. Qed.

Lemma Has_spec s key : Has s key = true ↔ is_Some (entries s !! key).
Proof. unfold Has. destruct (entries s !! key); naive_solver. Qed.

Lemma found_spec k keys : found k keys = true ↔ k ∈ keys.
Proof.
  induction keys as [|x keys IH]; cbn; [split; [done|by intros ?%elem_of_nil]|].
  rewrite elem_of_cons. destruct (String.eqb_spec k x); naive_solver.
Qed.

Lemma GetCompliments_lookup s keys k r :
  GetCompliments s keys !! k = Some r ↔ entries s !! k = Some r ∧ k ∉ keys.
Proof.
  unfold GetCompliments. rewrite map_lookup_filter_Some. cbn.
  rewrite <- found_spec, not_true_iff_false. done.
Qed.

Lemma GetCompliments_nil s : GetCompliments s [] = entries s.
Proof.
  apply map_eq. intros k. apply option_eq. intros r. rewrite GetCompliments_lookup. set_solver.
Qed.
