(* ===== verification/Webhook.v ===== *)
(** * The admission webhooks of the flow configuration

    apis/flowconfig/v1/{validate,webhook_common,nodeflowconfig_webhook,
    clusterflowconfig_webhook}.go: what a NodeFlowConfig or ClusterFlowConfig must satisfy
    to be stored. A nil pointer that is dereferenced is [Panic]. *)

From S2P Require Import Prelude GoStrings GoNet GoCrypto GoJson GoJsonDecode FlowEnums FlowApi FlowItems FlowTypes.

Local Open Scope Z_scope.
Local Open Scope go_scope.

(** ** validate.go *)

Definition validateUint32ItemField (itemName field : string) (specValue fieldValue : Z) : outcome unit :=
  if String.eqb itemName "spec" then Ok tt
  else if (specValue =? 0) && negb (fieldValue =? 0) then Err (Errorf "spec.%s must be specified")
  else if String.eqb itemName "last" then
    if fieldValue <? specValue
    then Err (Errorf "last.%s (%d) must be higher or equal to spec: %s (%d)")
    else Ok tt
  else Ok tt.

(** The hexadecimal text of the address, parsed as a signed 64-bit number and truncated. *)
Definition encodeHexMacAddress (addr : string) : outcome Z :=
  parseAddr ← wrap "error parsing mac address: %v" (ParseInt (hex_encode addr) 16 64);
  Ok (parseAddr mod 2 ^ 32).

Section items.
Context `{!AnyCodec}.

(** The head of every item validator: the spec, zero when absent, and the item. *)
Definition unmarshal_spec (fmt msg : string) (spec : option Any) : outcome struct_val :=
  match spec with
  | None => Ok (zero_struct (schema msg))
  | Some _ => wrap fmt (any_UnmarshalTo spec msg)
  end.

Definition unmarshal_item (fmt msg : string) (item : option Any) : outcome struct_val :=
  wrap fmt (any_UnmarshalTo item msg).

(** One address of an Ethernet item against the spec's. *)
Definition validate_mac (itemName field : string) (spec item : option RteEtherAddr) : outcome unit :=
  match item with
  | None => Ok tt
  | Some a =>
      specAddrInt ← match spec with
                    | Some s => wrap "invalid spec: %v, %v" (encodeHexMacAddress (AddrBytes s))
                    | None => Ok 0
                    end;
      addrInt ← wrap "invalid %s: %v, %v" (encodeHexMacAddress (AddrBytes a));
      validateUint32ItemField itemName field specAddrInt addrInt
  end.

Definition validateRteFlowItemEth (itemName : string) (spec item : option Any) : outcome unit :=
  specItem ← RteFlowItemEth_of <$> unmarshal_spec "could not unmarshal %s: %s" "RteFlowItemEth" spec;
  ethItem ← RteFlowItemEth_of <$> unmarshal_item "could not unmarshal %s: %s" "RteFlowItemEth" item;
  (if negb (eth_Type ethItem =? 0)
   then wrap "validateUint32ItemField() error: %v"
          (validateUint32ItemField itemName "type" (eth_Type specItem) (eth_Type ethItem))
   else Ok tt);;
  validate_mac itemName "dst" (eth_Dst specItem) (eth_Dst ethItem);;
  validate_mac itemName "src" (eth_Src specItem) (eth_Src ethItem);;
  reject (Errorf "invalid type (%d), must be equal or lower than 65,535")
    when (65535 <? eth_Type ethItem).

Definition validateRteFlowItemVlan (itemName : string) (spec item : option Any) : outcome unit :=
  specItem ← RteFlowItemVlan_of <$> unmarshal_spec "could not unmarshal %s: %s" "RteFlowItemVlan" spec;
  vlanItem ← RteFlowItemVlan_of <$> unmarshal_item "could not unmarshal %s: %s" "RteFlowItemVlan" item;
  validateUint32ItemField itemName "tci" (Tci specItem) (Tci vlanItem);;
  validateUint32ItemField itemName "inner_type" (InnerType specItem) (InnerType vlanItem);;
  reject (Errorf "invalid tci (%d), must be equal or lower than 65,535") when (65535 <? Tci vlanItem);;
  reject (Errorf "invalid inner_type (%d), must be equal or lower than 65,535")
    when (65535 <? InnerType vlanItem).

(** The fields of the item's header are read whether or not it has one. *)
Definition validateRteFlowItemIpv4 (itemName : string) (spec item : option Any) : outcome unit :=
  specItem ← RteFlowItemIpv4_of <$> unmarshal_spec "could not unmarshal %s: %s" "RteFlowItemIpv4" spec;
  ipv4Item ← RteFlowItemIpv4_of <$> unmarshal_item "could not unmarshal %s: %s" "RteFlowItemIpv4" item;
  match ipv4_Hdr ipv4Item with
  | None => Panic
  | Some hdr =>
      match ipv4_Hdr specItem with
      | None => Ok tt
      | Some specHdr =>
          validateUint32ItemField itemName "version_ihl" (VersionIhl specHdr) (VersionIhl hdr);;
          validateUint32ItemField itemName "type_of_service" (TypeOfService specHdr) (TypeOfService hdr);;
          validateUint32ItemField itemName "total_length" (TotalLength specHdr) (TotalLength hdr);;
          validateUint32ItemField itemName "packet_id" (PacketId specHdr) (PacketId hdr);;
          validateUint32ItemField itemName "fragment_offset" (FragmentOffset specHdr) (FragmentOffset hdr);;
          validateUint32ItemField itemName "time_to_live" (TimeToLive specHdr) (TimeToLive hdr);;
          validateUint32ItemField itemName "next_proto_id" (NextProtoId specHdr) (NextProtoId hdr);;
          validateUint32ItemField itemName "hdr_checksum" (HdrChecksum specHdr) (HdrChecksum hdr);;
          validateUint32ItemField itemName "src_addr" (SrcAddr specHdr) (SrcAddr hdr);;
          validateUint32ItemField itemName "dst_addr" (DstAddr specHdr) (DstAddr hdr)
      end;;
      reject (Errorf "invalid version_ihl (%d), must be equal or lower than 255")
        when (255 <? VersionIhl hdr);;
      reject (Errorf "invalid type_of_service (%d), must be equal or lower than 255")
        when (255 <? TypeOfService hdr);;
      reject (Errorf "invalid total_length (%d), must be equal or lower than 65,535")
        when (65535 <? TotalLength hdr);;
      reject (Errorf "invalid packet_id (%d), must be equal or lower than 65,535")
        when (65535 <? PacketId hdr);;
      reject (Errorf "invalid fragment_offset (%d), must be equal or lower than 65,535")
        when (65535 <? FragmentOffset hdr);;
      reject (Errorf "invalid time_to_live (%d), must be equal or lower than 255")
        when (255 <? TimeToLive hdr);;
      reject (Errorf "invalid next_proto_id (%d), must be equal or lower than 255")
        when (255 <? NextProtoId hdr);;
      reject (Errorf "invalid hdr_checksum (%d), must be equal or lower than 255")
        when (255 <? HdrChecksum hdr)
  end.

(** A field of a UDP item that is checked against the spec when it is not zero. *)
Definition validate_nonzero (itemName field : string) (specValue fieldValue : Z) : outcome unit :=
  if negb (fieldValue =? 0) then validateUint32ItemField itemName field specValue fieldValue
  else Ok tt.

Definition validateRteFlowItemUdp (itemName : string) (spec item : option Any) : outcome unit :=
  specItem ← RteFlowItemUdp_of <$> unmarshal_spec "could not unmarshal %s: %s" "RteFlowItemUdp" spec;
  udpItem ← RteFlowItemUdp_of <$> unmarshal_item "could not unmarshal %s: %s" "RteFlowItemUdp" item;
  match udp_Hdr specItem, udp_Hdr udpItem with
  | None, _ => Ok tt
  | Some _, None => Panic
  | Some specHdr, Some hdr =>
      validate_nonzero itemName "src_port" (SrcPort specHdr) (SrcPort hdr);;
      validate_nonzero itemName "dst_port" (DstPort specHdr) (DstPort hdr);;
      validate_nonzero itemName "dgram_len" (DgramLen specHdr) (DgramLen hdr);;
      validate_nonzero itemName "dgram_cksum" (DgramCksum specHdr) (DgramCksum hdr)
  end;;
  match udp_Hdr udpItem with
  | None => Ok tt
  | Some hdr =>
      reject (Errorf "invalid src_port (%d), must be equal or lower than 65,535")
        when (65535 <? SrcPort hdr);;
      reject (Errorf "invalid dst_port (%d), must be equal or lower than 65,535")
        when (65535 <? DstPort hdr);;
      reject (Errorf "invalid dgram_len (%d), must be equal or lower than 65,535")
        when (65535 <? DgramLen hdr);;
      reject (Errorf "invalid dgram_cksum (%d), must be equal or lower than 65,535")
        when (65535 <? DgramCksum hdr)
  end.

(** A field of a PPPoE item that is checked against the spec when the spec sets it. *)
Definition validate_specified (itemName field : string) (specValue fieldValue : Z) : outcome unit :=
  if negb (specValue =? 0) then validateUint32ItemField itemName field specValue fieldValue
  else Ok tt.

Definition validateRteFlowItemPppoe (itemName : string) (spec item : option Any) : outcome unit :=
  specItem ← RteFlowItemPppoe_of <$> unmarshal_spec "could not unmarshal %s: %s" "RteFlowItemPppoe" spec;
  pppoeItem ← RteFlowItemPppoe_of <$> unmarshal_item "could not unmarshal %s: %s" "RteFlowItemPppoe" item;
  validate_specified itemName "version_type" (VersionType specItem) (VersionType pppoeItem);;
  validate_specified itemName "code" (Code specItem) (Code pppoeItem);;
  validate_specified itemName "session_id" (SessionId specItem) (SessionId pppoeItem);;
  validate_specified itemName "length" (Length specItem) (Length pppoeItem);;
  reject (Errorf "invalid version_type (%d), must be equal or lower than 255")
    when (255 <? VersionType pppoeItem);;
  reject (Errorf "invalid code (%d), must be equal or lower than 255") when (255 <? Code pppoeItem);;
  reject (Errorf "invalid session_id (%d), must be equal or lower than 65,535")
    when (65535 <? SessionId pppoeItem);;
  reject (Errorf "invalid length (%d), must be equal or lower than 65,535")
    when (65535 <? Length pppoeItem).

Definition validateRteFlowItemPppoeProtoId (itemName : string) (spec item : option Any) : outcome unit :=
  specItem ← RteFlowItemPppoeProtoId_of
               <$> unmarshal_spec "could not unmarshal spec (%v) %v" "RteFlowItemPppoeProtoId" spec;
  pppoeProtoIdItem ← RteFlowItemPppoeProtoId_of
               <$> unmarshal_item "could not unmarshal %s: %v" "RteFlowItemPppoeProtoId" item;
  validateUint32ItemField itemName "proto_id" (ProtoId specItem) (ProtoId pppoeProtoIdItem);;
  reject (Errorf "invalid proto_id (%d), must be equal or lower than 65,535")
    when (65535 <? ProtoId pppoeProtoIdItem).

Definition validateRteFlowActionConfigEmpty (spec : option Any) : outcome unit :=
  match spec with
  | Some _ => Err (Errorf "unexpected key 'conf': action is not configurable")
  | None => Ok tt
  end.

Definition validateRteFlowActionVf (spec : option Any) : outcome unit :=
  conf ← RteFlowActionVf_of
           <$> wrap "could not unmarshal RTE_FLOW_ACTION_TYPE_VF configuration: %s"
                 (any_UnmarshalTo spec "RteFlowActionVf");
  reject (Errorf "'id' must be in 0-255 range") when (255 <? vf_Id conf);;
  reject (Errorf "'original' must be 0 or 1") when (1 <? vf_Original conf);;
  reject (Errorf "'reserved' field can't be non-zero") when (0 <? vf_Reserved conf).

(** ** webhook_common.go *)

Definition validateItem (itemType : RteFlowItemType) (itemName : string) (spec item : option Any) : outcome unit :=
  if bool_decide (spec = None) && negb (String.eqb itemName "spec")
  then Err (Errorf "%s spec must be specified")
  else
    match itemType with
    | RTE_FLOW_ITEM_TYPE_ETH => validateRteFlowItemEth itemName spec item
    | RTE_FLOW_ITEM_TYPE_VLAN => validateRteFlowItemVlan itemName spec item
    | RTE_FLOW_ITEM_TYPE_IPV4 => validateRteFlowItemIpv4 itemName spec item
    | RTE_FLOW_ITEM_TYPE_UDP => validateRteFlowItemUdp itemName spec item
    | RTE_FLOW_ITEM_TYPE_PPPOES | RTE_FLOW_ITEM_TYPE_PPPOED =>
        validateRteFlowItemPppoe itemName spec item
    | RTE_FLOW_ITEM_TYPE_PPPOE_PROTO_ID => validateRteFlowItemPppoeProtoId itemName spec item
    | _ => Ok tt
    end.

(** One of the three parts of an item: packed if present, then validated. *)
Definition validate_part (itemType : RteFlowItemType) (typeName itemName fmt fmt' : string)
    (spec : option Any) (part : option RawExtension) : outcome (option Any) :=
  match part with
  | None => Ok None
  | Some raw =>
      partAny ← wrap fmt (GetFlowItemAny typeName raw);
      wrap fmt' (validateItem itemType itemName spec (Some partAny));;
      Ok (Some partAny)
  end.

Definition validateRteFlowItem (item : FlowItem) : outcome unit :=
  match RteFlowItemType_value (fi_Type item) with
  | None => Err (Errorf "invalid flow item type: '%s'")
  | Some flowType =>
      spec ← validate_part flowType (fi_Type item) "spec"
               "invalid 'spec' in pattern type %s: '%v'"
               "validateItem(): error validating %s spec: '%v'" None (fi_Spec item);
      validate_part flowType (fi_Type item) "last"
        "invalid 'last' in pattern type %s: '%v'"
        "validateItem(): error validating %s last: '%v'" spec (fi_Last item);;
      validate_part flowType (fi_Type item) "mask"
        "invalid 'mask' in pattern type %s: '%v'"
        "validateItem(): error validating %s mask: '%v'" spec (fi_Mask item);;
      Ok tt
  end.

Definition validateFlowPatterns (patterns : list FlowItem) : outcome unit :=
  range_check 0 patterns (λ i item,
    wrap "pattern[%v] invalid: %v" (validateRteFlowItem item);;
    reject (Errorf "invalid: last pattern must be RTE_FLOW_ITEM_TYPE_END")
      when ((i =? length patterns - 1)%nat && negb (String.eqb (fi_Type item) "RTE_FLOW_ITEM_TYPE_END"))).

Definition validateRteFlowAttr (attr : RteFlowAttr) : outcome unit :=
  reject (Errorf "invalid attr.ingress: '%x', must be of value {0,1}") when (1 <? Ingress attr);;
  reject (Errorf "invalid attr.egress: '%x', must be of value {0,1}") when (1 <? Egress attr);;
  reject (Errorf "invalid attr.transfer: '%x', must be of value {0,1}") when (1 <? Transfer attr).

(** The attributes are read through the pointer. *)
Definition validateFlowAttr (attributes : option FlowAttr) : outcome unit :=
  match attributes with
  | None => Panic
  | Some a =>
      validateRteFlowAttr
        {| Group := attr_Group a; Priority := attr_Priority a; Ingress := attr_Ingress a;
           Egress := attr_Egress a; Transfer := attr_Transfer a; Reserved := attr_Reserved a |}
  end.

(** ** nodeflowconfig_webhook.go *)

Definition validatePortId (id : Z) : outcome unit := Ok tt.

Definition validateRteFlowAction (rteFlowAction : RteFlowAction) : outcome unit :=
  match action_Type rteFlowAction with
  | RTE_FLOW_ACTION_TYPE_VF => validateRteFlowActionVf (action_Conf rteFlowAction)
  | RTE_FLOW_ACTION_TYPE_END | RTE_FLOW_ACTION_TYPE_VOID | RTE_FLOW_ACTION_TYPE_PASSTHRU
  | RTE_FLOW_ACTION_TYPE_FLAG | RTE_FLOW_ACTION_TYPE_DROP | RTE_FLOW_ACTION_TYPE_PF
  | RTE_FLOW_ACTION_TYPE_OF_DEC_MPLS_TTL | RTE_FLOW_ACTION_TYPE_OF_DEC_NW_TTL
  | RTE_FLOW_ACTION_TYPE_OF_COPY_TTL_OUT | RTE_FLOW_ACTION_TYPE_OF_COPY_TTL_IN
  | RTE_FLOW_ACTION_TYPE_OF_POP_VLAN | RTE_FLOW_ACTION_TYPE_VXLAN_DECAP
  | RTE_FLOW_ACTION_TYPE_NVGRE_DECAP | RTE_FLOW_ACTION_TYPE_MAC_SWAP
  | RTE_FLOW_ACTION_TYPE_DEC_TTL | RTE_FLOW_ACTION_TYPE_INC_TCP_SEQ
  | RTE_FLOW_ACTION_TYPE_DEC_TCP_SEQ | RTE_FLOW_ACTION_TYPE_INC_TCP_ACK
  | RTE_FLOW_ACTION_TYPE_DEC_TCP_ACK => validateRteFlowActionConfigEmpty (action_Conf rteFlowAction)
  | RTE_FLOW_ACTION_TYPE_JUMP | RTE_FLOW_ACTION_TYPE_MARK | RTE_FLOW_ACTION_TYPE_QUEUE
  | RTE_FLOW_ACTION_TYPE_COUNT | RTE_FLOW_ACTION_TYPE_RSS | RTE_FLOW_ACTION_TYPE_PHY_PORT
  | RTE_FLOW_ACTION_TYPE_PORT_ID | RTE_FLOW_ACTION_TYPE_METER | RTE_FLOW_ACTION_TYPE_SECURITY
  | RTE_FLOW_ACTION_TYPE_OF_SET_MPLS_TTL | RTE_FLOW_ACTION_TYPE_OF_SET_NW_TTL
  | RTE_FLOW_ACTION_TYPE_OF_PUSH_VLAN | RTE_FLOW_ACTION_TYPE_OF_SET_VLAN_VID
  | RTE_FLOW_ACTION_TYPE_OF_SET_VLAN_PCP | RTE_FLOW_ACTION_TYPE_OF_POP_MPLS
  | RTE_FLOW_ACTION_TYPE_OF_PUSH_MPLS | RTE_FLOW_ACTION_TYPE_VXLAN_ENCAP
  | RTE_FLOW_ACTION_TYPE_NVGRE_ENCAP | RTE_FLOW_ACTION_TYPE_RAW_ENCAP
  | RTE_FLOW_ACTION_TYPE_RAW_DECAP | RTE_FLOW_ACTION_TYPE_SET_IPV4_SRC
  | RTE_FLOW_ACTION_TYPE_SET_IPV4_DST | RTE_FLOW_ACTION_TYPE_SET_IPV6_SRC
  | RTE_FLOW_ACTION_TYPE_SET_IPV6_DST | RTE_FLOW_ACTION_TYPE_SET_TP_SRC
  | RTE_FLOW_ACTION_TYPE_SET_TP_DST | RTE_FLOW_ACTION_TYPE_SET_TTL
  | RTE_FLOW_ACTION_TYPE_SET_MAC_SRC | RTE_FLOW_ACTION_TYPE_SET_MAC_DST
  | RTE_FLOW_ACTION_TYPE_SET_TAG | RTE_FLOW_ACTION_TYPE_SET_META => Ok tt
  end.

(** The webhook passes no look-up of VFs to the conversion. *)
Definition no_sriov : SriovUtils := {| GetPfName _ := Panic; GetVFID _ := Panic |}.

Definition FlowRules_validate (rules : FlowRules) : outcome unit :=
  validateFlowPatterns (rule_Pattern rules);;
  range_check 0 (rule_Action rules) (λ i action,
    match GetFlowActionType (fa_Type action) with
    | None => Err (Errorf "action[%d] invalid: unknown type: %v")
    | Some actionType =>
        conf ← match fa_Conf action with
               | Some raw =>
                   Some <$> wrap "error: %s" (GetFlowActionAnyForWebhook (H0 := no_sriov) (fa_Type action) raw)
               | None => Ok None
               end;
        validateRteFlowAction {| action_Type := actionType; action_Conf := conf |};;
        reject (Errorf "invalid: last action must be RTE_FLOW_ACTION_TYPE_END")
          when ((i =? length (rule_Action rules) - 1)%nat
                && negb (String.eqb (fa_Type action) "RTE_FLOW_ACTION_TYPE_END"))
    end);;
  validateFlowAttr (rule_Attr rules);;
  validatePortId (rule_PortId rules).

Definition NodeFlowConfig_ValidateCreate (r : NodeFlowConfig) : outcome unit :=
  range_check 0 (nfc_Rules (nfc_Spec r)) (λ _, FlowRules_validate).

Definition NodeFlowConfig_ValidateUpdate (r : NodeFlowConfig) : outcome unit :=
  range_check 0 (nfc_Rules (nfc_Spec r)) (λ _, FlowRules_validate).

Definition NodeFlowConfig_ValidateDelete (r : NodeFlowConfig) : outcome unit := Ok tt.

(** ** clusterflowconfig_webhook.go *)

Definition validateClusterFlowAction (actions : list ClusterFlowAction) : outcome unit :=
  range_check 0 actions (λ i action,
    if cfa_Type action =? ToPodInterface then
      match cfa_Conf action with
      | None => Err (Errorf "action %s at %d have empty configuration")
      | Some raw =>
          podInterfaceName ← wrap "unable to unmarshal action %s at %d raw data %v"
                               (Unmarshal_ToPodInterfaceConf raw);
          reject (Errorf "POD network interface name cannot be empty action %s at %d")
            when (String.eqb (NetInterfaceName podInterfaceName) "")
      end
    else Err (Errorf "invalid action type: %s at %d")).

Definition ClusterFlowRule_validate (rules : ClusterFlowRule) : outcome unit :=
  validateFlowPatterns (cr_Pattern rules);;
  validateClusterFlowAction (cr_Action rules);;
  validateFlowAttr (cr_Attr rules).

Definition validatePodSelector (podSelector : option LabelSelector) : outcome unit :=
  match podSelector with
  | None => Err (Errorf "PodSelector is undefined, please add it. Note: to select all pods use empty selector")
  | Some _ => Ok tt
  end.

Definition ClusterFlowConfig_ValidateCreate (r : ClusterFlowConfig) : outcome unit :=
  range_check 0 (cfc_Rules (cfc_Spec r)) (λ _, ClusterFlowRule_validate);;
  validatePodSelector (PodSelector (cfc_Spec r)).

Definition ClusterFlowConfig_ValidateUpdate (r : ClusterFlowConfig) : outcome unit :=
  range_check 0 (cfc_Rules (cfc_Spec r)) (λ _, ClusterFlowRule_validate);;
  validatePodSelector (PodSelector (cfc_Spec r)).

Definition ClusterFlowConfig_ValidateDelete (r : ClusterFlowConfig) : outcome unit := Ok tt.
End items.
