(* ===== verification/WebhookSpec.v ===== *)
(** * What the flow configuration webhooks accept

    Exact characterisations of the accepted resources, of the panics, and of what the
    comparison of MAC addresses sees. *)

From S2P Require Import Prelude GoStrings GoNet GoCrypto GoJson GoJsonDecode FlowEnums FlowApi AnyModel FlowItems FlowItemsSpec FlowTypes Webhook.

Local Open Scope Z_scope.

(** ** Specifications *)

(** When a field's value is allowed against the spec's value, by the part it is in. *)
Definition field_allowed (itemName : string) (specValue fieldValue : Z) : Prop :=
  itemName = "spec"%string
  ∨ ((specValue ≠ 0 ∨ fieldValue = 0) ∧ (itemName = "last"%string → specValue ≤ fieldValue)).

Definition ipv4_fields : list (RteIpv4Hdr → Z) :=
  [VersionIhl; TypeOfService; TotalLength; PacketId; FragmentOffset; TimeToLive; NextProtoId;
   HdrChecksum; SrcAddr; DstAddr].

(** The ranges the webhook enforces on an IPv4 header. *)
Definition ipv4_ranges : list ((RteIpv4Hdr → Z) * Z) :=
  [(VersionIhl, 255); (TypeOfService, 255); (TotalLength, 65535); (PacketId, 65535);
   (FragmentOffset, 65535); (TimeToLive, 255); (NextProtoId, 255); (HdrChecksum, 255)].

(** The value of the bytes of a string, most significant first. *)
Fixpoint be_value (acc : Z) (s : string) : Z :=
  match s with ""%string => acc | String c s => be_value (acc * 256 + byte_val c) s end.

(** ** Fields *)

Lemma validateUint32ItemField_Ok itemName field s f :
  validateUint32ItemField itemName field s f = Ok tt ↔ field_allowed itemName s f.
Proof.
  unfold validateUint32ItemField, field_allowed.
  destruct (String.eqb_spec itemName "spec"); [naive_solver|].
  destruct (Z.eqb_spec s 0), (Z.eqb_spec f 0), (String.eqb_spec itemName "last"),
    (Z.ltb_spec f s); simpl; (split; [intros Hx|intros [Hx|[Ho Hl]]]);
    try discriminate Hx; try congruence; try (right; split; [lia|intros; first [lia|congruence]]);
    exfalso; first [lia|specialize (Hl ltac:(assumption)); lia].
Qed.

Lemma validateUint32ItemField_no_panic itemName field s f :
  validateUint32ItemField itemName field s f ≠ Panic.
Proof. unfold validateUint32ItemField. by repeat case_match. Qed.

Lemma ltb_false_iff a b : (a <? b) = false ↔ b ≤ a.
Proof. rewrite Z.ltb_ge. done. Qed.

(** ** MAC addresses *)

Lemma digit_val_char16 d : 0 ≤ d < 16 → digit_val (digit_char d) = Some d ∧ (d <? 16) = true.
Proof. intros Hd. split; [apply digit_val_char; lia|apply Z.ltb_lt; lia]. Qed.

Lemma parse_hex_encode s acc : parse_digits 16 (hex_encode s) acc = Some (be_value acc s).
Proof.
  revert acc. induction s as [|c s IH]; intros acc; [done|].
  cbn [hex_encode be_value]. unfold hex_byte. cbn [parse_digits].
  pose proof (byte_val_range c) as Hc.
  assert (H1 : 0 ≤ byte_val c / 16 < 16) by (split; [apply Z.div_pos|apply Z.div_lt_upper_bound]; lia).
  assert (H2 : 0 ≤ byte_val c mod 16 < 16) by (apply Z.mod_pos_bound; lia).
  destruct (digit_val_char16 _ H1) as [-> ->], (digit_val_char16 _ H2) as [-> ->].
  rewrite IH. f_equal. f_equal. pose proof (Z.div_mod (byte_val c) 16). lia.
Qed.

Lemma be_value_app acc s t : be_value acc (s +:+ t) = be_value (be_value acc s) t.
Proof. revert acc. induction s as [|c s IH]; intros acc; [done|]. simpl. apply IH. Qed.

Lemma be_value_acc acc s :
  be_value acc s = acc * 256 ^ Z.of_nat (String.length s) + be_value 0 s.
Proof.
  revert acc. induction s as [|c s IH]; intros acc; [simpl; lia|].
  cbn [be_value String.length]. rewrite IH, (IH (0 * 256 + byte_val c)).
  rewrite Nat2Z.inj_succ, Z.pow_succ_r by lia. lia.
Qed.

Lemma be_value_range s : 0 ≤ be_value 0 s < 256 ^ Z.of_nat (String.length s).
Proof.
  induction s as [|c s IH]; [simpl; lia|]. cbn [be_value String.length].
  rewrite be_value_acc, Nat2Z.inj_succ, Z.pow_succ_r by lia. pose proof (byte_val_range c). nia.
Qed.

Lemma hex_encode_head s : s ≠ ""%string →
  hex_encode s ≠ ""%string ∧ expect "-" (hex_encode s) = None ∧ expect "+" (hex_encode s) = None.
Proof.
  destruct s as [|c s]; [done|]. intros _. cbn [hex_encode]. unfold hex_byte. split; [done|].
  destruct c as [[] [] [] [] [] [] [] []]; vm_compute; done.
Qed.

(** The value the webhook compares: the low 32 bits of an address of at most seven bytes
    (or longer, if it is below 2^63). *)
Lemma encodeHexMacAddress_value addr :
  addr ≠ ""%string → be_value 0 addr < 2 ^ 63 →
  encodeHexMacAddress addr = Ok (be_value 0 addr mod 2 ^ 32).
Proof.
  intros Hne Hlt. unfold encodeHexMacAddress, ParseInt, ParseUint.
  destruct (hex_encode_head addr Hne) as (Hx & -> & ->).
  destruct (String.eqb_spec (hex_encode addr) ""); [done|].
  rewrite parse_hex_encode. rewrite (proj2 (Z.ltb_lt _ (2 ^ 64))) by lia.
  cbn [mbind outcome_bind]. rewrite (proj2 (Z.ltb_lt _ (2 ^ (64 - 1)))) by lia. done.
Qed.

Section codec.
Context `{HA : !AnyCodec} `{HL : !AnyCodecLaws HA}.

Lemma unmarshal_spec_no_panic fmt msg spec : unmarshal_spec fmt msg spec ≠ Panic.
Proof. destruct spec; [|done]. simpl. rewrite wrap_panic. apply any_UnmarshalTo_total. Qed.

Lemma unmarshal_item_no_panic fmt msg item : unmarshal_item fmt msg item ≠ Panic.
Proof. unfold unmarshal_item. rewrite wrap_panic. apply any_UnmarshalTo_total. Qed.

(** ** Properties *)

(** An IPv4 item is accepted exactly when it has a header within the ranges of the
    webhook and, where the spec has a header, every field is allowed against the spec's;
    an item without a header makes the webhook panic. *)
Theorem validateRteFlowItemIpv4_spec itemName spec item sv iv :
  unmarshal_spec "could not unmarshal %s: %s" "RteFlowItemIpv4" spec = Ok sv →
  unmarshal_item "could not unmarshal %s: %s" "RteFlowItemIpv4" item = Ok iv →
  (validateRteFlowItemIpv4 itemName spec item = Ok tt
   ↔ ∃ hdr, ipv4_Hdr (RteFlowItemIpv4_of iv) = Some hdr
       ∧ (∀ f bound, (f, bound) ∈ ipv4_ranges → f hdr ≤ bound)
       ∧ ∀ specHdr, ipv4_Hdr (RteFlowItemIpv4_of sv) = Some specHdr →
           ∀ f, f ∈ ipv4_fields → field_allowed itemName (f specHdr) (f hdr))
  ∧ (validateRteFlowItemIpv4 itemName spec item = Panic
     ↔ ipv4_Hdr (RteFlowItemIpv4_of iv) = None).
Proof.
  intros Hs Hi. unfold validateRteFlowItemIpv4. rewrite Hs, Hi.
  cbn [fmap outcome_fmap mbind outcome_bind].
  destruct (ipv4_Hdr (RteFlowItemIpv4_of iv)) as [hdr|]; [|naive_solver].
  assert (Hr : (∀ f bound, (f, bound) ∈ ipv4_ranges → f hdr ≤ bound)
    ↔ Forall (λ fb, fb.1 hdr ≤ fb.2) ipv4_ranges).
  { rewrite Forall_forall. split; [intros Hx [f b]; apply Hx|intros Hx f b; apply (Hx (f, b))]. }
  split.
  - trans (Forall (λ fb, fb.1 hdr ≤ fb.2) ipv4_ranges
      ∧ ∀ specHdr, ipv4_Hdr (RteFlowItemIpv4_of sv) = Some specHdr →
          Forall (λ f, field_allowed itemName (f specHdr) (f hdr)) ipv4_fields).
    + rewrite !outcome_bind_unit_Ok, !reject_Ok, !ltb_false_iff. unfold ipv4_ranges, ipv4_fields.
      repeat setoid_rewrite Forall_cons. setoid_rewrite Forall_nil. cbn [fst snd].
      destruct (ipv4_Hdr (RteFlowItemIpv4_of sv)) as [specHdr|]; [|naive_solver].
      rewrite !outcome_bind_unit_Ok, !validateUint32ItemField_Ok. rewrite some_forall. tauto.
    + rewrite <- Hr. setoid_rewrite Forall_forall. naive_solver.
  - split; [|done]. intros Hp. exfalso. revert Hp.
    destruct (ipv4_Hdr (RteFlowItemIpv4_of sv)) as [specHdr|];
      repeat apply checks_no_panic; try apply reject_no_panic;
      try apply validateUint32ItemField_no_panic; done.
Qed.

(** The webhook sees only the last four bytes of a six-byte MAC address: addresses that
    differ in the first two bytes are not told apart, and one whose last four bytes are zero
    counts as unset, so that a mask or range over it is refused. *)
Theorem validate_mac_low_bytes itemName field p q t u :
  String.length p = 2%nat → String.length q = 2%nat →
  String.length t = 4%nat → String.length u = 4%nat →
  encodeHexMacAddress (p +:+ t) = Ok (be_value 0 t)
  ∧ validate_mac itemName field (Some {| AddrBytes := p +:+ t |}) (Some {| AddrBytes := q +:+ u |})
    = validateUint32ItemField itemName field (be_value 0 t) (be_value 0 u).
Proof.
  intros Hp Hq Ht Hu.
  assert (Henc : ∀ a b, String.length a = 2%nat → String.length b = 4%nat →
    encodeHexMacAddress (a +:+ b) = Ok (be_value 0 b)).
  { intros a b Ha Hb. pose proof (be_value_range a) as Hra. pose proof (be_value_range b) as Hrb.
    pose proof (be_value_acc (be_value 0 a) b) as Hv. rewrite <- be_value_app, Hb in Hv.
    rewrite Ha in Hra. rewrite Hb in Hrb. change (256 ^ Z.of_nat 2) with 65536 in *.
    change (256 ^ Z.of_nat 4) with (2 ^ 32) in *.
    rewrite encodeHexMacAddress_value, Hv; [|by destruct a|lia].
    by rewrite Z.add_comm, Z.mod_add, Z.mod_small by lia. }
  split; [by apply Henc|]. unfold validate_mac. cbn [AddrBytes]. by rewrite !Henc.
Qed.

(** A VF action is accepted exactly when its configuration unpacks to an index of at
    most 255, a one-bit [original] and no reserved bits; without configuration it is
    refused. *)
Theorem validateRteFlowActionVf_spec conf :
  (validateRteFlowActionVf conf = Ok tt
   ↔ ∃ v, any_UnmarshalTo conf "RteFlowActionVf" = Ok v ∧ vf_Id (RteFlowActionVf_of v) ≤ 255
       ∧ vf_Original (RteFlowActionVf_of v) ≤ 1 ∧ vf_Reserved (RteFlowActionVf_of v) ≤ 0)
  ∧ validateRteFlowActionVf conf ≠ Panic
  ∧ (conf = None → ∃ e, validateRteFlowActionVf conf = Err e).
Proof.
  unfold validateRteFlowActionVf. split_and!.
  - rewrite outcome_bind_Ok. setoid_rewrite fmap_Ok. setoid_rewrite wrap_Ok.
    repeat setoid_rewrite outcome_bind_unit_Ok. repeat setoid_rewrite reject_Ok.
    repeat setoid_rewrite ltb_false_iff. naive_solver.
  - rewrite bind_panic, fmap_panic, wrap_panic.
    intros [Hp|(v & _ & Hp)]; [by apply any_UnmarshalTo_total in Hp|].
    revert Hp. repeat apply checks_no_panic; apply reject_no_panic.
  - intros ->. destruct (any_nil "RteFlowActionVf") as [e ->]. by eexists.
Qed.

Lemma validateFlowPatterns_Ok patterns :
  validateFlowPatterns patterns = Ok tt
  ↔ Forall (λ item, validateRteFlowItem item = Ok tt) patterns
    ∧ ∀ item, last patterns = Some item → fi_Type item = "RTE_FLOW_ITEM_TYPE_END"%string.
Proof.
  unfold validateFlowPatterns. rewrite range_check_Ok, Forall_lookup.
  setoid_rewrite outcome_bind_unit_Ok. setoid_rewrite reject_Ok. setoid_rewrite wrap_Ok.
  rewrite last_lookup. split.
  - intros H. split; [intros i x Hx; by apply (H i)|]. intros item Hl.
    destruct (H _ _ Hl) as [_ Hend]. cbn in Hend. rewrite Nat.sub_1_r, Nat.eqb_refl in Hend.
    cbn [andb] in Hend. by apply negb_false_iff, String.eqb_eq in Hend.
  - intros [Hall Hlast] i x Hx. split; [by apply (Hall i)|]. cbn [Nat.add].
    destruct (Nat.eqb_spec i (length patterns - 1)) as [->|]; [|done].
    rewrite Nat.sub_1_r in Hx. rewrite (Hlast x Hx). done.
Qed.

(** A pattern is accepted exactly when each of its items is and its last item, if it has
    one, is the END item. *)
Theorem validateFlowPatterns_spec patterns :
  validateFlowPatterns patterns = Ok tt
  ↔ Forall (λ item, validateRteFlowItem item = Ok tt) patterns
    ∧ ∀ item, last patterns = Some item → fi_Type item = "RTE_FLOW_ITEM_TYPE_END"%string.
Proof. apply validateFlowPatterns_Ok. Qed.

(** What one action of a rule must satisfy. *)
Definition action_accepted (action : FlowAction) : Prop :=
  ∃ ty conf, GetFlowActionType (fa_Type action) = Some ty
    ∧ match fa_Conf action with
      | None => conf = None
      | Some raw => ∃ a, GetFlowActionAnyForWebhook (H0 := no_sriov) (fa_Type action) raw = Ok a
                         ∧ conf = Some a
      end
    ∧ validateRteFlowAction {| action_Type := ty; action_Conf := conf |} = Ok tt.

Lemma validate_action_Ok action (k : outcome unit) :
  match GetFlowActionType (fa_Type action) with
  | None => Err (Errorf "action[%d] invalid: unknown type: %v")
  | Some actionType =>
      conf ← match fa_Conf action with
             | Some raw =>
                 Some <$> wrap "error: %s" (GetFlowActionAnyForWebhook (H0 := no_sriov) (fa_Type action) raw)
             | None => Ok None
             end;
      validateRteFlowAction {| action_Type := actionType; action_Conf := conf |};; k
  end = Ok tt ↔ action_accepted action ∧ k = Ok tt.
Proof.
  unfold action_accepted. destruct (GetFlowActionType (fa_Type action)) as [ty|];
    [|split; [done|naive_solver]].
  rewrite outcome_bind_Ok. setoid_rewrite outcome_bind_unit_Ok.
  destruct (fa_Conf action) as [raw|]; [|naive_solver].
  setoid_rewrite fmap_Ok. setoid_rewrite wrap_Ok. naive_solver.
Qed.

Lemma validateFlowAttr_Ok attr :
  validateFlowAttr attr = Ok tt
  ↔ ∃ a, attr = Some a ∧ attr_Ingress a ≤ 1 ∧ attr_Egress a ≤ 1 ∧ attr_Transfer a ≤ 1.
Proof.
  unfold validateFlowAttr, validateRteFlowAttr. destruct attr as [a|]; [|naive_solver].
  rewrite !outcome_bind_unit_Ok, !reject_Ok, !ltb_false_iff. cbn. naive_solver.
Qed.

Lemma FlowRules_validate_Ok rules :
  FlowRules_validate rules = Ok tt
  ↔ validateFlowPatterns (rule_Pattern rules) = Ok tt
    ∧ Forall action_accepted (rule_Action rules)
    ∧ (∀ action, last (rule_Action rules) = Some action →
         fa_Type action = "RTE_FLOW_ACTION_TYPE_END"%string)
    ∧ ∃ a, rule_Attr rules = Some a ∧ attr_Ingress a ≤ 1 ∧ attr_Egress a ≤ 1 ∧ attr_Transfer a ≤ 1.
Proof.
  unfold FlowRules_validate. rewrite !outcome_bind_unit_Ok, validateFlowAttr_Ok, range_check_Ok.
  setoid_rewrite validate_action_Ok. setoid_rewrite reject_Ok.
  rewrite last_lookup, Forall_lookup. unfold validatePortId. split.
  - intros (Hpat & Hact & Hattr & _). split_and!; [done|naive_solver| |done].
    intros action Hl. destruct (Hact _ _ Hl) as [_ Hend]. cbn in Hend.
    rewrite Nat.sub_1_r, Nat.eqb_refl in Hend. cbn [andb] in Hend.
    by apply negb_false_iff, String.eqb_eq in Hend.
  - intros (Hpat & Hact & Hlast & Hattr). split_and!; [done| |done|done].
    intros i x Hx. split; [by apply (Hact i)|]. cbn [Nat.add].
    destruct (Nat.eqb_spec i (length (rule_Action rules) - 1)) as [->|]; [|done].
    rewrite Nat.sub_1_r in Hx. rewrite (Hlast x Hx). done.
Qed.


(** A rule with an acceptable pattern and acceptable actions but without attributes
    makes the webhook panic instead of being refused. *)
Theorem FlowRules_validate_no_attr rules :
  FlowRules_validate rules = Ok tt →
  FlowRules_validate {| rule_PortId := rule_PortId rules; rule_Attr := None;
                        rule_Pattern := rule_Pattern rules; rule_Action := rule_Action rules |}
  = Panic.
Proof.
  unfold FlowRules_validate. rewrite !outcome_bind_unit_Ok. cbn [rule_Pattern rule_Action rule_Attr].
  intros (-> & -> & _). done.
Qed.
End codec.

(** ** Concrete resources *)

Definition example_attr : FlowAttr :=
  {| attr_Group := 0; attr_Priority := 0; attr_Ingress := 1; attr_Egress := 0;
     attr_Transfer := 0; attr_Reserved := 0 |}.

Definition end_item : FlowItem :=
  {| fi_Type := "RTE_FLOW_ITEM_TYPE_END"; fi_Spec := None; fi_Last := None; fi_Mask := None |}.

Definition ipv4_item : FlowItem :=
  {| fi_Type := "RTE_FLOW_ITEM_TYPE_IPV4";
     fi_Spec := Some (json_text "{'hdr':{'src_addr':'192.168.100.10'}}");
     fi_Last := None;
     fi_Mask := Some (json_text "{'hdr':{'src_addr':'255.255.255.255'}}") |}.

Definition end_action : FlowAction := {| fa_Type := "RTE_FLOW_ACTION_TYPE_END"; fa_Conf := None |}.

Definition vf_action : FlowAction :=
  {| fa_Type := "RTE_FLOW_ACTION_TYPE_VFPCIADDR";
     fa_Conf := Some (json_text "{'addr':'0000:18:01.7'}") |}.

Definition example_rule : FlowRules :=
  {| rule_PortId := 0; rule_Attr := Some example_attr; rule_Pattern := [ipv4_item; end_item];
     rule_Action := [vf_action; end_action] |}.

Example example_rule_accepted : FlowRules_validate example_rule = Ok tt.
Proof. vm_compute. reflexivity. Qed.

(** The message a value packs into, for the concrete codec. *)
Definition pack (name : string) (m : struct_val) : option Any :=
  match any_New name m with Ok a => Some a | _ => None end.

Definition ipv4_spec_msg : RteFlowItemIpv4 :=
  {| ipv4_Hdr := Some {| VersionIhl := 0; TypeOfService := 0; TotalLength := 0; PacketId := 0;
       FragmentOffset := 0; TimeToLive := 64; NextProtoId := 0; HdrChecksum := 0;
       SrcAddr := 3232261130; DstAddr := 0 |} |}.

Definition ipv4_last_msg : RteFlowItemIpv4 :=
  {| ipv4_Hdr := Some {| VersionIhl := 0; TypeOfService := 0; TotalLength := 0; PacketId := 0;
       FragmentOffset := 0; TimeToLive := 128; NextProtoId := 0; HdrChecksum := 0;
       SrcAddr := 3232261140; DstAddr := 0 |} |}.

Lemma validateRteFlowItemIpv4_spec_witness :
  validateRteFlowItemIpv4 "last" (pack "RteFlowItemIpv4" (RteFlowItemIpv4_to ipv4_spec_msg))
    (pack "RteFlowItemIpv4" (RteFlowItemIpv4_to ipv4_last_msg)) = Ok tt
  ∧ validateRteFlowItemIpv4 "spec" None
      (pack "RteFlowItemIpv4" (RteFlowItemIpv4_to {| ipv4_Hdr := None |})) = Panic.
Proof.
  split.
  - eapply (validateRteFlowItemIpv4_spec "last"); [vm_compute; reflexivity..|].
    eexists. split; [reflexivity|]. split.
    + intros f bound Hf. unfold ipv4_ranges in Hf. rewrite !elem_of_cons, elem_of_nil in Hf.
      repeat destruct Hf as [[= -> ->]|Hf]; try done; cbn; lia.
    + intros specHdr [= <-] f Hf. unfold ipv4_fields in Hf. rewrite !elem_of_cons, elem_of_nil in Hf.
      repeat destruct Hf as [->|Hf]; try done; right; cbn; (split; [|intros _]; lia).
  - eapply (validateRteFlowItemIpv4_spec "spec"); [reflexivity|vm_compute; reflexivity|reflexivity].
Defined.

Definition bytes2 (a b : Z) : string := string_of [a; b].
Definition bytes4 (a b c d : Z) : string := string_of [a; b; c; d].

Lemma validate_mac_low_bytes_witness :
  encodeHexMacAddress (bytes2 0 27 +:+ bytes4 0 0 0 0) = Ok 0
  ∧ validate_mac "mask" "dst" (Some {| AddrBytes := bytes2 0 27 +:+ bytes4 0 0 0 0 |})
      (Some {| AddrBytes := bytes2 255 255 +:+ bytes4 255 255 255 255 |})
    = Err (Errorf "spec.%s must be specified").
Proof.
  exact (validate_mac_low_bytes "mask" "dst" (bytes2 0 27) (bytes2 255 255) (bytes4 0 0 0 0)
    (bytes4 255 255 255 255) eq_refl eq_refl eq_refl eq_refl).
Defined.

Lemma validateRteFlowActionVf_spec_witness :
  validateRteFlowActionVf (pack "RteFlowActionVf" (vf_with_id 7)) = Ok tt
  ∧ validateRteFlowActionVf (pack "RteFlowActionVf" (vf_with_id 256)) ≠ Ok tt
  ∧ ∃ e, validateRteFlowActionVf None = Err e.
Proof.
  split_and!.
  - apply (validateRteFlowActionVf_spec (pack "RteFlowActionVf" (vf_with_id 7))).
    exists (vf_with_id 7). split; [vm_compute; reflexivity|]. cbn. lia.
  - intros H. apply (validateRteFlowActionVf_spec _) in H as (v & Hv & Hid & _).
    vm_compute in Hv. injection Hv as <-. vm_compute in Hid. done.
  - by apply (validateRteFlowActionVf_spec None).
Defined.

Lemma FlowRules_validate_no_attr_witness :
  FlowRules_validate {| rule_PortId := 0; rule_Attr := None;
                        rule_Pattern := rule_Pattern example_rule;
                        rule_Action := rule_Action example_rule |} = Panic.
Proof. apply (FlowRules_validate_no_attr example_rule). vm_compute. reflexivity. Defined.
