(* ===== verification/Dcf.v ===== *)
(** * The client of the DCF flow service

    controllers/flowconfig/dcf_client.go over the generated stubs of flow_grpc.pb.go: each
    call opens a connection, invokes one method and closes the connection. The gRPC
    channel is a parameter ([GrpcChannel]) with its own state; the controller uses the
    client through the interface [FlowServiceClient]. The theorems are in [DcfSpec]:
    no call leaves a connection open, and when the check for readiness succeeds. *)

From S2P Require Import Prelude Process FlowApi.

(** ** Messages only this file passes on *)

Record RequestofPort : Set := { port_PortId : Z }.
Record RequestIsolate : Set := { iso_PortId : Z; iso_IsolatedMode : Z }.

Record RteFlowQueryCount : Set := {
  Reset_ : Z; HitsSet : Z; BytesSet : Z; query_Reserved : Z; Hits : Z; Bytes : Z
}.
Record ResponseFlowQuery : Set := { query_ErrorInfo : option RteFlowError; query_Data : option RteFlowQueryCount }.

Record RteFlowListResult : Set := { list_FlowId : Z; list_Description : string }.
Record ResponseFlowList : Set := { Results : list RteFlowListResult }.

(** ** The interface of flow_grpc.pb.go the controller calls *)

(** [Err e] stands for the pair of a nil response and an error, which is what the stubs
    return when the invocation fails. *)
Class FlowServiceClient (S : Type) : Type := {
  Validate : RequestFlowCreate → M S ResponseFlow;
  Create : RequestFlowCreate → M S ResponseFlowCreate;
  Destroy : RequestFlowofPort → M S ResponseFlow;
  ListPorts : M S ResponsePortList;
}.

(** ** The channel *)
Class GrpcChannel (S : Type) : Type := {
  DialContext : M S unit;
  Close : S → S;
  Invoke_Validate : RequestFlowCreate → M S ResponseFlow;
  Invoke_Create : RequestFlowCreate → M S ResponseFlowCreate;
  Invoke_Destroy : RequestFlowofPort → M S ResponseFlow;
  Invoke_Query : RequestFlowofPort → M S ResponseFlowQuery;
  Invoke_List : RequestofPort → M S ResponseFlowList;
  Invoke_Flush : RequestofPort → M S ResponseFlow;
  Invoke_Isolate : RequestIsolate → M S ResponseFlow;
  Invoke_ListPorts : M S ResponsePortList;
}.

Section dcf_client.
Context {S : Type} `{!GrpcChannel S}.

Definition getDCFFlowClientConn : M S unit :=
  wrapM "unable to connect to DCF grpc endpoint: %s" DialContext.

(** [defer conn.Close()]: once [dial] has made a connection it is closed on every exit of
    the call. *)
Definition closing {A} (dial : M S unit) (call : M S A) : M S A := λ s,
  match dial s with
  | (Ok _, s') => let (o, s'') := call s' in (o, Close s'')
  | (Err e, s') => (Err e, s')
  | (Panic, s') => (Panic, s')
  end.

Definition with_conn {A} (call : M S A) : M S A := closing getDCFFlowClientConn call.

Definition dcf_Validate (rule : RequestFlowCreate) : M S ResponseFlow := with_conn (Invoke_Validate rule).
Definition dcf_Create (rule : RequestFlowCreate) : M S ResponseFlowCreate := with_conn (Invoke_Create rule).
Definition dcf_Destroy (flow : RequestFlowofPort) : M S ResponseFlow := with_conn (Invoke_Destroy flow).
Definition dcf_Query (flow : RequestFlowofPort) : M S ResponseFlowQuery := with_conn (Invoke_Query flow).
Definition dcf_List (port : RequestofPort) : M S ResponseFlowList := with_conn (Invoke_List port).
Definition dcf_Flush (port : RequestofPort) : M S ResponseFlow := with_conn (Invoke_Flush port).
Definition dcf_Isolate (port : RequestIsolate) : M S ResponseFlow := with_conn (Invoke_Isolate port).
Definition dcf_ListPorts : M S ResponsePortList := with_conn Invoke_ListPorts.

(** [GetDCFClient()]. *)
Definition dcfClient : FlowServiceClient S := {|
  Validate := dcf_Validate; Create := dcf_Create; Destroy := dcf_Destroy; ListPorts := dcf_ListPorts;
|}.

(** ** The check for readiness *)

Definition readiness_steps : nat := 10.

(** The closure: an error of the call is an attempt that failed, whatever it is. *)
Definition client_ready (u : unit) : M S (bool * unit) :=
  answered ← attempt (closing DialContext Invoke_ListPorts);
  mret (match answered with inr _ => true | inl _ => false end, u).

Definition CheckClientReadiness `{!Backoff S} : M S unit :=
  r ← ExponentialBackoff readiness_steps client_ready tt;
  if (r.1 : bool) then mret tt else throw (ExtError "timed out waiting for the condition").
End dcf_client.

(** The delays before the attempts after the first, in milliseconds: 50, doubled each time. *)
Definition readiness_delays : list Z := (λ i, 50 * 2 ^ Z.of_nat i)%Z <$> seq 0 (readiness_steps - 1).

Definition readiness_wait : Z := foldr Z.add 0%Z readiness_delays.
