(* ===== verification/NodeFlowConfig.v ===== *)
(** * The node flow configuration controller

    controllers/flowconfig/nodeflowconfig_controller.go: translates the rules of a
    NodeFlowConfig into flow creation requests, and brings the flow service and the cache
    of created rules in line with them. The world of the reconciler is its cache and the
    outside (flow service and API server), a parameter [S]. *)

From S2P Require Import Prelude GoStrings GoCrypto GoJson GoJsonDecode FlowEnums FlowApi FlowItems FlowTypes FlowSets Dcf.

Local Open Scope Z_scope.

(** [automaticPortId = math.MaxUint32] (types.go). *)
Definition automaticPortId : Z := 4294967295.

(** ** getFlowCreateHash: SHA-256 of the JSON text of a request *)

Definition ptr_member {A} (name : string) (enc : A → string) (o : option A) : list (string * string) :=
  match o with Some a => [(name, enc a)] | None => [] end.

Definition slice_member {A} (name : string) (enc : A → string) (l : list A) : list (string * string) :=
  match l with [] => [] | _ => [(name, encode_array (enc <$> l))] end.

Definition encode_Any (a : Any) : string :=
  encode_object (str_member "type_url" (TypeUrl a)
    ++ omitempty (String.eqb (Value a) "") "value" (encode_string (b64_encode (Value a)))).

Definition encode_RteFlowAttr (a : RteFlowAttr) : string :=
  encode_object (num_member "group" (Group a) ++ num_member "priority" (Priority a)
    ++ num_member "ingress" (Ingress a) ++ num_member "egress" (Egress a)
    ++ num_member "transfer" (Transfer a) ++ num_member "reserved" (Reserved a)).

Definition encode_RteFlowItem (i : RteFlowItem) : string :=
  encode_object (num_member "type" (RteFlowItemType_number (item_Type i))
    ++ ptr_member "spec" encode_Any (item_Spec i) ++ ptr_member "last" encode_Any (item_Last i)
    ++ ptr_member "mask" encode_Any (item_Mask i)).

Definition encode_RteFlowAction (a : RteFlowAction) : string :=
  encode_object (num_member "type" (RteFlowActionType_number (action_Type a))
    ++ ptr_member "conf" encode_Any (action_Conf a)).

(** [json.Marshal(req)], which cannot fail on this type. *)
Definition encode_RequestFlowCreate (req : RequestFlowCreate) : string :=
  encode_object (num_member "port_id" (req_PortId req)
    ++ ptr_member "attr" encode_RteFlowAttr (req_Attr req)
    ++ slice_member "pattern" encode_RteFlowItem (req_Pattern req)
    ++ slice_member "action" encode_RteFlowAction (req_Action req)).

Definition getFlowCreateHash (req : RequestFlowCreate) : outcome string :=
  Ok (hex_encode (sha256 (encode_RequestFlowCreate req))).

(** The key a request gets in the maps of [getToAddAndDelete]: empty on an error. *)
Definition flow_key (req : RequestFlowCreate) : string :=
  match getFlowCreateHash req with Ok key => key | _ => "" end.

(** ** The predicate on watched events *)

Record object_meta : Set := { obj_Name : string; obj_Generation : Z }.

Inductive event : Set :=
  | CreateEvent (o : object_meta)
  | UpdateEvent (old new : object_meta)
  | DeleteEvent (o : object_meta) (DeleteStateUnknown : bool)
  | GenericEvent (o : object_meta).

Definition getNodeFilterPredicate (nodeName : string) (e : event) : bool :=
  match e with
  | CreateEvent o => String.eqb (obj_Name o) nodeName
  | UpdateEvent old new =>
      negb (obj_Generation old =? obj_Generation new)
      && (String.eqb (obj_Name old) nodeName || String.eqb (obj_Name new) nodeName)
  | DeleteEvent o unknown => negb unknown && String.eqb (obj_Name o) nodeName
  | GenericEvent o => String.eqb (obj_Name o) nodeName
  end.

(** ** Custom errors *)

Definition NewDCFError (fmt : string) (err : error) : error := Wrapf fmt err.
Definition NewRteFlowError (fmt : string) : error := Errorf fmt.

(** An [ErrorInfo] that is set to another type than "none". *)
Definition is_flow_error (info : option RteFlowError) : bool :=
  match info with
  | Some e => negb (err_Type e =? RteFlowErrorType_number RTE_FLOW_ERROR_TYPE_NONE)
  | None => false
  end.

(** ** Translation of the rules: the parts that call no service *)

Section translation.
Context `{!AnyCodec} `{!SriovUtils}.

Definition item_part (fmt typeName : string) (part : option RawExtension) : outcome (option Any) :=
  match part with
  | None => Ok None
  | Some raw => Some <$> wrap fmt (GetFlowItemAny typeName raw)
  end.

(** One pattern item. What was packed for [Last] is assigned to the field [Spec]. *)
Definition getRteFlowItem (item : FlowItem) : outcome RteFlowItem :=
  match RteFlowItemType_value (fi_Type item) with
  | None => Err (Errorf "invalid flow item type %s")
  | Some flowType =>
      specAny ← item_part "error getting Spec pattern for flowtype %s : %v" (fi_Type item) (fi_Spec item);
      lastAny ← item_part "error getting Last pattern for flowtype %s : %v" (fi_Type item) (fi_Last item);
      maskAny ← item_part "error getting Mask pattern for flowtype %s : %v" (fi_Type item) (fi_Mask item);
      Ok {| item_Type := flowType;
            item_Spec := match lastAny with Some a => Some a | None => specAny end;
            item_Last := None;
            item_Mask := maskAny |}
  end.

(** One action, and the PCI address to remember after it. *)
Definition getRteFlowAction (action : FlowAction) (podPciAddress : string) :
    outcome (RteFlowAction * string) :=
  match GetFlowActionType (fa_Type action) with
  | None => Err (Errorf "invalid action type %s")
  | Some val =>
      match fa_Conf action with
      | None => Ok ({| action_Type := val; action_Conf := None |}, podPciAddress)
      | Some raw =>
          actionAny ← wrap "error getting Spec pattern for flowtype %s : %v"
                        (GetFlowActionAny (fa_Type action) raw);
          podPciAddress ←
            (if String.eqb (fa_Type action) RTE_FLOW_ACTION_TYPE_VFPCIADDR then
               actionObj ← wrap "error unmarshalling bytes %s to ptypes.Any: %v"
                             (Unmarshal schema "RteFlowActionVfPciAddr" raw);
               Ok (if String.eqb podPciAddress "" then str_field "addr" actionObj else podPciAddress)
             else Ok podPciAddress);
          Ok ({| action_Type := val; action_Conf := Some actionAny |}, podPciAddress)
      end
  end.

Fixpoint getRteFlowActions (actions : list FlowAction) (podPciAddress : string) :
    outcome (list RteFlowAction * string) :=
  match actions with
  | [] => Ok ([], podPciAddress)
  | action :: actions =>
      '(a, podPciAddress) ← getRteFlowAction action podPciAddress;
      '(l, podPciAddress) ← getRteFlowActions actions podPciAddress;
      Ok (a :: l, podPciAddress)
  end.

Definition getRteFlowAttr (a : FlowAttr) : RteFlowAttr :=
  {| Group := attr_Group a; Priority := attr_Priority a; Ingress := attr_Ingress a;
     Egress := attr_Egress a; Transfer := attr_Transfer a; Reserved := attr_Reserved a |}.

(** The loop of [getPortIdFromDCFPort]. *)
Fixpoint find_port (pfName : string) (dcfPorts : list CrPortsInformation) : outcome Z :=
  match dcfPorts with
  | [] => Err (Errorf "unable to find DCF port that matches to traffic. Err %v")
  | dcfPort :: dcfPorts =>
      dcfPfName ← wrap "unable to get pfName of VF that handles DCF. Err %v" (GetPfName (pi_PortPci dcfPort));
      if String.eqb pfName dcfPfName then Ok (pi_PortId dcfPort) else find_port pfName dcfPorts
  end.
End translation.

(** ** The reconciler *)

(** The API server, for this resource. *)
Class NodeFlowConfigApi (S : Type) : Type := {
  nfc_Get : string * string → M S NodeFlowConfig;
  nfc_StatusUpdate : NodeFlowConfig → M S unit;
}.

Record NodeWorld (S : Type) : Type := { flowSets : FlowSets; outside : S }.
Arguments flowSets {S}.
Arguments outside {S}.

(** Of the fields of the reconciler only the set of created flows is state; the clients, the
    name of the node and the SR-IOV look-ups do not change. *)
Definition GetNodeFlowConfigReconciler {S} (fs : FlowSets) (s : S) : NodeWorld S :=
  {| flowSets := fs; outside := s |}.

Section reconciler.
Context {S : Type} `{!AnyCodec} `{!SriovUtils} `{!FlowServiceClient S} `{!NodeFlowConfigApi S} `{!MapOrder}.
Notation NW A := (M (NodeWorld S) A).

(** A call outside leaves the cache alone. *)
Definition outside_call {A} (m : M S A) : NW A := λ w,
  let (o, s) := m (outside w) in (o, {| flowSets := flowSets w; outside := s |}).

Definition update_cache (f : FlowSets → FlowSets) : NW unit :=
  modify (λ w, {| flowSets := f (flowSets w); outside := outside w |}).

Definition listDCFPorts : NW (list CrPortsInformation) :=
  dcfPortList ← outside_call ListPorts;
  mret ((λ p, {| pi_PortId := PortId p; pi_PortPci := PortPci p; pi_PortMode := PortMode p |})
          <$> Ports dcfPortList).

Definition getPortIdFromDCFPort (otherVfPciAddress : string) : NW Z :=
  pfName ← lift (wrap "unable to get pfName of VF that handles traffic. Err %v" (GetPfName otherVfPciAddress));
  dcfPorts ← wrapM "unable to get list of DCF ports. Err %v" listDCFPorts;
  lift (find_port pfName dcfPorts).

Definition getFlowCreateRequests (fr : FlowRules) : NW RequestFlowCreate :=
  pattern ← lift (collect getRteFlowItem (rule_Pattern fr));
  '(action, podPciAddress) ← lift (getRteFlowActions (rule_Action fr) "");
  portId ← (if rule_PortId fr =? automaticPortId then getPortIdFromDCFPort podPciAddress
            else mret (rule_PortId fr));
  mret {| req_PortId := portId; req_Attr := getRteFlowAttr <$> rule_Attr fr;
          req_Pattern := pattern; req_Action := action |}.

(** The loop of [getToAddAndDelete] over the requests, with the maps built so far. *)
Fixpoint to_add (fs : FlowSets) (flowReqs : list RequestFlowCreate)
    (toAdd : gmap string RequestFlowCreate) : gmap string RequestFlowCreate :=
  match flowReqs with
  | [] => toAdd
  | req :: flowReqs =>
      let key := flow_key req in
      if String.eqb key "" then to_add fs flowReqs toAdd
      else if Has fs key then to_add fs flowReqs toAdd
      else to_add fs flowReqs (<[key := req]> toAdd)
  end.

Definition getToAddAndDelete (fs : FlowSets) (flowReqs : list RequestFlowCreate) :
    gmap string RequestFlowCreate * gmap string FlowCreateRecord :=
  (to_add fs flowReqs ∅, GetCompliments fs (flow_key <$> flowReqs)).

(** [res] is nil when [err] is not, and the log call reads a field of it. *)
Definition deleteRule (k : string) (fr : FlowCreateRecord) : NW unit :=
  res ← attempt (outside_call (Destroy {| del_PortId := req_PortId (FlowRule fr); del_FlowId := FlowID fr |}));
  match res with
  | inl err => panic
  | inr _ => update_cache (λ s, Delete s k)
  end.

Definition deleteRules (toDelete : gmap string FlowCreateRecord) : NW unit :=
  forM (range_map toDelete) (λ e, deleteRule e.1 e.2).

Definition createRule (k : string) (req : RequestFlowCreate) : NW unit :=
  res ← attempt (outside_call (Validate req));
  match res with
  | inl err => throw (NewDCFError "error validating flow create request: %v" err)
  | inr res =>
      if is_flow_error (flow_ErrorInfo res)
      then throw (NewRteFlowError "received validation error: %s")
      else
        createRes ← attempt (outside_call (Create req));
        match createRes with
        | inl err => throw (NewDCFError "error creating flow rules: %v" err)
        | inr createRes =>
            if is_flow_error (create_ErrorInfo createRes)
            then throw (NewRteFlowError "received flow create error: %s")
            else update_cache (λ s, Add s k (create_FlowId createRes) req)
        end
  end.

Definition createRules (toAdd : gmap string RequestFlowCreate) : NW unit :=
  forM (range_map toAdd) (λ e, createRule e.1 e.2).

Definition createAndDeleteRules (toAdd : gmap string RequestFlowCreate)
    (toDelete : gmap string FlowCreateRecord) : NW unit :=
  deleteRules toDelete;; createRules toAdd.

Definition deleteAllRules : NW unit :=
  toDelete ← gets (λ w, GetCompliments (flowSets w) []);
  attempt (deleteRules toDelete);; mret tt.

Definition syncRules (policyInstance : NodeFlowConfig) : NW unit :=
  flowReqs ← collectM getFlowCreateRequests (nfc_Rules (nfc_Spec policyInstance));
  '(toAdd, toDelete) ← gets (λ w, getToAddAndDelete (flowSets w) flowReqs);
  createAndDeleteRules toAdd toDelete.

Definition updateStatus (instance : NodeFlowConfig) : NW unit :=
  attempt (outside_call (nfc_StatusUpdate instance));; mret tt.

Definition set_PortInfo (p : NodeFlowConfig) (portList : list CrPortsInformation) : NodeFlowConfig :=
  {| nfc_Name := nfc_Name p; nfc_Namespace := nfc_Namespace p; nfc_Spec := nfc_Spec p;
     nfc_Status := {| PortInfo := Some portList; LastRules := LastRules (nfc_Status p);
                      SyncStatus := SyncStatus (nfc_Status p); SyncMsg := SyncMsg (nfc_Status p) |} |}.

Definition syncFlowConfig (newPolicy : NodeFlowConfig) : NW unit :=
  portList ← listDCFPorts;
  newPolicy ← (if decide (PortInfo (nfc_Status newPolicy) = Some portList) then mret newPolicy
               else updateStatus (set_PortInfo newPolicy portList);;
                    mret (set_PortInfo newPolicy portList));
  syncRules newPolicy.

Definition Reconcile (req : string * string) : NW unit :=
  instance ← attempt (outside_call (nfc_Get req));
  match instance with
  | inl err =>
      if IsNotFound err then attempt deleteAllRules;; mret tt
      else throw err
  | inr instance => attempt (syncFlowConfig instance);; mret tt
  end.
End reconciler.
