(* ===== verification/NodeFlowConfigSpec.v ===== *)
(** * Correctness of the node flow configuration controller

    The maps of rules to create and to delete, the cache after a synchronisation, the
    invariants of the cache on every exit, and the simulation of the flow service's
    installed flows by the cache. *)

From S2P Require Import Prelude GoStrings GoCrypto GoJson GoJsonDecode FlowEnums FlowApi AnyModel FlowItems FlowItemsSpec FlowTypes FlowSets Dcf NodeFlowConfig.

Local Open Scope Z_scope.

(** ** Keys and the two maps *)

Lemma flow_key_nonempty req : flow_key req ≠ ""%string.
Proof.
  unfold flow_key, getFlowCreateHash. intros H. apply (f_equal String.length) in H.
  rewrite hex_encode_length, sha256_length in H. discriminate H.
Qed.

(** The last of the requests with a key: later ones replace earlier ones. *)
Definition last_with_key (k : string) (reqs : list RequestFlowCreate) : option RequestFlowCreate :=
  last (filter (λ r, flow_key r = k) reqs).

Lemma last_with_key_cons k r reqs :
  last_with_key k (r :: reqs)
  = match last_with_key k reqs with
    | Some r' => Some r'
    | None => if decide (flow_key r = k) then Some r else None
    end.
Proof.
  unfold last_with_key. rewrite filter_cons. case_decide.
  - rewrite last_cons. by destruct (last _).
  - by destruct (last _).
Qed.

Lemma last_with_key_Some k reqs r :
  last_with_key k reqs = Some r → r ∈ reqs ∧ flow_key r = k.
Proof.
  unfold last_with_key. intros H. apply last_Some_elem_of, list_elem_of_filter in H. tauto.
Qed.

Lemma last_with_key_is_Some k reqs :
  is_Some (last_with_key k reqs) ↔ k ∈ flow_key <$> reqs.
Proof.
  unfold last_with_key. rewrite last_is_Some, list_elem_of_fmap. split.
  - intros Hne. destruct (filter _ reqs) as [|r l] eqn:E; [done|].
    assert (Hr : r ∈ filter (λ r, flow_key r = k) reqs) by (rewrite E; set_solver).
    apply list_elem_of_filter in Hr as [<- Hr]. by exists r.
  - intros (r & -> & Hr) Hnil. apply (elem_of_nil r). rewrite <- Hnil.
    by apply list_elem_of_filter.
Qed.

Lemma to_add_lookup fs reqs m k :
  to_add fs reqs m !! k
  = if Has fs k then m !! k
    else match last_with_key k reqs with Some r => Some r | None => m !! k end.
Proof.
  revert m. induction reqs as [|r reqs IH]; intros m; cbn [to_add]; [by destruct (Has fs k)|].
  destruct (String.eqb_spec (flow_key r) "") as [Hempty|_]; [by apply flow_key_nonempty in Hempty|].
  rewrite last_with_key_cons. destruct (Has fs (flow_key r)) eqn:Hr; rewrite IH.
  - destruct (Has fs k) eqn:Hk; [done|]. destruct (last_with_key k reqs); [done|].
    case_decide; [congruence|done].
  - destruct (Has fs k) eqn:Hk.
    + rewrite lookup_insert_ne by congruence. done.
    + destruct (last_with_key k reqs); [done|]. case_decide as Heq.
      * by rewrite Heq, lookup_insert_eq.
      * by rewrite lookup_insert_ne.
Qed.

Section spec.
Context {S : Type} `{HC : !AnyCodec} `{HV : !SriovUtils} `{HF : !FlowServiceClient S} `{HG : !NodeFlowConfigApi S} `{HO : !MapOrder}.
Implicit Types w : NodeWorld S.

Notation cache w := (entries (flowSets w)).

(** ** One rule *)

Lemma outside_call_cache {A} (m : M S A) w :
  flowSets (outside_call m w).2 = flowSets w.
Proof. unfold outside_call. by destruct (m (outside w)). Qed.

Lemma outside_call_ensures {A} (m : M S A) w (Q : A → NodeWorld S → Prop) (R : NodeWorld S → Prop) :
  (∀ o w', outside_call m w = (o, w') → flowSets w' = flowSets w →
     match o with Ok a => Q a w' | _ => R w' end) →
  ensures (outside_call m) w Q R.
Proof.
  intros H. unfold ensures. pose proof (outside_call_cache m w) as Hc.
  destruct (outside_call m w) as [[a|e|] w'] eqn:E; apply (H _ _ eq_refl Hc).
Qed.

Lemma deleteRule_ensures k fr w :
  ensures (deleteRule k fr) w (λ _ w', cache w' = base.delete k (cache w))
    (λ w', flowSets w' = flowSets w).
Proof.
  unfold deleteRule. apply ensures_bind, ensures_attempt.
  - apply outside_call_ensures. intros [res|e|] w' _ Hc; [|done..].
    unfold ensures, update_cache, modify. cbn [flowSets]. by rewrite entries_Delete, Hc.
  - intros e w' H. pose proof (outside_call_cache (Destroy {| del_PortId := req_PortId (FlowRule fr);
      del_FlowId := FlowID fr |}) w) as Hc. rewrite H in Hc. exact Hc.
Qed.

Lemma createRule_ensures k req w :
  ensures (createRule k req) w
    (λ _ w', ∃ id, cache w' = match cache w !! k with
                              | Some _ => cache w
                              | None => <[k := {| FlowID := id; FlowRule := req |}]> (cache w)
                              end)
    (λ w', flowSets w' = flowSets w).
Proof.
  assert (Herr : ∀ {A} (m : M S A) e w w', outside_call m w = (Err e, w') → flowSets w' = flowSets w).
  { intros A m e w0 w' H. pose proof (outside_call_cache m w0) as Hc. by rewrite H in Hc. }
  unfold createRule. apply ensures_bind, ensures_attempt; [|intros e w' H; by apply Herr in H].
  apply outside_call_ensures. intros [res|e|] w1 _ Hc1; [|done..].
  destruct (is_flow_error _); [done|]. apply ensures_bind, ensures_attempt.
  - apply outside_call_ensures. intros [cres|e|] w2 _ Hc2; rewrite Hc1 in Hc2; [|done..].
    destruct (is_flow_error _); [done|]. unfold ensures, update_cache, modify. cbn [flowSets].
    exists (create_FlowId cres). by rewrite entries_Add, Hc2.
  - intros e w2 H. apply Herr in H. unfold ensures, throw. congruence.
Qed.

(** ** Maps of rules *)

Lemma NoDup_keys_split {A} (m : gmap string A) pre (x : string * A) rest :
  range_map m = pre ++ x :: rest → m !! x.1 = Some x.2 ∧ x.1 ∉ rest.*1.
Proof.
  intros E. split.
  - apply range_map_elem. rewrite E, <- surjective_pairing. set_solver.
  - pose proof (range_map_keys m) as Hnd. rewrite E, fmap_app, fmap_cons in Hnd.
    apply NoDup_app in Hnd as (_ & _ & Hnd). by apply NoDup_cons in Hnd as [? _].
Qed.

Lemma range_map_all {A} (m : gmap string A) k : k ∈ (range_map m).*1 ↔ is_Some (m !! k).
Proof.
  rewrite list_elem_of_fmap. split.
  - intros ([k' x] & -> & Hx). apply range_map_elem in Hx. by eexists.
  - intros [x Hx]. exists (k, x). by rewrite range_map_elem.
Qed.

Lemma deleteRules_ensures toDelete w :
  ensures (deleteRules toDelete) w
    (λ _ w', ∀ k, cache w' !! k = match toDelete !! k with Some _ => None | None => cache w !! k end)
    (λ w', (∀ k, toDelete !! k = None → cache w' !! k = cache w !! k) ∧ cache w' ⊆ cache w).
Proof.
  unfold deleteRules.
  eapply ensures_mono; [apply (ensures_forM _ _ (λ rest w', ∀ k,
    cache w' !! k = if decide (k ∈ rest.*1 ∨ toDelete !! k = None) then cache w !! k else None)
    (λ w', (∀ k, toDelete !! k = None → cache w' !! k = cache w !! k) ∧ cache w' ⊆ cache w))|..].
  - intros k. case_decide as Hk; [done|]. rewrite range_map_all in Hk.
    destruct (toDelete !! k); naive_solver.
  - intros [k fr] rest w1 [pre E] HP. apply NoDup_keys_split in E as [Hin Hnd]. cbn in *.
    eapply ensures_mono; [apply deleteRule_ensures|..].
    + intros [] w2 -> k'. destruct (decide (k' = k)) as [->|Hne].
      * rewrite lookup_delete_eq, decide_False; [done|]. naive_solver.
      * rewrite lookup_delete_ne, HP by done. apply decide_ext. set_solver.
    + intros w2 Hw2. rewrite Hw2. split.
      * intros k' Hk'. rewrite HP, decide_True; auto.
      * apply map_subseteq_spec. intros k' r. rewrite HP. by case_decide.
  - intros [] w' HP k. rewrite HP. cbn. destruct (toDelete !! k).
    + by rewrite decide_False by (intros [?%elem_of_nil|]; done).
    + by rewrite decide_True by auto.
  - done.
Qed.

Lemma createRules_ensures toAdd w :
  (∀ k, is_Some (toAdd !! k) → cache w !! k = None) →
  ensures (createRules toAdd) w
    (λ _ w', ∀ k, match toAdd !! k with
                  | Some req => ∃ id, cache w' !! k = Some {| FlowID := id; FlowRule := req |}
                  | None => cache w' !! k = cache w !! k
                  end)
    (λ w', ∀ k, cache w' !! k = cache w !! k
                ∨ ∃ id req, toAdd !! k = Some req
                            ∧ cache w' !! k = Some {| FlowID := id; FlowRule := req |}).
Proof.
  intros Hnew. unfold createRules.
  set (created k w' := ∃ id req, toAdd !! k = Some req
                       ∧ cache w' !! k = Some {| FlowID := id; FlowRule := req |}).
  eapply ensures_mono; [apply (ensures_forM _ _ (λ rest w', ∀ k,
    if decide (k ∈ rest.*1 ∨ toAdd !! k = None) then cache w' !! k = cache w !! k
    else created k w') (λ w', ∀ k, cache w' !! k = cache w !! k ∨ created k w'))|..].
  - intros k. case_decide as Hk; [done|]. rewrite range_map_all in Hk.
    destruct (toAdd !! k); naive_solver.
  - intros [k req] rest w1 [pre E] HP. apply NoDup_keys_split in E as [Hin Hnd]. cbn in *.
    eapply ensures_mono; [apply createRule_ensures|..].
    + intros [] w2 [id Hw2] k'. pose proof (HP k) as Hk. rewrite decide_True in Hk by (left; left).
      rewrite Hk, Hnew in Hw2 by eauto. unfold created. rewrite Hw2. specialize (HP k').
      destruct (decide (k' = k)) as [->|Hne].
      * rewrite decide_False by naive_solver. rewrite lookup_insert_eq. eauto.
      * rewrite lookup_insert_ne by done.
        rewrite (decide_ext _ (k' ∈ rest.*1 ∨ toAdd !! k' = None)) in HP by set_solver. exact HP.
    + intros w2 Hw2 k'. unfold created. rewrite Hw2. specialize (HP k'). case_decide; auto.
  - intros [] w' HP k. specialize (HP k). cbn in HP. destruct (toAdd !! k) as [req|] eqn:Hreq.
    + rewrite decide_False in HP by (intros [?%elem_of_nil|]; done).
      unfold created in HP. rewrite Hreq in HP. naive_solver.
    + by rewrite decide_True in HP by auto.
  - done.
Qed.

(** ** Synchronisation *)

Lemma Has_false fs k : Has fs k = false ↔ entries fs !! k = None.
Proof. unfold Has. destruct (entries fs !! k); naive_solver. Qed.

Lemma toAdd_lookup fs reqs k :
  (getToAddAndDelete fs reqs).1 !! k
  = match entries fs !! k with Some _ => None | None => last_with_key k reqs end.
Proof.
  unfold getToAddAndDelete. cbn [fst]. rewrite to_add_lookup, lookup_empty. unfold Has.
  destruct (entries fs !! k); [done|]. by destruct (last_with_key k reqs).
Qed.

Lemma toDelete_lookup fs reqs k r :
  (getToAddAndDelete fs reqs).2 !! k = Some r ↔ entries fs !! k = Some r ∧ k ∉ flow_key <$> reqs.
Proof. apply GetCompliments_lookup. Qed.

Lemma toDelete_None fs reqs k :
  (getToAddAndDelete fs reqs).2 !! k = None ↔ (k ∈ flow_key <$> reqs ∨ entries fs !! k = None).
Proof.
  rewrite eq_None_not_Some. unfold is_Some. setoid_rewrite toDelete_lookup.
  destruct (decide (k ∈ flow_key <$> reqs)), (entries fs !! k); naive_solver.
Qed.

(** What the cache holds once the requested rules are in place: the requested keys and no
    others, with the records of the rules that were already there untouched. *)
Definition synced (reqs : list RequestFlowCreate) (before after : gmap string FlowCreateRecord) : Prop :=
  ∀ k, match last_with_key k reqs with
       | None => after !! k = None
       | Some req =>
           match before !! k with
           | Some r => after !! k = Some r
           | None => ∃ id, after !! k = Some {| FlowID := id; FlowRule := req |}
           end
       end.

(** On the way there, and when the synchronisation stops half-way: each key is as before,
    or removed and not requested, or requested and added. *)
Definition towards (reqs : list RequestFlowCreate) (before after : gmap string FlowCreateRecord) : Prop :=
  ∀ k, after !! k = before !! k
       ∨ (last_with_key k reqs = None ∧ after !! k = None)
       ∨ ∃ id req, last_with_key k reqs = Some req ∧ before !! k = None
                   ∧ after !! k = Some {| FlowID := id; FlowRule := req |}.

Lemma last_with_key_None k reqs : last_with_key k reqs = None ↔ k ∉ flow_key <$> reqs.
Proof. rewrite eq_None_not_Some, last_with_key_is_Some. done. Qed.

Lemma synced_dom reqs before after :
  synced reqs before after → dom after = list_to_set (flow_key <$> reqs).
Proof.
  intros Hs. apply set_eq. intros k. rewrite elem_of_dom, elem_of_list_to_set, <- last_with_key_is_Some.
  specialize (Hs k). destruct (last_with_key k reqs) as [req|]; [|rewrite Hs; naive_solver].
  destruct (before !! k); [rewrite Hs; naive_solver|]. destruct Hs as [id ->]. naive_solver.
Qed.

Lemma synced_towards reqs before after : synced reqs before after → towards reqs before after.
Proof.
  intros H k. specialize (H k). destruct (last_with_key k reqs), (before !! k); naive_solver.
Qed.

Lemma createAndDeleteRules_ensures reqs w :
  let m := getToAddAndDelete (flowSets w) reqs in
  ensures (createAndDeleteRules m.1 m.2) w
    (λ _ w', synced reqs (cache w) (cache w')) (λ w', towards reqs (cache w) (cache w')).
Proof.
  intros m. unfold createAndDeleteRules. apply ensures_bind.
  eapply ensures_mono; [apply deleteRules_ensures|..].
  - intros [] w1 H1.
    assert (Hnew : ∀ k, is_Some (m.1 !! k) → cache w1 !! k = None).
    { intros k [req Hk]. unfold m in Hk. rewrite toAdd_lookup in Hk. rewrite H1.
      destruct (cache w !! k); [done|]. by destruct (m.2 !! k). }
    eapply ensures_mono; [by apply createRules_ensures|..].
    + intros [] w2 H2 k. specialize (H2 k). unfold m in *. rewrite toAdd_lookup, H1 in H2.
      destruct (last_with_key k reqs) as [req|] eqn:Hl.
      * assert (Hm : (getToAddAndDelete (flowSets w) reqs).2 !! k = None).
        { rewrite toDelete_None, <- last_with_key_is_Some, Hl. eauto. }
        rewrite Hm in H2. by destruct (cache w !! k).
      * apply last_with_key_None in Hl. destruct (cache w !! k) as [r|] eqn:Hc.
        -- rewrite (proj2 (toDelete_lookup _ _ _ _) (conj Hc Hl)) in H2. done.
        -- rewrite H2. by case_match.
    + intros w2 H2 k. unfold m in *. destruct (H2 k) as [H2k|(id & req & Hadd & H2k)].
      * rewrite H1 in H2k. destruct ((getToAddAndDelete (flowSets w) reqs).2 !! k) as [r|] eqn:Hd; [|by left].
        apply toDelete_lookup in Hd as [_ Hd%last_with_key_None]. auto.
      * rewrite toAdd_lookup in Hadd. destruct (cache w !! k); [done|]. right; right. eauto.
  - intros w1 [H1 Hsub] k. destruct (m.2 !! k) as [r|] eqn:Hd; [|by left; apply H1].
    apply toDelete_lookup in Hd as [Hc Hd%last_with_key_None].
    destruct (cache w1 !! k) as [r'|] eqn:Hc1; [|auto].
    left. by rewrite (lookup_weaken _ _ _ _ Hc1 Hsub).
Qed.

Lemma getFlowCreateRequests_cache fs fr :
  preserves (λ w, flowSets w = fs) (getFlowCreateRequests fr).
Proof.
  assert (Hout : ∀ {A} (m : M S A), preserves (λ w, flowSets w = fs) (outside_call m)).
  { intros A m w <-. apply outside_call_cache. }
  unfold getFlowCreateRequests, getPortIdFromDCFPort, listDCFPorts.
  repeat first [apply Hout | apply preserves_bind; [|intros ?] | apply preserves_lift
    | apply preserves_ret | apply preserves_wrapM | case_match].
Qed.

Lemma collect_requests_cache l w :
  flowSets (collectM getFlowCreateRequests l w).2 = flowSets w.
Proof.
  apply (preserves_collectM (λ w', flowSets w' = flowSets w)); [|done].
  intros fr _. apply getFlowCreateRequests_cache.
Qed.

Lemma syncRules_ensures policy w :
  ensures (syncRules policy) w
    (λ _ w', ∃ reqs w1, collectM getFlowCreateRequests (nfc_Rules (nfc_Spec policy)) w = (Ok reqs, w1)
                        ∧ synced reqs (cache w) (cache w'))
    (λ w', cache w' = cache w
           ∨ ∃ reqs w1, collectM getFlowCreateRequests (nfc_Rules (nfc_Spec policy)) w = (Ok reqs, w1)
                        ∧ towards reqs (cache w) (cache w')).
Proof.
  unfold syncRules. apply ensures_bind. unfold ensures at 1.
  pose proof (collect_requests_cache (nfc_Rules (nfc_Spec policy)) w) as Hc.
  destruct (collectM _ _ w) as [[reqs|e|] w1] eqn:E; cbn [snd] in Hc; [|left; by rewrite Hc..].
  apply ensures_bind. unfold ensures at 1, gets.
  pose proof (createAndDeleteRules_ensures reqs w1) as H. cbn zeta in H. rewrite Hc in H.
  rewrite Hc. destruct (getToAddAndDelete (flowSets w) reqs) as [toAdd toDelete].
  eapply ensures_mono; [exact H|..]; cbn; eauto.
Qed.

(** C13 The maps computed for a list of requests: to add are, for each requested key that is
    not in the cache, the last request with that key; to delete are exactly the cached
    records whose keys are not requested; no key is in both. *)
Theorem getToAddAndDelete_spec fs reqs :
  (∀ k req, (getToAddAndDelete fs reqs).1 !! k = Some req
     ↔ entries fs !! k = None ∧ last_with_key k reqs = Some req)
  ∧ (∀ k r, (getToAddAndDelete fs reqs).2 !! k = Some r
     ↔ entries fs !! k = Some r ∧ k ∉ flow_key <$> reqs)
  ∧ ∀ k, (getToAddAndDelete fs reqs).1 !! k = None ∨ (getToAddAndDelete fs reqs).2 !! k = None.
Proof.
  split_and!; [|apply toDelete_lookup|].
  - intros k req. rewrite toAdd_lookup. destruct (entries fs !! k); naive_solver.
  - intros k. rewrite toAdd_lookup, toDelete_None. destruct (entries fs !! k); auto.
Qed.

(** C12 A synchronisation that returns leaves in the cache the requested keys and no others,
    with the records of rules that were already created untouched; on every other exit, a
    panic included, each key is as before, or removed and not requested, or requested and
    added, so a requested rule that is installed is never disturbed. *)
Theorem syncRules_spec policy w :
  match syncRules policy w with
  | (Ok _, w') =>
      ∃ reqs w1, collectM getFlowCreateRequests (nfc_Rules (nfc_Spec policy)) w = (Ok reqs, w1)
                 ∧ synced reqs (cache w) (cache w')
                 ∧ dom (cache w') = list_to_set (flow_key <$> reqs)
  | (_, w') =>
      cache w' = cache w
      ∨ ∃ reqs w1, collectM getFlowCreateRequests (nfc_Rules (nfc_Spec policy)) w = (Ok reqs, w1)
                   ∧ towards reqs (cache w) (cache w')
  end.
Proof.
  pose proof (syncRules_ensures policy w) as H. unfold ensures in H.
  destruct (syncRules policy w) as [[[]|e|] w']; [|done..].
  destruct H as (reqs & w1 & Hreqs & Hs). exists reqs, w1. split_and!; [done..|]. by eapply synced_dom.
Qed.

(** C29 Synchronising again for the same requests finds nothing to create or delete, and does
    not call the flow service. *)
Theorem second_synchronisation_is_idle reqs w w' :
  (let m := getToAddAndDelete (flowSets w) reqs in createAndDeleteRules m.1 m.2 w) = (Ok tt, w') →
  getToAddAndDelete (flowSets w') reqs = (∅, ∅)
  ∧ (let m := getToAddAndDelete (flowSets w') reqs in createAndDeleteRules m.1 m.2 w') = (Ok tt, w').
Proof.
  intros H. pose proof (createAndDeleteRules_ensures reqs w) as Hs. cbn zeta in *.
  unfold ensures in Hs. rewrite H in Hs.
  assert (E : getToAddAndDelete (flowSets w') reqs = (∅, ∅)).
  { rewrite (surjective_pairing (getToAddAndDelete _ _)). f_equal; apply map_empty; intros k.
    - rewrite toAdd_lookup. specialize (Hs k).
      destruct (last_with_key k reqs); [|by destruct (cache w' !! k)].
      destruct (cache w !! k); [by rewrite Hs|]. by destruct Hs as [id ->].
    - apply toDelete_None. specialize (Hs k).
      destruct (decide (k ∈ flow_key <$> reqs)) as [|Hk]; [by left|right].
      apply last_with_key_None in Hk. by rewrite Hk in Hs. }
  split; [done|]. rewrite E. unfold createAndDeleteRules, deleteRules, createRules. cbn [fst snd].
  by rewrite !range_map_empty.
Qed.

(** ** The reconciler *)

(** Every record is stored under the hash of its own rule. *)
Definition keys_match (m : gmap string FlowCreateRecord) : Prop :=
  ∀ k r, m !! k = Some r → k = flow_key (FlowRule r).

Lemma towards_keys_match reqs before after :
  towards reqs before after → keys_match before → keys_match after.
Proof.
  intros Ht Hm k r Hk. destruct (Ht k) as [E|[[_ E]|(id & req & Hl & _ & E)]]; rewrite E in Hk.
  - by apply Hm.
  - done.
  - apply last_with_key_Some in Hl as [_ <-]. by simplify_eq.
Qed.

Lemma syncRules_preserves (P : gmap string FlowCreateRecord → Prop) policy :
  (∀ reqs before after, towards reqs before after → P before → P after) →
  preserves (λ w, P (cache w)) (syncRules policy).
Proof.
  intros HP w Hw. pose proof (syncRules_ensures policy w) as H. unfold ensures in H.
  destruct (syncRules policy w) as [[[]|e|] w']; cbn;
    [destruct H as (reqs & w1 & _ & H%synced_towards); eauto
    |destruct H as [->|(reqs & w1 & _ & H)]; eauto..].
Qed.

Lemma deleteRule_no_error k fr w e w' : deleteRule k fr w ≠ (Err e, w').
Proof.
  unfold deleteRule, mbind, M_bind, attempt, outside_call.
  destruct (Destroy _ (outside w)) as [[res|e'|] s']; cbn; discriminate.
Qed.

Lemma deleteRules_no_error toDelete w e w' : deleteRules toDelete w ≠ (Err e, w').
Proof.
  unfold deleteRules. generalize (range_map toDelete). intros l. revert w.
  induction l as [|[k fr] l IH]; intros w; cbn [forM]; [done|].
  unfold mbind, M_bind. pose proof (deleteRule_no_error k fr w) as H.
  destruct (deleteRule _ _ w) as [[[]|e'|] w1]; [apply IH|by eapply not_eq_sym in H|done].
Qed.

Lemma deleteAllRules_ensures w :
  ensures deleteAllRules w (λ _ w', cache w' = ∅) (λ w', towards [] (cache w) (cache w')).
Proof.
  unfold deleteAllRules. apply ensures_bind. unfold ensures at 1, gets. rewrite GetCompliments_nil.
  apply ensures_bind. eapply ensures_attempt; [|intros e w' H; by apply deleteRules_no_error in H].
  eapply ensures_mono; [apply deleteRules_ensures|..].
  - intros [] w1 H1. unfold ensures, mret, M_ret. apply map_empty. intros k. rewrite H1.
    by destruct (cache w !! k).
  - intros w1 [_ Hsub] k. destruct (cache w1 !! k) eqn:E; [|right; by left].
    left. by rewrite (lookup_weaken _ _ _ _ E Hsub).
Qed.

Lemma outside_call_preserves (P : FlowSets → Prop) {A} (m : M S A) :
  preserves (λ w, P (flowSets w)) (outside_call m).
Proof. intros w Hw. by rewrite outside_call_cache. Qed.

(** An invariant of the cache that steps towards any list of requests keep is kept by the
    whole reconciliation, whatever it returns. *)
Lemma Reconcile_preserves (P : gmap string FlowCreateRecord → Prop) req :
  (∀ reqs before after, towards reqs before after → P before → P after) →
  preserves (λ w, P (cache w)) (Reconcile req).
Proof.
  intros HP.
  pose proof (λ A (m : M S A), outside_call_preserves (λ fs, P (entries fs)) m) as Hout.
  assert (Hdel : preserves (λ w, P (cache w)) deleteAllRules).
  { intros w Hw. pose proof (deleteAllRules_ensures w) as H. unfold ensures in H.
    destruct (deleteAllRules w) as [[[]|e|] w']; cbn; [|eauto..].
    apply (HP [] (cache w)); [|done]. intros k. right; left. by rewrite H, lookup_empty. }
  unfold Reconcile, syncFlowConfig, updateStatus, listDCFPorts.
  repeat first [apply Hout | apply Hdel | apply syncRules_preserves; exact HP
    | apply preserves_bind; [|intros ?] | apply preserves_attempt | apply preserves_ret
    | apply preserves_throw | case_match].
Qed.

(** C31 Whatever a reconciliation meets, and however it ends, every record of the cache is
    stored under the hash of its own rule: the cache never names a rule by another's key. *)
Theorem Reconcile_keys_match req :
  preserves (λ w, keys_match (cache w)) (Reconcile req).
Proof. apply Reconcile_preserves. intros reqs before after. apply towards_keys_match. Qed.

Lemma syncRules_total policy w reqs w1 :
  collectM getFlowCreateRequests (nfc_Rules (nfc_Spec policy)) w = (Ok reqs, w1) →
  (∀ req s, ∃ res s', Validate req s = (Ok res, s') ∧ is_flow_error (flow_ErrorInfo res) = false) →
  (∀ req s, ∃ res s', Create req s = (Ok res, s') ∧ is_flow_error (create_ErrorInfo res) = false) →
  (∀ d s, ∃ res s', Destroy d s = (Ok res, s')) →
  ∃ w', syncRules policy w = (Ok tt, w').
Proof.
  intros Hreqs Hv Hc Hd.
  assert (Hloop : ∀ {A} (l : list A) (body : A → M (NodeWorld S) unit) w,
    (∀ x w, ∃ w', body x w = (Ok tt, w')) → ∃ w', forM l body w = (Ok tt, w')).
  { intros A l body w0 Hb. revert w0. induction l as [|x l IH]; intros w0; [by eexists|].
    cbn [forM]. unfold mbind, M_bind. destruct (Hb x w0) as [w2 ->]. apply IH. }
  assert (Hdel : ∀ e w, ∃ w', deleteRule e.1 e.2 w = (Ok tt, w')).
  { intros [k fr] w0. unfold deleteRule, mbind, M_bind, attempt, outside_call. cbn.
    destruct (Hd {| del_PortId := req_PortId (FlowRule fr); del_FlowId := FlowID fr |} (outside w0))
      as (res & s' & ->). by eexists. }
  assert (Hcre : ∀ e w, ∃ w', createRule e.1 e.2 w = (Ok tt, w')).
  { intros [k r] w0. unfold createRule, mbind, M_bind, attempt, outside_call. cbn.
    destruct (Hv r (outside w0)) as (res & s1 & -> & ->).
    destruct (Hc r s1) as (cres & s2 & E & Hok). cbn. rewrite E, Hok. by eexists. }
  unfold syncRules, mbind, M_bind, gets. rewrite Hreqs. cbn.
  set (ta := to_add _ _ _). set (td := GetCompliments _ _).
  unfold createAndDeleteRules, mbind, M_bind.
  destruct (Hloop _ (range_map td) (λ e, deleteRule e.1 e.2) w1 Hdel) as [w2 E2].
  unfold deleteRules. rewrite E2.
  apply (Hloop _ (range_map ta) (λ e, createRule e.1 e.2) w2 Hcre).
Qed.


(** ** What the calls outside keep, a reconciliation keeps *)

Lemma outside_call_keeps (Q : S → Prop) {A} (m : M S A) :
  preserves Q m → preserves (λ w, Q (outside w)) (outside_call m).
Proof. intros Hm w Hw. specialize (Hm _ Hw). unfold outside_call. by destruct (m (outside w)). Qed.

Lemma Reconcile_keeps (Q : S → Prop) req :
  (∀ r, preserves Q (Validate r)) → (∀ r, preserves Q (Create r)) → (∀ d, preserves Q (Destroy d)) →
  preserves Q ListPorts → (∀ k, preserves Q (nfc_Get k)) → (∀ c, preserves Q (nfc_StatusUpdate c)) →
  preserves (λ w, Q (outside w)) (Reconcile req).
Proof.
  intros HV' HC' HD' HL' HG' HS'.
  unfold Reconcile, syncFlowConfig, updateStatus, listDCFPorts, deleteAllRules, syncRules, createAndDeleteRules,
    createRules, createRule, deleteRules, deleteRule, getFlowCreateRequests, getPortIdFromDCFPort, listDCFPorts,
    update_cache.
  repeat first [ apply outside_call_keeps; auto; fail | by apply preserves_modify
    | apply preserves_bind; [|intros ?] | apply preserves_attempt
    | apply preserves_wrapM | apply preserves_lift | apply preserves_gets | apply preserves_ret
    | apply preserves_throw | apply preserves_panic | apply preserves_forM; intros ? _
    | apply preserves_collectM; intros ? _ | case_match ].
Qed.

Lemma deleteRule_unreachable k fr w :
  (∀ d s, ∃ e' s', Destroy d s = (Err e', s')) →
  ∃ w', deleteRule k fr w = (Panic, w') ∧ flowSets w' = flowSets w.
Proof.
  intros Hd. unfold deleteRule, mbind, M_bind, attempt, outside_call.
  destruct (Hd {| del_PortId := req_PortId (FlowRule fr); del_FlowId := FlowID fr |} (outside w))
    as (e' & s' & ->). by eexists.
Qed.

(** If the flow service cannot be reached when the resource is found deleted, and a rule
    is cached, the reconciliation panics on the nil response; the cache is kept. *)
Theorem Reconcile_unreachable_panics req w e s1 :
  nfc_Get req (outside w) = (Err e, s1) → IsNotFound e = true →
  (∀ d s, ∃ e' s', Destroy d s = (Err e', s')) → cache w ≠ ∅ →
  ∃ w', Reconcile req w = (Panic, w') ∧ flowSets w' = flowSets w.
Proof.
  intros Hget Hnf Hd Hne.
  assert (Hpanic : ∀ w0, cache w0 ≠ ∅ → ∃ w', deleteAllRules w0 = (Panic, w') ∧ flowSets w' = flowSets w0).
  { intros w0 H0. unfold deleteAllRules, mbind, M_bind, gets. cbn. rewrite GetCompliments_nil.
    unfold attempt, deleteRules. destruct (range_map (cache w0)) as [|[k fr] l] eqn:E.
    { exfalso. apply H0, map_empty. intros k. apply eq_None_not_Some. intros [r Hr%range_map_elem].
      rewrite E in Hr. by apply elem_of_nil in Hr. }
    cbn [forM fst snd]. unfold mbind, M_bind.
    destruct (deleteRule_unreachable k fr w0 Hd) as (w' & -> & Hw'). by exists w'. }
  unfold Reconcile, mbind, M_bind. unfold attempt at 1, outside_call. rewrite Hget. cbn. rewrite Hnf.
  destruct (Hpanic {| flowSets := flowSets w; outside := s1 |} Hne) as (w' & E & Hw').
  exists w'. unfold attempt. by rewrite E.
Qed.
End spec.
