(* ===== verification/NodeFlowConfigDevice.v ===== *)
(** * The cache and the flows installed by the flow service

    An abstract specification of the flow service (the set of installed flows and what each
    call does to it), the simulation of that set by the controller's cache over whole
    reconciliations, and a concrete service for examples. *)

From S2P Require Import Prelude GoStrings GoCrypto GoJson GoJsonDecode FlowEnums FlowApi AnyModel FlowItems FlowItemsSpec FlowTypes FlowSets Dcf NodeFlowConfig NodeFlowConfigSpec.

Local Open Scope Z_scope.

(** ** What the flow service is expected to do

    A flow is named by its port and the identifier the service gave it. A call that fails
    or answers with an error changes nothing. *)
Class DcfService (S : Type) `{!FlowServiceClient S} : Type := {
  installed : S → gset (Z * Z);
  Validate_installed req s : installed (Validate req s).2 = installed s;
  ListPorts_installed s : installed (ListPorts s).2 = installed s;
  Create_installed req s :
    match Create req s with
    | (Ok res, s') =>
        if is_flow_error (create_ErrorInfo res) then installed s' = installed s
        else (req_PortId req, create_FlowId res) ∉ installed s
             ∧ installed s' = {[ (req_PortId req, create_FlowId res) ]} ∪ installed s
    | (_, s') => installed s' = installed s
    end;
  Destroy_installed d s :
    match Destroy d s with
    | (Ok res, s') =>
        installed s' = if is_flow_error (flow_ErrorInfo res) then installed s
                       else installed s ∖ {[ (del_PortId d, del_FlowId d) ]}
    | (_, s') => installed s' = installed s
    end;
}.

(** The API server's calls do not touch the flows. *)
Class ApiApart (S : Type) `{!FlowServiceClient S} `{!NodeFlowConfigApi S} `{!DcfService S} : Prop := {
  Get_installed nn s : installed (nfc_Get nn s).2 = installed s;
  StatusUpdate_installed o s : installed (nfc_StatusUpdate o s).2 = installed s;
}.

Definition flow_of (r : FlowCreateRecord) : Z * Z := (req_PortId (FlowRule r), FlowID r).

(** The records of a cache name exactly the flows of a set, each once. *)
Definition tracks (m : gmap string FlowCreateRecord) (flows : gset (Z * Z)) : Prop :=
  (∀ p, p ∈ flows ↔ ∃ k r, m !! k = Some r ∧ flow_of r = p)
  ∧ ∀ k1 k2 r1 r2, m !! k1 = Some r1 → m !! k2 = Some r2 → flow_of r1 = flow_of r2 → k1 = k2.

Lemma tracks_insert m flows k r :
  tracks m flows → m !! k = None → flow_of r ∉ flows →
  tracks (<[k := r]> m) ({[ flow_of r ]} ∪ flows).
Proof.
  intros [Hp Hi] Hk Hr. split.
  - intros p. rewrite elem_of_union, elem_of_singleton, Hp. split.
    + intros [->|(k' & r' & Hk' & <-)]; [exists k, r; by rewrite lookup_insert_eq|].
      exists k', r'. by rewrite lookup_insert_ne by congruence.
    + intros (k' & r' & Hk' & <-). apply lookup_insert_Some in Hk' as [[_ ->]|[_ ?]]; eauto.
  - intros k1 k2 r1 r2 H1 H2 E.
    apply lookup_insert_Some in H1 as [[<- <-]|[? H1]], H2 as [[<- <-]|[? H2]]; try done.
    + destruct Hr. rewrite E. apply Hp. eauto.
    + destruct Hr. rewrite <- E. apply Hp. eauto.
    + eauto.
Qed.

Lemma tracks_delete m flows k r :
  tracks m flows → m !! k = Some r → tracks (base.delete k m) (flows ∖ {[ flow_of r ]}).
Proof.
  intros [Hp Hi] Hk. split.
  - intros p. rewrite elem_of_difference, elem_of_singleton, Hp. split.
    + intros [(k' & r' & Hk' & <-) Hne]. exists k', r'. split; [|done].
      rewrite lookup_delete_ne; [done|]. intros ->. simplify_eq.
    + intros (k' & r' & [Hne Hk']%lookup_delete_Some & <-). split; [by eauto|].
      intros E. apply Hne. by eapply Hi.
  - intros k1 k2 r1 r2 [_ H1]%lookup_delete_Some [_ H2]%lookup_delete_Some. by apply Hi.
Qed.

Section simulation.
(** [foreign] are flows on the device that the controller did not create: those of other
    clients, or of a controller that ran before. *)
Context {S : Type} `{HC : !AnyCodec} `{HV : !SriovUtils} `{HF : !FlowServiceClient S} `{HG : !NodeFlowConfigApi S} `{HD : !DcfService S} `{HI : !ApiApart S} `{HO : !MapOrder}.
Implicit Types w : NodeWorld S.
Implicit Types foreign : gset (Z * Z).

(** The foreign flows are still installed, and the records name exactly the others. *)
Definition in_step foreign w : Prop :=
  foreign ⊆ installed (outside w)
  ∧ tracks (entries (flowSets w)) (installed (outside w) ∖ foreign).

Lemma tracks_not_foreign m flows foreign k r :
  tracks m (flows ∖ foreign) → m !! k = Some r → flow_of r ∉ foreign.
Proof.
  intros [Hp _] Hk. assert (H : flow_of r ∈ flows ∖ foreign) by (apply Hp; eauto). set_solver.
Qed.

Lemma outside_call_in_step foreign {A} (m : M S A) :
  (∀ s, installed (m s).2 = installed s) → preserves (in_step foreign) (outside_call m).
Proof.
  intros Hm w Hw. unfold outside_call, in_step. specialize (Hm (outside w)).
  destruct (m (outside w)) as [o s]. cbn in *. by rewrite Hm.
Qed.

Lemma createRule_in_step foreign k req w :
  in_step foreign w → entries (flowSets w) !! k = None →
  ensures (createRule k req) w (λ _ w', in_step foreign w' ∧ ∀ k', k' ≠ k →
    entries (flowSets w') !! k' = entries (flowSets w) !! k') (in_step foreign).
Proof.
  intros Hw Hk. unfold createRule, ensures, mbind, M_bind, attempt, outside_call.
  pose proof (Validate_installed req (outside w)) as HVal.
  destruct (Validate req (outside w)) as [[res|e|] s1]; cbn in HVal;
    [|unfold in_step, throw; cbn; by rewrite HVal..].
  destruct (is_flow_error (flow_ErrorInfo res)); [unfold in_step; cbn; by rewrite HVal|].
  pose proof (Create_installed req s1) as HCre. cbn [outside flowSets].
  destruct (Create req s1) as [[cres|e|] s2];
    [|unfold in_step; cbn; by rewrite HCre, HVal..].
  destruct (is_flow_error (create_ErrorInfo cres)); [unfold in_step; cbn; by rewrite HCre, HVal|].
  destruct HCre as [Hfresh HCre]. unfold update_cache, modify. cbn [outside flowSets]. split.
  - unfold in_step. cbn [outside flowSets]. rewrite entries_Add, Hk, HCre, HVal.
    rewrite HVal in Hfresh. destruct Hw as [Hf Hw]. split; [set_solver|].
    replace (_ ∖ foreign) with ({[ flow_of (newFlowCreateRecord (create_FlowId cres) req) ]}
      ∪ installed (outside w) ∖ foreign) by (unfold_leibniz; set_solver).
    apply tracks_insert; [done..|set_solver].
  - intros k' Hne. rewrite entries_Add, Hk. by rewrite lookup_insert_ne.
Qed.

Section no_refusal.
(** The service does not answer a destruction with an error. *)
Hypothesis Destroy_accepted : ∀ d s res s',
  Destroy d s = (Ok res, s') → is_flow_error (flow_ErrorInfo res) = false.

Lemma deleteRule_in_step foreign k fr w :
  in_step foreign w → entries (flowSets w) !! k = Some fr →
  ensures (deleteRule k fr) w (λ _ w', in_step foreign w' ∧ ∀ k', k' ≠ k →
    entries (flowSets w') !! k' = entries (flowSets w) !! k') (in_step foreign).
Proof.
  intros Hw Hk. unfold deleteRule, ensures, mbind, M_bind, attempt, outside_call.
  set (d := {| del_PortId := _; del_FlowId := _ |}).
  pose proof (Destroy_installed d (outside w)) as HDes.
  pose proof (Destroy_accepted d (outside w)) as Hacc.
  destruct (Destroy d (outside w)) as [[res|e|] s1]; [|unfold in_step; cbn; by rewrite HDes..].
  rewrite (Hacc res s1 eq_refl) in HDes. unfold update_cache, modify. cbn [outside flowSets]. split.
  - unfold in_step. cbn [outside flowSets]. rewrite entries_Delete, HDes. destruct Hw as [Hf Hw].
    pose proof (tracks_not_foreign _ _ _ _ _ Hw Hk) as Hfr. split; [set_solver|].
    replace (_ ∖ foreign) with (installed (outside w) ∖ foreign ∖ {[ flow_of fr ]})
      by (unfold_leibniz; set_solver).
    by apply tracks_delete.
  - intros k' Hne. rewrite entries_Delete. by rewrite lookup_delete_ne.
Qed.

Lemma deleteRules_in_step foreign toDelete w :
  in_step foreign w → toDelete ⊆ entries (flowSets w) →
  ensures (deleteRules toDelete) w (λ _ w', in_step foreign w') (in_step foreign).
Proof.
  intros Hw Hsub. unfold deleteRules.
  eapply ensures_mono; [apply (ensures_forM _ _ (λ rest w', in_step foreign w' ∧
    ∀ k r, (k, r) ∈ rest → entries (flowSets w') !! k = Some r) (in_step foreign))|by intros [] w' []|done].
  - split; [done|]. intros k r Hin%range_map_elem. by eapply lookup_weaken.
  - intros [k fr] rest w1 [pre E] [H1 Hrest]. apply NoDup_keys_split in E as [_ Hnd]. cbn [fst snd] in *.
    eapply ensures_mono; [apply deleteRule_in_step; [done|apply Hrest; left]| |done].
    intros [] w2 [H2 Hother]. split; [done|]. intros k' r Hin.
    rewrite Hother; [apply Hrest; by right|]. intros ->. apply Hnd.
    apply list_elem_of_fmap. by exists (k, r).
Qed.

Lemma createRules_in_step foreign toAdd w :
  in_step foreign w → (∀ k, is_Some (toAdd !! k) → entries (flowSets w) !! k = None) →
  ensures (createRules toAdd) w (λ _ w', in_step foreign w') (in_step foreign).
Proof.
  intros Hw Hnew. unfold createRules.
  eapply ensures_mono; [apply (ensures_forM _ _ (λ rest w', in_step foreign w' ∧
    ∀ k, k ∈ rest.*1 → entries (flowSets w') !! k = None) (in_step foreign))|by intros [] w' []|done].
  - split; [done|]. intros k Hk. by apply Hnew, range_map_all.
  - intros [k req] rest w1 [pre E] [H1 Hrest]. apply NoDup_keys_split in E as [_ Hnd]. cbn [fst snd] in *.
    eapply ensures_mono; [apply createRule_in_step; [done|apply Hrest; left]| |done].
    intros [] w2 [H2 Hother]. split; [done|]. intros k' Hin.
    rewrite Hother; [apply Hrest; by right|congruence].
Qed.

Lemma syncRules_in_step foreign policy : preserves (in_step foreign) (syncRules policy).
Proof.
  assert (Hcollect : ∀ l, preserves (in_step foreign) (collectM getFlowCreateRequests l)).
  { intros l. apply preserves_collectM. intros fr _.
    unfold getFlowCreateRequests, getPortIdFromDCFPort, listDCFPorts.
    repeat first [apply outside_call_in_step, ListPorts_installed | apply preserves_bind; [|intros ?]
      | apply preserves_lift | apply preserves_ret | apply preserves_wrapM | case_match]. }
  intros w Hw. apply ensures_preserved. unfold syncRules. apply ensures_bind.
  eapply ensures_mono; [apply ensures_preserved, Hcollect, Hw| |done].
  intros reqs w1 H1. apply ensures_bind. unfold ensures at 1, gets.
  destruct (getToAddAndDelete (flowSets w1) reqs) as [toAdd toDelete] eqn:E.
  unfold createAndDeleteRules. apply ensures_bind.
  assert (Hsub : toDelete ⊆ entries (flowSets w1)).
  { apply map_subseteq_spec. intros k r Hk. pose proof (toDelete_lookup (flowSets w1) reqs k r) as H.
    rewrite E in H. by apply H. }
  eapply ensures_mono; [apply ensures_and; [by apply (deleteRules_in_step foreign)|apply deleteRules_ensures]|..];
    [|by intros w2 []].
  intros [] w2 [H2 Hdel]. apply createRules_in_step; [done|]. intros k [req Hk].
  pose proof (toAdd_lookup (flowSets w1) reqs k) as H. rewrite E in H. cbn [fst] in H.
  rewrite Hdel. destruct (toDelete !! k); [done|]. destruct (entries (flowSets w1) !! k); congruence.
Qed.

(** The cache simulates the flow service: if, besides foreign flows, the records name exactly
    the installed flows before a reconciliation, they do after it, on every exit (errors and
    panics included), and no foreign flow is touched, provided the service never answers a
    destruction with an error. *)
Theorem Reconcile_tracks_installed foreign req : preserves (in_step foreign) (Reconcile req).
Proof.
  assert (Hdel : preserves (in_step foreign) deleteAllRules).
  { unfold deleteAllRules. intros w Hw. apply ensures_preserved, ensures_bind.
    unfold ensures at 1, gets. rewrite GetCompliments_nil. apply ensures_bind.
    apply ensures_attempt; [|intros e w' H; by apply deleteRules_no_error in H].
    by apply deleteRules_in_step. }
  unfold Reconcile, syncFlowConfig, updateStatus, listDCFPorts.
  repeat first [apply outside_call_in_step, ListPorts_installed
    | apply outside_call_in_step, Get_installed | apply outside_call_in_step, StatusUpdate_installed
    | apply Hdel | apply syncRules_in_step
    | apply preserves_bind; [|intros ?] | apply preserves_attempt | apply preserves_ret
    | apply preserves_throw | case_match].
Qed.
End no_refusal.

(** A destruction that the service answers with an error is taken for done: the record is
    dropped while the flow stays installed, and nothing will delete it any more. *)
Theorem deleteRule_ignores_refusal k fr w res s' :
  Destroy {| del_PortId := req_PortId (FlowRule fr); del_FlowId := FlowID fr |} (outside w) = (Ok res, s') →
  is_flow_error (flow_ErrorInfo res) = true → flow_of fr ∈ installed (outside w) →
  ∃ w', deleteRule k fr w = (Ok tt, w') ∧ entries (flowSets w') !! k = None
        ∧ flow_of fr ∈ installed (outside w').
Proof.
  intros Hd Herr Hin. pose proof (Destroy_installed {| del_PortId := req_PortId (FlowRule fr);
    del_FlowId := FlowID fr |} (outside w)) as H. rewrite Hd, Herr in H.
  unfold deleteRule, mbind, M_bind, attempt, outside_call. rewrite Hd.
  eexists. split; [reflexivity|]. cbn [flowSets outside]. split.
  - by rewrite entries_Delete, lookup_delete_eq.
  - by rewrite H.
Qed.
End simulation.

(** ** A concrete flow service *)

Record Device : Type := {
  dev_flows : gset (Z * Z);
  dev_next : Z;
  dev_policy : option NodeFlowConfig
}.

Definition unreachable : error := ExtError "unable to connect to DCF grpc endpoint".

Definition set_flows (s : Device) (flows : gset (Z * Z)) (next : Z) : Device :=
  {| dev_flows := flows; dev_next := next; dev_policy := dev_policy s |}.

Definition some_error : RteFlowError := {| err_Type := 1; err_Cause := None; err_Mesg := "refused" |}.

(** A service that may be out of reach, and may refuse destructions. *)
Definition device_client (reachable refuses : bool) : FlowServiceClient Device := {|
  Validate req s := if reachable then (Ok {| flow_ErrorInfo := None |}, s) else (Err unreachable, s);
  Create req s :=
    if reachable then
      if decide ((req_PortId req, dev_next s) ∈ dev_flows s)
      then (Ok {| create_FlowId := 0; create_ErrorInfo := Some some_error |}, s)
      else (Ok {| create_FlowId := dev_next s; create_ErrorInfo := None |},
            set_flows s ({[ (req_PortId req, dev_next s) ]} ∪ dev_flows s) (dev_next s + 1))
    else (Err unreachable, s);
  Destroy d s :=
    if reachable then
      if refuses then (Ok {| flow_ErrorInfo := Some some_error |}, s)
      else (Ok {| flow_ErrorInfo := None |},
            set_flows s (dev_flows s ∖ {[ (del_PortId d, del_FlowId d) ]}) (dev_next s))
    else (Err unreachable, s);
  ListPorts s := if reachable then (Ok {| Ports := [] |}, s) else (Err unreachable, s);
|}.

#[export] Instance device_api : NodeFlowConfigApi Device := {|
  nfc_Get nn s := match dev_policy s with
                  | Some p => (Ok p, s)
                  | None => (Err (ApiError NotFound "not found"), s)
                  end;
  nfc_StatusUpdate o s := (Ok tt, s);
|}.

Definition device_service reachable refuses : @DcfService Device (device_client reachable refuses).
Proof.
  refine {| installed := dev_flows |}.
  - intros req s. cbn. by destruct reachable.
  - intros s. cbn. by destruct reachable.
  - intros req s. cbn. destruct reachable; [|done]. by case_decide.
  - intros d s. cbn. destruct reachable; [|done]. by destruct refuses.
Defined.

#[export] Instance device_apart reachable refuses : @ApiApart Device _ _ (device_service reachable refuses).
Proof. split; [|done]. intros nn s. cbn. by destruct (dev_policy s). Qed.

(** *** Examples *)

Definition example_request (port : Z) : RequestFlowCreate :=
  {| req_PortId := port; req_Attr := None;
     req_Pattern := [{| item_Type := RTE_FLOW_ITEM_TYPE_END; item_Spec := None; item_Last := None;
                        item_Mask := None |}];
     req_Action := [{| action_Type := RTE_FLOW_ACTION_TYPE_END; action_Conf := None |}] |}.

Definition plain_rule (port : Z) : FlowRules :=
  {| rule_PortId := port; rule_Attr := None;
     rule_Pattern := [{| fi_Type := "RTE_FLOW_ITEM_TYPE_END"; fi_Spec := None; fi_Last := None;
                         fi_Mask := None |}];
     rule_Action := [{| fa_Type := "RTE_FLOW_ACTION_TYPE_END"; fa_Conf := None |}] |}.

Definition plain_policy (rules : list FlowRules) : NodeFlowConfig :=
  {| nfc_Name := "node"; nfc_Namespace := "ns"; nfc_Spec := {| nfc_Rules := rules |};
     nfc_Status := {| PortInfo := None; LastRules := []; SyncStatus := SyncUnset; SyncMsg := "" |} |}.

(** A cache with one rule, whose flow 3 is installed on port 1. *)
Definition one_record : FlowCreateRecord := {| FlowID := 3; FlowRule := example_request 1 |}.
Definition one_rule : FlowSets := Add NewFlowSets (flow_key (example_request 1)) 3 (example_request 1).

Definition world (policy : option NodeFlowConfig) : NodeWorld Device :=
  {| flowSets := one_rule;
     outside := {| dev_flows := {[ (1, 3) ]}; dev_next := 7; dev_policy := policy |} |}.

#[local] Existing Instance one_vf.
#[local] Existing Instance listed_order.

Lemma world_in_step reachable refuses policy :
  @in_step Device _ (device_service reachable refuses) ∅ (world policy).
Proof.
  unfold in_step. cbn -[flow_key one_rule]. unfold one_rule. split; [set_solver|].
  rewrite difference_empty_L.
  rewrite entries_Add, entries_New, lookup_empty. split.
  - intros p. rewrite elem_of_singleton. split.
    + intros ->. do 2 eexists. split; [by rewrite lookup_insert_eq|done].
    + intros (k & r & [[_ <-]|[_ Hk]]%lookup_insert_Some & <-); [done|by rewrite lookup_empty in Hk].
  - intros k1 k2 r1 r2 [[<- _]|[_ H1]]%lookup_insert_Some [[<- _]|[_ H2]]%lookup_insert_Some _;
      [done|by rewrite lookup_empty in *..].
Qed.

Lemma second_synchronisation_is_idle_witness :
  let _ := device_client true false in
  let w := world None in
  let m := getToAddAndDelete (flowSets w) [example_request 2] in
  let w' := (createAndDeleteRules m.1 m.2 w).2 in
  getToAddAndDelete (flowSets w') [example_request 2] = (∅, ∅)
  ∧ (let m := getToAddAndDelete (flowSets w') [example_request 2] in
     createAndDeleteRules m.1 m.2 w') = (Ok tt, w').
Proof.
  intros fc w m w'. apply (second_synchronisation_is_idle [example_request 2] w).
  vm_compute. reflexivity.
Defined.

Definition unit_api : NodeFlowConfigApi unit :=
  {| nfc_Get _ s := (Err (ApiError NotFound "not found"), s); nfc_StatusUpdate _ s := (Ok tt, s) |}.

Definition healthy_client : FlowServiceClient unit :=
  {| Validate _ s := (Ok {| flow_ErrorInfo := None |}, s);
     Create _ s := (Ok {| create_FlowId := 9; create_ErrorInfo := None |}, s);
     Destroy _ s := (Ok {| flow_ErrorInfo := None |}, s);
     ListPorts s := (Ok {| Ports := [] |}, s) |}.


Lemma Reconcile_unreachable_panics_witness :
  let _ := device_client false false in
  ∃ w', Reconcile ("node", "ns")%string (world None) = (Panic, w') ∧ flowSets w' = one_rule.
Proof.
  intros fc. eapply (Reconcile_unreachable_panics _ (world None));
    [reflexivity|reflexivity|intros; by do 2 eexists|].
  intros H. apply (f_equal size) in H. vm_compute in H. discriminate H.
Defined.

Lemma Reconcile_tracks_installed_witness :
  let _ := device_client true false in let _ := device_service true false in
  in_step ∅ (Reconcile ("node", "ns")%string (world (Some (plain_policy [plain_rule 2])))).2.
Proof.
  intros fc ds. apply Reconcile_tracks_installed; [|apply world_in_step].
  intros d s res s' [= <- <-]. reflexivity.
Defined.

Lemma deleteRule_ignores_refusal_witness :
  let _ := device_client true true in let _ := device_service true true in
  ∃ w', deleteRule (flow_key (example_request 1)) one_record (world None) = (Ok tt, w')
        ∧ entries (flowSets w') !! flow_key (example_request 1) = None
        ∧ flow_of one_record ∈ installed (outside w').
Proof.
  intros fc ds. eapply deleteRule_ignores_refusal; [reflexivity|reflexivity|].
  change (((1, 3) : Z * Z) ∈ ({[ (1, 3) ]} : gset (Z * Z))). by apply elem_of_singleton.
Defined.
