(* ===== verification/NodeFlowConfigRuns.v ===== *)
(** * Runs of the flow daemon

    The node controller as a state machine: it starts with no record, reconciliations follow
    each other, and between them the world changes in any way that leaves the installed
    flows alone. The invariant of every state it reaches, what the device holds after a
    synchronisation and after the resource is gone, and what a restart leaves behind. *)

From S2P Require Import Prelude FlowApi AnyModel FlowItems FlowItemsSpec FlowTypes FlowSets Dcf NodeFlowConfig NodeFlowConfigSpec NodeFlowConfigDevice.

Local Open Scope Z_scope.

(** ** Counting the flows of a cache *)

Lemma tracks_empty flows : tracks ∅ flows → flows = ∅.
Proof.
  intros [Hp _]. apply set_eq. intros p. rewrite Hp. split; [|set_solver].
  intros (k & r & Hk & _). by rewrite lookup_empty in Hk.
Qed.

Lemma tracks_list_to_set m flows :
  tracks m flows → flows = list_to_set ((λ e, flow_of e.2) <$> map_to_list m).
Proof.
  intros [Hp _]. apply set_eq. intros p.
  rewrite Hp, elem_of_list_to_set, list_elem_of_fmap. split.
  - intros (k & r & Hk & <-). exists (k, r). by rewrite elem_of_map_to_list.
  - intros ([k r] & -> & Hk%elem_of_map_to_list). eauto.
Qed.

Lemma tracks_size m flows : tracks m flows → size flows = size m.
Proof.
  intros Ht. rewrite (tracks_list_to_set m flows Ht). destruct Ht as [_ Hi].
  rewrite size_list_to_set, length_fmap; [by rewrite length_map_to_list|].
  apply NoDup_fmap_2_strong; [|apply NoDup_map_to_list].
  intros [k1 r1] [k2 r2] H1%elem_of_map_to_list H2%elem_of_map_to_list E. cbn in E.
  assert (k1 = k2) as -> by eauto. by simplify_eq.
Qed.

Section runs.
Context {S : Type} `{HC : !AnyCodec} `{HV : !SriovUtils} `{HF : !FlowServiceClient S} `{HG : !NodeFlowConfigApi S} `{HD : !DcfService S} `{HI : !ApiApart S} `{HO : !MapOrder}.
Implicit Types w : NodeWorld S.

(** A panic ends the process, so it is not a step. *)
Inductive run_step w : NodeWorld S → Prop :=
  | run_reconcile req o w' : Reconcile req w = (o, w') → o ≠ Panic → run_step w w'
  | run_other s : installed s = installed (outside w) → run_step w {| flowSets := flowSets w; outside := s |}.

(** The states of a process that is started when the world is [s]. *)
Definition reachable (s : S) w : Prop := rtc run_step (GetNodeFlowConfigReconciler NewFlowSets s) w.

(** The worlds a process leaves: it is stopped, or it panics. *)
Inductive left_behind (s : S) : S → Prop :=
  | stopped w : reachable s w → left_behind s (outside w)
  | panicked w req w' : reachable s w → Reconcile req w = (Panic, w') → left_behind s (outside w').

(** The service does not answer a destruction with an error. *)
Hypothesis Destroy_accepted : ∀ d s res s',
  Destroy d s = (Ok res, s') → is_flow_error (flow_ErrorInfo res) = false.

Definition run_inv (s : S) w : Prop := in_step (installed s) w ∧ keys_match (entries (flowSets w)).

Lemma run_inv_start s : run_inv s (GetNodeFlowConfigReconciler NewFlowSets s).
Proof.
  split; [split|]; cbn; rewrite ?entries_New.
  - done.
  - rewrite difference_diag_L. split; [|intros k1 k2 r1 r2 H; by rewrite lookup_empty in H].
    intros p. split; [set_solver|]. intros (k & r & H & _). by rewrite lookup_empty in H.
  - intros k r H. by rewrite lookup_empty in H.
Qed.

Lemma run_inv_Reconcile s req : preserves (run_inv s) (Reconcile req).
Proof.
  intros w [H1 H2]. split; [by apply Reconcile_tracks_installed|].
  apply (Reconcile_preserves keys_match); [|done]. apply towards_keys_match.
Qed.

Lemma reachable_inv s w : reachable s w → run_inv s w.
Proof.
  unfold reachable. generalize (run_inv_start s). generalize (GetNodeFlowConfigReconciler NewFlowSets s).
  intros w0 H0 Hr. induction Hr as [w0|w0 w1 w2 Hstep _ IH]; [done|]. apply IH. clear IH.
  destruct Hstep as [req o w' E _|s' E].
  - pose proof (run_inv_Reconcile s req _ H0) as H. by rewrite E in H.
  - unfold run_inv, in_step. cbn. by rewrite E.
Qed.

Lemma gone_leaves_nothing req w e s1 w' :
  nfc_Get req (outside w) = (Err e, s1) → IsNotFound e = true →
  Reconcile req w = (Ok tt, w') → entries (flowSets w') = ∅.
Proof.
  intros Hg He Hr. unfold Reconcile, mbind, M_bind, attempt, outside_call in Hr.
  rewrite Hg, He in Hr. pose proof (deleteAllRules_ensures {| flowSets := flowSets w; outside := s1 |}) as H.
  unfold ensures in H. destruct (deleteAllRules _) as [[[]|e'|] w1] eqn:E; [by injection Hr as <-| |done].
  exfalso. unfold deleteAllRules, mbind, M_bind, gets, attempt in E.
  by destruct (deleteRules _ _) as [[]?].
Qed.
(** What the device holds for a list of requests: besides foreign flows, one flow for each
    distinct hash of a request, each for a rule with such a hash, at that rule's port. *)
Definition holds (reqs : list RequestFlowCreate) (foreign flows : gset (Z * Z)) : Prop :=
  foreign ⊆ flows
  ∧ size (flows ∖ foreign) = size (list_to_set (flow_key <$> reqs) : gset string)
  ∧ ∀ p, p ∈ flows ∖ foreign → ∃ rule, flow_key rule ∈ flow_key <$> reqs ∧ p.1 = req_PortId rule.

Lemma in_step_holds foreign w reqs :
  in_step foreign w → keys_match (entries (flowSets w)) →
  dom (entries (flowSets w)) = list_to_set (flow_key <$> reqs) →
  holds reqs foreign (installed (outside w)).
Proof.
  intros [Hf Ht] Hk Hdom. split_and!; [done| |].
  - by rewrite (tracks_size _ _ Ht), <- Hdom, size_dom.
  - intros p [k [r [Hr <-]]]%(proj1 Ht). exists (FlowRule r). split; [|done].
    rewrite <- (Hk k r Hr), <- (elem_of_list_to_set (C:=gset string)), <- Hdom.
    by apply elem_of_dom_2 in Hr.
Qed.


(** A controller that stops leaves its flows on the device, and no controller started later
    removes them, unless the flow service is restarted too. *)
Theorem restarts_orphan_flows s s' : rtc left_behind s s' → installed s ⊆ installed s'.
Proof.
  intros Hr. induction Hr as [|s0 s1 s2 H _ IH]; [done|]. etrans; [|exact IH].
  destruct H as [w H%reachable_inv|w req w' H%reachable_inv E]; [apply H|].
  pose proof (run_inv_Reconcile s0 req w H) as H'. rewrite E in H'. apply H'.
Qed.
End runs.

#[local] Existing Instance one_vf.
#[local] Existing Instance listed_order.

(** A device that holds a flow of another client, and three rules for it, two of them the
    same; what is left of the run when the resource is deleted. *)
Definition shared_device : Device :=
  {| dev_flows := {[ (1, 3) ]}; dev_next := 7;
     dev_policy := Some (plain_policy [plain_rule 2; plain_rule 4; plain_rule 2]) |}.

Definition rules_created : NodeWorld Device :=
  let _ := device_client true false in
  (Reconcile ("node", "ns")%string (GetNodeFlowConfigReconciler NewFlowSets shared_device)).2.

Definition resource_gone : NodeWorld Device :=
  {| flowSets := flowSets rules_created;
     outside := {| dev_flows := dev_flows (outside rules_created); dev_next := 9; dev_policy := None |} |}.

