(* ===== verification/DcfSpec.v ===== *)
(** * Connections to the flow service

    Every call of the client, the check for readiness and a whole reconciliation leave as
    many connections open as there were, however they end; and the check for readiness
    succeeds exactly when one of its attempts is answered. *)

From S2P Require Import Prelude Process FlowApi AnyModel FlowItems FlowTypes FlowSets Dcf NodeFlowConfig NodeFlowConfigSpec.

(** How many connections are open: dialing opens one or fails, closing closes one, and the
    methods open and close none. *)
Class Connections {S} (G : GrpcChannel S) : Type := {
  open_conns : S → nat;
  DialContext_done s s' : DialContext s = (Ok tt, s') → open_conns s' = Datatypes.S (open_conns s);
  DialContext_failed s r s' : DialContext s = (r, s') → r ≠ Ok tt → open_conns s' = open_conns s;
  Close_closes s : open_conns (Close s) = Nat.pred (open_conns s);
  Validate_keeps n req : preserves (λ s, open_conns s = n) (Invoke_Validate req);
  Create_keeps n req : preserves (λ s, open_conns s = n) (Invoke_Create req);
  Destroy_keeps n req : preserves (λ s, open_conns s = n) (Invoke_Destroy req);
  Query_keeps n req : preserves (λ s, open_conns s = n) (Invoke_Query req);
  List_keeps n req : preserves (λ s, open_conns s = n) (Invoke_List req);
  Flush_keeps n req : preserves (λ s, open_conns s = n) (Invoke_Flush req);
  Isolate_keeps n req : preserves (λ s, open_conns s = n) (Invoke_Isolate req);
  ListPorts_keeps n : preserves (λ s, open_conns s = n) Invoke_ListPorts;
}.

#[export] Hint Resolve Validate_keeps Create_keeps Destroy_keeps Query_keeps List_keeps Flush_keeps
  Isolate_keeps ListPorts_keeps : preserves.

Section connections.
Context {S : Type} `{HG : !GrpcChannel S} `{HN : !Connections HG}.

Notation balanced n := (λ s : S, open_conns s = n).

Lemma closing_balanced {A} (dial : M S unit) (call : M S A) n :
  (∀ s s', dial s = (Ok tt, s') → open_conns s' = Datatypes.S (open_conns s)) →
  (∀ s r s', dial s = (r, s') → r ≠ Ok tt → open_conns s' = open_conns s) →
  (∀ n, preserves (balanced n) call) → preserves (balanced n) (closing dial call).
Proof.
  intros Hdone Hfailed Hcall s Hs. unfold closing in *.
  destruct (dial s) as [[[]|e|] s1] eqn:Hd; cbn.
  - apply Hdone in Hd. pose proof (Hcall (open_conns s1) s1 eq_refl) as H.
    destruct (call s1) as [o s2]. cbn in *. rewrite Close_closes. lia.
  - by rewrite (Hfailed _ _ _ Hd).
  - by rewrite (Hfailed _ _ _ Hd).
Qed.

Lemma with_conn_balanced {A} (call : M S A) n :
  (∀ n, preserves (balanced n) call) → preserves (balanced n) (with_conn call).
Proof.
  apply closing_balanced; unfold getDCFFlowClientConn, wrapM; intros s.
  - intros s' H. apply DialContext_done. destruct (DialContext s) as [[[]|e|] s1]; naive_solver.
  - intros r s' H Hr. destruct (DialContext s) as [o s1] eqn:Hd. injection H as <- <-.
    eapply DialContext_failed; [exact Hd|]. by intros ->.
Qed.

Lemma client_ready_balanced u n : preserves (balanced n) (client_ready u).
Proof.
  apply preserves_bind; [|intros answered; apply preserves_ret]. apply preserves_attempt.
  apply closing_balanced; [apply DialContext_done|apply DialContext_failed|apply ListPorts_keeps].
Qed.

(** A method of the client. *)
Inductive client_call : ∀ {A}, M S A → Prop :=
  | call_Validate rule : client_call (dcf_Validate rule)
  | call_Create rule : client_call (dcf_Create rule)
  | call_Destroy flow : client_call (dcf_Destroy flow)
  | call_Query flow : client_call (dcf_Query flow)
  | call_List port : client_call (dcf_List port)
  | call_Flush port : client_call (dcf_Flush port)
  | call_Isolate port : client_call (dcf_Isolate port)
  | call_ListPorts : client_call dcf_ListPorts.

Lemma client_call_balanced {A} (call : M S A) n : client_call call → preserves (balanced n) call.
Proof. destruct 1; apply with_conn_balanced; intros k; auto with preserves. Qed.

(** ** A whole reconciliation *)

Context `{HC : !AnyCodec} `{HV : !SriovUtils} `{HA : !NodeFlowConfigApi S} `{HO : !MapOrder}.
Hypothesis Get_balanced : ∀ n req, preserves (balanced n) (nfc_Get req).
Hypothesis StatusUpdate_balanced : ∀ n p, preserves (balanced n) (nfc_StatusUpdate p).

#[local] Existing Instance dcfClient.

(** C22 Every method of the client, the check for readiness and every reconciliation of the
    node with this client leave as many connections to the flow service open as there were,
    whether they return, fail or panic: no connection leaks. *)
Theorem no_connection_leaks n :
  (∀ A (call : M S A), client_call call → preserves (λ s, open_conns s = n) call)
  ∧ (∀ `{HB : !Backoff S} `{!BackoffLaws HB}, preserves (λ s, open_conns s = n) CheckClientReadiness)
  ∧ ∀ req, preserves (λ w, open_conns (outside w) = n) (Reconcile req).
Proof.
  split_and!.
  - intros A call. apply client_call_balanced.
  - intros HB HBL. apply preserves_bind; [|intros [[] u]; [apply preserves_ret|apply preserves_throw]].
    apply preserves_ExponentialBackoff. intros u. apply client_ready_balanced.
  - intros req. apply (Reconcile_keeps (balanced n)); [..|apply Get_balanced|apply StatusUpdate_balanced];
      intros; apply client_call_balanced; constructor.
Qed.
End connections.

(** ** Readiness *)

Section readiness.
Context {S : Type} `{HG : !GrpcChannel S} `{HB : !Backoff S} `{HBL : !BackoffLaws HB}.

(** The state before the attempt with index [i], all attempts before it having failed. *)
Fixpoint after_failures (i : nat) (s : S) : option S :=
  match i with
  | O => Some s
  | Datatypes.S i =>
      match closing DialContext Invoke_ListPorts s with
      | (Err _, s') => after_failures i s'
      | _ => None
      end
  end.

Definition answered (s s' : S) : Prop := ∃ ports, closing DialContext Invoke_ListPorts s = (Ok ports, s').

Lemma client_ready_run s :
  client_ready tt s = match closing DialContext Invoke_ListPorts s with
                      | (Ok _, s') => (Ok (true, tt), s')
                      | (Err _, s') => (Ok (false, tt), s')
                      | (Panic, s') => (Panic, s')
                      end.
Proof. unfold client_ready. unfold_state. by destruct (closing _ _ s) as [[|?|] s']. Qed.

Lemma repeats_answered n s s' :
  repeats n client_ready tt s = (Ok (true, tt), s')
  ↔ ∃ i s1, (i < n)%nat ∧ after_failures i s = Some s1 ∧ answered s1 s'.
Proof.
  revert s. induction n as [|n IH]; intros s; cbn [repeats]; [split; [done|]; intros (i & ? & ? & _); lia|].
  unfold mbind, M_bind. rewrite client_ready_run.
  destruct (closing DialContext Invoke_ListPorts s) as [[ports|e|] s2] eqn:Hone; cbn.
  - split; [intros [= <-]; exists 0, s; split_and!; [lia|done|by exists ports]|].
    intros ([|i] & s1 & _ & Hs1 & ports' & Hans); cbn in Hs1; [|by rewrite Hone in Hs1].
    injection Hs1 as <-. rewrite Hone in Hans. by injection Hans as _ <-.
  - rewrite IH. split.
    + intros (i & s1 & Hi & Hs1 & Hans). exists (Datatypes.S i), s1. split_and!; [lia| |done]. cbn. by rewrite Hone.
    + intros ([|i] & s1 & Hi & Hs1 & Hans); cbn in Hs1.
      * injection Hs1 as <-. destruct Hans as [ports Hans]. by rewrite Hone in Hans.
      * rewrite Hone in Hs1. exists i, s1. split_and!; [lia|done..].
  - split; [done|]. intros ([|i] & s1 & _ & Hs1 & ports & Hans); cbn in Hs1; [|by rewrite Hone in Hs1].
    injection Hs1 as <-. by rewrite Hone in Hans.
Qed.

(** C32 The check for readiness succeeds exactly when one of its first ten attempts, after
    nothing but failed ones, connects and has its ports listed. The delays between ten
    attempts add up to 25.55 seconds, half of what the comment says. *)
Theorem CheckClientReadiness_spec s s' :
  (CheckClientReadiness s = (Ok tt, s')
   ↔ ∃ i s1, (i < 10)%nat ∧ after_failures i s = Some s1 ∧ answered s1 s')
  ∧ readiness_wait = 25550%Z.
Proof.
  split; [|reflexivity]. rewrite <- (repeats_answered readiness_steps).
  unfold CheckClientReadiness, mbind, M_bind. rewrite ExponentialBackoff_repeats.
  destruct (repeats readiness_steps client_ready tt s) as [[[[] []]|e|] s2]; cbn.
  all: split; intros Hrun; by inversion Hrun.
Qed.
End readiness.

(** ** A channel that counts its connections and answers from the third attempt on *)

Definition counting_call {A} (x : A) : M (nat * nat) A := λ s,
  if decide (3 ≤ s.2)%nat then (Ok x, s) else (Err (ExtError "connection refused"), s).

Definition counting_channel : GrpcChannel (nat * nat) := {|
  DialContext s := (Ok tt, (Datatypes.S s.1, Datatypes.S s.2));
  Close s := (Nat.pred s.1, s.2);
  Invoke_Validate _ := counting_call {| flow_ErrorInfo := None |};
  Invoke_Create _ := counting_call {| create_FlowId := 1; create_ErrorInfo := None |};
  Invoke_Destroy _ := counting_call {| flow_ErrorInfo := None |};
  Invoke_Query _ := counting_call {| query_ErrorInfo := None; query_Data := None |};
  Invoke_List _ := counting_call {| Results := [] |};
  Invoke_Flush _ := counting_call {| flow_ErrorInfo := None |};
  Invoke_Isolate _ := counting_call {| flow_ErrorInfo := None |};
  Invoke_ListPorts := counting_call {| Ports := [] |};
|}.

Lemma counting_call_keeps n {A} (x : A) : preserves (λ s : nat * nat, s.1 = n) (counting_call x).
Proof. intros s Hs. unfold counting_call. by case_decide. Qed.

Definition counting_connections : Connections counting_channel.
Proof.
  refine (@Build_Connections _ counting_channel fst _ _ _ _ _ _ _ _ _ _ _); intros;
    try apply counting_call_keeps; try done; by simplify_eq/=.
Defined.

Definition silent_api : NodeFlowConfigApi (nat * nat) := {|
  nfc_Get _ s := (Err (ApiError NotFound "not found"), s);
  nfc_StatusUpdate _ s := (Ok tt, s);
|}.

Lemma no_connection_leaks_witness :
  (@dcf_ListPorts _ counting_channel (0, 0)%nat).2.1 = 0%nat
  ∧ (@CheckClientReadiness _ counting_channel retry_backoff (0, 0)%nat).2.1 = 0%nat
  ∧ ∀ `{SriovUtils},
      (outside (@Reconcile _ AnyModel _ (@dcfClient _ counting_channel) silent_api listed_order
         ("operator", "node-1")%string {| flowSets := NewFlowSets; outside := (0, 0)%nat |}).2).1 = 0%nat.
Proof.
  pose proof (λ HV, @no_connection_leaks _ counting_channel counting_connections AnyModel HV silent_api listed_order) as Hleaks.
  set (no_vf := {| GetPfName _ := Err (ExtError ""); GetVFID _ := Ok (-1)%Z |} : SriovUtils).
  specialize (λ HV, Hleaks HV ltac:(by intros n req s) ltac:(by intros n p s) 0%nat).
  split_and!.
  - by apply (proj1 (Hleaks no_vf) _ _ call_ListPorts).
  - by apply (proj1 (proj2 (Hleaks no_vf)) retry_backoff retry_backoff_laws).
  - intros HV. by apply (proj2 (proj2 (Hleaks HV))).
Defined.

Lemma CheckClientReadiness_spec_witness :
  @CheckClientReadiness _ counting_channel retry_backoff (0, 0)%nat = (Ok tt, (0, 3)%nat).
Proof.
  apply (proj1 (@CheckClientReadiness_spec _ counting_channel retry_backoff retry_backoff_laws (0, 0)%nat (0, 3)%nat)).
  exists 2%nat, (0, 2)%nat. split_and!; [lia|reflexivity|]. by eexists.
Defined.
