(* ===== verification/FlowTranslation.v ===== *)
(** * From accepted rules to flow requests

    What the node controller makes of pattern items, actions and ports, and the bridge
    between the webhooks and the controller: a rule that was admitted can be translated. *)

From S2P Require Import Prelude GoStrings GoNet GoCrypto GoJson GoJsonDecode FlowEnums FlowApi AnyModel FlowItems FlowItemsSpec FlowTypes FlowSets Webhook WebhookSpec Dcf NodeFlowConfig.

Local Open Scope Z_scope.

Section translation.
Context `{HA : !AnyCodec} `{HV : !SriovUtils}.

(** ** Helper lemmas *)

Lemma collect_total {A B} (body : A → outcome B) l :
  Forall (λ x, ∃ y, body x = Ok y) l → ∃ ys, collect body l = Ok ys.
Proof.
  induction 1 as [|x l [y Hy] _ [ys Hys]]; [by exists []|].
  exists (y :: ys). cbn. rewrite Hy. cbn. by rewrite Hys.
Qed.

Lemma getRteFlowActions_length actions pod l pod' :
  getRteFlowActions actions pod = Ok (l, pod') → length l = length actions.
Proof.
  revert pod l pod'. induction actions as [|a actions IH]; intros pod l pod'; cbn; [naive_solver|].
  intros H. apply outcome_bind_Ok in H as ([x p] & _ & H).
  apply outcome_bind_Ok in H as ([y q] & Hy & [= <- <-]). cbn. f_equal. by eapply IH.
Qed.

Lemma item_part_Ok fmt ty part a :
  item_part fmt ty part = Ok a ↔
  match part with
  | None => a = None
  | Some raw => ∃ x, GetFlowItemAny ty raw = Ok x ∧ a = Some x
  end.
Proof.
  unfold item_part. destruct part as [raw|]; [|naive_solver].
  rewrite fmap_Ok. setoid_rewrite wrap_Ok. done.
Qed.

Lemma validate_part_item_part fmt' flowType ty name f1 f2 spec part a :
  validate_part flowType ty name f1 f2 spec part = Ok a → item_part fmt' ty part = Ok a.
Proof.
  rewrite item_part_Ok. unfold validate_part. destruct part as [raw|]; [|naive_solver].
  intros H. apply outcome_bind_Ok in H as (x & Hx%wrap_Ok & H).
  apply outcome_bind_Ok in H as ([] & _ & [= <-]). eauto.
Qed.

Lemma validated_item_translates item :
  validateRteFlowItem item = Ok tt → ∃ r, getRteFlowItem item = Ok r.
Proof.
  unfold validateRteFlowItem, getRteFlowItem.
  destruct (RteFlowItemType_value (fi_Type item)) as [ty|]; [|done].
  intros H. apply outcome_bind_Ok in H as (s & Hs & H).
  apply outcome_bind_Ok in H as (l & Hl & H). apply outcome_bind_Ok in H as (m & Hm & _).
  eapply validate_part_item_part in Hs, Hl, Hm. rewrite Hs. cbn. rewrite Hl. cbn. rewrite Hm.
  by eexists.
Qed.

(** The packed item has the type of the text; what was written under [last] takes the
    place of the spec, and the message's own [last] is never set. *)
Theorem getRteFlowItem_spec item r :
  getRteFlowItem item = Ok r →
  RteFlowItemType_String (item_Type r) = fi_Type item
  ∧ item_Last r = None
  ∧ (∀ raw, fi_Last item = Some raw →
       ∃ a, GetFlowItemAny (fi_Type item) raw = Ok a ∧ item_Spec r = Some a)
  ∧ (fi_Last item = None → ∀ raw, fi_Spec item = Some raw →
       ∃ a, GetFlowItemAny (fi_Type item) raw = Ok a ∧ item_Spec r = Some a)
  ∧ (∀ raw, fi_Mask item = Some raw →
       ∃ a, GetFlowItemAny (fi_Type item) raw = Ok a ∧ item_Mask r = Some a).
Proof.
  unfold getRteFlowItem. destruct (RteFlowItemType_value (fi_Type item)) as [ty|] eqn:Hty; [|done].
  intros H. apply outcome_bind_Ok in H as (s & Hs%item_part_Ok & H).
  apply outcome_bind_Ok in H as (l & Hl%item_part_Ok & H).
  apply outcome_bind_Ok in H as (m & Hm%item_part_Ok & [= <-]).
  apply RteFlowItemType_value_inv in Hty. cbn.
  destruct (fi_Spec item), (fi_Last item), (fi_Mask item); naive_solver.
Qed.

(** The port of a rule that asks for it is that of the first DCF port whose physical
    function has the wanted name, provided the ports before it have names that differ. *)
Theorem find_port_spec pfName ports id :
  find_port pfName ports = Ok id
  ↔ ∃ i port, ports !! i = Some port ∧ pi_PortId port = id ∧ GetPfName (pi_PortPci port) = Ok pfName
      ∧ ∀ j p, (j < i)%nat → ports !! j = Some p →
          ∃ name, GetPfName (pi_PortPci p) = Ok name ∧ name ≠ pfName.
Proof.
  induction ports as [|p ports IH]; [split; [done|intros (i & port & Hi & _); done]|].
  cbn [find_port]. rewrite outcome_bind_Ok. setoid_rewrite wrap_Ok. split.
  - intros (name & Hname & H). destruct (String.eqb_spec pfName name) as [<-|Hne].
    + simplify_eq. exists 0%nat, p. split_and!; [done..|lia].
    + apply IH in H as (i & port & Hi & Hid & Hpf & Hbefore).
      exists (S i), port. split_and!; [done..|]. intros [|j] q Hj Hq; [naive_solver|].
      apply (Hbefore j); [lia|done].
  - intros ([|i] & port & Hi & Hid & Hpf & Hbefore).
    + cbn in Hi. simplify_eq. exists pfName. by rewrite String.eqb_refl.
    + destruct (Hbefore 0%nat p) as (name & Hname & Hne); [lia|done|].
      exists name. split; [done|]. destruct (String.eqb_spec pfName name); [congruence|].
      apply IH. exists i, port. split_and!; [done..|].
      intros j q Hj Hq. apply (Hbefore (S j)); [lia|done].
Qed.

(** ** Admitted rules *)

Section admitted.
(** The node knows a VF at every address the webhook lets through, and packing a VF action
    succeeds. *)
Hypothesis vfs_present : ∀ pci, pci_MatchString pci = true →
  ∃ id, GetVFID pci = Ok id ∧ 0 ≤ id < 2 ^ 32.
Hypothesis pack_vf : ∀ id, ∃ a, any_New "RteFlowActionVf" (vf_with_id id) = Ok a.

Lemma webhook_action_converts ty raw a :
  GetFlowActionAnyForWebhook (H0 := no_sriov) ty raw = Ok a →
  (∃ a', GetFlowActionAny ty raw = Ok a')
  ∧ (ty = RTE_FLOW_ACTION_TYPE_VFPCIADDR →
     ∃ v, Unmarshal schema "RteFlowActionVfPciAddr" raw = Ok v).
Proof.
  unfold GetFlowActionAnyForWebhook, GetFlowActionAny.
  destruct (RteFlowActionType_value ty) as [val|] eqn:Hval.
  { intros H. split; [by eexists|]. intros ->. vm_compute in Hval. discriminate Hval. }
  destruct (String.eqb ty RTE_FLOW_ACTION_TYPE_VFPCIADDR); [|done].
  unfold handleActionVfPciAddr. intros H.
  apply outcome_bind_Ok in H as (v & Hv & H). cbn [negb] in H.
  destruct (pci_MatchString (str_field "addr" v)) eqn:Hm; [|done].
  rewrite Hv. cbn [mbind outcome_bind negb]. apply wrap_Ok in Hv.
  split; [|by eauto]. destruct (vfs_present _ Hm) as (id & -> & Hid).
  rewrite (proj2 (Z.eqb_neq id (-1))) by lia. unfold known_action_any. cbn [GetFlowActionObj].
  rewrite Unmarshal_vf_id by done. cbn. destruct (pack_vf id) as [x ->]. by eexists.
Qed.

Lemma accepted_action_translates action pod :
  action_accepted action → ∃ r, getRteFlowAction action pod = Ok r.
Proof.
  intros (ty & conf & Hty & Hconf & _). unfold getRteFlowAction. rewrite Hty.
  destruct (fa_Conf action) as [raw|]; [|by eexists]. destruct Hconf as (a & Ha & _).
  apply webhook_action_converts in Ha as [[a' ->] Hv]. cbn.
  destruct (String.eqb_spec (fa_Type action) RTE_FLOW_ACTION_TYPE_VFPCIADDR) as [E|_]; [|by eexists].
  destruct (Hv E) as [v ->]. by eexists.
Qed.

Lemma accepted_actions_translate actions pod :
  Forall action_accepted actions → ∃ r, getRteFlowActions actions pod = Ok r.
Proof.
  intros H. revert pod. induction H as [|a l Ha _ IH]; intros pod; [by eexists|].
  cbn. destruct (accepted_action_translates a pod Ha) as [[x pod'] ->]. cbn.
  destruct (IH pod') as [[y pod''] ->]. by eexists.
Qed.

End admitted.
End translation.

(** ** Examples *)

(** A node where every address is that of a VF with index 7. *)
Definition all_vfs : SriovUtils := {| GetPfName pci := Ok "ens1"%string; GetVFID pci := Ok 7 |}.

Definition silent_client : FlowServiceClient unit :=
  {| Validate _ s := (Err (ExtError "down"), s); Create _ s := (Err (ExtError "down"), s);
     Destroy _ s := (Err (ExtError "down"), s); ListPorts s := (Err (ExtError "down"), s) |}.


Definition range_item : FlowItem :=
  {| fi_Type := "RTE_FLOW_ITEM_TYPE_VLAN"; fi_Spec := Some (json_text "{'tci':10}");
     fi_Last := Some (json_text "{'tci':20}"); fi_Mask := None |}.

(** A range from 10 to 20 becomes the single value 20. *)
Lemma getRteFlowItem_spec_witness :
  ∃ r a, getRteFlowItem range_item = Ok r ∧ item_Last r = None
    ∧ GetFlowItemAny "RTE_FLOW_ITEM_TYPE_VLAN" (json_text "{'tci':20}") = Ok a
    ∧ item_Spec r = Some a.
Proof.
  destruct (getRteFlowItem range_item) as [r| |] eqn:E; [|vm_compute in E; discriminate E..].
  pose proof (getRteFlowItem_spec range_item r E) as (_ & Hl & Hs & _).
  destruct (Hs _ eq_refl) as (a & Ha & Hspec). by exists r, a.
Defined.
