(* ===== verification/ClusterFlowConfig.v ===== *)
(** * The cluster flow configuration controller

    controllers/flowconfig/clusterflowconfig_controller.go: turns the rules of the
    ClusterFlowConfigs that select a pod into the NodeFlowConfig of the pod's node, and
    remembers the hashes of the rules each ClusterFlowConfig put into each NodeFlowConfig.
    The API server is a parameter [S]; label selectors (k8s.io/apimachinery) and the
    network status annotation (the NAD client library) are interfaces. *)

From S2P Require Import Prelude GoStrings GoCrypto GoJson GoJsonDecode FlowEnums FlowApi FlowItems FlowTypes NodeFlowConfig.

Local Open Scope Z_scope.

(** [types.NamespacedName]: namespace and name. *)
Notation NamespacedName := (string * string)%type.

(** ** Code outside the repository *)

Class LabelSelectors : Type := {
  Selector : Type;
  LabelSelectorAsSelector : option LabelSelector → outcome Selector;
  Selector_String : Selector → string;
}.

(** What the code reads of [nadClientTypes.NetworkStatus]; pointers may be nil. *)
Record DeviceInfo : Set := { di_Type : string; Pci_PciAddress : option string }.
Record NetworkStatus : Set := { Interface : string; ns_DeviceInfo : option DeviceInfo }.

Class NetworkStatusJson : Type := {
  Unmarshal_NetworkStatuses : string → outcome (list NetworkStatus);
}.

(** What the code reads of a [corev1.Pod]; maps may be nil. *)
Record Pod : Type := {
  pod_Name : string;
  pod_Labels : option (gmap string string);
  pod_Annotations : option (gmap string string);
  pod_NodeName : string;
  pod_Phase : string
}.

Class ClusterApi (S : Type) `{!LabelSelectors} : Type := {
  Get_ClusterFlowConfig : NamespacedName → M S ClusterFlowConfig;
  (** [List] in one namespace, or in all of them. *)
  List_ClusterFlowConfigs : option string → M S (list ClusterFlowConfig);
  List_Pods : string → Selector → M S (list Pod);
  Get_NodeFlowConfig : NamespacedName → M S NodeFlowConfig;
  Update_NodeFlowConfig : NodeFlowConfig → M S unit;
  Create_NodeFlowConfig : NodeFlowConfig → M S unit;
}.

(** ** getFlowRulesHash: SHA-256 of the JSON text of a rule *)

(** A raw extension is copied into the text, compacted, if it is valid JSON. *)
Definition encode_Raw (raw : RawExtension) : outcome string :=
  if String.eqb raw "" then Ok "null"%string
  else match read_all raw with
       | Ok _ => Ok (compact false false raw)
       | _ => Err (Errorf "json: error calling MarshalJSON for type *runtime.RawExtension")
       end.

Definition raw_member (name : string) (o : option RawExtension) : outcome (list (string * string)) :=
  match o with
  | Some raw => text ← encode_Raw raw; Ok [(name, text)]
  | None => Ok []
  end.

Definition encode_FlowItem (it : FlowItem) : outcome string :=
  spec ← raw_member "spec" (fi_Spec it);
  last ← raw_member "last" (fi_Last it);
  mask ← raw_member "mask" (fi_Mask it);
  Ok (encode_object (str_member "type" (fi_Type it) ++ spec ++ last ++ mask)).

Definition encode_FlowAction (a : FlowAction) : outcome string :=
  conf ← raw_member "conf" (fa_Conf a);
  Ok (encode_object (str_member "type" (fa_Type a) ++ conf)).

Definition encode_FlowAttr (a : FlowAttr) : string :=
  encode_object (num_member "group" (attr_Group a) ++ num_member "priority" (attr_Priority a)
    ++ num_member "ingress" (attr_Ingress a) ++ num_member "egress" (attr_Egress a)
    ++ num_member "transfer" (attr_Transfer a) ++ num_member "reserved" (attr_Reserved a)).

Definition encode_FlowRules (r : FlowRules) : outcome string :=
  pattern ← collect encode_FlowItem (rule_Pattern r);
  action ← collect encode_FlowAction (rule_Action r);
  Ok (encode_object (num_member "portId" (rule_PortId r)
    ++ ptr_member "attr" encode_FlowAttr (rule_Attr r)
    ++ slice_member "pattern" id pattern ++ slice_member "action" id action)).

Definition getFlowRulesHash (rule : FlowRules) : outcome string :=
  reqBytes ← encode_FlowRules rule;
  Ok (hex_encode (sha256 reqBytes)).

(** ** Actions of a rule for a pod *)

Definition getPodInterfaceNameFromRawExtension (conf : option RawExtension) : outcome string :=
  match conf with
  | None => Err (Errorf "action configuration is empty")
  | Some raw =>
      podInterfaceName ← wrap "unable to unmarshal action raw data %v" (Unmarshal_ToPodInterfaceConf raw);
      Ok (NetInterfaceName podInterfaceName)
  end.

(** The loop over the pod's networks: the PCI address of the first one with the interface
    and a PCI device; nil pointers are dereferenced. *)
Fixpoint find_pci (interfaceName : string) (networks : list NetworkStatus) : outcome string :=
  match networks with
  | [] => Ok ""%string
  | network :: networks =>
      if String.eqb (Interface network) interfaceName then
        match ns_DeviceInfo network with
        | None => Panic
        | Some info =>
            if String.eqb (di_Type info) "pci" then
              match Pci_PciAddress info with None => Panic | Some addr => Ok addr end
            else find_pci interfaceName networks
        end
      else find_pci interfaceName networks
  end.

(** [json.Marshal(&flowapi.RteFlowActionVfPciAddr{Addr: pciAddr})] *)
Definition encode_VfPciAddr (pciAddr : string) : string := encode_object (str_member "addr" pciAddr).

Definition network_status_key : string := "k8s.v1.cni.cncf.io/network-status".

Section actions.
Context `{!NetworkStatusJson}.

Definition getNodeActionForPodInterface (conf : option RawExtension) (pod : Pod) : outcome FlowAction :=
  interfaceName ← getPodInterfaceNameFromRawExtension conf;
  match default ∅ (pod_Annotations pod) !! network_status_key with
  | None => Err (Errorf "pod %s does not contains network status")
  | Some podAnnotations =>
      networks ← wrap "failed to unmarshal data for pod %s with error %s"
                   (Unmarshal_NetworkStatuses podAnnotations);
      pciAddr ← find_pci interfaceName networks;
      if String.eqb pciAddr "" then Err (Errorf "pod %s network status does not contains interface %s")
      else Ok {| fa_Type := RTE_FLOW_ACTION_TYPE_VFPCIADDR; fa_Conf := Some (encode_VfPciAddr pciAddr) |}
  end.

(** The conversion [int32(x)] of an [int]. *)
Definition int32 (x : Z) : Z := (x + 2 ^ 31) mod 2 ^ 32 - 2 ^ 31.

Definition getNodeAction (act : ClusterFlowAction) (pod : Pod) : outcome FlowAction :=
  if String.eqb (ClusterFlowActionType_String (cfa_Type act)) (ClusterFlowActionToString ToPodInterface)
  then getNodeActionForPodInterface (cfa_Conf act) pod
  else Ok {| fa_Type := find_name RteFlowActionType_name (int32 (cfa_Type act)); fa_Conf := cfa_Conf act |}.

Definition getNodeActionsFromClusterActions (actions : list ClusterFlowAction) (pod : Pod) :
    outcome (list FlowAction) :=
  nodeActions ← collect (λ act, getNodeAction act pod) actions;
  Ok (if (0 <? length nodeActions)%nat
      then nodeActions ++ [{| fa_Type := RteFlowActionType_String RTE_FLOW_ACTION_TYPE_END; fa_Conf := None |}]
      else nodeActions).

Definition newRule (pod : Pod) (rule : ClusterFlowRule) : outcome FlowRules :=
  actions ← getNodeActionsFromClusterActions (cr_Action rule) pod;
  Ok {| rule_PortId := automaticPortId; rule_Attr := cr_Attr rule;
        rule_Pattern := cr_Pattern rule; rule_Action := actions |}.

(** The inner loop of [updateNodeFlowConfigSpec]: rules appended so far, hashes of all rules
    of the node, hashes of this ClusterFlowConfig; an error leaves what was appended. *)
Fixpoint config_rules (pod : Pod) (rules : list ClusterFlowRule) (appended : list FlowRules)
    (allHashes : gset string) (hashes : list string) :
    outcome (option error * list FlowRules * gset string * list string) :=
  match rules with
  | [] => Ok (None, appended, allHashes, hashes)
  | rule :: rules =>
      match newRule pod rule with
      | Panic => Panic
      | Err e => Ok (Some e, appended, allHashes, hashes)
      | Ok r =>
          match getFlowRulesHash r with
          | Panic => Panic
          | Err e => Ok (Some (Wrapf "Error getting flow rules hash: %v" e), appended, allHashes, hashes)
          | Ok key =>
              if bool_decide (key ∈ allHashes)
              then config_rules pod rules appended allHashes (hashes ++ [key])
              else config_rules pod rules (appended ++ [r]) ({[ key ]} ∪ allHashes) (hashes ++ [key])
          end
      end
  end.
End actions.

(** ** Objects the controller watches *)

Inductive k8s_object : Type :=
  | ObjPod (p : Pod)
  | ObjClusterFlowConfig (c : ClusterFlowConfig)
  | ObjOther.

Inductive watch_event : Type :=
  | WatchCreate (o : k8s_object)
  | WatchDelete (o : k8s_object)
  | WatchUpdate (old new : k8s_object)
  | WatchGeneric (o : k8s_object).

Definition getPodFilterPredicates (e : watch_event) : bool :=
  match e with
  | WatchCreate (ObjClusterFlowConfig _) => true
  | WatchCreate _ => false
  | WatchDelete _ => true
  | WatchUpdate (ObjPod oldPod) (ObjPod newPod) =>
      if String.eqb (pod_Phase newPod) "Running" then
        if String.eqb (pod_Phase oldPod) "Pending" then true
        else negb (bool_decide (pod_Labels newPod = pod_Labels oldPod))
             || negb (bool_decide (pod_Annotations newPod = pod_Annotations oldPod))
      else false
  | WatchUpdate (ObjClusterFlowConfig _) (ObjClusterFlowConfig _) => true
  | WatchUpdate _ _ => false
  | WatchGeneric _ => false
  end.

(** The inner loop of [mapPodsToRequests]: how many labels match before the first one that
    is missing or different. *)
Fixpoint count_matches (labels : gmap string string) (l : list (string * string)) : nat :=
  match l with
  | [] => 0
  | (key, valCr) :: l =>
      match labels !! key with
      | None => 0
      | Some valPod => if String.eqb valPod valCr then S (count_matches labels l) else 0
      end
  end.

(** ** The reconciler *)

Record ClusterWorld (S : Type) : Type := {
  Cluster2NodeRulesHashMap : gmap NamespacedName (gmap NamespacedName (list string));
  api : S
}.
Arguments Cluster2NodeRulesHashMap {S}.
Arguments api {S}.

Definition set_Rules (c : NodeFlowConfig) (rules : list FlowRules) : NodeFlowConfig :=
  {| nfc_Name := nfc_Name c; nfc_Namespace := nfc_Namespace c; nfc_Spec := {| nfc_Rules := rules |};
     nfc_Status := nfc_Status c |}.

(** [&flowconfigv1.NodeFlowConfig{}] with a name. *)
Definition new_NodeFlowConfig (namespace name : string) : NodeFlowConfig :=
  {| nfc_Name := name; nfc_Namespace := namespace; nfc_Spec := {| nfc_Rules := [] |};
     nfc_Status := {| PortInfo := None; LastRules := []; SyncStatus := SyncUnset; SyncMsg := "" |} |}.

Definition conflict_text : string :=
  "the object has been modified; please apply your changes to the latest version and try again".

Section reconciler.
Context {S : Type} `{!LabelSelectors} `{!NetworkStatusJson} `{!ClusterApi S} `{!MapOrder}.
Notation CW A := (M (ClusterWorld S) A).

Definition api_call {A} (m : M S A) : CW A := λ w,
  let (o, s) := m (api w) in
  (o, {| Cluster2NodeRulesHashMap := Cluster2NodeRulesHashMap w; api := s |}).

Definition update_hashes (f : gmap NamespacedName (gmap NamespacedName (list string)) →
    gmap NamespacedName (gmap NamespacedName (list string))) : CW unit :=
  modify (λ w, {| Cluster2NodeRulesHashMap := f (Cluster2NodeRulesHashMap w); api := api w |}).

(** The rules of a NodeFlowConfig that are kept: those whose hash is computed and is not one
    of [hashes]. *)
Definition rule_kept (hashes : list string) (rule : FlowRules) : bool :=
  match getFlowRulesHash rule with
  | Ok key => negb (bool_decide (key ∈ hashes))
  | _ => false
  end.

Definition clean_config (config : NamespacedName) (hashes : list string) : CW unit :=
  object ← attempt (api_call (Get_NodeFlowConfig config));
  match object with
  | inl _ => mret tt
  | inr object =>
      let object := set_Rules object (List.filter (rule_kept hashes) (nfc_Rules (nfc_Spec object))) in
      res ← attempt (api_call (Update_NodeFlowConfig object));
      match res with
      | inl err => if Contains (error_text err) conflict_text then throw err else mret tt
      | inr _ => mret tt
      end
  end.

Definition cleanNodeFlowConfig (req : NamespacedName) : CW unit :=
  nodeConfigs ← gets (λ w, Cluster2NodeRulesHashMap w !! req);
  match nodeConfigs with
  | Some nodeConfigs => forM (range_map nodeConfigs) (λ e, clean_config e.1 e.2)
  | None => mret tt
  end;;
  update_hashes (λ m, base.delete req m).

(** The loop body: any error of the first call leads to a creation; errors are only logged. *)
Definition createOrUpdate_node (nodeConfig : NodeFlowConfig) : CW unit :=
  object ← attempt (api_call (Get_NodeFlowConfig (nfc_Namespace nodeConfig, nfc_Name nodeConfig)));
  match object with
  | inr _ => attempt (api_call (Update_NodeFlowConfig nodeConfig));; mret tt
  | inl _ => attempt (api_call (Create_NodeFlowConfig nodeConfig));; mret tt
  end.

Definition createOrUpdateNodeFlowConfigs (nodeToNodeFlowConfig : gmap string NodeFlowConfig) : CW unit :=
  forM (range_map nodeToNodeFlowConfig) (λ e, createOrUpdate_node e.2).

Definition getNodeFlowConfig (nodeName namespace : string)
    (nodeToNodeFlowConfig : gmap string NodeFlowConfig) : CW NodeFlowConfig :=
  match nodeToNodeFlowConfig !! nodeName with
  | Some nodeFlowConfig => mret nodeFlowConfig
  | None =>
      r ← attempt (api_call (Get_NodeFlowConfig (namespace, nodeName)));
      match r with
      | inr nodeFlowConfig => mret nodeFlowConfig
      | inl err => if IsNotFound err then mret (new_NodeFlowConfig namespace nodeName) else throw err
      end
  end.

Definition getPodsForPodSelector (instance : ClusterFlowConfig) : CW (list Pod) :=
  selector ← lift (LabelSelectorAsSelector (PodSelector (cfc_Spec instance)));
  api_call (List_Pods (cfc_Namespace instance) selector).

Definition same_selector (selector : Selector) (cr : ClusterFlowConfig) : bool :=
  match LabelSelectorAsSelector (PodSelector (cfc_Spec cr)) with
  | Ok insideSelector => String.eqb (Selector_String insideSelector) (Selector_String selector)
  | _ => false
  end.

Definition getClusterFlowConfigsForPodSelector (instance : ClusterFlowConfig) : CW (list ClusterFlowConfig) :=
  selector ← lift (LabelSelectorAsSelector (PodSelector (cfc_Spec instance)));
  configList ← api_call (List_ClusterFlowConfigs (Some (cfc_Namespace instance)));
  mret (List.filter (same_selector selector) configList).

(** The outer loop of [updateNodeFlowConfigSpec], for the node [node]: the error it stops
    with, if any, and the rules appended. *)
Fixpoint update_loop (pod : Pod) (node : NamespacedName) (clusterConfigs : list ClusterFlowConfig)
    (appended : list FlowRules) (allHashes : gset string) : CW (option error * list FlowRules) :=
  match clusterConfigs with
  | [] => mret (None, appended)
  | clusterConfig :: clusterConfigs =>
      '(err, appended, allHashes, hashes) ←
        lift (config_rules pod (cfc_Rules (cfc_Spec clusterConfig)) appended allHashes []);
      match err with
      | Some e => mret (Some e, appended)
      | None =>
          let key := (cfc_Namespace clusterConfig, cfc_Name clusterConfig) in
          update_hashes (λ m, <[key := <[node := hashes]> (default ∅ (m !! key))]> m);;
          update_loop pod node clusterConfigs appended allHashes
      end
  end.

(** The error returned, if any, and the object as the call leaves it. *)
Definition updateNodeFlowConfigSpec (pod : Pod) (nodeFlowConfig : NodeFlowConfig)
    (clusterConfigList : list ClusterFlowConfig) : CW (option error * NodeFlowConfig) :=
  match clusterConfigList with
  | [] => mret (Some (Errorf "ClusterFlowConfig list is empty. Unable to gather rules"), nodeFlowConfig)
  | _ =>
      '(err, rules) ← update_loop pod (nfc_Namespace nodeFlowConfig, nfc_Name nodeFlowConfig)
                         clusterConfigList [] ∅;
      mret (err, set_Rules nodeFlowConfig rules)
  end.

(** One pod. An object that is already in the map is shared with it, so that what a failed
    update did to it stays in the map. *)
Definition sync_pod (instance : ClusterFlowConfig) (clusterFlowList : list ClusterFlowConfig)
    (nodes : gmap string NodeFlowConfig) (pod : Pod) : CW (gmap string NodeFlowConfig) :=
  let nodeName := pod_NodeName pod in
  if String.eqb nodeName "" then mret nodes
  else
    r ← attempt (getNodeFlowConfig nodeName (cfc_Namespace instance) nodes);
    match r with
    | inl err => mret nodes
    | inr nodeFlowConfig =>
        '(err, nodeFlowConfig') ← updateNodeFlowConfigSpec pod nodeFlowConfig clusterFlowList;
        mret match err, nodes !! nodeName with
             | Some _, None => nodes
             | _, _ => <[nodeName := nodeFlowConfig']> nodes
             end
    end.

Fixpoint sync_pods (instance : ClusterFlowConfig) (clusterFlowList : list ClusterFlowConfig)
    (pods : list Pod) (nodes : gmap string NodeFlowConfig) : CW (gmap string NodeFlowConfig) :=
  match pods with
  | [] => mret nodes
  | pod :: pods =>
      nodes ← sync_pod instance clusterFlowList nodes pod;
      sync_pods instance clusterFlowList pods nodes
  end.

Definition syncClusterConfigForNodes (instance : ClusterFlowConfig) (req : NamespacedName) : CW unit :=
  podList ← getPodsForPodSelector instance;
  match podList with
  | [] => cleanNodeFlowConfig req
  | _ =>
      clusterFlowList ← getClusterFlowConfigsForPodSelector instance;
      nodeToNodeFlowConfig ← sync_pods instance clusterFlowList podList ∅;
      createOrUpdateNodeFlowConfigs nodeToNodeFlowConfig
  end.

Definition Reconcile (req : NamespacedName) : CW unit :=
  instance ← attempt (api_call (Get_ClusterFlowConfig req));
  match instance with
  | inl err => if IsNotFound err then cleanNodeFlowConfig req else throw err
  | inr instance => syncClusterConfigForNodes instance req
  end.

(** The resources whose selectors match the labels of the pod. *)
Definition matches_pod (pod : Pod) (instance : ClusterFlowConfig) : outcome bool :=
  match PodSelector (cfc_Spec instance) with
  | None => Panic
  | Some sel =>
      Ok (size (MatchLabels sel)
          =? count_matches (default ∅ (pod_Labels pod)) (range_map (MatchLabels sel)))%nat
  end.

Fixpoint matching_requests (pod : Pod) (crs : list ClusterFlowConfig) : outcome (list NamespacedName) :=
  match crs with
  | [] => Ok []
  | cr :: crs =>
      m ← matches_pod pod cr;
      l ← matching_requests pod crs;
      Ok (if m : bool then (cfc_Namespace cr, cfc_Name cr) :: l else l)
  end.

Definition mapPodsToRequests (object : k8s_object) : M S (list NamespacedName) :=
  match object with
  | ObjPod pod =>
      crList ← attempt (List_ClusterFlowConfigs None);
      match crList with
      | inl err => mret []
      | inr crs => lift (matching_requests pod crs)
      end
  | _ => mret []
  end.
End reconciler.
