(* ===== verification/ClusterFlowConfigSpec.v ===== *)
(** * Correctness of the cluster flow configuration controller

    The rules written for a pod's node, the memory of hashes, cleaning, the selection of
    resources by labels, and the bridges to the webhooks and to the node controller. *)

From S2P Require Import Prelude GoStrings GoNet GoCrypto GoJson GoJsonDecode FlowEnums FlowApi AnyModel FlowItems FlowItemsSpec FlowTypes Webhook WebhookSpec NodeFlowConfig ClusterFlowConfig.

Local Open Scope Z_scope.

(** ** Selection by labels *)

Lemma count_matches_le labels l : (count_matches labels l ≤ length l)%nat.
Proof.
  induction l as [|[k v] l IH]; cbn; [lia|].
  destruct (labels !! k); [|lia]. destruct (String.eqb _ _); lia.
Qed.

Lemma count_matches_all labels l :
  count_matches labels l = length l ↔ ∀ k v, (k, v) ∈ l → labels !! k = Some v.
Proof.
  induction l as [|[k v] l IH]; cbn.
  { split; [intros _ k v H; by apply elem_of_nil in H|done]. }
  pose proof (count_matches_le labels l) as Hle. setoid_rewrite elem_of_cons.
  destruct (labels !! k) as [v'|] eqn:E.
  - destruct (String.eqb_spec v' v) as [->|Hne].
    + split.
      * intros [= H] k' v' [[= -> ->]|Hin]; [done|]. by apply IH.
      * intros H. f_equal. apply IH. eauto.
    + split; [done|]. intros H. specialize (H k v (or_introl eq_refl)). congruence.
  - split; [done|]. intros H. specialize (H k v (or_introl eq_refl)). congruence.
Qed.

(** A resource is reconciled for a pod exactly when all its match labels are labels of
    the pod, whatever order the labels are visited in (match expressions are not looked
    at); a resource without selector makes the mapping panic. *)
Theorem matches_pod_spec `{HO : !MapOrder} pod instance :
  (matches_pod pod instance = Ok true
   ↔ ∃ sel, PodSelector (cfc_Spec instance) = Some sel
            ∧ MatchLabels sel ⊆ default ∅ (pod_Labels pod))
  ∧ (matches_pod pod instance = Panic ↔ PodSelector (cfc_Spec instance) = None)
  ∧ ∀ e, matches_pod pod instance ≠ Err e.
Proof.
  unfold matches_pod. destruct (PodSelector (cfc_Spec instance)) as [sel|]; [|naive_solver].
  split_and!; [|done|done].
  assert (Hlen : size (MatchLabels sel) = length (range_map (MatchLabels sel))).
  { by rewrite range_map_perm, length_map_to_list. }
  rewrite Hlen. split.
  - intros [= H]. apply Nat.eqb_eq in H. symmetry in H. rewrite count_matches_all in H.
    exists sel. split; [done|]. apply map_subseteq_spec. intros k v Hk.
    by apply H, range_map_elem.
  - intros (sel' & [= <-] & Hsub). f_equal. apply Nat.eqb_eq. symmetry. apply count_matches_all.
    intros k v Hin%range_map_elem. by eapply lookup_weaken.
Qed.

(** ** The rules of one pod *)

Section pods.
Context `{HN : !NetworkStatusJson}.

(** The hashes of the rules a ClusterFlowConfig makes for a pod. *)
Definition rule_hashes (pod : Pod) (rules : list ClusterFlowRule) : outcome (list string) :=
  collect (λ rule, r ← newRule pod rule; getFlowRulesHash r) rules.

(** The loop invariant: the appended rules have pairwise different hashes, and these are the
    hashes seen. *)
Definition rules_state (appended : list FlowRules) (allHashes : gset string) : Prop :=
  ∃ hs, collect getFlowRulesHash appended = Ok hs ∧ NoDup hs ∧ ∀ k, k ∈ hs ↔ k ∈ allHashes.

Lemma collect_snoc {A B} (body : A → outcome B) l x ys y :
  collect body l = Ok ys → body x = Ok y → collect body (l ++ [x]) = Ok (ys ++ [y]).
Proof.
  revert ys. induction l as [|z l IH]; intros ys; cbn.
  - intros [= <-] ->. done.
  - intros H Hy. apply outcome_bind_Ok in H as (z' & -> & H).
    apply outcome_bind_Ok in H as (zs & Hzs & [= <-]). cbn. by rewrite (IH zs).
Qed.

Lemma config_rules_state pod rules appended all hashes err appended' all' hashes' :
  config_rules pod rules appended all hashes = Ok (err, appended', all', hashes') →
  rules_state appended all → rules_state appended' all'.
Proof.
  revert appended all hashes. induction rules as [|rule rules IH]; intros appended all hashes; cbn;
    [by intros [= <- <- <- <-]|].
  destruct (newRule pod rule) as [r|e|]; [|by intros [= <- <- <- <-]|done].
  destruct (getFlowRulesHash r) as [key|e|] eqn:Hkey; [|by intros [= <- <- <- <-]|done].
  case_bool_decide as Hin; [by apply IH|]. intros H (hs & Hhs & Hnd & Hall).
  eapply IH; [exact H|]. exists (hs ++ [key]). split_and!.
  - by apply collect_snoc.
  - apply NoDup_app. split_and!; [done| |apply NoDup_singleton].
    intros k Hk ->%list_elem_of_singleton. by apply Hin, Hall.
  - intros k. rewrite elem_of_app, list_elem_of_singleton, Hall. set_solver.
Qed.

Lemma config_rules_hashes pod rules appended all hashes appended' all' hashes' :
  config_rules pod rules appended all hashes = Ok (None, appended', all', hashes') →
  ∃ hs, rule_hashes pod rules = Ok hs ∧ hashes' = hashes ++ hs
        ∧ ∀ k, k ∈ all' ↔ k ∈ all ∨ k ∈ hs.
Proof.
  revert appended all hashes. induction rules as [|rule rules IH]; intros appended all hashes; cbn.
  { intros [= <- <- <-]. exists []. rewrite app_nil_r. set_solver. }
  destruct (newRule pod rule) as [r|e|]; [|done..]. cbn.
  destruct (getFlowRulesHash r) as [key|e|]; [|done..]. cbn.
  case_bool_decide as Hin; intros H; apply IH in H as (hs & Hhs & -> & Hk);
    unfold rule_hashes in Hhs; rewrite Hhs; cbn;
    exists (key :: hs); rewrite <- app_assoc; (split_and!; [done..|]); set_solver.
Qed.

Section updates.
Context {S : Type} `{HL : !LabelSelectors} `{HA : !ClusterApi S} `{HO : !MapOrder}.
Implicit Types w : ClusterWorld S.

(** The memory of hashes after a loop over configurations with the given hashes. *)
Fixpoint remember (node : NamespacedName) (configs : list ClusterFlowConfig) (hss : list (list string))
    (m : gmap NamespacedName (gmap NamespacedName (list string))) :=
  match configs, hss with
  | c :: configs, hs :: hss =>
      let key := (cfc_Namespace c, cfc_Name c) in
      remember node configs hss (<[key := <[node := hs]> (default ∅ (m !! key))]> m)
  | _, _ => m
  end.

Lemma update_loop_spec pod node configs appended all w err rules w' :
  update_loop pod node configs appended all w = (Ok (err, rules), w') →
  rules_state appended all →
  (∃ hs, collect getFlowRulesHash rules = Ok hs ∧ NoDup hs
     ∧ (err = None → ∃ hss,
          collect (λ c, rule_hashes pod (cfc_Rules (cfc_Spec c))) configs = Ok hss
          ∧ Cluster2NodeRulesHashMap w' = remember node configs hss (Cluster2NodeRulesHashMap w)
          ∧ ∀ k, k ∈ hs ↔ k ∈ all ∨ k ∈ mjoin hss))
  ∧ api w' = api w.
Proof.
  revert appended all w. induction configs as [|c configs IH]; intros appended all w; cbn.
  { intros [= <- <- <-] (hs & Hhs & Hnd & Hall). split; [|done].
    exists hs. split_and!; [done..|]. intros _. exists []. split_and!; [done..|].
    intros k. rewrite Hall. set_solver. }
  unfold mbind, M_bind, lift.
  destruct (config_rules pod _ appended all []) as [[[[err1 app1] all1] hs1]|e|] eqn:E; [|done..].
  intros H Hst. pose proof (config_rules_state _ _ _ _ _ _ _ _ _ E Hst) as Hst1.
  destruct err1 as [e|].
  - unfold mret, M_ret in H. simplify_eq. destruct Hst1 as (hs & Hhs & Hnd & _).
    split; [|done]. exists hs. by split_and!.
  - cbn in H. apply IH in H as [(hs & Hhs & Hnd & Hok) Hapi]; [|done]. cbn in Hapi.
    split; [|done]. exists hs. split_and!; [done..|]. intros ->.
    destruct (Hok eq_refl) as (hss & Hhss & Hmap & Hk).
    apply config_rules_hashes in E as (hs' & Hhs' & -> & Hall1). cbn in Hmap.
    exists (hs' :: hss). cbn. rewrite Hhs'. cbn. rewrite Hhss. split_and!; [done..|].
    intros k. rewrite Hk, Hall1, elem_of_app. tauto.
Qed.

(** C28 Regenerating the rules of a node for a pod: the rules that result have pairwise
    different hashes, and when no error stops it they are the hashes of all the rules of all
    the configurations for that pod; for each configuration the hashes of its rules are
    remembered under the node. What the node had before is gone. *)
Theorem updateNodeFlowConfigSpec_spec pod nodeFlowConfig configs w err c w' :
  configs ≠ [] →
  updateNodeFlowConfigSpec pod nodeFlowConfig configs w = (Ok (err, c), w') →
  ∃ hs, collect getFlowRulesHash (nfc_Rules (nfc_Spec c)) = Ok hs ∧ NoDup hs
    ∧ (err = None → ∃ hss,
         collect (λ c, rule_hashes pod (cfc_Rules (cfc_Spec c))) configs = Ok hss
         ∧ (∀ k, k ∈ hs ↔ k ∈ mjoin hss)
         ∧ Cluster2NodeRulesHashMap w'
           = remember (nfc_Namespace nodeFlowConfig, nfc_Name nodeFlowConfig) configs hss
               (Cluster2NodeRulesHashMap w)).
Proof.
  intros Hne. unfold updateNodeFlowConfigSpec. destruct configs as [|c0 configs]; [done|].
  set (l := c0 :: configs). unfold mbind, M_bind.
  destruct (update_loop pod _ l [] ∅ w) as [[[err1 rules]|e|] w1] eqn:E; [|done..].
  intros [= <- <- <-]. apply update_loop_spec in E as [(hs & Hhs & Hnd & Hok) _].
  - exists hs. split_and!; [done..|]. intros Herr. destruct (Hok Herr) as (hss & Hhss & Hmap & Hk).
    exists hss. split_and!; [done| |done]. intros k. rewrite Hk. set_solver.
  - exists []. split_and!; [done|apply NoDup_nil_2|set_solver].
Qed.

(** The rules do not depend on what the node had. *)
Lemma updateNodeFlowConfigSpec_fresh pod nfc rules configs w :
  configs ≠ [] →
  updateNodeFlowConfigSpec pod (set_Rules nfc rules) configs w = updateNodeFlowConfigSpec pod nfc configs w.
Proof. intros Hne. destruct configs; [done|]. reflexivity. Qed.

Lemma updateNodeFlowConfigSpec_shape pod nfc configs w err c w' :
  updateNodeFlowConfigSpec pod nfc configs w = (Ok (err, c), w') →
  ∃ rules, c = set_Rules nfc rules.
Proof.
  unfold updateNodeFlowConfigSpec, mbind, M_bind, mret, M_ret. destruct configs as [|c0 configs].
  - intros [= <- <- <-]. exists (nfc_Rules (nfc_Spec nfc)). by destruct nfc as [? ? [] ?].
  - destruct (update_loop _ _ _ _ _ w) as [[[err1 rules]|e|] w1]; [|done..].
    intros [= <- <- <-]. by exists rules.
Qed.

(** A pod whose node already has an object in the map. *)
Lemma sync_pod_in_map instance configs nodes pod w c err (cw : NodeFlowConfig * ClusterWorld S) :
  pod_NodeName pod ≠ ""%string → nodes !! pod_NodeName pod = Some c →
  updateNodeFlowConfigSpec pod c configs w = (Ok (err, cw.1), cw.2) →
  sync_pod instance configs nodes pod w = (Ok (<[pod_NodeName pod := cw.1]> nodes), cw.2).
Proof.
  intros Hnode Hc Hu. unfold sync_pod. destruct (String.eqb_spec (pod_NodeName pod) ""); [done|].
  unfold mbind, M_bind, attempt, getNodeFlowConfig. rewrite Hc. unfold mret, M_ret at 1.
  rewrite Hu. by destruct err.
Qed.

(** When two pods of one node are selected, the rules of the earlier one are lost: the
    node ends with exactly what the later pod alone makes of it, and if that pod's update
    fails, with what was appended before the failure. *)
Theorem sync_pods_last_wins instance configs nodes pod1 pod2 w node c err1 c1 w1 err2 c2 w2 :
  configs ≠ [] → node ≠ ""%string → pod_NodeName pod1 = node → pod_NodeName pod2 = node →
  nodes !! node = Some c →
  updateNodeFlowConfigSpec pod1 c configs w = (Ok (err1, c1), w1) →
  updateNodeFlowConfigSpec pod2 c configs w1 = (Ok (err2, c2), w2) →
  sync_pods instance configs [pod1; pod2] nodes w = (Ok (<[node := c2]> nodes), w2).
Proof.
  intros Hne Hnode H1 H2 Hc Hu1 Hu2.
  destruct (updateNodeFlowConfigSpec_shape _ _ _ _ _ _ _ Hu1) as [rules1 ->].
  cbn [sync_pods]. unfold mbind, M_bind.
  rewrite <- H1 in *.
  rewrite (sync_pod_in_map _ _ _ _ _ c err1 (set_Rules c rules1, w1)) by done.
  rewrite (sync_pod_in_map _ _ _ pod2 _ (set_Rules c rules1) err2 (c2, w2)); rewrite ?H2.
  - cbn. by rewrite insert_insert_eq.
  - done.
  - cbn. by rewrite lookup_insert_eq.
  - by rewrite updateNodeFlowConfigSpec_fresh.
Qed.

(** A pod whose first rule cannot be made (no network status yet, say) empties the rules
    that an earlier pod gave to the same node, although its own update is "skipped". *)
Theorem failing_pod_empties_node instance nodes pod w node c config configs rule rules e :
  node ≠ ""%string → pod_NodeName pod = node → nodes !! node = Some c →
  cfc_Rules (cfc_Spec config) = rule :: rules → newRule pod rule = Err e →
  sync_pod instance (config :: configs) nodes pod w = (Ok (<[node := set_Rules c []]> nodes), w).
Proof.
  intros Hnode <- Hc Hrules Hrule.
  apply (sync_pod_in_map _ _ _ _ _ c (Some e) (set_Rules c [], w)); [done..|].
  unfold updateNodeFlowConfigSpec, mbind, M_bind. cbn [update_loop].
  unfold mbind, M_bind, lift. rewrite Hrules. cbn [config_rules]. by rewrite Hrule.
Qed.

(** ** Cleaning *)

Lemma filter_kept_hashes hashes rules hs :
  collect getFlowRulesHash rules = Ok hs →
  collect getFlowRulesHash (List.filter (rule_kept hashes) rules) = Ok (filter (λ k, k ∉ hashes) hs).
Proof.
  revert hs. induction rules as [|r rules IH]; intros hs; cbn; [by intros [= <-]|].
  intros H. apply outcome_bind_Ok in H as (k & Hk & H). apply outcome_bind_Ok in H as (ks & Hks & [= <-]).
  rewrite filter_cons. unfold rule_kept at 1. rewrite Hk. cbn [negb].
  case_bool_decide as Hin; cbn [negb].
  - rewrite decide_False by tauto. by apply IH.
  - rewrite decide_True by done. cbn. rewrite Hk. cbn. by rewrite (IH ks).
Qed.

(** Cleaning a NodeFlowConfig after its ClusterFlowConfig is gone: the object that is sent
    back holds exactly the rules whose hashes are not among the remembered ones, in their
    order, provided every rule has a hash; if the server rejects the update because the
    object was modified, the error is returned, and any other error is dropped. *)
Theorem clean_config_spec config hashes w object s1 hs :
  Get_NodeFlowConfig config (api w) = (Ok object, s1) →
  collect getFlowRulesHash (nfc_Rules (nfc_Spec object)) = Ok hs →
  ∃ kept, collect getFlowRulesHash kept = Ok (filter (λ k, k ∉ hashes) hs)
    ∧ clean_config config hashes w
      = let (res, s2) := Update_NodeFlowConfig (set_Rules object kept) s1 in
        (match res with
         | Ok _ => Ok tt
         | Err e => if Contains (error_text e) conflict_text then Err e else Ok tt
         | Panic => Panic
         end, {| Cluster2NodeRulesHashMap := Cluster2NodeRulesHashMap w; api := s2 |}).
Proof.
  intros Hget Hhs. eexists. split; [by apply filter_kept_hashes|].
  unfold clean_config, mbind, M_bind, attempt, api_call. rewrite Hget. cbn [api Cluster2NodeRulesHashMap].
  destruct (Update_NodeFlowConfig _ s1) as [[[]|e|] s2]; [done| |done]. by destruct (Contains _ _).
Qed.

Lemma clean_config_keeps_memory m config hashes :
  preserves (λ w, Cluster2NodeRulesHashMap w = m) (clean_config config hashes).
Proof.
  assert (Hout : ∀ {A} (c : M S A), preserves (λ w, Cluster2NodeRulesHashMap w = m) (api_call c)).
  { intros A c w Hw. unfold api_call. by destruct (c (api w)). }
  unfold clean_config.
  repeat first [apply Hout | apply preserves_bind; [|intros ?] | apply preserves_attempt
    | apply preserves_ret | apply preserves_throw | case_match].
Qed.

Lemma clean_config_error config hashes w e w' :
  clean_config config hashes w = (Err e, w') → Contains (error_text e) conflict_text = true.
Proof.
  unfold clean_config, mbind, M_bind, attempt, api_call.
  destruct (Get_NodeFlowConfig config (api w)) as [[object|e1|] s1]; [|done..].
  destruct (Update_NodeFlowConfig _ _) as [[[]|e2|] s2]; [done| |done].
  destruct (Contains (error_text e2) conflict_text) eqn:E; [|done]. by intros [= <- <-].
Qed.

(** Cleaning forgets the ClusterFlowConfig when it returns; when it gives up, which it
    does only on a conflict, the memory is as before, so that the retry sees all of it. *)
Theorem cleanNodeFlowConfig_spec req w :
  match cleanNodeFlowConfig req w with
  | (Ok _, w') => Cluster2NodeRulesHashMap w' = base.delete req (Cluster2NodeRulesHashMap w)
  | (Err e, w') => Cluster2NodeRulesHashMap w' = Cluster2NodeRulesHashMap w
                   ∧ Contains (error_text e) conflict_text = true
  | (Panic, w') => Cluster2NodeRulesHashMap w' = Cluster2NodeRulesHashMap w
  end.
Proof.
  unfold cleanNodeFlowConfig, mbind, M_bind, gets.
  destruct (Cluster2NodeRulesHashMap w !! req) as [configs|]; [|done].
  pose proof (preserves_forM (λ w', Cluster2NodeRulesHashMap w' = Cluster2NodeRulesHashMap w)
    (range_map configs) (λ e, clean_config e.1 e.2)
    (λ e _, clean_config_keeps_memory _ e.1 e.2) w eq_refl) as Hkeep.
  assert (Herr : ∀ l w e w', forM l (λ e, clean_config e.1 e.2) w = (Err e, w') →
    Contains (error_text e) conflict_text = true).
  { intros l. induction l as [|x l IH]; intros w0 e w'; cbn [forM]; [done|]. unfold mbind, M_bind.
    destruct (clean_config _ _ w0) as [[[]|e'|] w1] eqn:E; [apply IH| |done].
    intros [= <- <-]. by eapply clean_config_error. }
  specialize (Herr (range_map configs) w).
  destruct (forM (range_map configs) _ w) as [[[]|e|] w1]; cbn in Hkeep; [|by eauto|done].
  unfold update_hashes, modify. cbn. by rewrite Hkeep.
Qed.
End updates.

(** ** From a pod's interface to the VF action of the node *)

Lemma vf_addr_text_encode addr : addr ≠ ""%string → encode_VfPciAddr addr = vf_addr_text addr.
Proof.
  intros Hne. unfold encode_VfPciAddr, vf_addr_text, str_member, omitempty.
  by destruct (String.eqb_spec addr "").
Qed.

Lemma getNodeActionForPodInterface_Ok conf pod a :
  getNodeActionForPodInterface conf pod = Ok a →
  ∃ name text networks addr,
    getPodInterfaceNameFromRawExtension conf = Ok name
    ∧ default ∅ (pod_Annotations pod) !! network_status_key = Some text
    ∧ Unmarshal_NetworkStatuses text = Ok networks
    ∧ find_pci name networks = Ok addr ∧ addr ≠ ""%string
    ∧ a = {| fa_Type := RTE_FLOW_ACTION_TYPE_VFPCIADDR; fa_Conf := Some (vf_addr_text addr) |}.
Proof.
  unfold getNodeActionForPodInterface. intros H. apply outcome_bind_Ok in H as (name & Hname & H).
  destruct (_ !! network_status_key) as [text|] eqn:E; [|done].
  apply outcome_bind_Ok in H as (networks & Hn%wrap_Ok & H).
  apply outcome_bind_Ok in H as (addr & Haddr & H).
  destruct (String.eqb_spec addr "") as [|Hne]; [done|]. injection H as <-.
  exists name, text, networks, addr. rewrite vf_addr_text_encode by done. by split_and!.
Qed.

(** The address comes from a network with that interface and a PCI device. *)
Lemma find_pci_Ok name networks addr :
  find_pci name networks = Ok addr → addr ≠ ""%string →
  ∃ n info, n ∈ networks ∧ Interface n = name ∧ ns_DeviceInfo n = Some info
            ∧ di_Type info = "pci"%string ∧ Pci_PciAddress info = Some addr.
Proof.
  induction networks as [|n networks IH]; cbn; [by intros [= <-]|]. intros H Hne.
  assert (Hrec : find_pci name networks = Ok addr → ∃ n0 info, n0 ∈ n :: networks ∧ Interface n0 = name
    ∧ ns_DeviceInfo n0 = Some info ∧ di_Type info = "pci"%string ∧ Pci_PciAddress info = Some addr).
  { intros Hr. destruct (IH Hr Hne) as (n' & info & Hin & Hrest). exists n', info. split; [by right|done]. }
  destruct (String.eqb_spec (Interface n) name) as [Hname|]; [|by apply Hrec].
  destruct (ns_DeviceInfo n) as [info|] eqn:Hi; [|done].
  destruct (String.eqb_spec (di_Type info) "pci") as [Ht|]; [|by apply Hrec].
  destruct (Pci_PciAddress info) eqn:Hp; [|done]. simplify_eq. exists n, info. by split_and!; [left|..].
Qed.

(** C36 The action written for a pod's interface is read back by the node controller as the VF
    action for the device: the address is that of a PCI network of the pod with the interface
    asked for, and on the node it becomes the index of the VF at that address. *)
Theorem pod_interface_becomes_vf `{HC : !AnyCodec} `{HV : !SriovUtils} conf pod a :
  getNodeActionForPodInterface conf pod = Ok a →
  ∃ text networks addr n info,
    default ∅ (pod_Annotations pod) !! network_status_key = Some text
    ∧ Unmarshal_NetworkStatuses text = Ok networks ∧ n ∈ networks
    ∧ getPodInterfaceNameFromRawExtension conf = Ok (Interface n)
    ∧ ns_DeviceInfo n = Some info ∧ di_Type info = "pci"%string ∧ Pci_PciAddress info = Some addr
    ∧ fa_Type a = RTE_FLOW_ACTION_TYPE_VFPCIADDR
    ∧ ∀ id, is_ascii addr = true → GetVFID addr = Ok id → 0 ≤ id < 2 ^ 32 →
        ∃ raw, fa_Conf a = Some raw
          ∧ GetFlowActionAny (fa_Type a) raw
            = wrap "error marshalling into ptypes.Any: %v" (any_New "RteFlowActionVf" (vf_with_id id)).
Proof.
  intros H. apply getNodeActionForPodInterface_Ok in H as (name & text & networks & addr & Hname & Htext
    & Hnet & Hfind & Hne & ->).
  destruct (find_pci_Ok _ _ _ Hfind Hne) as (n & info & Hin & <- & Hi & Ht & Hp).
  exists text, networks, addr, n, info. split_and!; [done..|]. intros id Ha Hvf Hid.
  exists (vf_addr_text addr). split; [done|]. by apply GetFlowActionAny_vf.
Qed.

(** ** Generated rules pass the webhook of the node resource *)

(** The PCI addresses in a pod's network status have the form the webhook checks. *)
Definition addresses_ok (pod : Pod) : Prop :=
  ∀ text networks n info addr,
    default ∅ (pod_Annotations pod) !! network_status_key = Some text →
    Unmarshal_NetworkStatuses text = Ok networks → n ∈ networks →
    ns_DeviceInfo n = Some info → Pci_PciAddress info = Some addr → addr ≠ ""%string →
    is_ascii addr = true ∧ pci_MatchString addr = true.

Lemma validateClusterFlowAction_types actions :
  validateClusterFlowAction actions = Ok tt → Forall (λ a, cfa_Type a = ToPodInterface) actions.
Proof.
  unfold validateClusterFlowAction. rewrite range_check_Ok, Forall_lookup. intros H i x Hx.
  specialize (H i x Hx). destruct (Z.eqb_spec (cfa_Type x) ToPodInterface); done.
Qed.

Section generated.
Context `{HC : !AnyCodec} `{HL : !AnyCodecLaws HC}.
Hypothesis pack_vf : ∃ a, any_New "RteFlowActionVf" (vf_with_id 0) = Ok a.

Lemma interface_action_accepted conf pod a :
  addresses_ok pod → getNodeActionForPodInterface conf pod = Ok a → action_accepted a.
Proof.
  intros Hok H. apply getNodeActionForPodInterface_Ok in H as (name & text & networks & addr & _ & Htext
    & Hn & Hfind & Hne & ->).
  destruct (find_pci_Ok _ _ _ Hfind Hne) as (n & info & Hin & _ & Hi & _ & Hp).
  destruct (Hok _ _ _ _ _ Htext Hn Hin Hi Hp Hne) as [Ha Hm]. destruct pack_vf as [x Hx].
  exists RTE_FLOW_ACTION_TYPE_VF, (Some x). split_and!; [reflexivity| |].
  - exists x. split; [|done]. cbn [fa_Type]. rewrite GetFlowActionAnyForWebhook_vf by done.
    by rewrite Hx.
  - unfold validateRteFlowAction, validateRteFlowActionVf. cbn [action_Type action_Conf].
    by rewrite (any_roundtrip _ _ _ Hx).
Qed.

Lemma end_action_accepted :
  action_accepted {| fa_Type := RteFlowActionType_String RTE_FLOW_ACTION_TYPE_END; fa_Conf := None |}.
Proof. exists RTE_FLOW_ACTION_TYPE_END, None. by split_and!. Qed.

Lemma generated_actions_accepted actions pod l :
  Forall (λ a, cfa_Type a = ToPodInterface) actions → addresses_ok pod →
  collect (λ act, getNodeAction act pod) actions = Ok l → Forall action_accepted l.
Proof.
  intros Hall Hok. revert l. induction Hall as [|act actions Hact _ IH]; intros l; cbn.
  { intros [= <-]. constructor. }
  intros H. apply outcome_bind_Ok in H as (a & Ha & H). apply outcome_bind_Ok in H as (l' & Hl & [= <-]).
  constructor; [|by apply IH]. unfold getNodeAction in Ha. rewrite Hact in Ha.
  change (String.eqb _ _) with true in Ha. eapply interface_action_accepted; [exact Hok|exact Ha].
Qed.

(** The first action names a virtual function by an address of the form the webhook checks. *)
Definition starts_with_vf (r : FlowRules) : Prop :=
  ∃ addr, head (rule_Action r) = Some {| fa_Type := RTE_FLOW_ACTION_TYPE_VFPCIADDR; fa_Conf := Some (vf_addr_text addr) |}
          ∧ is_ascii addr = true ∧ pci_MatchString addr = true.

Lemma generated_actions_start actions pod a l :
  Forall (λ a, cfa_Type a = ToPodInterface) actions → addresses_ok pod →
  collect (λ act, getNodeAction act pod) actions = Ok (a :: l) →
  ∃ addr, a = {| fa_Type := RTE_FLOW_ACTION_TYPE_VFPCIADDR; fa_Conf := Some (vf_addr_text addr) |}
          ∧ is_ascii addr = true ∧ pci_MatchString addr = true.
Proof.
  intros Hall Hok H. destruct Hall as [|act actions Hact _]; [done|].
  apply outcome_bind_Ok in H as (a' & Ha & H). apply outcome_bind_Ok in H as (l' & _ & [= -> _]).
  unfold getNodeAction in Ha. rewrite Hact in Ha. change (String.eqb _ _) with true in Ha.
  apply getNodeActionForPodInterface_Ok in Ha as (name & text & networks & addr & _ & Htext & Hn & Hfind & Hne & ->).
  destruct (find_pci_Ok _ _ _ Hfind Hne) as (n & info & Hin & _ & Hi & _ & Hp).
  exists addr. split; [done|]. by eapply Hok.
Qed.

Lemma newRule_accepted rule pod r :
  ClusterFlowRule_validate rule = Ok tt → addresses_ok pod → newRule pod rule = Ok r →
  FlowRules_validate r = Ok tt ∧ rule_PortId r = automaticPortId ∧ (cr_Action rule ≠ [] → starts_with_vf r).
Proof.
  unfold ClusterFlowRule_validate. rewrite !outcome_bind_unit_Ok, validateFlowAttr_Ok.
  intros (Hpat & Hact%validateClusterFlowAction_types & Hattr) Hok H.
  apply outcome_bind_Ok in H as (l & Hl & [= <-]). apply outcome_bind_Ok in Hl as (l0 & Hl0 & [= <-]).
  unfold starts_with_vf. rewrite FlowRules_validate_Ok. cbn [rule_Pattern rule_Action rule_Attr rule_PortId].
  pose proof (generated_actions_accepted _ _ _ Hact Hok Hl0) as Hl. split; [|split; [done|]].
  - destruct l0 as [|a0 l0]; cbn [length Nat.ltb Nat.leb].
    + by split_and!; [|constructor|..].
    + split_and!; [done| | |done].
      * apply Forall_app. split; [done|]. constructor; [apply end_action_accepted|constructor].
      * intros action. rewrite last_snoc. by intros [= <-].
  - intros Hne. destruct l0 as [|a0 l0]; [apply collect_length in Hl0; by destruct (cr_Action rule); [destruct Hne|]|].
    destruct (generated_actions_start _ _ _ _ Hact Hok Hl0) as (addr & -> & Ha). by exists addr.
Qed.

(** C17 Every rule the controller makes of an accepted ClusterFlowConfig rule, for a pod whose
    network status has well-formed PCI addresses, is one the NodeFlowConfig webhook accepts,
    and it asks for an automatic port. *)
Theorem generated_rule_accepted rule pod r :
  ClusterFlowRule_validate rule = Ok tt → addresses_ok pod → newRule pod rule = Ok r →
  FlowRules_validate r = Ok tt ∧ rule_PortId r = automaticPortId.
Proof. intros Hv Hok Hr. by destruct (newRule_accepted rule pod r Hv Hok Hr) as (? & ? & _). Qed.
End generated.
End pods.

(** ** Examples *)

(** An annotation that is the PCI address of the pod's interface "net1". *)
Definition one_network : NetworkStatusJson := {|
  Unmarshal_NetworkStatuses text :=
    Ok [{| Interface := "net1"; ns_DeviceInfo := Some {| di_Type := "pci"; Pci_PciAddress := Some text |} |}];
|}.

Definition any_selector : LabelSelectors := {|
  Selector := unit;
  LabelSelectorAsSelector _ := Ok tt;
  Selector_String _ := "";
|}.

(** A server with one NodeFlowConfig, that accepts updates. *)
Definition one_node : @ClusterApi NodeFlowConfig any_selector :=
  Build_ClusterApi NodeFlowConfig any_selector
    (λ _ s, (Err (ApiError NotFound "not found"), s)) (λ _ s, (Ok [], s)) (λ _ _ s, (Ok [], s))
    (λ _ s, (Ok s, s)) (λ c _, (Ok tt, c)) (λ c _, (Ok tt, c)).

#[local] Existing Instances any_selector one_node.

Definition a_pod (address : option string) : Pod :=
  {| pod_Name := "pod"; pod_Labels := None;
     pod_Annotations := (λ a, {[ network_status_key := a ]}) <$> address;
     pod_NodeName := "node"; pod_Phase := "Running" |}.

Definition to_pod_rule : ClusterFlowRule :=
  {| cr_Attr := Some example_attr; cr_Pattern := [ipv4_item; end_item];
     cr_Action := [{| cfa_Type := ToPodInterface; cfa_Conf := Some (json_text "{'podInterface':'net1'}") |}] |}.

Definition a_config : ClusterFlowConfig :=
  {| cfc_Name := "cfc"; cfc_Namespace := "ns";
     cfc_Spec := {| PodSelector := Some {| MatchLabels := ∅; MatchExpressions := [] |};
                    cfc_Rules := [to_pod_rule] |} |}.

Definition empty_node : NodeFlowConfig := new_NodeFlowConfig "ns" "node".

Definition cluster_world : ClusterWorld NodeFlowConfig :=
  {| Cluster2NodeRulesHashMap := ∅; api := empty_node |}.

Definition returns {W A} (r : outcome A * W) : bool := match r with (Ok _, _) => true | _ => false end.

Lemma updateNodeFlowConfigSpec_spec_witness :
  let _ := one_network in
  match updateNodeFlowConfigSpec (a_pod (Some "0000:18:01.7"%string)) empty_node [a_config] cluster_world with
  | (Ok (_, c), _) => ∃ hs, collect getFlowRulesHash (nfc_Rules (nfc_Spec c)) = Ok hs ∧ NoDup hs
  | _ => False
  end.
Proof.
  intros n.
  assert (Hok : returns (updateNodeFlowConfigSpec (a_pod (Some "0000:18:01.7"%string)) empty_node [a_config]
    cluster_world) = true) by (vm_compute; reflexivity).
  destruct (updateNodeFlowConfigSpec _ _ _ _) as [[[err c]|e|] w'] eqn:E; [|discriminate Hok..].
  apply updateNodeFlowConfigSpec_spec in E as (hs & Hhs & Hnd & _); [|done]. eauto.
Defined.

(** The rules of the pod at address ...7 are replaced by those of the pod at address ...8. *)
Lemma sync_pods_last_wins_witness :
  let _ := one_network in
  let pod1 := a_pod (Some "0000:18:01.7"%string) in
  let pod2 := a_pod (Some "0000:18:01.8"%string) in
  match updateNodeFlowConfigSpec pod1 empty_node [a_config] cluster_world with
  | (Ok (_, c1), w1) =>
      match updateNodeFlowConfigSpec pod2 empty_node [a_config] w1 with
      | (Ok (_, c2), w2) =>
          sync_pods a_config [a_config] [pod1; pod2] {[ "node"%string := empty_node ]} cluster_world
          = (Ok (<["node"%string := c2]> {[ "node"%string := empty_node ]}), w2)
      | _ => False
      end
  | _ => False
  end.
Proof.
  intros n pod1 pod2.
  assert (H1 : returns (updateNodeFlowConfigSpec pod1 empty_node [a_config] cluster_world) = true)
    by (vm_compute; reflexivity).
  assert (H2 : returns (updateNodeFlowConfigSpec pod2 empty_node [a_config]
    (updateNodeFlowConfigSpec pod1 empty_node [a_config] cluster_world).2) = true)
    by (vm_compute; reflexivity).
  destruct (updateNodeFlowConfigSpec pod1 _ _ _) as [[[err1 c1]|e|] w1] eqn:E1; [|discriminate H1..].
  cbn [snd] in H2.
  destruct (updateNodeFlowConfigSpec pod2 _ _ w1) as [[[err2 c2]|e|] w2] eqn:E2; [|discriminate H2..].
  eapply (sync_pods_last_wins a_config [a_config] _ pod1 pod2); [done..| |exact E1|exact E2].
  by rewrite lookup_singleton_eq.
Defined.

Lemma failing_pod_empties_node_witness :
  let _ := one_network in
  let full := set_Rules empty_node [example_rule] in
  sync_pod a_config [a_config] {[ "node"%string := full ]} (a_pod None) cluster_world
  = (Ok (<["node"%string := set_Rules full []]> {[ "node"%string := full ]}), cluster_world).
Proof.
  intros n full. eapply failing_pod_empties_node; try reflexivity. done.
Defined.

Lemma clean_config_spec_witness :
  let full := {| Cluster2NodeRulesHashMap := ∅; api := set_Rules empty_node [example_rule] |} in
  ∃ kept, collect getFlowRulesHash kept = Ok (filter (λ k, k ∉ []) [match getFlowRulesHash example_rule with Ok k => k | _ => ""%string end])
    ∧ clean_config ("ns", "node")%string [] full
      = (Ok tt, {| Cluster2NodeRulesHashMap := ∅; api := set_Rules (set_Rules empty_node [example_rule]) kept |}).
Proof.
  intros full. apply (clean_config_spec (HA := one_node) ("ns", "node")%string [] full
    (set_Rules empty_node [example_rule]) (set_Rules empty_node [example_rule])).
  - reflexivity.
  - vm_compute. reflexivity.
Defined.

Lemma pod_interface_becomes_vf_witness :
  let _ := one_network in let _ := one_vf in
  ∃ a raw, getNodeActionForPodInterface (Some (json_text "{'podInterface':'net1'}"))
             (a_pod (Some "0000:18:01.7"%string)) = Ok a
    ∧ fa_Conf a = Some raw
    ∧ GetFlowActionAny (fa_Type a) raw = any_New "RteFlowActionVf" (vf_with_id 7).
Proof.
  intros n v. destruct (getNodeActionForPodInterface _ _) as [a| |] eqn:E;
    [|vm_compute in E; discriminate E..].
  destruct (pod_interface_becomes_vf _ _ _ E)
    as (text & networks & addr & nw & info & Htext & Hnet & Hin & _ & Hi & _ & Hp & _ & Hvf).
  vm_compute in Htext. injection Htext as <-. injection Hnet as <-.
  apply list_elem_of_singleton in Hin as ->. injection Hi as <-. injection Hp as <-.
  destruct (Hvf 7) as (raw & Hraw & Hget); [done|done|lia|]. exists a, raw. by split_and!.
Defined.

Lemma generated_rule_accepted_witness :
  let _ := one_network in
  match newRule (a_pod (Some "0000:18:01.7"%string)) to_pod_rule with
  | Ok r => FlowRules_validate r = Ok tt ∧ rule_PortId r = automaticPortId
  | _ => False
  end.
Proof.
  intros nw. destruct (newRule _ _) as [r| |] eqn:E; [|vm_compute in E; discriminate E..].
  eapply generated_rule_accepted; [by eexists| | |exact E].
  - vm_compute. reflexivity.
  - intros text networks n info addr Htext [= <-] Hin Hi Hp _. vm_compute in Htext.
    injection Htext as <-. apply list_elem_of_singleton in Hin as ->. injection Hi as <-.
    injection Hp as <-. by split.
Defined.
