(* ===== verification/ClusterRuns.v ===== *)
(** * Whole reconciliations of the cluster controller

    The controller against a server that keeps what is written: the rules every node has
    after a reconciliation, compared with a reference that knows nothing of the loops, and
    what is left of them when the resource is deleted. *)

From S2P Require Import Prelude GoStrings GoJson FlowEnums FlowApi FlowItems FlowTypes Webhook WebhookSpec NodeFlowConfig ClusterFlowConfig ClusterFlowConfigSpec.

Local Open Scope Z_scope.

(** ** The reference: the rules of a node *)

(** The first of the rules with the same key, for every key that was not seen. *)
Fixpoint first_of_key {A} (seen : gset string) (l : list (string * A)) : list A :=
  match l with
  | [] => []
  | (k, a) :: l =>
      if bool_decide (k ∈ seen) then first_of_key seen l
      else a :: first_of_key ({[ k ]} ∪ seen) l
  end.

Lemma first_of_key_app {A} seen (l1 l2 : list (string * A)) :
  first_of_key seen (l1 ++ l2) = first_of_key seen l1 ++ first_of_key (list_to_set l1.*1 ∪ seen) l2.
Proof.
  revert seen. induction l1 as [|[k a] l1 IH]; intros seen; cbn.
  { by rewrite (left_id_L ∅ (∪)). }
  case_bool_decide as Hk; rewrite IH; cbn; [|f_equal]; f_equal; f_equal; apply set_eq; set_solver.
Qed.

Section reference.
Context `{HN : !NetworkStatusJson}.

(** The rules a configuration makes for a pod, with their hashes. *)
Definition made (pod : Pod) (config : ClusterFlowConfig) : outcome (list (string * FlowRules)) :=
  collect (λ rule, r ← newRule pod rule; key ← getFlowRulesHash r; Ok (key, r)) (cfc_Rules (cfc_Spec config)).

(** The rules a list of configurations makes for a pod: each once. *)
Definition node_rules (pod : Pod) (configs : list ClusterFlowConfig) : outcome (list FlowRules) :=
  krss ← collect (made pod) configs; Ok (first_of_key ∅ (concat krss)).

Definition keys_of (krs : list (string * FlowRules)) : list string := krs.*1.

Lemma config_rules_made pod rules krs appended all hashes :
  collect (λ rule, r ← newRule pod rule; key ← getFlowRulesHash r; Ok (key, r)) rules = Ok krs →
  config_rules pod rules appended all hashes
  = Ok (None, appended ++ first_of_key all krs, list_to_set krs.*1 ∪ all, hashes ++ krs.*1).
Proof.
  revert krs appended all hashes. induction rules as [|rule rules IH]; intros krs appended all hashes; cbn.
  { intros [= <-]. cbn. by rewrite !app_nil_r, (left_id_L ∅ (∪)). }
  intros H. apply outcome_bind_Ok in H as ([key r] & Hr & H).
  apply outcome_bind_Ok in H as (krs' & Hkrs & [= <-]).
  apply outcome_bind_Ok in Hr as (r' & Hr' & Hr). apply outcome_bind_Ok in Hr as (k' & Hk' & [= -> ->]).
  rewrite Hr', Hk'. cbn. case_bool_decide as Hin; rewrite (IH _ _ _ _ Hkrs), <- !app_assoc; cbn.
  - replace ({[key]} ∪ list_to_set krs'.*1 ∪ all) with (list_to_set krs'.*1 ∪ all) by (apply set_eq; set_solver). done.
  - replace (list_to_set krs'.*1 ∪ ({[key]} ∪ all)) with ({[key]} ∪ list_to_set krs'.*1 ∪ all) by (apply set_eq; set_solver).
    done.
Qed.

Section loop.
Context {S : Type} `{HL : !LabelSelectors} `{HA : !ClusterApi S} `{HO : !MapOrder}.

Lemma update_loop_made pod node configs krss appended all (w : ClusterWorld S) :
  collect (made pod) configs = Ok krss →
  update_loop pod node configs appended all w
  = (Ok (None, appended ++ first_of_key all (concat krss)),
     {| Cluster2NodeRulesHashMap := remember node configs (keys_of <$> krss) (Cluster2NodeRulesHashMap w);
        api := api w |}).
Proof.
  revert krss appended all w. induction configs as [|c configs IH]; intros krss appended all w; cbn.
  { intros [= <-]. cbn. rewrite app_nil_r. by destruct w. }
  intros H. apply outcome_bind_Ok in H as (krs & Hkrs & H). apply outcome_bind_Ok in H as (krss' & Hkrss & [= <-]).
  unfold mbind, M_bind, lift. rewrite (config_rules_made _ _ _ _ _ _ Hkrs). cbn.
  rewrite (IH _ _ _ _ Hkrss). cbn. by rewrite first_of_key_app, app_assoc.
Qed.

(** The loops make the rules of the reference, and remember all their hashes. *)
Lemma updateNodeFlowConfigSpec_made pod nfc configs krss (w : ClusterWorld S) :
  configs ≠ [] → collect (made pod) configs = Ok krss →
  updateNodeFlowConfigSpec pod nfc configs w
  = (Ok (None, set_Rules nfc (first_of_key ∅ (concat krss))),
     {| Cluster2NodeRulesHashMap := remember (nfc_Namespace nfc, nfc_Name nfc) configs (keys_of <$> krss)
          (Cluster2NodeRulesHashMap w);
        api := api w |}).
Proof.
  intros Hne Hk. unfold updateNodeFlowConfigSpec. destruct configs as [|c configs]; [done|].
  unfold mbind, M_bind. by rewrite (update_loop_made _ _ _ _ _ _ _ Hk).
Qed.
End loop.
End reference.

(** ** A server that keeps what is written

    Objects are stored under their names; what selects pods is a function. *)

Record Cluster `{!LabelSelectors} : Type := {
  configs : gmap NamespacedName ClusterFlowConfig;
  stored : gmap NamespacedName NodeFlowConfig;
  pods : string → Selector → list Pod;
}.

Definition not_found {W A} : M W A := throw (ApiError NotFound "not found").

Definition node_key (c : NodeFlowConfig) : NamespacedName := (nfc_Namespace c, nfc_Name c).
Definition config_key (c : ClusterFlowConfig) : NamespacedName := (cfc_Namespace c, cfc_Name c).

Section server.
Context `{HL : !LabelSelectors} `{HO : !MapOrder}.

Definition set_stored (f : gmap NamespacedName NodeFlowConfig → gmap NamespacedName NodeFlowConfig) (s : Cluster) : Cluster :=
  {| configs := configs s; stored := f (stored s); pods := pods s |}.

Definition listed (ns : string) (s : Cluster) : list ClusterFlowConfig :=
  List.filter (λ c, String.eqb (cfc_Namespace c) ns) (range_map (configs s)).*2.

#[export] Instance cluster_server : ClusterApi Cluster := {|
  Get_ClusterFlowConfig k := λ s, match configs s !! k with Some c => (Ok c, s) | None => not_found s end;
  List_ClusterFlowConfigs ns := λ s,
    (Ok match ns with Some ns => listed ns s | None => (range_map (configs s)).*2 end, s);
  List_Pods ns selector := λ s, (Ok (pods s ns selector), s);
  Get_NodeFlowConfig k := λ s, match stored s !! k with Some c => (Ok c, s) | None => not_found s end;
  Update_NodeFlowConfig c := λ s,
    match stored s !! node_key c with
    | Some _ => (Ok tt, set_stored <[node_key c := c]> s)
    | None => not_found s
    end;
  Create_NodeFlowConfig c := λ s,
    match stored s !! node_key c with
    | None => (Ok tt, set_stored <[node_key c := c]> s)
    | Some _ => (Err (ApiError OtherReason "already exists"), s)
    end;
|}.

(** Objects have the names they are stored under. *)
Definition named (s : Cluster) : Prop :=
  (∀ k c, stored s !! k = Some c → node_key c = k) ∧ ∀ k c, configs s !! k = Some c → config_key c = k.
End server.

(** The hashes remembered for a configuration and a node. *)
Definition remembered {S} (w : ClusterWorld S) (config node : NamespacedName) : option (list string) :=
  Cluster2NodeRulesHashMap w !! config ≫= (.!! node).

Lemma remember_at node cs hss m config node' :
  NoDup (config_key <$> cs) → length hss = length cs →
  remember node cs hss m !! config ≫= (.!! node')
  = match list_find (λ c, config_key c = config) cs with
    | Some (i, _) => if decide (node' = node) then hss !! i else m !! config ≫= (.!! node')
    | None => m !! config ≫= (.!! node')
    end.
Proof.
  revert hss m. induction cs as [|c cs IH]; intros [|hs hss] m; cbn; intros Hnd Hlen; try done.
  apply NoDup_cons in Hnd as [Hc Hnd]. rewrite (IH hss) by (try done; lia).
  destruct (decide (config_key c = config)) as [<-|Hne].
  - destruct (list_find (λ c', config_key c' = config_key c) cs) as [[i c']|] eqn:E.
    { apply list_find_Some in E as (Hi & Hk & _). destruct Hc. apply list_elem_of_fmap.
      exists c'. split; [done|by eapply list_elem_of_lookup_2]. }
    rewrite lookup_insert_eq. cbn. case_decide as Hn; [subst|].
    + by rewrite lookup_insert_eq.
    + rewrite lookup_insert_ne by done. change (cfc_Namespace c, cfc_Name c) with (config_key c). destruct (m !! config_key c); [done|apply lookup_empty].
  - rewrite lookup_insert_ne by done. cbn.
    destruct (list_find (λ c', config_key c' = config) cs) as [[i c']|]; cbn; [|done].
    by case_decide.
Qed.

(** The last pod of the list that runs on a node. *)
Fixpoint last_pod (node : string) (l : list Pod) : option Pod :=
  match l with
  | [] => None
  | p :: l =>
      match last_pod node l with
      | Some q => Some q
      | None => if String.eqb (pod_NodeName p) node && negb (String.eqb node "") then Some p else None
      end
  end.

Lemma last_pod_elem node l p :
  last_pod node l = Some p → p ∈ l ∧ pod_NodeName p = node ∧ node ≠ ""%string.
Proof.
  induction l as [|q l IH]; cbn; [done|]. destruct (last_pod node l) as [q'|].
  - intros [= ->]. destruct IH as [H1 H2]; [done|]. split; [by right|done].
  - destruct (String.eqb_spec (pod_NodeName q) node), (String.eqb_spec node ""); cbn; [done| |done..].
    intros [= <-]. by split; [left|].
Qed.

Section runs.
Context `{HL : !LabelSelectors} `{HO : !MapOrder} `{HN : !NetworkStatusJson}.
Implicit Types w : ClusterWorld Cluster.

(** The object of a node that the rules are written to. *)
Definition base (s : Cluster) (ns node : string) : NodeFlowConfig :=
  default (new_NodeFlowConfig ns node) (stored s !! (ns, node)).

Lemma base_key s ns node : named s → node_key (base s ns node) = (ns, node).
Proof.
  intros [Hn _]. unfold base. destruct (stored s !! (ns, node)) as [c|] eqn:E; [|done]. by apply Hn.
Qed.

Section pods.
Variable instance : ClusterFlowConfig.
Variable cs : list ClusterFlowConfig.
Hypothesis cs_nonempty : cs ≠ [].
Hypothesis cs_distinct : NoDup (config_key <$> cs).
Notation ns := (cfc_Namespace instance).

Lemma sync_pod_made (nodes : gmap string NodeFlowConfig) pod krss w :
  pod_NodeName pod ≠ ""%string → collect (made pod) cs = Ok krss → named (api w) →
  (∀ n c, nodes !! n = Some c → ∃ rules, c = set_Rules (base (api w) ns n) rules) →
  sync_pod instance cs nodes pod w
  = (Ok (<[pod_NodeName pod := set_Rules (base (api w) ns (pod_NodeName pod)) (first_of_key ∅ (concat krss))]> nodes),
     {| Cluster2NodeRulesHashMap := remember (ns, pod_NodeName pod) cs (keys_of <$> krss) (Cluster2NodeRulesHashMap w);
        api := api w |}).
Proof.
  intros Hnode Hk Hn Hnodes. set (n := pod_NodeName pod) in *.
  assert (Hget : ∃ c rules, getNodeFlowConfig n ns nodes w = (Ok c, w) ∧ c = set_Rules (base (api w) ns n) rules).
  { unfold getNodeFlowConfig. destruct (nodes !! n) as [c|] eqn:E.
    - destruct (Hnodes n c E) as [rules ->]. by eexists _, rules.
    - unfold mbind, M_bind, attempt, api_call. cbn. unfold base.
      destruct w as [m s]. cbn. destruct (stored s !! (ns, n)) as [c|].
      + exists c, (nfc_Rules (nfc_Spec c)). split; [done|]. by destruct c as [? ? [] ?].
      + exists (new_NodeFlowConfig ns n), []. done. }
  destruct Hget as (c & rules & Hget & ->). unfold sync_pod. fold n.
  destruct (String.eqb_spec n ""); [done|]. unfold mbind, M_bind, attempt. rewrite Hget.
  rewrite (updateNodeFlowConfigSpec_made _ _ _ _ _ cs_nonempty Hk). cbn. unfold mret, M_ret.
  change (nfc_Namespace (base (api w) ns n), nfc_Name (base (api w) ns n)) with (node_key (base (api w) ns n)).
  by rewrite base_key.
Qed.

(** What the pods processed so far leave for a node. *)
Definition pods_done (s : Cluster) (l : list Pod) (nodes nodes' : gmap string NodeFlowConfig) w w' : Prop :=
  ∀ n, match last_pod n l with
       | Some pod =>
           ∃ krss, collect (made pod) cs = Ok krss
             ∧ nodes' !! n = Some (set_Rules (base s ns n) (first_of_key ∅ (concat krss)))
             ∧ ∀ i c, list_find (λ c', config_key c' = config_key c) cs = Some (i, c) →
                 remembered w' (config_key c) (ns, n) = (keys_of <$> krss) !! i
       | None => nodes' !! n = nodes !! n
                 ∧ ∀ config, remembered w' config (ns, n) = remembered w config (ns, n)
       end.

Lemma sync_pods_made l nodes w :
  named (api w) →
  (∀ pod, pod ∈ l → pod_NodeName pod ≠ ""%string → ∃ krss, collect (made pod) cs = Ok krss) →
  (∀ n c, nodes !! n = Some c → ∃ rules, c = set_Rules (base (api w) ns n) rules) →
  ∃ nodes' w', sync_pods instance cs l nodes w = (Ok nodes', w') ∧ api w' = api w
    ∧ pods_done (api w) l nodes nodes' w w'.
Proof.
  intros Hn. revert nodes w Hn. induction l as [|p l IH]; intros nodes w Hn Hmade Hnodes.
  { exists nodes, w. by split_and!. }
  cbn [sync_pods]. unfold mbind, M_bind.
  destruct (decide (pod_NodeName p = ""%string)) as [Hempty|Hne].
  - unfold sync_pod at 1. rewrite Hempty. cbn [String.eqb].
    destruct (IH nodes w) as (nodes' & w' & E & Hapi & Hdone); [done|set_solver|done|].
    exists nodes', w'. split_and!; [done|done|]. intros n. specialize (Hdone n). cbn.
    destruct (last_pod n l); [done|]. rewrite Hempty.
    by destruct (String.eqb_spec "" n), (String.eqb_spec n ""); subst; cbn.
  - destruct (Hmade p) as [krss Hk]; [by left|done|].
    rewrite (sync_pod_made nodes p krss w Hne Hk Hn Hnodes).
    set (w1 := {| Cluster2NodeRulesHashMap := _; api := api w |}). set (nodes1 := <[_ := _]> nodes).
    destruct (IH nodes1 w1) as (nodes' & w' & E & Hapi & Hdone); [done|set_solver| |].
    { intros n c [[<- <-]|[_ Hc]]%lookup_insert_Some; [by eexists|by apply Hnodes]. }
    exists nodes', w'. split_and!; [done|done|]. intros n. specialize (Hdone n). cbn.
    destruct (last_pod n l) as [q|]; [done|]. destruct Hdone as [H1 H2].
    destruct (String.eqb_spec (pod_NodeName p) n) as [<-|Hne']; cbn.
    + destruct (String.eqb_spec (pod_NodeName p) ""); [done|]. cbn. exists krss. split_and!; [done| |].
      * unfold nodes1 in H1. by rewrite H1, lookup_insert_eq.
      * intros i c Hi. rewrite H2. unfold remembered. cbn. rewrite remember_at; [|done|].
        -- rewrite Hi. by rewrite decide_True.
        -- rewrite length_fmap. by eapply collect_length.
    + unfold nodes1 in H1. split; [by rewrite H1, lookup_insert_ne|]. intros config. rewrite H2. unfold remembered. cbn.
      rewrite remember_at; [|done|rewrite length_fmap; by eapply collect_length].
      destruct (list_find _ cs) as [[i c]|]; [|done]. rewrite decide_False; [done|congruence].
Qed.
End pods.

(** ** Writing the objects *)

Definition write (st : gmap NamespacedName NodeFlowConfig) (c : NodeFlowConfig) : gmap NamespacedName NodeFlowConfig :=
  <[node_key c := c]> st.

Lemma write_all l w :
  ∃ w', forM l (λ e : string * NodeFlowConfig, createOrUpdate_node e.2) w = (Ok tt, w')
    ∧ Cluster2NodeRulesHashMap w' = Cluster2NodeRulesHashMap w
    ∧ api w' = set_stored (λ st, foldl write st l.*2) (api w).
Proof.
  revert w. induction l as [|[n c] l IH]; intros w; cbn [forM].
  { exists w. split_and!; [done|done|]. by destruct w as [m [??]]. }
  destruct (IH {| Cluster2NodeRulesHashMap := Cluster2NodeRulesHashMap w;
                  api := set_stored <[node_key c := c]> (api w) |}) as (w' & E & Hm & Ha).
  exists w'. split_and!; [|done|rewrite Ha; by destruct (api w)].
  unfold mbind at 1, M_bind at 1. unfold createOrUpdate_node, mbind, M_bind, attempt, api_call. cbn.
  change (nfc_Namespace c, nfc_Name c) with (node_key c).
  destruct (stored (api w) !! node_key c) as [c'|] eqn:Hc; cbn; rewrite Hc; exact E.
Qed.

Lemma createOrUpdate_stored ns nodes w :
  (∀ n c, nodes !! n = Some c → node_key c = (ns, n)) →
  ∃ w', createOrUpdateNodeFlowConfigs nodes w = (Ok tt, w')
    ∧ Cluster2NodeRulesHashMap w' = Cluster2NodeRulesHashMap w
    ∧ configs (api w') = configs (api w) ∧ pods (api w') = pods (api w)
    ∧ ∀ k, stored (api w') !! k
           = match (if String.eqb k.1 ns then nodes !! k.2 else None) with
             | Some c => Some c
             | None => stored (api w) !! k
             end.
Proof.
  intros Hkeys. destruct (write_all (range_map nodes) w) as (w' & E & Hm & Ha).
  exists w'. split_and!; [exact E|done|by rewrite Ha|by rewrite Ha|]. intros k. rewrite Ha. cbn.
  replace (foldl write (stored (api w)) (range_map nodes).*2)
    with (foldl (λ out e, <[e.1 := e.2]> out) (stored (api w)) ((λ e, (node_key e.2, e.2)) <$> range_map nodes)).
  2:{ generalize (stored (api w)), (range_map nodes). intros st l. revert st.
      induction l as [|e l IH]; intros st; [done|]. cbn. by rewrite IH. }
  rewrite foldl_insert. set (L := (λ e, (node_key e.2, e.2)) <$> range_map nodes).
  assert (HL' : L.*1 = (λ n, (ns, n)) <$> (range_map nodes).*1).
  { unfold L. rewrite <- !list_fmap_compose. apply list_fmap_ext. intros i [n c] Hi. cbn.
    apply Hkeys, range_map_elem. by eapply list_elem_of_lookup_2. }
  assert (Hnd : NoDup (rev L).*1).
  { rewrite <- Permutation_rev, HL'. apply NoDup_fmap_2; [by intros ?? [=]|apply range_map_keys]. }
  assert (Hin : ∀ c, list_to_map (M:=gmap _ _) (rev L) !! k = Some c ↔ k.1 = ns ∧ nodes !! k.2 = Some c).
  { intros c. rewrite <- elem_of_list_to_map by done. rewrite <- Permutation_rev. unfold L.
    rewrite list_elem_of_fmap. split.
    - intros ([n c'] & [= -> ->] & Hn%range_map_elem). by rewrite (Hkeys _ _ Hn).
    - intros [<- Hn]. exists (k.2, c). split; [|by apply range_map_elem].
      change ((k, c) = (node_key c, c)). rewrite (Hkeys _ _ Hn). by destruct k. }
  rewrite lookup_union. destruct (list_to_map (rev L) !! k) as [c|].
  - destruct (proj1 (Hin c) eq_refl) as [-> Hn]. by rewrite String.eqb_refl, Hn, union_Some_l.
  - rewrite (left_id_L None (∪)). destruct (String.eqb_spec k.1 ns) as [Hk|]; [|done].
    destruct (nodes !! k.2) as [c|] eqn:Hn; [|done]. pose proof (proj2 (Hin c) (conj Hk eq_refl)) as Hc. discriminate Hc.
Qed.

(** ** A reconciliation of a resource that selects pods *)

Section reconcile.
Variable req : NamespacedName.
Variable instance : ClusterFlowConfig.
Variable selector : Selector.
Notation ns := (cfc_Namespace instance).

(** The resources with the same selector, in the order the server lists them. *)
Definition siblings (s : Cluster) : list ClusterFlowConfig :=
  List.filter (same_selector selector) (listed ns s).

(** The server's state the reconciliation starts from: the resource is there and selects
    pods, and every rule can be made for every pod that runs on a node. *)
Record ready (s : Cluster) : Prop := {
  ready_named : named s;
  ready_config : configs s !! req = Some instance;
  ready_selector : LabelSelectorAsSelector (PodSelector (cfc_Spec instance)) = Ok selector;
  ready_pods : pods s ns selector ≠ [];
  ready_made pod : pod ∈ pods s ns selector → pod_NodeName pod ≠ ""%string →
    ∃ krss, collect (made pod) (siblings s) = Ok krss;
}.

Lemma elem_of_siblings s c : c ∈ siblings s ↔
  (∃ k, configs s !! k = Some c) ∧ cfc_Namespace c = ns ∧ same_selector selector c = true.
Proof.
  unfold siblings, listed. rewrite !list_elem_of_In, !filter_In, <- list_elem_of_In, list_elem_of_fmap, String.eqb_eq.
  split.
  - intros [[([k c'] & -> & Hin%range_map_elem) Hns] Hsel]. eauto.
  - intros ([k Hk] & Hns & Hsel). split_and!; [|done..]. exists (k, c). by rewrite range_map_elem.
Qed.

Lemma siblings_distinct s : named s → NoDup (config_key <$> siblings s).
Proof.
  intros [_ Hn]. assert (Hall : NoDup (config_key <$> (range_map (configs s)).*2)).
  { rewrite <- list_fmap_compose. erewrite list_fmap_ext; [apply (range_map_keys (configs s))|].
    intros i [k c] Hi. cbn. apply Hn, range_map_elem. by eapply list_elem_of_lookup_2. }
  unfold siblings, listed. revert Hall. generalize (range_map (configs s)).*2. intros l Hl.
  assert (Hfilter : ∀ f (l : list ClusterFlowConfig), NoDup (config_key <$> l) → NoDup (config_key <$> List.filter f l)).
  { clear. intros f l. induction l as [|c l IH]; cbn; [done|]. intros [Hc Hl]%NoDup_cons.
    destruct (f c); [|by apply IH]. cbn. apply NoDup_cons. split; [|by apply IH].
    intros (c' & Hk & Hin%list_elem_of_In%filter_In)%list_elem_of_fmap. apply Hc, list_elem_of_fmap.
    exists c'. split; [done|]. by apply list_elem_of_In, Hin. }
  by apply Hfilter, Hfilter.
Qed.

(** The resource itself is among them. *)
Lemma instance_sibling s : ready s →
  ∃ i, list_find (λ c, config_key c = req) (siblings s) = Some (i, instance).
Proof.
  intros [Hn Hc Hsel _ _]. assert (Hin : instance ∈ siblings s).
  { apply elem_of_siblings. split_and!; [eauto|done|]. unfold same_selector. by rewrite Hsel, String.eqb_refl. }
  assert (Hkey : config_key instance = req) by by apply Hn.
  destruct (list_find_elem_of (λ c, config_key c = req) _ _ Hin Hkey) as [[i c] Hi]. exists i.
  pose proof Hi as (Hc' & Hk & _)%list_find_Some.
  apply list_elem_of_lookup_2, elem_of_siblings in Hc' as ([k Hk'] & _).
  assert (c = instance) as ->; [|done]. pose proof (proj2 Hn k c Hk'). congruence.
Qed.

(** What the reconciliation leaves on the server and in memory. *)
Definition written w w' : Prop :=
  named (api w') ∧ configs (api w') = configs (api w) ∧ pods (api w') = pods (api w)
  ∧ (∀ n, match last_pod n (pods (api w) ns selector) with
          | Some pod =>
              ∃ krss own, collect (made pod) (siblings (api w)) = Ok krss ∧ made pod instance = Ok own
                ∧ stored (api w') !! (ns, n) = Some (set_Rules (base (api w) ns n) (first_of_key ∅ (concat krss)))
                ∧ remembered w' req (ns, n) = Some (keys_of own)
          | None => stored (api w') !! (ns, n) = stored (api w) !! (ns, n)
                    ∧ remembered w' req (ns, n) = remembered w req (ns, n)
          end)
  ∧ ∀ ns' n, ns' ≠ ns → stored (api w') !! (ns', n) = stored (api w) !! (ns', n).

Lemma Reconcile_written w : ready (api w) → ∃ w', Reconcile req w = (Ok tt, w') ∧ written w w'.
Proof.
  intros Hr. destruct (instance_sibling _ Hr) as [i Hi]. pose proof Hr as [Hn Hc Hsel Hp Hmade].
  assert (Hne : siblings (api w) ≠ []) by (intros E; by rewrite E in Hi).
  destruct (sync_pods_made instance (siblings (api w)) Hne (siblings_distinct _ Hn) (pods (api w) ns selector) ∅ w)
    as (nodes & w1 & E1 & Ha1 & Hdone); [done..|].
  assert (Hkeys : ∀ n c, nodes !! n = Some c → node_key c = (ns, n)).
  { intros n c Hnc. specialize (Hdone n). destruct (last_pod n _) as [pod|].
    - destruct Hdone as (krss & _ & H & _). rewrite Hnc in H. injection H as ->. by apply base_key.
    - destruct Hdone as [H _]. by rewrite Hnc, lookup_empty in H. }
  destruct (createOrUpdate_stored ns nodes w1 Hkeys) as (w2 & E2 & Hm2 & Hc2 & Hp2 & Hs2).
  exists w2. split; [|split_and!].
  - unfold Reconcile, syncClusterConfigForNodes, getPodsForPodSelector, getClusterFlowConfigsForPodSelector,
      mbind, M_bind, attempt, api_call, lift. cbn. rewrite Hc. cbn. rewrite Hsel. cbn.
    destruct (pods (api w) ns selector) as [|p l] eqn:Ep; [done|].
    destruct w as [m s]. cbn in *. unfold siblings in E1. rewrite E1. exact E2.
  - split; [|intros k c; rewrite Hc2, Ha1; apply Hn]. intros [ns' n] c. rewrite Hs2. cbn [fst snd].
    destruct (String.eqb_spec ns' ns) as [->|]; [|rewrite Ha1; apply Hn].
    destruct (nodes !! n) as [c'|] eqn:Hnc; [intros [= <-]; by apply Hkeys|rewrite Ha1; apply Hn].
  - by rewrite Hc2, Ha1.
  - by rewrite Hp2, Ha1.
  - intros n. specialize (Hdone n). rewrite Hs2. cbn [fst snd]. rewrite String.eqb_refl.
    assert (Hrem : ∀ c, remembered w2 c (ns, n) = remembered w1 c (ns, n)) by (intros c; unfold remembered; by rewrite Hm2).
    rewrite Hrem. destruct (last_pod n _) as [pod|].
    + destruct Hdone as (krss & Hk & -> & Hown).
      assert (Hkey : config_key instance = req) by by apply Hn.
      pose proof Hi as (Hnth & _ & _)%list_find_Some.
      destruct (collect_lookup _ _ _ _ _ Hk Hnth) as (own & Hmk & Hi'). exists krss, own. split_and!; [done..|].
      rewrite <- Hkey in Hi |- *. by rewrite (Hown _ _ Hi), list_lookup_fmap, Hi'.
    + destruct Hdone as [-> ->]. by rewrite lookup_empty, Ha1.
  - intros ns' n Hns. rewrite Hs2. cbn [fst snd]. by destruct (String.eqb_spec ns' ns); [|rewrite Ha1].
Qed.

(** C6 A reconciliation of a resource that selects pods, when its rules can be made: every
    node where a selected pod runs ends with exactly the rules the reference makes for the
    last of its pods from all resources with that selector, each rule once; every other
    NodeFlowConfig stays as it is; and the hashes of the resource's own rules are remembered
    for the node. *)
Theorem Reconcile_writes_rules w :
  ready (api w) →
  ∃ w', Reconcile req w = (Ok tt, w')
    ∧ configs (api w') = configs (api w) ∧ pods (api w') = pods (api w)
    ∧ (∀ n, match last_pod n (pods (api w) ns selector) with
            | Some pod =>
                ∃ rules own, node_rules pod (siblings (api w)) = Ok rules ∧ made pod instance = Ok own
                  ∧ stored (api w') !! (ns, n) = Some (set_Rules (base (api w) ns n) rules)
                  ∧ remembered w' req (ns, n) = Some (keys_of own)
            | None => stored (api w') !! (ns, n) = stored (api w) !! (ns, n)
            end)
    ∧ ∀ ns' n, ns' ≠ ns → stored (api w') !! (ns', n) = stored (api w) !! (ns', n).
Proof.
  intros (w' & E & _ & Hc & Hp & Hs & Hns)%Reconcile_written. exists w'. split_and!; [done..| |done].
  intros n. specialize (Hs n). destruct (last_pod _ _) as [pod|]; [|by apply Hs].
  destruct Hs as (krss & own & Hk & Hs). exists (first_of_key ∅ (concat krss)), own. unfold node_rules. by rewrite Hk.
Qed.
End reconcile.

(** ** A reconciliation of a resource that is gone *)

Definition cleaned (hashes : list string) (c : NodeFlowConfig) : NodeFlowConfig :=
  set_Rules c (List.filter (rule_kept hashes) (nfc_Rules (nfc_Spec c))).

Lemma clean_config_stored k hashes w :
  named (api w) →
  clean_config k hashes w
  = (Ok tt, {| Cluster2NodeRulesHashMap := Cluster2NodeRulesHashMap w;
               api := set_stored (alter (cleaned hashes) k) (api w) |}).
Proof.
  intros [Hn _]. unfold clean_config, mbind, M_bind, attempt, api_call. cbn.
  destruct w as [m [cs st ps]]. cbn in *. unfold set_stored. cbn.
  destruct (st !! k) as [c|] eqn:E; cbn.
  - change (node_key (set_Rules c _)) with (node_key c). rewrite (Hn k c E), E. cbn. unfold mret, M_ret, set_stored. cbn. do 3 f_equal.
    apply map_eq. intros j. destruct (decide (k = j)) as [<-|].
    + by rewrite lookup_insert_eq, lookup_alter_eq, E.
    + by rewrite lookup_insert_ne, lookup_alter_ne.
  - unfold mret, M_ret. do 3 f_equal. apply map_eq. intros j. destruct (decide (k = j)) as [<-|].
    + by rewrite lookup_alter_eq, E.
    + by rewrite lookup_alter_ne.
Qed.

Lemma cleaned_named k hashes s : named s → named (set_stored (alter (cleaned hashes) k) s).
Proof.
  intros [Hn Hc]. split; [|done]. intros j c. cbn. destruct (decide (k = j)) as [<-|].
  - rewrite lookup_alter_eq. destruct (stored s !! k) as [c'|] eqn:E; [|done]. intros [= <-]. by apply (Hn k c').
  - rewrite lookup_alter_ne by done. by apply Hn.
Qed.

Lemma clean_all (l : list (NamespacedName * list string)) w :
  named (api w) → NoDup l.*1 →
  ∃ w', forM l (λ e, clean_config e.1 e.2) w = (Ok tt, w') ∧ named (api w')
    ∧ Cluster2NodeRulesHashMap w' = Cluster2NodeRulesHashMap w
    ∧ ∀ k, stored (api w') !! k
           = match list_to_map (M:=gmap _ _) l !! k with
             | Some hashes => cleaned hashes <$> stored (api w) !! k
             | None => stored (api w) !! k
             end.
Proof.
  revert w. induction l as [|[k0 hs] l IH]; intros w Hn Hnd; cbn [forM].
  { exists w. split_and!; [done..|]. intros k. cbn. by rewrite lookup_empty. }
  apply NoDup_cons in Hnd as [Hk0 Hnd]. unfold mbind at 1, M_bind at 1. cbn [fst snd]. rewrite (clean_config_stored k0 hs w Hn).
  destruct (IH {| Cluster2NodeRulesHashMap := Cluster2NodeRulesHashMap w;
                  api := set_stored (alter (cleaned hs) k0) (api w) |}) as (w' & E & Hn' & Hm & Hs);
    [by apply cleaned_named|done|].
  exists w'. split_and!; [exact E|done|done|]. intros k. rewrite Hs. cbn.
  destruct (decide (k0 = k)) as [<-|].
  - rewrite lookup_insert_eq, lookup_alter_eq. by rewrite (not_elem_of_list_to_map_1 l k0) by done.
  - by rewrite lookup_insert_ne, lookup_alter_ne.
Qed.

Lemma Reconcile_cleans req w :
  named (api w) → configs (api w) !! req = None →
  ∃ w', Reconcile req w = (Ok tt, w') ∧ named (api w')
    ∧ Cluster2NodeRulesHashMap w' = base.delete req (Cluster2NodeRulesHashMap w)
    ∧ ∀ k, stored (api w') !! k
           = match remembered w req k with
             | Some hashes => cleaned hashes <$> stored (api w) !! k
             | None => stored (api w) !! k
             end.
Proof.
  intros Hn Hc. unfold Reconcile, mbind at 1, M_bind at 1, attempt, api_call. cbn. rewrite Hc. cbn.
  replace {| Cluster2NodeRulesHashMap := _; api := api w |} with w by by destruct w.
  unfold cleanNodeFlowConfig, remembered, mbind, M_bind, gets.
  destruct (Cluster2NodeRulesHashMap w !! req) as [nodes|]; cbn.
  - destruct (clean_all (range_map nodes) w Hn (range_map_keys nodes)) as (w' & E & Hn' & Hm & Hs).
    rewrite E. eexists. split_and!; [reflexivity|done|by rewrite <- Hm|]. intros k. cbn. rewrite Hs.
    by rewrite (list_to_map_proper (range_map nodes) (map_to_list nodes)), list_to_map_to_list
      by (apply range_map_keys || apply range_map_perm).
  - eexists. split_and!; [reflexivity|done|done|done].
Qed.

(** The server after a resource is deleted. *)
Definition deleted (req : NamespacedName) w : ClusterWorld Cluster :=
  {| Cluster2NodeRulesHashMap := Cluster2NodeRulesHashMap w;
     api := {| configs := base.delete req (configs (api w)); stored := stored (api w); pods := pods (api w) |} |}.

Lemma made_hash pod config own k r : made pod config = Ok own → (k, r) ∈ own → getFlowRulesHash r = Ok k.
Proof.
  unfold made. generalize (cfc_Rules (cfc_Spec config)). intros rules. revert own.
  induction rules as [|rule rules IH]; intros own; cbn; [intros [= <-]; by intros ?%not_elem_of_nil|].
  intros H. apply outcome_bind_Ok in H as (kr & Hkr & H). apply outcome_bind_Ok in H as (own' & Hown & [= <-]).
  intros [<-|Hin]%elem_of_cons; [|by eapply IH].
  apply outcome_bind_Ok in Hkr as (r' & _ & Hkr). by apply outcome_bind_Ok in Hkr as (k' & Hk & [= -> ->]).
Qed.

(** Removing the rules with some hashes is the same as having seen these hashes before. *)
Lemma kept_first_of_key hashes seen (l : list (string * FlowRules)) :
  (∀ k r, (k, r) ∈ l → getFlowRulesHash r = Ok k) →
  List.filter (rule_kept hashes) (first_of_key seen l) = first_of_key (list_to_set hashes ∪ seen) l.
Proof.
  revert seen. induction l as [|[k r] l IH]; intros seen Hl; [done|]. cbn.
  assert (Hkr : rule_kept hashes r = negb (bool_decide (k ∈ hashes))).
  { unfold rule_kept. by rewrite (Hl k r) by by left. }
  assert (Hl' : ∀ k' r', (k', r') ∈ l → getFlowRulesHash r' = Ok k') by (intros k' r' ?; apply Hl; by right).
  destruct (decide (k ∈ seen)).
  - rewrite !bool_decide_true by set_solver. by apply IH.
  - rewrite (bool_decide_false (k ∈ seen)) by done. cbn. rewrite Hkr, IH by done.
    destruct (decide (k ∈ hashes)).
    + rewrite !bool_decide_true by set_solver. cbn. f_equal. set_solver.
    + rewrite !bool_decide_false by set_solver. cbn. do 2 f_equal. set_solver.
Qed.

(** Keys that are seen before contribute nothing. *)
Lemma first_of_key_seen {A} (seen : gset string) (l : list (string * A)) :
  list_to_set l.*1 ⊆ seen → first_of_key seen l = [] ∧ list_to_set l.*1 ∪ seen = seen.
Proof.
  intros Hl. split; [|set_solver]. induction l as [|[k a] l IH]; [done|]. cbn in *.
  rewrite bool_decide_true by set_solver. apply IH. set_solver.
Qed.

(** The resources other than [req]. *)
Definition others (req : NamespacedName) (l : list ClusterFlowConfig) : list ClusterFlowConfig :=
  filter (λ c, config_key c ≠ req) l.

Lemma others_cons req c l :
  others req (c :: l) = if decide (config_key c = req) then others req l else c :: others req l.
Proof. unfold others. rewrite filter_cons. by repeat case_decide. Qed.

Lemma others_made pod req instance own l krss seen :
  (∀ c, c ∈ l → config_key c = req → c = instance) → made pod instance = Ok own →
  collect (made pod) l = Ok krss → list_to_set (keys_of own) ⊆ seen →
  ∃ krss', collect (made pod) (others req l) = Ok krss'
    ∧ first_of_key seen (concat krss) = first_of_key seen (concat krss').
Proof.
  intros Hl Hown. revert krss seen. induction l as [|c l IH]; intros krss seen; [intros [= <-] _; by exists []|].
  rewrite others_cons. cbn [collect]. intros Hk Hseen. apply outcome_bind_Ok in Hk as (krs & Hkrs & Hk). apply outcome_bind_Ok in Hk as (krss1 & Hkrss & [= <-]).
  assert (Hl' : ∀ c', c' ∈ l → config_key c' = req → c' = instance) by (intros c' ?; apply Hl; by right).
  cbn [concat]. rewrite first_of_key_app. destruct (decide (config_key c = req)) as [Hc|Hc].
  - rewrite (Hl c) in Hkrs by (done || by left). rewrite Hown in Hkrs. injection Hkrs as <-.
    destruct (first_of_key_seen seen own Hseen) as [-> ->]. by apply IH.
  - destruct (IH Hl' krss1 (list_to_set krs.*1 ∪ seen) Hkrss) as (krss' & E & Hf); [set_solver|].
    exists (krs :: krss'). cbn. by rewrite Hkrs, E, first_of_key_app, Hf.
Qed.

Lemma deleted_named req w : named (api w) → named (api (deleted req w)).
Proof. intros [Hn Hc]. split; [done|]. intros k c. cbn. intros [_ Hk]%lookup_delete_Some. by apply Hc. Qed.

Lemma made_all_hash pod l krss k r :
  collect (made pod) l = Ok krss → (k, r) ∈ concat krss → getFlowRulesHash r = Ok k.
Proof.
  revert krss. induction l as [|c l IH]; intros krss; cbn; [intros [= <-]; by intros ?%not_elem_of_nil|].
  intros Hk. apply outcome_bind_Ok in Hk as (krs & Hkrs & Hk). apply outcome_bind_Ok in Hk as (krss1 & Hkrss & [= <-]).
  cbn. intros [Hin|Hin]%elem_of_app; [by eapply made_hash|by eapply IH].
Qed.

(** Without the rules of the resource, what was made for all is what is made for the others. *)
Lemma remaining_rules req instance selector s pod krss own :
  ready req instance selector s →
  collect (made pod) (siblings instance selector s) = Ok krss → made pod instance = Ok own →
  ∃ rules, node_rules pod (others req (siblings instance selector s)) = Ok rules
    ∧ List.filter (rule_kept (keys_of own)) (first_of_key ∅ (concat krss)) = List.filter (rule_kept (keys_of own)) rules.
Proof.
  intros Hr Hk Hown.
  destruct (others_made pod req instance own (siblings instance selector s) krss (list_to_set (keys_of own) ∪ ∅))
    as (krss' & Hk' & Hf); [|done..|set_solver|].
  { intros c [[k' Hc'] _]%elem_of_siblings Hreq. pose proof (ready_named _ _ _ _ Hr) as [_ Hcn].
    pose proof (ready_config _ _ _ _ Hr) as Hi. pose proof (Hcn _ _ Hc'). congruence. }
  exists (first_of_key ∅ (concat krss')). unfold node_rules. rewrite Hk'. split; [done|].
  rewrite !kept_first_of_key by (intros ??; by eapply made_all_hash). done.
Qed.

(** C5 A resource that is applied and then deleted: both reconciliations succeed, and
    afterwards nothing is remembered for it. Every node where one of its pods ran has the
    rules the reference makes from the other resources with its selector, without those the
    deleted resource had too; without such common rules it is as if the resource had never
    been there. On the other nodes the rules are removed that earlier reconciliations of the
    resource put there. *)
Theorem apply_then_delete req instance selector w :
  ready req instance selector (api w) →
  ∃ w' w'', Reconcile req w = (Ok tt, w') ∧ Reconcile req (deleted req w') = (Ok tt, w'')
    ∧ Cluster2NodeRulesHashMap w'' !! req = None
    ∧ ∀ n, let k := (cfc_Namespace instance, n) in
      match last_pod n (pods (api w) (cfc_Namespace instance) selector) with
      | Some pod =>
          ∃ rules own, node_rules pod (others req (siblings instance selector (api w))) = Ok rules
            ∧ made pod instance = Ok own
            ∧ stored (api w'') !! k
              = Some (set_Rules (base (api w) (cfc_Namespace instance) n) (List.filter (rule_kept (keys_of own)) rules))
      | None =>
          stored (api w'') !! k
          = match remembered w req k with
            | Some hashes => cleaned hashes <$> stored (api w) !! k
            | None => stored (api w) !! k
            end
      end.
Proof.
  intros Hr. destruct (Reconcile_written _ _ _ _ Hr) as (w' & E & Hn & Hc & Hp & Hs & _).
  destruct (Reconcile_cleans req (deleted req w')) as (w'' & E' & _ & Hm & Hs'); [by apply deleted_named|apply lookup_delete_eq|].
  exists w', w''. split_and!; [done|done|rewrite Hm; apply lookup_delete_eq|]. intros n k. specialize (Hs n).
  specialize (Hs' k). change (remembered (deleted req w') req k) with (remembered w' req k) in Hs'.
  change (stored (api (deleted req w'))) with (stored (api w')) in Hs'.
  destruct (last_pod _ _) as [pod|].
  - destruct Hs as (krss & own & Hk & Hown & Hst & Hrem). fold k in Hst, Hrem. rewrite Hrem, Hst in Hs'.
    destruct (remaining_rules _ _ _ _ _ _ _ Hr Hk Hown) as (rules & Hrules & Hleft).
    exists rules, own. split_and!; [done..|]. rewrite Hs', <- Hleft. done.
  - destruct Hs as [Hst Hrem]. fold k in Hst, Hrem. by rewrite Hs', Hrem, Hst.
Qed.
End runs.

(** ** An example

    Two resources that select the same pod; the second has the rule of the first and one
    more. *)

#[local] Existing Instances any_selector one_network listed_order.

Definition selects_all : Selector := (tt : @Selector any_selector).

Definition running_pod : Pod := a_pod (Some "0000:18:01.7"%string).

(** As [to_pod_rule], for any packet. *)
Definition any_packet_rule : ClusterFlowRule :=
  {| cr_Attr := Some example_attr; cr_Pattern := [end_item]; cr_Action := cr_Action to_pod_rule |}.

Definition second_config : ClusterFlowConfig :=
  {| cfc_Name := "second"; cfc_Namespace := "ns";
     cfc_Spec := {| PodSelector := Some {| MatchLabels := ∅; MatchExpressions := [] |};
                    cfc_Rules := [to_pod_rule; any_packet_rule] |} |}.

Definition two_configs : ClusterWorld Cluster := {|
  Cluster2NodeRulesHashMap := ∅;
  api := {| configs := {[ ("ns", "cfc")%string := a_config; ("ns", "second")%string := second_config ]};
            stored := ∅; pods _ _ := [running_pod] |}
|}.

Definition result {A} (o : outcome A) : option A := match o with Ok a => Some a | _ => None end.

(** Facts that are computed say what the result is. *)
Lemma result_Ok {A B} (o : outcome A) (f : A → B) b a : f <$> result o = Some b → o = Ok a → f a = b.
Proof. intros H ->. by injection H. Qed.

Lemma two_configs_ready : ready ("ns", "cfc")%string a_config selects_all (api two_configs).
Proof.
  split; [|reflexivity|reflexivity|done|].
  - split; [done|]. intros k c. cbn. intros [[<- <-]|[_ [<- <-]%lookup_singleton_Some]]%lookup_insert_Some; reflexivity.
  - intros pod Hin _. apply list_elem_of_singleton in Hin as ->.
    assert (Hmade : length <$> result (collect (made running_pod) (siblings a_config selects_all (api two_configs))) = Some 2%nat)
      by (vm_compute; reflexivity).
    destruct (collect _ _) as [krss|e|]; [by exists krss|discriminate Hmade..].
Qed.

Lemma Reconcile_writes_rules_witness :
  ∃ w' c, Reconcile ("ns", "cfc")%string two_configs = (Ok tt, w')
    ∧ stored (api w') !! ("ns", "node")%string = Some c ∧ length (nfc_Rules (nfc_Spec c)) = 2%nat.
Proof.
  destruct (Reconcile_writes_rules _ _ _ _ two_configs_ready) as (w' & E & _ & _ & Hs & _).
  destruct (Hs "node"%string) as (rules & own & Hr & _ & Hst & _). exists w'. eexists.
  split_and!; [exact E|exact Hst|]. cbn [set_Rules nfc_Spec nfc_Rules].
  eapply (result_Ok _ length); [|exact Hr]. vm_compute. reflexivity.
Defined.

(** The second resource wants two rules; one of them is gone with the first resource. *)
Lemma apply_then_delete_witness :
  ∃ w' w'' rules c, Reconcile ("ns", "cfc")%string two_configs = (Ok tt, w')
    ∧ Reconcile ("ns", "cfc")%string (deleted ("ns", "cfc")%string w') = (Ok tt, w'')
    ∧ node_rules running_pod (others ("ns", "cfc")%string (siblings a_config selects_all (api two_configs))) = Ok rules
    ∧ length rules = 2%nat
    ∧ stored (api w'') !! ("ns", "node")%string = Some c ∧ length (nfc_Rules (nfc_Spec c)) = 1%nat.
Proof.
  destruct (apply_then_delete _ _ _ _ two_configs_ready) as (w' & w'' & E & E' & _ & Hs).
  destruct (Hs "node"%string) as (rules & own & Hr & Hown & Hst). exists w', w'', rules. eexists.
  split_and!; [exact E|exact E'|exact Hr| |exact Hst|]; [eapply (result_Ok _ length); [|exact Hr]; vm_compute; reflexivity|].
  cbn [set_Rules nfc_Spec nfc_Rules].
  assert (Hkept : (λ rs, length <$> (own ← result (made running_pod a_config); Some (List.filter (rule_kept (keys_of own)) rs)))
    <$> result (node_rules running_pod (others ("ns", "cfc")%string (siblings a_config selects_all (api two_configs))))
    = Some (Some 1%nat)) by (vm_compute; reflexivity).
  apply (result_Ok _ _ _ _ Hkept) in Hr. change (pods _ _ _) with [running_pod] in Hown.
  rewrite Hown in Hr. by injection Hr.
Defined.
