(* ===== verification/FlowSystem.v ===== *)
(** * The flow configuration as one system

    The cluster controller and the daemon of a node around one API server: what a resource
    that is applied puts on the device of the node of its pod, and what is left there when
    it is deleted. *)

From S2P Require Import Prelude GoStrings GoNet GoCrypto GoJson GoJsonDecode FlowEnums FlowApi AnyModel FlowItems FlowItemsSpec FlowTypes FlowSets Webhook WebhookSpec Dcf NodeFlowConfig NodeFlowConfigSpec NodeFlowConfigDevice NodeFlowConfigRuns FlowTranslation ClusterFlowConfig ClusterFlowConfigSpec ClusterRuns.

Local Open Scope Z_scope.

(** ** A node that can take every rule *)

(** The ports the flow service reports, as the resource has them. *)
Definition shown (ports : list PortsInformation) : list CrPortsInformation :=
  (λ p, {| pi_PortId := PortId p; pi_PortPci := PortPci p; pi_PortMode := PortMode p |}) <$> ports.

(** Every address the webhook lets through is that of a virtual function of a port of the
    flow service; the service answers and refuses nothing. *)
Record healthy (S : Type) `{!AnyCodec, !SriovUtils, !FlowServiceClient S} (ports : list PortsInformation) : Prop := {
  vf_known pci : pci_MatchString pci = true → ∃ id, GetVFID pci = Ok id ∧ 0 ≤ id < 2 ^ 32;
  port_known pci : pci_MatchString pci = true →
    ∃ pfName id, GetPfName pci = Ok pfName ∧ find_port pfName (shown ports) = Ok id;
  pack_known id : ∃ a, any_New "RteFlowActionVf" (vf_with_id id) = Ok a;
  ListPorts_answers (s : S) : ∃ s', ListPorts s = (Ok {| Ports := ports |}, s');
  Validate_accepts req (s : S) : ∃ res s', Validate req s = (Ok res, s') ∧ is_flow_error (flow_ErrorInfo res) = false;
  Create_accepts req (s : S) : ∃ res s', Create req s = (Ok res, s') ∧ is_flow_error (create_ErrorInfo res) = false;
  Destroy_accepts d (s : S) : ∃ res s', Destroy d s = (Ok res, s') ∧ is_flow_error (flow_ErrorInfo res) = false;
}.

Section node.
Context {S : Type} `{HC : !AnyCodec} `{HL : !AnyCodecLaws HC} `{HV : !SriovUtils} `{HF : !FlowServiceClient S}.
Context `{HG : !NodeFlowConfigApi S} `{HD : !DcfService S} `{HI : !ApiApart S} `{HO : !MapOrder}.
Variable ports : list PortsInformation.
Hypothesis ok : healthy S ports.
Implicit Types w : NodeWorld S.

(** A rule of the cluster controller with an action. *)
Definition deployable (r : FlowRules) : Prop :=
  FlowRules_validate r = Ok tt ∧ rule_PortId r = automaticPortId ∧ starts_with_vf r.

(** The request for a rule: its items and actions packed, at the port of the physical
    function that has the virtual function of the rule's first action. *)
Definition requested (r : FlowRules) (req : RequestFlowCreate) : Prop :=
  collect getRteFlowItem (rule_Pattern r) = Ok (req_Pattern req)
  ∧ req_Attr req = getRteFlowAttr <$> rule_Attr r
  ∧ ∃ addr pfName, getRteFlowActions (rule_Action r) "" = Ok (req_Action req, addr)
      ∧ head (rule_Action r) = Some {| fa_Type := RTE_FLOW_ACTION_TYPE_VFPCIADDR; fa_Conf := Some (vf_addr_text addr) |}
      ∧ GetPfName addr = Ok pfName ∧ find_port pfName (shown ports) = Ok (req_PortId req).

(** Once an address is remembered, later actions do not replace it. *)
Lemma getRteFlowActions_keeps actions addr l addr' :
  addr ≠ ""%string → getRteFlowActions actions addr = Ok (l, addr') → addr' = addr.
Proof.
  intros Hne. revert l. induction actions as [|a actions IH]; intros l; cbn; [naive_solver|].
  intros H. apply outcome_bind_Ok in H as ([x p] & Hx & H). apply outcome_bind_Ok in H as ([y q] & Hy & [= <- <-]).
  assert (p = addr) as ->; [|by eapply IH]. revert Hx. unfold getRteFlowAction.
  destruct (GetFlowActionType _); [|done]. destruct (fa_Conf a); [|naive_solver].
  rewrite (proj2 (String.eqb_neq _ _) Hne). intros H. apply outcome_bind_Ok in H as (any & _ & H).
  apply outcome_bind_Ok in H as (p' & Hp & [= _ <-]). destruct (String.eqb _ _); [|naive_solver].
  by apply outcome_bind_Ok in Hp as (obj & _ & [= <-]).
Qed.

Lemma starts_with_vf_address r l addr' :
  starts_with_vf r → getRteFlowActions (rule_Action r) "" = Ok (l, addr') →
  head (rule_Action r) = Some {| fa_Type := RTE_FLOW_ACTION_TYPE_VFPCIADDR; fa_Conf := Some (vf_addr_text addr') |}
  ∧ pci_MatchString addr' = true.
Proof.
  intros (addr & Hhead & Ha & Hm). destruct (rule_Action r) as [|a actions]; [done|]. injection Hhead as ->. cbn.
  intros H. apply outcome_bind_Ok in H as ([x p] & Hx & H). apply outcome_bind_Ok in H as ([y q] & Hy & [= <- <-]).
  assert (Hne : addr ≠ ""%string) by by intros ->.
  revert Hx. unfold getRteFlowAction. cbn [fa_Type fa_Conf]. change (GetFlowActionType _) with (Some RTE_FLOW_ACTION_TYPE_VF).
  intros H. apply outcome_bind_Ok in H as (any & _ & H). rewrite Unmarshal_vf_addr in H by done.
  change (String.eqb _ _) with true in H. cbn in H. injection H as _ <-.
  apply getRteFlowActions_keeps in Hy as ->; [|done]. done.
Qed.

Lemma deployable_translates r w :
  deployable r → ∃ req w', getFlowCreateRequests r w = (Ok req, w') ∧ requested r req.
Proof.
  intros (Hv & Hport & Hstart). apply FlowRules_validate_Ok in Hv as (Hpat & Hact & _ & _).
  apply validateFlowPatterns_Ok in Hpat as [Hpat _].
  destruct (collect_total getRteFlowItem (rule_Pattern r)) as [pattern Hp].
  { eapply Forall_impl; [exact Hpat|]. apply validated_item_translates. }
  destruct (accepted_actions_translate (vf_known _ _ ok) (pack_known _ _ ok) _ ""%string Hact) as [[action addr] Ha].
  destruct (starts_with_vf_address _ _ _ Hstart Ha) as [Hhead Hm].
  destruct (port_known _ _ ok _ Hm) as (pfName & id & Hpf & Hid).
  destruct (ListPorts_answers _ _ ok (outside w)) as [s' Hports].
  exists {| req_PortId := id; req_Attr := getRteFlowAttr <$> rule_Attr r; req_Pattern := pattern; req_Action := action |},
    {| flowSets := flowSets w; outside := s' |}. split.
  - unfold getFlowCreateRequests, getPortIdFromDCFPort, listDCFPorts, outside_call, wrapM, lift, mbind, M_bind, attempt.
    rewrite Hp, Ha, Hport. cbn. rewrite Hpf. cbn. rewrite Hports. cbn. fold (shown ports). by rewrite Hid.
  - split_and!; [done..|]. by exists addr, pfName.
Qed.

Lemma deployable_all_translate rules w :
  Forall deployable rules →
  ∃ reqs w', collectM getFlowCreateRequests rules w = (Ok reqs, w') ∧ Forall2 requested rules reqs.
Proof.
  intros Hall. revert w. induction Hall as [|r rules Hr _ IH]; intros w; [by eexists _, _|].
  destruct (deployable_translates r w Hr) as (req & w1 & E1 & Hreq).
  destruct (IH w1) as (reqs & w2 & E2 & Hreqs).
  exists (req :: reqs), w2. split; [|by constructor]. cbn. unfold mbind, M_bind. by rewrite E1, E2.
Qed.

Lemma destroys d (s : S) res s' : Destroy d s = (Ok res, s') → is_flow_error (flow_ErrorInfo res) = false.
Proof. intros E. destruct (Destroy_accepts _ _ ok d s) as (res' & s'' & E' & He). by rewrite E in E'; simplify_eq. Qed.

(** What a daemon that never lost track knows: besides foreign flows, its records name the
    flows of the device, each under the hash of its rule. *)
Definition tracking (foreign : gset (Z * Z)) w : Prop :=
  in_step foreign w ∧ keys_match (entries (flowSets w)).

(** The device holds the rules: one flow for each distinct request, besides foreign flows. *)
Definition installs (foreign : gset (Z * Z)) (rules : list FlowRules) w : Prop :=
  ∃ reqs, Forall2 requested rules reqs
    ∧ dom (entries (flowSets w)) = list_to_set (flow_key <$> reqs)
    ∧ holds reqs foreign (installed (outside w)).

Lemma tracking_Reconcile foreign req : preserves (tracking foreign) (NodeFlowConfig.Reconcile req).
Proof.
  intros w [H1 H2]. split; [by apply Reconcile_tracks_installed; [exact destroys|]|].
  apply (Reconcile_preserves keys_match); [|done]. apply towards_keys_match.
Qed.

Lemma syncRules_installs foreign policy w :
  tracking foreign w → Forall deployable (nfc_Rules (nfc_Spec policy)) →
  ∃ w', syncRules policy w = (Ok tt, w') ∧ installs foreign (nfc_Rules (nfc_Spec policy)) w'.
Proof.
  intros [Hstep Hkeys] Hall. destruct (deployable_all_translate _ w Hall) as (reqs & w1 & E & Hreqs).
  destruct (syncRules_total policy w reqs w1 E) as [w' E'];
    [apply (Validate_accepts _ _ ok)|apply (Create_accepts _ _ ok)| |].
  { intros d s. destruct (Destroy_accepts _ _ ok d s) as (res & s' & H & _). by exists res, s'. }
  pose proof (syncRules_ensures policy w) as H. unfold ensures in H. rewrite E' in H.
  destruct H as (reqs' & w2 & Ereqs & Hs). rewrite E in Ereqs. injection Ereqs as <- <-.
  exists w'. split; [done|]. exists reqs. split_and!; [done|by eapply synced_dom|].
  apply in_step_holds; [|by eapply towards_keys_match, Hkeys; eapply synced_towards|by eapply synced_dom].
  pose proof (syncRules_in_step destroys foreign policy w Hstep) as H. by rewrite E' in H.
Qed.

Lemma outside_call_tracking foreign {A} (m : M S A) :
  (∀ s, installed (m s).2 = installed s) → preserves (tracking foreign) (outside_call m).
Proof.
  intros Hm w [H1 H2]. split; [by apply outside_call_in_step|]. by rewrite (outside_call_cache m w).
Qed.

Hypothesis StatusUpdate_returns : ∀ c (s : S), (nfc_StatusUpdate c s).1 ≠ Panic.

Lemma syncFlowConfig_installs foreign policy w :
  tracking foreign w → Forall deployable (nfc_Rules (nfc_Spec policy)) →
  ∃ w', syncFlowConfig policy w = (Ok tt, w') ∧ installs foreign (nfc_Rules (nfc_Spec policy)) w'.
Proof.
  intros Ht Hall. destruct (ListPorts_answers _ _ ok (outside w)) as [s1 E].
  pose proof (outside_call_tracking foreign ListPorts ListPorts_installed w Ht) as Ht1.
  unfold outside_call in Ht1. rewrite E in Ht1. cbn [snd] in Ht1.
  unfold syncFlowConfig, listDCFPorts, mbind, M_bind, outside_call. rewrite E. cbn. fold (shown ports).
  destruct (decide _); [by apply syncRules_installs|].
  set (w1 := {| flowSets := flowSets w; outside := s1 |}) in *.
  pose proof (outside_call_tracking foreign _ (StatusUpdate_installed (set_PortInfo policy (shown ports))) w1 Ht1) as Ht2.
  pose proof (StatusUpdate_returns (set_PortInfo policy (shown ports)) s1) as Hnp.
  unfold updateStatus, mbind, M_bind, attempt. unfold outside_call in *. cbn [outside w1] in *.
  destruct (nfc_StatusUpdate _ _) as [[[]|e|] s2]; cbn in *; [| |done];
    apply (syncRules_installs foreign (set_PortInfo policy (shown ports)) _ Ht2 Hall).
Qed.

Lemma Reconcile_installs foreign req c s1 w :
  nfc_Get req (outside w) = (Ok c, s1) → tracking foreign w → Forall deployable (nfc_Rules (nfc_Spec c)) →
  ∃ w', NodeFlowConfig.Reconcile req w = (Ok tt, w') ∧ installs foreign (nfc_Rules (nfc_Spec c)) w'.
Proof.
  intros E Ht Hall. pose proof (outside_call_tracking foreign (nfc_Get req) (Get_installed req) w Ht) as Ht1.
  unfold NodeFlowConfig.Reconcile, mbind, M_bind, attempt. unfold outside_call in *. rewrite E in *. cbn in *.
  destruct (syncFlowConfig_installs foreign c _ Ht1 Hall) as (w' & -> & Hi). by exists w'.
Qed.
End node.

(** ** The API server the two sides share *)

(** What a daemon works on: the device of its node, and the API server. *)
Record Site (D : Type) `{!LabelSelectors} : Type := { device : D; server : Cluster }.
Arguments device {D _}.
Arguments server {D _}.

(** An update of the status changes nothing but the status. *)
Definition with_status (st : NodeFlowConfigStatus) (c : NodeFlowConfig) : NodeFlowConfig :=
  {| nfc_Name := nfc_Name c; nfc_Namespace := nfc_Namespace c; nfc_Spec := nfc_Spec c; nfc_Status := st |}.

Section site.
Context {D : Type} `{HL : !LabelSelectors} `{HF : !FlowServiceClient D}.

Definition on_device {A} (m : M D A) : M (Site D) A := λ s,
  let (o, d) := m (device s) in (o, {| device := d; server := server s |}).

#[export] Instance site_client : FlowServiceClient (Site D) := {|
  Validate req := on_device (Validate req);
  Create req := on_device (Create req);
  Destroy d := on_device (Destroy d);
  ListPorts := on_device ListPorts;
|}.

#[export] Instance site_api : NodeFlowConfigApi (Site D) := {|
  nfc_Get k s := match stored (server s) !! k with Some c => (Ok c, s) | None => not_found s end;
  nfc_StatusUpdate c s :=
    match stored (server s) !! node_key c with
    | Some _ => (Ok tt, {| device := device s;
                           server := set_stored (alter (with_status (nfc_Status c)) (node_key c)) (server s) |})
    | None => not_found s
    end;
|}.

Context `{HD : !DcfService D}.

#[export] Instance site_service : DcfService (Site D).
Proof.
  refine {| installed s := installed (device s) |}; cbn; unfold on_device.
  - intros req s. pose proof (Validate_installed req (device s)) as H. by destruct (Validate req (device s)).
  - intros s. pose proof (ListPorts_installed (device s)) as H. by destruct (ListPorts (device s)).
  - intros req s. pose proof (Create_installed req (device s)) as H. by destruct (Create req (device s)).
  - intros d s. pose proof (Destroy_installed d (device s)) as H. by destruct (Destroy d (device s)).
Defined.

#[export] Instance site_apart : ApiApart (Site D).
Proof. split; intros k s; cbn; by destruct (stored (server s) !! _). Qed.

Lemma site_healthy `{!AnyCodec, !SriovUtils} ports : healthy D ports → healthy (Site D) ports.
Proof.
  intros [Hvf Hport Hpack HP HVal HCre HDes]. split; [done..| | | |]; cbn; unfold on_device.
  - intros s. destruct (HP (device s)) as (d & ->). by eexists.
  - intros req s. destruct (HVal req (device s)) as (res & d & -> & He). by eexists _, _.
  - intros req s. destruct (HCre req (device s)) as (res & d & -> & He). by eexists _, _.
  - intros r s. destruct (HDes r (device s)) as (res & d & -> & He). by eexists _, _.
Qed.

(** The server as the daemon leaves it: it is another's but for the statuses. *)
Definition same_but_status (s s' : Cluster) : Prop :=
  configs s' = configs s ∧ pods s' = pods s ∧ named s'
  ∧ ∀ k, nfc_Spec <$> stored s' !! k = nfc_Spec <$> stored s !! k.

Lemma status_same s0 s k st : same_but_status s0 s → same_but_status s0 (set_stored (alter (with_status st) k) s).
Proof.
  intros (Hc & Hp & [Hn Hn'] & Hs). split_and!; [done|done|split; [|done]|]; cbn.
  - intros j c. destruct (decide (k = j)) as [<-|]; [|rewrite lookup_alter_ne by done; apply Hn].
    rewrite lookup_alter_eq. destruct (stored s !! k) as [c'|] eqn:E; [|done]. intros [= <-]. by apply (Hn k c').
  - intros j. rewrite <- Hs. destruct (decide (k = j)) as [<-|]; [|by rewrite lookup_alter_ne].
    rewrite lookup_alter_eq. by destruct (stored s !! k).
Qed.

Lemma on_device_same s0 {A} (m : M D A) : preserves (λ s, same_but_status s0 (server s)) (on_device m).
Proof. intros s Hs. unfold on_device. by destruct (m (device s)). Qed.

Lemma Reconcile_same `{!AnyCodec, !SriovUtils, !MapOrder} s0 req :
  preserves (λ w : NodeWorld (Site D), same_but_status s0 (server (outside w))) (NodeFlowConfig.Reconcile req).
Proof.
  apply (Reconcile_keeps (λ s, same_but_status s0 (server s))); intros; try apply on_device_same; intros s Hs; cbn.
  - by destruct (stored (server s) !! _).
  - destruct (stored (server s) !! _); [|done]. by apply status_same.
Qed.
End site.

(** ** The system *)

Record FlowSystem (D : Type) `{!LabelSelectors} : Type := {
  memory : gmap NamespacedName (gmap NamespacedName (list string));
  site : Site D;
  records : FlowSets;
}.
Arguments memory {D _}.
Arguments site {D _}.
Arguments records {D _}.

Section system.
Context {D : Type} `{HC : !AnyCodec} `{HCL : !AnyCodecLaws HC} `{HV : !SriovUtils} `{HF : !FlowServiceClient D} `{HD : !DcfService D}.
Context `{HL : !LabelSelectors} `{HN : !NetworkStatusJson} `{HO : !MapOrder}.
Implicit Types sys : FlowSystem D.

(** A reconciliation of the cluster controller, and one of the daemon. *)
Definition cluster_run (req : NamespacedName) : M (FlowSystem D) unit := λ sys,
  let (o, w) := Reconcile req {| Cluster2NodeRulesHashMap := memory sys; api := server (site sys) |} in
  (o, {| memory := Cluster2NodeRulesHashMap w; site := {| device := device (site sys); server := api w |};
         records := records sys |}).

Definition node_run (req : NamespacedName) : M (FlowSystem D) unit := λ sys,
  let (o, w) := NodeFlowConfig.Reconcile req {| flowSets := records sys; outside := site sys |} in
  (o, {| memory := memory sys; site := outside w; records := flowSets w |}).

(** A user deletes a resource. *)
Definition delete_resource (req : NamespacedName) : M (FlowSystem D) unit := modify (λ sys,
  {| memory := memory sys;
     site := {| device := device (site sys);
                server := {| configs := base.delete req (configs (server (site sys)));
                             stored := stored (server (site sys)); pods := pods (server (site sys)) |} |};
     records := records sys |}).

Definition daemon sys : NodeWorld (Site D) := {| flowSets := records sys; outside := site sys |}.

Variable ports : list PortsInformation.
Hypothesis ok : healthy D ports.

(** A resource the webhook lets through, whose rules all have an action. *)
Definition effective (c : ClusterFlowConfig) : Prop :=
  ClusterFlowConfig_ValidateCreate c = Ok tt ∧ ∀ rule, rule ∈ cfc_Rules (cfc_Spec c) → cr_Action rule ≠ [].

Lemma made_deployable pod c krs k r :
  effective c → addresses_ok pod → made pod c = Ok krs → (k, r) ∈ krs → deployable r.
Proof.
  intros [Hv Hne] Hok. unfold ClusterFlowConfig_ValidateCreate in Hv. rewrite outcome_bind_unit_Ok in Hv.
  destruct Hv as [Hv _]. rewrite range_check_Ok in Hv. unfold made. revert Hv Hne krs.
  generalize (cfc_Rules (cfc_Spec c)) as rules. induction rules as [|rule rules IH]; intros Hv Hne krs; cbn.
  { intros [= <-]. by intros ?%not_elem_of_nil. }
  intros H. apply outcome_bind_Ok in H as (kr & Hkr & H). apply outcome_bind_Ok in H as (krs' & Hkrs & [= <-]).
  intros [<-|Hin]%elem_of_cons.
  - apply outcome_bind_Ok in Hkr as (r' & Hr & Hkr). apply outcome_bind_Ok in Hkr as (k' & _ & [= -> ->]).
    destruct (newRule_accepted (pack_known _ _ ok 0) rule pod r (Hv 0%nat rule eq_refl) Hok Hr) as (H1 & H2 & H3).
    split_and!; [done|done|]. apply H3, Hne. by left.
  - eapply IH; [|intros rule' ?; apply Hne; by right|exact Hkrs|exact Hin]. intros j x Hx. by apply (Hv (S j) x).
Qed.

Lemma first_of_key_elem {A} seen (l : list (string * A)) a : a ∈ first_of_key seen l → ∃ k, (k, a) ∈ l.
Proof.
  revert seen. induction l as [|[k b] l IH]; intros seen; cbn; [by intros ?%not_elem_of_nil|].
  case_bool_decide.
  - intros [k' Hk]%IH. exists k'. by right.
  - intros [->|[k' Hk]%IH]%elem_of_cons; [exists k; by left|exists k'; by right].
Qed.

Lemma node_rules_deployable pod cs rules :
  Forall effective cs → addresses_ok pod → node_rules pod cs = Ok rules → Forall deployable rules.
Proof.
  intros Hcs Hok H. apply outcome_bind_Ok in H as (krss & Hk & [= <-]). apply Forall_forall.
  intros r [k Hin]%first_of_key_elem. revert krss Hk Hin.
  induction Hcs as [|c cs Hc _ IH]; intros krss; cbn; [intros [= <-]; by intros ?%not_elem_of_nil|].
  intros H. apply outcome_bind_Ok in H as (krs & Hkrs & H). apply outcome_bind_Ok in H as (krss' & Hk & [= <-]).
  cbn. intros [Hin|Hin]%elem_of_app; [by eapply made_deployable|by eapply IH].
Qed.

Lemma node_run_installs foreign k c sys :
  named (server (site sys)) → tracking foreign (daemon sys) →
  stored (server (site sys)) !! k = Some c → Forall deployable (nfc_Rules (nfc_Spec c)) →
  ∃ sys', node_run k sys = (Ok tt, sys') ∧ installs ports foreign (nfc_Rules (nfc_Spec c)) (daemon sys')
    ∧ tracking foreign (daemon sys') ∧ memory sys' = memory sys
    ∧ same_but_status (server (site sys)) (server (site sys')).
Proof.
  intros Hn Ht Hc Hall. pose proof (site_healthy ports ok) as Hok.
  destruct (Reconcile_installs ports Hok) with (foreign := foreign) (req := k) (c := c) (s1 := site sys) (w := daemon sys)
    as (w' & E & Hi); [|cbn; by rewrite Hc|done..|].
  { intros c' s. cbn. by destruct (stored (server s) !! _). }
  pose proof (tracking_Reconcile ports Hok foreign k _ Ht) as Ht'. rewrite E in Ht'.
  pose proof (Reconcile_same (server (site sys)) k (daemon sys)) as Hs. rewrite E in Hs.
  exists {| memory := memory sys; site := outside w'; records := flowSets w' |}. unfold node_run, daemon in *. rewrite E. cbn.
  destruct w' as [fs s']. split_and!; [done..|]. by apply Hs.
Qed.

Section deployment.
Variable foreign : gset (Z * Z).
Variable req : NamespacedName.
Variable instance : ClusterFlowConfig.
Variable selector : Selector.
Variable node : string.
Variable pod : Pod.
Notation k := (cfc_Namespace instance, node).
Notation selected sys := (siblings instance selector (server (site sys))).

(** The resource can be reconciled, its last pod on the node is [pod], and the daemon of the
    node has not lost track. *)
Record deployment sys : Prop := {
  dep_ready : ready req instance selector (server (site sys));
  dep_pod : last_pod node (pods (server (site sys)) (cfc_Namespace instance) selector) = Some pod;
  dep_addresses : addresses_ok pod;
  dep_effective : Forall effective (selected sys);
  dep_tracking : tracking foreign (daemon sys);
}.

Definition hashes_of sys : option (list string) := memory sys !! req ≫= (.!! k).

Lemma cluster_run_deploys sys :
  deployment sys →
  ∃ sys' krss own, cluster_run req sys = (Ok tt, sys') ∧ named (server (site sys'))
    ∧ collect (made pod) (selected sys) = Ok krss ∧ made pod instance = Ok own
    ∧ daemon sys' = {| flowSets := records sys; outside := {| device := device (site sys); server := server (site sys') |} |}
    ∧ hashes_of sys' = Some (keys_of own)
    ∧ ∃ c, stored (server (site sys')) !! k = Some c ∧ nfc_Rules (nfc_Spec c) = first_of_key ∅ (concat krss).
Proof.
  intros [Hr Hpod _ _ _].
  destruct (Reconcile_written req instance selector {| Cluster2NodeRulesHashMap := memory sys; api := server (site sys) |} Hr)
    as (w' & E & Hn & _ & _ & Hs & _).
  specialize (Hs node). cbn [api] in Hs. rewrite Hpod in Hs. destruct Hs as (krss & own & Hk & Hown & Hst & Hrem).
  unfold cluster_run. rewrite E. eexists _, krss, own. split_and!; [reflexivity|done..|]. by eexists.
Qed.

Lemma applied sys :
  deployment sys →
  ∃ sys' krss own, (cluster_run req;; node_run k) sys = (Ok tt, sys') ∧ named (server (site sys'))
    ∧ collect (made pod) (selected sys) = Ok krss ∧ made pod instance = Ok own
    ∧ installs ports foreign (first_of_key ∅ (concat krss)) (daemon sys') ∧ tracking foreign (daemon sys')
    ∧ hashes_of sys' = Some (keys_of own)
    ∧ Forall deployable (first_of_key ∅ (concat krss))
    ∧ ∃ c, stored (server (site sys')) !! k = Some c ∧ nfc_Rules (nfc_Spec c) = first_of_key ∅ (concat krss).
Proof.
  intros Hdep. destruct (cluster_run_deploys sys Hdep) as (sys1 & krss & own & E1 & Hn & Hk & Hown & Hd & Hrem & c & Hc & Hrules).
  destruct Hdep as [Hr _ Hok Heff Ht].
  assert (Hall : Forall deployable (first_of_key ∅ (concat krss))).
  { eapply node_rules_deployable; [exact Heff|exact Hok|]. unfold node_rules. by rewrite Hk. }
  assert (Ht1 : tracking foreign (daemon sys1)) by by rewrite Hd.
  destruct (node_run_installs foreign k c sys1 Hn Ht1 Hc) as (sys2 & E2 & Hi & Ht2 & Hm & _ & _ & Hn2 & Hs2);
    [by rewrite Hrules|].
  rewrite Hrules in Hi. exists sys2, krss, own. split_and!; try done.
  - unfold mbind, M_bind. by rewrite E1.
  - unfold hashes_of. by rewrite Hm.
  - specialize (Hs2 k). rewrite Hc in Hs2. destruct (stored (server (site sys2)) !! k) as [c'|]; [|done].
    exists c'. split; [done|]. injection Hs2 as ->. done.
Qed.


End deployment.
End system.

(** ** A rule without action

    The webhook accepts a cluster rule without actions. Its rule on the node names no
    virtual function, so no port is found for it, and nothing of the node's resource is
    synchronised any more. *)

Section without_action.
Context {S : Type} `{HC : !AnyCodec} `{HV : !SriovUtils} `{HF : !FlowServiceClient S} `{HG : !NodeFlowConfigApi S} `{HO : !MapOrder}.
Hypothesis no_pf : ∀ pfName, GetPfName "" ≠ Ok pfName.

Lemma no_action_fails r (w : NodeWorld S) :
  rule_Action r = [] → rule_PortId r = automaticPortId → ∀ req, (getFlowCreateRequests r w).1 ≠ Ok req.
Proof.
  intros Ha Hp req. unfold getFlowCreateRequests, getPortIdFromDCFPort, mbind, M_bind, lift.
  destruct (collect _ _); [|done..]. rewrite Ha, Hp. cbn.
  destruct (GetPfName "") as [pfName|e|] eqn:E; [by destruct (no_pf pfName)|done..].
Qed.

Lemma collectM_fails {W A B} (body : A → M W B) l x :
  x ∈ l → (∀ w y, (body x w).1 ≠ Ok y) → ∀ w ys, (collectM body l w).1 ≠ Ok ys.
Proof.
  intros Hin Hx. induction l as [|a l IH]; [by apply not_elem_of_nil in Hin|]. intros w ys. cbn. unfold mbind, M_bind.
  apply elem_of_cons in Hin as [<-|Hin].
  - specialize (Hx w). destruct (body x w) as [[y|e|] w']; [by destruct (Hx y)|done..].
  - destruct (body a w) as [[y|e|] w']; [|done..]. specialize (IH Hin w').
    destruct (collectM body l w') as [[ys'|e|] w'']; [by destruct (IH ys')|done..].
Qed.

Theorem rule_without_action_blocks_node policy r (w : NodeWorld S) :
  r ∈ nfc_Rules (nfc_Spec policy) → rule_Action r = [] → rule_PortId r = automaticPortId →
  (syncRules policy w).1 ≠ Ok tt ∧ flowSets (syncRules policy w).2 = flowSets w.
Proof.
  intros Hin Ha Hp. pose proof (collectM_fails getFlowCreateRequests _ r Hin (λ w, no_action_fails r w Ha Hp) w) as Hf.
  pose proof (collect_requests_cache (nfc_Rules (nfc_Spec policy)) w) as Hc.
  unfold syncRules, mbind, M_bind. destruct (collectM _ _ w) as [[reqs|e|] w']; [by destruct (Hf reqs)|by split..].
Qed.
End without_action.

(** ** An example *)

(** A flow service that accepts everything and numbers flows as they are free. *)
Definition open_client : FlowServiceClient (gset (Z * Z)) := {|
  Validate req s := (Ok {| flow_ErrorInfo := None |}, s);
  Create req s :=
    let id := fresh (set_map snd s : gset Z) in
    (Ok {| create_FlowId := id; create_ErrorInfo := None |}, {[ (req_PortId req, id) ]} ∪ s);
  Destroy d s := (Ok {| flow_ErrorInfo := None |}, s ∖ {[ (del_PortId d, del_FlowId d) ]});
  ListPorts s := (Ok {| Ports := [{| PortId := 5; PortPci := "0000:18:01.0"; PortMode := "dcf" |}] |}, s);
|}.

Definition open_service : @DcfService (gset (Z * Z)) open_client.
Proof.
  refine {| installed := id |}; [done..| |done]. intros req s. cbn. split; [|done].
  intros Hin. apply (is_fresh (set_map snd s : gset Z)), elem_of_map. eexists. by split; [|exact Hin].
Defined.

#[local] Existing Instances any_selector one_network listed_order all_vfs open_client open_service.

Definition open_ports : list PortsInformation := [{| PortId := 5; PortPci := "0000:18:01.0"; PortMode := "dcf" |}].

Lemma open_healthy : healthy (gset (Z * Z)) open_ports.
Proof. split; intros; [by exists 7; split; [|lia]|by do 2 eexists..]. Qed.

(** The system before the first reconciliation, with a flow of another client on the device. *)
Definition fresh_system : FlowSystem (gset (Z * Z)) := {|
  memory := ∅; site := {| device := {[ (1, 3) ]}; server := api two_configs |}; records := NewFlowSets
|}.

Lemma one_network_addresses text : is_ascii text = true → pci_MatchString text = true → addresses_ok (a_pod (Some text)).
Proof.
  intros Ha Hm text' networks n info addr Htext [= <-] Hin Hi Hp _. vm_compute in Htext. injection Htext as <-.
  apply list_elem_of_singleton in Hin as ->. injection Hi as <-. injection Hp as <-. by split.
Qed.

Lemma a_config_effective : effective a_config.
Proof. split; [vm_compute; reflexivity|]. by intros rule ->%list_elem_of_singleton. Qed.

Lemma second_config_effective : effective second_config.
Proof. split; [vm_compute; reflexivity|]. by intros rule [->| ->%list_elem_of_singleton]%elem_of_cons. Qed.

Lemma fresh_deployment :
  deployment {[ (1, 3) ]} ("ns", "cfc")%string a_config selects_all "node" running_pod fresh_system.
Proof.
  split; [exact two_configs_ready|reflexivity|by apply one_network_addresses| |].
  - apply Forall_forall. intros c [[j Hc] _]%elem_of_siblings. cbn in Hc.
    apply lookup_insert_Some in Hc as [[_ <-]|[_ [_ <-]%lookup_singleton_Some]];
      [apply a_config_effective|apply second_config_effective].
  - split; [split|]; cbn; rewrite ?entries_New, ?difference_diag_L; [done| |by intros k r ?%lookup_empty_Some].
    split; [|by intros k1 k2 r1 r2 ?%lookup_empty_Some]. intros p. split; [set_solver|]. by intros (k & r & ?%lookup_empty_Some & _).
Qed.



(** With one resource whose only rule has no action, the daemon reports an error and creates
    nothing, although the webhook let the rule through. *)
Lemma rule_without_action_blocks_node_witness :
  let _ := {| GetPfName pci := if String.eqb pci "" then Err (Errorf "no PF") else Ok "ens1"%string; GetVFID _ := Ok 7 |} in
  let _ := site_client (HL := any_selector) (HF := open_client) in
  let _ := site_api (D := gset (Z * Z)) (HL := any_selector) in
  let rule := {| cr_Attr := Some example_attr; cr_Pattern := [end_item]; cr_Action := [] |} in
  ∃ r, ClusterFlowRule_validate rule = Ok tt ∧ newRule running_pod rule = Ok r
    ∧ (syncRules (set_Rules empty_node [example_rule; r]) (daemon fresh_system)).1 ≠ Ok tt.
Proof.
  intros v fc ga rule. eexists. split_and!; [vm_compute; reflexivity|reflexivity|].
  eapply rule_without_action_blocks_node; [done|by right; left|reflexivity|reflexivity].
Defined.
