(* ===== verification/RuleMemory.v ===== *)
(** * The rules of the cluster controller in memory

    The part of [updateNodeFlowConfigSpec] and [getNodeActionsFromClusterActions] of
    controllers/flowconfig/clusterflowconfig_controller.go that makes a rule of a node from
    a cluster rule, with its pointers: the pattern is copied, the attributes and the
    configurations of actions are shared. [ClusterFlowConfig.newRule] is the same on values. *)

From S2P Require Import Prelude GoStrings GoJson FlowEnums FlowItems FlowTypes Heap MetaTypes FlowCopies NodeFlowConfig ClusterFlowConfig ClusterFlowConfigSpec.

Local Open Scope Z_scope.

Section memory.
Context `{!MetaTypes} `{!NetworkStatusJson}.

(** [*p]; nil panics. *)
Definition deref {T} `{Countable T} (p : ptr T) : M heap T :=
  match addr p with None => panic | Some l => load l end.

(** Reading all that a value stands for. *)
Definition read {T X} `{!DeepCopy T X} (v : T) : M heap X := λ h,
  match view h v with Some x => (Ok x, h) | None => (Panic, h) end.

Definition address {T} (l : loc) : ptr T := Ptr (Some l).

(** [&runtime.RawExtension{Raw: rawBytes}], and nil. *)
Definition new_raw (conf : option string) : M heap (ptr RawExtension_mem) :=
  match conf with
  | None => mret (Ptr None)
  | Some rawBytes => r ← RawExtension_of rawBytes; l ← new r; mret (address l)
  end.

Definition new_action (type : string) (conf : ptr RawExtension_mem) : M heap (ptr FlowAction_mem) :=
  l ← new {| mfa_Type := type; mfa_Conf := conf |}; mret (address l).

(** The configuration is read, and a new one made. *)
Definition getNodeActionForPodInterface_mem (conf : ptr RawExtension_mem) (pod : Pod) : M heap (ptr FlowAction_mem) :=
  conf ← read conf;
  flowAction ← lift (getNodeActionForPodInterface conf pod);
  raw ← new_raw (fa_Conf flowAction);
  new_action (fa_Type flowAction) raw.

(** Any other action has the configuration of the cluster action, by its pointer. *)
Definition getNodeAction_mem (pod : Pod) (act : ptr ClusterFlowAction_mem) : M heap (ptr FlowAction_mem) :=
  act ← deref act;
  if String.eqb (ClusterFlowActionType_String (mca_Type act)) (ClusterFlowActionToString ToPodInterface)
  then getNodeActionForPodInterface_mem (mca_Conf act) pod
  else new_action (find_name RteFlowActionType_name (int32 (mca_Type act))) (mca_Conf act).

(** [for _, x := range s] *)
Definition range_slice {T} `{Countable T} (s : slice T) : M heap (list T) :=
  match backing s with
  | None => mret []
  | Some s => λ h, match elements h s with Some l => (Ok l, h) | None => (Panic, h) end
  end.

Definition new_slice {T} `{Countable T} (l : list T) : M heap (slice T) :=
  a ← new l; mret (Slice (Some (a, 0%nat, length l))).

Definition getNodeActionsFromClusterActions_mem (actions : slice (ptr ClusterFlowAction_mem)) (pod : Pod) :
    M heap (slice (ptr FlowAction_mem)) :=
  acts ← range_slice actions;
  nodeActions ← collectM (getNodeAction_mem pod) acts;
  if (0 <? length nodeActions)%nat
  then
    end_ ← new_action (RteFlowActionType_String RTE_FLOW_ACTION_TYPE_END) (Ptr None);
    new_slice (nodeActions ++ [end_])
  else new_slice nodeActions.

(** [rule.DeepCopy().Pattern] dereferences the copy, and [rule.Attr] the rule. *)
Definition newRule_mem (pod : Pod) (rule : ptr ClusterFlowRule_mem) : M heap (ptr FlowRules_mem) :=
  copy ← ClusterFlowRule_DeepCopy rule;
  copy ← deref copy;
  rule ← deref rule;
  actions ← getNodeActionsFromClusterActions_mem (mcr_Action rule) pod;
  l ← new {| mfr_PortId := automaticPortId; mfr_Attr := mcr_Attr rule;
             mfr_Pattern := mcr_Pattern copy; mfr_Action := actions |};
  mret (address l).

(** ** The values *)

Definition FlowItem_of (v : FlowItem_val) : FlowItem :=
  {| fi_Type := mfi_Type v; fi_Spec := mfi_Spec v; fi_Last := mfi_Last v; fi_Mask := mfi_Mask v |}.

Definition FlowAction_of (v : FlowAction_val) : FlowAction :=
  {| fa_Type := mfa_Type v; fa_Conf := mfa_Conf v |}.

Definition ClusterFlowAction_of (v : ClusterFlowAction_val) : ClusterFlowAction :=
  {| cfa_Type := mca_Type v; cfa_Conf := mca_Conf v |}.

(** A list without nil elements; a nil slice is an empty list. *)
Definition elements_of {A B} (f : A → B) (l : option (list (option A))) : option (list B) :=
  mapM (fmap f) (default [] l).

Definition FlowRules_of (v : FlowRules_val) : option FlowRules :=
  pattern ← elements_of FlowItem_of (mfr_Pattern v);
  action ← elements_of FlowAction_of (mfr_Action v);
  Some {| rule_PortId := mfr_PortId v; rule_Attr := mfr_Attr v; rule_Pattern := pattern; rule_Action := action |}.

Definition ClusterFlowRule_of (v : ClusterFlowRule_val) : option ClusterFlowRule :=
  pattern ← elements_of FlowItem_of (mcr_Pattern v);
  action ← elements_of ClusterFlowAction_of (mcr_Action v);
  Some {| cr_Attr := mcr_Attr v; cr_Pattern := pattern; cr_Action := action |}.
End memory.

(** ** Memory against values *)

(** [m] does what [o] says: it returns something that stands for the value, or ends in the
    same way; the cells there were are not changed. *)
Definition mirrors {T Y} (R : heap → T → Y → Prop) (m : M heap T) (o : outcome Y) (h : heap) : Prop :=
  ∃ h', h ⊆ h' ∧ match o with
                 | Ok y => ∃ v, m h = (Ok v, h') ∧ R h' v y
                 | Err e => m h = (Err e, h')
                 | Panic => m h = (Panic, h')
                 end.

Lemma mirrors_ret {T Y} (R : heap → T → Y → Prop) v y h : R h v y → mirrors R (mret v) (Ok y) h.
Proof. intros HR. exists h. split; [done|]. by exists v. Qed.

Lemma mirrors_bind {T Y U Z} R (R' : heap → U → Z → Prop) (m : M heap T) (o : outcome Y) k k' h :
  mirrors R m o h → (∀ v y h', h ⊆ h' → R h' v y → mirrors R' (k v) (k' y) h') →
  mirrors R' (m ≫= k) (o ≫= k') h.
Proof.
  intros (h' & Hs & Hm) Hk. destruct o as [y|e|].
  - destruct Hm as (v & E & Hv). destruct (Hk v y h' Hs Hv) as (h'' & Hs' & Ho).
    exists h''. split; [by etrans|]. change (Ok y ≫= k') with (k' y).
    assert (Em : (m ≫= k) h = k v h') by (unfold mbind, M_bind; by rewrite E). by rewrite Em.
  - exists h'. split; [done|]. unfold mbind, M_bind. by rewrite Hm.
  - exists h'. split; [done|]. unfold mbind, M_bind. by rewrite Hm.
Qed.

(** A step of the code in memory that has no counterpart on values. *)
Lemma mirrors_step {T U Z} (R : heap → U → Z → Prop) (m : M heap T) k (o : outcome Z) h v h' :
  m h = (Ok v, h') → h ⊆ h' → mirrors R (k v) o h' → mirrors R (m ≫= k) o h.
Proof.
  intros E Hs (h'' & Hs' & Ho). exists h''. split; [by etrans|].
  assert (Em : (m ≫= k) h = k v h') by (unfold mbind, M_bind; by rewrite E). by rewrite Em.
Qed.

Lemma mirrors_more {T Y U} R (R' : heap → U → Y → Prop) (m : M heap T) (o : outcome Y) k h :
  mirrors R m o h → (∀ v y h', o = Ok y → h ⊆ h' → R h' v y → mirrors R' (k v) o h') →
  mirrors R' (m ≫= k) o h.
Proof.
  intros (h' & Hs & Hm) Hk. destruct o as [y|e|].
  - destruct Hm as (v & E & Hv). by eapply mirrors_step, Hk.
  - exists h'. split; [done|]. unfold mbind, M_bind. by rewrite Hm.
  - exists h'. split; [done|]. unfold mbind, M_bind. by rewrite Hm.
Qed.

Lemma mirrors_lift {Y} (o : outcome Y) h : mirrors (λ _ v y, v = y) (lift o) o h.
Proof. exists h. split; [done|]. destruct o; [by eexists|done..]. Qed.

Lemma mirrors_collect {A B T Y} (R : heap → T → Y → Prop) (f : A → M heap T) (g : B → outcome Y) l l' h :
  (∀ h h' v y, h ⊆ h' → R h v y → R h' v y) →
  Forall2 (λ a b, ∀ h', h ⊆ h' → mirrors R (f a) (g b) h') l l' →
  mirrors (λ h', Forall2 (R h')) (collectM f l) (collect g l') h.
Proof.
  intros HR Hl. assert (Hg : ∀ h', h ⊆ h' → mirrors (λ h', Forall2 (R h')) (collectM f l) (collect g l') h');
    [|by apply Hg].
  induction Hl as [|a b l l' Hab _ IH]; intros h' Hs; cbn; [by apply mirrors_ret|].
  eapply mirrors_bind; [by apply Hab|]. intros v y h1 Hs1 Hv.
  eapply mirrors_bind; [apply IH; by etrans|]. intros vs ys h2 Hs2 Hvs.
  apply mirrors_ret. constructor; [by eapply HR|done].
Qed.

Section mirror.
Context `{!MetaTypes, HL : !MetaTypesLaws} `{!NetworkStatusJson}.

Definition action_at (h : heap) (p : ptr FlowAction_mem) (a : FlowAction) : Prop :=
  ∃ v, view h p = Some (Some v) ∧ FlowAction_of v = a.

Lemma action_at_mono h h' p a : h ⊆ h' → action_at h p a → action_at h' p a.
Proof. intros Hs (v & Hv & E). exists v. split; [by eapply view_mono|done]. Qed.

Lemma new_action_mirrors type (conf : option string) raw h :
  view h raw = Some conf →
  mirrors action_at (new_action type raw) (Ok {| fa_Type := type; fa_Conf := conf |}) h.
Proof.
  intros Hraw. unfold new_action.
  destruct (new_get {| mfa_Type := type; mfa_Conf := raw |} h) as (l & h' & E & Hs & Hl).
  eapply mirrors_step; [exact E|done|]. apply mirrors_ret.
  exists {| mfa_Type := type; mfa_Conf := conf |}. split; [|done].
  eapply view_ptr_Some; [exact Hl|]. change (FlowAction_view h' {| mfa_Type := type; mfa_Conf := raw |} =
    Some {| mfa_Type := type; mfa_Conf := conf |}).
  unfold FlowAction_view. cbn. by rewrite (view_mono _ _ _ _ Hs Hraw).
Qed.

Lemma new_raw_view (conf : option string) h :
  ∃ r h', new_raw conf h = (Ok r, h') ∧ h ⊆ h' ∧ view h' r = Some conf.
Proof.
  destruct conf as [text|]; [|by exists (Ptr None), h]. unfold new_raw, mbind, M_bind.
  destruct (RawExtension_of_view text h) as (r & h1 & -> & Hs1 & Hv).
  destruct (new_get r h1) as (l & h2 & E & Hs2 & Hl).
  rewrite E. eexists _, _. split_and!; [reflexivity|by etrans|].
  eapply view_ptr_Some; [exact Hl|by eapply view_mono].
Qed.

(** The struct at a pointer, from what the pointer stands for. *)
Lemma deref_view {T X} `{!EqDecision T, !Countable T} `{!DeepCopy T X} (p : ptr T) h (x : X) :
  view h p = Some (Some x) → ∃ v, deref p h = (Ok v, h) ∧ view h v = Some x.
Proof.
  intros (l & v & -> & Hl & Hv)%view_ptr_inv. exists v. unfold deref, load. cbn. by rewrite Hl.
Qed.

Lemma read_view {T X} `{!DeepCopy T X} (v : T) h (x : X) : view h v = Some x → read v h = (Ok x, h).
Proof. intros Hv. unfold read. by rewrite Hv. Qed.

Lemma ClusterFlowAction_fields h (m : ClusterFlowAction_mem) v :
  view h m = Some v → mca_Type v = mca_Type m ∧ view h (mca_Conf m) = Some (mca_Conf v).
Proof. intros (c & Hc & [= <-])%bind_Some. done. Qed.

Lemma getNodeAction_mirrors pod h act v :
  view h act = Some (Some v) →
  mirrors action_at (getNodeAction_mem pod act) (getNodeAction (ClusterFlowAction_of v) pod) h.
Proof.
  intros (m & E & [Ht Hc]%ClusterFlowAction_fields)%deref_view.
  eapply mirrors_step; [exact E|done|]. unfold getNodeAction. cbn [cfa_Type cfa_Conf ClusterFlowAction_of].
  rewrite Ht. case_match.
  - unfold getNodeActionForPodInterface_mem.
    eapply mirrors_step; [by apply read_view|done|].
    eapply mirrors_more; [apply mirrors_lift|]. intros ? a h' -> Hs ->.
    destruct (new_raw_view (fa_Conf a) h') as (raw & h'' & E' & Hs' & Hraw).
    eapply mirrors_step; [exact E'|done|]. destruct a as [type conf]. by apply new_action_mirrors.
  - by apply new_action_mirrors.
Qed.

(** ** Slices of pointers without nil *)

Lemma elements_Forall2 {A B} (f : A → B) xs ys :
  mapM (fmap f) xs = Some ys ↔ Forall2 (λ x y, ∃ v, x = Some v ∧ f v = y) xs ys.
Proof.
  rewrite mapM_Some. split; intros Hxs; eapply Forall2_impl; try exact Hxs; intros [v|] y; cbn.
  - intros [= <-]. eauto.
  - done.
  - by intros (? & [= <-] & <-).
  - by intros (? & [=] & _).
Qed.

Definition actions_at (h : heap) (s : slice (ptr FlowAction_mem)) (l : list FlowAction) : Prop :=
  ∃ xs, view h s = Some (Some xs) ∧ elements_of FlowAction_of (Some xs) = Some l.

Lemma actions_at_new h a ps l :
  get h a = Some ps → Forall2 (action_at h) ps l → actions_at h (Slice (Some (a, 0%nat, length ps))) l.
Proof.
  intros Ha Hps. assert (Hxs : ∃ xs, mapM (view h) ps = Some xs ∧ elements_of FlowAction_of (Some xs) = Some l).
  { clear Ha. induction Hps as [|p y ps l (v & Hv & Hy) _ (xs & Hxs & Hl)]; [by exists []|].
    exists (Some v :: xs). unfold elements_of in *. cbn in *. by rewrite Hv, Hxs, Hl, Hy. }
  destruct Hxs as (xs & Hxs & Hl). exists xs. split; [by apply new_slice_view|done].
Qed.

Lemma new_slice_mirrors ps l h :
  Forall2 (action_at h) ps l → mirrors actions_at (new_slice ps) (Ok l) h.
Proof.
  intros Hps. unfold new_slice. destruct (new_get ps h) as (a & h' & E & Hs & Ha).
  eapply mirrors_step; [exact E|done|]. apply mirrors_ret, actions_at_new; [done|].
  eapply Forall2_impl; [exact Hps|]. intros p y. by apply action_at_mono.
Qed.

Lemma range_slice_view {T X} `{!EqDecision T, !Countable T} `{!DeepCopy T X} (s : slice T) h (x : option (list X)) :
  view h s = Some x → ∃ vs, range_slice s h = (Ok vs, h) ∧ mapM (view h) vs = Some (default [] x).
Proof.
  destruct s as [[a|]]; [|intros [= <-]; by exists []].
  intros (vs & Hvs & (xs & Hxs & [= <-])%bind_Some)%bind_Some. exists vs. cbn -[elements]. by rewrite Hvs.
Qed.

Lemma getNodeActions_mirrors pod h s vs acts :
  view h s = Some vs → elements_of ClusterFlowAction_of vs = Some acts →
  mirrors actions_at (getNodeActionsFromClusterActions_mem s pod) (getNodeActionsFromClusterActions acts pod) h.
Proof.
  intros (ps & E & Hps)%range_slice_view Hacts. eapply mirrors_step; [exact E|done|].
  eapply mirrors_bind.
  - apply (mirrors_collect action_at (getNodeAction_mem pod) (λ act, getNodeAction act pod)).
    { intros. by eapply action_at_mono. }
    apply mapM_Some in Hps. apply elements_Forall2 in Hacts. clear E. revert acts Hacts.
    induction Hps as [|p x ps xs Hp _ IH]; intros acts; inversion 1 as [|? y ? ys (v & -> & <-) Hys]; subst;
      constructor; [|by apply IH].
    intros h' Hs. apply getNodeAction_mirrors. by eapply view_mono.
  - intros nodeActions l h' Hs Hl. rewrite (Forall2_length _ _ _ Hl). case_match; [|by apply new_slice_mirrors].
    destruct (new_action_mirrors (RteFlowActionType_String RTE_FLOW_ACTION_TYPE_END) None (Ptr None) h' eq_refl)
      as (h'' & Hs' & end_ & E' & Hend). eapply mirrors_step; [exact E'|done|].
    apply new_slice_mirrors, Forall2_app.
    + eapply Forall2_impl; [exact Hl|]. intros ??. by apply action_at_mono.
    + by constructor; [|constructor].
Qed.

(** ** A rule of a node *)

(** The pointer [p] leads to a rule that reads as [r]; its attributes are those of the
    cluster rule [rule] in [h], by the same pointer, and its pattern reads as [pattern]
    from cells that [h] does not have. *)
Definition rule_made (h : heap) (rule : ClusterFlowRule_mem) (pattern : option (list (option FlowItem_val)))
    (h' : heap) (p : ptr FlowRules_mem) (r : FlowRules) : Prop :=
  ∃ m x, deref p h' = (Ok m, h') ∧ view h' p = Some (Some x) ∧ FlowRules_of x = Some r
         ∧ mfr_Attr m = mcr_Attr rule ∧ view (h' ∖ h) (mfr_Pattern m) = Some pattern.

Lemma ClusterFlowRule_fields h (m : ClusterFlowRule_mem) v :
  view h m = Some v →
  view h (mcr_Attr m) = Some (mcr_Attr v) ∧ view h (mcr_Pattern m) = Some (mcr_Pattern v)
  ∧ view h (mcr_Action m) = Some (mcr_Action v).
Proof. intros (a & Ha & (p & Hp & (c & Hc & [= <-])%bind_Some)%bind_Some)%bind_Some. done. Qed.

Lemma deref_mono {T X} `{!EqDecision T, !Countable T} `{!DeepCopy T X} (p : ptr T) h h' (m : T) :
  h ⊆ h' → deref p h = (Ok m, h) → deref p h' = (Ok m, h').
Proof.
  destruct p as [[l|]]; [|done]. unfold deref, load. cbn. intros Hs. destruct (get h l) eqn:E; [|done].
  intros [= ->]. by rewrite (get_mono _ _ _ _ Hs E).
Qed.

(** C11 The rule that is made of a cluster rule in memory stands for the one the values give,
    and the code ends with the same error or panic when there is none; no cell is changed,
    so the cluster rule stays what it is. The pattern of the new rule shares nothing with
    the cluster rule, its attributes are shared. *)
Theorem newRule_in_memory pod h rule v r :
  view h rule = Some (Some v) → ClusterFlowRule_of v = Some r →
  ∃ m, deref rule h = (Ok m, h) ∧
    mirrors (rule_made h m (mcr_Pattern v)) (newRule_mem pod rule) (newRule pod r) h.
Proof.
  intros Hrule (pattern & Hpat & (acts & Hacts & [= <-])%bind_Some)%bind_Some.
  destruct (deref_view rule h v Hrule) as (m & Em & Hm). exists m. split; [done|].
  pose proof (ClusterFlowRule_fields _ _ _ Hm) as (Hattr & _ & Hact).
  destruct (copy_ptr_isolated h rule (Some v) Hrule) as (q & h1 & Eq & Hq & _ & Hs1).
  destruct (deref_view q (h1 ∖ h) v) as (c & Ec & Hc); [by apply Hq|].
  assert (Hd : h1 ∖ h ⊆ h1) by apply map_subseteq_difference_l, reflexivity.
  unfold newRule_mem. eapply mirrors_step; [exact Eq|done|].
  eapply mirrors_step; [by eapply (deref_mono q (h1 ∖ h) h1)|done|].
  eapply mirrors_step; [by eapply (deref_mono rule h h1)|done|].
  eapply mirrors_bind; [eapply getNodeActions_mirrors; [exact (view_mono _ _ _ _ Hs1 Hact)|exact Hacts]|].
  intros actions nodeActions h2 Hs2 (xs & Hxs & Hl).
  set (made := {| mfr_PortId := automaticPortId; mfr_Attr := mcr_Attr m; mfr_Pattern := mcr_Pattern c;
    mfr_Action := actions |}).
  destruct (new_get made h2) as (l & h3 & E3 & Hs3 & Hl3).
  eapply mirrors_step; [exact E3|done|]. apply mirrors_ret.
  assert (Hs : h1 ⊆ h3) by by etrans.
  pose proof (ClusterFlowRule_fields _ _ _ Hc) as (_ & Hcp & _).
  exists made, {| mfr_PortId := automaticPortId; mfr_Attr := mcr_Attr v; mfr_Pattern := mcr_Pattern v;
    mfr_Action := Some xs |}. split_and!; [| | |reflexivity|].
  - unfold deref, load. cbn. by rewrite Hl3.
  - eapply view_ptr_Some; [exact Hl3|].
    apply bind_Some. exists (mcr_Attr v). split; [eapply view_mono; [|exact Hattr]; by etrans|].
    apply bind_Some. exists (mcr_Pattern v). split; [eapply view_mono; [|exact Hcp]; by etrans|].
    apply bind_Some. exists (Some xs). split; [exact (view_mono _ _ _ _ Hs3 Hxs)|done].
  - apply bind_Some. exists pattern. split; [exact Hpat|]. apply bind_Some. by exists nodeActions.
  - eapply view_mono; [|exact Hcp]. by apply difference_mono.
Qed.
End mirror.

(** ** An example *)

#[local] Existing Instance plain_meta.
#[local] Existing Instance one_network.

(** A cluster rule with an attribute, an item and an action to a pod interface. *)
Definition build_rule : M heap (ptr ClusterFlowRule_mem) :=
  attr ← new {| attr_Group := 0; attr_Priority := 1; attr_Ingress := 1; attr_Egress := 0;
                attr_Transfer := 0; attr_Reserved := 0 |};
  spec ← new_raw (Some "{}"%string);
  item ← new ({| mfi_Type := "RTE_FLOW_ITEM_TYPE_ETH"; mfi_Spec := spec; mfi_Last := Ptr None;
                 mfi_Mask := spec |} : FlowItem_mem);
  pattern ← new_slice [address item : ptr FlowItem_mem];
  conf ← new_raw (Some (json_text "{'podInterface':'net1'}"));
  act ← new ({| mca_Type := ToPodInterface; mca_Conf := conf |} : ClusterFlowAction_mem);
  actions ← new_slice [address act : ptr ClusterFlowAction_mem];
  rule ← new ({| mcr_Attr := address attr; mcr_Pattern := pattern; mcr_Action := actions |} : ClusterFlowRule_mem);
  mret (address rule).

Definition built : outcome (ptr ClusterFlowRule_mem) * heap := build_rule ∅.

Definition built_value : ClusterFlowRule_val :=
  {| mcr_Attr := Some {| attr_Group := 0; attr_Priority := 1; attr_Ingress := 1; attr_Egress := 0;
                         attr_Transfer := 0; attr_Reserved := 0 |};
     mcr_Pattern := Some [Some {| mfi_Type := "RTE_FLOW_ITEM_TYPE_ETH"%string; mfi_Spec := Some "{}"%string;
                                  mfi_Last := None; mfi_Mask := Some "{}"%string |}];
     mcr_Action := Some [Some {| mca_Type := ToPodInterface; mca_Conf := Some (json_text "{'podInterface':'net1'}") |}] |}.

Lemma newRule_in_memory_witness :
  ∃ rule m q h' r, built.1 = Ok rule ∧ deref rule built.2 = (Ok m, built.2)
    ∧ newRule_mem (a_pod (Some "0000:18:01.7"%string)) rule built.2 = (Ok q, h')
    ∧ rule_made built.2 m (mcr_Pattern built_value) h' q r ∧ length (rule_Action r) = 2%nat.
Proof.
  assert (Hlaws : MetaTypesLaws) by exact plain_laws.
  assert (Hr : ∃ r, ClusterFlowRule_of built_value = Some r) by (eexists; vm_compute; reflexivity).
  destruct Hr as [r Hr].
  destruct (newRule_in_memory (a_pod (Some "0000:18:01.7"%string)) built.2 (address 10) built_value r)
    as (m & Hm & h' & _ & Hmade); [vm_compute; reflexivity|exact Hr|].
  exists (address 10), m. vm_compute in Hr. injection Hr as <-.
  destruct (newRule _ _) as [y|e|] eqn:E; vm_compute in E; [|discriminate E..].
  destruct Hmade as (q & Hq & Hmade). exists q, h', y. split; [vm_compute; reflexivity|].
  split_and!; [exact Hm|exact Hq|exact Hmade|]. by injection E as <-.
Defined.
