(* ===== verification/EthernetTypes.v ===== *)
(** * The custom resources of the firmware and DDP management

    apis/ethernet/v1: cluster-wide configurations, the per-node configuration they are
    merged into, and the inventory of devices in its status. *)

From S2P Require Import Prelude GoStrings.

Local Open Scope Z_scope.

(** ** ethernetclusterconfig_types.go *)

Record DeviceSelector : Set := { sel_VendorID : string; sel_DeviceID : string; sel_PCIAddress : string }.

Record DeviceConfig : Set := {
  DDPURL : string; DDPChecksum : string; FWURL : string; FWChecksum : string; FWUpdateParam : string
}.

Record EthernetClusterConfigSpec : Set := {
  NodeSelector : gmap string string;
  ecc_DeviceSelector : DeviceSelector;
  ecc_DeviceConfig : DeviceConfig;
  Priority : Z
}.

(** The creation time is in nanoseconds. *)
Record EthernetClusterConfig : Set := {
  ecc_Name : string;
  CreationTimestamp : Z;
  ecc_Spec : EthernetClusterConfigSpec
}.

(** ** ethernetnodeconfig_types.go *)

Record DeviceNodeConfig : Set := { dnc_PCIAddress : string; dnc_DeviceConfig : DeviceConfig }.

Record EthernetNodeConfigSpec : Set := { Config : list DeviceNodeConfig; DrainSkip : bool }.

Record FirmwareInfo : Set := { MAC : string; fw_Version : string }.

Record DDPInfo : Set := { PackageName : string; ddp_Version : string; TrackID : string }.

Record Device : Set := {
  VendorID : string; DeviceID : string; PCIAddress : string; dev_Name : string;
  Driver : string; DriverVersion : string; Firmware : FirmwareInfo; DDP : DDPInfo
}.

(** What the code sets and reads of a [metav1.Condition]. *)
Record Condition : Set := {
  cond_Type : string; cond_Status : bool; cond_Reason : string; cond_Message : string;
  ObservedGeneration : Z
}.

Record EthernetNodeConfigStatus : Set := { Conditions : list Condition; Devices : list Device }.

Record EthernetNodeConfig : Set := {
  enc_Name : string;
  enc_Namespace : string;
  enc_Generation : Z;
  enc_Spec : EthernetNodeConfigSpec;
  enc_Status : EthernetNodeConfigStatus
}.

#[export] Instance DeviceConfig_eq_dec : EqDecision DeviceConfig.
Proof. solve_decision. Defined.
#[export] Instance DeviceNodeConfig_eq_dec : EqDecision DeviceNodeConfig.
Proof. solve_decision. Defined.
#[export] Instance EthernetNodeConfigSpec_eq_dec : EqDecision EthernetNodeConfigSpec.
Proof. solve_decision. Defined.

Definition empty_DeviceConfig : DeviceConfig :=
  {| DDPURL := ""; DDPChecksum := ""; FWURL := ""; FWChecksum := ""; FWUpdateParam := "" |}.

Definition empty_EthernetNodeConfigSpec : EthernetNodeConfigSpec := {| Config := []; DrainSkip := false |}.

(** ** helper.go *)

Definition Matches (ds : DeviceSelector) (d : Device) : bool :=
  if negb (String.eqb (sel_VendorID ds) "") && negb (String.eqb (sel_VendorID ds) (VendorID d)) then false
  else if negb (String.eqb (sel_PCIAddress ds) "") && negb (String.eqb (sel_PCIAddress ds) (PCIAddress d)) then false
  else if negb (String.eqb (sel_DeviceID ds) "") && negb (String.eqb (sel_DeviceID ds) (DeviceID d)) then false
  else true.

Lemma Matches_spec ds d :
  Matches ds d = true ↔
  (sel_VendorID ds = ""%string ∨ sel_VendorID ds = VendorID d)
  ∧ (sel_PCIAddress ds = ""%string ∨ sel_PCIAddress ds = PCIAddress d)
  ∧ (sel_DeviceID ds = ""%string ∨ sel_DeviceID ds = DeviceID d).
Proof.
  unfold Matches.
  destruct (String.eqb_spec (sel_VendorID ds) ""), (String.eqb_spec (sel_VendorID ds) (VendorID d)),
    (String.eqb_spec (sel_PCIAddress ds) ""), (String.eqb_spec (sel_PCIAddress ds) (PCIAddress d)),
    (String.eqb_spec (sel_DeviceID ds) ""), (String.eqb_spec (sel_DeviceID ds) (DeviceID d));
    cbn; intuition congruence.
Qed.
