(* ===== verification/EthernetCopies.v ===== *)
(** * Deep copies of the firmware and DDP resources

    apis/ethernet/v1/zz_generated.deepcopy.go, in the style of [FlowCopies]. *)

From S2P Require Import Prelude GoStrings EthernetTypes Heap MetaTypes ResourceShapes.

Local Open Scope Z_scope.

(** ** Types without references *)

#[export] Instance DDPInfo_eq_dec : EqDecision DDPInfo.
Proof. solve_decision. Defined.
#[export] Instance DDPInfo_countable : Countable DDPInfo :=
  inj_countable' (λ v, (PackageName v, ddp_Version v, TrackID v))
    (λ '(x0, x1, x2), {| PackageName := x0; ddp_Version := x1; TrackID := x2 |}) ltac:(by intros []).
#[export] Instance FirmwareInfo_eq_dec : EqDecision FirmwareInfo.
Proof. solve_decision. Defined.
#[export] Instance FirmwareInfo_countable : Countable FirmwareInfo :=
  inj_countable' (λ v, (MAC v, fw_Version v))
    (λ '(x0, x1), {| MAC := x0; fw_Version := x1 |}) ltac:(by intros []).
#[export] Instance Device_eq_dec : EqDecision Device.
Proof. solve_decision. Defined.
#[export] Instance Device_countable : Countable Device :=
  inj_countable' (λ v, (VendorID v, DeviceID v, PCIAddress v, dev_Name v, Driver v, DriverVersion v, Firmware v, DDP v))
    (λ '(x0, x1, x2, x3, x4, x5, x6, x7), {| VendorID := x0; DeviceID := x1; PCIAddress := x2; dev_Name := x3; Driver := x4; DriverVersion := x5; Firmware := x6; DDP := x7 |}) ltac:(by intros []).
#[export] Instance DeviceConfig_countable : Countable DeviceConfig :=
  inj_countable' (λ v, (DDPURL v, DDPChecksum v, FWURL v, FWChecksum v, FWUpdateParam v))
    (λ '(x0, x1, x2, x3, x4), {| DDPURL := x0; DDPChecksum := x1; FWURL := x2; FWChecksum := x3; FWUpdateParam := x4 |}) ltac:(by intros []).
#[export] Instance DeviceNodeConfig_countable : Countable DeviceNodeConfig :=
  inj_countable' (λ v, (dnc_PCIAddress v, dnc_DeviceConfig v))
    (λ '(x0, x1), {| dnc_PCIAddress := x0; dnc_DeviceConfig := x1 |}) ltac:(by intros []).
#[export] Instance DeviceSelector_eq_dec : EqDecision DeviceSelector.
Proof. solve_decision. Defined.
#[export] Instance DeviceSelector_countable : Countable DeviceSelector :=
  inj_countable' (λ v, (sel_VendorID v, sel_DeviceID v, sel_PCIAddress v))
    (λ '(x0, x1, x2), {| sel_VendorID := x0; sel_DeviceID := x1; sel_PCIAddress := x2 |}) ltac:(by intros []).
Variant EthernetClusterConfigStatus : Set := EthernetClusterConfigStatus_empty.
#[export] Instance EthernetClusterConfigStatus_eq_dec : EqDecision EthernetClusterConfigStatus.
Proof. solve_decision. Defined.
#[export] Instance EthernetClusterConfigStatus_countable : Countable EthernetClusterConfigStatus :=
  inj_countable' (λ _, ()) (λ _, EthernetClusterConfigStatus_empty) ltac:(by intros []).

Definition DDPInfo_DeepCopyInto (in_ : DDPInfo) : M heap DDPInfo := mret in_.

#[export] Instance DDPInfo_copy : DeepCopy DDPInfo DDPInfo :=
  {| view := λ _ v, Some v; DeepCopyInto := DDPInfo_DeepCopyInto |}.
#[export] Instance DDPInfo_copies : Copies DDPInfo DDPInfo.
Proof. by apply flat_copies. Qed.

Definition DDPInfo_DeepCopy (in_ : ptr DDPInfo) : M heap (ptr DDPInfo) := copy_ptr in_.

Definition FirmwareInfo_DeepCopyInto (in_ : FirmwareInfo) : M heap FirmwareInfo := mret in_.

#[export] Instance FirmwareInfo_copy : DeepCopy FirmwareInfo FirmwareInfo :=
  {| view := λ _ v, Some v; DeepCopyInto := FirmwareInfo_DeepCopyInto |}.
#[export] Instance FirmwareInfo_copies : Copies FirmwareInfo FirmwareInfo.
Proof. by apply flat_copies. Qed.

Definition FirmwareInfo_DeepCopy (in_ : ptr FirmwareInfo) : M heap (ptr FirmwareInfo) := copy_ptr in_.

Definition Device_DeepCopyInto (in_ : Device) : M heap Device := mret in_.

#[export] Instance Device_copy : DeepCopy Device Device :=
  {| view := λ _ v, Some v; DeepCopyInto := Device_DeepCopyInto |}.
#[export] Instance Device_copies : Copies Device Device.
Proof. by apply flat_copies. Qed.

Definition Device_DeepCopy (in_ : ptr Device) : M heap (ptr Device) := copy_ptr in_.

Definition DeviceConfig_DeepCopyInto (in_ : DeviceConfig) : M heap DeviceConfig := mret in_.

#[export] Instance DeviceConfig_copy : DeepCopy DeviceConfig DeviceConfig :=
  {| view := λ _ v, Some v; DeepCopyInto := DeviceConfig_DeepCopyInto |}.
#[export] Instance DeviceConfig_copies : Copies DeviceConfig DeviceConfig.
Proof. by apply flat_copies. Qed.

Definition DeviceConfig_DeepCopy (in_ : ptr DeviceConfig) : M heap (ptr DeviceConfig) := copy_ptr in_.

Definition DeviceNodeConfig_DeepCopyInto (in_ : DeviceNodeConfig) : M heap DeviceNodeConfig := mret in_.

#[export] Instance DeviceNodeConfig_copy : DeepCopy DeviceNodeConfig DeviceNodeConfig :=
  {| view := λ _ v, Some v; DeepCopyInto := DeviceNodeConfig_DeepCopyInto |}.
#[export] Instance DeviceNodeConfig_copies : Copies DeviceNodeConfig DeviceNodeConfig.
Proof. by apply flat_copies. Qed.

Definition DeviceNodeConfig_DeepCopy (in_ : ptr DeviceNodeConfig) : M heap (ptr DeviceNodeConfig) := copy_ptr in_.

Definition DeviceSelector_DeepCopyInto (in_ : DeviceSelector) : M heap DeviceSelector := mret in_.

#[export] Instance DeviceSelector_copy : DeepCopy DeviceSelector DeviceSelector :=
  {| view := λ _ v, Some v; DeepCopyInto := DeviceSelector_DeepCopyInto |}.
#[export] Instance DeviceSelector_copies : Copies DeviceSelector DeviceSelector.
Proof. by apply flat_copies. Qed.

Definition DeviceSelector_DeepCopy (in_ : ptr DeviceSelector) : M heap (ptr DeviceSelector) := copy_ptr in_.

Definition EthernetClusterConfigStatus_DeepCopyInto (in_ : EthernetClusterConfigStatus) : M heap EthernetClusterConfigStatus := mret in_.

#[export] Instance EthernetClusterConfigStatus_copy : DeepCopy EthernetClusterConfigStatus EthernetClusterConfigStatus :=
  {| view := λ _ v, Some v; DeepCopyInto := EthernetClusterConfigStatus_DeepCopyInto |}.
#[export] Instance EthernetClusterConfigStatus_copies : Copies EthernetClusterConfigStatus EthernetClusterConfigStatus.
Proof. by apply flat_copies. Qed.

Definition EthernetClusterConfigStatus_DeepCopy (in_ : ptr EthernetClusterConfigStatus) : M heap (ptr EthernetClusterConfigStatus) := copy_ptr in_.

(** ** Structs with references *)

Record EthernetClusterConfigSpec_struct (selector : Type) : Type := {
  mes_NodeSelector : selector;
  mes_DeviceSelector : DeviceSelector;
  mes_DeviceConfig : DeviceConfig;
  mes_Priority : Z
}.
Arguments mes_NodeSelector {_}.
Arguments mes_DeviceSelector {_}.
Arguments mes_DeviceConfig {_}.
Arguments mes_Priority {_}.

#[export] Instance EthernetClusterConfigSpec_eq_dec {selector} `{!EqDecision selector} : EqDecision (EthernetClusterConfigSpec_struct selector).
Proof. solve_decision. Defined.
#[export] Instance EthernetClusterConfigSpec_countable {selector} `{Countable selector} : Countable (EthernetClusterConfigSpec_struct selector).
Proof.
  refine (inj_countable' (λ v, (mes_NodeSelector v, mes_DeviceSelector v, mes_DeviceConfig v, mes_Priority v))
    (λ '(x0, x1, x2, x3), {| mes_NodeSelector := x0; mes_DeviceSelector := x1; mes_DeviceConfig := x2; mes_Priority := x3 |}) _). by intros [].
Defined.

Record EthernetNodeConfigSpec_struct (config : Type) : Type := {
  mnc_Config : config;
  mnc_DrainSkip : bool
}.
Arguments mnc_Config {_}.
Arguments mnc_DrainSkip {_}.

#[export] Instance EthernetNodeConfigSpec_eq_dec {config} `{!EqDecision config} : EqDecision (EthernetNodeConfigSpec_struct config).
Proof. solve_decision. Defined.
#[export] Instance EthernetNodeConfigSpec_countable {config} `{Countable config} : Countable (EthernetNodeConfigSpec_struct config).
Proof.
  refine (inj_countable' (λ v, (mnc_Config v, mnc_DrainSkip v))
    (λ '(x0, x1), {| mnc_Config := x0; mnc_DrainSkip := x1 |}) _). by intros [].
Defined.

Record EthernetNodeConfigStatus_struct (conditions devices : Type) : Type := {
  mnt_Conditions : conditions;
  mnt_Devices : devices
}.
Arguments mnt_Conditions {_ _}.
Arguments mnt_Devices {_ _}.

#[export] Instance EthernetNodeConfigStatus_eq_dec {conditions devices} `{!EqDecision conditions, !EqDecision devices} : EqDecision (EthernetNodeConfigStatus_struct conditions devices).
Proof. solve_decision. Defined.
#[export] Instance EthernetNodeConfigStatus_countable {conditions devices} `{Countable conditions, Countable devices} : Countable (EthernetNodeConfigStatus_struct conditions devices).
Proof.
  refine (inj_countable' (λ v, (mnt_Conditions v, mnt_Devices v))
    (λ '(x0, x1), {| mnt_Conditions := x0; mnt_Devices := x1 |}) _). by intros [].
Defined.

(** *** In memory, and the values *)

Notation EthernetClusterConfigSpec_mem := (EthernetClusterConfigSpec_struct (mapref string string)).
Notation EthernetClusterConfigSpec_val := (EthernetClusterConfigSpec_struct (option (gmap string string))).
Notation EthernetNodeConfigSpec_mem := (EthernetNodeConfigSpec_struct (slice DeviceNodeConfig)).
Notation EthernetNodeConfigSpec_val := (EthernetNodeConfigSpec_struct (option (list DeviceNodeConfig))).
Notation EthernetNodeConfigStatus_mem := (EthernetNodeConfigStatus_struct (slice Condition_mem) (slice Device)).
Notation EthernetNodeConfigStatus_val := (EthernetNodeConfigStatus_struct (option (list Condition_val)) (option (list Device))).
Notation EthernetClusterConfig_mem := (Resource_struct ObjectMeta_mem EthernetClusterConfigSpec_mem EthernetClusterConfigStatus).
Notation EthernetClusterConfig_val := (Resource_struct ObjectMeta_val EthernetClusterConfigSpec_val EthernetClusterConfigStatus).
Notation EthernetNodeConfig_mem := (Resource_struct ObjectMeta_mem EthernetNodeConfigSpec_mem EthernetNodeConfigStatus_mem).
Notation EthernetNodeConfig_val := (Resource_struct ObjectMeta_val EthernetNodeConfigSpec_val EthernetNodeConfigStatus_val).
Notation EthernetClusterConfigList_mem := (List_struct ListMeta_mem (slice EthernetClusterConfig_mem)).
Notation EthernetClusterConfigList_val := (List_struct ListMeta_val (option (list EthernetClusterConfig_val))).
Notation EthernetNodeConfigList_mem := (List_struct ListMeta_mem (slice EthernetNodeConfig_mem)).
Notation EthernetNodeConfigList_val := (List_struct ListMeta_val (option (list EthernetNodeConfig_val))).

Section methods.
Context `{!MetaTypes} `{!MapOrder}.

Definition EthernetClusterConfigSpec_view (h : heap) (in_ : EthernetClusterConfigSpec_mem) : option EthernetClusterConfigSpec_val :=
  f0 ← view h (mes_NodeSelector in_);
  Some {| mes_NodeSelector := f0; mes_DeviceSelector := mes_DeviceSelector in_; mes_DeviceConfig := mes_DeviceConfig in_; mes_Priority := mes_Priority in_ |}.

Definition EthernetClusterConfigSpec_DeepCopyInto (in_ : EthernetClusterConfigSpec_mem) : M heap EthernetClusterConfigSpec_mem :=
  f0 ← DeepCopyInto (mes_NodeSelector in_);
  mret {| mes_NodeSelector := f0; mes_DeviceSelector := mes_DeviceSelector in_; mes_DeviceConfig := mes_DeviceConfig in_; mes_Priority := mes_Priority in_ |}.

#[export] Instance EthernetClusterConfigSpec_copy : DeepCopy EthernetClusterConfigSpec_mem EthernetClusterConfigSpec_val :=
  {| view := EthernetClusterConfigSpec_view; DeepCopyInto := EthernetClusterConfigSpec_DeepCopyInto |}.
#[export] Instance EthernetClusterConfigSpec_copies `{!MetaTypesLaws} : Copies EthernetClusterConfigSpec_mem EthernetClusterConfigSpec_val.
Proof. solve_copies EthernetClusterConfigSpec_view EthernetClusterConfigSpec_DeepCopyInto. Qed.

Definition EthernetClusterConfigSpec_DeepCopy (in_ : ptr EthernetClusterConfigSpec_mem) : M heap (ptr EthernetClusterConfigSpec_mem) := copy_ptr in_.

Definition EthernetNodeConfigSpec_view (h : heap) (in_ : EthernetNodeConfigSpec_mem) : option EthernetNodeConfigSpec_val :=
  f0 ← view h (mnc_Config in_);
  Some {| mnc_Config := f0; mnc_DrainSkip := mnc_DrainSkip in_ |}.

Definition EthernetNodeConfigSpec_DeepCopyInto (in_ : EthernetNodeConfigSpec_mem) : M heap EthernetNodeConfigSpec_mem :=
  f0 ← DeepCopyInto (mnc_Config in_);
  mret {| mnc_Config := f0; mnc_DrainSkip := mnc_DrainSkip in_ |}.

#[export] Instance EthernetNodeConfigSpec_copy : DeepCopy EthernetNodeConfigSpec_mem EthernetNodeConfigSpec_val :=
  {| view := EthernetNodeConfigSpec_view; DeepCopyInto := EthernetNodeConfigSpec_DeepCopyInto |}.
#[export] Instance EthernetNodeConfigSpec_copies `{!MetaTypesLaws} : Copies EthernetNodeConfigSpec_mem EthernetNodeConfigSpec_val.
Proof. solve_copies EthernetNodeConfigSpec_view EthernetNodeConfigSpec_DeepCopyInto. Qed.

Definition EthernetNodeConfigSpec_DeepCopy (in_ : ptr EthernetNodeConfigSpec_mem) : M heap (ptr EthernetNodeConfigSpec_mem) := copy_ptr in_.

Definition EthernetNodeConfigStatus_view (h : heap) (in_ : EthernetNodeConfigStatus_mem) : option EthernetNodeConfigStatus_val :=
  f0 ← view h (mnt_Conditions in_);
  f1 ← view h (mnt_Devices in_);
  Some {| mnt_Conditions := f0; mnt_Devices := f1 |}.

Definition EthernetNodeConfigStatus_DeepCopyInto (in_ : EthernetNodeConfigStatus_mem) : M heap EthernetNodeConfigStatus_mem :=
  f0 ← DeepCopyInto (mnt_Conditions in_);
  f1 ← DeepCopyInto (mnt_Devices in_);
  mret {| mnt_Conditions := f0; mnt_Devices := f1 |}.

#[export] Instance EthernetNodeConfigStatus_copy : DeepCopy EthernetNodeConfigStatus_mem EthernetNodeConfigStatus_val :=
  {| view := EthernetNodeConfigStatus_view; DeepCopyInto := EthernetNodeConfigStatus_DeepCopyInto |}.
#[export] Instance EthernetNodeConfigStatus_copies `{!MetaTypesLaws} : Copies EthernetNodeConfigStatus_mem EthernetNodeConfigStatus_val.
Proof. solve_copies EthernetNodeConfigStatus_view EthernetNodeConfigStatus_DeepCopyInto. Qed.

Definition EthernetNodeConfigStatus_DeepCopy (in_ : ptr EthernetNodeConfigStatus_mem) : M heap (ptr EthernetNodeConfigStatus_mem) := copy_ptr in_.

Definition EthernetClusterConfig_view (h : heap) (in_ : EthernetClusterConfig_mem) : option EthernetClusterConfig_val :=
  f0 ← view h (ob_ObjectMeta in_);
  f1 ← view h (ob_Spec in_);
  Some {| ob_TypeMeta := ob_TypeMeta in_; ob_ObjectMeta := f0; ob_Spec := f1; ob_Status := ob_Status in_ |}.

Definition EthernetClusterConfig_DeepCopyInto (in_ : EthernetClusterConfig_mem) : M heap EthernetClusterConfig_mem :=
  f0 ← DeepCopyInto (ob_ObjectMeta in_);
  f1 ← DeepCopyInto (ob_Spec in_);
  mret {| ob_TypeMeta := ob_TypeMeta in_; ob_ObjectMeta := f0; ob_Spec := f1; ob_Status := ob_Status in_ |}.

#[export] Instance EthernetClusterConfig_copy : DeepCopy EthernetClusterConfig_mem EthernetClusterConfig_val :=
  {| view := EthernetClusterConfig_view; DeepCopyInto := EthernetClusterConfig_DeepCopyInto |}.
#[export] Instance EthernetClusterConfig_copies `{!MetaTypesLaws} : Copies EthernetClusterConfig_mem EthernetClusterConfig_val.
Proof. solve_copies EthernetClusterConfig_view EthernetClusterConfig_DeepCopyInto. Qed.

Definition EthernetClusterConfig_DeepCopy (in_ : ptr EthernetClusterConfig_mem) : M heap (ptr EthernetClusterConfig_mem) := copy_ptr in_.
Definition EthernetClusterConfig_DeepCopyObject (in_ : ptr EthernetClusterConfig_mem) : M heap Object := as_object "EthernetClusterConfig" (EthernetClusterConfig_DeepCopy in_).

Definition EthernetNodeConfig_view (h : heap) (in_ : EthernetNodeConfig_mem) : option EthernetNodeConfig_val :=
  f0 ← view h (ob_ObjectMeta in_);
  f1 ← view h (ob_Spec in_);
  f2 ← view h (ob_Status in_);
  Some {| ob_TypeMeta := ob_TypeMeta in_; ob_ObjectMeta := f0; ob_Spec := f1; ob_Status := f2 |}.

Definition EthernetNodeConfig_DeepCopyInto (in_ : EthernetNodeConfig_mem) : M heap EthernetNodeConfig_mem :=
  f0 ← DeepCopyInto (ob_ObjectMeta in_);
  f1 ← DeepCopyInto (ob_Spec in_);
  f2 ← DeepCopyInto (ob_Status in_);
  mret {| ob_TypeMeta := ob_TypeMeta in_; ob_ObjectMeta := f0; ob_Spec := f1; ob_Status := f2 |}.

#[export] Instance EthernetNodeConfig_copy : DeepCopy EthernetNodeConfig_mem EthernetNodeConfig_val :=
  {| view := EthernetNodeConfig_view; DeepCopyInto := EthernetNodeConfig_DeepCopyInto |}.
#[export] Instance EthernetNodeConfig_copies `{!MetaTypesLaws} : Copies EthernetNodeConfig_mem EthernetNodeConfig_val.
Proof. solve_copies EthernetNodeConfig_view EthernetNodeConfig_DeepCopyInto. Qed.

Definition EthernetNodeConfig_DeepCopy (in_ : ptr EthernetNodeConfig_mem) : M heap (ptr EthernetNodeConfig_mem) := copy_ptr in_.
Definition EthernetNodeConfig_DeepCopyObject (in_ : ptr EthernetNodeConfig_mem) : M heap Object := as_object "EthernetNodeConfig" (EthernetNodeConfig_DeepCopy in_).

Definition EthernetClusterConfigList_view (h : heap) (in_ : EthernetClusterConfigList_mem) : option EthernetClusterConfigList_val :=
  f0 ← view h (li_ListMeta in_);
  f1 ← view h (li_Items in_);
  Some {| li_TypeMeta := li_TypeMeta in_; li_ListMeta := f0; li_Items := f1 |}.

Definition EthernetClusterConfigList_DeepCopyInto (in_ : EthernetClusterConfigList_mem) : M heap EthernetClusterConfigList_mem :=
  f0 ← DeepCopyInto (li_ListMeta in_);
  f1 ← DeepCopyInto (li_Items in_);
  mret {| li_TypeMeta := li_TypeMeta in_; li_ListMeta := f0; li_Items := f1 |}.

#[export] Instance EthernetClusterConfigList_copy : DeepCopy EthernetClusterConfigList_mem EthernetClusterConfigList_val :=
  {| view := EthernetClusterConfigList_view; DeepCopyInto := EthernetClusterConfigList_DeepCopyInto |}.
#[export] Instance EthernetClusterConfigList_copies `{!MetaTypesLaws} : Copies EthernetClusterConfigList_mem EthernetClusterConfigList_val.
Proof. solve_copies EthernetClusterConfigList_view EthernetClusterConfigList_DeepCopyInto. Qed.

Definition EthernetClusterConfigList_DeepCopy (in_ : ptr EthernetClusterConfigList_mem) : M heap (ptr EthernetClusterConfigList_mem) := copy_ptr in_.
Definition EthernetClusterConfigList_DeepCopyObject (in_ : ptr EthernetClusterConfigList_mem) : M heap Object := as_object "EthernetClusterConfigList" (EthernetClusterConfigList_DeepCopy in_).

Definition EthernetNodeConfigList_view (h : heap) (in_ : EthernetNodeConfigList_mem) : option EthernetNodeConfigList_val :=
  f0 ← view h (li_ListMeta in_);
  f1 ← view h (li_Items in_);
  Some {| li_TypeMeta := li_TypeMeta in_; li_ListMeta := f0; li_Items := f1 |}.

Definition EthernetNodeConfigList_DeepCopyInto (in_ : EthernetNodeConfigList_mem) : M heap EthernetNodeConfigList_mem :=
  f0 ← DeepCopyInto (li_ListMeta in_);
  f1 ← DeepCopyInto (li_Items in_);
  mret {| li_TypeMeta := li_TypeMeta in_; li_ListMeta := f0; li_Items := f1 |}.

#[export] Instance EthernetNodeConfigList_copy : DeepCopy EthernetNodeConfigList_mem EthernetNodeConfigList_val :=
  {| view := EthernetNodeConfigList_view; DeepCopyInto := EthernetNodeConfigList_DeepCopyInto |}.
#[export] Instance EthernetNodeConfigList_copies `{!MetaTypesLaws} : Copies EthernetNodeConfigList_mem EthernetNodeConfigList_val.
Proof. solve_copies EthernetNodeConfigList_view EthernetNodeConfigList_DeepCopyInto. Qed.

Definition EthernetNodeConfigList_DeepCopy (in_ : ptr EthernetNodeConfigList_mem) : M heap (ptr EthernetNodeConfigList_mem) := copy_ptr in_.
Definition EthernetNodeConfigList_DeepCopyObject (in_ : ptr EthernetNodeConfigList_mem) : M heap Object := as_object "EthernetNodeConfigList" (EthernetNodeConfigList_DeepCopy in_).

End methods.
