(* ===== verification/CopiesSpec.v ===== *)
(** * The deep copies of all the custom resources

    The methods of the two generated files: every copy is isolated from its original, and
    copying nothing gives nothing, as pointer and as object. *)

From S2P Require Import Prelude Heap MetaTypes ResourceShapes FlowTypes EthernetTypes FlowCopies EthernetCopies.

Section copies.
Context `{!MetaTypes, !MapOrder}.

(** [DeepCopyObject] gives an object for what is there, and for nil the nil object, not an
    object that holds a nil pointer. *)
Definition object_of {T X} `{!EqDecision T, !Countable T, !DeepCopy T X}
    (copy : ptr T → M heap (ptr T)) (copy_object : ptr T → M heap Object) (type : string) : Prop :=
  (∀ h, copy_object (Ptr None) h = (Ok NilObject, h))
  ∧ ∀ h l x, view h (Ptr (Some l) : ptr T) = Some (Some x) →
      ∃ l' h', copy (Ptr (Some l)) h = (Ok (Ptr (Some l')), h')
               ∧ copy_object (Ptr (Some l)) h = (Ok (AnObject type l'), h').

Lemma as_object_of {T X} `{!EqDecision T, !Countable T} `{Copies T X} type :
  object_of (T:=T) copy_ptr (λ p, as_object type (copy_ptr p)) type.
Proof.
  split; [done|]. intros h l x (l0 & v & [= <-] & Hl & Hv)%view_ptr_inv.
  destruct (DeepCopyInto_copies h v x Hv) as (v' & h1 & E & _ & _).
  unfold copy_ptr, as_object. cbn [addr]. unfold mbind, M_bind, load. rewrite Hl, E.
  destruct (new_get v' h1) as (l' & h2 & E' & _ & _). rewrite E'. by exists l', h2.
Qed.

End copies.

(** ** An example *)

#[local] Existing Instance plain_meta.
#[local] Existing Instance listed_order.

(** The status of a node configuration with two conditions and no devices. *)
Definition status_heap : heap :=
  ((new ["UpdateStarted"; "UpdateSucceeded"]%string ≫= λ a,
   new ({| mnt_Conditions := Slice (Some (a, 0%nat, 2%nat)); mnt_Devices := Slice None |} : EthernetNodeConfigStatus_mem)) ∅).2.

Definition status_value : EthernetNodeConfigStatus_val := {|
  mnt_Conditions := (Some ["UpdateStarted"; "UpdateSucceeded"]%string : option (list (@Condition_val plain_meta)));
  mnt_Devices := (None : option (list Device))
|}.

