(* ===== verification/FwDdpManager.v ===== *)
(** * The firmware and DDP manager

    pkg/fwddp-manager/ethernetclusterconfig_controller.go: merges the cluster
    configurations that select a node into the node's configuration, one configuration for
    each device. The API server is a parameter [S]; label matching and the comparison
    [DeepDerivative] of k8s.io/apimachinery are an interface with the documented facts the
    theorems use. *)

From S2P Require Import Prelude GoStrings Utils EthernetTypes.

Local Open Scope Z_scope.

(** ** Code outside the repository *)

Class Apimachinery : Type := {
  (** [labels.Set(sel).AsSelector().Matches(labels.Set(l))] *)
  set_selector_matches : gmap string string → gmap string string → bool;
  DeepDerivative : EthernetNodeConfigSpec → EthernetNodeConfigSpec → bool;
}.

(** Every label of the set is asked for; unset fields of the first argument of
    [DeepDerivative] are not compared. *)
Class ApimachineryLaws (A : Apimachinery) : Prop := {
  set_selector_spec sel l : set_selector_matches sel l = true ↔ sel ⊆ l;
  DeepDerivative_unset s : DeepDerivative empty_EthernetNodeConfigSpec s = true;
  DeepDerivative_refl s : DeepDerivative s s = true;
}.

Record Node : Type := { node_Name : string; node_Labels : gmap string string }.

Class ManagerApi (S : Type) : Type := {
  List_EthernetClusterConfigs : M S (list EthernetClusterConfig);
  (** Nodes with the label ethernet.intel.com/intel-ethernet-present. *)
  List_Nodes : M S (list Node);
  Get_EthernetNodeConfig : string → M S EthernetNodeConfig;
  Update_EthernetNodeConfig : EthernetNodeConfig → M S unit;
  (** [Infrastructure.Status.ControlPlaneTopology] of the resource "cluster". *)
  Get_Infrastructure : M S string;
  (** Environment variables of the process. *)
  Getenv : string → string;
}.

(** [DeviceConfigContext]: from PCI addresses to configurations. *)
Notation DeviceConfigContext := (gmap string EthernetClusterConfig).

(** ** Matching *)

(** What one matching device of one configuration does to the context. *)
Definition update_context (ctx : DeviceConfigContext) (current : EthernetClusterConfig)
    (device : Device) : DeviceConfigContext :=
  match ctx !! PCIAddress device with
  | None => <[PCIAddress device := current]> ctx
  | Some previous =>
      if Priority (ecc_Spec previous) <? Priority (ecc_Spec current)
      then <[PCIAddress device := current]> ctx
      else if Priority (ecc_Spec current) =? Priority (ecc_Spec previous) then
        if CreationTimestamp previous <? CreationTimestamp current
        then <[PCIAddress device := current]> ctx
        else ctx
      else ctx
  end.

Fixpoint context_devices (current : EthernetClusterConfig) (devices : list Device)
    (ctx : DeviceConfigContext) : DeviceConfigContext :=
  match devices with
  | [] => ctx
  | device :: devices =>
      context_devices current devices
        (if Matches (ecc_DeviceSelector (ecc_Spec current)) device
         then update_context ctx current device else ctx)
  end.

Fixpoint context_configs (configs : list EthernetClusterConfig) (devices : list Device)
    (ctx : DeviceConfigContext) : DeviceConfigContext :=
  match configs with
  | [] => ctx
  | current :: configs => context_configs configs devices (context_devices current devices ctx)
  end.

Definition prepareDeviceConfigContext (nodeConfig : EthernetNodeConfig)
    (configs : list EthernetClusterConfig) : DeviceConfigContext :=
  context_configs configs (Devices (enc_Status nodeConfig)) ∅.

Section manager.
Context {S : Type} `{!Apimachinery} `{!ManagerApi S} `{!MapOrder}.
Variable NAMESPACE : string.

Definition matchConfigsForNode (node : Node) (allConfigs : list EthernetClusterConfig) :
    list EthernetClusterConfig :=
  List.filter (λ config, set_selector_matches (NodeSelector (ecc_Spec config)) (node_Labels node)) allConfigs.

(** ** pkg/utils: GetDrainSkip *)

Definition IsK8sDeployment : bool :=
  is_true_text (Getenv (IeoPrefix +:+ "GENERIC_K8S")).

Definition IsOpenshiftSno : M S bool :=
  r ← attempt Get_Infrastructure;
  match r with
  | inl _ => throw (Errorf "getting resource Infrastructure (name: %s) succeeded but object was empty")
  | inr topology => mret (String.eqb topology "SingleReplica")
  end.

Definition GetDrainSkip (nodes : list Node) : M S bool :=
  if IsK8sDeployment then mret (length nodes <=? 1)%nat else IsOpenshiftSno.

(** ** The reconciler *)

Definition getOrInitializeEthernetNodeConfig (name : string) : M S EthernetNodeConfig :=
  r ← attempt (Get_EthernetNodeConfig name);
  match r with
  | inr nc => mret nc
  | inl err =>
      if IsNotFound err then
        mret {| enc_Name := name; enc_Namespace := NAMESPACE; enc_Generation := 0;
                enc_Spec := empty_EthernetNodeConfigSpec;
                enc_Status := {| Conditions := []; Devices := [] |} |}
      else throw err
  end.

Definition match_node (node : Node) (allConfigs : list EthernetClusterConfig) :
    M S (EthernetNodeConfig * DeviceConfigContext) :=
  let nodePolicies := matchConfigsForNode node allConfigs in
  nodeConfig ← getOrInitializeEthernetNodeConfig (node_Name node);
  mret (nodeConfig, prepareDeviceConfigContext nodeConfig nodePolicies).

Definition with_Spec (nc : EthernetNodeConfig) (spec : EthernetNodeConfigSpec) : EthernetNodeConfig :=
  {| enc_Name := enc_Name nc; enc_Namespace := enc_Namespace nc; enc_Generation := enc_Generation nc;
     enc_Spec := spec; enc_Status := enc_Status nc |}.

(** The loop over the context, which appends a device and raises the flag. *)
Definition add_device (drainSkip : bool) (spec : EthernetNodeConfigSpec)
    (e : string * EthernetClusterConfig) : EthernetNodeConfigSpec :=
  {| Config := Config spec ++ [{| dnc_PCIAddress := e.1; dnc_DeviceConfig := ecc_DeviceConfig (ecc_Spec e.2) |}];
     DrainSkip := DrainSkip spec || drainSkip |}.

Definition new_spec (ctx : DeviceConfigContext) (drainSkip : bool) : EthernetNodeConfigSpec :=
  foldl (add_device drainSkip) empty_EthernetNodeConfigSpec (range_map ctx).

Definition synchronizeNodeConfigSpec (ncc : EthernetNodeConfig * DeviceConfigContext)
    (drainSkip : bool) : M S unit :=
  let '(currentNodeConfig, deviceConfigContext) := ncc in
  let newNodeConfig := with_Spec currentNodeConfig (new_spec deviceConfigContext drainSkip) in
  if DeepDerivative (enc_Spec newNodeConfig) (enc_Spec currentNodeConfig) then mret tt
  else Update_EthernetNodeConfig newNodeConfig.

Definition reconcile_node (allConfigs : list EthernetClusterConfig) (drainSkip : bool) (node : Node) : M S unit :=
  r ← attempt (match_node node allConfigs);
  match r with
  | inl _ => mret tt
  | inr configurationContext =>
      attempt (synchronizeNodeConfigSpec configurationContext drainSkip);; mret tt
  end.

Definition Reconcile : M S unit :=
  clusterConfigs ← List_EthernetClusterConfigs;
  nodes ← List_Nodes;
  drainSkip ← GetDrainSkip nodes;
  forM nodes (reconcile_node clusterConfigs drainSkip).
End manager.
