(* ===== verification/FwDdpManagerSpec.v ===== *)
(** * What the firmware and DDP manager guarantees

    Which configuration a device gets, what a node's configuration then holds, and what a
    reconciliation does to a cluster whose configurations are kept in a map. *)

From S2P Require Import Prelude GoStrings EthernetTypes FwDdpManager.

Local Open Scope Z_scope.

(** ** The configuration of a device *)

Definition outranks (a b : EthernetClusterConfig) : Prop :=
  Priority (ecc_Spec b) < Priority (ecc_Spec a)
  ∨ Priority (ecc_Spec a) = Priority (ecc_Spec b) ∧ CreationTimestamp b < CreationTimestamp a.

#[export] Instance outranks_dec a b : Decision (outranks a b).
Proof. unfold outranks. apply _. Defined.

(** Some device at the address is selected by the configuration. *)
Definition selects (devices : list Device) (pci : string) (c : EthernetClusterConfig) : Prop :=
  Exists (λ d, Matches (ecc_DeviceSelector (ecc_Spec c)) d = true ∧ PCIAddress d = pci) devices.

#[export] Instance selects_dec devices pci c : Decision (selects devices pci c).
Proof. unfold selects. apply _. Defined.

Definition better (previous : option EthernetClusterConfig) (c : EthernetClusterConfig) : EthernetClusterConfig :=
  match previous with
  | None => c
  | Some p => if decide (outranks c p) then c else p
  end.

Lemma outranks_irrefl c : ¬ outranks c c.
Proof. unfold outranks. lia. Qed.

Lemma better_twice o c : better (Some (better o c)) c = better o c.
Proof. destruct o as [p|]; simpl; repeat case_decide; try done; by destruct (outranks_irrefl c). Qed.

Lemma update_context_lookup ctx c d pci :
  update_context ctx c d !! pci =
  if decide (PCIAddress d = pci) then Some (better (ctx !! pci) c) else ctx !! pci.
Proof.
  unfold update_context.
  destruct (decide (PCIAddress d = pci)) as [<-|Hne].
  - destruct (ctx !! PCIAddress d) as [p|] eqn:E; [|by rewrite lookup_insert_eq].
    unfold better, outranks. case_decide; split_ifs; bool_to_prop; rewrite ?lookup_insert_eq, ?E; solve [done|lia].
  - destruct (ctx !! PCIAddress d); split_ifs; by rewrite ?lookup_insert_ne.
Qed.

Lemma selects_cons d devices pci c :
  selects (d :: devices) pci c ↔
  Matches (ecc_DeviceSelector (ecc_Spec c)) d = true ∧ PCIAddress d = pci ∨ selects devices pci c.
Proof. unfold selects. by rewrite Exists_cons. Qed.

Lemma context_devices_lookup c devices ctx pci :
  context_devices c devices ctx !! pci =
  if decide (selects devices pci c) then Some (better (ctx !! pci) c) else ctx !! pci.
Proof.
  revert ctx. induction devices as [|d devices IH]; intros ctx.
  - case_decide as H; [by apply Exists_nil in H|done].
  - cbn [context_devices]. rewrite IH. pose proof (selects_cons d devices pci c).
    destruct (Matches _ d) eqn:E; [rewrite update_context_lookup|];
      repeat case_decide; rewrite ?better_twice; naive_solver.
Qed.

Lemma context_configs_app l1 l2 devices ctx :
  context_configs (l1 ++ l2) devices ctx = context_configs l2 devices (context_configs l1 devices ctx).
Proof. revert ctx. induction l1; simpl; intros; [done|]. by rewrite IHl1. Qed.

Lemma context_configs_lookup_none configs devices ctx pci :
  (∀ c, c ∈ configs → ¬ selects devices pci c) → context_configs configs devices ctx !! pci = ctx !! pci.
Proof.
  revert ctx. induction configs as [|c configs IH]; intros ctx Hnone; simpl; [done|].
  rewrite IH by set_solver. rewrite context_devices_lookup, decide_False by set_solver. done.
Qed.

(** C18 Each device gets the configuration of the highest priority among those whose
    selector it matches, of these the one created last, of these the one listed first; and a
    device no selector matches gets none. *)
Theorem prepareDeviceConfigContext_spec (nc : EthernetNodeConfig) (configs : list EthernetClusterConfig) (pci : string) :
  let devices := Devices (enc_Status nc) in
  match prepareDeviceConfigContext nc configs !! pci with
  | None => ∀ c, c ∈ configs → ¬ selects devices pci c
  | Some cc =>
      ∃ before after, configs = before ++ cc :: after ∧ selects devices pci cc
        ∧ (∀ c, c ∈ before → selects devices pci c → outranks cc c)
        ∧ (∀ c, c ∈ after → selects devices pci c → ¬ outranks c cc)
  end.
Proof.
  cbn zeta. unfold prepareDeviceConfigContext.
  induction configs as [|c configs IH] using rev_ind; [simpl; set_solver|].
  rewrite context_configs_app. simpl. rewrite context_devices_lookup.
  destruct (context_configs configs _ ∅ !! pci) as [p|] eqn:E; simpl.
  - destruct IH as (before & after & -> & Hp & Hbefore & Hafter).
    case_decide as Hc; [case_decide as Hr|].
    + exists (before ++ p :: after), []. repeat split; [done| |set_solver].
      intros q Hq Hs. unfold outranks in *.
      apply elem_of_app in Hq as [Hq|[->|Hq]%elem_of_cons]; [specialize (Hbefore q Hq Hs)| |specialize (Hafter q Hq Hs)]; lia.
    + exists before, (after ++ [c]). rewrite <- app_assoc. split_and!; [done..|set_solver].
    + exists before, (after ++ [c]). rewrite <- app_assoc. split_and!; [done..|set_solver].
  - case_decide as Hc; [|set_solver].
    exists configs, []. split_and!; [done|done| |set_solver]. intros q Hq Hs. by destruct (IH q Hq).
Qed.

(** ** The configuration of a node *)

Section node.
Context `{!MapOrder}.

Lemma add_devices_Config drainSkip l spec :
  Config (foldl (add_device drainSkip) spec l) =
  Config spec ++ ((λ e, {| dnc_PCIAddress := e.1; dnc_DeviceConfig := ecc_DeviceConfig (ecc_Spec e.2) |}) <$> l).
Proof.
  revert spec. induction l as [|e l IH]; intros spec; simpl; [by rewrite app_nil_r|].
  rewrite IH. simpl. by rewrite <- app_assoc.
Qed.

Lemma add_devices_DrainSkip drainSkip l spec :
  DrainSkip (foldl (add_device drainSkip) spec l) = DrainSkip spec || (negb (Nat.eqb (length l) 0) && drainSkip).
Proof.
  revert spec. induction l as [|e l IH]; intros spec; simpl; [by rewrite orb_false_r|].
  rewrite IH. simpl. by destruct (DrainSkip spec), drainSkip, (length l).
Qed.

(** The configuration written for a node has each device once, with the settings of the
    configuration chosen for it, and asks to skip the drain exactly if the manager decided
    so and some device is configured. *)
Theorem new_spec_spec (ctx : DeviceConfigContext) (drainSkip : bool) :
  NoDup (dnc_PCIAddress <$> Config (new_spec ctx drainSkip))
  ∧ (∀ pci dc, {| dnc_PCIAddress := pci; dnc_DeviceConfig := dc |} ∈ Config (new_spec ctx drainSkip)
       ↔ ∃ cc, ctx !! pci = Some cc ∧ dc = ecc_DeviceConfig (ecc_Spec cc))
  ∧ (DrainSkip (new_spec ctx drainSkip) = true ↔ drainSkip = true ∧ ctx ≠ ∅).
Proof.
  unfold new_spec. rewrite add_devices_Config, add_devices_DrainSkip. simpl. split_and!.
  - rewrite <- list_fmap_compose.
    erewrite list_fmap_ext; [apply range_map_keys|done].
  - intros pci dc. rewrite list_elem_of_fmap. split.
    + intros ([k cc] & [= -> ->] & Hin%range_map_elem). by exists cc.
    + intros (cc & Hin%range_map_elem & ->). by exists (pci, cc).
  - assert (length (range_map ctx) = 0%nat ↔ ctx = ∅) as Hlen.
    { rewrite (Permutation_length (range_map_perm ctx)). rewrite length_zero_iff_nil. apply map_to_list_empty_iff. }
    destruct (Nat.eqb_spec (length (range_map ctx)) 0), drainSkip; simpl; naive_solver.
Qed.
End node.

(** ** A cluster

    The node configurations are kept by name; configurations, nodes and environment do not
    change during a reconciliation. *)

Section cluster.
Context `{!Apimachinery} `{!ApimachineryLaws _} `{!MapOrder}.
Variable NAMESPACE : string.
Variable configs : list EthernetClusterConfig.
Variable nodes : list Node.
Variable topology : outcome string.
Variable env : string → string.

Notation store := (gmap string EthernetNodeConfig).

Definition not_found {A} : M store A := throw (ApiError NotFound "not found").

#[local] Instance cluster_api : ManagerApi store := {|
  List_EthernetClusterConfigs := mret configs;
  List_Nodes := mret nodes;
  Get_EthernetNodeConfig name := λ st,
    match st !! name with Some nc => (Ok nc, st) | None => not_found st end;
  Update_EthernetNodeConfig nc := λ st,
    match st !! enc_Name nc with Some _ => (Ok tt, <[enc_Name nc := nc]> st) | None => not_found st end;
  Get_Infrastructure := lift topology;
  Getenv := env;
|}.

Lemma elem_of_matchConfigsForNode node cs c :
  c ∈ matchConfigsForNode node cs ↔ c ∈ cs ∧ NodeSelector (ecc_Spec c) ⊆ node_Labels node.
Proof.
  unfold matchConfigsForNode. rewrite !list_elem_of_In, filter_In. by rewrite set_selector_spec.
Qed.

(** Objects are stored under their names. *)
Definition named (st : store) : Prop := ∀ name nc, st !! name = Some nc → enc_Name nc = name.

(** The spec the manager wants for a node that reports [nc]. *)
Definition wanted (node : Node) (drainSkip : bool) (nc : EthernetNodeConfig) : EthernetNodeConfigSpec :=
  new_spec (prepareDeviceConfigContext nc (matchConfigsForNode node configs)) drainSkip.

Definition synchronized (node : Node) (drainSkip : bool) (nc : EthernetNodeConfig) : EthernetNodeConfig :=
  if DeepDerivative (wanted node drainSkip nc) (enc_Spec nc) then nc
  else with_Spec nc (wanted node drainSkip nc).

(** What one node's turn makes of the store. *)
Definition synchronize_node (drainSkip : bool) (st : store) (node : Node) : store :=
  alter (synchronized node drainSkip) (node_Name node) st.

Lemma empty_context nc cs : Devices (enc_Status nc) = [] → prepareDeviceConfigContext nc cs = ∅.
Proof.
  intros Hd. unfold prepareDeviceConfigContext. rewrite Hd.
  induction cs; simpl; done.
Qed.

Lemma new_spec_empty drainSkip : new_spec ∅ drainSkip = empty_EthernetNodeConfigSpec.
Proof. unfold new_spec. by rewrite range_map_empty. Qed.

Lemma alter_same (st : store) (f : EthernetNodeConfig → EthernetNodeConfig) k :
  (∀ x, st !! k = Some x → f x = x) → alter f k st = st.
Proof.
  intros Hf. apply map_eq. intros j. destruct (decide (k = j)) as [<-|].
  - rewrite lookup_alter_eq. destruct (st !! k) as [x|] eqn:E; simpl; [|done]. by rewrite Hf.
  - by rewrite lookup_alter_ne.
Qed.

Lemma reconcile_node_run node drainSkip st :
  named st →
  reconcile_node NAMESPACE configs drainSkip node st = (Ok tt, synchronize_node drainSkip st node).
Proof.
  intros Hst. unfold reconcile_node, match_node, synchronizeNodeConfigSpec, getOrInitializeEthernetNodeConfig, synchronize_node.
  unfold_state. destruct (st !! node_Name node) as [nc|] eqn:E; simpl.
  - pose proof (Hst _ _ E) as Hname. unfold synchronized, wanted.
    assert (alter (synchronized node drainSkip) (node_Name node) st = <[node_Name node := synchronized node drainSkip nc]> st) as Halt.
    { apply map_eq. intros j. destruct (decide (node_Name node = j)) as [<-|].
      - by rewrite lookup_alter_eq, lookup_insert_eq, E.
      - by rewrite lookup_alter_ne, lookup_insert_ne. }
    unfold synchronized, wanted in Halt. rewrite Halt. clear Halt.
    destruct (DeepDerivative _ _) eqn:ED; simpl.
    + by rewrite insert_id.
    + rewrite Hname, E. done.
  - rewrite empty_context, new_spec_empty, DeepDerivative_unset by done. simpl.
    rewrite alter_same; [done|]. by rewrite E.
Qed.

Lemma named_synchronize_node drainSkip st node : named st → named (synchronize_node drainSkip st node).
Proof.
  intros Hst name nc. unfold synchronize_node. destruct (decide (node_Name node = name)) as [<-|].
  - rewrite lookup_alter_eq. destruct (st !! node_Name node) as [nc'|] eqn:E; simpl; [|done].
    intros [= <-]. unfold synchronized. case_match; simpl; by apply Hst.
  - rewrite lookup_alter_ne by done. apply Hst.
Qed.

Lemma reconcile_nodes_run drainSkip l st :
  named st →
  forM l (reconcile_node NAMESPACE configs drainSkip) st = (Ok tt, foldl (synchronize_node drainSkip) st l).
Proof.
  revert st. induction l as [|node l IH]; intros st Hst; simpl; [done|].
  unfold mbind, M_bind. rewrite reconcile_node_run by done. apply IH. by apply named_synchronize_node.
Qed.

Definition drain_skip : outcome bool :=
  if IsK8sDeployment (S:=store) then Ok (Nat.leb (length nodes) 1)
  else match topology with
       | Ok t => Ok (String.eqb t "SingleReplica")
       | Err _ => Err (Errorf "getting resource Infrastructure (name: %s) succeeded but object was empty")
       | Panic => Panic
       end.

Lemma Reconcile_run st :
  named st →
  Reconcile NAMESPACE st =
  match drain_skip with
  | Ok skip => (Ok tt, foldl (synchronize_node skip) st nodes)
  | Err e => (Err e, st)
  | Panic => (Panic, st)
  end.
Proof.
  intros Hst. unfold Reconcile, GetDrainSkip, IsOpenshiftSno, drain_skip.
  destruct (IsK8sDeployment (S:=store)); [|destruct topology eqn:Ht];
    unfold mbind, M_bind, mret, M_ret, attempt, lift; simpl; unfold lift; rewrite ?Ht;
    first [by apply reconcile_nodes_run|done].
Qed.

Lemma foldl_synchronize_lookup_ne skip l st name :
  name ∉ node_Name <$> l → foldl (synchronize_node skip) st l !! name = st !! name.
Proof.
  revert st. induction l as [|node l IH]; intros st Hn; simpl in *; [done|].
  rewrite IH by set_solver. unfold synchronize_node. rewrite lookup_alter_ne; [done|set_solver].
Qed.

Lemma foldl_synchronize_lookup skip l st node :
  NoDup (node_Name <$> l) → node ∈ l →
  foldl (synchronize_node skip) st l !! node_Name node = synchronized node skip <$> st !! node_Name node.
Proof.
  revert st. induction l as [|n l IH]; intros st Hd Hin; simpl in *; [set_solver|].
  apply NoDup_cons in Hd as [Hn Hd]. apply elem_of_cons in Hin as [<-|Hin].
  - rewrite foldl_synchronize_lookup_ne by done. unfold synchronize_node. by rewrite lookup_alter_eq.
  - rewrite (IH _ Hd Hin). unfold synchronize_node. rewrite lookup_alter_ne; [done|].
    intros Heq. apply Hn. rewrite Heq. apply list_elem_of_fmap. by exists node.
Qed.

Lemma synchronized_idle node skip nc : synchronized node skip (synchronized node skip nc) = synchronized node skip nc.
Proof.
  unfold synchronized at 2 3. destruct (DeepDerivative (wanted node skip nc) (enc_Spec nc)) eqn:E.
  - unfold synchronized. by rewrite E.
  - unfold synchronized. change (wanted node skip (with_Spec nc (wanted node skip nc))) with (wanted node skip nc).
    simpl. by rewrite DeepDerivative_refl.
Qed.


(** A node keeps its configuration when the last configuration that selects its devices
    is withdrawn: nothing selected means an unset spec, which [DeepDerivative] takes to be
    covered by whatever the node has. *)
Theorem withdrawn_config_stays (node : Node) (skip : bool) (nc : EthernetNodeConfig)
    (Hnone : ∀ c d, c ∈ configs → d ∈ Devices (enc_Status nc) →
       NodeSelector (ecc_Spec c) ⊆ node_Labels node → Matches (ecc_DeviceSelector (ecc_Spec c)) d = false)
    (st : store) (Hst : named st) (Hnc : st !! node_Name node = Some nc) :
  reconcile_node NAMESPACE configs skip node st = (Ok tt, st).
Proof.
  rewrite reconcile_node_run by done. f_equal. apply alter_same. rewrite Hnc. intros ? [= <-].
  unfold synchronized, wanted.
  replace (prepareDeviceConfigContext nc (matchConfigsForNode node configs)) with (∅ : DeviceConfigContext);
    [by rewrite new_spec_empty, DeepDerivative_unset|].
  symmetry. apply map_empty. intros pci.
  unfold prepareDeviceConfigContext. rewrite context_configs_lookup_none; [by rewrite lookup_empty|].
  intros c Hc%elem_of_matchConfigsForNode. apply Forall_not_Exists, Forall_forall.
  intros d Hd [Hm _]. rewrite (Hnone c d) in Hm; naive_solver.
Qed.
End cluster.

(** ** A concrete cluster *)

Definition unset_or_same (a b : string) : bool := String.eqb a "" || String.eqb a b.

Definition derived_DeviceConfig (a b : DeviceConfig) : bool :=
  unset_or_same (DDPURL a) (DDPURL b) && unset_or_same (DDPChecksum a) (DDPChecksum b)
  && unset_or_same (FWURL a) (FWURL b) && unset_or_same (FWChecksum a) (FWChecksum b)
  && unset_or_same (FWUpdateParam a) (FWUpdateParam b).

(** A slice may be longer in the second argument. *)
Fixpoint derived_Config (l l' : list DeviceNodeConfig) : bool :=
  match l, l' with
  | [], _ => true
  | _, [] => false
  | a :: l, b :: l' =>
      unset_or_same (dnc_PCIAddress a) (dnc_PCIAddress b)
      && derived_DeviceConfig (dnc_DeviceConfig a) (dnc_DeviceConfig b) && derived_Config l l'
  end.

Definition derived_spec (a b : EthernetNodeConfigSpec) : bool :=
  derived_Config (Config a) (Config b) && (negb (DrainSkip a) || DrainSkip b).

Lemma unset_or_same_refl a : unset_or_same a a = true.
Proof. unfold unset_or_same. by rewrite String.eqb_refl, orb_true_r. Qed.

Lemma derived_Config_refl l : derived_Config l l = true.
Proof.
  induction l as [|a l IH]; simpl; [done|]. unfold derived_DeviceConfig.
  by rewrite !unset_or_same_refl, IH.
Qed.

#[local] Instance example_machinery : Apimachinery :=
  {| set_selector_matches sel l := bool_decide (sel ⊆ l); DeepDerivative := derived_spec |}.

#[local] Instance example_laws : ApimachineryLaws example_machinery.
Proof.
  split; cbn.
  - intros sel l. apply bool_decide_eq_true.
  - done.
  - intros s. unfold derived_spec. rewrite derived_Config_refl. by destruct (DrainSkip s).
Qed.

#[local] Instance example_order : MapOrder := listed_order.

Definition example_device : Device := {|
  VendorID := "8086"; DeviceID := "1592"; PCIAddress := "0000:18:00.0"; dev_Name := "ens1";
  Driver := "ice"; DriverVersion := "1.9"; Firmware := {| MAC := ""; fw_Version := "3.0" |};
  DDP := {| PackageName := ""; ddp_Version := ""; TrackID := "" |} |}.

Definition example_config (name : string) (priority created : Z) (selected_node : string) : EthernetClusterConfig := {|
  ecc_Name := name;
  CreationTimestamp := created;
  ecc_Spec := {|
    NodeSelector := {[ "kubernetes.io/hostname" := selected_node ]}%string;
    ecc_DeviceSelector := {| sel_VendorID := "8086"; sel_DeviceID := ""; sel_PCIAddress := "" |};
    ecc_DeviceConfig := {| DDPURL := ""; DDPChecksum := ""; FWURL := name; FWChecksum := ""; FWUpdateParam := "" |};
    Priority := priority
  |}
|}.

Definition example_node : Node :=
  {| node_Name := "n1"; node_Labels := {[ "kubernetes.io/hostname" := "n1" ]}%string |}.

Definition example_nc : EthernetNodeConfig := {|
  enc_Name := "n1"; enc_Namespace := "default"; enc_Generation := 1;
  enc_Spec := empty_EthernetNodeConfigSpec;
  enc_Status := {| Conditions := []; Devices := [example_device] |} |}.

Definition example_store (nc : EthernetNodeConfig) : gmap string EthernetNodeConfig := {[ "n1"%string := nc ]}.

Lemma example_named nc : enc_Name nc = "n1"%string → named (example_store nc).
Proof. unfold example_store. intros Hn name x [<- <-]%lookup_singleton_Some. done. Qed.

Definition example_env (key : string) : string :=
  if String.eqb key "ETHERNET_GENERIC_K8S" then "TRUE" else "".

Definition example_configs : list EthernetClusterConfig :=
  [example_config "old" 1 5 "n1"; example_config "new" 1 6 "n1"; example_config "elsewhere" 9 7 "n2"].


Definition example_configured_nc : EthernetNodeConfig :=
  synchronized example_configs example_node true example_nc.

(** The one configuration left asks for another node. *)
Lemma withdrawn_config_stays_witness :
  length (Config (enc_Spec example_configured_nc)) = 1%nat
  ∧ @reconcile_node _ example_machinery (cluster_api [example_config "elsewhere" 9 7 "n2"] [example_node] (Err (Errorf "")) example_env) example_order
      "default" [example_config "elsewhere" 9 7 "n2"] true example_node (example_store example_configured_nc)
    = (Ok tt, example_store example_configured_nc).
Proof.
  split; [vm_compute; reflexivity|].
  apply (withdrawn_config_stays "default" [example_config "elsewhere" 9 7 "n2"] [example_node] (Err (Errorf "")) example_env
           example_node true example_configured_nc).
  - intros c d Hc%list_elem_of_singleton _ Hsub. subst c. exfalso.
    apply (bool_decide_eq_true_2 _) in Hsub. by vm_compute in Hsub.
  - by apply example_named.
  - reflexivity.
Defined.
