(* ===== verification/DrainHelper.v ===== *)
(** * Draining a node around some work

    pkg/drainhelper/drainhelper.go. The API server, the drain helper of kubectl, the leader
    election and the retry loop of client-go are parameters; a closure that assigns
    variables of its surroundings takes and returns them. *)

From S2P Require Import Prelude Process.

(** ** Code outside the repository *)

Class Drain (W : Type) : Type := {
  Get_Node : M W unit;
  RunCordonOrUncordon : bool → M W unit;
  RunNodeDrain : M W unit;
  (** The record of the lease, and storing it without a holder. *)
  lease_Get : M W unit;
  lease_release : M W unit;
  drain_backoff :: Backoff W;
  NewLeaderElector : M W unit;
  (** [le.Run] with the callback of the leader. *)
  le_Run {A} : M W A → M W A;
}.

(** The leader election waits until it leads and runs the callback; that the lease is kept until the
    callback is done is assumed. *)
Class DrainLaws {W} (D : Drain W) : Type := {
  drain_backoff_laws :: BackoffLaws drain_backoff;
  le_acquire : W → W;
  le_Run_leads {A} (callback : M W A) w : le_Run callback w = callback (le_acquire w);
}.

Section drain_helper.
Context {W : Type} `{!Drain W}.

Definition backoff_steps : nat := 5.

(** One attempt; the error is kept. *)
Definition drain_attempt (e : option error) : M W (bool * option error) :=
  r ← attempt (RunCordonOrUncordon true);
  match r with
  | inl err => mret (false, Some err)
  | inr _ =>
      r ← attempt RunNodeDrain;
      match r with
      | inl err => mret (false, Some err)
      | inr _ => mret (true, e)
      end
  end.

Definition uncordon_attempt (e : option error) : M W (bool * option error) :=
  r ← attempt (RunCordonOrUncordon false);
  match r with
  | inl err => mret (false, Some err)
  | inr _ => mret (true, e)
  end.

(** [return e] of an error that may be nil. *)
Definition return_error (e : option error) : M W unit :=
  match e with Some e => throw e | None => mret tt end.

Definition cordonAndDrain : M W unit :=
  Get_Node;;
  r ← ExponentialBackoff backoff_steps drain_attempt None;
  if (r.1 : bool) then mret tt else return_error r.2.

Definition Uncordon : M W unit :=
  Get_Node;;
  r ← ExponentialBackoff backoff_steps uncordon_attempt None;
  if (r.1 : bool) then mret tt else return_error r.2.

Section run.
Context {A : Type}.
(** The worker, with the variables it assigns. *)
Variable f : A → M W (bool * A).

(** The closure that assigns [innerErr]. *)
Definition uncordon (innerErr : option error) : M W (option error) :=
  r ← attempt Uncordon;
  match r with inl err => mret (Some err) | inr _ => mret innerErr end.

Definition work (drain : bool) (a : A) : M W (A * option error) :=
  r ← f a;
  let '(performUncordon, a) := r in
  if drain && performUncordon then e ← uncordon None; mret (a, e) else mret (a, None).

Definition OnStartedLeading (drain : bool) (a : A) : M W (A * option error) :=
  if drain then
    r ← attempt cordonAndDrain;
    match r with
    | inl err => e ← uncordon (Some err); mret (a, e)
    | inr _ => work drain a
    end
  else work drain a.

(** The deferred clean-up of the lease. *)
Definition release : M W unit :=
  r ← attempt lease_Get;
  match r with
  | inl _ => mret tt
  | inr _ => attempt lease_release;; mret tt
  end.

(** The worker's variables and [innerErr]. *)
Definition Run (drain : bool) (a : A) : M W (A * option error) :=
  le ← attempt NewLeaderElector;
  match le with
  | inl err => release;; mret (a, Some err)
  | inr _ => r ← le_Run (OnStartedLeading drain a); release;; mret r
  end.
End run.
End drain_helper.

(** ** Cordoning *)

(** What cordons the node: the calls that ask for it, and no others. *)
Class Cordons {W} (D : Drain W) {L : DrainLaws D} : Type := {
  cordoned : W → bool;
  cordon_done b w w' : RunCordonOrUncordon b w = (Ok tt, w') → cordoned w' = b;
  cordon_failed b w e w' : RunCordonOrUncordon b w = (Err e, w') → cordoned w' = cordoned w;
  Get_Node_cordoned b : preserves (λ w, cordoned w = b) Get_Node;
  RunNodeDrain_cordoned b : preserves (λ w, cordoned w = b) RunNodeDrain;
  lease_Get_cordoned b : preserves (λ w, cordoned w = b) lease_Get;
  lease_release_cordoned b : preserves (λ w, cordoned w = b) lease_release;
  NewLeaderElector_cordoned b : preserves (λ w, cordoned w = b) NewLeaderElector;
  le_acquire_cordoned w : cordoned (le_acquire w) = cordoned w;
}.

Section cordoning.
Context {W : Type} (D : Drain W) `{!DrainLaws D} `{!Cordons D}.
Context {A : Type} (f : A → M W (bool * A)).

Lemma drain_attempt_done e w e' w' :
  drain_attempt e w = (Ok (true, e'), w') → cordoned w' = true.
Proof.
  unfold drain_attempt, mbind, M_bind, attempt, mret, M_ret.
  destruct (RunCordonOrUncordon true w) as [[[]|err|] w1] eqn:E; [|done..].
  apply cordon_done in E.
  pose proof (RunNodeDrain_cordoned true w1 E) as Hdrain.
  destruct (RunNodeDrain w1) as [[[]|err|] w2]; simpl in *; [|done..]. by intros [= _ <-].
Qed.

(** The error of an attempt that is not done is kept. *)
Lemma drain_attempt_failed e w e' w' : drain_attempt e w = (Ok (false, e'), w') → is_Some e'.
Proof.
  unfold drain_attempt, mbind, M_bind, attempt, mret, M_ret.
  destruct (RunCordonOrUncordon true w) as [[[]|err|] w1]; [|naive_solver..].
  destruct (RunNodeDrain w1) as [[[]|err|] w2]; naive_solver.
Qed.

Lemma uncordon_attempt_done e w e' w' :
  uncordon_attempt e w = (Ok (true, e'), w') → cordoned w' = false.
Proof.
  unfold uncordon_attempt, mbind, M_bind, attempt, mret, M_ret.
  destruct (RunCordonOrUncordon false w) as [[[]|err|] w1] eqn:E; [|done..].
  apply cordon_done in E. by intros [= _ <-].
Qed.

Lemma uncordon_attempt_failed e w e' w' : uncordon_attempt e w = (Ok (false, e'), w') → is_Some e'.
Proof.
  unfold uncordon_attempt, mbind, M_bind, attempt, mret, M_ret.
  destruct (RunCordonOrUncordon false w) as [[[]|err|] w1]; naive_solver.
Qed.

(** A loop whose attempts keep their error ends with the condition met or an error kept. *)
Lemma repeats_result {B} (g : B → M W (bool * B)) (Q : W → Prop) (R : B → Prop) n b w d b' w' :
  (∀ b w b' w', g b w = (Ok (true, b'), w') → Q w') →
  (∀ b w b' w', g b w = (Ok (false, b'), w') → R b') →
  R b ∨ (0 < n)%nat →
  repeats n g b w = (Ok (d, b'), w') → if d then Q w' else R b'.
Proof.
  intros HQ HR. revert b w. induction n as [|n IH]; intros b w Hb; simpl.
  - intros [= <- <- <-]. destruct Hb as [Hb|Hb]; [done|lia].
  - unfold mbind, M_bind, mret, M_ret. destruct (g b w) as [[[[] b1]|err|] w1] eqn:E; simpl; [|apply IH|done..].
    + intros [= <- <- <-]. by eapply HQ.
    + left. by eapply HR.
Qed.

Lemma cordonAndDrain_done w w' : cordonAndDrain w = (Ok tt, w') → cordoned w' = true.
Proof.
  unfold cordonAndDrain. unfold mbind, M_bind. destruct (Get_Node w) as [[[]|err|] w1]; [|done..].
  rewrite ExponentialBackoff_repeats.
  destruct (repeats _ _ _ w1) as [[[d e]|err|] w2] eqn:E; [|done..].
  eapply (repeats_result drain_attempt (λ w, cordoned w = true) is_Some) in E;
    [|apply drain_attempt_done|apply drain_attempt_failed|unfold backoff_steps; right; lia].
  destruct d; simpl; [by intros [= <-]|]. by destruct E as [err ->].
Qed.

Lemma Uncordon_done w w' : Uncordon w = (Ok tt, w') → cordoned w' = false.
Proof.
  unfold Uncordon. unfold mbind, M_bind. destruct (Get_Node w) as [[[]|err|] w1]; [|done..].
  rewrite ExponentialBackoff_repeats.
  destruct (repeats _ _ _ w1) as [[[d e]|err|] w2] eqn:E; [|done..].
  eapply (repeats_result uncordon_attempt (λ w, cordoned w = false) is_Some) in E;
    [|apply uncordon_attempt_done|apply uncordon_attempt_failed|unfold backoff_steps; right; lia].
  destruct d; simpl; [by intros [= <-]|]. by destruct E as [err ->].
Qed.

Lemma preserves_release b : preserves (λ w, cordoned w = b) release.
Proof.
  apply preserves_bind; [apply preserves_attempt, lease_Get_cordoned|].
  intros [|]; [apply preserves_ret|].
  apply preserves_bind; [apply preserves_attempt, lease_release_cordoned|intros; apply preserves_ret].
Qed.

(** C21 When a run with draining reports no error, the worker ran on a cordoned node, and
    the node is cordoned afterwards exactly if the worker asked for no uncordoning, which it
    does when the node is about to reboot. A run without draining leaves the node to its
    worker alone. *)
Theorem Run_cordons (drain : bool) (a a' : A) (w w' : W)
    (Hf : ∀ a b, preserves (λ w, cordoned w = b) (f a))
    (Hrun : Run f drain a w = (Ok (a', None), w')) :
  ∃ w1 w2 performUncordon, f a w1 = (Ok (performUncordon, a'), w2)
    ∧ (if drain then cordoned w1 = true ∧ cordoned w' = negb performUncordon
       else cordoned w1 = cordoned w ∧ cordoned w' = cordoned w).
Proof.
  unfold Run in Hrun. unfold mbind, M_bind, attempt in Hrun.
  pose proof (NewLeaderElector_cordoned (cordoned w) w eq_refl) as Hle.
  destruct (NewLeaderElector w) as [[[]|err|] w0] eqn:E; simpl in Hle; [| |done].
  2: { destruct (release w0) as [[[]|?|] ?]; naive_solver. }
  rewrite le_Run_leads in Hrun. rewrite <- (le_acquire_cordoned w0) in Hle. set (wl := le_acquire w0) in *.
  destruct (OnStartedLeading f drain a wl) as [[r|err|] wc] eqn:Hlead; [|done..].
  pose proof (preserves_release (cordoned wc) wc eq_refl) as Hrel.
  destruct (release wc) as [[[]|err|] wr]; simpl in Hrun, Hrel; [|done..].
  injection Hrun as -> ->. rewrite Hrel. clear Hrel E.
  unfold OnStartedLeading, work in Hlead. unfold mbind, M_bind, attempt, mret, M_ret in Hlead.
  assert (∀ v err, (uncordon (Some err) v).1 ≠ Ok None) as Hkeep.
  { intros v err. unfold uncordon, mbind, M_bind, attempt. by destruct (Uncordon v) as [[[]|?|] ?]. }
  destruct drain.
  - destruct (cordonAndDrain wl) as [[[]|err|] w1] eqn:Hcord; [| |done].
    2: { specialize (Hkeep w1 err). destruct (uncordon (Some err) w1) as [[[]|?|] ?]; naive_solver. }
    apply cordonAndDrain_done in Hcord.
    pose proof (Hf a true w1 Hcord) as Hw. destruct (f a w1) as [[[p a1]|err|] w2] eqn:Ef; [|done..].
    destruct p; simpl in *.
    + unfold uncordon, mbind, M_bind, attempt, mret, M_ret in Hlead.
      destruct (Uncordon w2) as [[[]|err|] w3] eqn:Hun; simpl in Hlead; [|done..].
      apply Uncordon_done in Hun. injection Hlead as -> ->. exists w1, w2, true. naive_solver.
    + injection Hlead as -> ->. exists w1, wc, false. naive_solver.
  - pose proof (Hf a (cordoned wl) wl eq_refl) as Hw.
    destruct (f a wl) as [[[p a1]|err|] w2] eqn:Ef; [|done..].
    simpl in *. injection Hlead as -> ->. exists wl, wc, p. rewrite Hw, Hle. naive_solver.
Qed.
End cordoning.

(** ** A node that answers *)

(** The state is whether the node is cordoned. *)
#[local] Instance answering_drain : Drain bool := {|
  Get_Node := mret tt;
  RunCordonOrUncordon b := λ _, (Ok tt, b);
  RunNodeDrain := mret tt;
  lease_Get := mret tt;
  lease_release := mret tt;
  drain_backoff := retry_backoff;
  NewLeaderElector := mret tt;
  le_Run A callback := callback;
|}.

#[local] Instance answering_laws : DrainLaws answering_drain := {|
  drain_backoff_laws := retry_backoff_laws;
  le_acquire w := w;
  le_Run_leads A callback w := eq_refl;
|}.

#[local] Instance answering_cordons : Cordons answering_drain.
Proof. refine {| cordoned := λ w : bool, w |}; try done; try (intros b; apply preserves_ret). by intros b w w' [= <-]. Defined.

(** A worker that asks for no uncordoning. *)
Lemma Run_cordons_witness :
  ∃ w1 w2 performUncordon, (λ n : nat, mret (M:=M bool) (false, S n)) 1%nat w1 = (Ok (performUncordon, 2%nat), w2)
    ∧ (if true then cordoned w1 = true ∧ cordoned true = negb performUncordon
       else cordoned w1 = cordoned false ∧ cordoned true = cordoned false).
Proof.
  apply (Run_cordons answering_drain (λ n : nat, mret (M:=M bool) (false, S n)) true 1%nat 2%nat false true).
  - intros a b. apply preserves_ret.
  - reflexivity.
Defined.
