(* ===== verification/Inventory.v ===== *)
(** * The inventory of a node's devices

    pkg/fwddp-daemon/inventory.go. The PCI and network listings (github.com/jaypipes/ghw)
    and the output of ethtool and devlink are the parameter [Hardware]; the two regular
    expressions that read that output are matched here. *)

From S2P Require Import Prelude GoStrings EthernetTypes.

Local Open Scope Z_scope.

Record PCIDevice : Set := {
  pci_Address : string; pci_VendorID : string; pci_ClassID : string; pci_SubclassID : string;
  pci_ProductID : string; pci_ProductName : string
}.

Record NIC : Set := { nic_Name : string; nic_MacAddress : string; nic_PCIAddress : option string }.

Class Hardware (W : Type) : Type := {
  (** [ghw.PCI] and [ListDevices]; the list may hold nil. *)
  ghw_PCI : M W (list (option PCIDevice));
  ghw_Network : M W (list NIC);
  (** [exec.Command(...).Output()] and [CombinedOutput()] *)
  exec_Output : list string → M W string;
  exec_CombinedOutput : list string → M W string;
}.

Section hardware.
Context {W : Type} `{!Hardware W}.

Definition getPCIDevices : M W (list (option PCIDevice)) :=
  devices ← wrapM "failed to get PCI info: %v" ghw_PCI;
  match devices with [] => throw (Errorf "got 0 devices") | _ => mret devices end.

Definition getNetworkInfo : M W (list NIC) := wrapM "failed to get network info: %v" ghw_Network.

Definition execEthtool (nicName : string) : M W string := exec_Output ["ethtool"; "-i"; nicName]%string.

Definition execDevlink (pciAddr : string) : M W string :=
  exec_CombinedOutput ["devlink"; "dev"; "info"; "pci/" +:+ pciAddr]%string.
End hardware.

(** [utils.SupportedDevice]; the other fields of [Compatibility] are not read. *)
Record Compatibility : Set := {
  sup_VendorID : string; sup_Class : string; sup_SubClass : string; sup_DeviceID : string
}.

Notation CompatibilityMap := (gmap string Compatibility).

(** ** Reading the tools' output *)

Definition is_space (c : ascii) : bool := byte_in 9 10 c || byte_in 12 13 c || byte_in 32 32 c.

(** The longest prefix of bytes in a class, and the rest. *)
Fixpoint span (class : ascii → bool) (s : string) : string * string :=
  match s with
  | String c r => if class c then let (a, b) := span class r in (String c a, b) else ("", s)
  | "" => ("", "")
  end%string.

Definition is_name_byte (c : ascii) : bool := byte_in 97 122 c || Ascii.eqb c "-".

(** The expression [^([a-z-]+?)(?:\s*:\s)(.+)$] on one line: name and value. Its classes
    do not overlap, so the first way to match is the only one. *)
Definition ethtool_FindStringSubmatch (line : string) : option (string * string) :=
  let (name, rest) := span is_name_byte line in
  let (_, rest) := span is_space rest in
  match name, rest with
  | String _ _, String c (String d (String v value)) =>
      if Ascii.eqb c ":" && is_space d then Some (name, String v value) else None
  | _, _ => None
  end.

Definition is_word_dot (c : ascii) : bool :=
  byte_in 48 57 c || byte_in 65 90 c || byte_in 97 122 c || Ascii.eqb c "_" || Ascii.eqb c ".".

(** The expression [^\s+([\w\.]+) (.+)$] on one line. *)
Definition devlink_FindStringSubmatch (line : string) : option (string * string) :=
  let (indent, rest) := span is_space line in
  let (name, rest) := span is_word_dot rest in
  match indent, name, rest with
  | String _ _, String _ _, String c (String v value) =>
      if Ascii.eqb c " " then Some (name, String v value) else None
  | _, _, _ => None
  end.

Definition newline : ascii := "010"%char.

Definition with_Driver (d : Device) (x : string) : Device :=
  {| VendorID := VendorID d; DeviceID := DeviceID d; PCIAddress := PCIAddress d; dev_Name := dev_Name d;
     Driver := x; DriverVersion := DriverVersion d; Firmware := Firmware d; DDP := DDP d |}.

Definition with_DriverVersion (d : Device) (x : string) : Device :=
  {| VendorID := VendorID d; DeviceID := DeviceID d; PCIAddress := PCIAddress d; dev_Name := dev_Name d;
     Driver := Driver d; DriverVersion := x; Firmware := Firmware d; DDP := DDP d |}.

Definition with_Firmware (d : Device) (x : FirmwareInfo) : Device :=
  {| VendorID := VendorID d; DeviceID := DeviceID d; PCIAddress := PCIAddress d; dev_Name := dev_Name d;
     Driver := Driver d; DriverVersion := DriverVersion d; Firmware := x; DDP := DDP d |}.

Definition with_DDP (d : Device) (x : DDPInfo) : Device :=
  {| VendorID := VendorID d; DeviceID := DeviceID d; PCIAddress := PCIAddress d; dev_Name := dev_Name d;
     Driver := Driver d; DriverVersion := DriverVersion d; Firmware := Firmware d; DDP := x |}.

(** What one line of [ethtool -i] sets. *)
Definition ethtool_line (device : Device) (line : string) : Device :=
  match ethtool_FindStringSubmatch line with
  | Some ("driver", v) => with_Driver device v
  | Some ("version", v) => with_DriverVersion device v
  | Some ("firmware-version", v) => with_Firmware device {| MAC := MAC (Firmware device); fw_Version := v |}
  | _ => device
  end%string.

Definition devlink_line (device : Device) (line : string) : Device :=
  let ddp := DDP device in
  match devlink_FindStringSubmatch line with
  | Some ("fw.app.name", v) =>
      with_DDP device {| PackageName := v; ddp_Version := ddp_Version ddp; TrackID := TrackID ddp |}
  | Some ("fw.app", v) =>
      with_DDP device {| PackageName := PackageName ddp; ddp_Version := v; TrackID := TrackID ddp |}
  | Some ("fw.app.bundle_id", v) =>
      with_DDP device {| PackageName := PackageName ddp; ddp_Version := ddp_Version ddp; TrackID := v |}
  | _ => device
  end%string.

(** The loop over the interfaces: the first at the device's address. *)
Fixpoint find_nic (nics : list NIC) (address : string) : option NIC :=
  match nics with
  | [] => None
  | nic :: nics =>
      if bool_decide (nic_PCIAddress nic = Some address) then Some nic else find_nic nics address
  end.

(** ** PCI addresses *)

Definition splitPCIAddr (pciAddr : string) : outcome (string * string * string * string) :=
  match Split pciAddr ":"%char with
  | [domain; bus; device_function] =>
      match Split device_function "."%char with
      | [device; function] => Ok (domain, bus, device, function)
      | _ => Err (Errorf "Bus and device %v format issue, cannot split on dot .")
      end
  | _ => Err (Errorf "PCI Address %v format issue, cannot split on colon :")
  end.

Section inventory.
Context {W : Type} `{!Hardware W} `{!MapOrder}.
Variable compatibilityMap : CompatibilityMap.

Definition isDeviceSupported (d : option PCIDevice) : bool :=
  match d with
  | None => false
  | Some d =>
      existsb (λ e : string * Compatibility,
        let supported := e.2 in
        String.eqb (sup_VendorID supported) (pci_VendorID d)
        && String.eqb (sup_Class supported) (pci_ClassID d)
        && String.eqb (sup_SubClass supported) (pci_SubclassID d)
        && String.eqb (sup_DeviceID supported) (pci_ProductID d)) (range_map compatibilityMap)
  end.

Definition addNetInfo (device : Device) : M W Device :=
  net ← attempt getNetworkInfo;
  match net with
  | inl _ => mret device
  | inr nics =>
      match find_nic nics (PCIAddress device) with
      | None => mret device
      | Some nic =>
          let device := with_Firmware device {| MAC := nic_MacAddress nic; fw_Version := fw_Version (Firmware device) |} in
          if String.eqb (nic_Name nic) "" then mret device
          else
            out ← attempt (execEthtool (nic_Name nic));
            match out with
            | inl _ => mret device
            | inr out => mret (foldl ethtool_line device (Split out newline))
            end
      end
  end.

Definition addDDPInfo (device : Device) : M W Device :=
  out ← attempt (execDevlink (PCIAddress device));
  match out with
  | inl _ => mret device
  | inr out => mret (foldl devlink_line device (Split out newline))
  end.

Definition new_Device (d : PCIDevice) : Device := {|
  VendorID := pci_VendorID d; DeviceID := pci_ProductID d; PCIAddress := pci_Address d;
  dev_Name := pci_ProductName d; Driver := ""; DriverVersion := "";
  Firmware := {| MAC := ""; fw_Version := "" |};
  DDP := {| PackageName := ""; ddp_Version := ""; TrackID := "" |} |}.

(** The loop over the PCI devices, which appends to the inventory. *)
Fixpoint supported_devices (pciDevices : list (option PCIDevice)) : M W (list Device) :=
  match pciDevices with
  | [] => mret []
  | pciDevice :: pciDevices =>
      match pciDevice with
      | Some d =>
          if isDeviceSupported (Some d) then
            device ← addNetInfo (new_Device d);
            device ← addDDPInfo device;
            devices ← supported_devices pciDevices;
            mret (device :: devices)
          else supported_devices pciDevices
      | None => supported_devices pciDevices
      end
  end.

Definition GetInventory : M W (list Device) :=
  pciDevices ← getPCIDevices;
  supported_devices pciDevices.
End inventory.
