(* ===== verification/Updaters.v ===== *)
(** * The firmware and DDP updaters

    pkg/fwddp-daemon/{fwupdater,ddpupdater,deviceupdate}.go. Commands, the walk over a
    folder, the XML decoder and plain file access are the parameter [Host]. *)

From S2P Require Import Prelude GoStrings GoPath EthernetTypes Utils Inventory.

Local Open Scope Z_scope.

(** ** Code outside the repository *)

Record FileInfo : Set := { info_Name : string; info_Mode : Z }.

(** What [decoder.Token()] gives, in order: the start of an element with what
    [DecodeElement] reads from it as an integer, another token, or the deadline found to
    have passed before the call. The end of the file and a syntax error both give no
    token, which ends the list. *)
Inductive xml_token : Set :=
  | StartElement (name : string) (decoded : outcome Z)
  | OtherToken
  | DeadlineExceeded.

Class Host (W : Type) : Type := {
  (** [cmd.CombinedOutput()] *)
  CombinedOutput : list string → M W string;
  (** Running the update tool in a directory. *)
  run_nvmupdate : string → list string → M W unit;
  (** [err.( *exec.ExitError)]: the exit code *)
  ExitError : error → option Z;
  ReadFile : string → M W string;
  WriteFile : string → string → M W unit;
  RemoveAll : string → M W unit;
  (** The calls [filepath.Walk] makes of its function; the file may be nil. *)
  Walk : string → M W (list (string * option FileInfo));
  xml_tokens : string → M W (list xml_token);
}.

Definition artifactsFolder : string := "/tmp/nvmupdate".
Definition nvmupdate64e : string := "./nvmupdate64e".
Definition updateOutFile : string := "update.xml".
Definition maxFileSize : Z := 10.

Definition nvmupdate64eCfgPath (p : string) : string := filepath_Join [p; "nvmupdate.cfg"%string].
Definition updateResultPath (p : string) : string := filepath_Join [p; updateOutFile].
Definition isExecutable (info : FileInfo) : bool := negb (Z.land (info_Mode info) 64 =? 0).

(** [fmt.Sprintf("%0wd", n)]: the sign counts in the width. *)
Definition format_padded (width : nat) (n : Z) : string :=
  if n <? 0 then "-" +:+ pad0 (width - 1) (FormatUint (- n)) else pad0 width (FormatUint n).

Section updaters.
Context {W : Type} `{!Os W} `{!Host W}.

(** [utils.ExecCmd] *)
Definition ExecCmd (args : list string) : M W string :=
  match args with
  | [] => throw (Errorf "cmd is empty")
  | _ => CombinedOutput args
  end.

(** [utils.CopyFile] *)
Definition CopyFile (src dst : string) : M W unit :=
  data ← ReadFile src;
  WriteFile dst data.

(** ** deviceupdate.go *)

Fixpoint reboot_flag (tokens : list xml_token) (rebootRequired : bool) : outcome bool :=
  match tokens with
  | [] => Ok rebootRequired
  | DeadlineExceeded :: _ => Err (ExtError "context deadline exceeded")
  | OtherToken :: tokens => reboot_flag tokens rebootRequired
  | StartElement name decoded :: tokens =>
      if String.eqb name "RebootRequired" then
        match decoded with
        | Ok r => reboot_flag tokens (negb (r =? 0))
        | Err e => Err e
        | Panic => Panic
        end
      else reboot_flag tokens rebootRequired
  end.

Definition isRebootRequired (path : string) : M W bool :=
  invf ← OpenNoLinks path;
  size ← Size invf;
  let kSize := size / 1024 in
  if maxFileSize <? kSize then throw (Errorf "Update result xml file too large: ")
  else
    data ← ReadAll invf;
    tokens ← xml_tokens data;
    lift (reboot_flag tokens false).

(** ** fwupdater.go *)

Definition fw_search_path : string := "/sys/module/firmware_class/parameters/path".

(** The command line after the program. *)
Definition nvmupdate_args (pciLocation fwPath fwUpdateParam : string) : list string :=
  ["-u"; "-location"; pciLocation; "-c"; nvmupdate64eCfgPath fwPath; "-o"; updateResultPath fwPath; "-l"]%string
  ++ (if String.eqb fwUpdateParam "" then [] else [fwUpdateParam]).

Definition accepted_exit_code (code : Z) : bool :=
  (code =? 3) || (code =? 30) || (code =? 50) || (code =? 51).

Definition updateFirmware (pciAddr fwPath fwUpdateParam : string) : M W Z :=
  altFw ← attempt (ReadFile fw_search_path);
  let altFwPath := TrimSuffix (match altFw with inr s => s | inl _ => "" end) (String newline "") in
  address ← lift (splitPCIAddr pciAddr);
  let '(domain, bus, _, _) := address in
  bus_dec ← lift (ParseInt bus 16 32);
  domain_dec ← lift (ParseInt domain 16 32);
  let pciLocation := format_padded 2 domain_dec +:+ ":" +:+ format_padded 3 bus_dec in
  r ← attempt (run_nvmupdate fwPath (nvmupdate64e :: nvmupdate_args pciLocation fwPath fwUpdateParam));
  (if negb (String.eqb altFwPath "") then attempt (WriteFile fw_search_path altFwPath);; mret tt else mret tt);;
  match r with
  | inr _ => mret 0
  | inl err =>
      match ExitError err with
      | Some code => if accepted_exit_code code then mret code else throw err
      | None => throw err
      end
  end.

Definition handleFWUpdate (pciAddr fwPath fwUpdateParam : string) : M W bool :=
  if String.eqb fwPath "" then mret false
  else
    returnCode ← updateFirmware pciAddr fwPath fwUpdateParam;
    if (returnCode =? 50) || (returnCode =? 51) then mret true
    else
      r ← attempt (isRebootRequired (updateResultPath fwPath));
      mret (match r with inl _ => true | inr reboot => reboot end).

(** The paths a walk collects; a nil file is dereferenced. *)
Fixpoint walk_paths (keep : string → FileInfo → option string) (visits : list (string * option FileInfo)) :
    outcome (list string) :=
  match visits with
  | [] => Ok []
  | (path, None) :: _ => Panic
  | (path, Some info) :: visits =>
      paths ← walk_paths keep visits;
      Ok (match keep path info with Some p => p :: paths | None => paths end)
  end.

Definition fw_path (path : string) (info : FileInfo) : option string :=
  if HasSuffix (info_Name info) "nvmupdate64e" && isExecutable info
  then Some (TrimSuffix path "nvmupdate64e") else None.

Definition findFwExec (targetPath : string) : M W string :=
  visits ← Walk targetPath;
  fwPaths ← lift (walk_paths fw_path visits);
  match fwPaths with
  | [p] => mret p
  | _ => throw (Errorf "expected to find exactly 1 file starting with 'nvmupdate64e', but found %v - %v")
  end.

Definition prepareFirmware (config : DeviceNodeConfig) : M W string :=
  if String.eqb (FWURL (dnc_DeviceConfig config)) "" then mret ""%string
  else
    let targetPath := filepath_Join [artifactsFolder; dnc_PCIAddress config] in
    CreateFolder targetPath;;
    let fullPath := filepath_Join [targetPath; Base (FWURL (dnc_DeviceConfig config))] in
    DownloadFile fullPath (FWURL (dnc_DeviceConfig config)) (FWChecksum (dnc_DeviceConfig config));;
    Untar fullPath targetPath;;
    findFwExec targetPath.

(** ** ddpupdater.go *)

Definition ddp_profile (path : string) (info : FileInfo) : option string :=
  if HasSuffix (info_Name info) ".pkg" && (Z.land (info_Mode info) ModeSymlink =? 0)
  then Some path else None.

Definition findDdpProfile (targetPath : string) : M W string :=
  visits ← Walk targetPath;
  ddpProfilesPaths ← lift (walk_paths ddp_profile visits);
  match ddpProfilesPaths with
  | [p] => mret p
  | _ => throw (Errorf "expected to find exactly 1 file ending with '.pkg', but found %v - %v")
  end.

Definition prepareDDP (config : DeviceNodeConfig) : M W string :=
  if String.eqb (DDPURL (dnc_DeviceConfig config)) "" then mret ""%string
  else
    let targetPath := filepath_Join [artifactsFolder; dnc_PCIAddress config] in
    CreateFolder targetPath;;
    let fullPath := filepath_Join [targetPath; Base (DDPURL (dnc_DeviceConfig config))] in
    DownloadFile fullPath (DDPURL (dnc_DeviceConfig config)) (DDPChecksum (dnc_DeviceConfig config));;
    UnpackDDPArchive fullPath targetPath;;
    findDdpProfile targetPath.

Definition getDdpUpdatePaths : string * string := CreateFullDdpPaths "/lib/firmware/".

Definition serial_command (pciAddr : string) : list string :=
  ["sh"; "-c"; "lspci -vs " +:+ pciAddr +:+ " | awk '/Device Serial/ {print $NF}' | sed s/-//g"]%string.

(** One of the two places the profile is copied to. *)
Definition install_ddp (ddpProfilePath devId path : string) : M W unit :=
  MkdirAll path 384;;
  CopyFile ddpProfilePath (filepath_Join [path; "ice-" +:+ devId +:+ ".pkg"]%string).

Definition updateDDP (pciAddr ddpProfilePath : string) : M W unit :=
  devId ← ExecCmd (serial_command pciAddr);
  let devId := TrimSuffix devId (String newline "") in
  if String.eqb devId "" then throw (Errorf "failed to extract devId")
  else
    let '(intelPath, updatesPath) := getDdpUpdatePaths in
    forM [intelPath; updatesPath] (install_ddp ddpProfilePath devId).

Definition handleDDPUpdate (pciAddr ddpPath : string) : M W bool :=
  if String.eqb ddpPath "" then mret false
  else updateDDP pciAddr ddpPath;; mret true.
End updaters.
