(* ===== verification/Daemon.v ===== *)
(** * The firmware and DDP daemon

    pkg/fwddp-daemon/daemon.go: the reconciliation that updates the devices of one node.
    The API server and the helpers of k8s.io/apimachinery are parameters. The object a
    handler works on is replaced whenever its status is written, so it is threaded. *)

From S2P Require Import Prelude GoStrings GoPath EthernetTypes Utils DrainHelper Inventory Updaters.

Local Open Scope Z_scope.

(** ** Code outside the repository *)

Class DaemonApi (W : Type) : Type := {
  Get_NodeConfig : string → string → M W EthernetNodeConfig;
  Create_NodeConfig : EthernetNodeConfig → M W EthernetNodeConfig;
  (** The object as the server stored it. *)
  Status_Update : EthernetNodeConfig → M W EthernetNodeConfig;
  IsConflict : error → bool;
  (** [retry.RetryOnConflict(retry.DefaultBackoff, fn)] *)
  RetryOnConflict {A} : (A → M W (option error * A)) → A → M W (option error * A);
  SetStatusCondition : list Condition → Condition → list Condition;
  FindStatusCondition : list Condition → string → option Condition;
}.

(** Tries [fn] again as long as it answers with a conflict, at most [steps] times. *)
Fixpoint on_conflict {W A} (conflict : error → bool) (steps : nat) (fn : A → M W (option error * A)) (a : A) :
    M W (option error * A) :=
  match steps with
  | O => fn a
  | S steps =>
      r ← fn a;
      match r.1 with
      | Some err => if conflict err then on_conflict conflict steps fn r.2 else mret r
      | None => mret r
      end
  end.

Class DaemonApiLaws {W} (D : DaemonApi W) : Type := {
  retries : nat;
  RetryOnConflict_retries {A} (fn : A → M W (option error * A)) a w :
    RetryOnConflict fn a w = on_conflict IsConflict retries fn a w;
  SetStatusCondition_new c : SetStatusCondition [] c = [c];
  FindStatusCondition_nil t : FindStatusCondition [] t = None;
  FindStatusCondition_first c conds : FindStatusCondition (c :: conds) (cond_Type c) = Some c;
}.

Definition UpdateCondition : string := "Updated".
Definition UpdateInProgress : string := "InProgress".
Definition UpdatePostUpdateReboot : string := "PostUpdateReboot".
Definition UpdateFailed : string := "Failed".
Definition UpdateNotRequested : string := "NotRequested".
Definition UpdateSucceeded : string := "Succeeded".

Record deviceUpdateArtifacts : Set := { fwPath : string; ddpPath : string; fwUpdateParam : string }.

Notation deviceUpdateQueue := (gmap string deviceUpdateArtifacts).

(** The three results of a reconciliation. *)
Inductive requeue : Set :=
  | doNotRequeue
  | requeueLater
  | requeueNowWithError (e : option error).

Definition with_Status (nc : EthernetNodeConfig) (status : EthernetNodeConfigStatus) : EthernetNodeConfig :=
  {| enc_Name := enc_Name nc; enc_Namespace := enc_Namespace nc; enc_Generation := enc_Generation nc;
     enc_Spec := enc_Spec nc; enc_Status := status |}.

Definition allDeviceConfigsEmpty (deviceNodeConfigs : list DeviceNodeConfig) : bool :=
  forallb (λ config, bool_decide (dnc_DeviceConfig config = empty_DeviceConfig)) deviceNodeConfigs.

(** [ResourceNamePredicate], for creations and updates *)
Definition ResourceNamePredicate (requiredName name : string) : bool := String.eqb name requiredName.

(** What is watched of an EthernetNodeConfig, with the names and generations the filter reads. *)
Inductive config_event : Set :=
  | ConfigCreated (name : string)
  | ConfigUpdated (name : string) (oldGeneration newGeneration : Z)
  | ConfigDeleted
  | ConfigGeneric.

(** The filter of [SetupWithManager]: both predicates, [GenerationChangedPredicate] being
    that of controller-runtime. *)
Definition event_filter (nodeName : string) (e : config_event) : bool :=
  match e with
  | ConfigCreated name => ResourceNamePredicate nodeName name
  | ConfigUpdated name oldGeneration newGeneration =>
      ResourceNamePredicate nodeName name && negb (newGeneration =? oldGeneration)
  | ConfigDeleted | ConfigGeneric => true
  end.

Definition reboot_command : list string :=
  ["chroot"; "--userspec"; "0"; "/host"; "sh"; "-c"; "systemctl stop kubelet.service; systemctl reboot"]%string.

Section daemon.
Context {W : Type} `{!Os W} `{!Drain W} `{!Hardware W} `{!Host W} `{!DaemonApi W} `{!MapOrder}.
Variable compatibilityMap : CompatibilityMap.
(** [nodeNameRef] *)
Variable nodeName nodeNamespace : string.

Definition getInventory : M W (list Device) := GetInventory compatibilityMap.

(** ** The status *)

(** One attempt of the retry: the error it returns, and the object it leaves. *)
Definition write_status (conditions : list Condition) (nc : EthernetNodeConfig) :
    M W (option error * EthernetNodeConfig) :=
  got ← attempt (Get_NodeConfig (enc_Namespace nc) (enc_Name nc));
  match got with
  | inl err => mret (Some err, nc)
  | inr nc =>
      inv ← attempt getInventory;
      match inv with
      | inl err => mret (Some err, nc)
      | inr inv =>
          let nodeStatus := {| Conditions := foldl SetStatusCondition [] conditions; Devices := inv |} in
          let nc := with_Status nc nodeStatus in
          r ← attempt (Status_Update nc);
          match r with
          | inl err => mret (Some err, nc)
          | inr stored => mret (None, stored)
          end
      end
  end.

Definition updateStatus (nc : EthernetNodeConfig) (conditions : list Condition) :
    M W (option error * EthernetNodeConfig) :=
  RetryOnConflict (write_status conditions) nc.

(** Errors are only logged. *)
Definition updateCondition (nc : EthernetNodeConfig) (status : bool) (reason msg : string) : M W EthernetNodeConfig :=
  let c := {| cond_Type := UpdateCondition; cond_Status := status; cond_Reason := reason;
              cond_Message := msg; ObservedGeneration := enc_Generation nc |} in
  r ← updateStatus nc [c];
  mret r.2.

(** ** The update *)

Definition prepareArtifacts (config : DeviceNodeConfig) : M W deviceUpdateArtifacts :=
  fw ← prepareFirmware config;
  ddp ← prepareDDP config;
  mret {| fwPath := fw; ddpPath := ddp; fwUpdateParam := FWUpdateParam (dnc_DeviceConfig config) |}.

Fixpoint fill_queue (configs : list DeviceNodeConfig) (updateQueue : deviceUpdateQueue) : M W deviceUpdateQueue :=
  match configs with
  | [] => mret updateQueue
  | deviceConfig :: configs =>
      artifacts ← prepareArtifacts deviceConfig;
      fill_queue configs (<[dnc_PCIAddress deviceConfig := artifacts]> updateQueue)
  end.

Definition prepareUpdateQueue (nodeConfig : EthernetNodeConfig) : M W deviceUpdateQueue :=
  getInventory;;
  RemoveAll artifactsFolder;;
  fill_queue (Config (enc_Spec nodeConfig)) ∅.

(** The loop over the queue: whether a reboot is required so far, and the error that ended
    it. *)
Fixpoint update_devices (queue : list (string * deviceUpdateArtifacts)) (rebootRequired : bool) :
    M W (bool * option error) :=
  match queue with
  | [] => mret (rebootRequired, None)
  | (pciAddr, artifacts) :: queue =>
      fwReboot ← attempt (handleFWUpdate pciAddr (fwPath artifacts) (fwUpdateParam artifacts));
      match fwReboot with
      | inl err => mret (rebootRequired, Some err)
      | inr fwReboot =>
          ddpReboot ← attempt (handleDDPUpdate pciAddr (ddpPath artifacts));
          match ddpReboot with
          | inl err => mret (rebootRequired, Some err)
          | inr ddpReboot => update_devices queue (if fwReboot || ddpReboot then true else rebootRequired)
          end
      end
  end.

Definition rebootNode : M W unit := ExecCmd reboot_command;; mret tt.

(** The variables the worker assigns. *)
Record worker_state : Type := {
  ws_nodeConfig : EthernetNodeConfig;
  nodeActionErr : option error;
  rebootRequired : bool
}.

Definition drainFunc (updateQueue : deviceUpdateQueue) (s : worker_state) : M W (bool * worker_state) :=
  r ← update_devices (range_map updateQueue) (rebootRequired s);
  let '(required, err) := r in
  match err with
  | Some err =>
      mret (true, {| ws_nodeConfig := ws_nodeConfig s; nodeActionErr := Some err; rebootRequired := required |})
  | None =>
      attempt (RemoveAll artifactsFolder);;
      if (required : bool) then
        nc ← updateCondition (ws_nodeConfig s) false UpdatePostUpdateReboot "Post-update node reboot";
        reboot ← attempt rebootNode;
        mret (false, {| ws_nodeConfig := nc; nodeActionErr := match reboot with inl err => Some err | inr _ => None end;
                        rebootRequired := true |})
      else mret (true, {| ws_nodeConfig := ws_nodeConfig s; nodeActionErr := None; rebootRequired := false |})
  end.

(** Also gives back the object, which the worker may have replaced. *)
Definition configureNode (updateQueue : deviceUpdateQueue) (nodeConfig : EthernetNodeConfig) :
    M W ((bool * option error) * EthernetNodeConfig) :=
  r ← Run (drainFunc updateQueue) (negb (DrainSkip (enc_Spec nodeConfig)))
        {| ws_nodeConfig := nodeConfig; nodeActionErr := None; rebootRequired := false |};
  let '(s, drainErr) := r in
  match drainErr with
  | Some err => mret ((false, Some err), ws_nodeConfig s)
  | None =>
      match nodeActionErr s with
      | Some err => mret ((false, Some err), ws_nodeConfig s)
      | None => mret ((rebootRequired s, None), ws_nodeConfig s)
      end
  end.

Definition CreateEmptyNodeConfigIfNeeded : M W unit :=
  got ← attempt (Get_NodeConfig nodeNamespace nodeName);
  match got with
  | inr _ => mret tt
  | inl err =>
      if negb (IsNotFound err) then throw err
      else
        nodeConfig ← Create_NodeConfig
          {| enc_Name := nodeName; enc_Namespace := nodeNamespace; enc_Generation := 0;
             enc_Spec := empty_EthernetNodeConfigSpec; enc_Status := {| Conditions := []; Devices := [] |} |};
        Status_Update nodeConfig;; mret tt
  end.

Definition reason_is (condition : option Condition) (reason : string) : bool :=
  match condition with Some c => String.eqb (cond_Reason c) reason | None => false end.

(** After the object is found and no reboot is pending. *)
Definition update_node (nodeConfig : EthernetNodeConfig) : M W requeue :=
  nodeConfig ← updateCondition nodeConfig false UpdateInProgress "Update started";
  updateQueue ← attempt (prepareUpdateQueue nodeConfig);
  match updateQueue with
  | inl err => updateCondition nodeConfig false UpdateFailed (error_text err);; mret requeueLater
  | inr updateQueue =>
      r ← configureNode updateQueue nodeConfig;
      match r with
      | ((_, Some err), nodeConfig) =>
          updateCondition nodeConfig false UpdateFailed (error_text err);; mret requeueLater
      | ((false, None), nodeConfig) =>
          updateCondition nodeConfig true UpdateSucceeded "Updated successfully";; mret doNotRequeue
      | ((true, None), _) => mret doNotRequeue
      end
  end.

(** The reboot was announced: finish the update. *)
Definition finish_update (nodeConfig : EthernetNodeConfig) : M W requeue :=
  r ← attempt Uncordon;
  match r with
  | inl _ => mret requeueLater
  | inr _ =>
      updateCondition nodeConfig true UpdateSucceeded "Updated successfully";;
      mret doNotRequeue
  end.

Definition Reconcile (namespace name : string) : M W requeue :=
  got ← attempt (Get_NodeConfig namespace name);
  match got with
  | inl err =>
      if IsNotFound err then
        created ← attempt CreateEmptyNodeConfigIfNeeded;
        mret (requeueNowWithError (match created with inl err => Some err | inr _ => None end))
      else mret (requeueNowWithError (Some err))
  | inr nodeConfig =>
      let condition := FindStatusCondition (Conditions (enc_Status nodeConfig)) UpdateCondition in
      if reason_is condition UpdatePostUpdateReboot then finish_update nodeConfig
      else if match Config (enc_Spec nodeConfig) with [] => true | _ => false end
              || allDeviceConfigsEmpty (Config (enc_Spec nodeConfig)) then
        updateCondition nodeConfig true UpdateNotRequested "Inventory up to date";;
        mret doNotRequeue
      else update_node nodeConfig
  end.
End daemon.
