(* ===== verification/DaemonTrace.v ===== *)
(** * An environment of the daemon that keeps a trace

    Every operation outside the repository is recorded and answered by an arbitrary
    function of what was recorded before, so that what is proved of traces holds whatever
    the operating system, the cluster and the hardware answer. *)

From S2P Require Import Prelude GoStrings Process EthernetTypes Utils DrainHelper Inventory Updaters Daemon.

Local Open Scope Z_scope.

(** What is recorded, the latest first: an operation that only reads or that touches the
    daemon's own files is [Quiet]; cordoning and draining are recorded when they succeed,
    the other operations when they are tried. *)
Inductive event : Set :=
  | Quiet
  | Cordoned (b : bool)
  | Drained
  | FlashFirmware (dir : string) (command : list string)
  | WriteHostFile (path : string)
  | StatusWritten (conditions : list Condition)
  | RunCommand (args : list string).

Notation trace := (list event).

(** The answers. *)
Class environment : Type := {
  a_OpenFile : trace → string → outcome Z;
  a_Stat_Nlink : trace → string → outcome Z;
  a_Stat : trace → string → outcome unit;
  a_IsNotExist : error → bool;
  a_Size : trace → Z → outcome Z;
  a_ReadAll : trace → Z → outcome string;
  a_Write : trace → Z → outcome unit;
  a_MkdirAll : trace → string → outcome unit;
  a_Glob : trace → string → outcome (list string);
  a_gzip_tar : trace → Z → outcome (list tar_next);
  a_zip : trace → Z → outcome (list zip_entry);
  a_IsErrFormat : error → bool;
  a_http : trace → string → outcome http_response;
  a_Get_Node : trace → outcome unit;
  a_Cordon : trace → bool → outcome unit;
  a_RunNodeDrain : trace → outcome unit;
  a_lease : trace → outcome unit;
  a_NewLeaderElector : trace → outcome unit;
  a_PCI : trace → outcome (list (option PCIDevice));
  a_net : trace → outcome (list NIC);
  a_ethtool : trace → list string → outcome string;
  a_devlink : trace → list string → outcome string;
  a_command : trace → list string → outcome string;
  a_nvmupdate : trace → string → list string → outcome unit;
  a_ExitError : error → option Z;
  a_ReadFile : trace → string → outcome string;
  a_WriteFile : trace → string → outcome unit;
  a_RemoveAll : trace → outcome unit;
  a_Walk : trace → string → outcome (list (string * option FileInfo));
  a_xml : trace → string → outcome (list xml_token);
  a_Get : trace → string → string → outcome EthernetNodeConfig;
  a_Create : trace → EthernetNodeConfig → outcome EthernetNodeConfig;
  a_Status_Update : trace → EthernetNodeConfig → outcome EthernetNodeConfig;
  a_IsConflict : error → bool;
}.

(** Records an operation whatever it answers, or only when it succeeds. *)
Definition record {A} (ev : event) (answer : trace → outcome A) : M trace A := λ tr, (answer tr, ev :: tr).

Definition record_done (ev : event) (answer : trace → outcome unit) : M trace unit := λ tr,
  match answer tr with
  | Ok tt => (Ok tt, ev :: tr)
  | o => (o, Quiet :: tr)
  end.

Section instances.
Context {env : environment}.

#[export] Instance trace_os : Os trace := {|
  File := Z;
  OpenFile path flag perm := record Quiet (λ tr, a_OpenFile tr path);
  Stat_Nlink path := record Quiet (λ tr, a_Stat_Nlink tr path);
  Stat path := record Quiet (λ tr, a_Stat tr path);
  IsNotExist := a_IsNotExist;
  Size f := record Quiet (λ tr, a_Size tr f);
  ReadAll f := record Quiet (λ tr, a_ReadAll tr f);
  ReadUpTo f n := record Quiet (λ tr, a_ReadAll tr f);
  Write f data := record Quiet (λ tr, a_Write tr f);
  MkdirAll path mode := record Quiet (λ tr, a_MkdirAll tr path);
  Glob pattern := record Quiet (λ tr, a_Glob tr pattern);
  gzip_tar f := record Quiet (λ tr, a_gzip_tar tr f);
  zip_NewReader f size := record Quiet (λ tr, a_zip tr f);
  IsErrFormat := a_IsErrFormat;
  http_Get url := record Quiet (λ tr, a_http tr url);
|}.

#[export] Instance trace_drain : Drain trace := {|
  Get_Node := record Quiet (a_Get_Node);
  RunCordonOrUncordon b := record_done (Cordoned b) (λ tr, a_Cordon tr b);
  RunNodeDrain := record_done Drained (a_RunNodeDrain);
  lease_Get := record Quiet (a_lease);
  lease_release := record Quiet (a_lease);
  drain_backoff := retry_backoff;
  NewLeaderElector := record Quiet (a_NewLeaderElector);
  le_Run A callback := callback;
|}.

#[export] Instance trace_hardware : Hardware trace := {|
  ghw_PCI := record Quiet (a_PCI);
  ghw_Network := record Quiet (a_net);
  exec_Output cmd := record Quiet (λ tr, a_ethtool tr cmd);
  exec_CombinedOutput cmd := record Quiet (λ tr, a_devlink tr cmd);
|}.

#[export] Instance trace_host : Host trace := {|
  CombinedOutput args := record (RunCommand args) (λ tr, a_command tr args);
  run_nvmupdate dir command := record (FlashFirmware dir command) (λ tr, a_nvmupdate tr dir command);
  ExitError := a_ExitError;
  ReadFile path := record Quiet (λ tr, a_ReadFile tr path);
  WriteFile path data := record (WriteHostFile path) (λ tr, a_WriteFile tr path);
  RemoveAll path := record Quiet (a_RemoveAll);
  Walk path := record Quiet (λ tr, a_Walk tr path);
  xml_tokens data := record Quiet (λ tr, a_xml tr data);
|}.

#[export] Instance trace_api : DaemonApi trace := {|
  Get_NodeConfig ns name := record Quiet (λ tr, a_Get tr ns name);
  Create_NodeConfig nc := record Quiet (λ tr, a_Create tr nc);
  Status_Update nc := record (StatusWritten (Conditions (enc_Status nc))) (λ tr, a_Status_Update tr nc);
  IsConflict := a_IsConflict;
  RetryOnConflict A := on_conflict (a_IsConflict) 4;
  SetStatusCondition conds c := List.filter (λ x, negb (String.eqb (cond_Type x) (cond_Type c))) conds ++ [c];
  FindStatusCondition conds t := List.find (λ x, String.eqb (cond_Type x) t) conds;
|}.

#[export] Instance trace_drain_laws : DrainLaws trace_drain := {|
  drain_backoff_laws := retry_backoff_laws;
  le_acquire w := w;
  le_Run_leads A callback w := eq_refl;
|}.

#[export] Instance trace_api_laws : DaemonApiLaws trace_api.
Proof.
  refine {| retries := 4%nat |}; [done..|].
  intros c conds. simpl. by rewrite String.eqb_refl.
Defined.
End instances.

(** ** Invariants that quiet operations keep *)

Section quiet.
Context {env : environment} `{!MapOrder}.
Variable P : trace → Prop.
Hypothesis P_quiet : ∀ tr, P tr → P (Quiet :: tr).

Lemma quiet_record {A} (answer : trace → outcome A) : preserves P (record Quiet answer).
Proof. intros tr Htr. by apply P_quiet. Qed.

#[local] Hint Resolve quiet_record : preserves.

(** Unfolds a chain of binds and takes each operation in turn. *)
Ltac quiet :=
  repeat first
    [ progress eauto with preserves
    | apply preserves_bind; [|intros ?]
    | apply preserves_attempt
    | apply preserves_wrapM
    | match goal with |- preserves _ (match ?x with _ => _ end) => destruct x end ].

Lemma quiet_OpenFileNoLinks path flag perm : preserves P (OpenFileNoLinks path flag perm).
Proof. unfold OpenFileNoLinks, isHardLink. simpl. quiet. Qed.
#[local] Hint Resolve quiet_OpenFileNoLinks : preserves.

Lemma quiet_io_Copy file src : preserves P (io_Copy file src).
Proof. unfold io_Copy. simpl. quiet. Qed.
#[local] Hint Resolve quiet_io_Copy : preserves.

Lemma quiet_verifyChecksum path expected : preserves P (verifyChecksum path expected).
Proof. unfold verifyChecksum, OpenNoLinks. simpl. quiet. Qed.
#[local] Hint Resolve quiet_verifyChecksum : preserves.

Lemma quiet_DownloadFile path url checksum : preserves P (DownloadFile path url checksum).
Proof. unfold DownloadFile, CreateNoLinks. simpl. quiet. Qed.

Lemma quiet_CreateFolder path : preserves P (CreateFolder path).
Proof. unfold CreateFolder. simpl. quiet. Qed.

Lemma quiet_Untar src dst : preserves P (Untar src dst).
Proof.
  unfold Untar, OpenNoLinks. simpl. quiet. apply preserves_forM. intros next _.
  unfold untar_entry. simpl. quiet.
Qed.

Lemma quiet_Unzip src dst : preserves P (Unzip src dst).
Proof.
  unfold Unzip, OpenNoLinks. simpl. quiet. apply preserves_forM. intros file _.
  unfold unzip_entry, unzipFile. simpl. quiet.
Qed.
#[local] Hint Resolve quiet_DownloadFile quiet_CreateFolder quiet_Untar quiet_Unzip : preserves.

Lemma quiet_UnpackDDPArchive src dst : preserves P (UnpackDDPArchive src dst).
Proof. unfold UnpackDDPArchive. simpl. quiet. Qed.
#[local] Hint Resolve quiet_UnpackDDPArchive : preserves.

Lemma quiet_prepareFirmware config : preserves P (prepareFirmware config).
Proof. unfold prepareFirmware, findFwExec. simpl. quiet. Qed.

Lemma quiet_prepareDDP config : preserves P (prepareDDP config).
Proof. unfold prepareDDP, findDdpProfile. simpl. quiet. Qed.
#[local] Hint Resolve quiet_prepareFirmware quiet_prepareDDP : preserves.

Lemma quiet_fill_queue configs queue : preserves P (fill_queue configs queue).
Proof. revert queue. induction configs; intros queue; simpl; [|unfold prepareArtifacts]; quiet. Qed.

Lemma quiet_isRebootRequired path : preserves P (isRebootRequired path).
Proof. unfold isRebootRequired, OpenNoLinks. simpl. quiet. Qed.

Lemma quiet_getPCIDevices : preserves P getPCIDevices.
Proof. unfold getPCIDevices. simpl. quiet. Qed.

Lemma quiet_GetInventory compatibilityMap : preserves P (GetInventory compatibilityMap).
Proof.
  unfold GetInventory. apply preserves_bind; [apply quiet_getPCIDevices|]. intros l.
  induction l as [|d l IH]; simpl; [quiet|].
  destruct d as [d|]; [|done]. destruct (existsb _ _); [|done].
  unfold addNetInfo, addDDPInfo, getNetworkInfo, execEthtool, execDevlink. simpl. quiet.
Qed.

Lemma quiet_prepareUpdateQueue compatibilityMap nc : preserves P (prepareUpdateQueue compatibilityMap nc).
Proof.
  apply preserves_bind; [apply quiet_GetInventory|intros _].
  apply preserves_bind; [apply quiet_record|intros _]. apply quiet_fill_queue.
Qed.

(** Uncordoning keeps the invariant if a successful call does. *)
Lemma preserves_Uncordon : (∀ tr, P tr → P (Cordoned false :: tr)) → preserves P Uncordon.
Proof.
  intros Hcordon. unfold Uncordon. apply preserves_bind; [apply quiet_record|intros _].
  apply preserves_bind.
  - cbn [ExponentialBackoff drain_backoff trace_drain retry_backoff]. generalize backoff_steps, (None (A:=error)). intros n.
    induction n as [|n IH]; intros e; simpl; [apply preserves_ret|].
    apply preserves_bind.
    + unfold uncordon_attempt. apply preserves_bind; [|intros [|]; apply preserves_ret].
      apply preserves_attempt. intros tr Htr. cbn [RunCordonOrUncordon trace_drain]. unfold record_done.
      destruct (a_Cordon tr false) as [[]| |]; simpl; auto.
    + intros [[] e']; simpl; [apply preserves_ret|apply IH].
  - intros [[] [err|]]; [apply preserves_ret|apply preserves_ret|apply preserves_throw|apply preserves_ret].
Qed.

(** Writing the status keeps the invariant if writing these conditions does. *)
Lemma preserves_updateCondition compatibilityMap nc status reason msg :
  (∀ tr, P tr → P (StatusWritten [{| cond_Type := UpdateCondition; cond_Status := status; cond_Reason := reason;
     cond_Message := msg; ObservedGeneration := enc_Generation nc |}] :: tr)) →
  preserves P (updateCondition compatibilityMap nc status reason msg).
Proof.
  intros Hwrite. unfold updateCondition, updateStatus. apply preserves_bind; [|intros; apply preserves_ret].
  set (c := {| cond_Type := UpdateCondition |}) in *.
  assert (∀ nc, preserves P (write_status compatibilityMap [c] nc)) as Hstep.
  { intros nc'. unfold write_status. apply preserves_bind; [apply preserves_attempt, quiet_record|].
    intros [?|nc'']; [apply preserves_ret|].
    apply preserves_bind; [apply preserves_attempt, quiet_GetInventory|].
    intros [?|inv]; [apply preserves_ret|].
    apply preserves_bind; [|intros [|]; apply preserves_ret].
    apply preserves_attempt. intros tr Htr. by apply Hwrite. }
  cbn [RetryOnConflict trace_api]. clearbody c. generalize 4%nat. revert nc. intros nc n; revert nc.
  induction n as [|n IH]; intros nc'; simpl; [apply Hstep|].
  apply preserves_bind; [apply Hstep|]. intros [[err|] nc'']; simpl; [|apply preserves_ret].
  destruct (a_IsConflict err); [apply IH|apply preserves_ret].
Qed.
End quiet.
