(* ===== verification/DaemonProtocol.v ===== *)
(** * The protocol of an update

    The order in which the daemon may touch its node: firmware and DDP packages are written
    only while the node is drained (or draining is to be skipped), the node is rebooted
    only from there, possibly after announcing it, and after the reboot nothing follows but
    a report. Every reconciliation keeps to it, whatever its environment answers. *)

From S2P Require Import Prelude GoStrings Process EthernetTypes Utils DrainHelper Inventory Updaters Daemon DaemonTrace.

Local Open Scope Z_scope.

(** ** The protocol *)

Inductive phase : Set := Idle | IsCordoned | IsDrained | Announced | Rebooting.

#[export] Instance phase_eq_dec : EqDecision phase.
Proof. solve_decision. Defined.

(** Devices may be updated. *)
Definition working (skip : bool) (p : phase) : bool :=
  match p with IsDrained => true | Idle => skip | _ => false end.

(** No reboot is under way. *)
Definition grounded (p : phase) : bool :=
  match p with Idle | IsCordoned | IsDrained => true | _ => false end.

Definition announces (c : Condition) : bool := String.eqb (cond_Reason c) UpdatePostUpdateReboot.

Definition step (skip : bool) (p : phase) (ev : event) : option phase :=
  match ev with
  | Quiet => Some p
  | Cordoned true =>
      match p with Idle | IsCordoned => if skip then None else Some IsCordoned | _ => None end
  | Drained => match p with IsCordoned => Some IsDrained | _ => None end
  | Cordoned false => if grounded p then Some Idle else None
  | FlashFirmware _ _ | WriteHostFile _ => if working skip p then Some p else None
  | RunCommand args =>
      if bool_decide (args = reboot_command)
      then if working skip p || bool_decide (p = Announced) then Some Rebooting else None
      else if working skip p then Some p else None
  | StatusWritten conditions =>
      if existsb announces conditions
      then if working skip p || bool_decide (p = Announced) then Some Announced else None
      else if bool_decide (p = Announced) then None else Some p
  end.

(** The phase a trace leads to, from a node this process has not touched; none if the
    trace breaks the protocol. *)
Fixpoint phase_of (skip : bool) (tr : trace) : option phase :=
  match tr with
  | [] => Some Idle
  | ev :: tr => p ← phase_of skip tr; step skip p ev
  end.

Section protocol.
Context {env : environment} {order : MapOrder}.
Variable compatibilityMap : CompatibilityMap.
Variable skip : bool.

Definition at_phase (p : phase) (tr : trace) : Prop := phase_of skip tr = Some p.
Definition in_protocol (tr : trace) : Prop := is_Some (phase_of skip tr).

Lemma at_phase_step p q ev tr : at_phase p tr → step skip p ev = Some q → at_phase q (ev :: tr).
Proof. unfold at_phase. simpl. by intros ->. Qed.

Lemma at_phase_quiet p tr : at_phase p tr → at_phase p (Quiet :: tr).
Proof. intros. by eapply at_phase_step. Qed.

Lemma at_phase_ok p tr : at_phase p tr → in_protocol tr.
Proof. by exists p. Qed.

#[local] Hint Resolve at_phase_quiet at_phase_ok : core.
#[local] Hint Resolve quiet_record : preserves.

(** ** Reports *)

Lemma report_keeps_phase p nc status reason msg :
  p ≠ Announced → reason ≠ UpdatePostUpdateReboot →
  preserves (at_phase p) (updateCondition compatibilityMap nc status reason msg).
Proof.
  intros Hp Hreason. apply preserves_updateCondition; [auto|]. intros tr Htr.
  apply (at_phase_step p); [done|]. simpl. unfold announces. cbn [cond_Reason].
  rewrite (proj2 (String.eqb_neq _ _) Hreason). simpl. by rewrite bool_decide_false.
Qed.

(** ** Updating devices *)

Section updating.
Variable p : phase.
Hypothesis Hwork : working skip p = true.

Lemma work_step ev tr :
  at_phase p tr → match ev with FlashFirmware _ _ | WriteHostFile _ => True | _ => False end → at_phase p (ev :: tr).
Proof. intros Htr Hev. eapply at_phase_step; [done|]. destruct ev; simpl; try done; by rewrite Hwork. Qed.

Lemma quiet_handleFWUpdate pci fw param : preserves (at_phase p) (handleFWUpdate pci fw param).
Proof.
  unfold handleFWUpdate. destruct (String.eqb fw ""); [apply preserves_ret|].
  apply preserves_bind.
  - unfold updateFirmware. cbn [ReadFile run_nvmupdate WriteFile ExitError trace_host].
    apply preserves_bind; [apply preserves_attempt, quiet_record; auto|]. intros alt.
    apply preserves_bind; [apply preserves_lift|]. intros [[[domain bus] ?] ?].
    apply preserves_bind; [apply preserves_lift|]. intros b.
    apply preserves_bind; [apply preserves_lift|]. intros d.
    apply preserves_bind; [apply preserves_attempt; intros tr Htr; by apply work_step|]. intros r.
    apply preserves_bind.
    + destruct (negb _); [|apply preserves_ret].
      apply preserves_bind; [|intros; apply preserves_ret]. apply preserves_attempt. intros tr Htr. by apply work_step.
    + intros _. destruct r as [err|]; [|apply preserves_ret].
      destruct (a_ExitError err); [destruct (accepted_exit_code _)|]; eauto with preserves.
  - intros code. destruct (_ || _); [apply preserves_ret|].
    apply preserves_bind; [|intros; apply preserves_ret]. apply preserves_attempt, quiet_isRebootRequired. auto.
Qed.

Lemma serial_is_not_reboot pci : serial_command pci ≠ reboot_command.
Proof. discriminate. Qed.

Lemma quiet_handleDDPUpdate pci ddp : preserves (at_phase p) (handleDDPUpdate pci ddp).
Proof.
  unfold handleDDPUpdate. destruct (String.eqb ddp ""); [apply preserves_ret|].
  apply preserves_bind; [|intros; apply preserves_ret]. unfold updateDDP, ExecCmd.
  apply preserves_bind.
  { intros tr Htr. eapply at_phase_step; [done|]. cbn [step].
    rewrite bool_decide_false by apply serial_is_not_reboot. by rewrite Hwork. }
  intros devId. destruct (String.eqb _ ""); [apply preserves_throw|].
  destruct getDdpUpdatePaths as [intelPath updatesPath]. apply preserves_forM. intros path _.
  unfold install_ddp, CopyFile. cbn [MkdirAll trace_os ReadFile WriteFile trace_host].
  apply preserves_bind; [apply quiet_record; auto|intros _].
  apply preserves_bind; [apply quiet_record; auto|intros data]. intros tr Htr. by apply work_step.
Qed.

Lemma quiet_update_devices queue required : preserves (at_phase p) (update_devices queue required).
Proof.
  revert required. induction queue as [|[pci artifacts] queue IH]; intros required; simpl; [apply preserves_ret|].
  apply preserves_bind; [apply preserves_attempt, quiet_handleFWUpdate|]. intros [err|fw]; [apply preserves_ret|].
  apply preserves_bind; [apply preserves_attempt, quiet_handleDDPUpdate|]. intros [err|ddp]; [apply preserves_ret|].
  apply IH.
Qed.

(** The worker either leaves the node as it was, or on its way down. *)
Lemma drainFunc_phase queue s tr :
  at_phase p tr →
  ensures (drainFunc compatibilityMap queue s) tr
    (λ r tr', at_phase (if (r.1 : bool) then p else Rebooting) tr') in_protocol.
Proof.
  intros Htr. unfold drainFunc. apply ensures_bind.
  eapply ensures_mono; [by apply ensures_preserved, quiet_update_devices| |by eauto].
  intros [required [err|]] tr1 H1; [done|].
  apply ensures_bind. eapply ensures_mono;
    [apply (ensures_preserved _ _ (at_phase p)), preserves_attempt; [apply quiet_record|]; auto| |by eauto].
  intros ignored tr2 H2; cbn beta in H2; clear ignored. destruct required; [|done].
  apply ensures_bind.
  assert (preserves (λ tr, at_phase p tr ∨ at_phase Announced tr)
    (updateCondition compatibilityMap (ws_nodeConfig s) false UpdatePostUpdateReboot "Post-update node reboot")) as Hann.
  { apply preserves_updateCondition; [naive_solver|]. intros tr' [Htr'|Htr']; right.
    - eapply at_phase_step; [done|]. simpl. by rewrite Hwork.
    - eapply at_phase_step; [done|]. done. }
  eapply ensures_mono; [apply (ensures_of_preserves _ _ _ Hann); by left| |intros ? [|]; by eauto].
  intros nc tr3 H3. apply ensures_bind.
  assert (at_phase Rebooting (RunCommand reboot_command :: tr3)) as Hreboot.
  { destruct H3 as [H3|H3]; (eapply at_phase_step; [done|]); simpl; by rewrite ?Hwork. }
  unfold ensures, attempt, rebootNode, ExecCmd. cbn [CombinedOutput trace_host reboot_command].
  unfold mbind, M_bind, record. by destruct (a_command tr3 _); simpl; [| |eapply at_phase_ok].
Qed.
End updating.

(** ** Draining *)

Definition undrained (tr : trace) : Prop := at_phase Idle tr ∨ at_phase IsCordoned tr.

Lemma undrained_quiet tr : undrained tr → undrained (Quiet :: tr).
Proof. intros [H|H]; [left|right]; auto. Qed.

Lemma undrained_ok tr : undrained tr → in_protocol tr.
Proof. intros [H|H]; eauto. Qed.
#[local] Hint Resolve undrained_quiet undrained_ok : core.

(** An attempt that is not done keeps its error. *)
Lemma drain_attempt_phase (Hskip : skip = false) e tr :
  undrained tr →
  ensures (drain_attempt e) tr
    (λ r tr', if (r.1 : bool) then at_phase IsDrained tr' else undrained tr' ∧ is_Some r.2) in_protocol.
Proof.
  intros Htr. unfold ensures, drain_attempt, mbind, M_bind, attempt, mret, M_ret.
  cbn [RunCordonOrUncordon RunNodeDrain trace_drain]. unfold record_done.
  destruct (a_Cordon tr true) as [[]|err|]; simpl; [|by eauto..].
  assert (at_phase IsCordoned (Cordoned true :: tr)) as H1.
  { destruct Htr as [H|H]; (eapply at_phase_step; [done|]); simpl; by rewrite Hskip. }
  destruct (a_RunNodeDrain (Cordoned true :: tr)) as [[]|err|]; simpl.
  - by eapply at_phase_step.
  - split; [right; auto|by eexists].
  - eauto.
Qed.

Lemma drain_attempts_phase (Hskip : skip = false) n e tr :
  undrained tr → is_Some e ∨ (0 < n)%nat →
  ensures (repeats n drain_attempt e) tr
    (λ r tr', if (r.1 : bool) then at_phase IsDrained tr' else undrained tr' ∧ is_Some r.2) in_protocol.
Proof.
  revert e tr. induction n as [|n IH]; intros e tr Htr He; simpl.
  - unfold ensures. simpl. destruct He; [done|lia].
  - apply ensures_bind. eapply ensures_mono; [by apply drain_attempt_phase| |done].
    intros [[] e'] tr'; simpl; [done|]. intros [Htr' He']. apply IH; auto.
Qed.

Lemma cordonAndDrain_phase (Hskip : skip = false) tr :
  at_phase Idle tr →
  match cordonAndDrain tr with
  | (Ok _, tr') => at_phase IsDrained tr'
  | (Err _, tr') => undrained tr'
  | (Panic, tr') => in_protocol tr'
  end.
Proof.
  intros Htr. unfold cordonAndDrain, mbind, M_bind. cbn [Get_Node ExponentialBackoff drain_backoff trace_drain retry_backoff]. unfold record.
  assert (undrained (Quiet :: tr)) as H1 by (left; auto).
  destruct (a_Get_Node tr); [|done|by auto].
  pose proof (drain_attempts_phase Hskip backoff_steps None _ H1) as H2. unfold ensures in H2.
  assert (∀ e tr', repeats backoff_steps drain_attempt None (Quiet :: tr) = (Err e, tr') → False) as Herr.
  { clear. generalize (Quiet :: tr), (None (A:=error)). generalize backoff_steps. induction n as [|n IH]; intros tr' e0 e tr''; [done|].
    simpl. unfold mbind, M_bind, mret, M_ret.
    assert (∀ x, (drain_attempt e0 tr').1 ≠ Err x) as Hna.
    { intros x. unfold drain_attempt, mbind, M_bind, attempt, mret, M_ret.
      destruct (RunCordonOrUncordon true tr') as [[[]|?|] t]; try done. by destruct (RunNodeDrain t) as [[[]|?|] ?]. }
    destruct (drain_attempt e0 tr') as [[[[] e1]|x|] t]; [done|apply IH|by destruct (Hna x)|done]. }
  destruct (repeats _ _ _ _) as [[[[] e]|err|] tr'] eqn:E; simpl in *.
  - apply H2. right. unfold backoff_steps. lia.
  - destruct H2 as [H2 [err ->]]; [right; unfold backoff_steps; lia|done].
  - by destruct (Herr err tr').
  - apply H2. right. unfold backoff_steps. lia.
Qed.

Definition down_to_earth (tr : trace) : Prop := ∃ p, at_phase p tr ∧ grounded p = true.

Lemma down_quiet tr : down_to_earth tr → down_to_earth (Quiet :: tr).
Proof. intros (p & H & Hp). exists p. auto. Qed.
#[local] Hint Resolve down_quiet : core.

Lemma Uncordon_grounded : preserves down_to_earth Uncordon.
Proof.
  apply preserves_Uncordon; [auto|]. intros tr (p & Htr & Hp). exists Idle. split; [|done].
  eapply at_phase_step; [done|]. simpl. by rewrite Hp.
Qed.

(** ** The run *)

(** On the ground, or rebooting. *)
Definition settled (tr : trace) : Prop := down_to_earth tr ∨ at_phase Rebooting tr.

Lemma settled_quiet tr : settled tr → settled (Quiet :: tr).
Proof. intros [H|H]; [left|right]; auto. Qed.

Lemma settled_ok tr : settled tr → in_protocol tr.
Proof. intros [(p & H & _)|H]; eauto. Qed.
#[local] Hint Resolve settled_quiet settled_ok : core.

Lemma undrained_down tr : undrained tr → down_to_earth tr.
Proof. intros [H|H]; [by exists Idle|by exists IsCordoned]. Qed.

Lemma ensures_settled {A} (m : M trace A) tr :
  preserves down_to_earth m → down_to_earth tr → ensures m tr (λ _, settled) in_protocol.
Proof.
  intros Hm Htr. eapply ensures_mono; [apply (ensures_preserved _ _ down_to_earth), Hm; done| |].
  - intros a tr' Hd. by left.
  - intros tr' Hd. apply settled_ok. by left.
Qed.

Lemma uncordon_grounded e : preserves down_to_earth (uncordon e).
Proof. apply preserves_bind; [apply preserves_attempt, Uncordon_grounded|intros [|]; apply preserves_ret]. Qed.

Lemma work_phase p drain queue s tr :
  working skip p = true → at_phase p tr →
  ensures (work (drainFunc compatibilityMap queue) drain s) tr (λ _, settled) in_protocol.
Proof.
  intros Hp Htr. apply ensures_bind. eapply ensures_mono; [by apply (drainFunc_phase p)| |done].
  intros [perform s'] tr' H; simpl in *.
  assert (grounded p = true) as Hg by (destruct p, skip; done).
  destruct perform.
  - rewrite andb_true_r. destruct drain; [|left; by exists p].
    apply ensures_bind. eapply ensures_mono; [apply ensures_settled; [apply uncordon_grounded|by exists p]|done|done].
  - rewrite andb_false_r. by right.
Qed.

Lemma Run_phase queue s tr :
  at_phase Idle tr →
  ensures (Run (drainFunc compatibilityMap queue) (negb skip) s) tr (λ _, settled) in_protocol.
Proof.
  intros Htr. unfold Run.
  assert (preserves settled release) as Hrel.
  { unfold release. cbn [lease_Get lease_release trace_drain].
    apply preserves_bind; [apply preserves_attempt, quiet_record; auto|]. intros [|]; [apply preserves_ret|].
    apply preserves_bind; [apply preserves_attempt, quiet_record; auto|intros; apply preserves_ret]. }
  assert (∀ (A : Type) (r : A) tr, settled tr → ensures (release;; mret r) tr (λ _, settled) in_protocol) as Hend.
  { intros A r tr' H. apply ensures_bind. eapply ensures_mono; [apply (ensures_of_preserves _ _ _ Hrel H)|done|auto]. }
  apply ensures_bind. eapply ensures_mono;
    [apply (ensures_preserved _ _ (at_phase Idle)), preserves_attempt; [apply quiet_record|]; auto| |by eauto].
  intros [err|[]] tr1 H1; [apply Hend; left; by exists Idle|].
  cbn [le_Run trace_drain]. apply ensures_bind. eapply ensures_mono; [|intros r tr2; apply Hend|done].
  unfold OnStartedLeading. destruct skip eqn:Hskip; cbn [negb].
  - apply (work_phase Idle); [by rewrite Hskip|done].
  - unfold ensures, mbind, M_bind, attempt. pose proof (cordonAndDrain_phase Hskip tr1 H1) as H2.
    destruct (cordonAndDrain tr1) as [[[]|err|] tr2]; [| |done].
    + by apply (work_phase IsDrained).
    + pose proof (uncordon_grounded (Some err) tr2 (undrained_down _ H2)) as H3.
      destruct (uncordon (Some err) tr2) as [[?|?|] tr3]; simpl in *; [by left|apply settled_ok; by left..].
Qed.

(** ** Reconciliation

    Whether to drain is read from the object, which every write of the status reads
    again; it is assumed not to change meanwhile. *)

Section reconcile.
Hypothesis Get_skip : ∀ tr ns name nc, a_Get tr ns name = Ok nc → DrainSkip (enc_Spec nc) = skip.
Hypothesis Status_skip : ∀ tr nc nc',
  a_Status_Update tr nc = Ok nc' → DrainSkip (enc_Spec nc') = DrainSkip (enc_Spec nc).
(** The server does not make up conditions for a new object. *)
Hypothesis Create_status : ∀ tr nc nc', a_Create tr nc = Ok nc' → Conditions (enc_Status nc') = [].

Lemma write_status_skip conds nc tr :
  DrainSkip (enc_Spec nc) = skip →
  ensures (write_status compatibilityMap conds nc) tr (λ r _, DrainSkip (enc_Spec r.2) = skip) (λ _, True).
Proof.
  intros Hnc. unfold write_status, ensures, mbind, M_bind, attempt, mret, M_ret.
  cbn [Get_NodeConfig Status_Update trace_api]. unfold record.
  destruct (a_Get tr _ _) as [nc1|err|] eqn:Eg; [|done..]. apply Get_skip in Eg.
  destruct (getInventory compatibilityMap _) as [[inv|err|] tr2]; [|done..].
  set (nc2 := with_Status nc1 _).
  destruct (a_Status_Update tr2 nc2) as [nc3|err|] eqn:Es; [|done..]. apply Status_skip in Es.
  simpl. by rewrite Es.
Qed.

Lemma updateCondition_skip nc status reason msg tr :
  DrainSkip (enc_Spec nc) = skip →
  ensures (updateCondition compatibilityMap nc status reason msg) tr
    (λ nc' _, DrainSkip (enc_Spec nc') = skip) (λ _, True).
Proof.
  intros Hnc. unfold updateCondition, updateStatus. set (c := {| cond_Type := UpdateCondition |}). clearbody c.
  apply ensures_bind. cbn [RetryOnConflict trace_api].
  assert (∀ n nc tr, DrainSkip (enc_Spec nc) = skip →
    ensures (on_conflict a_IsConflict n (write_status compatibilityMap [c]) nc) tr
      (λ r _, DrainSkip (enc_Spec r.2) = skip) (λ _, True)) as Hretry.
  { clear nc tr Hnc. induction n as [|n IH]; intros nc tr Hnc; simpl; [by apply write_status_skip|].
    apply ensures_bind. eapply ensures_mono; [by apply write_status_skip| |done].
    intros [[err|] nc'] tr' Hnc'; simpl in *; [|done]. destruct (a_IsConflict err); [by apply IH|done]. }
  eapply ensures_mono; [by apply Hretry|done|done].
Qed.

Lemma report_settled nc status reason msg :
  reason ≠ UpdatePostUpdateReboot →
  preserves settled (updateCondition compatibilityMap nc status reason msg).
Proof.
  intros Hr tr [(p & Htr & Hp)|Htr].
  - left. exists p. split; [|done]. apply report_keeps_phase; [by intros ->|done|done].
  - right. by apply report_keeps_phase.
Qed.

(** A report, and then the end. *)
Lemma ensures_report {A} nc status reason msg (r : A) tr :
  reason ≠ UpdatePostUpdateReboot → settled tr →
  ensures (updateCondition compatibilityMap nc status reason msg;; mret r) tr (λ _, settled) in_protocol.
Proof.
  intros Hr Htr. apply ensures_bind.
  eapply ensures_mono; [apply (ensures_of_preserves _ _ _ (report_settled nc status reason msg Hr) Htr)|done|apply settled_ok].
Qed.

Lemma update_node_phase nc tr :
  DrainSkip (enc_Spec nc) = skip → at_phase Idle tr →
  ensures (update_node compatibilityMap nc) tr (λ _, settled) in_protocol.
Proof.
  intros Hnc Htr. unfold update_node. apply ensures_bind.
  eapply ensures_mono; [apply ensures_and; [by apply updateCondition_skip|
    apply (ensures_of_preserves _ _ _ (report_keeps_phase Idle nc false UpdateInProgress "Update started" ltac:(done) ltac:(done)) Htr)]| |].
  2: { intros tr' [_ H]. by eauto. }
  intros nc1 tr1 [Hnc1 H1]. apply ensures_bind. eapply ensures_mono;
    [apply (ensures_of_preserves (at_phase Idle)); [apply preserves_attempt, quiet_prepareUpdateQueue; auto|done]| |eauto].
  intros [err|queue] tr2 H2; [apply ensures_report; [done|left; by exists Idle]|].
  apply ensures_bind. unfold configureNode. rewrite Hnc1. apply ensures_bind.
  eapply ensures_mono; [by apply Run_phase| |done].
  intros [s drainErr] tr3 H3; simpl in *.
  destruct drainErr as [err|]; [by apply ensures_report|].
  destruct (nodeActionErr s); [by apply ensures_report|].
  destruct (rebootRequired s); [done|by apply ensures_report].
Qed.

End reconcile.
End protocol.
