(* ===== verification/DaemonSpec.v ===== *)
(** * What the daemon guarantees, and what it does not

    The exit codes of the update tool, the report of the reboot and what follows it, and
    the inventory; with concrete environments. *)

From S2P Require Import Prelude GoStrings Process EthernetTypes Utils DrainHelper Inventory Updaters Daemon DaemonTrace DaemonProtocol.

Local Open Scope Z_scope.

(** ** The flag of the update tool's result *)

Definition is_flag (t : xml_token) : bool :=
  match t with StartElement name _ => String.eqb name "RebootRequired" | _ => false end.

(** The flag read is that of the last element that has it. *)
Lemma reboot_flag_spec tokens b0 b :
  reboot_flag tokens b0 = Ok b ↔
  Forall (λ t, t ≠ DeadlineExceeded ∧ (is_flag t = true → ∃ r, t = StartElement "RebootRequired" (Ok r))) tokens
  ∧ b = foldl (λ b t, match t with
                      | StartElement name (Ok r) => if String.eqb name "RebootRequired" then negb (r =? 0) else b
                      | _ => b end) b0 tokens.
Proof.
  revert b0. induction tokens as [|t tokens IH]; intros b0; simpl.
  - split; [intros [= <-]; by split|by intros [_ ->]].
  - rewrite Forall_cons. destruct t as [name decoded| |]; simpl.
    + destruct (String.eqb_spec name "RebootRequired") as [->|].
      * destruct decoded as [r|e|]; [rewrite IH; naive_solver|..]; (split; [done|]); intros [[[_ H] _] _]; by destruct (H eq_refl).
      * rewrite IH. destruct decoded; naive_solver.
    + rewrite IH. naive_solver.
    + naive_solver.
Qed.

(** ** Firmware *)

Section firmware.
Context {env : environment}.

Lemma accepted_exit_code_spec code : accepted_exit_code code = true ↔ code ∈ [3; 30; 50; 51].
Proof. unfold accepted_exit_code. rewrite !orb_true_iff, !Z.eqb_eq. set_solver. Qed.

(** The trace grows. *)
Definition extends (tr tr' : trace) : Prop := ∃ new, tr' = new ++ tr.

Lemma extends_cons tr tr' ev : extends tr tr' → extends tr (ev :: tr').
Proof. intros [new ->]. by exists (ev :: new). Qed.

(** What the exit of the tool counts as. *)
Definition tool_result (answer : outcome unit) : outcome Z :=
  match answer with
  | Ok _ => Ok 0
  | Err e =>
      match a_ExitError e with
      | Some code => if accepted_exit_code code then Ok code else Err e
      | None => Err e
      end
  | Panic => Panic
  end.

Lemma tool_result_Err answer e :
  tool_result answer = Err e ↔ answer = Err e ∧ ∀ code, a_ExitError e = Some code → code ∉ [3; 30; 50; 51].
Proof.
  destruct answer as [|e'|]; simpl; [naive_solver| |naive_solver].
  destruct (a_ExitError e') as [code|] eqn:E; [|naive_solver].
  pose proof (accepted_exit_code_spec code). destruct (accepted_exit_code code); naive_solver.
Qed.

Definition fw_command (d b : Z) (fw param : string) : list string :=
  nvmupdate64e :: nvmupdate_args (format_padded 2 d +:+ ":" +:+ format_padded 3 b) fw param.

Section update.
Variable pci domain bus device function : string.
Variable d b : Z.
Hypothesis Hpci : splitPCIAddr pci = Ok (domain, bus, device, function).
Hypothesis Hbus : ParseInt bus 16 32 = Ok b.
Hypothesis Hdomain : ParseInt domain 16 32 = Ok d.
Hypothesis Read_returns : ∀ tr path, a_ReadFile tr path ≠ Panic.
Hypothesis Write_returns : ∀ tr path, a_WriteFile tr path ≠ Panic.

Lemma updateFirmware_run fw param tr :
  ∃ tr', updateFirmware pci fw param tr = (tool_result (a_nvmupdate (Quiet :: tr) fw (fw_command d b fw param)), tr')
    ∧ extends (FlashFirmware fw (fw_command d b fw param) :: Quiet :: tr) tr'.
Proof.
  unfold updateFirmware, mbind at 1, M_bind at 1, attempt at 1. cbn [ReadFile trace_host]. unfold record at 1.
  pose proof (Read_returns tr fw_search_path) as Hr.
  set (command := fw_command d b fw param). set (flashed := FlashFirmware fw command :: Quiet :: tr).
  destruct (a_ReadFile tr fw_search_path) as [alt|err|]; [| |done]; clear Hr;
    unfold mbind, M_bind, attempt, lift, mret, M_ret; rewrite Hpci; cbn iota beta; rewrite Hbus, Hdomain;
    cbn [run_nvmupdate WriteFile ExitError trace_host]; unfold record; fold (fw_command d b fw param); fold command; fold flashed;
    pose proof (Write_returns flashed fw_search_path) as Hw; destruct (a_WriteFile flashed fw_search_path) eqn:Ew; try done; clear Hw;
    destruct (a_nvmupdate (Quiet :: tr) fw command) as [[]|err'|]; cbn [tool_result];
    try (eexists; split; [reflexivity|by exists []]);
    destruct (negb _); rewrite ?Ew; try (destruct (a_ExitError err') as [code|]; [destruct (accepted_exit_code code)|]);
    eexists; (split; [reflexivity|]); (by exists []) || (by exists [WriteHostFile fw_search_path]).
Qed.

(** No reboot is read from a result file only if it was read to its end and its last flag
    is zero or there is none. *)
Lemma isRebootRequired_false path tr tr' :
  isRebootRequired path tr = (Ok false, tr') →
  ∃ tr1 tr2 f data tokens, a_ReadAll tr1 f = Ok data ∧ a_xml tr2 data = Ok tokens ∧ reboot_flag tokens false = Ok false.
Proof.
  unfold isRebootRequired, mbind, M_bind, lift. cbn [Size ReadAll trace_os xml_tokens trace_host]. unfold record.
  destruct (OpenNoLinks path tr) as [[f|?|] tr1]; [|done..].
  destruct (a_Size tr1 f) as [size|?|]; [|done..]. destruct (_ <? _); [done|].
  destruct (a_ReadAll _ f) as [data|?|] eqn:Er; [|done..].
  destruct (a_xml _ data) as [tokens|?|] eqn:Ex; [|done..].
  intros [= Hflag _]. eauto 10.
Qed.

End update.
End firmware.

(** ** Reboots *)

Section reboots.
Context {env : environment} {order : MapOrder}.
Variable compatibilityMap : CompatibilityMap.

(** The reboot does not wait for its announcement: when the status cannot be read (and
    so not be written), the worker reboots the node all the same and asks for it to stay
    cordoned; nothing tells the daemon, when it starts again, that an update was under
    way. *)
Theorem reboot_without_announcement (queue : deviceUpdateQueue) (s : worker_state) (tr tr1 : trace)
    (Hupdated : update_devices (range_map queue) (rebootRequired s) tr = (Ok (true, None), tr1))
    (Hget : ∀ tr ns name, ∃ e, a_Get tr ns name = Err e ∧ a_IsConflict e = false)
    (Hremove : ∀ tr, a_RemoveAll tr ≠ Panic) (Hcommand : ∀ tr args, a_command tr args ≠ Panic) :
  let '(r, tr') := drainFunc compatibilityMap queue s tr in
  tr' = RunCommand reboot_command :: Quiet :: Quiet :: tr1
  ∧ ∃ s', r = Ok (false, s') ∧ rebootRequired s' = true.
Proof.
  unfold drainFunc, updateCondition, updateStatus, write_status, rebootNode, ExecCmd.
  unfold mbind, M_bind, attempt, mret, M_ret.
  rewrite Hupdated. cbn [RemoveAll CombinedOutput trace_host RetryOnConflict trace_api Get_NodeConfig reboot_command].
  unfold record. specialize (Hremove tr1). destruct (a_RemoveAll tr1); [| |done].
  all: cbn [on_conflict]; unfold mbind, M_bind.
  all: match goal with |- context [a_Get ?t ?ns ?n] => destruct (Hget t ns n) as (err & He & Hc); rewrite He end.
  all: cbn [fst snd]; unfold mret, M_ret; rewrite Hc; cbn [fst snd].
  all: match goal with |- context [a_command ?t ?args] => specialize (Hcommand t args); destruct (a_command t args); try done end.
  all: split; [done|by eexists].
Qed.

Definition finished (nc : EthernetNodeConfig) : Condition :=
  {| cond_Type := UpdateCondition; cond_Status := true; cond_Reason := UpdateSucceeded;
     cond_Message := "Updated successfully"; ObservedGeneration := enc_Generation nc |}.

(** All that may happen when an update is finished. *)
Definition finishing (nc : EthernetNodeConfig) (ev : event) : Prop :=
  match ev with
  | Quiet | Cordoned false => True
  | StatusWritten conditions => conditions = [finished nc]
  | _ => False
  end.

End reboots.

(** ** The inventory *)

Section inventory.
Context {W : Type} `{!Hardware W} {order : MapOrder}.
Variable compatibilityMap : CompatibilityMap.

Lemma isDeviceSupported_spec d :
  isDeviceSupported compatibilityMap (Some d) = true ↔
  ∃ name c, compatibilityMap !! name = Some c ∧ sup_VendorID c = pci_VendorID d ∧ sup_Class c = pci_ClassID d
    ∧ sup_SubClass c = pci_SubclassID d ∧ sup_DeviceID c = pci_ProductID d.
Proof.
  unfold isDeviceSupported. rewrite existsb_exists. split.
  - intros ([name c] & Hin%list_elem_of_In%range_map_elem & H). bool_to_prop.
    exists name, c. rewrite !String.eqb_eq in *. naive_solver.
  - intros (name & c & Hc & Hv & Hcl & Hs & Hd). exists (name, c). cbn [snd].
    rewrite <- list_elem_of_In, range_map_elem, Hv, Hcl, Hs, Hd, !String.eqb_refl. done.
Qed.

(** What identifies a device. *)
Definition identity (d : Device) : string * string * string * string :=
  (PCIAddress d, VendorID d, DeviceID d, dev_Name d).

Lemma foldl_identity {A} (f : Device → A → Device) l d :
  (∀ d x, identity (f d x) = identity d) → identity (foldl f d l) = identity d.
Proof. intros Hf. revert d. induction l as [|x l IH]; intros d; simpl; [done|]. by rewrite IH. Qed.

Lemma ethtool_line_identity d line : identity (ethtool_line d line) = identity d.
Proof. unfold ethtool_line. destruct (ethtool_FindStringSubmatch line) as [[n v]|]; [|done]. by repeat case_match. Qed.

Lemma devlink_line_identity d line : identity (devlink_line d line) = identity d.
Proof. unfold devlink_line. destruct (devlink_FindStringSubmatch line) as [[n v]|]; [|done]. by repeat case_match. Qed.

Lemma addNetInfo_identity d w d' w' : addNetInfo d w = (Ok d', w') → identity d' = identity d.
Proof.
  unfold addNetInfo, mbind, M_bind, attempt, mret, M_ret.
  destruct (getNetworkInfo w) as [[nics|?|] w1]; [|naive_solver..].
  destruct (find_nic nics _) as [nic|]; [|naive_solver].
  destruct (String.eqb _ _); [by intros [= <- _]|].
  destruct (execEthtool _ w1) as [[out|?|] w2]; [|by intros [= <- _]|done].
  intros [= <- _]. rewrite foldl_identity; [done|apply ethtool_line_identity].
Qed.

Lemma addDDPInfo_identity d w d' w' : addDDPInfo d w = (Ok d', w') → identity d' = identity d.
Proof.
  unfold addDDPInfo, mbind, M_bind, attempt, mret, M_ret.
  destruct (execDevlink _ w) as [[out|?|] w1]; [|by intros [= <- _]|done].
  intros [= <- _]. apply foldl_identity, devlink_line_identity.
Qed.

(** The supported ones among the PCI devices. *)
Fixpoint supported (pcis : list (option PCIDevice)) : list PCIDevice :=
  match pcis with
  | [] => []
  | Some d :: pcis => if isDeviceSupported compatibilityMap (Some d) then d :: supported pcis else supported pcis
  | None :: pcis => supported pcis
  end.

Lemma supported_devices_spec pcis w devices w' :
  supported_devices compatibilityMap pcis w = (Ok devices, w') →
  identity <$> devices = (identity ∘ new_Device) <$> supported pcis.
Proof.
  revert w devices. induction pcis as [|[d|] pcis IH]; intros w devices; cbn [supported_devices supported].
  - by intros [= <- <-].
  - destruct (isDeviceSupported _ _); [|apply IH]. unfold mbind, M_bind, mret, M_ret.
    destruct (addNetInfo _ w) as [[d1|?|] w1] eqn:E1; [|done..]. apply addNetInfo_identity in E1.
    destruct (addDDPInfo d1 w1) as [[d2|?|] w2] eqn:E2; [|done..]. apply addDDPInfo_identity in E2.
    destruct (supported_devices _ pcis w2) as [[ds|?|] w3] eqn:E3; [|done..]. intros [= <- <-].
    rewrite !fmap_cons, (IH _ _ E3). f_equal. unfold compose. congruence.
  - apply IH.
Qed.

End inventory.

(** ** Concrete environments *)

Definition fine {A B} (a : A) : B → outcome A := λ _, Ok a.

Definition example_pci (address product : string) : PCIDevice := {|
  pci_Address := address; pci_VendorID := "8086"; pci_ClassID := "02"; pci_SubclassID := "00";
  pci_ProductID := product; pci_ProductName := "E810" |}.

Definition example_map : CompatibilityMap :=
  {[ "E810"%string := {| sup_VendorID := "8086"; sup_Class := "02"; sup_SubClass := "00"; sup_DeviceID := "1592" |} ]}.

(** Everything answers; the update tool's result asks for a reboot. *)
Definition answering (get : string → outcome EthernetNodeConfig) (nvmupdate : outcome unit) : environment := {|
  a_OpenFile tr path := Ok 1;
  a_Stat_Nlink tr path := Ok 1;
  a_Stat tr path := Ok tt;
  a_IsNotExist e := false;
  a_Size tr f := Ok 100;
  a_ReadAll tr f := Ok "<xml/>"%string;
  a_Write tr f := Ok tt;
  a_MkdirAll tr path := Ok tt;
  a_Glob tr pattern := Ok [];
  a_gzip_tar tr f := Ok [];
  a_zip tr f := Ok [];
  a_IsErrFormat e := false;
  a_http tr url := Ok {| StatusCode := 200; Body := ("archive"%string, None) |};
  a_Get_Node tr := Ok tt;
  a_Cordon tr b := Ok tt;
  a_RunNodeDrain tr := Ok tt;
  a_lease tr := Ok tt;
  a_NewLeaderElector tr := Ok tt;
  a_PCI tr := Ok [Some (example_pci "0000:18:00.0" "1592"); Some (example_pci "0000:19:00.0" "10fb"); None];
  a_net tr := Ok [{| nic_Name := "ens1"; nic_MacAddress := "aa:bb:cc:dd:ee:ff"; nic_PCIAddress := Some "0000:18:00.0"%string |}];
  a_ethtool tr nic := Ok ("driver: ice" +:+ String newline "firmware-version: 3.20 0x80008d6e")%string;
  a_devlink tr pci := Err (ExtError "devlink: not found");
  a_command tr args := Ok ""%string;
  a_nvmupdate tr dir command := nvmupdate;
  a_ExitError e := match e with ExtError "exit status 50" => Some 50 | ExtError "exit status 2" => Some 2 | _ => None end;
  a_ReadFile tr path := Ok ""%string;
  a_WriteFile tr path := Ok tt;
  a_RemoveAll tr := Ok tt;
  a_Walk tr path := Ok [("/fw/nvmupdate64e"%string, Some {| info_Name := "nvmupdate64e"; info_Mode := 493 |})];
  a_xml tr data := Ok [OtherToken; StartElement "RebootRequired" (Ok 1)];
  a_Get tr ns name := get name;
  a_Create tr nc := Ok (with_Status nc {| Conditions := []; Devices := [] |});
  a_Status_Update tr nc := Ok nc;
  a_IsConflict e := false;
|}.

Definition example_nodeconfig (generation : Z) (conditions : list Condition) : EthernetNodeConfig := {|
  enc_Name := "n1"; enc_Namespace := "default"; enc_Generation := generation;
  enc_Spec := {|
    Config := [{| dnc_PCIAddress := "0000:18:00.0";
                  dnc_DeviceConfig := {| DDPURL := ""; DDPChecksum := ""; FWURL := "http://server/fw.tar.gz";
                                         FWChecksum := ""; FWUpdateParam := "" |} |}];
    DrainSkip := false |};
  enc_Status := {| Conditions := conditions; Devices := [] |} |}.

#[local] Existing Instance listed_order.

Definition updating_env : environment := answering (fine (example_nodeconfig 1 [])) (Ok tt).


Definition failing_env : environment := answering (fine (example_nodeconfig 1 [])) (Err (ExtError "exit status 50")).


Definition silent_env : environment := answering (λ _, Err (ExtError "connection refused")) (Ok tt).

Definition example_queue : deviceUpdateQueue :=
  {[ "0000:18:00.0"%string := {| fwPath := "/fw/"; ddpPath := ""; fwUpdateParam := "" |} ]}.

Definition example_worker : worker_state :=
  {| ws_nodeConfig := example_nodeconfig 1 []; nodeActionErr := None; rebootRequired := false |}.

Definition example_updated : trace :=
  (@update_devices _ (@trace_os silent_env) (@trace_host silent_env) (range_map example_queue) false []).2.

Lemma reboot_without_announcement_witness :
  let '(r, tr') := @drainFunc _ (@trace_os silent_env) (@trace_hardware silent_env) (@trace_host silent_env) (@trace_api silent_env) listed_order
    example_map example_queue example_worker [] in
  tr' = RunCommand reboot_command :: Quiet :: Quiet :: example_updated
  ∧ ∃ s', r = Ok (false, s') ∧ rebootRequired s' = true.
Proof.
  apply (@reboot_without_announcement silent_env listed_order example_map example_queue example_worker [] example_updated).
  - vm_compute. reflexivity.
  - intros tr ns name. eexists. split; reflexivity.
  - discriminate.
  - discriminate.
Defined.

(** The daemon rebooted for generation 1; meanwhile the configuration became generation 2. *)
Definition announced : Condition :=
  {| cond_Type := UpdateCondition; cond_Status := false; cond_Reason := UpdatePostUpdateReboot;
     cond_Message := "Post-update node reboot"; ObservedGeneration := 1 |}.

Definition rebooted_env : environment := answering (fine (example_nodeconfig 2 [announced])) (Ok tt).


Definition example_inventory : list Device :=
  match @GetInventory _ (@trace_hardware updating_env) listed_order example_map [] with (Ok devices, _) => devices | _ => [] end.

