(* ===== verification/AgentDeployment.v ===== *)
(** * The controller that deploys the flow daemon

    controllers/flowconfig/flowconfignodeagentdeployment_controller.go: one pod for each
    node that has VFs of the pool, made from a template. The pods share the maps and the
    containers of the template, so making a pod changes the template: it is part of the
    state. What the API server's answer to a creation writes into the shared containers is
    not modelled. *)

From S2P Require Import Prelude GoStrings Utils.

Local Open Scope Z_scope.

Notation NamespacedName := (string * string)%type.

(** ** Code outside the repository *)

(** [resource.Quantity]; the second result of [AsInt64] is false when the quantity is no
    64-bit integer. *)
Class Quantities : Type := {
  Quantity : Type;
  zero_Quantity : Quantity;
  NewQuantity : Z → Quantity;
  AsInt64 : Quantity → Z * bool;
}.

Class QuantitiesLaws (Q : Quantities) : Prop := {
  AsInt64_zero : AsInt64 zero_Quantity = (0, true);
  AsInt64_New n : AsInt64 (NewQuantity n) = (n, true);
}.

Section types.
Context `{!Quantities}.

(** Maps may be nil. *)
Record Container : Type := {
  c_Name : string;
  Limits : option (gmap string Quantity);
  Requests : option (gmap string Quantity)
}.

(** The volumes by name and path on the host. *)
Record PodSpec : Type := {
  ps_NodeSelector : option (gmap string string);
  Containers : list Container;
  Volumes : list (string * string)
}.

Record AgentPod : Type := {
  ap_Name : string;
  ap_Namespace : string;
  ap_Annotations : option (gmap string string);
  ap_Spec : PodSpec
}.

Record FlowConfigNodeAgentDeployment : Type := {
  ad_Name : string;
  ad_Namespace : string;
  ad_has_owner : bool;
  NADAnnotation : string;
  DCFVfPoolName : string
}.

Record AgentNode : Type := { an_Name : string; Capacity : gmap string Quantity }.

Class AgentApi (S : Type) : Type := {
  Get_Deployment : NamespacedName → M S FlowConfigNodeAgentDeployment;
  Update_Deployment : FlowConfigNodeAgentDeployment → M S unit;
  List_Deployments : M S (list FlowConfigNodeAgentDeployment);
  List_AgentNodes : M S (list AgentNode);
  Get_Pod : NamespacedName → M S AgentPod;
  Create_Pod : AgentPod → M S unit;
  Delete_Pod : AgentPod → M S unit;
  (** [controllerutil.SetControllerReference] for the deployment and for a pod. *)
  own_Deployment : FlowConfigNodeAgentDeployment → outcome FlowConfigNodeAgentDeployment;
  own_Pod : FlowConfigNodeAgentDeployment → AgentPod → outcome AgentPod;
}.
End types.

Definition networkAnnotation : string := "k8s.v1.cni.cncf.io/networks".
Definition nodeLabel : string := "kubernetes.io/hostname".
Definition uftContainerName : string := "uft".
Definition podVolumeName : string := "iceddp".

(** An entry of a map that may be nil, and setting one after making the map if needed. *)
Definition lookup_nil {A} (m : option (gmap string A)) (k : string) : option A :=
  match m with Some m => m !! k | None => None end.

Definition set_entry {A} (m : option (gmap string A)) (k : string) (x : A) : option (gmap string A) :=
  Some (<[k := x]> (default ∅ m)).

(** The state of the reconciler. *)
Record AgentWorld `{!Quantities} (S : Type) : Type := {
  oldDCFVfPoolName : string;
  oldNADAnnotation : string;
  flowConfigPod : PodSpec;
  cluster : S
}.
Arguments oldDCFVfPoolName {_ S}.
Arguments oldNADAnnotation {_ S}.
Arguments flowConfigPod {_ S}.
Arguments cluster {_ S}.

Section agent.
Context `{!Quantities}.

(** ** Resources *)

(** A missing entry reads as the zero quantity. *)
Definition getNodeResources (node : AgentNode) (vfPoolName : string) : Z :=
  if negb (String.eqb vfPoolName "") then (AsInt64 (default zero_Quantity (Capacity node !! vfPoolName))).1 else 0.

Definition getPodResources (pod : AgentPod) (containerIndex : nat) (vfPoolName : string) : outcome Z :=
  match Containers (ap_Spec pod) !! containerIndex with
  | None => Panic
  | Some container => Ok (AsInt64 (default zero_Quantity (lookup_nil (Limits container) vfPoolName))).1
  end.

Definition addResources (container : Container) (vfPoolName : string) (numResources : Z) : Container :=
  {| c_Name := c_Name container;
     Limits := set_entry (Limits container) vfPoolName (NewQuantity numResources);
     Requests := set_entry (Requests container) vfPoolName (NewQuantity numResources) |}.

(** The loop from [i] to [n]; [todo] counts its rounds. *)
Fixpoint annotation_loop (todo : nat) (i n : Z) (nad annotation : string) : string :=
  match todo with
  | O => annotation
  | S todo =>
      annotation_loop todo (i + 1) n nad
        (annotation +:+ nad +:+ (if negb (i =? n) then ", " else ""))
  end.

Definition addAnnotations (numResources : Z) (instance : FlowConfigNodeAgentDeployment) : string :=
  annotation_loop (Z.to_nat numResources) 1 numResources (NADAnnotation instance) "".

(** ** The pod of a node *)

(** The pod for a node and what is left of the template: a node selector that the template
    has is changed in place, and so is the container, whose slice the pod shares. *)
Definition make_pod (template : PodSpec) (instance : FlowConfigNodeAgentDeployment) (node : AgentNode)
    (vfPoolName : string) (numResources : Z) (uftContainerIndex : nat) : outcome (AgentPod * PodSpec) :=
  match Containers template !! uftContainerIndex with
  | None => Panic
  | Some uftContainer =>
      let containers := <[uftContainerIndex := addResources uftContainer vfPoolName numResources]> (Containers template) in
      let selector := set_entry (ps_NodeSelector template) nodeLabel (an_Name node) in
      Ok ({| ap_Name := "flowconfig-daemon-" +:+ an_Name node; ap_Namespace := ad_Namespace instance;
             ap_Annotations := Some {[ networkAnnotation := addAnnotations numResources instance ]};
             ap_Spec := {| ps_NodeSelector := selector; Containers := containers; Volumes := Volumes template |} |},
          {| ps_NodeSelector := match ps_NodeSelector template with Some _ => selector | None => None end;
             Containers := containers; Volumes := Volumes template |})
  end.

Section reconciler.
Context {S : Type} `{!AgentApi S}.
(** [r.Owner != nil], and the index found when the template was read. *)
Variable has_owner : bool.
Variable uftContainerIndex : nat.
Notation AW A := (M (AgentWorld S) A).

Definition cluster_call {A} (m : M S A) : AW A := λ w,
  let (o, s) := m (cluster w) in
  (o, {| oldDCFVfPoolName := oldDCFVfPoolName w; oldNADAnnotation := oldNADAnnotation w;
         flowConfigPod := flowConfigPod w; cluster := s |}).

Definition set_template (template : PodSpec) : AW unit := modify (λ w,
  {| oldDCFVfPoolName := oldDCFVfPoolName w; oldNADAnnotation := oldNADAnnotation w;
     flowConfigPod := template; cluster := cluster w |}).

Definition set_old (pool nad : string) : AW unit := modify (λ w,
  {| oldDCFVfPoolName := pool; oldNADAnnotation := nad; flowConfigPod := flowConfigPod w; cluster := cluster w |}).

Definition setControllerRef {A} (SetControllerReference : A → outcome A) (owned : A) : outcome A :=
  if has_owner then SetControllerReference owned else Ok owned.

Definition CreatePod (instance : FlowConfigNodeAgentDeployment) (node : AgentNode) (vfPoolName : string) : AW unit :=
  let numResources := getNodeResources node vfPoolName in
  if numResources =? 0 then mret tt
  else
    templatePod ← gets flowConfigPod;
    made ← lift (make_pod templatePod instance node vfPoolName numResources uftContainerIndex);
    set_template made.2;;
    pod ← lift (setControllerRef (own_Pod instance) made.1);
    cluster_call (Create_Pod pod).

(** Whether an existing pod is deleted, given what was deployed before. *)
Definition outdated (oldPool oldNad : string) (instance : FlowConfigNodeAgentDeployment) (node : AgentNode)
    (pod : AgentPod) : outcome bool :=
  let vfPoolName := DCFVfPoolName instance in
  if negb (String.eqb oldPool vfPoolName) || negb (String.eqb oldNad (NADAnnotation instance)) then
    match Containers (ap_Spec pod) !! uftContainerIndex with
    | None => Panic
    | Some container => Ok (bool_decide (is_Some (lookup_nil (Limits container) oldPool)))
    end
  else
    currentResource ← getPodResources pod uftContainerIndex vfPoolName;
    Ok (negb (getNodeResources node vfPoolName =? currentResource)).

(** One node: whether its pod was deleted. *)
Definition reconcile_agent_node (instance : FlowConfigNodeAgentDeployment) (node : AgentNode) : AW bool :=
  pod ← attempt (cluster_call (Get_Pod (ad_Namespace instance, "flowconfig-daemon-" +:+ an_Name node)));
  match pod with
  | inl err =>
      if IsNotFound err then attempt (CreatePod instance node (DCFVfPoolName instance));; mret false else mret false
  | inr pod =>
      oldPool ← gets oldDCFVfPoolName;
      oldNad ← gets oldNADAnnotation;
      deletePod ← lift (outdated oldPool oldNad instance node pod);
      if (deletePod : bool) then attempt (cluster_call (Delete_Pod pod));; mret true else mret false
  end.

Fixpoint reconcile_agent_nodes (instance : FlowConfigNodeAgentDeployment) (nodes : list AgentNode)
    (wasPodDeleted : bool) : AW bool :=
  match nodes with
  | [] => mret wasPodDeleted
  | node :: nodes =>
      deleted ← reconcile_agent_node instance node;
      reconcile_agent_nodes instance nodes (wasPodDeleted || deleted)
  end.

Definition setInstanceOwner (instance : FlowConfigNodeAgentDeployment) : AW FlowConfigNodeAgentDeployment :=
  if ad_has_owner instance then mret instance
  else
    owned ← attempt (lift (setControllerRef own_Deployment instance));
    match owned with
    | inl _ => mret instance
    | inr instance => attempt (cluster_call (Update_Deployment instance));; mret instance
    end.

(** The result: whether to come back at once, or after 30 seconds, or not. *)
Inductive agent_result : Set := Done | Requeue | RequeueAfter30.

(** A failure to get the object comes with both an error and a delay. *)
Definition Reconcile (req : NamespacedName) : AW agent_result :=
  got ← attempt (cluster_call (Get_Deployment req));
  match got with
  | inl err => if IsNotFound err then mret Done else throw err
  | inr instance =>
      instance ← setInstanceOwner instance;
      if String.eqb (NADAnnotation instance) "" then mret RequeueAfter30
      else
        nodes ← cluster_call List_AgentNodes;
        wasPodDeleted ← reconcile_agent_nodes instance nodes false;
        set_old (DCFVfPoolName instance) (NADAnnotation instance);;
        mret (if (wasPodDeleted : bool) then Requeue else Done)
  end.

Definition mapNodesToRequests : AW (list NamespacedName) :=
  crList ← attempt (cluster_call List_Deployments);
  match crList with
  | inl _ => mret []
  | inr crList => mret ((λ instance, (ad_Namespace instance, ad_Name instance)) <$> crList)
  end.

(** The filter for updates of a node: its number of VFs of the pool that was deployed. *)
Definition node_update_filter (oldPool : string) (nodeNew nodeOld : AgentNode) : bool :=
  negb (getNodeResources nodeNew oldPool =? getNodeResources nodeOld oldPool).

(** ** The filter of events *)

Inductive agent_object : Type :=
  | DeploymentObject
  | NodeObject (node : AgentNode)
  | OtherObject.

Inductive agent_event : Type :=
  | CreateEvent (o : agent_object)
  | DeleteEvent (o : agent_object)
  | UpdateEvent (old new : agent_object)
  | GenericEvent (o : agent_object).

Definition getNodeFilterPredicates (oldPool : string) (e : agent_event) : bool :=
  match e with
  | CreateEvent DeploymentObject | CreateEvent (NodeObject _) => true
  | CreateEvent OtherObject => false
  | DeleteEvent (NodeObject _) => false
  | DeleteEvent _ => true
  | UpdateEvent (NodeObject nodeOld) (NodeObject nodeNew) => node_update_filter oldPool nodeNew nodeOld
  | UpdateEvent DeploymentObject DeploymentObject => true
  | UpdateEvent _ _ => false
  | GenericEvent _ => true
  end.
End reconciler.

(** ** The template *)

(** The loop over the containers: the index of the last one of the name. *)
Fixpoint find_uft (containers : list Container) (index : nat) (found : option nat) : option nat :=
  match containers with
  | [] => found
  | container :: containers =>
      find_uft containers (S index) (if String.eqb (c_Name container) uftContainerName then Some index else found)
  end.

Definition addDdpVolumes (pod : PodSpec) (ddpPath : string) : PodSpec :=
  {| ps_NodeSelector := ps_NodeSelector pod; Containers := Containers pod;
     Volumes := Volumes pod ++ [(podVolumeName, ddpPath)] |}.

(** [utils.GetFwSearchPath]; its error is only logged. *)
Definition GetFwSearchPath (fwPathBytes : option string) : string := (fw_path_of fwPathBytes).1.

(** The template as read from its file, with its index; [parse_error] is the error of the
    YAML parser, looked at last. *)
Definition getPodTemplate (pod : PodSpec) (parse_error : option error) (fwPathBytes : option string) :
    outcome (PodSpec * nat) :=
  match find_uft (Containers pod) 0 None with
  | None => Err (Errorf "uft container not found in podSpec, pod definition is invalid")
  | Some index =>
      let '(_, ddpPath) := CreateFullDdpPaths (GetFwSearchPath fwPathBytes) in
      match parse_error with
      | Some err => Err err
      | None => Ok (addDdpVolumes pod ddpPath, index)
      end
  end.
End agent.
