(* ===== verification/AgentDeploymentSpec.v ===== *)
(** * What the deployment of the flow daemon guarantees

    The pod made for a node, when it is replaced, and what changing the pool leaves in the
    template. *)

From S2P Require Import Prelude GoStrings Utils AgentDeployment.

Local Open Scope Z_scope.

(** ** The annotation *)

Lemma Join_cons x l sep : l ≠ [] → Join (x :: l) sep = x +:+ sep +:+ Join l sep.
Proof. by destruct l. Qed.

Lemma annotation_loop_spec todo n nad acc :
  annotation_loop todo (n - Z.of_nat todo + 1) n nad acc = acc +:+ Join (replicate todo nad) ", ".
Proof.
  revert acc. induction todo as [|todo IH]; intros acc; cbn [annotation_loop replicate]; [by rewrite str_app_nil_r|].
  replace (n - Z.of_nat (S todo) + 1 + 1) with (n - Z.of_nat todo + 1) by lia. rewrite IH.
  destruct todo as [|todo].
  - replace (n - Z.of_nat 1 + 1) with n by lia. rewrite Z.eqb_refl. cbn [negb replicate Join]. by rewrite !str_app_nil_r.
  - rewrite (proj2 (Z.eqb_neq _ _)) by lia. cbn [negb]. rewrite (Join_cons nad) by done. by rewrite !str_app_assoc.
Qed.

Section agent.
Context `{!Quantities} `{!QuantitiesLaws _}.

Lemma addAnnotations_spec n instance :
  0 ≤ n → addAnnotations n instance = Join (replicate (Z.to_nat n) (NADAnnotation instance)) ", ".
Proof.
  intros Hn. unfold addAnnotations.
  etransitivity; [|apply (annotation_loop_spec (Z.to_nat n) n _ "")]. f_equal. lia.
Qed.

Lemma lookup_set_entry {A} (m : option (gmap string A)) k x : lookup_nil (set_entry m k x) k = Some x.
Proof. apply lookup_insert_eq. Qed.

Lemma lookup_set_entry_ne {A} (m : option (gmap string A)) k j x :
  k ≠ j → lookup_nil (set_entry m k x) j = lookup_nil m j.
Proof. intros Hne. unfold set_entry, lookup_nil. rewrite lookup_insert_ne by done. by destruct m. Qed.

Lemma make_pod_container template instance node pool n index pod template' :
  make_pod template instance node pool n index = Ok (pod, template') →
  ∃ container, Containers template !! index = Some container
    ∧ Containers (ap_Spec pod) !! index = Some (addResources container pool n)
    ∧ Containers template' = Containers (ap_Spec pod)
    ∧ ∀ i, i ≠ index → Containers (ap_Spec pod) !! i = Containers template !! i.
Proof.
  unfold make_pod. destruct (Containers template !! index) as [container|] eqn:E; [|done].
  intros [= <- <-]. exists container. cbn [ap_Spec Containers]. split_and!; [done| |done|].
  - rewrite list_lookup_insert_eq; [done|]. by eapply lookup_lt_Some.
  - intros i Hi. by rewrite list_lookup_insert_ne.
Qed.

(** The pod made for a node carries the node's name, is bound to the node on top of what
    the template selects, asks for as many networks and as many VFs of the pool as the node
    has, and is the template otherwise. *)
Theorem make_pod_spec (template template' : PodSpec) (instance : FlowConfigNodeAgentDeployment)
    (node : AgentNode) (pool : string) (n : Z) (index : nat) (pod : AgentPod)
    (Hn : 0 < n) (Hpod : make_pod template instance node pool n index = Ok (pod, template')) :
  ap_Name pod = "flowconfig-daemon-" +:+ an_Name node
  ∧ ap_Namespace pod = ad_Namespace instance
  ∧ lookup_nil (ap_Annotations pod) networkAnnotation
      = Some (Join (replicate (Z.to_nat n) (NADAnnotation instance)) ", ")
  ∧ lookup_nil (ps_NodeSelector (ap_Spec pod)) nodeLabel = Some (an_Name node)
  ∧ (∀ k, k ≠ nodeLabel → lookup_nil (ps_NodeSelector (ap_Spec pod)) k = lookup_nil (ps_NodeSelector template) k)
  ∧ Volumes (ap_Spec pod) = Volumes template
  ∧ (∀ i, i ≠ index → Containers (ap_Spec pod) !! i = Containers template !! i)
  ∧ ∃ old new, Containers template !! index = Some old ∧ Containers (ap_Spec pod) !! index = Some new
      ∧ c_Name new = c_Name old
      ∧ lookup_nil (Limits new) pool = Some (NewQuantity n) ∧ lookup_nil (Requests new) pool = Some (NewQuantity n)
      ∧ ∀ k, k ≠ pool → lookup_nil (Limits new) k = lookup_nil (Limits old) k
                       ∧ lookup_nil (Requests new) k = lookup_nil (Requests old) k.
Proof.
  destruct (make_pod_container _ _ _ _ _ _ _ _ Hpod) as (old & Hold & Hnew & _ & Hothers).
  unfold make_pod in Hpod. rewrite Hold in Hpod. injection Hpod as <- _. cbn [ap_Name ap_Namespace ap_Annotations ap_Spec ps_NodeSelector Volumes].
  split_and!; [done|done| | |intros k Hk|done|done|].
  - cbn [lookup_nil]. rewrite lookup_singleton_eq. by rewrite addAnnotations_spec by lia.
  - apply lookup_set_entry.
  - by apply lookup_set_entry_ne.
  - exists old, (addResources old pool n). cbn [addResources c_Name Limits Requests].
    rewrite !lookup_set_entry. split_and!; [done..|]. intros k Hk. by rewrite !lookup_set_entry_ne.
Qed.


(** A pod made for one pool stays in the template: after the pool has been changed, the
    pods made for the new pool ask for VFs of the old one too, as many as the last pod of
    the old pool had, whether or not that pod could be created. *)
Theorem old_pool_stays_in_template {S} `{!AgentApi S} (has_owner : bool) (index : nat)
    (instance instance' : FlowConfigNodeAgentDeployment) (node node' : AgentNode) (pool pool' : string) (n' : Z)
    (w : AgentWorld S) (pod : AgentPod) (template : PodSpec)
    (Hne : pool ≠ pool') (Hres : getNodeResources node pool ≠ 0)
    (Hpod : make_pod (flowConfigPod (CreatePod has_owner index instance node pool w).2) instance' node' pool' n' index
            = Ok (pod, template)) :
  ∃ container, Containers (ap_Spec pod) !! index = Some container
    ∧ lookup_nil (Limits container) pool = Some (NewQuantity (getNodeResources node pool))
    ∧ lookup_nil (Limits container) pool' = Some (NewQuantity n').
Proof.
  apply make_pod_container in Hpod as (old & Hold & Hnew & _). exists (addResources old pool' n').
  split; [done|]. cbn [addResources Limits]. rewrite lookup_set_entry, lookup_set_entry_ne by done. split; [|done].
  unfold CreatePod in Hold. rewrite (proj2 (Z.eqb_neq _ _) Hres) in Hold.
  unfold_state. destruct (make_pod (flowConfigPod w) instance node pool _ index) as [[pod1 template1]|e|] eqn:E.
  - apply make_pod_container in E as (old1 & _ & Hnew1 & Ht & _).
    assert (Containers template1 !! index = Some old) as Hkept.
    { unfold cluster_call in Hold; destruct has_owner; simpl in Hold; [destruct (own_Pod instance pod1); simpl in Hold|];
        try (destruct (Create_Pod _ _); simpl in Hold); done. }
    rewrite Ht, Hnew1 in Hkept. injection Hkept as <-. apply lookup_set_entry.
  - simpl in Hold. unfold make_pod in E. by rewrite Hold in E.
  - simpl in Hold. unfold make_pod in E. by rewrite Hold in E.
Qed.
End agent.

(** ** A concrete deployment *)

#[local] Instance integer_quantities : Quantities :=
  {| Quantity := Z; zero_Quantity := 0; NewQuantity n := n; AsInt64 q := (q, true) |}.

#[local] Instance integer_laws : QuantitiesLaws integer_quantities.
Proof. by split. Qed.

Definition example_template : PodSpec := {|
  ps_NodeSelector := None;
  Containers := [{| c_Name := "dcf"; Limits := None; Requests := None |}; {| c_Name := "uft"; Limits := None; Requests := None |}];
  Volumes := [("iceddp", "/lib/firmware/updates/intel/ice/ddp")]%string |}.

Definition example_deployment (pool : string) : FlowConfigNodeAgentDeployment :=
  {| ad_Name := "agent"; ad_Namespace := "flow"; ad_has_owner := true; NADAnnotation := "sriov-cvl-dcf"; DCFVfPoolName := pool |}.

Definition example_agent_node : AgentNode :=
  {| an_Name := "n1"; Capacity := <["intel.com/old" := 2]> {[ "intel.com/new" := 3 ]} |}%string.

Definition example_made (template : PodSpec) (pool : string) : AgentPod * PodSpec :=
  match make_pod template (example_deployment pool) example_agent_node pool (getNodeResources example_agent_node pool) 1 with
  | Ok made => made
  | _ => ({| ap_Name := ""; ap_Namespace := ""; ap_Annotations := None; ap_Spec := template |}, template)
  end.

Lemma make_pod_spec_witness :
  let pod := (example_made example_template "intel.com/old").1 in
  lookup_nil (ap_Annotations pod) networkAnnotation = Some "sriov-cvl-dcf, sriov-cvl-dcf"%string
  ∧ ap_Name pod = "flowconfig-daemon-n1"%string.
Proof.
  destruct (make_pod_spec example_template (example_made example_template "intel.com/old").2 (example_deployment "intel.com/old")
    example_agent_node "intel.com/old" 2 1 (example_made example_template "intel.com/old").1) as (Hname & _ & Hannotation & _).
  - lia.
  - vm_compute. reflexivity.
  - split; [exact Hannotation|exact Hname].
Defined.


(** An API server that takes every pod. *)
#[local] Instance taking_api : AgentApi unit := {|
  Get_Deployment req := mret (example_deployment "intel.com/new");
  Update_Deployment instance := mret tt;
  List_Deployments := mret [];
  List_AgentNodes := mret [example_agent_node];
  Get_Pod req := throw (ApiError NotFound "");
  Create_Pod pod := mret tt;
  Delete_Pod pod := mret tt;
  own_Deployment instance := Ok instance;
  own_Pod instance pod := Ok pod;
|}.

Definition example_agent_world : AgentWorld unit :=
  {| oldDCFVfPoolName := ""; oldNADAnnotation := ""; flowConfigPod := example_template; cluster := tt |}.

Definition example_second : AgentPod * PodSpec :=
  example_made (flowConfigPod (CreatePod true 1 (example_deployment "intel.com/old") example_agent_node "intel.com/old" example_agent_world).2)
    "intel.com/new".

Lemma old_pool_stays_in_template_witness :
  ∃ container, Containers (ap_Spec example_second.1) !! 1%nat = Some container
    ∧ lookup_nil (Limits container) "intel.com/old" = Some (NewQuantity (getNodeResources example_agent_node "intel.com/old"))
    ∧ lookup_nil (Limits container) "intel.com/new" = Some (NewQuantity 3).
Proof.
  apply (old_pool_stays_in_template true 1 (example_deployment "intel.com/old") (example_deployment "intel.com/new")
           example_agent_node example_agent_node "intel.com/old" "intel.com/new" 3 example_agent_world example_second.1 example_second.2).
  - discriminate.
  - discriminate.
  - vm_compute. reflexivity.
Defined.
