(* ===== verification/Labeler.v ===== *)
(** * Configured devices and the node labeler

    [LoadSupportedDevices] of pkg/utils/utils.go, which the labeler and the daemon read
    their device maps with ([LoadConfig] of pkg/fwddp-daemon/daemon.go), and
    pkg/labeler/labeler.go, which labels a node that has one of the devices. *)

From S2P Require Import Prelude GoStrings GoPath GoJson GoJsonDecode Utils Process Inventory.

Local Open Scope Z_scope.

(** ** The device map of a JSON file *)

Definition SupportedDevice_fields : struct_type :=
  [("VendorID", TString); ("Class", TString); ("SubClass", TString); ("DeviceID", TString)]%string.

(** The fields of the embedded struct are fields of the struct. *)
Definition Compatibility_fields : struct_type :=
  SupportedDevice_fields ++ [("Driver", TString); ("Firmware", TString); ("DDP", TSlice TString)]%string.

Definition SupportedDevice_of (v : struct_val) : Compatibility := {|
  sup_VendorID := str_field "VendorID" v; sup_Class := str_field "Class" v;
  sup_SubClass := str_field "SubClass" v; sup_DeviceID := str_field "DeviceID" v |}.

(** [json.Unmarshal] into an empty map from strings to structs: [null] makes the map nil,
    every key decodes into a new struct, the last of equal keys counts. *)
Fixpoint decode_entries (fs : struct_type) (l : list (string * json)) (m : gmap string struct_val) :
    outcome (gmap string struct_val) :=
  match l with
  | [] => Ok m
  | (k, j) :: l => v ← decode_struct (λ _, fs) false "" j; decode_entries fs l (<[k := v]> m)
  end.

Definition Unmarshal_map (fs : struct_type) (b : string) : outcome (gmap string struct_val) :=
  j ← read_all b;
  match j with
  | JNull => Ok ∅
  | JObj l => decode_entries fs l ∅
  | _ => Err ErrType
  end.

Definition configFilesizeLimitInBytes : Z := 10485760.

Section load.
Context {W : Type} `{!Os W}.

Definition LoadSupportedDevices (fs : struct_type) (cfgPath : string) : M W (gmap string struct_val) :=
  file ← wrapM "Failed to open config: %v" (OpenNoLinks (Clean cfgPath));
  size ← wrapM "Failed to get file stat: %v" (Size file);
  if configFilesizeLimitInBytes <? size
  then throw (Errorf "Config file size %d, exceeds limit %d bytes")
  else
    cfgData ← attempt (ReadUpTo file size);
    match cfgData with
    | inl _ => throw (Errorf "Unable to read config: %s")
    | inr cfgData =>
        if negb (Z.of_nat (String.length cfgData) =? size) then throw (Errorf "Unable to read config: %s")
        else lift (wrap "Failed to unmarshal config: %v" (Unmarshal_map fs cfgData))
    end.

Definition compatMapPath : string := "./devices.json".

(** The daemon's map; what the names stand for beside the four ids is not read. *)
Definition LoadConfig : M W CompatibilityMap :=
  cmpMap ← LoadSupportedDevices Compatibility_fields compatMapPath;
  mret (SupportedDevice_of <$> cmpMap).
End load.

(** ** The labeler *)

(** Code outside the repository: github.com/jaypipes/ghw and the client of the API server. *)
Class LabelerApi (W : Type) : Type := {
  ghw_PCI : M W (list (option PCIDevice));
  InClusterConfig : M W unit;
  NewForConfig : M W unit;
  NodeObject : Type;
  (** The labels may be nil; what is set is what is got. *)
  GetLabels : NodeObject → option (gmap string string);
  SetLabels : option (gmap string string) → NodeObject → NodeObject;
  Nodes_Get : string → M W NodeObject;
  Nodes_Update : NodeObject → M W unit;
}.

Class LabelerApiLaws {W} (A : LabelerApi W) : Prop := {
  GetLabels_Set l n : GetLabels (SetLabels l n) = l;
}.

Definition deviceConfig : string := "./devices.json".

Section labeler.
Context {W : Type} `{!Os W} `{!Process W} `{!LabelerApi W} `{!MapOrder}.

Definition getPCIDevices : M W (list (option PCIDevice)) :=
  devices ← wrapM "Failed to get PCI info: %v" ghw_PCI;
  match devices with [] => throw (Errorf "Got 0 devices") | _ => mret devices end.

(** Unlike the daemon's function of this name, a nil device is dereferenced. *)
Definition isDeviceSupported (dev : option PCIDevice) (supportedList : CompatibilityMap) : outcome bool :=
  match range_map supportedList, dev with
  | [], _ => Ok false
  | _, None => Panic
  | entries, Some dev =>
      Ok (existsb (λ e : string * Compatibility,
        let supported := e.2 in
        if negb (String.eqb (pci_VendorID dev) (sup_VendorID supported)) then false
        else if negb (String.eqb (pci_ClassID dev) (sup_Class supported)) then false
        else if negb (String.eqb (pci_SubclassID dev) (sup_SubClass supported)) then false
        else String.eqb (pci_ProductID dev) (sup_DeviceID supported)) entries)
  end.

(** The loop over the devices. *)
Fixpoint any_supported (present : list (option PCIDevice)) (supportedList : CompatibilityMap) : outcome bool :=
  match present with
  | [] => Ok false
  | dev :: present =>
      found ← isDeviceSupported dev supportedList;
      if (found : bool) then Ok true else any_supported present supportedList
  end.

Definition findSupportedDevice (supportedList : option CompatibilityMap) : M W bool :=
  match supportedList with
  | None => throw (Errorf "config not provided")
  | Some supportedList =>
      present ← wrapM "failed to get PCI devices: %v" getPCIDevices;
      lift (any_supported present supportedList)
  end.

(** The labels the node is given: an entry of a nil map cannot be set, deleting one is
    fine. *)
Definition new_labels (nodeLabels : option (gmap string string)) (label : string) (isDevicePresent : bool) :
    outcome (option (gmap string string)) :=
  match nodeLabels, isDevicePresent with
  | Some nodeLabels, true => Ok (Some (<[label := ""%string]> nodeLabels))
  | None, true => Panic
  | nodeLabels, false => Ok (delete label <$> nodeLabels)
  end.

Definition setNodeLabel (nodeName label : string) (isDevicePresent : bool) : M W unit :=
  if String.eqb label "" then throw (Errorf "label is empty (check the NODELABEL env var)")
  else if String.eqb nodeName "" then throw (Errorf "nodeName is empty (check the NODENAME env var)")
  else
    wrapM "Failed to get cluster config: %v\n" InClusterConfig;;
    wrapM "Failed to initialize clientset: %v\n" NewForConfig;;
    node ← wrapM "Failed to get the node object: %v\n" (Nodes_Get nodeName);
    nodeLabels ← lift (new_labels (GetLabels node) label isDevicePresent);
    wrapM "Failed to update the node object: %v\n" (Nodes_Update (SetLabels nodeLabels node)).

Definition DeviceDiscovery : M W unit :=
  supportedDevices ← wrapM "failed to load devices: %v" (LoadSupportedDevices SupportedDevice_fields deviceConfig);
  if bool_decide (supportedDevices = ∅) then throw (Errorf "no devices configured")
  else
    devFound ← wrapM "failed to find device: %v" (findSupportedDevice (Some (SupportedDevice_of <$> supportedDevices)));
    nodeName ← Getenv "NODENAME";
    nodeLabel ← Getenv "NODELABEL";
    setNodeLabel nodeName nodeLabel devFound.
End labeler.
