(* ===== verification/LabelerSpec.v ===== *)
(** * What the labeler does to a node

    When the labeler succeeds the node carries the label exactly if it has a device of the
    configuration, and its other labels are what they were; and what is read from the file
    of the devices. *)

From S2P Require Import Prelude GoStrings GoPath GoJson GoJsonDecode Utils UtilsSpec Process Inventory Labeler.

Local Open Scope Z_scope.

(** The device has the four ids of an entry. *)
Definition listed (supportedList : CompatibilityMap) (dev : PCIDevice) : Prop :=
  ∃ name c, supportedList !! name = Some c ∧ sup_VendorID c = pci_VendorID dev ∧ sup_Class c = pci_ClassID dev
    ∧ sup_SubClass c = pci_SubclassID dev ∧ sup_DeviceID c = pci_ProductID dev.

(** The two computations in a row that a successful call is made of. *)
Lemma M_bind_Ok {W A B} (m : M W A) (k : A → M W B) w b w' :
  (m ≫= k) w = (Ok b, w') ↔ ∃ a w1, m w = (Ok a, w1) ∧ k a w1 = (Ok b, w').
Proof. unfold mbind, M_bind. destruct (m w) as [[a|e|] w1]; naive_solver. Qed.

Lemma wrapM_Ok {W A} fmt (m : M W A) w a w' : wrapM fmt m w = (Ok a, w') ↔ m w = (Ok a, w').
Proof. unfold wrapM. destruct (m w) as [[x|e|] w1]; naive_solver. Qed.

Lemma lift_Ok {W A} (o : outcome A) (w : W) a w' : lift o w = (Ok a, w') ↔ o = Ok a ∧ w' = w.
Proof. unfold lift. naive_solver. Qed.

Section labeler_spec.
Context {W : Type} `{HO : !Os W} `{HP : !Process W} `{HA : !LabelerApi W} `{HL : !LabelerApiLaws HA} `{!MapOrder}.

Lemma isDeviceSupported_listed dev supportedList b :
  supportedList ≠ ∅ → isDeviceSupported dev supportedList = Ok b →
  ∃ d, dev = Some d ∧ (b = true ↔ listed supportedList d).
Proof.
  intros Hne. unfold isDeviceSupported. destruct (range_map supportedList) as [|e entries] eqn:Hm.
  { destruct Hne. apply map_eq. intros k. rewrite lookup_empty. apply eq_None_not_Some. intros [x Hx].
    apply range_map_elem in Hx. rewrite Hm in Hx. by apply elem_of_nil in Hx. }
  destruct dev as [d|]; [|done]. rewrite <- Hm. intros [= <-]. exists d. split; [done|].
  rewrite existsb_exists. unfold listed. split.
  - intros ([name c] & Hin & Hc). apply list_elem_of_In, range_map_elem in Hin. exists name, c. cbn in Hc.
    revert Hc. by destruct (String.eqb_spec (pci_VendorID d) (sup_VendorID c)),
      (String.eqb_spec (pci_ClassID d) (sup_Class c)), (String.eqb_spec (pci_SubclassID d) (sup_SubClass c)),
      (String.eqb_spec (pci_ProductID d) (sup_DeviceID c)).
  - intros (name & c & Hin & H1 & H2 & H3 & H4). exists (name, c).
    split; [by apply list_elem_of_In, range_map_elem|]. cbn. by rewrite H1, H2, H3, H4, !String.eqb_refl.
Qed.

Lemma any_supported_listed present supportedList b :
  supportedList ≠ ∅ → any_supported present supportedList = Ok b →
  b = true ↔ ∃ d, Some d ∈ present ∧ listed supportedList d.
Proof.
  intros Hne. induction present as [|dev present IH]; cbn [any_supported].
  { intros [= <-]. split; [done|]. intros (d & Hd & _). by apply elem_of_nil in Hd. }
  intros Hany. apply outcome_bind_Ok in Hany as (found & Hfound & Hany).
  apply isDeviceSupported_listed in Hfound as (d & -> & Hd); [|done]. destruct found.
  - injection Hany as <-. split; [|done]. intros _. exists d. split; [by left|by apply Hd].
  - rewrite (IH Hany). split.
    + intros (d' & Hin & Hl). exists d'. split; [by right|done].
    + intros (d' & Hin & Hl). apply elem_of_cons in Hin as [[= ->]|Hin]; [by apply Hd in Hl|by exists d'].
Qed.

(** The label is set or not there, and the others are as before. *)
Lemma new_labels_lookup labels label present l k :
  new_labels labels label present = Ok l →
  default ∅ l !! k = if String.eqb k label then (if present then Some ""%string else None)
                     else default ∅ labels !! k.
Proof.
  destruct labels as [m|], present; cbn; intros [= <-]; cbn; try done;
    destruct (String.eqb_spec k label) as [->|Hne]; try done.
  - by rewrite lookup_insert_eq.
  - by rewrite lookup_insert_ne.
  - by rewrite lookup_delete_eq.
  - by rewrite lookup_delete_ne.
Qed.

(** C23 When the discovery succeeds it has read a map of devices that is not empty, listed at
    least one device, and written the node once: with the label exactly if one of the
    devices listed is in the map, without it otherwise, and with its other labels as they
    were read. *)
Theorem DeviceDiscovery_spec w w' :
  DeviceDiscovery w = (Ok tt, w') →
  ∃ supported w1 present w2 node w3 w4 node' label,
    LoadSupportedDevices SupportedDevice_fields deviceConfig w = (Ok supported, w1) ∧ supported ≠ ∅
    ∧ ghw_PCI w1 = (Ok present, w2) ∧ present ≠ []
    ∧ label = default ""%string (LookupEnv "NODELABEL" w2) ∧ label ≠ ""%string
    ∧ Nodes_Get (default ""%string (LookupEnv "NODENAME" w2)) w3 = (Ok node, w4)
    ∧ Nodes_Update node' w4 = (Ok tt, w')
    ∧ (default ∅ (GetLabels node') !! label = Some ""%string
       ↔ ∃ d, Some d ∈ present ∧ listed (SupportedDevice_of <$> supported) d)
    ∧ (is_Some (default ∅ (GetLabels node') !! label)
       → default ∅ (GetLabels node') !! label = Some ""%string)
    ∧ ∀ k, k ≠ label → default ∅ (GetLabels node') !! k = default ∅ (GetLabels node) !! k.
Proof.
  unfold DeviceDiscovery. rewrite M_bind_Ok. setoid_rewrite wrapM_Ok. intros (supported & w1 & Hload & Hrun).
  case_bool_decide as Hne; [done|]. apply M_bind_Ok in Hrun as (found & w2 & Hfind & Hrun).
  apply wrapM_Ok, M_bind_Ok in Hfind as (present & wp & Hpci & Hfind). apply wrapM_Ok in Hpci.
  apply lift_Ok in Hfind as [Hfind <-]. apply M_bind_Ok in Hpci as (devices & w2' & Hpci & Hdev).
  apply wrapM_Ok in Hpci.
  assert (Hpresent : devices = present ∧ present ≠ [] ∧ w2 = w2') 
    by (destruct devices; [done|]; by injection Hdev as <- <-).
  destruct Hpresent as (-> & Hpresent & <-).
  apply any_supported_listed in Hfind; [|by rewrite fmap_empty_iff].
  unfold Getenv in Hrun. unfold mbind at 1, M_bind at 1, gets at 1 in Hrun. unfold mbind at 1, M_bind at 1, gets at 1 in Hrun.
  cbn beta iota in Hrun. unfold setNodeLabel in Hrun.
  destruct (String.eqb_spec (default ""%string (LookupEnv "NODELABEL" w2)) "") as [|Hlabel]; [done|].
  destruct (String.eqb _ ""); [done|].
  apply M_bind_Ok in Hrun as ([] & w3 & _ & Hrun). apply M_bind_Ok in Hrun as ([] & w3' & _ & Hrun).
  apply M_bind_Ok in Hrun as (node & w4 & Hget & Hrun). apply wrapM_Ok in Hget.
  apply M_bind_Ok in Hrun as (labels & w4' & Hlabels & Hrun). apply lift_Ok in Hlabels as [Hlabels ->]. apply wrapM_Ok in Hrun.
  pose proof (λ k, new_labels_lookup _ _ _ _ k Hlabels) as Hlookup.
  exists supported, w1, present, w2, node, w3', w4, (SetLabels labels node), (default ""%string (LookupEnv "NODELABEL" w2)).
  rewrite GetLabels_Set. rewrite (Hlookup (default _ _)), String.eqb_refl. split_and!; try done.
  - rewrite <- Hfind. by destruct found.
  - destruct found; [done|]. by intros [? ?].
  - intros k Hk. rewrite Hlookup. by destruct (String.eqb_spec k (default ""%string (LookupEnv "NODELABEL" w2))).
Qed.

(** A node without labels: the discovery panics as soon as there is something to label. *)
Lemma unlabelled_node_panics node nodeName label w w1 w2 w3 :
  label ≠ ""%string → nodeName ≠ ""%string →
  InClusterConfig w = (Ok tt, w1) → NewForConfig w1 = (Ok tt, w2) →
  Nodes_Get nodeName w2 = (Ok node, w3) → GetLabels node = None →
  setNodeLabel nodeName label true w = (Panic, w3).
Proof.
  intros Hl Hn H1 H2 H3 Hlabels. unfold setNodeLabel.
  rewrite (proj2 (String.eqb_neq _ _) Hl), (proj2 (String.eqb_neq _ _) Hn).
  unfold wrapM, mbind, M_bind. rewrite H1. cbn. rewrite H2. cbn. rewrite H3. cbn. by rewrite Hlabels.
Qed.
End labeler_spec.

(** ** Reading the device map, against the file system of [UtilsSpec] *)

Lemma take_all s : take (String.length s) s = s.
Proof. rewrite <- (str_app_nil_r s) at 2. apply take_app. Qed.

(** C34 The device map is read, and nothing changed, exactly when the cleaned path is the only
    name of a file of at most 10 MB whose bytes are a JSON map of devices; it is then the
    map of those bytes. *)
Theorem LoadSupportedDevices_spec tar_of zip_of is_format pattern_matches net fields path st :
  well_formed st →
  let '(result, st') :=
    @LoadSupportedDevices fs (mem_os tar_of zip_of is_format pattern_matches net) fields path st in
  st' = st
  ∧ ∀ m, result = Ok m ↔
      ∃ i data, sole_name st (Clean path) i ∧ read_file st (Clean path) = Some data
        ∧ Z.of_nat (String.length data) ≤ configFilesizeLimitInBytes
        ∧ Unmarshal_map fields data = Ok m.
Proof.
  intros Hwf. unfold LoadSupportedDevices. set (p := Clean path).
  unfold mbind at 1, M_bind at 1, wrapM at 1, OpenNoLinks. rewrite OpenFileNoLinks_run by done.
  change (has_flag _ O_TRUNC) with false. change (has_flag _ O_CREATE) with false. cbn iota.
  destruct (entries st !! p) as [[i|t|]|] eqn:He; cbn [wrap].
  2-4: split; [done|]; intros m; split; [done|]; intros (i & data & [Hi _] & _); congruence.
  case_decide as Hl; cbn [wrap].
  2: { split; [done|]. intros m. split; [done|]. intros (j & data & Hs & _). pose proof (proj1 Hs).
       simplify_eq. by apply (links_sole tar_of zip_of pattern_matches net st p i) in Hs. }
  assert (Hs : sole_name st p i) by (by apply (links_sole tar_of zip_of pattern_matches net)).
  destruct (Hwf p i He) as [data Hdata].
  assert (Hfile : ∀ d, read_file st p = Some d ↔ d = data)
    by (intros d; unfold read_file; rewrite He, Hdata; naive_solver).
  unfold mbind, M_bind, wrapM, attempt. cbn [Size ReadUpTo mem_os]. unfold contents.
  unfold_state. rewrite Hdata. change (default ""%string (Some data)) with data.
  destruct (Z.ltb_spec configFilesizeLimitInBytes (Z.of_nat (String.length data))) as [Hbig|Hsmall].
  - split; [done|]. intros m. split; [done|]. intros (j & d & _ & ->%Hfile & Hd & _). lia.
  - cbn beta. rewrite Hdata. change (default ""%string (Some data)) with data.
    rewrite Nat2Z.id, take_all, Z.eqb_refl. cbn [negb]. split; [done|]. intros m. rewrite wrap_Ok. split.
    + intros Hm. exists i, data. by rewrite Hfile.
    + by intros (j & d & _ & ->%Hfile & _ & Hm).
Qed.

(** ** Concrete runs *)

Definition devices_json : string := json_text
  "{'E810': {'VendorID': '8086', 'Class': '02', 'SubClass': '00', 'DeviceID': '1592'}}".

Definition devices_fs : fs :=
  {| entries := {["devices.json"%string := Reg 1]}; inodes := {[1 := devices_json]} |}.

Lemma devices_fs_well_formed : well_formed devices_fs.
Proof.
  intros p i. unfold devices_fs. cbn [entries inodes].
  intros [_ [= <-]]%lookup_singleton_Some. by eexists; rewrite lookup_singleton_eq.
Qed.

Lemma LoadSupportedDevices_spec_witness :
  ∃ m, (@LoadSupportedDevices fs example_os SupportedDevice_fields "./devices.json" devices_fs).1 = Ok m
    ∧ SupportedDevice_of <$> m !! "E810"%string
      = Some {| sup_VendorID := "8086"; sup_Class := "02"; sup_SubClass := "00"; sup_DeviceID := "1592" |}.
Proof.
  pose proof (LoadSupportedDevices_spec example_tar example_zip example_is_format no_pattern example_net
    SupportedDevice_fields "./devices.json" devices_fs devices_fs_well_formed) as Hspec.
  change (mem_os _ _ _ _ _) with example_os in Hspec.
  destruct (@LoadSupportedDevices fs example_os _ _ _) as [result st'] eqn:Hrun.
  assert (Hdata : match Unmarshal_map SupportedDevice_fields devices_json with
                  | Ok m => SupportedDevice_of <$> m !! "E810"%string | _ => None end
                  = Some {| sup_VendorID := "8086"; sup_Class := "02"; sup_SubClass := "00"; sup_DeviceID := "1592" |})
    by (vm_compute; reflexivity).
  destruct (Unmarshal_map SupportedDevice_fields devices_json) as [m| |] eqn:Hm; [|done..].
  exists m. split; [|exact Hdata].
  apply (proj2 Hspec m). exists 1, devices_json. split_and!; [|done|vm_compute; done|done].
  split; [reflexivity|]. unfold devices_fs. cbn [entries]. by intros q [<- _]%lookup_singleton_Some.
Defined.

(** A node with one device; the state is its labels. *)
Definition labelled_os : Os (gmap string string) := {|
  File := unit;
  OpenFile path flag perm := mret tt; Stat_Nlink path := mret 1; Stat path := mret tt; IsNotExist e := false;
  Size f := mret (Z.of_nat (String.length devices_json)); ReadAll f := mret devices_json;
  ReadUpTo f n := mret devices_json; Write f data := mret tt; MkdirAll path mode := mret tt; Glob pattern := mret [];
  gzip_tar f := mret []; zip_NewReader f size := mret []; IsErrFormat e := false;
  http_Get url := throw (ExtError "no network");
|}.

Definition labelled_process : Process (gmap string string) := {|
  LookupEnv key w := if String.eqb key "NODENAME" then Some "node-1"%string
                     else if String.eqb key "NODELABEL" then Some "fpga.intel.com/intel-ethernet-present"%string else None;
  Environ w := []; Setenv key value := mret tt;
  os_ReadFile path := throw (ExtError "ENOENT"); os_Stat path := throw (ExtError "ENOENT");
|}.

Definition labelled_api : LabelerApi (gmap string string) := {|
  ghw_PCI := mret [Some {| pci_Address := "0000:18:00.0"; pci_VendorID := "8086"; pci_ClassID := "02";
                           pci_SubclassID := "00"; pci_ProductID := "1592"; pci_ProductName := "E810" |}];
  InClusterConfig := mret tt; NewForConfig := mret tt;
  NodeObject := option (gmap string string);
  GetLabels n := n; SetLabels l n := l;
  Nodes_Get name := gets Some; Nodes_Update n := modify (λ _, default ∅ n);
|}.

Lemma labelled_laws : LabelerApiLaws labelled_api.
Proof. by split. Qed.

Definition discovery : M (gmap string string) unit :=
  @DeviceDiscovery _ labelled_os labelled_process labelled_api listed_order.

Lemma DeviceDiscovery_spec_witness :
  (discovery {["kubernetes.io/os" := "linux"]}).1 = Ok tt
  ∧ ∃ (supported : gmap string struct_val) (present : list (option PCIDevice)) d, supported ≠ ∅ ∧ Some d ∈ present ∧ listed (SupportedDevice_of <$> supported) d.
Proof.
  set (w := {["kubernetes.io/os" := "linux"]} : gmap string string).
  assert (Hok : (discovery w).1 = Ok tt) by (vm_compute; reflexivity).
  assert (Hafter : (discovery w).2 !! "fpga.intel.com/intel-ethernet-present"%string = Some ""%string)
    by (vm_compute; reflexivity).
  destruct (discovery w) as [result w'] eqn:Hrun. cbn [fst snd] in Hok, Hafter. subst result. split; [done|].
  destruct (@DeviceDiscovery_spec _ labelled_os labelled_process labelled_api labelled_laws listed_order _ _ Hrun)
    as (supported & w1 & present & w2 & node & w3 & w4 & node' & label & _ & Hne & _ & _ & Hl & _ & _ & Hup & Hiff & _).
  change (label = "fpga.intel.com/intel-ethernet-present"%string) in Hl. subst label.
  change ((Ok tt, default ∅ node' : gmap string string) = (Ok tt, w')) in Hup. injection Hup as <-.
  destruct (proj1 Hiff Hafter) as (d & Hd & Hlisted).
  exists supported, present, d. exact (conj Hne (conj Hd Hlisted)).
Defined.
