(* ===== verification/Assets.v ===== *)
(** * The assets manager

    pkg/utils/assets: asset.go and manager.go. An asset is a file of objects, or the
    ConfigMap that such a file put into the cluster; the manager creates or updates the
    objects of its assets one after another. Templates, YAML, the API server and
    [DeepDerivative] are parameters. What the objects become when a call is given up is not
    modelled: the program ends. *)

From S2P Require Import Prelude GoStrings GoPath Utils Process.

Local Open Scope Z_scope.

Notation NamespacedName := (string * string)%type.

(** ** Code outside the repository *)

Record GroupVersionKind : Set := { gvk_Group : string; gvk_Version : string; gvk_Kind : string }.

#[export] Instance GroupVersionKind_eq_dec : EqDecision GroupVersionKind.
Proof. solve_decision. Defined.

Record Owner : Set := { owner_Name : string; owner_Namespace : string }.

Class Objects : Type := {
  (** [unstructured.Unstructured] *)
  Object : Type;
  GVK : Object → GroupVersionKind;
  GetNamespace : Object → string;
  GetName : Object → string;
  GetResourceVersion : Object → string;
  SetResourceVersion : string → Object → Object;
  (** [Object[immutable].(bool)]: nothing when the entry is missing or not a boolean *)
  immutable_field : Object → option bool;
  (** [equality.Semantic.DeepDerivative] *)
  DeepDerivative : Object → Object → bool;
  (** [controllerutil.SetControllerReference] *)
  SetControllerReference : Owner → Object → outcome Object;
  (** [template.New] with [missingkey=error], [Parse] and [Execute] *)
  Template : Type;
  template_Parse : string → outcome Template;
  template_Execute : Template → gmap string string → outcome string;
  (** [yaml.NewYAMLOrJSONDecoder] on a text, and its first [Decode] *)
  yaml_Decode : string → outcome Object;
}.

(** [client.ObjectKeyFromObject] *)
Definition ObjectKey `{!Objects} (o : Object) : NamespacedName := (GetNamespace o, GetName o).

(** The client of the API server. [Create] and [Update] answer with the object as stored. *)
Class Client (W : Type) `{!Objects} : Type := {
  Client_Get : GroupVersionKind → NamespacedName → M W Object;
  Client_Create : Object → M W Object;
  Client_Update : Object → M W Object;
  (** the data of a ConfigMap *)
  Get_ConfigMap : NamespacedName → M W (gmap string string);
  (** [Status.NumberUnavailable] of a DaemonSet *)
  Get_NumberUnavailable : NamespacedName → M W Z;
}.

(** ** An asset *)

(** [ReadinessPollConfig] without the delay, and [Asset]. *)
Record Asset `{!Objects} : Type := {
  Path : string;
  ConfigMapName : string;
  Retries : Z;
  substitutions : gmap string string;
  objects : list Object
}.

Definition with_objects `{!Objects} (a : Asset) (l : list Object) : Asset :=
  {| Path := Path a; ConfigMapName := ConfigMapName a; Retries := Retries a;
     substitutions := substitutions a; objects := l |}.

Definition with_substitutions `{!Objects} (a : Asset) (tv : gmap string string) : Asset :=
  {| Path := Path a; ConfigMapName := ConfigMapName a; Retries := Retries a;
     substitutions := tv; objects := objects a |}.

(** The separator of the expression "\n-{3}". *)
Definition document_separator : string := String "010" "---".

(** [regexp.Split(s, -1)] at a separator that is a fixed text: [skip] bytes of a match are
    still to be passed over. *)
Fixpoint split_at_text (sep : string) (skip : nat) (s : string) : list string :=
  match s with
  | "" => [""]
  | String c r =>
      match skip with
      | S skip => split_at_text sep skip r
      | O =>
          if HasPrefix s sep then "" :: split_at_text sep (String.length sep - 1) r
          else match split_at_text sep 0 r with
               | [] => [String c ""]
               | p :: l => String c p :: l
               end
      end
  end%string.

Definition split_documents (s : string) : list string := split_at_text document_separator 0 s.

Section asset.
Context `{!Objects} {W : Type} `{!Process W} `{!Backoff W} `{!Client W}.

Definition loadFromFile (a : Asset) : M W Asset :=
  let cleanPath := Clean (Path a) in
  mode ← os_Stat cleanPath;
  if IsDir mode then throw (Errorf "loading directory of assets is not supported")
  else
    content ← os_ReadFile cleanPath;
    t ← lift (template_Parse content);
    templatedContent ← lift (template_Execute t (substitutions a));
    loaded ← lift (collect yaml_Decode (split_documents templatedContent));
    mret (with_objects a (objects a ++ loaded)).

Definition loadFromConfigMap `{!MapOrder} (ns : string) (a : Asset) : M W Asset :=
  data ← Get_ConfigMap (ns, ConfigMapName a);
  loaded ← lift (collect yaml_Decode (range_map data).*2);
  mret (with_objects a loaded).

(** Every object of an asset has metadata; the owner may be nil. *)
Definition setOwner (owner : option Owner) (obj : Object) : outcome Object :=
  match owner with
  | None => Panic
  | Some owner =>
      if String.eqb (owner_Namespace owner) (GetNamespace obj) then SetControllerReference owner obj else Ok obj
  end.

(** Whether an object in the cluster is not to be changed. *)
Definition is_immutable (old : Object) : bool :=
  String.eqb (ToLower (gvk_Kind (GVK old))) "configmap" && default false (immutable_field old).

(** One round of the loop. *)
Definition createOrUpdate_object (o : option Owner) (obj : Object) : M W Object :=
  obj ← lift (setOwner o obj);
  old ← attempt (Client_Get (GVK obj) (ObjectKey obj));
  match old with
  | inl err => if negb (IsNotFound err) then throw err else Client_Create obj
  | inr old =>
      if is_immutable old then mret obj
      else if negb (DeepDerivative obj old)
      then Client_Update (SetResourceVersion (GetResourceVersion old) obj)
      else mret obj
  end.

Definition createOrUpdate (o : option Owner) (a : Asset) : M W Asset :=
  objs ← collectM (createOrUpdate_object o) (objects a);
  mret (with_objects a objs).

(** The closure [f]: it assigns nothing. *)
Definition daemonset_ready (obj : Object) (u : unit) : M W (bool * unit) :=
  NumberUnavailable ← Get_NumberUnavailable (ObjectKey obj);
  mret (NumberUnavailable =? 0, u).

Definition waitUntilReady (a : Asset) : M W unit :=
  if Retries a =? 0 then mret tt
  else forM (objects a) (λ obj,
    if negb (String.eqb (gvk_Kind (GVK obj)) "DaemonSet") then mret tt
    else
      r ← ExponentialBackoff (Z.to_nat (Retries a)) (daemonset_ready obj) tt;
      if (r.1 : bool) then mret tt else throw (ExtError "timed out waiting for the condition")).

(** ** The manager *)

Definition proxies : list string := ["HTTP_PROXY"; "HTTPS_PROXY"; "NO_PROXY"].

Definition isProxy (name : string) : bool := existsb (String.eqb name) proxies.

(** One variable of the environment. *)
Definition add_variable (EnvPrefix : string) (tp : gmap string string) (pair : string) : gmap string string :=
  match Split pair "="%char with
  | [k; v] => if HasPrefix k EnvPrefix || isProxy k then <[k := v]> tp else tp
  | _ => tp
  end.

Definition add_proxy (tp : gmap string string) (proxy : string) : gmap string string :=
  match tp !! proxy with Some _ => tp | None => <[proxy := ""%string]> tp end.

Definition buildTemplateVars (EnvPrefix : string) : M W (gmap string string) :=
  environ ← gets Environ;
  fw ← GetFwSearchPath;
  mret (<["FW_HOST_PATH"%string := fw.1]> (foldl add_proxy (foldl (add_variable EnvPrefix) ∅ environ) proxies)).

(** The manager's fields that its methods do not assign. *)
Record Manager : Set := { Namespace : string; EnvPrefix : string; m_Owner : option Owner }.

Definition LoadFromFile (m : Manager) (Assets : list Asset) : M W (list Asset) :=
  tv ← buildTemplateVars (EnvPrefix m);
  collectM (λ a, loadFromFile (with_substitutions a tv)) Assets.

Definition LoadFromConfigMap `{!MapOrder} (m : Manager) (Assets : list Asset) : M W (list Asset) :=
  collectM (loadFromConfigMap (Namespace m)) Assets.

Definition Deploy (m : Manager) (Assets : list Asset) : M W (list Asset) :=
  collectM (λ asset,
    deployed ← createOrUpdate (m_Owner m) asset;
    waitUntilReady deployed;;
    mret deployed) Assets.

Definition DeployConfigMaps (m : Manager) (Assets : list Asset) : M W (list Asset) :=
  loaded ← LoadFromFile m Assets; Deploy m loaded.

Definition LoadFromConfigMapAndDeploy `{!MapOrder} (m : Manager) (Assets : list Asset) : M W (list Asset) :=
  loaded ← LoadFromConfigMap m Assets; Deploy m loaded.
End asset.
