(* ===== verification/AssetsSpec.v ===== *)
(** * What the assets manager does

    The variables of the templates, the documents of a file, and the objects in the
    cluster: a deployment that succeeds leaves every object of its assets there, and a
    second one changes nothing. *)

From S2P Require Import Prelude GoStrings GoPath Utils Process Assets.

Local Open Scope Z_scope.

(** ** The variables of the templates *)

(** What one variable of the environment gives for a key. *)
Definition variable_for (EnvPrefix k pair : string) : option string :=
  match Split pair "="%char with
  | [k'; v] => if (HasPrefix k' EnvPrefix || isProxy k') && String.eqb k' k then Some v else None
  | _ => None
  end.

(** The last one counts. *)
Definition variable_of (EnvPrefix k : string) (environ : list string) : option string :=
  last (omap (variable_for EnvPrefix k) environ).

Lemma add_variable_lookup EnvPrefix tp pair k :
  add_variable EnvPrefix tp pair !! k =
  match variable_for EnvPrefix k pair with Some v => Some v | None => tp !! k end.
Proof.
  unfold add_variable, variable_for. destruct (Split pair "="%char) as [|k' [|v [|]]]; try done.
  destruct (_ || _); cbn [andb]; [|done].
  destruct (String.eqb_spec k' k) as [->|Hne]; [by rewrite lookup_insert_eq|by rewrite lookup_insert_ne].
Qed.

Lemma variables_lookup EnvPrefix environ tp k :
  foldl (add_variable EnvPrefix) tp environ !! k =
  match variable_of EnvPrefix k environ with Some v => Some v | None => tp !! k end.
Proof.
  unfold variable_of. revert tp. induction environ as [|pair environ IH]; intros tp; [done|].
  cbn [foldl omap list_omap]. rewrite IH, add_variable_lookup.
  destruct (variable_for EnvPrefix k pair) as [v|]; [|done].
  rewrite last_cons. by destruct (last _).
Qed.

Lemma add_proxies_lookup tp l k :
  foldl add_proxy tp l !! k =
  match tp !! k with Some v => Some v | None => if existsb (String.eqb k) l then Some ""%string else None end.
Proof.
  revert tp. induction l as [|proxy l IH]; intros tp; cbn [foldl existsb]; [by destruct (tp !! k)|].
  rewrite IH. unfold add_proxy. destruct (tp !! proxy) as [x|] eqn:Hp.
  - destruct (tp !! k) eqn:Hk; [done|]. destruct (String.eqb_spec k proxy) as [->|]; [congruence|done].
  - destruct (String.eqb_spec k proxy) as [->|Hne]; [by rewrite lookup_insert_eq, Hp|].
    by rewrite lookup_insert_ne.
Qed.

Lemma variable_for_equals EnvPrefix k name value :
  has_byte "=" value = true → variable_for EnvPrefix k (name +:+ String "=" value) = None.
Proof.
  intros Hv%Split_has_byte. unfold variable_for. rewrite Split_at.
  pose proof (Split_not_nil name "="%char) as Hn.
  destruct (Split name _) as [|a [|b l]], (Split value _) as [|x [|y l']]; simpl in *; try done; try lia.
  by destruct l.
Qed.

Section template_variables.
Context {W : Type} `{!Process W}.

(** C37 The variables a template can use: the path of the firmware, and for every other name
    the last variable of the environment of that name which is of the operator or a proxy
    and has exactly one equals sign; a proxy that is not among these is empty. So a
    variable whose value contains an equals sign is not there at all, and a proxy set to
    such a value counts as no proxy. *)
Theorem buildTemplateVars_spec EnvPrefix w fw w' :
  GetFwSearchPath w = (Ok fw, w') →
  ∃ tv, buildTemplateVars EnvPrefix w = (Ok tv, w')
    ∧ (∀ k, tv !! k =
         if String.eqb k "FW_HOST_PATH" then Some fw.1
         else match variable_of EnvPrefix k (Environ w) with
              | Some v => Some v
              | None => if isProxy k then Some ""%string else None
              end)
    ∧ ∀ name value, name ≠ "FW_HOST_PATH"%string → has_byte "=" value = true →
        Environ w = [name +:+ String "=" value] →
        tv !! name = if isProxy name then Some ""%string else None.
Proof.
  intros Hfw. unfold buildTemplateVars. unfold_state. rewrite Hfw. eexists. split; [done|].
  assert (Hk : ∀ k, <["FW_HOST_PATH"%string := fw.1]> (foldl add_proxy (foldl (add_variable EnvPrefix) ∅ (Environ w)) proxies) !! k =
         if String.eqb k "FW_HOST_PATH" then Some fw.1
         else match variable_of EnvPrefix k (Environ w) with
              | Some v => Some v
              | None => if isProxy k then Some ""%string else None
              end).
  { intros k. destruct (String.eqb_spec k "FW_HOST_PATH") as [->|Hne]; [by rewrite lookup_insert_eq|].
    rewrite lookup_insert_ne by done. rewrite add_proxies_lookup, variables_lookup, lookup_empty.
    by destruct (variable_of _ _ _). }
  split; [exact Hk|]. intros name value Hne Hv Henv. rewrite Hk, (proj2 (String.eqb_neq _ _) Hne), Henv.
  unfold variable_of. cbn [omap list_omap]. by rewrite variable_for_equals.
Qed.
End template_variables.

(** ** The documents of a file *)

Lemma split_skip sep n s : split_at_text sep n s = split_at_text sep 0 (drop n s).
Proof.
  revert n. induction s as [|c s IH]; intros [|n]; [done..|]. cbn [split_at_text drop]. apply IH.
Qed.

Lemma split_not_nil sep n s : split_at_text sep n s ≠ [].
Proof.
  revert n. induction s as [|c s IH]; intros [|n]; cbn [split_at_text]; try done.
  destruct (HasPrefix _ sep); [done|]. by destruct (split_at_text sep 0 s).
Qed.

Lemma split_at_separator rest :
  split_documents (document_separator +:+ rest) = ""%string :: split_documents rest.
Proof.
  unfold split_documents, document_separator. rewrite str_app_String. cbn [split_at_text].
  rewrite <- str_app_String, HasPrefix_self_app. 
  change (String.length (String "010" "---") - 1)%nat with (String.length "---"%string).
  by rewrite split_skip, drop_app.
Qed.

(** A document with nothing of the separator in it: the separator does not start in it. *)
Lemma no_separator_start c d rest :
  Contains (String c d) document_separator = false →
  HasPrefix (String c d +:+ document_separator +:+ rest) document_separator = false.
Proof.
  cbn [Contains]. intros [Hp _]%orb_false_iff. unfold HasPrefix, document_separator in *.
  destruct d as [|c1 [|c2 [|c3 d]]].
  all: rewrite !str_app_String in *.
  all: try change ("" +:+ ?x) with x in *.
  all: cbn [String.prefix] in *; repeat case_match; try done.
  all: by destruct d.
Qed.

Lemma split_document d rest :
  Contains d document_separator = false →
  split_documents (d +:+ document_separator +:+ rest) = d :: split_documents rest.
Proof.
  induction d as [|c d IH]; intros Hd; [apply split_at_separator|].
  pose proof (no_separator_start _ _ rest Hd) as Hstart. cbn [Contains] in Hd.
  apply orb_false_iff in Hd as [_ Hd]. specialize (IH Hd). unfold split_documents in *.
  rewrite str_app_String in *. cbn [split_at_text]. by rewrite Hstart, IH.
Qed.

Lemma split_last d : Contains d document_separator = false → split_documents d = [d].
Proof.
  unfold split_documents. induction d as [|c d IH]; [done|]. cbn [Contains split_at_text].
  intros [Hp Hd]%orb_false_iff. unfold HasPrefix. by rewrite Hp, IH.
Qed.

Lemma Join_cons_not_nil x l sep : l ≠ [] → Join (x :: l) sep = x +:+ sep +:+ Join l sep.
Proof. by destruct l. Qed.

Lemma Join_split s : Join (split_documents s) document_separator = s.
Proof.
  remember (String.length s) as n eqn:Hn. revert s Hn.
  induction n as [n IH] using (well_founded_induction lt_wf). intros s ->.
  destruct s as [|c s]; [done|].
  destruct (HasPrefix (String c s) document_separator) eqn:Hp.
  - apply HasPrefix_app in Hp as [rest Hrest]. rewrite Hrest, split_at_separator.
    rewrite Join_cons_not_nil by apply split_not_nil.
    rewrite (IH (String.length rest)); [done| |done].
    rewrite Hrest, str_length_app. unfold document_separator. simpl. lia.
  - unfold split_documents. cbn [split_at_text]. rewrite Hp.
    assert (Hs : Join (split_at_text document_separator 0 s) document_separator = s)
      by (by apply (IH (String.length s)); simpl; [lia|]).
    pose proof (split_not_nil document_separator 0 s) as Hne.
    destruct (split_at_text document_separator 0 s) as [|p [|q l]] eqn:E; [done| |].
    + cbn [Join] in *. by rewrite Hs.
    + rewrite Join_cons_not_nil in * by done. rewrite str_app_String. by rewrite Hs.
Qed.



(** ** What is in the cluster *)

Notation object_id := (GroupVersionKind * NamespacedName)%type.

Definition id_of `{!Objects} (x : Object) : object_id := (GVK x, ObjectKey x).

(** The objects in the cluster, and what the API server is known to do: reading changes
    nothing and says what is there; what is written becomes the object of its name, and what
    was sent, its version apart, is part of what is stored. *)
Class ClientLaws {W} `{HO : !Objects} (C : Client W) : Type := {
  stored : W → object_id → option Object;
  Client_Get_keeps g k w r w' : Client_Get g k w = (r, w') → stored w' = stored w;
  Client_Get_Ok g k w x w' : Client_Get g k w = (Ok x, w') → stored w (g, k) = Some x;
  Client_Get_NotFound g k w e w' : Client_Get g k w = (Err e, w') → IsNotFound e = true → stored w (g, k) = None;
  Client_Create_Ok x w x' w' : Client_Create x w = (Ok x', w') →
    DeepDerivative (SetResourceVersion "" x) x' = true ∧ ∀ i, stored w' i = if decide (i = id_of x) then Some x' else stored w i;
  Client_Update_Ok x w x' w' : Client_Update x w = (Ok x', w') →
    DeepDerivative (SetResourceVersion "" x) x' = true ∧ ∀ i, stored w' i = if decide (i = id_of x) then Some x' else stored w i;
  NumberUnavailable_keeps k w r w' : Get_NumberUnavailable k w = (r, w') → stored w' = stored w;
}.

(** What is known of objects: setting the owner or the version leaves the name, and setting
    an empty version takes the version away. *)
Class ObjectsLaws (O : Objects) : Prop := {
  SetResourceVersion_id v x : id_of (SetResourceVersion v x) = id_of x;
  SetResourceVersion_unset v x : GetResourceVersion x = ""%string →
    SetResourceVersion "" (SetResourceVersion v x) = x ∧ SetResourceVersion "" x = x;
  SetControllerReference_id o x x' : SetControllerReference o x = Ok x' → id_of x' = id_of x;
  SetControllerReference_version o x x' : SetControllerReference o x = Ok x' → GetResourceVersion x' = GetResourceVersion x;
}.

Section cluster.
Context {W : Type} `{HO : !Objects} `{HB : !Backoff W} `{HC : !Client W}.
Context `{HOL : !ObjectsLaws HO} `{HBL : !BackoffLaws HB} `{HCL : !ClientLaws HC}.
Variable o : option Owner.

(** The object is in the cluster, as it is wanted or where it is not to be changed. *)
Definition settled (w : W) (x : Object) : Prop :=
  ∃ x' old, setOwner o x = Ok x' ∧ stored w (id_of x) = Some old
    ∧ (is_immutable old = true ∨ DeepDerivative x' old = true).

Lemma setOwner_keeps x x' :
  setOwner o x = Ok x' → id_of x' = id_of x ∧ GetResourceVersion x' = GetResourceVersion x.
Proof.
  unfold setOwner. destruct o as [owner|]; [|done]. destruct (String.eqb _ _); [|by intros [= <-]].
  intros Hset. split; [by eapply SetControllerReference_id|by eapply SetControllerReference_version].
Qed.

Lemma settled_stored w w' x : stored w' (id_of x) = stored w (id_of x) → settled w x → settled w' x.
Proof. intros Hs (x' & old & H). exists x', old. by rewrite Hs. Qed.

(** An object that is there as wanted is not written. *)
Lemma settled_idle x w r w' :
  settled w x → createOrUpdate_object o x w = (r, w') → stored w' = stored w.
Proof.
  intros (x' & old & Howner & Hold & Hfine) Hrun. unfold createOrUpdate_object in Hrun.
  unfold mbind, M_bind, lift, attempt in Hrun. rewrite Howner in Hrun.
  destruct (Client_Get (GVK x') (ObjectKey x') w) as [[old'|e|] w1] eqn:Hget.
  - pose proof (Client_Get_Ok _ _ _ _ _ Hget) as Hgot. change (GVK x', ObjectKey x') with (id_of x') in Hgot.
    rewrite (proj1 (setOwner_keeps _ _ Howner)) in Hgot. simplify_eq.
    assert (Hkeep : (Ok x', w1) = (r, w')) by (destruct Hfine as [Hi|Hd]; [by rewrite Hi in Hrun|]; rewrite Hd in Hrun; by destruct (is_immutable old)).
    simplify_eq. by eapply Client_Get_keeps.
  - destruct (IsNotFound e) eqn:He; [|injection Hrun as <- <-; by eapply Client_Get_keeps].
    pose proof (Client_Get_NotFound _ _ _ _ _ Hget He) as Hnone. change (GVK x', ObjectKey x') with (id_of x') in Hnone.
    rewrite (proj1 (setOwner_keeps _ _ Howner)) in Hnone. congruence.
  - injection Hrun as <- <-. by eapply Client_Get_keeps.
Qed.

(** One object: there afterwards, the others as they were. *)
Lemma createOrUpdate_object_settles x w y w' :
  GetResourceVersion x = ""%string → createOrUpdate_object o x w = (Ok y, w') →
  settled w' x ∧ ∀ i, i ≠ id_of x → stored w' i = stored w i.
Proof.
  intros Hversion Hrun. unfold createOrUpdate_object in Hrun. unfold mbind, M_bind, lift, attempt in Hrun.
  destruct (setOwner o x) as [x'| |] eqn:Howner; [|done..].
  destruct (setOwner_keeps _ _ Howner) as [Hid Hv]. rewrite Hversion in Hv.
  destruct (Client_Get (GVK x') (ObjectKey x') w) as [[old|e|] w1] eqn:Hget; [| |done].
  all: pose proof (Client_Get_keeps _ _ _ _ _ Hget) as Hkeep.
  - apply Client_Get_Ok in Hget. change (GVK x', ObjectKey x') with (id_of x') in Hget. rewrite Hid in Hget.
    assert (Hstay : ∀ w2, stored w2 = stored w → is_immutable old = true ∨ DeepDerivative x' old = true →
              settled w2 x ∧ ∀ i, i ≠ id_of x → stored w2 i = stored w i)
      by (intros w2 Hw2 Hfine; split; [exists x', old; by rewrite Hw2|by rewrite Hw2]).
    destruct (is_immutable old) eqn:Himm; [injection Hrun as <- <-; by apply Hstay; [|left]|].
    destruct (DeepDerivative x' old) eqn:Hd; [injection Hrun as <- <-; by apply Hstay; [|right]|].
    apply Client_Update_Ok in Hrun as [Hsent Hstored]. rewrite SetResourceVersion_id, Hid, Hkeep in Hstored.
    rewrite (proj1 (SetResourceVersion_unset _ _ Hv)) in Hsent. split.
    + exists x', y. rewrite Hstored, decide_True by done. split_and!; [done..|by right].
    + intros i Hi. by rewrite Hstored, decide_False.
  - destruct (IsNotFound e); [|done].
    apply Client_Create_Ok in Hrun as [Hsent Hstored]. rewrite Hid, Hkeep in Hstored.
    rewrite (proj2 (SetResourceVersion_unset "" _ Hv)) in Hsent. split.
    + exists x', y. rewrite Hstored, decide_True by done. split_and!; [done..|by right].
    + intros i Hi. by rewrite Hstored, decide_False.
Qed.

(** The objects of a list, one after another. *)
Lemma objects_settle l w l' w' :
  Forall (λ x, GetResourceVersion x = ""%string) l → NoDup (id_of <$> l) →
  collectM (createOrUpdate_object o) l w = (Ok l', w') →
  Forall (settled w') l ∧ ∀ i, i ∉ id_of <$> l → stored w' i = stored w i.
Proof.
  intros Hv. revert w l'. induction Hv as [|x l Hx Hv IH]; intros w l' Hnd Hrun; cbn in Hrun.
  { injection Hrun as _ <-. by split. }
  unfold mbind, M_bind in Hrun. rewrite fmap_cons, NoDup_cons in Hnd. destruct Hnd as [Hfresh Hnd].
  destruct (createOrUpdate_object o x w) as [[y|e|] w1] eqn:Hone; [|done..].
  destruct (collectM (createOrUpdate_object o) l w1) as [[ys|e|] w2] eqn:Hrest; [|done..].
  injection Hrun as <- <-. apply createOrUpdate_object_settles in Hone as [Hset Hothers]; [|done].
  destruct (IH _ _ Hnd Hrest) as [Hall Hrest']. split.
  - constructor; [|done]. eapply settled_stored; [|exact Hset]. by apply Hrest'.
  - intros i Hi. rewrite fmap_cons, not_elem_of_cons in Hi. destruct Hi as [Hi1 Hi2].
    rewrite Hrest' by done. by apply Hothers.
Qed.

Lemma objects_idle l w r w' :
  Forall (settled w) l → collectM (createOrUpdate_object o) l w = (r, w') → stored w' = stored w.
Proof.
  intros Hset. revert w r Hset. induction l as [|x l IH]; intros w r Hset Hrun; cbn in Hrun.
  { by injection Hrun as _ <-. }
  apply Forall_cons in Hset as [Hx Hset]. unfold mbind, M_bind in Hrun.
  destruct (createOrUpdate_object o x w) as [one w1] eqn:Hone.
  pose proof (settled_idle _ _ _ _ Hx Hone) as Hsame.
  destruct one as [y|e|]; [|by injection Hrun as _ <-..].
  destruct (collectM (createOrUpdate_object o) l w1) as [rest w2] eqn:Hrest.
  assert (Hw : w' = w2) by (destruct rest; by injection Hrun as _ <-). subst w'. rewrite <- Hsame.
  eapply IH; [|exact Hrest]. eapply Forall_impl; [exact Hset|]. intros z. apply settled_stored. by rewrite Hsame.
Qed.
End cluster.

Section deployment.
Context {W : Type} `{HO : !Objects} `{HB : !Backoff W} `{HC : !Client W}.
Context `{HOL : !ObjectsLaws HO} `{HBL : !BackoffLaws HB} `{HCL : !ClientLaws HC}.

(** Waiting only reads. *)
Lemma waitUntilReady_keeps a w r w' : waitUntilReady a w = (r, w') → stored w' = stored w.
Proof.
  intros Hrun. assert (Hp : preserves (λ w', stored w' = stored w) (waitUntilReady a)).
  { unfold waitUntilReady. destruct (Retries a =? 0); [apply preserves_ret|].
    apply preserves_forM. intros obj _. destruct (negb _); [apply preserves_ret|].
    apply preserves_bind; [|intros [[] u]; [apply preserves_ret|apply preserves_throw]].
    apply preserves_ExponentialBackoff. intros u.
    apply preserves_bind; [|intros z; apply preserves_ret].
    intros w0 Hw0. destruct (Get_NumberUnavailable (ObjectKey obj) w0) as [z w1] eqn:Hz.
    apply NumberUnavailable_keeps in Hz. cbn. congruence. }
  specialize (Hp w eq_refl). by rewrite Hrun in Hp.
Qed.

Lemma Deploy_cons m a l w r w' :
  Deploy m (a :: l) w = (r, w') →
  (∃ objs w1 w2 rest, collectM (createOrUpdate_object (m_Owner m)) (objects a) w = (Ok objs, w1)
     ∧ waitUntilReady (with_objects a objs) w1 = (Ok tt, w2)
     ∧ Deploy m l w2 = (rest, w') ∧ ((∃ d, r = Ok d) → ∃ d, rest = Ok d))
  ∨ ((∀ d, r ≠ Ok d) ∧ ∃ w1 first, collectM (createOrUpdate_object (m_Owner m)) (objects a) w = (first, w1)
     ∧ stored w' = stored w1).
Proof.
  unfold Deploy, createOrUpdate. intros Hrun. cbn [collectM] in Hrun. unfold mbind, M_bind, mret, M_ret in Hrun.
  destruct (collectM (createOrUpdate_object (m_Owner m)) (objects a) w) as [[objs|e|] w1] eqn:Hobjs.
  2,3: right; injection Hrun as <- <-; split; [done|]; by exists w1; eexists.
  destruct (waitUntilReady (with_objects a objs) w1) as [[[]|e|] w2] eqn:Hwait.
  2,3: right; injection Hrun as <- <-; split; [done|]; exists w1, (Ok objs); split; [done|];
    by eapply waitUntilReady_keeps.
  left. destruct (collectM _ l w2) as [rest w3] eqn:Hrest. exists objs, w1, w2, rest. split_and!; [done..| |].
  - by destruct rest; injection Hrun as <- <-.
  - intros [d ->]. destruct rest as [d'| |]; [by exists d'|by injection Hrun..].
Qed.

Definition all_objects (Assets : list Asset) : list Object := a ← Assets; objects a.

Lemma Deploy_settles m Assets w deployed w' :
  Forall (λ x, GetResourceVersion x = ""%string) (all_objects Assets) → NoDup (id_of <$> all_objects Assets) →
  Deploy m Assets w = (Ok deployed, w') →
  Forall (settled (m_Owner m) w') (all_objects Assets)
  ∧ ∀ i, i ∉ id_of <$> all_objects Assets → stored w' i = stored w i.
Proof.
  revert w deployed. induction Assets as [|a l IH]; intros w deployed Hv Hnd Hrun.
  { injection Hrun as _ <-. by split. }
  unfold all_objects in *. cbn [mbind list_bind] in *. rewrite fmap_app in Hnd.
  apply Forall_app in Hv as [Hva Hvl]. apply NoDup_app in Hnd as (Hnda & Hdisj & Hndl).
  apply Deploy_cons in Hrun as [(objs & w1 & w2 & rest & Hobjs & Hwait & Hrest & Hok)|[Hno _]]; [|by destruct (Hno deployed)].
  destruct (Hok ltac:(by exists deployed)) as [d ->].
  destruct (objects_settle _ _ _ _ _ Hva Hnda Hobjs) as [Hset Hothers]. apply waitUntilReady_keeps in Hwait.
  destruct (IH _ _ Hvl Hndl Hrest) as [Hsetl Hothersl]. split.
  - apply Forall_app. split; [|done]. rewrite Forall_forall in *. intros x Hx.
    eapply settled_stored; [|by apply Hset]. rewrite Hothersl, Hwait; [done|]. apply Hdisj, list_elem_of_fmap_2, Hx.
  - intros i. rewrite fmap_app, elem_of_app. intros Hi.
    rewrite Hothersl, Hwait, Hothers; [done|by intros ?; apply Hi; left|by intros ?; apply Hi; right].
Qed.

Lemma Deploy_idle m Assets w r w' :
  Forall (settled (m_Owner m) w) (all_objects Assets) → Deploy m Assets w = (r, w') → stored w' = stored w.
Proof.
  revert w r. induction Assets as [|a l IH]; intros w r Hset Hrun.
  { by injection Hrun as _ <-. }
  unfold all_objects in *. cbn [mbind list_bind] in Hset. apply Forall_app in Hset as [Hseta Hsetl].
  apply Deploy_cons in Hrun as [(objs & w1 & w2 & rest & Hobjs & Hwait & Hrest & _)|[_ (w1 & first & Hobjs & ->)]];
    pose proof (objects_idle _ _ _ _ _ Hseta Hobjs) as Hsame; [|done].
  apply waitUntilReady_keeps in Hwait. rewrite <- Hsame, <- Hwait. eapply IH; [|exact Hrest].
  eapply Forall_impl; [exact Hsetl|]. intros x. apply settled_stored. by rewrite Hwait, Hsame.
Qed.


(** A DaemonSet that was waited for was found ready in one of the attempts. *)
Lemma repeats_ready n obj w w' :
  repeats n (daemonset_ready obj) tt w = (Ok (true, tt), w') →
  ∃ w1, Get_NumberUnavailable (ObjectKey obj) w1 = (Ok 0, w').
Proof.
  revert w. induction n as [|n IH]; intros w Hrun; cbn in Hrun; [done|]. unfold mbind, M_bind in Hrun.
  unfold daemonset_ready in Hrun at 1. unfold mbind, M_bind in Hrun.
  destruct (Get_NumberUnavailable (ObjectKey obj) w) as [[z|e|] w1] eqn:Hz; [|done..]. unfold mret, M_ret in Hrun.
  cbn in Hrun. destruct (Z.eqb_spec z 0) as [->|]; [|by eapply IH]. injection Hrun as <-. by exists w.
Qed.

(** C38 Waiting until an asset is ready ends without error only if no waiting is asked for, or
    every DaemonSet of the asset answered that none of its pods is unavailable. The number
    of pods it should have is not looked at, so one whose status was not filled in yet is
    ready at the first look. *)
Theorem waitUntilReady_spec a w :
  (∀ w', waitUntilReady a w = (Ok tt, w') → Retries a ≠ 0 →
     ∀ obj, obj ∈ objects a → gvk_Kind (GVK obj) = "DaemonSet"%string →
       0 < Retries a ∧ ∃ w1 w2, Get_NumberUnavailable (ObjectKey obj) w1 = (Ok 0, w2))
  ∧ ∀ obj w1, objects a = [obj] → 0 < Retries a →
       Get_NumberUnavailable (ObjectKey obj) w = (Ok 0, w1) → gvk_Kind (GVK obj) = "DaemonSet"%string →
       waitUntilReady a w = (Ok tt, w1).
Proof.
  unfold waitUntilReady. split.
  - intros w' Hrun Hr. rewrite (proj2 (Z.eqb_neq _ _) Hr) in Hrun.
    revert w Hrun. induction (objects a) as [|x l IH]; intros w Hrun obj Hin Hkind; [by apply elem_of_nil in Hin|].
    cbn [forM] in Hrun. unfold mbind at 1, M_bind at 1 in Hrun.
    destruct (String.eqb_spec (gvk_Kind (GVK x)) "DaemonSet") as [Hx|Hx]; cbn [negb] in Hrun.
    2: { apply elem_of_cons in Hin as [->|Hin]; [done|]. by apply (IH w). }
    unfold mbind at 1, M_bind at 1 in Hrun. rewrite ExponentialBackoff_repeats in Hrun.
    destruct (repeats _ _ _ w) as [[[met u]|e|] w1] eqn:Hready; [|done..]. destruct met; [|done]. destruct u.
    cbn in Hrun. apply elem_of_cons in Hin as [->|Hin]; [|by eapply IH]. split.
    + destruct (Z.to_nat (Retries a)) eqn:Hn; [done|lia].
    + apply repeats_ready in Hready as [w0 Hready]. by exists w0, w1.
  - intros obj w1 Hobj Hr Hz Hkind. rewrite (proj2 (Z.eqb_neq _ _)) by lia. rewrite Hobj. cbn [forM].
    rewrite Hkind. change (negb _) with false. cbn iota. unfold mbind, M_bind. rewrite ExponentialBackoff_repeats.
    destruct (Z.to_nat (Retries a)) as [|n] eqn:Hn; [lia|].
    assert (Hfirst : daemonset_ready obj tt w = (Ok (true, tt), w1))
      by (unfold daemonset_ready, mbind, M_bind; by rewrite Hz).
    cbn [repeats]. unfold mbind, M_bind. by rewrite Hfirst.
Qed.
End deployment.

(** ** A concrete cluster *)

Record manifest : Set := {
  mf_GVK : GroupVersionKind; mf_Namespace : string; mf_Name : string; mf_Version : string;
  mf_Owner : option string; mf_Immutable : option bool; mf_Body : string
}.

(** A field that is not given is not compared. *)
Definition derivative {A} `{EqDecision A} (x y : option A) : bool :=
  match x with None => true | Some _ => bool_decide (x = y) end.

Definition manifests : Objects := {|
  Object := manifest; GVK := mf_GVK; GetNamespace := mf_Namespace; GetName := mf_Name;
  GetResourceVersion := mf_Version;
  SetResourceVersion v x := {| mf_GVK := mf_GVK x; mf_Namespace := mf_Namespace x; mf_Name := mf_Name x;
    mf_Version := v; mf_Owner := mf_Owner x; mf_Immutable := mf_Immutable x; mf_Body := mf_Body x |};
  immutable_field := mf_Immutable;
  DeepDerivative x old :=
    derivative (if String.eqb (mf_Version x) "" then None else Some (mf_Version x)) (Some (mf_Version old))
    && derivative (mf_Owner x) (mf_Owner old) && derivative (mf_Immutable x) (mf_Immutable old)
    && String.eqb (mf_Body x) (mf_Body old);
  SetControllerReference o x := Ok {| mf_GVK := mf_GVK x; mf_Namespace := mf_Namespace x; mf_Name := mf_Name x;
    mf_Version := mf_Version x; mf_Owner := Some (owner_Name o); mf_Immutable := mf_Immutable x; mf_Body := mf_Body x |};
  Template := string; template_Parse := Ok; template_Execute t tv := Ok t;
  yaml_Decode text := Ok {| mf_GVK := {| gvk_Group := ""; gvk_Version := "v1"; gvk_Kind := "ConfigMap" |};
    mf_Namespace := "operator"; mf_Name := take 1 text; mf_Version := ""; mf_Owner := None; mf_Immutable := Some false;
    mf_Body := text |};
|}.

#[local] Existing Instance manifests.

#[local] Instance manifests_laws : ObjectsLaws manifests.
Proof.
  split; [done| |by intros o x x' [= <-]..]. intros v [] Hv. cbn in *. by subst.
Qed.

Definition cluster_state : Type := object_id → option manifest.

Definition store (x : manifest) (w : cluster_state) : cluster_state :=
  λ i, if decide (i = id_of x) then Some x else w i.

(** Creating gives the version 1, and an update has to name the version that is there. *)
Definition manifest_client : Client cluster_state := {|
  Client_Get g k w := (match w (g, k) with Some x => Ok x | None => Err (ApiError NotFound "not found") end, w);
  Client_Create x w := if String.eqb (mf_Version x) "" then (Ok (SetResourceVersion "1" x), store (SetResourceVersion "1" x) w)
                       else (Err (ApiError OtherReason "resourceVersion should not be set"), w);
  Client_Update x w :=
    match w (id_of x) with
    | Some old => if String.eqb (mf_Version x) (mf_Version old)
                  then (Ok (SetResourceVersion (mf_Version old +:+ "1") x), store (SetResourceVersion (mf_Version old +:+ "1") x) w)
                  else (Err (ApiError Conflict "the object has been modified"), w)
    | None => (Err (ApiError NotFound "not found"), w)
    end;
  Get_ConfigMap k w := (Err (ApiError NotFound "not found"), w);
  Get_NumberUnavailable k w := (Ok 0, w);
|}.

#[local] Existing Instance manifest_client.
#[local] Existing Instance retry_backoff.

Lemma derivative_refl {A} `{EqDecision A} (x : option A) : derivative x x = true.
Proof. destruct x; [|done]. by apply bool_decide_eq_true. Qed.

Lemma manifest_sent v x : DeepDerivative (SetResourceVersion "" x) (SetResourceVersion v x) = true.
Proof. cbn. by rewrite !derivative_refl, String.eqb_refl. Qed.

#[local] Instance manifest_client_laws : ClientLaws manifest_client.
Proof.
  refine (@Build_ClientLaws _ _ manifest_client (λ w, w) _ _ _ _ _ _).
  - by intros g k w r w' [= _ <-].
  - intros g k w x w'. cbn. destruct (w (g, k)); [by intros [= <- _]|done].
  - intros g k w e w'. cbn. by destruct (w (g, k)).
  - intros x w x' w'. cbn [Client_Create manifest_client]. destruct (String.eqb _ ""); [|done].
    intros [= <- <-]. split; [apply manifest_sent|done].
  - intros x w x' w'. cbn [Client_Update manifest_client]. destruct (w (id_of x)) as [old|]; [|done].
    destruct (String.eqb _ _); [|done]. intros [= <- <-]. split; [apply manifest_sent|done].
  - by intros k w r w' [= _ <-].
Defined.

Definition example_manifest (kind name body : string) (immutable : option bool) : manifest := {|
  mf_GVK := {| gvk_Group := ""; gvk_Version := "v1"; gvk_Kind := kind |}; mf_Namespace := "operator"; mf_Name := name;
  mf_Version := ""; mf_Owner := None; mf_Immutable := immutable; mf_Body := body |}.

Definition example_asset (l : list manifest) : Asset :=
  {| Path := "assets/200-daemon.yaml"; ConfigMapName := "daemon-config"; Retries := 30; substitutions := ∅; objects := l |}.

Definition example_manager : Manager :=
  {| Namespace := "operator"; EnvPrefix := "ETHERNET_"; m_Owner := Some {| owner_Name := "manager"; owner_Namespace := "operator" |} |}.

(** One object is there in another state, one is not there, one may not be changed. *)
Definition example_assets : list Asset :=
  [example_asset [example_manifest "ConfigMap" "a" "new" (Some false); example_manifest "DaemonSet" "b" "new" None];
   example_asset [example_manifest "ConfigMap" "c" "new" (Some true)]].

Definition example_cluster : cluster_state :=
  store (SetResourceVersion "7" (example_manifest "ConfigMap" "a" "old" (Some false)))
    (store (SetResourceVersion "8" (example_manifest "ConfigMap" "c" "old" (Some true))) (λ _, None)).

Definition deployed_cluster : cluster_state :=
  (Deploy example_manager example_assets example_cluster).2.


Lemma waitUntilReady_spec_witness :
  waitUntilReady (example_asset [example_manifest "DaemonSet" "b" "new" None]) (λ _, None) = (Ok tt, λ _, None).
Proof.
  apply (proj2 (waitUntilReady_spec (example_asset [example_manifest "DaemonSet" "b" "new" None]) (λ _, None))
           (example_manifest "DaemonSet" "b" "new" None)); by vm_compute.
Defined.

(** A proxy with an equals sign in its address. *)
Lemma buildTemplateVars_spec_witness :
  let w := {["HTTPS_PROXY" := "http://proxy:911/?key=1"]}%string : gmap string string in
  ∃ tv, @buildTemplateVars _ env_process "ETHERNET_" w = (Ok tv, w) ∧ tv !! "HTTPS_PROXY"%string = Some ""%string.
Proof.
  intros w. destruct (@buildTemplateVars_spec _ env_process "ETHERNET_" w ("/lib/firmware"%string, Some (Errorf "cannot read file %s")) w eq_refl)
    as (tv & Htv & _ & Hproxy).
  exists tv. split; [exact Htv|].
  apply (Hproxy "HTTPS_PROXY"%string "http://proxy:911/?key=1"%string); [done|reflexivity|vm_compute; reflexivity].
Defined.
