(* ===== verification/Startup.v ===== *)
(** * Entry points

    main.go, cmd/*/main.go, and the constructors they use: [NewNodeConfigReconciler] of
    pkg/fwddp-daemon/daemon.go and [NewSecureHttpsClient] of pkg/utils/utils.go. A program
    that gives up with [os.Exit(1)] ends in an error. Logging, schemes and the metrics of
    the manager are left out. *)

From S2P Require Import Prelude GoStrings GoPath Utils Process Inventory Labeler Dcf Assets.
From S2P Require Import DrainHelper Updaters Daemon.

Local Open Scope Z_scope.

(** ** Code outside the repository: controller-runtime, client-go and crypto *)

(** What is set up with the manager of a process. *)
Inductive component : Set :=
  | EthernetClusterConfigController
  | NodeFlowConfigWebhook
  | ClusterFlowConfigWebhook
  | FlowConfigNodeAgentDeploymentController (owner : option Owner)
  | ClusterFlowConfigController
  | NodeFlowConfigController (nodeName sysFs : string)
  | NodeConfigController (nodeName nodeNamespace : string).

(** [ctrl.Options]. *)
Record manager_options : Set := {
  MetricsBindAddress : string;
  HealthProbeBindAddress : string;
  LeaderElection : bool;
  opt_Namespace : string
}.

(** The fields of the webhook server that are set. *)
Record webhook_server : Set := { TLSMinVersion : string; CertDir : string; ClientCAName : string }.

Class Runtime (W : Type) : Type := {
  (** [ctrl.GetConfigOrDie]; the creation of a discovery client and its answer: the names
      of the API groups *)
  GetConfigOrDie : M W unit;
  NewDiscoveryClient : M W unit;
  ServerGroups : M W (list string);
  client_New : M W unit;
  clientset_NewForConfig : M W unit;
  Get_Deployment : NamespacedName → M W Owner;
  NewManager : manager_options → M W unit;
  SetupWithManager : component → M W unit;
  SetWebhookServer : webhook_server → M W unit;
  AddHealthzCheck : M W unit;
  AddReadyzCheck : M W unit;
  (** [mgr.Start]: returns when the process is told to stop *)
  Start : M W unit;
  (** crypto/x509 *)
  Certificate : Type;
  CertPool : Type;
  ParseCertificate : string → outcome Certificate;
  SystemCertPool : M W CertPool;
  AddCert : CertPool → Certificate → CertPool;
}.

(** ** main.go *)

Section operator.
Context {W : Type} `{!Process W} `{!Runtime W}.

Definition openshift_group : string := "route.openshift.io".

Definition setClusterType : M W unit :=
  wrapM "failed to create discoveryClient - %v" NewDiscoveryClient;;
  groups ← wrapM "issue occurred while fetching ServerGroups - %v" ServerGroups;
  wrapM "failed to set ETHERNET_GENERIC_K8S env variable - %v"
    (SetOsEnvIfNotSet "ETHERNET_GENERIC_K8S"
       (if existsb (λ name, String.eqb name openshift_group) groups then "false" else "true")).

Definition isRunningInPod : M W bool :=
  gets (λ w, match LookupEnv "KUBERNETES_SERVICE_HOST" w with Some _ => true | None => false end).

Definition serving_certs : string := "/tmp/k8s-webhook-server/serving-certs/".

(** The webhook server without and with mutual TLS; [path.Join] is [filepath.Join]. *)
Definition webhook_settings : M W webhook_server :=
  mtls ← Getenv "ENABLE_WEBHOOK_MTLS";
  if String.eqb mtls "true" then
    ca ← attempt (os_Stat "/etc/ieo-webhook/pki/ca.crt");
    let caPath := match ca with
                  | inr _ => "/etc/ieo-webhook/pki/ca.crt"
                  | inl _ => "/var/run/secrets/kubernetes.io/serviceaccount/ca.crt"
                  end%string in
    mret {| TLSMinVersion := "1.3"; CertDir := serving_certs; ClientCAName := filepath_Join ["../../../"%string; caPath] |}
  else mret {| TLSMinVersion := "1.3"; CertDir := ""; ClientCAName := "" |}.

Section deployment.
Context `{!Objects} `{!Backoff W} `{!Client W} `{!MapOrder}.

Definition new_asset (configMapName path : string) (retries : Z) : Asset :=
  {| Path := path; ConfigMapName := configMapName; Retries := retries; substitutions := ∅; objects := [] |}.

Definition assetsToDeploy : M W (list Asset) :=
  k8s ← IsK8sDeployment;
  mret ([new_asset "labeler-config" "assets/100-labeler.yaml" 0;
         new_asset "daemon-config" "assets/200-daemon.yaml" 30]
        ++ if (k8s : bool) then [] else [new_asset "machine-config" "assets/300-machine-config.yaml" 0]).

Definition deploy_assets (NAMESPACE : string) (owner : option Owner) : M W unit :=
  assets ← assetsToDeploy;
  let assetsManager := {| Namespace := NAMESPACE; EnvPrefix := IeoPrefix; m_Owner := owner |} in
  assets ← DeployConfigMaps assetsManager assets;
  LoadFromConfigMapAndDeploy assetsManager assets;;
  mret tt.

(** [metricsAddr], [probeAddr] and [enableLeaderElection] are flags; the namespace is read
    when the package is initialised. *)
Definition operator_main (metricsAddr probeAddr : string) (enableLeaderElection : bool) : M W unit :=
  NAMESPACE ← Getenv "ETHERNET_NAMESPACE";
  GetConfigOrDie;;
  setClusterType;;
  runningInK8s ← isRunningInPod;
  client_New;;
  owner ← (if (runningInK8s : bool)
           then o ← Get_Deployment (NAMESPACE, "intel-ethernet-operator-controller-manager"%string); mret (Some o)
           else mret None);
  NewManager {| MetricsBindAddress := metricsAddr; HealthProbeBindAddress := probeAddr;
                LeaderElection := enableLeaderElection; opt_Namespace := NAMESPACE |};;
  SetupWithManager EthernetClusterConfigController;;
  server ← webhook_settings;
  SetWebhookServer server;;
  webhooks ← Getenv "ENABLE_WEBHOOKS";
  (if negb (String.eqb webhooks "false")
   then SetupWithManager NodeFlowConfigWebhook;; SetupWithManager ClusterFlowConfigWebhook
   else mret tt);;
  SetupWithManager (FlowConfigNodeAgentDeploymentController owner);;
  SetupWithManager ClusterFlowConfigController;;
  AddHealthzCheck;;
  AddReadyzCheck;;
  (if (runningInK8s : bool) then deploy_assets NAMESPACE owner else mret tt);;
  Start.
End deployment.

(** ** cmd/flowconfig-daemon *)

Definition flowconfig_daemon_main `{!GrpcChannel W} `{!Backoff W} (sysFs metricsAddr : string) : M W unit :=
  namespace ← Getenv "OPERATOR_NAMESPACE";
  GetConfigOrDie;;
  NewManager {| MetricsBindAddress := metricsAddr; HealthProbeBindAddress := "";
                LeaderElection := false; opt_Namespace := namespace |};;
  nodeName ← Getenv "NODE_NAME";
  if String.eqb nodeName "" then throw (Errorf "unable to get K8s node name from ENV var NODE_NAME")
  else
    CheckClientReadiness;;
    SetupWithManager (NodeFlowConfigController nodeName sysFs);;
    Start.

(** ** The reconciler of the daemon *)

(** [tls.Config] of the transport; the default client has none. *)
Record tls_config : Type := { RootCAs : CertPool; RequireAndVerifyClientCert : bool }.

Definition NewSecureHttpsClient (cert : Certificate) : M W tls_config :=
  certPool ← wrapM "failed to get syscerts - %v" SystemCertPool;
  mret {| RootCAs := AddCert certPool cert; RequireAndVerifyClientCert := true |}.

Definition getTlsCert : M W (option Certificate) :=
  derBytes ← attempt (os_ReadFile "/etc/certificate/tls.crt");
  match derBytes with
  | inl _ => mret None
  | inr derBytes =>
      cert ← attempt (lift (ParseCertificate derBytes));
      mret (match cert with inl _ => None | inr cert => Some cert end)
  end.

(** The fields of [NodeConfigReconciler], and the map that [LoadConfig] assigns; one client
    is used for firmware and packages. *)
Record NodeConfigReconciler : Type := {
  r_compatibilityMap : CompatibilityMap;
  r_httpClient : option tls_config;
  r_drainHelper : drain_settings;
  r_nodeName : string;
  r_nodeNamespace : string
}.

Definition NewNodeConfigReconciler `{!Os W} (nodeName ns : string) : M W NodeConfigReconciler :=
  cmpMap ← LoadConfig;
  cert ← getTlsCert;
  httpClient ← (match cert with
                | Some cert => c ← NewSecureHttpsClient cert; mret (Some c)
                | None => mret None
                end);
  drainHelper ← NewDrainHelper;
  mret {| r_compatibilityMap := cmpMap; r_httpClient := httpClient; r_drainHelper := drainHelper;
          r_nodeName := nodeName; r_nodeNamespace := ns |}.

(** ** cmd/fwddp-daemon *)

Definition fwddp_daemon_main `{!Os W} `{!DaemonApi W} : M W unit :=
  nodeName ← Getenv "NODENAME";
  if String.eqb nodeName "" then throw (Errorf "NODENAME environment variable is empty")
  else
    ns ← Getenv "ETHERNET_NAMESPACE";
    if String.eqb ns "" then throw (Errorf "ETHERNET_NAMESPACE environment variable is empty")
    else
      GetConfigOrDie;;
      client_New;;
      clientset_NewForConfig;;
      NewManager {| MetricsBindAddress := "0"; HealthProbeBindAddress := "";
                    LeaderElection := false; opt_Namespace := ns |};;
      daemon ← NewNodeConfigReconciler nodeName ns;
      SetupWithManager (NodeConfigController (r_nodeName daemon) (r_nodeNamespace daemon));;
      CreateEmptyNodeConfigIfNeeded nodeName ns;;
      Start.
End operator.

(** ** cmd/labeler *)

(** The exit code. *)
Definition labeler_main {W} `{!Os W} `{!Process W} `{!LabelerApi W} `{!MapOrder} : M W Z :=
  found ← attempt DeviceDiscovery;
  mret (match found with inl _ => 1 | inr _ => 0 end).
