(* ===== verification/StartupSpec.v ===== *)
(** * What the programs start

    The type of the cluster and the assets that follow from it, the certificate authority of
    the webhook server, and what is set up when the manager of the operator starts. *)

From S2P Require Import Prelude GoStrings GoPath Utils Process Assets AssetsSpec Startup.

Local Open Scope Z_scope.

Definition generic_k8s : string := "ETHERNET_GENERIC_K8S".

(** ** Laws *)

(** What has been set up with the manager, and whether it was started. *)
Class Observed (W : Type) : Type := {
  setups : W → list component;
  started : W → bool;
}.

(** States that differ in nothing of this, nor in the environment. *)
Definition same `{!Observed W} `{!Process W} (w w' : W) : Prop :=
  setups w' = setups w ∧ started w' = started w ∧ ∀ k, LookupEnv k w' = LookupEnv k w.

(** A set-up that is refused does not count as a start, and nothing but set-ups and the
    start is seen. *)
Class ObservedLaws {W} (O : Observed W) `{HP : !Process W} `{HR : !Runtime W} `{HO : !Objects} `{HC : !Client W} : Prop := {
  SetupWithManager_done c w w' : SetupWithManager c w = (Ok tt, w') →
    setups w' = setups w ++ [c] ∧ started w' = started w ∧ ∀ k, LookupEnv k w' = LookupEnv k w;
  SetupWithManager_failed c w r w' : SetupWithManager c w = (r, w') → r ≠ Ok tt → started w' = started w;
  Start_setups w r w' : Start w = (r, w') → setups w' = setups w;
  Setenv_seen k v w r w' : Setenv k v w = (r, w') → setups w' = setups w ∧ started w' = started w;
  GetConfigOrDie_same w0 : preserves (same w0) GetConfigOrDie;
  NewDiscoveryClient_same w0 : preserves (same w0) NewDiscoveryClient;
  ServerGroups_same w0 : preserves (same w0) ServerGroups;
  client_New_same w0 : preserves (same w0) client_New;
  Get_Deployment_same w0 k : preserves (same w0) (Get_Deployment k);
  NewManager_same w0 o : preserves (same w0) (NewManager o);
  SetWebhookServer_same w0 s : preserves (same w0) (SetWebhookServer s);
  AddHealthzCheck_same w0 : preserves (same w0) AddHealthzCheck;
  AddReadyzCheck_same w0 : preserves (same w0) AddReadyzCheck;
  os_ReadFile_same w0 p : preserves (same w0) (os_ReadFile p);
  os_Stat_same w0 p : preserves (same w0) (os_Stat p);
  Client_Get_same w0 g k : preserves (same w0) (Client_Get g k);
  Client_Create_same w0 x : preserves (same w0) (Client_Create x);
  Client_Update_same w0 x : preserves (same w0) (Client_Update x);
  Get_ConfigMap_same w0 k : preserves (same w0) (Get_ConfigMap k);
  Get_NumberUnavailable_same w0 k : preserves (same w0) (Get_NumberUnavailable k);
}.

(** A call that is not seen. *)
Ltac unseen :=
  first [ apply GetConfigOrDie_same | apply NewDiscoveryClient_same | apply ServerGroups_same | apply client_New_same
        | apply Get_Deployment_same | apply NewManager_same | apply SetWebhookServer_same | apply AddHealthzCheck_same
        | apply AddReadyzCheck_same | apply os_ReadFile_same | apply os_Stat_same | apply Client_Get_same
        | apply Client_Create_same | apply Client_Update_same | apply Get_ConfigMap_same
        | apply Get_NumberUnavailable_same ].

(** Code that is made of such calls. *)
Ltac quiet :=
  repeat first
    [ unseen | apply preserves_bind; [|intros ?] | apply preserves_attempt | apply preserves_wrapM
    | apply preserves_lift | apply preserves_gets | apply preserves_ret | apply preserves_throw | apply preserves_panic
    | apply preserves_forM; intros ? _ | apply preserves_collectM; intros ? _
    | apply preserves_ExponentialBackoff; intros ? | case_match ].

(** ** The type of the cluster *)

Section cluster_type.
Context {W : Type} `{HP : !Process W} `{HPL : !ProcessLaws HP} `{HR : !Runtime W} `{HO : !Objects} `{HC : !Client W}.
Context `{HB : !Observed W} `{HOL : !ObservedLaws HB}.

(** The value the variable ends up with. *)
Definition cluster_type (preset : option string) (groups : list string) : string :=
  let preset := default ""%string preset in
  if String.eqb preset "" then (if bool_decide (openshift_group ∈ groups) then "false" else "true") else preset.

Lemma existsb_elem (groups : list string) name :
  existsb (λ x, String.eqb x name) groups = bool_decide (name ∈ groups).
Proof.
  apply eq_bool_prop_intro. rewrite bool_decide_spec, Is_true_true, existsb_exists. split.
  - intros (x & Hin & ->%String.eqb_eq). by apply list_elem_of_In.
  - intros Hin. exists name. split; [by apply list_elem_of_In|apply String.eqb_refl].
Qed.

Lemma SetOsEnvIfNotSet_env key value w w' :
  SetOsEnvIfNotSet key value w = (Ok tt, w') →
  (∀ k, k ≠ key → LookupEnv k w' = LookupEnv k w)
  ∧ default ""%string (LookupEnv key w')
    = if String.eqb (default ""%string (LookupEnv key w)) "" then value else default ""%string (LookupEnv key w).
Proof.
  unfold SetOsEnvIfNotSet, Getenv, mbind, M_bind, gets.
  destruct (String.eqb_spec (default ""%string (LookupEnv key w)) "") as [Hunset|Hset]; cbn [negb].
  - intros Hrun. pose proof (Setenv_done _ _ _ _ Hrun) as Henv. split.
    + intros k Hk. rewrite Henv. by destruct (String.eqb_spec k key).
    + by rewrite Henv, String.eqb_refl.
  - intros [= <-]. done.
Qed.

(** C35 When the type of the cluster was determined, a variable that was set to something
    keeps its value; else it says [false] exactly when the API server has the groups of
    OpenShift. As long as it keeps that value, the assets to deploy are the labeler and the
    daemon, and the machine configuration exactly when the variable does not say [true] (in
    any case of its letters). *)
Theorem cluster_type_decides_assets w w' :
  setClusterType w = (Ok tt, w') →
  ∃ groups w1 w2, ServerGroups w1 = (Ok groups, w2)
    ∧ let value := cluster_type (LookupEnv generic_k8s w) groups in
      default ""%string (LookupEnv generic_k8s w') = value ∧ value ≠ ""%string
      ∧ ∀ w3, LookupEnv generic_k8s w3 = LookupEnv generic_k8s w' →
          ∃ assets, assetsToDeploy w3 = (Ok assets, w3)
            ∧ ConfigMapName <$> assets
              = ["labeler-config"; "daemon-config"]%string
                ++ (if is_true_text value then [] else ["machine-config"%string]).
Proof.
  unfold setClusterType. intros Hrun. unfold mbind, M_bind, wrapM in Hrun.
  destruct (NewDiscoveryClient w) as [[[]|e|] w1] eqn:Hnew; [|done..]. cbn [wrap] in Hrun.
  pose proof (NewDiscoveryClient_same w w ltac:(done)) as (_ & _ & Henv1). rewrite Hnew in Henv1. cbn in Henv1.
  destruct (ServerGroups w1) as [[groups|e|] w2] eqn:Hgroups; [|done..]. cbn [wrap] in Hrun.
  pose proof (ServerGroups_same w1 w1 ltac:(done)) as (_ & _ & Henv2). rewrite Hgroups in Henv2. cbn in Henv2.
  rewrite existsb_elem in Hrun.
  destruct (SetOsEnvIfNotSet _ _ w2) as [[[]|e|] w3] eqn:Hset; [|done..]. injection Hrun as <-.
  apply SetOsEnvIfNotSet_env in Hset as [_ Hset]. fold generic_k8s in Hset. rewrite Henv2, Henv1 in Hset.
  exists groups, w1, w2. split; [exact Hgroups|]. cbv zeta.
  assert (Hvalue : default ""%string (LookupEnv generic_k8s w3) = cluster_type (LookupEnv generic_k8s w) groups).
  { exact Hset. }
  split_and!; [exact Hvalue| |].
  - unfold cluster_type. destruct (String.eqb_spec (default ""%string (LookupEnv generic_k8s w)) "") as [|Hne];
      [by case_bool_decide|exact Hne].
  - intros w4 Hw4. rewrite <- Hvalue. eexists. split; [unfold assetsToDeploy, IsK8sDeployment, Getenv; unfold_state; reflexivity|].
    change (IeoPrefix +:+ "GENERIC_K8S") with generic_k8s. rewrite Hw4. by destruct (is_true_text _).
Qed.

(** The webhook server never speaks less than TLS 1.3; with mutual TLS, the name of the
    authority, taken from the directory of the certificates, is the mounted authority when
    that is there, and otherwise the one of the service account. *)
Theorem webhook_settings_spec w :
  let mtls := default ""%string (LookupEnv "ENABLE_WEBHOOK_MTLS" w) in
  ∀ s w', webhook_settings w = (Ok s, w') →
    TLSMinVersion s = "1.3"%string
    ∧ (mtls = "true"%string →
         filepath_Join [CertDir s; ClientCAName s]
         = match (os_Stat "/etc/ieo-webhook/pki/ca.crt" w).1 with
           | Ok _ => "/etc/ieo-webhook/pki/ca.crt"
           | _ => "/var/run/secrets/kubernetes.io/serviceaccount/ca.crt"
           end%string)
    ∧ (mtls ≠ "true"%string → CertDir s = ""%string ∧ ClientCAName s = ""%string).
Proof.
  intros mtls s w'. unfold webhook_settings, Getenv. unfold mbind at 1, M_bind at 1, gets at 1. fold mtls.
  destruct (String.eqb_spec mtls "true") as [Ht|Ht].
  - unfold mbind, M_bind, attempt. destruct (os_Stat _ w) as [[mode|e|] w1]; intros [= <- <-]; by split_and!.
  - by intros [= <- <-].
Qed.
End cluster_type.

(** ** What the operator sets up *)

Section operator.
Context {W : Type} `{HP : !Process W} `{HPL : !ProcessLaws HP} `{HR : !Runtime W} `{HO : !Objects} `{HC : !Client W}.
Context `{HB : !Observed W} `{HOL : !ObservedLaws HB} `{HBo : !Backoff W} `{HBL : !BackoffLaws HBo} `{HM : !MapOrder}.

Lemma same_refl w : same w w.
Proof. done. Qed.

Lemma same_trans w w1 w2 : same w w1 → same w1 w2 → same w w2.
Proof. intros (H1 & H2 & H3) (H4 & H5 & H6). split_and!; [congruence..|]. intros k. by rewrite H6. Qed.

(** On the way: what is set up so far, not started, and the environment of the beginning but
    for the type of the cluster. *)
Definition on_the_way (w0 : W) (l : list component) (w : W) : Prop :=
  setups w = l ∧ started w = false ∧ ∀ k, k ≠ generic_k8s → LookupEnv k w = LookupEnv k w0.

Definition not_started (w : W) : Prop := started w = false.

Lemma ensures_quiet {A} (m : M W A) w0 l w :
  (∀ w1, preserves (same w1) m) → on_the_way w0 l w →
  ensures m w (λ _ w', on_the_way w0 l w') not_started.
Proof.
  intros Hm (Hs & Hn & He). pose proof (Hm w w (same_refl w)) as (H1 & H2 & H3).
  unfold ensures, not_started, on_the_way. destruct (m w) as [[a|e|] w']; cbn in *; [|congruence..].
  split_and!; [congruence..|]. intros k Hk. rewrite H3. by apply He.
Qed.

Lemma ensures_setup c w0 l w :
  on_the_way w0 l w → ensures (SetupWithManager c) w (λ _ w', on_the_way w0 (l ++ [c]) w') not_started.
Proof.
  intros (Hs & Hn & He). unfold ensures, not_started, on_the_way.
  destruct (SetupWithManager c w) as [[[]|e|] w'] eqn:Hrun.
  - apply SetupWithManager_done in Hrun as (H1 & H2 & H3). split_and!; [congruence..|].
    intros k Hk. rewrite H3. by apply He.
  - by rewrite (SetupWithManager_failed _ _ _ _ Hrun).
  - by rewrite (SetupWithManager_failed _ _ _ _ Hrun).
Qed.

Lemma ensures_gets {A} (f : W → A) (w : W) (Q : A → W → Prop) R : Q (f w) w → ensures (gets f) w Q R.
Proof. done. Qed.

Lemma ensures_setClusterType w0 l w :
  on_the_way w0 l w → ensures setClusterType w (λ _ w', on_the_way w0 l w') not_started.
Proof.
  intros Hw. apply ensures_bind. eapply ensures_mono; [apply (ensures_quiet _ w0 l); [intros w1; quiet|done]| |done].
  intros [] w1 H1. apply ensures_bind. eapply ensures_mono; [apply (ensures_quiet _ w0 l); [intros w2; quiet|done]| |done].
  intros groups w2 H2. unfold ensures, wrapM.
  destruct (SetOsEnvIfNotSet _ _ w2) as [o w3] eqn:Hset. destruct H2 as (Hs & Hn & He).
  assert (Hseen : setups w3 = setups w2 ∧ started w3 = started w2).
  { unfold SetOsEnvIfNotSet, Getenv, mbind, M_bind, gets in Hset.
    destruct (negb _); [by injection Hset as _ <-|by eapply Setenv_seen]. }
  destruct Hseen as [Hs3 Hn3]. destruct o as [[]|e|]; cbn; unfold not_started; [|congruence..].
  apply SetOsEnvIfNotSet_env in Hset as [Hkeep _]. split_and!; [congruence..|].
  intros k Hk. rewrite Hkeep by done. by apply He.
Qed.

Lemma deploy_assets_quiet NAMESPACE owner w1 : preserves (same w1) (deploy_assets NAMESPACE owner).
Proof.
  unfold deploy_assets, assetsToDeploy, IsK8sDeployment, Getenv, DeployConfigMaps, LoadFromConfigMapAndDeploy,
    LoadFromFile, LoadFromConfigMap, Deploy, loadFromFile, loadFromConfigMap, buildTemplateVars, GetFwSearchPath,
    createOrUpdate, createOrUpdate_object, waitUntilReady, daemonset_ready.
  quiet.
Qed.

(** All that an operator sets up; the webhooks can be turned off. *)
Definition all_components (webhooks : option string) (owner : option Owner) : list component :=
  [EthernetClusterConfigController]
  ++ (if String.eqb (default ""%string webhooks) "false" then [] else [NodeFlowConfigWebhook; ClusterFlowConfigWebhook])
  ++ [FlowConfigNodeAgentDeploymentController owner; ClusterFlowConfigController].

(** One call on the way to the start. *)
Ltac on_the_way :=
  apply ensures_bind; eapply ensures_mono;
  [ first [apply ensures_setup | apply ensures_setClusterType | eapply ensures_quiet; [intros ?; quiet|]]; eassumption
  | intros ? ? ?; cbn beta in * | first [done | by intros ? Hno Hyes; unfold not_started in Hno; congruence] ].

(** Only in a pod the deployment of the operator is asked for. *)
Lemma ensures_owner k (pod : bool) w0 l w :
  on_the_way w0 l w →
  ensures (if pod then o ← Get_Deployment k; mret (Some o) else mret None) w
    (λ owner w', on_the_way w0 l w' ∧ (is_Some owner ↔ pod = true)) not_started.
Proof.
  intros Hw. destruct pod; [|split; [done|]; split; [by intros [x Hx]|done]].
  on_the_way. split; [done|]. by split.
Qed.

Lemma ensures_webhooks webhooks w0 l w :
  on_the_way w0 l w →
  ensures (if negb (String.eqb webhooks "false")
           then SetupWithManager NodeFlowConfigWebhook;; SetupWithManager ClusterFlowConfigWebhook
           else mret tt) w
    (λ _, on_the_way w0 (l ++ if String.eqb webhooks "false" then [] else [NodeFlowConfigWebhook; ClusterFlowConfigWebhook]))
    not_started.
Proof.
  intros Hw. destruct (String.eqb webhooks "false"); cbn [negb]; [by rewrite app_nil_r|].
  on_the_way. change [NodeFlowConfigWebhook; ClusterFlowConfigWebhook] with ([NodeFlowConfigWebhook] ++ [ClusterFlowConfigWebhook]).
  rewrite app_assoc. by apply ensures_setup.
Qed.

Lemma ensures_deployed (pod : bool) NAMESPACE owner w0 l w :
  on_the_way w0 l w →
  ensures (if pod then deploy_assets NAMESPACE owner else mret tt) w
    (λ _ w', on_the_way w0 l w' ∧ (pod = true → ∃ w1 w2, deploy_assets NAMESPACE owner w1 = (Ok tt, w2))) not_started.
Proof.
  intros Hw. destruct pod; [|done].
  pose proof (ensures_quiet _ w0 l w (deploy_assets_quiet NAMESPACE owner) Hw) as Hq. unfold ensures in *.
  destruct (deploy_assets NAMESPACE owner w) as [[[]|e|] w'] eqn:Hrun; [|done..]. split; [done|]. by exists w, w'.
Qed.

End operator.

(** ** A process in a pod of an OpenShift cluster *)

Record pod_state : Type := { pod_env : gmap string string; pod_setups : list component; pod_started : bool }.

Definition pod_process : Process pod_state := {|
  LookupEnv key w := pod_env w !! key;
  Environ w := (λ kv, kv.1 +:+ "=" +:+ kv.2) <$> map_to_list (pod_env w);
  Setenv key value w := (Ok tt, {| pod_env := <[key := value]> (pod_env w); pod_setups := pod_setups w; pod_started := pod_started w |});
  os_ReadFile path w := (Ok "kind: ConfigMap"%string, w);
  os_Stat path w := (Ok 420, w);
|}.

Definition pod_runtime : Runtime pod_state := {|
  GetConfigOrDie := mret tt; NewDiscoveryClient := mret tt;
  ServerGroups := mret ["apps"; "route.openshift.io"]%string;
  client_New := mret tt; clientset_NewForConfig := mret tt;
  Get_Deployment k := mret {| owner_Name := k.2; owner_Namespace := k.1 |};
  NewManager o := mret tt;
  SetupWithManager c := modify (λ w, {| pod_env := pod_env w; pod_setups := pod_setups w ++ [c]; pod_started := pod_started w |});
  SetWebhookServer s := mret tt; AddHealthzCheck := mret tt; AddReadyzCheck := mret tt;
  Start := modify (λ w, {| pod_env := pod_env w; pod_setups := pod_setups w; pod_started := true |});
  Certificate := string; CertPool := list string; ParseCertificate := Ok;
  SystemCertPool := mret []; AddCert pool c := c :: pool;
|}.

Definition pod_client : @Client pod_state manifests := {|
  Client_Get g k w := (Err (ApiError NotFound "not found"), w);
  Client_Create x w := (Ok x, w);
  Client_Update x w := (Ok x, w);
  Get_ConfigMap k w := (Ok {["object"%string := "kind: DaemonSet"%string]}, w);
  Get_NumberUnavailable k w := (Ok 0, w);
|}.

Definition pod_observed : Observed pod_state := {| setups := pod_setups; started := pod_started |}.

#[local] Existing Instances pod_process pod_runtime manifests pod_client pod_observed retry_backoff listed_order.

#[local] Instance pod_process_laws : ProcessLaws pod_process.
Proof.
  split.
  - intros key value w w' [= <-] k. cbn. destruct (String.eqb_spec k key) as [->|];
      [by rewrite lookup_insert_eq|by rewrite lookup_insert_ne].
  - intros key value w r w' [= <- <-]. done.
Qed.

#[local] Instance pod_observed_laws : ObservedLaws pod_observed.
Proof.
  split; try (intros; intros w' Hw'; exact Hw').
  - by intros c w w' [= <-].
  - by intros c w r w' [= <- <-].
  - by intros w r w' [= _ <-].
  - by intros k v w r w' [= _ <-].
Qed.

Definition pod_start : pod_state :=
  {| pod_env := <["KUBERNETES_SERVICE_HOST" := "10.0.0.1"]> {["ETHERNET_NAMESPACE" := "operator"]}; pod_setups := []; pod_started := false |}%string.


Lemma cluster_type_decides_assets_witness :
  ∃ assets, (assetsToDeploy (setClusterType pod_start).2).1 = Ok assets
    ∧ ConfigMapName <$> assets = ["labeler-config"; "daemon-config"; "machine-config"]%string.
Proof.
  destruct (setClusterType pod_start) as [r w'] eqn:Hrun.
  assert (Hr : r = Ok tt) by (change r with (r, w').1; rewrite <- Hrun; reflexivity). subst r.
  destruct (cluster_type_decides_assets pod_start w' Hrun) as (groups & w1 & w2 & Hgroups & Hvalue & _ & Hassets).
  injection Hgroups as <- _. destruct (Hassets w' eq_refl) as (assets & Hrun' & Hnames).
  exists assets. cbn [snd]. rewrite Hrun'. split; [done|]. exact Hnames.
Defined.

Lemma webhook_settings_spec_witness :
  ∃ s, TLSMinVersion s = "1.3"%string ∧ filepath_Join [CertDir s; ClientCAName s] = "/etc/ieo-webhook/pki/ca.crt"%string.
Proof.
  set (w := {| pod_env := {["ENABLE_WEBHOOK_MTLS" := "true"]}; pod_setups := []; pod_started := false |}%string).
  destruct (webhook_settings w) as [r w'] eqn:Hrun.
  assert (Hr : ∃ s, r = Ok s) by (change r with (r, w').1; rewrite <- Hrun; eexists; reflexivity). destruct Hr as [s ->].
  exists s. destruct (webhook_settings_spec w s w' Hrun) as (Htls & Hca & _). split; [exact Htls|]. by apply Hca.
Defined.
